(* ===== verification/_CoqProject ===== *)
-Q . S2P
Prelude.v
Utf8.v
Domain.v
Schema.v
Tx.v
Wp.v
TenantRepo.v
EventStores.v
MembershipRepo.v
RoleRepo.v
DeptMembershipRepo.v
TenantDepartmentRepo.v
DeptRoleLabelRepo.v
InvitationRepo.v
CacheKeys.v
Json.v
CatalogService.v
Consumer.v
MembershipService.v
InvitationService.v
DeptMembershipService.v
ProvisioningService.v
TenantService.v
ReadModels.v
AuthzService.v
OperatorService.v
DepartmentService.v
GroupMappingService.v
CatalogConsumer.v
Jobs.v
EventBus.v
Pipeline.v
Wire.v
JsonParse.v
Cursor.v
Http.v
HttpDto.v
HttpHandlers.v
InternalHandlers.v
Router.v
Clients.v
Startup.v
Valkey.v
Metrics.v
Server.v
Boot.v
AsyncApi.v
Demo.v
LifecycleSpec.v
LifecycleWitness.v
MembershipSpec.v
RolesSpec.v
MembershipWitness.v
InvitationSpec.v
InvitationWitness.v
DeptSpec.v
TextSpec.v
ProvisioningSpec.v
PaginationSpec.v
AcceptSpec.v
TenancyWitness.v
AuthzSpec.v
CacheSpec.v
ValkeySpec.v
SettingsSpec.v
JobsSpec.v
GroupsSpec.v
OwnersSpec.v
EventBusSpec.v
PipelineSpec.v
CursorSpec.v
JsonSpec.v
ClientsSpec.v
ServerSpec.v
HttpSpec.v
MembersSpec.v
HttpWitness.v
SettingsWitness.v
EdgeWitness.v
