(* ===== verification/Prelude.v ===== *)
(** * A verification development for iam-org-membership

    The program is a Go service that owns the tenants of a multi-tenant
    product: who belongs to a tenant, which elevated roles and department roles
    a member has, the pending invitations, and the tenant's subscription
    lifecycle.  It serves HTTP requests through a service layer
    ([internal/core/service]), keeps its state in PostgreSQL through
    repositories ([internal/adapter/outbound/postgres]), publishes domain events
    through a transactional outbox, and consumes lifecycle and billing events
    of other services ([internal/adapter/inbound/consumer]).  All cross-table
    guarantees rest on transactions: a service method checks its preconditions,
    opens a transaction through [TxRunner.RunInTx], locks the tenant row when an
    invariant of the tenant is at stake, writes, enqueues its events and
    commits.

    ** Files and the code they model

    - [Prelude]: results, tables as lists of rows, and the lemmas about them.
    - [Utf8]: Go's view of a string as runes ([utf8.RuneCountInString], [range]).
    - [Domain]: [internal/core/domain]: entities, value objects, the error
      catalogue, the event types and payloads.
    - [Schema]: the database: one list of rows per table, the CHECK constraints,
      unique indexes, foreign keys and the [touch_row] trigger of
      the SQL migrations.
    - [Tx]: the world an operation runs in, the monad [M], [RunInTx] and
      [withPool] ([db.go]), the outbox ([eventbus/publisher.go]), and the class
      [Env] of everything that is not this repository's code.
    - [Wp]: a weakest-precondition calculus for [M], with rules for running
      alone, for transactions under a rely condition, and for best-effort steps.
    - [TenantRepo], [EventStores], [MembershipRepo], [RoleRepo],
      [DeptMembershipRepo], [TenantDepartmentRepo], [DeptRoleLabelRepo],
      [InvitationRepo], [ReadModels]: the repositories, one definition per method,
      named as in the Go code.
    - [CacheKeys]: [cache_keys.go] and the eviction idiom.
    - [Json]: JSON values and [encoding/json]'s text of them; times as text.
    - [CatalogService]: the cached catalog of departments and plans, and the
      class [CatalogReader] its clients are written against.
    - [Consumer], [CatalogConsumer]: [membership_event_consumer.go], [dedup.go]
      and [catalog_consumer.go]: the whole of each [Handle], the projection of
      each event, and the replay of parked events.
    - [MembershipService], [InvitationService], [DeptMembershipService],
      [ProvisioningService], [TenantService], [AuthzService] (with the session
      context), [OperatorService], [DepartmentService] (with the role labels),
      [GroupMappingService]: the services of the same names.
    - [Jobs]: [cmd/reconciler]: the sweeps, each as one run.
    - [EventBus]: [adapter/outbound/eventbus]: the Glue wire format, the schema
      versions and the routing of a batch to the two topics.
    - [Pipeline]: [adapter/inbound/sqspipeline] and [validating_codec.go]: the
      validation of a delivered message, the permanent rejects and their
      dead-lettering, around a consumer's [Handle].
    - [Wire], [JsonParse], [Cursor]: enums and service values as JSON, a JSON
      parser and the value [encoding/json] decodes a text to, base64 and the
      cursor of the member list.
    - [Http]: [middleware.go], [path_tenant.go] and [pkg/requestctx]: a request,
      its context, the middlewares and the mapping of errors to problems.
    - [HttpDto], [HttpHandlers], [InternalHandlers]: [dto.go] and the handlers;
      [Router]: [router.go], every route with its chain, dispatch and probes.
    - [Clients]: the seven [adapter/outbound/*/http_client.go] and [httpx]: the
      request each method sends, what it makes of the answer, and the
      environment [clients_env] in which the services call through them.
    - [Startup]: what the processes read from their environment: the helpers and
      [validateRequiredEnv] of [cmd/server/main.go], [identity.go], the
      constructors of the clients, the pools of [db.go], [migrate.go] and
      [cmd/migrate].
    - [Valkey]: [valkey/cache.go] over the class [RedisClient] of go-redis's
      commands, and the key names.
    - [Metrics]: [metrics/business.go] and [metrics/registry.go]: the collectors,
      the helpers, what exists from the start, the registry of shared names.
    - [Server]: [main] of [cmd/server] (the consumers on their queues, the
      publishers of [wiring.go], the services' settings, readiness, shutdown),
      [consumer_heartbeat.go], [exporters.go], and [run] of [cmd/reconciler].
    - [Boot]: both processes from the first check to their end: what is built in
      which order, what a panic or an early return leaves behind, and the
      deferred functions; [server_start] is [main] up to the wait for a signal,
      [reconciler_main] is [run].
    - [AsyncApi]: [asyncapi.go], [docs.go] and [registerDocsRoutes]: the page of
      the event catalogue, as pieces of text that are literal, escaped or raw,
      and the routes of the documentation.
    - [LifecycleSpec], [MembershipSpec], [RolesSpec], [InvitationSpec],
      [AcceptSpec], [DeptSpec], [ProvisioningSpec], [TextSpec], [PaginationSpec],
      [AuthzSpec], [CacheSpec], [ValkeySpec], [SettingsSpec],
      [JobsSpec], [GroupsSpec], [OwnersSpec], [EventBusSpec], [PipelineSpec],
      [CursorSpec], [JsonSpec], [ClientsSpec], [ServerSpec],
      [HttpSpec], [MembersSpec]: the theorems.
    - [Demo], [LifecycleWitness], [MembershipWitness], [InvitationWitness],
      [TenancyWitness], [SettingsWitness], [HttpWitness], [EdgeWitness]: an
      environment in which every collaborator answers, and each theorem with hypotheses applied
      to a concrete database, batch or request.

    ** How the code is modelled

    An operation is a function [M A := World -> result error A * World].  The
    world holds the database, the read cache, the calls made to other services,
    the process's clock, the open transaction's [now()], a counter for generated
    uuids, and a schedule of the attempts of transactions.  A Go [error] is a
    value: a domain error with its sentinel and details, a PostgreSQL error, a
    wrapped or plain error; [errors.Is] and [errors.As] are functions on it.
    Early returns are [throw_if] or a match on the result; a [for] loop is
    [for_each] or [for_fold].  An [UPDATE] or [INSERT] is a function on the
    table that can fail with the constraint it violates.

    Concurrency is at the grain of transactions.  Each attempt consumes an entry
    of the schedule: what other transactions did to the database since, the
    transaction's [now()], and the error the commit fails with, if any.  A
    deadlock or a serialization failure is retried, three attempts in all, and
    variables the closure captures keep what a failed attempt wrote to them
    ([RunInTx_captured]).  That runner is a library the sources only call: of it
    the model takes what the callers rely on, that a failed attempt leaves
    nothing behind and a committed one all of it, as given, and proves nothing
    about it.  Interleaving between the statements of one
    transaction is not modelled: the tenant-row lock the code takes is what
    serialises them.  Theorems with the hypothesis [alone] are about a database
    nothing else writes to during the call; the others hold for every schedule,
    or for every one whose other transactions keep a relation the theorem names
    ([rely]).

    The services other than this one (realm provisioner, workflow, token,
    delegation, catalog, group mapping), the schema codec of the event bus, the
    cache and the inbox store are parameters ([Env], [InboxStore]); an answer may
    differ from call to call.  [clients_env] replaces the answers of those
    services by their HTTP clients over a network [net] that may answer anything
    at each call.  The cache is the store the services see: a call may go
    unanswered ([cache_up]), a write that did may have happened all the same
    ([cache_late]), an entry may have expired ([cache_kept]); [ValkeySpec] shows
    that the adapter over any client with the laws of [RedisLaws] is such a
    store.  An audit entry is handed to a goroutine nobody waits for, so it is
    recorded among the calls ([CallWriteEntry]) and has no answer.  A compiled
    JSON schema and the publisher of the dead-letter
    queue are arguments of [Pipeline].  A map's iteration order is a parameter too
    ([map_order]).  Stated as hypotheses where they are used: [codec_schemas] (the
    codec accepts exactly the payloads that fit the JSON schema of their event
    type, [schema_valid] of [Domain], which refuses for one the TenantCreated of a
    three-character slug), [distinct_uuids] and the freshness of generated ids.
    The inbox store takes an event id that is a uuid; on any other it fails before
    it claims anything ([inbox_contract]).

    The environment of a process is a function from names to values.  A panic at
    start-up is an error; the libraries' constructors, the migration runner, the
    publishers behind a topic and the server's data of a Redis are arguments.
    Shutdown is a program of actions in sequence and in parallel, with the orders
    it allows as a relation ([happens]).  Starting is a program in a monad of its
    own ([Boot]): a step ends with a value or ends the process, and the state is
    what happened so far with the functions deferred.

    A handler is a function of a context: the request, the caller and the
    database settings the middlewares put there.  A middleware wraps a handler,
    a route is a method, a path and a list of middlewares, and [dispatch] runs
    the chain and then the endpoint with the caller of the context.  The gin
    library and the platform's gincommon are parameters: what its protected
    middlewares refuse ([hc_protected]), the outcome of binding a body (a value
    or an error), whether the request's own context has ended ([rq_Done]).  An
    error gincommon renders itself is the response [RFromError].  [time.Parse]
    on what its RFC 3339 fast path does not read is [hc_time_Parse].

    Timestamps are microseconds in [Z] and uuids are [Z]; integers written to
    an [int] column are range-checked as the database does.  [strings.ToLower],
    [strings.TrimSpace] and [citext] equality are modelled on ASCII.  A [LIMIT]
    without [ORDER BY] takes rows in table order.  Definitions by fuel, and what
    is enough: the clients that follow the pages of the member list
    ([collect] of [PaginationSpec], [browse] of [MembersSpec]: the theorem gives
    the number of requests), [prune_until] (more than the expired entries, in
    the theorem), [duration_sum] (the length of the text, [duration_sum_enough]), the loops over a string ([rune_count], [ascii_escape],
    [unquote]: its length), the JSON parser (two units per byte,
    [parse_enough]: more changes no answer), and [resolveSchema]
    ([resolveSchema_total]: some fuel is enough, and more changes nothing, when
    the references of the schemas do not run in a circle;
    [resolveSchema_cycle]: in a circle no fuel is, as the code then recurses for
    ever).

    ** What the theorems show

    - Lifecycle (C1, C2, C4, C5, C8): handling an event refines an abstract
      state machine of a tenant's subscription; stale events, and redelivered ones
      of every type (in [PipelineSpec]); exactly when an event is acknowledged,
      the lookup and the id it needs included; the completeness of the GDPR wipe.
    - Messages (C3): what is dead-lettered, and why nothing else changes.
    - The deployed server: about what [server_start] returns, a plan change fails
      closed from the start-up check down to the answer on the network (C6), a
      message acknowledged by any of the three consumers was recorded or
      dead-lettered, DepartmentCatalogChanged apart (C7), and a catalog message
      retires what was cached before it (C34); no setting makes an invitation
      succeed (C17); nothing works before the pools, the schema and the cache, and
      whatever was opened is closed in reverse, however start-up ends (C31).
      Beside them: [start_started] (what a started server is made of),
      [production_publishers] (every event leaves through its own topic with a
      resolved schema version), [readyz_sees_consumers], [docs_guarded],
      [reconciler_exit], [reconciler_main_status],
      [reconciler_cleans_and_pushes], [shutdown_order], [shutdown_budget].
    - The wire: [Decode_text] and [CatalogDepartments_round_trip] show that the
      clients read back the JSON that is printed.
    - Members (C9 to C13): removal, suspension and role reconciliation on every
      branch; through any history of the operations that write roles, but for I-5
      and the deletion of a tenant, a tenant keeps an owner grant; how a tenant
      can still lose its last active owner.
    - Authorization (C14, C20): the membership projection, from the joined rows
      and from the service.
    - Invitations (C15, C18, C32, C40): the seat cap under any schedule, the seat
      race lost inside the transaction, accepting an invitation, and a redelivered
      registration.
    - The cache adapter (C19): it refines the store the services use;
      [keys_distinct]: no two entries share a key.
    - HTTP (C16, C22, C25, C29): who may write through which route, under any
      schedule; exactly which requests a tenant-facing and an internal route let
      through, and with which tenant; the round trip of the cursor.
    - Departments (C21, C23): assignment and eligibility.
    - Provisioning (C24, C26 to C28): signup, the slugs it fails on included, one
      trial per address, identity-driven removal, and the slug format against the
      one of the event schema.
    - C30: browsing the members over HTTP, page by page, gives each live member
      once and ends.
    - Settings (C33): a tenant's settings on every branch.
    - Sweeps (C35, C36): the ledger prune drains; the overage markers.
    - Groups (C37): assignment from groups only adds roles and memberships, and
      sets the mapped levels.
    - Events (C38, C39): the wire format's round trip; no message is lost by the
      routing of a batch.
    - Metrics ([metrics_never_panic], [parkable_types]): no helper gives a
      collector a wrong number of labels; the lists of event types agree with
      what the consumer does; [registry_written]: the registered shared names
      exist, and of them the helpers only ever write the dependency calls.
    - The event catalogue: [page_escapes] with [EscapeString_safe] (nothing of the
      specification but message and schema names reaches the page unescaped),
      [directions_partition], [table_rows], [AsyncAPIHandler_answers].

    ** What is not modelled

    Enforcement of row-level security (the settings the requests put in the
    context are modelled, PostgreSQL's use of them is not), logging and tracing.
    Where the services and handlers call a metric helper is left out of their
    models.  The SQS runner that polls the queues, the outbox runner and the
    migration runner are library code, as are connections, AWS clients and
    listeners; a request's deadline and the timeouts of the outbound clients are
    read ([timeouts_from_env]) but what cuts a call short is one of the answers
    the network may give.  Of the documentation the style sheet and
    script of the catalogue page are arguments of [renderPage], the decoder of
    the YAML text is an argument of its handler, and the constant texts of
    [swagger_theme.go], [swagger_initializer.go] and the generated
    [docs/swagger] are left out. *)

From stdpp Require Export base tactics decidable option list strings gmap sorting.
From Stdlib Require Export ZArith Lia.
From stdpp Require Import options.
Open Scope Z_scope.

(** ** Results *)

(** A Go call returning [(T, error)] is a [result]: either the value or the
    error, never both. *)
Inductive result (E A : Type) : Type :=
| Ok (a : A)
| Err (e : E).
Arguments Ok {E A} a.
Arguments Err {E A} e.

Definition is_ok {E A} (r : result E A) : bool :=
  match r with Ok _ => true | Err _ => false end.

Definition result_map {E A B} (f : A → B) (r : result E A) : result E B :=
  match r with Ok a => Ok (f a) | Err e => Err e end.

(** ** Tables as lists

    A table is a list of rows.  [WHERE] clauses are boolean predicates. *)

(** [SELECT ... WHERE p] (first row, as [QueryRow] returns). *)
Definition select_first {A} (p : A → bool) (l : list A) : option A :=
  List.find p l.

(** [SELECT ... WHERE p]. *)
Definition select {A} (p : A → bool) (l : list A) : list A :=
  List.filter p l.

(** [SELECT count( * ) ... WHERE p], as a Go int. *)
Definition count {A} (p : A → bool) (l : list A) : Z :=
  Z.of_nat (length (List.filter p l)).

(** [UPDATE ... SET f WHERE p]. *)
Definition update_where {A} (p : A → bool) (f : A → A) (l : list A) : list A :=
  List.map (λ x, if p x then f x else x) l.

(** [DELETE ... WHERE p]. *)
Definition delete_where {A} (p : A → bool) (l : list A) : list A :=
  List.filter (λ x, negb (p x)) l.

(** [EXISTS (SELECT 1 ... WHERE p)]. *)
Definition exists_row {A} (p : A → bool) (l : list A) : bool :=
  List.existsb p l.

(** Go slice membership, [slices.Contains]. *)
Definition contains {A} `{EqDecision A} (x : A) (l : list A) : bool :=
  bool_decide (x ∈ l).

Definition isNull {A} (o : option A) : bool :=
  match o with None => true | Some _ => false end.

Definition notNull {A} (o : option A) : bool := negb (isNull o).

Definition coalesce {A} (o : option A) (d : A) : option A :=
  match o with Some _ => o | None => Some d end.

(** [ORDER BY]: insertion sort by a boolean order. *)
Fixpoint insert_sorted {A} (le : A → A → bool) (x : A) (l : list A) : list A :=
  match l with
  | [] => [x]
  | y :: l' => if le x y then x :: l else y :: insert_sorted le x l'
  end.

Definition isort {A} (le : A → A → bool) (l : list A) : list A :=
  List.fold_right (insert_sorted le) [] l.

Definition sort_by {A} (key : A → Z) (l : list A) : list A :=
  isort (λ x y, key x <=? key y) l.

(** [UPDATE ... SET f WHERE p RETURNING *]: the new rows and the table. *)
Definition update_returning {A} (p : A → bool) (f : A → A) (l : list A) : list A * list A :=
  (List.map f (select p l), update_where p f l).

Definition bool_eq {A} `{EqDecision A} (x y : A) : bool := bool_decide (x = y).
Infix "==?" := bool_eq (at level 70, no associativity) : stdpp_scope.

(** ** Generic lemmas *)

Lemma bool_eq_true {A} `{EqDecision A} (x y : A) : (x ==? y)%stdpp = true ↔ x = y.
Proof. unfold bool_eq. by rewrite bool_decide_eq_true. Qed.

Lemma bool_eq_false {A} `{EqDecision A} (x y : A) : (x ==? y)%stdpp = false ↔ x ≠ y.
Proof. unfold bool_eq. by rewrite bool_decide_eq_false. Qed.

Lemma bool_eq_refl {A} `{EqDecision A} (x : A) : (x ==? x)%stdpp = true.
Proof. by apply bool_eq_true. Qed.

Lemma isNull_true {A} (o : option A) : isNull o = true ↔ o = None.
Proof. by destruct o. Qed.

Lemma select_first_Some {A} (p : A → bool) l x :
  select_first p l = Some x → x ∈ l ∧ p x = true.
Proof.
  intros [Hin Hp]%List.find_some. split; [by apply list_elem_of_In|done].
Qed.

Lemma select_first_None {A} (p : A → bool) l :
  select_first p l = None ↔ ∀ x, x ∈ l → p x = false.
Proof.
  split.
  - intros H x Hx. apply (List.find_none _ _ H). by apply list_elem_of_In.
  - intros H. induction l as [|y l IH]; [done|]. simpl.
    rewrite (H y) by (by left). apply IH. intros x Hx. apply H. by right.
Qed.

Lemma elem_of_select {A} (p : A → bool) l x :
  x ∈ select p l ↔ x ∈ l ∧ p x = true.
Proof. unfold select. by rewrite list_elem_of_In, List.filter_In, <- list_elem_of_In. Qed.

Lemma elem_of_delete_where {A} (p : A → bool) l x :
  x ∈ delete_where p l ↔ x ∈ l ∧ p x = false.
Proof.
  unfold delete_where. rewrite list_elem_of_In, List.filter_In, <- list_elem_of_In.
  by rewrite negb_true_iff.
Qed.

Lemma select_delete_where {A} (p : A → bool) l : select p (delete_where p l) = [].
Proof.
  induction l as [|x l IH]; [done|]. simpl. destruct (p x) eqn:E; simpl; [done|].
  by rewrite E.
Qed.

Lemma delete_where_none {A} (p : A → bool) l :
  (∀ x, x ∈ l → p x = false) → delete_where p l = l.
Proof.
  induction l as [|x l IH]; [done|]. intros H. simpl.
  rewrite (H x) by (by left). simpl. f_equal. apply IH. intros y Hy. apply H. by right.
Qed.

Lemma elem_of_update_where {A} (p : A → bool) f l y :
  y ∈ update_where p f l ↔ ∃ x, x ∈ l ∧ y = (if p x then f x else x).
Proof.
  unfold update_where. rewrite list_elem_of_In, List.in_map_iff. split.
  - intros (x & <- & Hx). exists x. by rewrite list_elem_of_In.
  - intros (x & Hx & ->). exists x. by rewrite <- list_elem_of_In.
Qed.

Lemma update_where_none {A} (p : A → bool) f l :
  (∀ x, x ∈ l → p x = false) → update_where p f l = l.
Proof.
  induction l as [|x l IH]; [done|]. intros H. unfold update_where in *. simpl.
  rewrite (H x) by (by left). f_equal. apply IH. intros y Hy. apply H. by right.
Qed.

Lemma update_where_id {A} (p : A → bool) l : update_where p (λ x, x) l = l.
Proof. induction l as [|x l IH]; [done|]. simpl. rewrite IH. by destruct (p x). Qed.

Lemma update_where_length {A} (p : A → bool) f l : length (update_where p f l) = length l.
Proof. apply List.length_map. Qed.

(** Rows that do not match the [WHERE] clause of an update, and are not
    matched by a select's clause after it either, are read unchanged. *)
Lemma select_update_where_disjoint {A} (p q : A → bool) f l :
  (∀ x, p x = true → q x = false ∧ q (f x) = false) →
  select q (update_where p f l) = select q l.
Proof.
  intros H. induction l as [|x l IH]; [done|]. simpl.
  destruct (p x) eqn:Ep; [|by rewrite IH].
  destruct (H x Ep) as [-> ->]. by rewrite IH.
Qed.

Lemma select_delete_where_disjoint {A} (p q : A → bool) l :
  (∀ x, p x = true → q x = false) →
  select q (delete_where p l) = select q l.
Proof.
  intros H. induction l as [|x l IH]; [done|]. simpl.
  destruct (p x) eqn:Ep; simpl; [|by rewrite IH]. by rewrite (H x Ep).
Qed.

Lemma select_first_update_where_key {A} (k : A → Z) (i : Z) f l :
  (∀ x, k (f x) = k x) →
  select_first (λ x, k x =? i) (update_where (λ x, k x =? i) f l) =
  f <$> select_first (λ x, k x =? i) l.
Proof.
  intros Hk. induction l as [|x l IH]; [done|]. simpl.
  destruct (k x =? i) eqn:E; simpl.
  - by rewrite Hk, E.
  - by rewrite E.
Qed.

Lemma string_append_assoc (a b c : string) : (a +:+ b) +:+ c = a +:+ (b +:+ c).
Proof. induction a as [|x a IH]; [done|]. exact (f_equal (String x) IH). Qed.

Lemma string_append_nil (a : string) : a +:+ "" = a.
Proof. induction a as [|x a IH]; [done|]. exact (f_equal (String x) IH). Qed.

Lemma insert_sorted_perm {A} le (x : A) l : insert_sorted le x l ≡ₚ x :: l.
Proof.
  induction l as [|y l IH]; [done|]. simpl. destruct (le x y); [done|].
  rewrite IH. apply Permutation_swap.
Qed.

Lemma isort_perm {A} le (l : list A) : isort le l ≡ₚ l.
Proof. induction l as [|x l IH]; [done|]. simpl. by rewrite insert_sorted_perm, IH. Qed.

Lemma elem_of_isort {A} le (l : list A) x : x ∈ isort le l ↔ x ∈ l.
Proof. by rewrite isort_perm. Qed.

(** Sorting by a total preorder gives a sorted list. *)
Lemma insert_sorted_sorted {A} (le : A → A → bool) x l :
  (∀ a b, le a b = false → le b a = true) →
  (∀ a b c, le a b = true → le b c = true → le a c = true) →
  StronglySorted (λ a b, le a b = true) l →
  StronglySorted (λ a b, le a b = true) (insert_sorted le x l).
Proof.
  intros Ht Htr. induction l as [|y l IH]; intros Hs; simpl; [by repeat constructor|].
  apply StronglySorted_inv in Hs as [Hs Hy]. destruct (le x y) eqn:E.
  - constructor; [by constructor|]. constructor; [done|].
    eapply Forall_impl; [exact Hy|]. eauto.
  - constructor; [auto|]. rewrite insert_sorted_perm. constructor; auto.
Qed.

Lemma isort_sorted {A} (le : A → A → bool) l :
  (∀ a b, le a b = false → le b a = true) →
  (∀ a b c, le a b = true → le b c = true → le a c = true) →
  StronglySorted (λ a b, le a b = true) (isort le l).
Proof.
  intros Ht Htr. induction l as [|x l IH]; [constructor|]. by apply insert_sorted_sorted.
Qed.

(** Filtering after a stable sort is sorting what is filtered. *)
Lemma select_insert_sorted {A} (le : A → A → bool) p x l :
  (∀ a b c, le a b = true → le b c = true → le a c = true) →
  StronglySorted (λ a b, le a b = true) l →
  select p (insert_sorted le x l) = if p x then insert_sorted le x (select p l) else select p l.
Proof.
  intros Htr. induction l as [|y l IH]; intros Hs; simpl; [by destruct (p x)|].
  apply StronglySorted_inv in Hs as [Hs Hy]. specialize (IH Hs). destruct (le x y) eqn:E; simpl.
  - destruct (p x), (p y) eqn:Ey; simpl; rewrite ?E; try done.
    destruct (select p l) as [|z l'] eqn:El; [done|]. simpl.
    assert (z ∈ l) as Hz by (assert (z ∈ select p l) as Hz by (rewrite El; by left); by apply elem_of_select in Hz as [? _]).
    rewrite Forall_forall in Hy. by rewrite (Htr _ _ _ E (Hy _ Hz)).
  - rewrite IH. destruct (p x), (p y); simpl; by rewrite ?E.
Qed.

Lemma select_isort {A} (le : A → A → bool) p l :
  (∀ a b, le a b = false → le b a = true) →
  (∀ a b c, le a b = true → le b c = true → le a c = true) →
  select p (isort le l) = isort le (select p l).
Proof.
  intros Ht Htr. induction l as [|x l IH]; [done|]. simpl.
  rewrite select_insert_sorted, IH by (done || by apply isort_sorted). by destruct (p x).
Qed.

Lemma insert_sorted_ext {A} (le le' : A → A → bool) x l :
  (∀ y, y ∈ l → le x y = le' x y) → insert_sorted le x l = insert_sorted le' x l.
Proof.
  induction l as [|y l IH]; intros Hext; [done|]. simpl. rewrite Hext by by left. destruct (le' x y); [done|].
  f_equal. apply IH. intros z Hz. apply Hext. by right.
Qed.

Lemma isort_ext {A} (le le' : A → A → bool) l :
  (∀ x y, x ∈ l → y ∈ l → le x y = le' x y) → isort le l = isort le' l.
Proof.
  induction l as [|x l IH]; intros Hext; [done|]. simpl.
  rewrite IH by (intros y z Hy Hz; apply Hext; by right). apply insert_sorted_ext. intros y Hy. apply Hext; [by left|].
  right. by apply elem_of_isort in Hy.
Qed.

(** ** Counting *)

Lemma exists_row_true {A} (p : A → bool) l : exists_row p l = true ↔ ∃ x, x ∈ l ∧ p x = true.
Proof.
  unfold exists_row. rewrite List.existsb_exists. split; intros (x & Hx & Hp); exists x;
    (split; [by apply list_elem_of_In|done]).
Qed.

Lemma exists_row_false {A} (p : A → bool) l : exists_row p l = false ↔ ∀ x, x ∈ l → p x = false.
Proof.
  rewrite <- not_true_iff_false, exists_row_true. split.
  - intros H x Hx. destruct (p x) eqn:E; [|done]. exfalso. eauto.
  - intros H (x & Hx & Hp). rewrite H in Hp; done.
Qed.

Lemma exists_row_select {A} (p : A → bool) l : exists_row p l = negb (isNull (head (select p l))).
Proof.
  induction l as [|x l IH]; [done|]. simpl. destruct (p x); [done|exact IH].
Qed.

Lemma select_head {A} (p : A → bool) l : head (select p l) = select_first p l.
Proof. induction l as [|x l IH]; [done|]. unfold select_first. simpl. by destruct (p x). Qed.

Lemma count_nonneg {A} (p : A → bool) l : 0 <= count p l.
Proof. unfold count. lia. Qed.

Lemma count_cons {A} (p : A → bool) x l : count p (x :: l) = (if p x then 1 else 0) + count p l.
Proof. unfold count. simpl. destruct (p x); simpl; lia. Qed.

Lemma count_app {A} (p : A → bool) l l' : count p (l ++ l') = count p l + count p l'.
Proof. unfold count. rewrite List.filter_app, length_app. lia. Qed.

Lemma count_ext {A} (p q : A → bool) l : (∀ x, x ∈ l → p x = q x) → count p l = count q l.
Proof.
  intros H. induction l as [|x l IH]; [done|]. rewrite !count_cons, (H x) by (by left).
  f_equal. apply IH. intros y Hy. apply H. by right.
Qed.

Lemma count_pos {A} (p : A → bool) l : 0 < count p l ↔ exists_row p l = true.
Proof.
  induction l as [|x l IH]; [done|]. rewrite count_cons. simpl.
  destruct (p x); simpl; [|exact IH]. pose proof (count_nonneg p l). split; [done|lia].
Qed.

Lemma count_select {A} (p : A → bool) l : count p l = Z.of_nat (length (select p l)).
Proof. done. Qed.

Lemma count_split {A} (p q : A → bool) l :
  count p l = count (λ x, p x && q x) l + count (λ x, p x && negb (q x)) l.
Proof.
  induction l as [|x l IH]; [done|]. rewrite !count_cons, IH. destruct (p x), (q x); simpl; lia.
Qed.

Lemma count_impl {A} (p q : A → bool) l :
  (∀ x, x ∈ l → p x = true → q x = true) → count p l <= count q l.
Proof.
  intros H. induction l as [|x l IH]; [done|]. rewrite !count_cons.
  assert (count p l <= count q l) by (apply IH; intros y Hy; apply H; by right).
  specialize (H x ltac:(by left)). destruct (p x), (q x); simpl; try lia; by specialize (H eq_refl).
Qed.

(** An update that takes its rows out of [p]. *)
Lemma count_update_out {A} (p q : A → bool) f l :
  (∀ x, q x = true → p (f x) = false) →
  count p (update_where q f l) = count (λ x, p x && negb (q x)) l.
Proof.
  intros H. induction l as [|x l IH]; [done|]. simpl. rewrite !count_cons, <- IH.
  destruct (q x) eqn:E; simpl; [rewrite H by done|]; destruct (p x); simpl; done.
Qed.

(** An update that leaves [p] as it is. *)
Lemma count_update_keep {A} (p q : A → bool) f l :
  (∀ x, q x = true → p (f x) = p x) → count p (update_where q f l) = count p l.
Proof.
  intros H. induction l as [|x l IH]; [done|]. simpl. rewrite !count_cons, <- IH.
  destruct (q x) eqn:E; [by rewrite H|done].
Qed.

Lemma select_update_out {A} (p q : A → bool) f l :
  (∀ x, q x = true → p (f x) = false) →
  select p (update_where q f l) = select (λ x, p x && negb (q x)) l.
Proof.
  intros H. induction l as [|x l IH]; [done|]. simpl.
  destruct (q x) eqn:E; simpl; [rewrite H by done|]; destruct (p x); simpl; rewrite IH; done.
Qed.

Lemma select_none {A} (p : A → bool) l : (∀ x, x ∈ l → p x = false) → select p l = [].
Proof.
  intros H. induction l as [|x l IH]; [done|]. simpl. rewrite H by (by left).
  apply IH. intros y Hy. apply H. by right.
Qed.

Lemma select_app {A} (p : A → bool) l l' : select p (l ++ l') = select p l ++ select p l'.
Proof. apply List.filter_app. Qed.

Lemma select_ext {A} (p q : A → bool) l : (∀ x, x ∈ l → p x = q x) → select p l = select q l.
Proof.
  intros H. induction l as [|x l IH]; [done|]. simpl. rewrite (H x) by (by left).
  rewrite IH; [done|]. intros y Hy. apply H. by right.
Qed.

Lemma contains_true {A} `{EqDecision A} (x : A) l : contains x l = true ↔ x ∈ l.
Proof. unfold contains. by rewrite bool_decide_eq_true. Qed.

Lemma contains_false {A} `{EqDecision A} (x : A) l : contains x l = false ↔ x ∉ l.
Proof. unfold contains. by rewrite bool_decide_eq_false. Qed.

(** With at most one row in [p], the first one is the only one. *)
Lemma select_unique {A} (p : A → bool) l x :
  select_first p l = Some x → count p l <= 1 → select p l = [x].
Proof.
  induction l as [|y l IH]; [done|]. unfold select_first. simpl. rewrite count_cons.
  destruct (p y) eqn:E; [|intros; by apply IH]. intros [= ->] Hc.
  f_equal. apply List.length_zero_iff_nil. unfold count, select in *. lia.
Qed.

Lemma unique_eq {A} (p : A → bool) l x y :
  select_first p l = Some x → count p l <= 1 → y ∈ l → p y = true → y = x.
Proof.
  intros Hx Hc Hy Hp. pose proof (select_unique _ _ _ Hx Hc) as Hs.
  assert (y ∈ select p l) as Hin by (by apply elem_of_select).
  rewrite Hs in Hin. by apply list_elem_of_singleton in Hin.
Qed.

Lemma update_where_ext {A} (p q : A → bool) (f g : A → A) l :
  (∀ x, x ∈ l → p x = q x ∧ (q x = true → f x = g x)) → update_where p f l = update_where q g l.
Proof.
  intros H. induction l as [|x l IH]; [done|]. simpl.
  destruct (H x ltac:(by left)) as [-> Hf]. rewrite IH by (intros y Hy; apply H; by right).
  by destruct (q x); [rewrite Hf|].
Qed.

Lemma count_eqb_0 {A} (p : A → bool) l : (count p l =? 0) = negb (exists_row p l).
Proof.
  pose proof (count_nonneg p l). pose proof (count_pos p l).
  destruct (exists_row p l); simpl; [apply Z.eqb_neq|apply Z.eqb_eq]; intuition lia.
Qed.

Lemma exists_row_first {A} (p : A → bool) l : exists_row p l = notNull (select_first p l).
Proof. induction l as [|x l IH]; [done|]. unfold select_first. simpl. by destruct (p x). Qed.

(** Distinct keys give at most one row per key. *)
Lemma count_key {A K} (key : A → K) (k : K) (p : A → bool) l :
  (∀ x, p x = true → key x = k) → NoDup (key <$> l) → count p l <= 1.
Proof.
  intros Hp. induction l as [|x l IH]; [done|]. rewrite fmap_cons, NoDup_cons, count_cons.
  intros [Hx Hnd]. destruct (p x) eqn:E; [|by apply IH].
  enough (count p l = 0) by lia. apply Z.eqb_eq. rewrite count_eqb_0. apply negb_true_iff, exists_row_false.
  intros y Hy. apply not_true_is_false. intros Ey. apply Hx. rewrite (Hp x E), <- (Hp y Ey).
  by apply list_elem_of_fmap_2.
Qed.

Lemma update_where_app {A} (p : A → bool) f l l' :
  update_where p f (l ++ l') = update_where p f l ++ update_where p f l'.
Proof. apply List.map_app. Qed.

Lemma select_first_select {A} (p q : A → bool) l :
  select_first p (select q l) = select_first (λ x, q x && p x) l.
Proof.
  unfold select_first. induction l as [|x l IH]; [done|]. simpl. destruct (q x); simpl; [|done]. by destruct (p x).
Qed.

Lemma select_select {A} (p q : A → bool) l : select p (select q l) = select (λ x, q x && p x) l.
Proof. induction l as [|x l IH]; [done|]. simpl. destruct (q x); simpl; [|done]. destruct (p x); simpl; by rewrite IH. Qed.

(** With at most one row in [p], the order of the rows does not matter. *)
Lemma select_first_perm {A} (p : A → bool) l l' :
  l ≡ₚ l' → count p l <= 1 → select_first p l' = select_first p l.
Proof.
  intros Hl Hc. destruct (select_first p l) as [x|] eqn:E.
  - destruct (select_first p l') as [y|] eqn:E'.
    + apply select_first_Some in E' as [Hy Hp]. rewrite <- Hl in Hy. f_equal. by eapply unique_eq.
    + apply select_first_Some in E as [Hx Hp]. rewrite Hl in Hx.
      apply select_first_None with (x := x) in E'; [congruence|done].
  - apply select_first_None. intros x Hx. rewrite <- Hl in Hx. revert x Hx. by apply select_first_None.
Qed.

Lemma exists_row_app {A} (p : A → bool) l l' : exists_row p (l ++ l') = exists_row p l || exists_row p l'.
Proof. apply List.existsb_app. Qed.

Lemma select_perm {A} (p : A → bool) l l' : l ≡ₚ l' → select p l ≡ₚ select p l'.
Proof.
  induction 1 as [|x l l' _ IH|x y l|l1 l2 l3 _ IH1 _ IH2]; simpl; [done|by destruct (p x); rewrite IH| |by etrans].
  destruct (p x), (p y); [constructor|done..].
Qed.

Lemma select_cons_false {A} (p : A → bool) x l : p x = false → select p (x :: l) = select p l.
Proof. intros E. simpl. by rewrite E. Qed.

Lemma select_all {A} (p : A → bool) l : (∀ x, x ∈ l → p x = true) → select p l = l.
Proof.
  intros H. induction l as [|x l IH]; [done|]. simpl. rewrite H by (by left). f_equal.
  apply IH. intros y Hy. apply H. by right.
Qed.

Lemma StronglySorted_impl {A} (R R' : A → A → Prop) l :
  (∀ a b, R a b → R' a b) → StronglySorted R l → StronglySorted R' l.
Proof.
  intros HR. induction 1 as [|a l _ IH Ha]; constructor; [done|]. eapply Forall_impl; [exact Ha|auto].
Qed.

Lemma sort_by_sorted {A} (key : A → Z) l : StronglySorted (λ a b, key a <= key b) (sort_by key l).
Proof.
  apply (StronglySorted_impl (λ a b, (key a <=? key b) = true)); [intros a b; by apply Z.leb_le|].
  apply isort_sorted.
  - intros a b H%Z.leb_gt. apply Z.leb_le. lia.
  - intros a b c H1%Z.leb_le H2%Z.leb_le. apply Z.leb_le. lia.
Qed.

Lemma StronglySorted_select {A} (R : A → A → Prop) (p : A → bool) l :
  StronglySorted R l → StronglySorted R (select p l).
Proof.
  induction 1 as [|x l _ IH Hf]; [constructor|]. simpl. destruct (p x); [|done]. constructor; [done|].
  rewrite Forall_forall in *. intros y Hy. apply elem_of_select in Hy as [Hy _]. by apply Hf.
Qed.

Lemma NoDup_select_fmap {A K} (key : A → K) (p : A → bool) l : NoDup (key <$> l) → NoDup (key <$> select p l).
Proof.
  induction l as [|x l IH]; [done|]. rewrite fmap_cons, NoDup_cons. intros [Hx Hl]. simpl.
  destruct (p x); [|by apply IH]. rewrite fmap_cons, NoDup_cons. split; [|by apply IH]. intros Hin. apply Hx.
  apply list_elem_of_fmap in Hin as (y & E & Hy). apply elem_of_select in Hy as [Hy _]. rewrite E.
  by apply list_elem_of_fmap_2.
Qed.

Lemma update_where_compose {A} (q : A → bool) f g l :
  (∀ x, q (f x) = q x) → update_where q g (update_where q f l) = update_where q (λ x, g (f x)) l.
Proof.
  intros Hq. induction l as [|x l IH]; [done|]. simpl. rewrite IH. destruct (q x) eqn:E; [by rewrite Hq, E|by rewrite E].
Qed.

(** ** Strings *)

Lemma string_length_append (s t : string) : String.length (s +:+ t) = (String.length s + String.length t)%nat.
Proof. induction s as [|c s IH]; [done|]. exact (f_equal S IH). Qed.

Lemma append_inj (a b c d : string) : String.length a = String.length c → a +:+ b = c +:+ d → a = c ∧ b = d.
Proof.
  revert c. induction a as [|x a IH]; intros [|y c] Hl E; try done. cbn in *. injection Hl as Hl. injection E as -> E.
  by destruct (IH c Hl E) as [-> ->].
Qed.
