(* ===== verification/Utf8.v ===== *)
(** * Utf8: the parts of Go's [unicode/utf8] the program uses

    A byte string is a list of byte values. *)

From Stdlib Require Import Ascii.
From S2P Require Import Prelude.

(** The width of the rune at the head of a byte string; an invalid sequence
    has width one. *)
Definition cont (lo hi : N) (b : N) : bool := N.leb lo b && N.leb b hi.

Definition rune_width (s : list N) : nat :=
  match s with
  | b0 :: b1 :: rest =>
      if cont 194 223 b0 then (if cont 128 191 b1 then 2 else 1)
      else if cont 224 239 b0 then
        match rest with
        | b2 :: _ =>
            let lo := (if N.eqb b0 224 then 160 else 128)%N in
            let hi := (if N.eqb b0 237 then 159 else 191)%N in
            if cont lo hi b1 && cont 128 191 b2 then 3 else 1
        | [] => 1
        end
      else if cont 240 244 b0 then
        match rest with
        | b2 :: b3 :: _ =>
            let lo := (if N.eqb b0 240 then 144 else 128)%N in
            let hi := (if N.eqb b0 244 then 143 else 191)%N in
            if cont lo hi b1 && cont 128 191 b2 && cont 128 191 b3 then 4 else 1
        | _ => 1
        end
      else 1
  | _ => 1
  end%nat.

(** Runes of a byte string: its length is fuel enough, a rune takes at least
    one byte. *)
Fixpoint rune_count (fuel : nat) (s : list N) : nat :=
  match fuel, s with
  | S fuel', _ :: _ => S (rune_count fuel' (drop (rune_width s) s))
  | _, _ => 0
  end%nat.

Definition RuneCountInString (s : string) : nat :=
  let bytes := List.map N_of_ascii (String.list_ascii_of_string s) in
  rune_count (length bytes) bytes.

Definition RuneError : N := 65533.

(** [utf8.DecodeRune]: the rune and its width; an invalid sequence is
    [RuneError] of width one. *)
Definition DecodeRune (s : list N) : N * nat :=
  match rune_width s, s with
  | 2%nat, b0 :: b1 :: _ => (N.lor (N.shiftl (N.land b0 31) 6) (N.land b1 63), 2%nat)
  | 3%nat, b0 :: b1 :: b2 :: _ =>
      (N.lor (N.shiftl (N.land b0 15) 12) (N.lor (N.shiftl (N.land b1 63) 6) (N.land b2 63)), 3%nat)
  | 4%nat, b0 :: b1 :: b2 :: b3 :: _ =>
      (N.lor (N.shiftl (N.land b0 7) 18)
         (N.lor (N.shiftl (N.land b1 63) 12) (N.lor (N.shiftl (N.land b2 63) 6) (N.land b3 63))), 4%nat)
  | _, b0 :: _ => (if N.ltb b0 128 then b0 else RuneError, 1%nat)
  | _, [] => (RuneError, 0%nat)
  end.
