(* ===== verification/Domain.v ===== *)
(** * Domain: entities, value objects, errors and events

    The types of [internal/core/domain]: the subscription, membership, role,
    department and invitation entities, the error catalogue and the outbound
    events with their payloads.  A Go string type with named constants becomes
    an inductive with one constructor per constant; where the program can hold
    an unvalidated string of that type (a request field, an event payload) the
    inductive has one more constructor carrying the raw text, which the
    database's enum column then rejects. *)

From S2P Require Import Prelude.

(** ** Scalars

    A [uuid.UUID] is its 128-bit value; [uuid.Nil] is 0.  A [time.Time] is a
    number of microseconds; Go's zero time is 0. *)
Notation uuid := Z (only parsing).
Notation time := Z (only parsing).

Definition uuid_Nil : uuid := 0.

(** [domain.SystemActorID]. *)
Definition SystemActorID : uuid := 1.

(** ** JSON values (encoding/json)

    [JNum] is an integer literal, [JFrac] any other number literal. *)
Inductive json : Type :=
| JNull
| JBool (b : bool)
| JNum (n : Z)
| JFrac (lit : string)
| JStr (s : string)
| JArr (l : list json)
| JObj (l : list (string * json)).

Fixpoint json_eqb (x y : json) {struct x} : bool :=
  match x, y with
  | JNull, JNull => true
  | JBool a, JBool b => Bool.eqb a b
  | JNum a, JNum b => Z.eqb a b
  | JFrac a, JFrac b => String.eqb a b
  | JStr a, JStr b => String.eqb a b
  | JArr l, JArr m =>
      (fix go (l m : list json) {struct l} : bool :=
         match l, m with
         | [], [] => true
         | a :: l', b :: m' => json_eqb a b && go l' m'
         | _, _ => false
         end) l m
  | JObj l, JObj m =>
      (fix go (l m : list (string * json)) {struct l} : bool :=
         match l, m with
         | [], [] => true
         | (k, a) :: l', (k', b) :: m' => String.eqb k k' && json_eqb a b && go l' m'
         | _, _ => false
         end) l m
  | _, _ => false
  end.

(** ** Tenants (tenant.go) *)

Inductive TenantPlan : Type :=
| PlanStarter | PlanPro | PlanEnterprise
| PlanOther (raw : string).

Definition KnownPlans : list TenantPlan := [PlanStarter; PlanPro; PlanEnterprise].

(** [domain.TenantPlan(s)]: the Go conversion keeps the raw text. *)
Definition TenantPlan_of_string (s : string) : TenantPlan :=
  if String.eqb s "starter" then PlanStarter
  else if String.eqb s "pro" then PlanPro
  else if String.eqb s "enterprise" then PlanEnterprise
  else PlanOther s.

(** The value is one of the [tenant_plan] enum labels. *)
Definition plan_known (p : TenantPlan) : bool :=
  match p with PlanOther _ => false | _ => true end.

Inductive SubscriptionStatus : Type :=
| StatusTrial | StatusActive | StatusPastDue | StatusCancelled
| StatusSuspended | StatusTrialExpired | StatusOffboarded.

Inductive RealmType : Type :=
| RealmShared | RealmDedicated
| RealmOther (raw : string).

Definition realm_known (r : RealmType) : bool :=
  match r with RealmOther _ => false | _ => true end.

Inductive SuspensionSource : Type :=
| SuspensionSourceBillingLapse | SuspensionSourceOperator.

Inductive ResidencyMode : Type :=
| ResidencyModeStandard | ResidencyModeStrict
| ResidencyOther (raw : string).

(** [domain.Tenant]: the aggregate root, one row of [tenants]. *)
Record Tenant : Type := mkTenant {
  t_ID : uuid;
  t_Slug : string;
  t_Name : string;
  t_Plan : TenantPlan;
  t_FeatureFlags : gmap string json;
  t_Status : SubscriptionStatus;
  t_TrialEndsAt : option time;
  t_TrialReactivationCount : Z;
  t_SubscriptionStartedAt : option time;
  t_CancelledAt : option time;
  t_SuspensionSource : option SuspensionSource;
  t_LastEventAt : option time;
  t_RealmID : string;
  t_RealmType : RealmType;
  t_KeycloakShard : string;
  t_MFAFreshnessSeconds : Z;
  t_LocalAccountsEnabled : bool;
  t_RealmSyncPending : bool;
  t_DefaultLocale : string;
  t_LicensedSeats : Z;
  t_OwnerlessSince : option time;
  t_OverageSince : option time;
  t_ResidencyMode : ResidencyMode;
  t_RecordVersion : Z;
  t_CreatedAt : time;
  t_UpdatedAt : time;
  t_DeletedAt : option time
}.

(** ** Memberships and roles (membership.go, role.go) *)

Inductive MembershipStatus : Type :=
| MembershipActive | MembershipSuspended | MembershipLeft
| MembershipOther (raw : string).

Definition membership_known (s : MembershipStatus) : bool :=
  match s with MembershipOther _ => false | _ => true end.

(** [domain.TenantMembership]: lifecycle only, carries no role data. *)
Record TenantMembership : Type := mkTenantMembership {
  tm_ID : uuid;
  tm_TenantID : uuid;
  tm_UserID : uuid;
  tm_Status : MembershipStatus;
  tm_RecordVersion : Z;
  tm_CreatedAt : time;
  tm_UpdatedAt : time;
  tm_DeletedAt : option time
}.

(** [domain.MembershipListCursor]. *)
Record MembershipListCursor : Type := mkMembershipListCursor {
  cur_CreatedAt : time;
  cur_ID : uuid
}.

Inductive TenantRoleCode : Type :=
| RoleTenantOwner | RoleTenantAdmin | RoleTenderAdmin | RoleMember
| RoleOther (raw : string).

Definition role_known (c : TenantRoleCode) : bool :=
  match c with RoleOther _ => false | _ => true end.

(** [TenantRoleCode.IsElevated]. *)
Definition IsElevated (c : TenantRoleCode) : bool :=
  match c with
  | RoleTenantOwner | RoleTenantAdmin | RoleTenderAdmin => true
  | RoleMember | RoleOther _ => false
  end.

(** [domain.TenantRole]: one elevated grant. *)
Record TenantRole : Type := mkTenantRole {
  tr_ID : uuid;
  tr_TenantID : uuid;
  tr_UserID : uuid;
  tr_TenantMembershipID : uuid;
  tr_RoleCode : TenantRoleCode;
  tr_GrantedBy : uuid;
  tr_RecordVersion : Z;
  tr_CreatedAt : time;
  tr_UpdatedAt : time;
  tr_DeletedAt : option time
}.

Inductive DeptRole : Type :=
| DeptPreparator | DeptReviewer | DeptApprover
| DeptOther (raw : string).

Definition dept_role_known (r : DeptRole) : bool :=
  match r with DeptOther _ => false | _ => true end.

(** [DeptRole.Rank]. *)
Definition Rank (r : DeptRole) : Z :=
  match r with
  | DeptPreparator => 1
  | DeptReviewer => 2
  | DeptApprover => 3
  | DeptOther _ => -1
  end.

(** [DeptRole.Satisfies]. *)
Definition Satisfies (r minimum : DeptRole) : bool :=
  let rr := Rank r in
  let mr := Rank minimum in
  if (rr <? 0) || (mr <? 0) then false else mr <=? rr.

(** [domain.DeptMembership]: user x department x role level. *)
Record DeptMembership : Type := mkDeptMembership {
  dm_ID : uuid;
  dm_TenantID : uuid;
  dm_UserID : uuid;
  dm_TenantMembershipID : uuid;
  dm_DepartmentID : uuid;
  dm_RoleLevel : DeptRole;
  dm_GrantedBy : uuid;
  dm_RecordVersion : Z;
  dm_CreatedAt : time;
  dm_UpdatedAt : time;
  dm_DeletedAt : option time
}.

(** [domain.DeptRoleLabel]. *)
Record DeptRoleLabel : Type := mkDeptRoleLabel {
  drl_ID : uuid;
  drl_TenantID : uuid;
  drl_RoleCode : DeptRole;
  drl_DisplayName : string;
  drl_RecordVersion : Z;
  drl_CreatedAt : time;
  drl_UpdatedAt : time
}.

(** [domain.DeptMembershipView]. *)
Record DeptMembershipView : Type := mkDeptMembershipView {
  dmv_DepartmentID : uuid;
  dmv_Code : string;
  dmv_RoleLevel : DeptRole
}.

(** [domain.MembershipListItem]. *)
Record MembershipListItem : Type := mkMembershipListItem {
  mli_Membership : TenantMembership;
  mli_TenantRoles : list TenantRoleCode;
  mli_Departments : list DeptMembershipView
}.

(** [domain.MembershipListPage]. *)
Record MembershipListPage : Type := mkMembershipListPage {
  mlp_Items : list MembershipListItem;
  mlp_NextCursor : option MembershipListCursor
}.

(** ** Departments (department.go) *)

(** [domain.TenantDepartment]: per-tenant activation of a catalog department. *)
Record TenantDepartment : Type := mkTenantDepartment {
  td_TenantID : uuid;
  td_DepartmentID : uuid;
  td_IsActive : bool;
  td_RecordVersion : Z;
  td_CreatedAt : time;
  td_UpdatedAt : time
}.

(** [domain.Department]: a catalog row, owned by the Catalog Service. *)
Record Department : Type := mkDepartment {
  d_ID : uuid;
  d_Code : string;
  d_Name : string;
  d_IsSystem : bool;
  d_IsActive : bool;
  d_RecordVersion : Z
}.

(** ** Plans (plan.go) *)

(** [domain.BrandingLevel]: an unvalidated string. *)
Abbreviation BrandingLevel := string (only parsing).

(** [domain.Plan]; its timestamps are never set.  A limit of [None] is
    unlimited. *)
Record Plan : Type := mkPlan {
  p_Code : TenantPlan;
  p_DisplayName : string;
  p_WorkflowTemplateLimit : option Z;
  p_TenderLimit : option Z;
  p_TrialDurationDays : Z;
  p_SSOEnabled : bool;
  p_CustomBranding : BrandingLevel;
  p_FeatureSet : gmap string json;
  p_RecordVersion : Z
}.

(** ** Group mappings (group_mapping.go) *)

(** [domain.GroupDeptRoleMapping]. *)
Record GroupDeptRoleMapping : Type := mkGroupDeptRoleMapping {
  gdr_TenantID : uuid;
  gdr_KeycloakGroupName : string;
  gdr_RoleCode : DeptRole
}.

(** [domain.GroupTenantRoleMapping]. *)
Record GroupTenantRoleMapping : Type := mkGroupTenantRoleMapping {
  gtr_TenantID : uuid;
  gtr_KeycloakGroupName : string;
  gtr_RoleCode : TenantRoleCode
}.

(** [domain.GroupDeptMapping]. *)
Record GroupDeptMapping : Type := mkGroupDeptMapping {
  gd_TenantID : uuid;
  gd_KeycloakGroupName : string;
  gd_DepartmentID : uuid
}.

(** ** The authorization projection (service/authz_service.go) *)

(** [service.MembershipProjection]: the I-8 answer. *)
Record MembershipProjection : Type := mkMembershipProjection {
  mp_UserID : uuid;
  mp_TenantID : uuid;
  mp_Status : MembershipStatus;
  mp_Plan : TenantPlan;
  mp_SubscriptionStatus : SubscriptionStatus;
  mp_ReadOnly : bool;
  mp_Locale : string;
  mp_MFAFreshnessSeconds : Z;
  mp_LocalAccountsEnabled : bool;
  mp_ResidencyMode : ResidencyMode;
  mp_Roles : list TenantRoleCode;
  mp_Departments : list DeptMembershipView;
  mp_FeatureFlags : list string
}.

(** ** Invitations (invitation.go) *)

Inductive InvitationStatus : Type :=
| InvitePending | InviteAccepted | InviteExpired | InviteRevoked.

(** [domain.InvitationDeptMapping]. *)
Record InvitationDeptMapping : Type := mkInvitationDeptMapping {
  idm_DepartmentID : uuid;
  idm_Level : DeptRole
}.

(** [domain.PendingInvitation]. *)
Record PendingInvitation : Type := mkPendingInvitation {
  pi_ID : uuid;
  pi_TenantID : uuid;
  pi_Email : string;
  pi_FullName : string;
  pi_InitialTenantRoles : list TenantRoleCode;
  pi_InitialDeptMappings : list InvitationDeptMapping;
  pi_InvitedBy : uuid;
  pi_KeycloakUserID : option uuid;
  pi_Status : InvitationStatus;
  pi_ExpiresAt : time;
  pi_AcceptedAt : option time;
  pi_KCCleanupPending : bool;
  pi_RecordVersion : Z;
  pi_CreatedAt : time;
  pi_UpdatedAt : time
}.

(** [domain.SeatUsage]. *)
Record SeatUsage : Type := mkSeatUsage {
  su_TenantID : uuid;
  su_ActiveUsers : Z;
  su_PendingInvitations : Z;
  su_LicensedSeats : Z;
  su_OverCap : bool;
  su_OverageSince : option time;
  su_GraceEndsAt : option time
}.

(** ** Assignee eligibility (eligibility.go) *)

Inductive EligibilityReason : Type :=
| EligibilityNone
| EligibilityNotMember
| EligibilityMemberNotActive
| EligibilityDepartmentNotActive
| EligibilityNotInDepartment
| EligibilityLevelInsufficient.

(** [domain.AssigneeEligibility]; the Go zero value of [RoleLevel] is the
    empty string. *)
Record AssigneeEligibility : Type := mkAssigneeEligibility {
  ae_Eligible : bool;
  ae_Reason : EligibilityReason;
  ae_RoleLevel : option DeptRole
}.

(** ** Reserved principals (principals.go) *)

Definition reservedIAMSystem : uuid := uuid_Nil.
Definition reservedCommercialSystem : uuid := 193.

(** [domain.IsReservedSystemPrincipal]. *)
Definition IsReservedSystemPrincipal (id : uuid) : bool :=
  (id =? reservedIAMSystem) || (id =? reservedCommercialSystem).

(** ** Errors (errors.go) *)

(** The sentinels of the error catalogue. *)
Inductive sentinel : Type :=
| ErrValidation
| ErrMissingIdentity
| ErrInsufficientRole
| ErrServiceAccountNotGrantable
| ErrOptimisticLockConflict
| ErrDependencyUnavailable
| ErrNoMutableField
| ErrTenantNotFound
| ErrMemberNotFound
| ErrDepartmentNotFound
| ErrInvitationNotFound
| ErrPlanNotFound
| ErrConflict
| ErrSlugAlreadyTaken
| ErrMemberAlreadyExists
| ErrDeptMembershipAlreadyExists
| ErrWorkflowResolutionRequired
| ErrSeatLimitReached
| ErrInvitationAlreadyExists
| ErrTenantOffboarded
| ErrTenantTrialExpired
| ErrTenantSuspended
| ErrTenantReadOnly
| ErrDepartmentAlreadyActivated
| ErrRoleAlreadyGranted
| ErrMemberNotActive
| ErrTrialAlreadyUsed
| ErrCannotDeleteSystemDepartment
| ErrDepartmentNotActiveForTenant
| ErrDepartmentRetired
| ErrDepartmentDeactivated
| ErrInvalidAction
| ErrInvalidReplacement
| ErrInvalidOwnerCandidate
| ErrInvalidRole
| ErrInvalidPlan
| ErrInvalidRealmType
| ErrInvalidTargetPlan
| ErrAssigneeIneligible
| ErrFieldImmutable
| ErrSystemNameImmutable
| ErrSystemDepartmentCannotBeRetired
| ErrLastOwnerRemoval
| ErrCannotRemoveOwner
| ErrReinviteTooSoon
| ErrInviteRateLimited
| ErrDBUnavailable
| ErrCacheUnavailable
| ErrWorkflowServiceUnavailable
| ErrRealmProvisionerUnavailable
| ErrRequestTimeout
| ErrCatalogUnavailable
| ErrGroupMappingUnavailable.

(** The wire code of a sentinel. *)
Definition sentinel_code (s : sentinel) : string :=
  match s with
  | ErrValidation => "validation_error"
  | ErrMissingIdentity => "missing_identity_headers"
  | ErrInsufficientRole => "insufficient_role"
  | ErrServiceAccountNotGrantable => "service_account_not_grantable"
  | ErrOptimisticLockConflict => "optimistic_lock_conflict"
  | ErrDependencyUnavailable => "dependency_unavailable"
  | ErrNoMutableField => "no_mutable_field"
  | ErrTenantNotFound => "tenant_not_found"
  | ErrMemberNotFound => "member_not_found"
  | ErrDepartmentNotFound => "department_not_found"
  | ErrInvitationNotFound => "invitation_not_found"
  | ErrPlanNotFound => "plan_not_found"
  | ErrConflict => "conflict"
  | ErrSlugAlreadyTaken => "slug_already_taken"
  | ErrMemberAlreadyExists => "member_already_exists"
  | ErrDeptMembershipAlreadyExists => "dept_membership_already_exists"
  | ErrWorkflowResolutionRequired => "workflow_resolution_required"
  | ErrSeatLimitReached => "seat_limit_reached"
  | ErrInvitationAlreadyExists => "invitation_already_exists"
  | ErrTenantOffboarded => "tenant_offboarded"
  | ErrTenantTrialExpired => "tenant_trial_expired"
  | ErrTenantSuspended => "tenant_suspended"
  | ErrTenantReadOnly => "tenant_read_only"
  | ErrDepartmentAlreadyActivated => "department_already_activated"
  | ErrRoleAlreadyGranted => "role_already_granted"
  | ErrMemberNotActive => "member_not_active"
  | ErrTrialAlreadyUsed => "trial_already_used"
  | ErrCannotDeleteSystemDepartment => "cannot_delete_system_department"
  | ErrDepartmentNotActiveForTenant => "department_not_active_for_tenant"
  | ErrDepartmentRetired => "department_retired"
  | ErrDepartmentDeactivated => "department_deactivated"
  | ErrInvalidAction => "invalid_action"
  | ErrInvalidReplacement => "invalid_replacement"
  | ErrInvalidOwnerCandidate => "invalid_owner_candidate"
  | ErrInvalidRole => "invalid_role"
  | ErrInvalidPlan => "invalid_plan"
  | ErrInvalidRealmType => "invalid_realm_type"
  | ErrInvalidTargetPlan => "invalid_target_plan"
  | ErrAssigneeIneligible => "assignee_ineligible"
  | ErrFieldImmutable => "field_immutable"
  | ErrSystemNameImmutable => "system_name_immutable"
  | ErrSystemDepartmentCannotBeRetired => "system_department_cannot_be_retired"
  | ErrLastOwnerRemoval => "last_owner_removal"
  | ErrCannotRemoveOwner => "cannot_remove_owner"
  | ErrReinviteTooSoon => "reinvite_too_soon"
  | ErrInviteRateLimited => "invite_rate_limited"
  | ErrDBUnavailable => "db_unavailable"
  | ErrCacheUnavailable => "cache_unavailable"
  | ErrWorkflowServiceUnavailable => "workflow_service_unavailable"
  | ErrRealmProvisionerUnavailable => "realm_provisioner_unavailable"
  | ErrRequestTimeout => "request_timeout"
  | ErrCatalogUnavailable => "catalog_unavailable"
  | ErrGroupMappingUnavailable => "group_mapping_unavailable"
  end.

(** [domain.DomainError]; its [Cause] is the sentinel. *)
Record DomainError : Type := mkDomainError {
  de_Code : string;
  de_Message : string;
  de_Cause : sentinel;
  de_Details : list (string * json)
}.

(** [domain.NewError]. *)
Definition NewError (s : sentinel) (message : string) : DomainError :=
  {| de_Code := sentinel_code s; de_Message := message; de_Cause := s; de_Details := [] |}.

(** [DomainError.WithDetails]. *)
Definition WithDetails (e : DomainError) (d : list (string * json)) : DomainError :=
  {| de_Code := de_Code e; de_Message := de_Message e; de_Cause := de_Cause e; de_Details := d |}.

(** The SQLSTATE classes a statement can fail with.  The integrity classes
    carry the constraint's name. *)
Inductive pg_error : Type :=
| PgUniqueViolation (constraint : string)
| PgForeignKeyViolation (constraint : string)
| PgCheckViolation (constraint : string)
| PgInvalidEnum
| PgNumericOutOfRange
| PgUndefinedColumn (column : string)
| PgDeadlock
| PgSerializationFailure
| PgConnectionException
| PgInsufficientResources
| PgOperatorIntervention
| PgQueryCanceled
| PgLockNotAvailable
| PgSystemError
| PgPoolClosed.

(** [context.DeadlineExceeded] and [context.Canceled]. *)
Inductive ctx_error : Type :=
| DeadlineExceeded | Canceled.

#[export] Instance ctx_error_eq_dec : EqDecision ctx_error.
Proof. solve_decision. Defined.

(** A Go [error] value: a domain error, a domain error whose cause wraps both
    its sentinel and another error, a driver error, pgx.ErrNoRows, the error of
    a context that has ended, another sentinel or plain error identified by its
    text, or an error wrapped with [fmt.Errorf("...: %w")]. *)
Inductive error : Type :=
| EDomain (e : DomainError)
| EDomainWrap (e : DomainError) (inner : error)
| EPg (e : pg_error)
| ENoRows
| EContext (c : ctx_error)
| EPlain (msg : string)
| EWrap (msg : string) (e : error).

(** [errors.Is(err, domain.ErrX)]. *)
Fixpoint errors_Is (e : error) (s : sentinel) : bool :=
  match e with
  | EDomain d => String.eqb (sentinel_code (de_Cause d)) (sentinel_code s)
  | EDomainWrap d e' => String.eqb (sentinel_code (de_Cause d)) (sentinel_code s) || errors_Is e' s
  | EWrap _ e' => errors_Is e' s
  | _ => false
  end.

(** [errors.Is(err, sentinel)] for a sentinel that is a plain error value. *)
Fixpoint errors_IsPlain (e : error) (msg : string) : bool :=
  match e with
  | EPlain m => String.eqb m msg
  | EDomainWrap _ e' | EWrap _ e' => errors_IsPlain e' msg
  | _ => false
  end.

(** [errors.As(err, *pgconn.PgError)]. *)
Fixpoint errors_AsPg (e : error) : option pg_error :=
  match e with
  | EPg p => Some p
  | EDomainWrap _ e' | EWrap _ e' => errors_AsPg e'
  | _ => None
  end.

(** [errors.As(err, *domain.DomainError)]. *)
Fixpoint errors_AsDomain (e : error) : option DomainError :=
  match e with
  | EDomain d | EDomainWrap d _ => Some d
  | EWrap _ e' => errors_AsDomain e'
  | _ => None
  end.

(** [errors.Is(err, context.DeadlineExceeded)] and
    [errors.Is(err, context.Canceled)]. *)
Fixpoint errors_IsContext (e : error) (c : ctx_error) : bool :=
  match e with
  | EContext c' => bool_decide (c' = c)
  | EDomainWrap _ e' | EWrap _ e' => errors_IsContext e' c
  | _ => false
  end.

Definition fail_with (s : sentinel) (message : string) : error := EDomain (NewError s message).

(** The optimistic-lock conflict the repositories report, with the version
    found. *)
Definition version_conflict (v : Z) : error :=
  EDomain (WithDetails (NewError ErrOptimisticLockConflict "record version conflict")
             [("record_version", JNum v)]).

(** ** Events (event.go, event_payloads.go) *)

(** The payload structs, one constructor per struct. *)
Inductive EventPayload : Type :=
| DepartmentMembershipGrantedPayload (UserID TenantID DepartmentID : uuid) (Level : DeptRole) (ActorID : uuid)
| DepartmentMembershipRevokedPayload (UserID TenantID DepartmentID ActorID : uuid)
| DepartmentMembershipLevelChangedPayload (UserID TenantID DepartmentID : uuid) (PreviousLevel NewLevel : DeptRole) (ActorID : uuid)
| TenantRoleGrantedPayload (UserID TenantID : uuid) (RoleCode : TenantRoleCode) (ActorID : uuid)
| TenantRoleRevokedPayload (UserID TenantID : uuid) (RoleCode : TenantRoleCode) (ActorID : uuid)
| MembershipRevokedPayload (TenantID UserID ActorID : uuid)
| TenderAssigneeOverriddenPayload (TenderID TenantID UserID ActorID : uuid)
| MFAResetPayload (TenantID UserID ActorID : uuid)
| TenantSeatOverageStartedPayload (TenantID : uuid) (LicensedSeats ActiveUsers PendingInvitations : Z) (OverageSince : time)
| TenantSeatOverageResolvedPayload (TenantID : uuid) (ResolvedAt : time)
| TenantMembershipsPurgedPayload (TenantID ActorID : uuid)
| TenantStateChangedPayload (TenantID : uuid) (Status PreviousStatus : SubscriptionStatus) (Plan PreviousPlan : TenantPlan) (ChangedAt : time) (Cause : string)
| TenantSettingChangedPayload (TenantID : uuid) (Setting OldValue NewValue : string) (ActorID : uuid)
| TenantCreatedPayload (TenantID : uuid) (Slug : string) (Plan : TenantPlan) (Status : SubscriptionStatus)
| TrialStartedPayload (TenantID : uuid) (Plan : TenantPlan) (TrialEndsAt : time).

(** [domain.DomainEvent]. *)
Record DomainEvent : Type := mkDomainEvent {
  ev_Type : string;
  ev_TenantID : uuid;
  ev_Subject : string;
  ev_Actor : string;
  ev_Data : EventPayload;
  ev_IPAddress : string;
  ev_UserAgent : string
}.

Definition EventDepartmentMembershipGranted : string := "DepartmentMembershipGranted".
Definition EventDepartmentMembershipRevoked : string := "DepartmentMembershipRevoked".
Definition EventDepartmentMembershipLevelChanged : string := "DepartmentMembershipLevelChanged".
Definition EventTenantRoleGranted : string := "TenantRoleGranted".
Definition EventTenantRoleRevoked : string := "TenantRoleRevoked".
Definition EventTenderAssigneeOverridden : string := "TenderAssigneeOverridden".
Definition EventMFAReset : string := "MFAReset".
Definition EventTenantSeatOverageStarted : string := "TenantSeatOverageStarted".
Definition EventTenantSeatOverageResolved : string := "TenantSeatOverageResolved".
Definition EventTenantStateChanged : string := "TenantStateChanged".
Definition EventMembershipRevoked : string := "MembershipRevoked".
Definition EventTenantMembershipsPurged : string := "TenantMembershipsPurged".
Definition EventTenantCreated : string := "TenantCreated".
Definition EventTrialStarted : string := "TrialStarted".
Definition EventTenantSettingChanged : string := "TenantSettingChanged".

Definition TopicMembership : string := "iam.membership.events".
Definition TopicTenant : string := "iam.tenant.events".

(** [domain.TopicForEvent]. *)
Definition TopicForEvent (eventType : string) : string :=
  if String.eqb eventType EventTenantCreated || String.eqb eventType EventTrialStarted
     || String.eqb eventType EventTenantSettingChanged
  then TopicTenant else TopicMembership.

(** [domain.IsProducedEvent]. *)
Definition IsProducedEvent (eventType : string) : bool :=
  List.existsb (String.eqb eventType)
    [EventDepartmentMembershipGranted;
     EventDepartmentMembershipRevoked;
     EventDepartmentMembershipLevelChanged;
     EventTenantRoleGranted;
     EventTenantRoleRevoked;
     EventTenderAssigneeOverridden;
     EventMFAReset;
     EventTenantSeatOverageStarted;
     EventTenantSeatOverageResolved;
     EventTenantStateChanged;
     EventMembershipRevoked;
     EventTenantMembershipsPurged;
     EventTenantCreated;
     EventTrialStarted;
     EventTenantSettingChanged].

(** ** Event schemas

    What the JSON schemas of [eventbus/schemas] ask of the payloads the service
    publishes, beyond the shape every payload has by construction: the labels of
    the enumerations, the minimum of a count, and the pattern of a slug. *)

(** [domain.DomainEvent.Type] of each payload. *)
Definition payload_type (p : EventPayload) : string :=
  match p with
  | DepartmentMembershipGrantedPayload _ _ _ _ _ => EventDepartmentMembershipGranted
  | DepartmentMembershipRevokedPayload _ _ _ _ => EventDepartmentMembershipRevoked
  | DepartmentMembershipLevelChangedPayload _ _ _ _ _ _ => EventDepartmentMembershipLevelChanged
  | TenantRoleGrantedPayload _ _ _ _ => EventTenantRoleGranted
  | TenantRoleRevokedPayload _ _ _ _ => EventTenantRoleRevoked
  | MembershipRevokedPayload _ _ _ => EventMembershipRevoked
  | TenderAssigneeOverriddenPayload _ _ _ _ => EventTenderAssigneeOverridden
  | MFAResetPayload _ _ _ => EventMFAReset
  | TenantSeatOverageStartedPayload _ _ _ _ _ => EventTenantSeatOverageStarted
  | TenantSeatOverageResolvedPayload _ _ => EventTenantSeatOverageResolved
  | TenantMembershipsPurgedPayload _ _ => EventTenantMembershipsPurged
  | TenantStateChangedPayload _ _ _ _ _ _ _ => EventTenantStateChanged
  | TenantSettingChangedPayload _ _ _ _ _ => EventTenantSettingChanged
  | TenantCreatedPayload _ _ _ _ => EventTenantCreated
  | TrialStartedPayload _ _ _ => EventTrialStarted
  end.

(** ^[a-z0-9][a-z0-9-]{2,62}[a-z0-9]$ of [tenant_created.json] *)
Definition pattern_end (c : Ascii.ascii) : bool :=
  let n := Ascii.N_of_ascii c in ((N.leb 97 n && N.leb n 122) || (N.leb 48 n && N.leb n 57))%N.
Definition pattern_mid (c : Ascii.ascii) : bool := pattern_end c || N.eqb (Ascii.N_of_ascii c) 45.

Definition slug_pattern (s : string) : bool :=
  match String.list_ascii_of_string s with
  | [] => false
  | c :: rest =>
      match List.rev rest with
      | [] => false
      | z :: mid => pattern_end c && pattern_end z && forallb pattern_mid mid
                    && Nat.leb 2 (length mid) && Nat.leb (length mid) 62
      end
  end.

Definition schema_valid (p : EventPayload) : bool :=
  match p with
  | DepartmentMembershipGrantedPayload _ _ _ level _ => dept_role_known level
  | DepartmentMembershipLevelChangedPayload _ _ _ old new _ => dept_role_known old && dept_role_known new
  | TenantRoleGrantedPayload _ _ code _ | TenantRoleRevokedPayload _ _ code _ => IsElevated code
  | TenantSeatOverageStartedPayload _ seats active pending _ => (0 <=? seats) && (0 <=? active) && (0 <=? pending)
  | TenantStateChangedPayload _ _ _ plan previous _ _ => plan_known plan && plan_known previous
  | TenantCreatedPayload _ slug plan _ => slug_pattern slug && plan_known plan
  | TrialStartedPayload _ plan _ => plan_known plan
  | _ => true
  end.

(** An event under its own type, with a payload its schema accepts. *)
Definition event_valid (ev : DomainEvent) : bool :=
  String.eqb (ev_Type ev) (payload_type (ev_Data ev)) && schema_valid (ev_Data ev).

(** ** Row updates

    One functional update per column the program writes. *)

Definition set_t_ID (v : uuid) (r : Tenant) : Tenant :=
  {| t_ID := v; t_Slug := t_Slug r; t_Name := t_Name r; t_Plan := t_Plan r;
     t_FeatureFlags := t_FeatureFlags r; t_Status := t_Status r; t_TrialEndsAt := t_TrialEndsAt r;
     t_TrialReactivationCount := t_TrialReactivationCount r;
     t_SubscriptionStartedAt := t_SubscriptionStartedAt r; t_CancelledAt := t_CancelledAt r;
     t_SuspensionSource := t_SuspensionSource r; t_LastEventAt := t_LastEventAt r; t_RealmID := t_RealmID r;
     t_RealmType := t_RealmType r; t_KeycloakShard := t_KeycloakShard r;
     t_MFAFreshnessSeconds := t_MFAFreshnessSeconds r; t_LocalAccountsEnabled := t_LocalAccountsEnabled r;
     t_RealmSyncPending := t_RealmSyncPending r; t_DefaultLocale := t_DefaultLocale r;
     t_LicensedSeats := t_LicensedSeats r; t_OwnerlessSince := t_OwnerlessSince r;
     t_OverageSince := t_OverageSince r; t_ResidencyMode := t_ResidencyMode r;
     t_RecordVersion := t_RecordVersion r; t_CreatedAt := t_CreatedAt r; t_UpdatedAt := t_UpdatedAt r;
     t_DeletedAt := t_DeletedAt r |}.

Definition set_t_Slug (v : string) (r : Tenant) : Tenant :=
  {| t_ID := t_ID r; t_Slug := v; t_Name := t_Name r; t_Plan := t_Plan r; t_FeatureFlags := t_FeatureFlags r;
     t_Status := t_Status r; t_TrialEndsAt := t_TrialEndsAt r;
     t_TrialReactivationCount := t_TrialReactivationCount r;
     t_SubscriptionStartedAt := t_SubscriptionStartedAt r; t_CancelledAt := t_CancelledAt r;
     t_SuspensionSource := t_SuspensionSource r; t_LastEventAt := t_LastEventAt r; t_RealmID := t_RealmID r;
     t_RealmType := t_RealmType r; t_KeycloakShard := t_KeycloakShard r;
     t_MFAFreshnessSeconds := t_MFAFreshnessSeconds r; t_LocalAccountsEnabled := t_LocalAccountsEnabled r;
     t_RealmSyncPending := t_RealmSyncPending r; t_DefaultLocale := t_DefaultLocale r;
     t_LicensedSeats := t_LicensedSeats r; t_OwnerlessSince := t_OwnerlessSince r;
     t_OverageSince := t_OverageSince r; t_ResidencyMode := t_ResidencyMode r;
     t_RecordVersion := t_RecordVersion r; t_CreatedAt := t_CreatedAt r; t_UpdatedAt := t_UpdatedAt r;
     t_DeletedAt := t_DeletedAt r |}.

Definition set_t_Name (v : string) (r : Tenant) : Tenant :=
  {| t_ID := t_ID r; t_Slug := t_Slug r; t_Name := v; t_Plan := t_Plan r; t_FeatureFlags := t_FeatureFlags r;
     t_Status := t_Status r; t_TrialEndsAt := t_TrialEndsAt r;
     t_TrialReactivationCount := t_TrialReactivationCount r;
     t_SubscriptionStartedAt := t_SubscriptionStartedAt r; t_CancelledAt := t_CancelledAt r;
     t_SuspensionSource := t_SuspensionSource r; t_LastEventAt := t_LastEventAt r; t_RealmID := t_RealmID r;
     t_RealmType := t_RealmType r; t_KeycloakShard := t_KeycloakShard r;
     t_MFAFreshnessSeconds := t_MFAFreshnessSeconds r; t_LocalAccountsEnabled := t_LocalAccountsEnabled r;
     t_RealmSyncPending := t_RealmSyncPending r; t_DefaultLocale := t_DefaultLocale r;
     t_LicensedSeats := t_LicensedSeats r; t_OwnerlessSince := t_OwnerlessSince r;
     t_OverageSince := t_OverageSince r; t_ResidencyMode := t_ResidencyMode r;
     t_RecordVersion := t_RecordVersion r; t_CreatedAt := t_CreatedAt r; t_UpdatedAt := t_UpdatedAt r;
     t_DeletedAt := t_DeletedAt r |}.

Definition set_t_Plan (v : TenantPlan) (r : Tenant) : Tenant :=
  {| t_ID := t_ID r; t_Slug := t_Slug r; t_Name := t_Name r; t_Plan := v; t_FeatureFlags := t_FeatureFlags r;
     t_Status := t_Status r; t_TrialEndsAt := t_TrialEndsAt r;
     t_TrialReactivationCount := t_TrialReactivationCount r;
     t_SubscriptionStartedAt := t_SubscriptionStartedAt r; t_CancelledAt := t_CancelledAt r;
     t_SuspensionSource := t_SuspensionSource r; t_LastEventAt := t_LastEventAt r; t_RealmID := t_RealmID r;
     t_RealmType := t_RealmType r; t_KeycloakShard := t_KeycloakShard r;
     t_MFAFreshnessSeconds := t_MFAFreshnessSeconds r; t_LocalAccountsEnabled := t_LocalAccountsEnabled r;
     t_RealmSyncPending := t_RealmSyncPending r; t_DefaultLocale := t_DefaultLocale r;
     t_LicensedSeats := t_LicensedSeats r; t_OwnerlessSince := t_OwnerlessSince r;
     t_OverageSince := t_OverageSince r; t_ResidencyMode := t_ResidencyMode r;
     t_RecordVersion := t_RecordVersion r; t_CreatedAt := t_CreatedAt r; t_UpdatedAt := t_UpdatedAt r;
     t_DeletedAt := t_DeletedAt r |}.

Definition set_t_FeatureFlags (v : gmap string json) (r : Tenant) : Tenant :=
  {| t_ID := t_ID r; t_Slug := t_Slug r; t_Name := t_Name r; t_Plan := t_Plan r; t_FeatureFlags := v;
     t_Status := t_Status r; t_TrialEndsAt := t_TrialEndsAt r;
     t_TrialReactivationCount := t_TrialReactivationCount r;
     t_SubscriptionStartedAt := t_SubscriptionStartedAt r; t_CancelledAt := t_CancelledAt r;
     t_SuspensionSource := t_SuspensionSource r; t_LastEventAt := t_LastEventAt r; t_RealmID := t_RealmID r;
     t_RealmType := t_RealmType r; t_KeycloakShard := t_KeycloakShard r;
     t_MFAFreshnessSeconds := t_MFAFreshnessSeconds r; t_LocalAccountsEnabled := t_LocalAccountsEnabled r;
     t_RealmSyncPending := t_RealmSyncPending r; t_DefaultLocale := t_DefaultLocale r;
     t_LicensedSeats := t_LicensedSeats r; t_OwnerlessSince := t_OwnerlessSince r;
     t_OverageSince := t_OverageSince r; t_ResidencyMode := t_ResidencyMode r;
     t_RecordVersion := t_RecordVersion r; t_CreatedAt := t_CreatedAt r; t_UpdatedAt := t_UpdatedAt r;
     t_DeletedAt := t_DeletedAt r |}.

Definition set_t_Status (v : SubscriptionStatus) (r : Tenant) : Tenant :=
  {| t_ID := t_ID r; t_Slug := t_Slug r; t_Name := t_Name r; t_Plan := t_Plan r;
     t_FeatureFlags := t_FeatureFlags r; t_Status := v; t_TrialEndsAt := t_TrialEndsAt r;
     t_TrialReactivationCount := t_TrialReactivationCount r;
     t_SubscriptionStartedAt := t_SubscriptionStartedAt r; t_CancelledAt := t_CancelledAt r;
     t_SuspensionSource := t_SuspensionSource r; t_LastEventAt := t_LastEventAt r; t_RealmID := t_RealmID r;
     t_RealmType := t_RealmType r; t_KeycloakShard := t_KeycloakShard r;
     t_MFAFreshnessSeconds := t_MFAFreshnessSeconds r; t_LocalAccountsEnabled := t_LocalAccountsEnabled r;
     t_RealmSyncPending := t_RealmSyncPending r; t_DefaultLocale := t_DefaultLocale r;
     t_LicensedSeats := t_LicensedSeats r; t_OwnerlessSince := t_OwnerlessSince r;
     t_OverageSince := t_OverageSince r; t_ResidencyMode := t_ResidencyMode r;
     t_RecordVersion := t_RecordVersion r; t_CreatedAt := t_CreatedAt r; t_UpdatedAt := t_UpdatedAt r;
     t_DeletedAt := t_DeletedAt r |}.

Definition set_t_TrialEndsAt (v : option time) (r : Tenant) : Tenant :=
  {| t_ID := t_ID r; t_Slug := t_Slug r; t_Name := t_Name r; t_Plan := t_Plan r;
     t_FeatureFlags := t_FeatureFlags r; t_Status := t_Status r; t_TrialEndsAt := v;
     t_TrialReactivationCount := t_TrialReactivationCount r;
     t_SubscriptionStartedAt := t_SubscriptionStartedAt r; t_CancelledAt := t_CancelledAt r;
     t_SuspensionSource := t_SuspensionSource r; t_LastEventAt := t_LastEventAt r; t_RealmID := t_RealmID r;
     t_RealmType := t_RealmType r; t_KeycloakShard := t_KeycloakShard r;
     t_MFAFreshnessSeconds := t_MFAFreshnessSeconds r; t_LocalAccountsEnabled := t_LocalAccountsEnabled r;
     t_RealmSyncPending := t_RealmSyncPending r; t_DefaultLocale := t_DefaultLocale r;
     t_LicensedSeats := t_LicensedSeats r; t_OwnerlessSince := t_OwnerlessSince r;
     t_OverageSince := t_OverageSince r; t_ResidencyMode := t_ResidencyMode r;
     t_RecordVersion := t_RecordVersion r; t_CreatedAt := t_CreatedAt r; t_UpdatedAt := t_UpdatedAt r;
     t_DeletedAt := t_DeletedAt r |}.

Definition set_t_TrialReactivationCount (v : Z) (r : Tenant) : Tenant :=
  {| t_ID := t_ID r; t_Slug := t_Slug r; t_Name := t_Name r; t_Plan := t_Plan r;
     t_FeatureFlags := t_FeatureFlags r; t_Status := t_Status r; t_TrialEndsAt := t_TrialEndsAt r;
     t_TrialReactivationCount := v; t_SubscriptionStartedAt := t_SubscriptionStartedAt r;
     t_CancelledAt := t_CancelledAt r; t_SuspensionSource := t_SuspensionSource r;
     t_LastEventAt := t_LastEventAt r; t_RealmID := t_RealmID r; t_RealmType := t_RealmType r;
     t_KeycloakShard := t_KeycloakShard r; t_MFAFreshnessSeconds := t_MFAFreshnessSeconds r;
     t_LocalAccountsEnabled := t_LocalAccountsEnabled r; t_RealmSyncPending := t_RealmSyncPending r;
     t_DefaultLocale := t_DefaultLocale r; t_LicensedSeats := t_LicensedSeats r;
     t_OwnerlessSince := t_OwnerlessSince r; t_OverageSince := t_OverageSince r;
     t_ResidencyMode := t_ResidencyMode r; t_RecordVersion := t_RecordVersion r; t_CreatedAt := t_CreatedAt r;
     t_UpdatedAt := t_UpdatedAt r; t_DeletedAt := t_DeletedAt r |}.

Definition set_t_SubscriptionStartedAt (v : option time) (r : Tenant) : Tenant :=
  {| t_ID := t_ID r; t_Slug := t_Slug r; t_Name := t_Name r; t_Plan := t_Plan r;
     t_FeatureFlags := t_FeatureFlags r; t_Status := t_Status r; t_TrialEndsAt := t_TrialEndsAt r;
     t_TrialReactivationCount := t_TrialReactivationCount r; t_SubscriptionStartedAt := v;
     t_CancelledAt := t_CancelledAt r; t_SuspensionSource := t_SuspensionSource r;
     t_LastEventAt := t_LastEventAt r; t_RealmID := t_RealmID r; t_RealmType := t_RealmType r;
     t_KeycloakShard := t_KeycloakShard r; t_MFAFreshnessSeconds := t_MFAFreshnessSeconds r;
     t_LocalAccountsEnabled := t_LocalAccountsEnabled r; t_RealmSyncPending := t_RealmSyncPending r;
     t_DefaultLocale := t_DefaultLocale r; t_LicensedSeats := t_LicensedSeats r;
     t_OwnerlessSince := t_OwnerlessSince r; t_OverageSince := t_OverageSince r;
     t_ResidencyMode := t_ResidencyMode r; t_RecordVersion := t_RecordVersion r; t_CreatedAt := t_CreatedAt r;
     t_UpdatedAt := t_UpdatedAt r; t_DeletedAt := t_DeletedAt r |}.

Definition set_t_CancelledAt (v : option time) (r : Tenant) : Tenant :=
  {| t_ID := t_ID r; t_Slug := t_Slug r; t_Name := t_Name r; t_Plan := t_Plan r;
     t_FeatureFlags := t_FeatureFlags r; t_Status := t_Status r; t_TrialEndsAt := t_TrialEndsAt r;
     t_TrialReactivationCount := t_TrialReactivationCount r;
     t_SubscriptionStartedAt := t_SubscriptionStartedAt r; t_CancelledAt := v;
     t_SuspensionSource := t_SuspensionSource r; t_LastEventAt := t_LastEventAt r; t_RealmID := t_RealmID r;
     t_RealmType := t_RealmType r; t_KeycloakShard := t_KeycloakShard r;
     t_MFAFreshnessSeconds := t_MFAFreshnessSeconds r; t_LocalAccountsEnabled := t_LocalAccountsEnabled r;
     t_RealmSyncPending := t_RealmSyncPending r; t_DefaultLocale := t_DefaultLocale r;
     t_LicensedSeats := t_LicensedSeats r; t_OwnerlessSince := t_OwnerlessSince r;
     t_OverageSince := t_OverageSince r; t_ResidencyMode := t_ResidencyMode r;
     t_RecordVersion := t_RecordVersion r; t_CreatedAt := t_CreatedAt r; t_UpdatedAt := t_UpdatedAt r;
     t_DeletedAt := t_DeletedAt r |}.

Definition set_t_SuspensionSource (v : option SuspensionSource) (r : Tenant) : Tenant :=
  {| t_ID := t_ID r; t_Slug := t_Slug r; t_Name := t_Name r; t_Plan := t_Plan r;
     t_FeatureFlags := t_FeatureFlags r; t_Status := t_Status r; t_TrialEndsAt := t_TrialEndsAt r;
     t_TrialReactivationCount := t_TrialReactivationCount r;
     t_SubscriptionStartedAt := t_SubscriptionStartedAt r; t_CancelledAt := t_CancelledAt r;
     t_SuspensionSource := v; t_LastEventAt := t_LastEventAt r; t_RealmID := t_RealmID r;
     t_RealmType := t_RealmType r; t_KeycloakShard := t_KeycloakShard r;
     t_MFAFreshnessSeconds := t_MFAFreshnessSeconds r; t_LocalAccountsEnabled := t_LocalAccountsEnabled r;
     t_RealmSyncPending := t_RealmSyncPending r; t_DefaultLocale := t_DefaultLocale r;
     t_LicensedSeats := t_LicensedSeats r; t_OwnerlessSince := t_OwnerlessSince r;
     t_OverageSince := t_OverageSince r; t_ResidencyMode := t_ResidencyMode r;
     t_RecordVersion := t_RecordVersion r; t_CreatedAt := t_CreatedAt r; t_UpdatedAt := t_UpdatedAt r;
     t_DeletedAt := t_DeletedAt r |}.

Definition set_t_LastEventAt (v : option time) (r : Tenant) : Tenant :=
  {| t_ID := t_ID r; t_Slug := t_Slug r; t_Name := t_Name r; t_Plan := t_Plan r;
     t_FeatureFlags := t_FeatureFlags r; t_Status := t_Status r; t_TrialEndsAt := t_TrialEndsAt r;
     t_TrialReactivationCount := t_TrialReactivationCount r;
     t_SubscriptionStartedAt := t_SubscriptionStartedAt r; t_CancelledAt := t_CancelledAt r;
     t_SuspensionSource := t_SuspensionSource r; t_LastEventAt := v; t_RealmID := t_RealmID r;
     t_RealmType := t_RealmType r; t_KeycloakShard := t_KeycloakShard r;
     t_MFAFreshnessSeconds := t_MFAFreshnessSeconds r; t_LocalAccountsEnabled := t_LocalAccountsEnabled r;
     t_RealmSyncPending := t_RealmSyncPending r; t_DefaultLocale := t_DefaultLocale r;
     t_LicensedSeats := t_LicensedSeats r; t_OwnerlessSince := t_OwnerlessSince r;
     t_OverageSince := t_OverageSince r; t_ResidencyMode := t_ResidencyMode r;
     t_RecordVersion := t_RecordVersion r; t_CreatedAt := t_CreatedAt r; t_UpdatedAt := t_UpdatedAt r;
     t_DeletedAt := t_DeletedAt r |}.

Definition set_t_RealmID (v : string) (r : Tenant) : Tenant :=
  {| t_ID := t_ID r; t_Slug := t_Slug r; t_Name := t_Name r; t_Plan := t_Plan r;
     t_FeatureFlags := t_FeatureFlags r; t_Status := t_Status r; t_TrialEndsAt := t_TrialEndsAt r;
     t_TrialReactivationCount := t_TrialReactivationCount r;
     t_SubscriptionStartedAt := t_SubscriptionStartedAt r; t_CancelledAt := t_CancelledAt r;
     t_SuspensionSource := t_SuspensionSource r; t_LastEventAt := t_LastEventAt r; t_RealmID := v;
     t_RealmType := t_RealmType r; t_KeycloakShard := t_KeycloakShard r;
     t_MFAFreshnessSeconds := t_MFAFreshnessSeconds r; t_LocalAccountsEnabled := t_LocalAccountsEnabled r;
     t_RealmSyncPending := t_RealmSyncPending r; t_DefaultLocale := t_DefaultLocale r;
     t_LicensedSeats := t_LicensedSeats r; t_OwnerlessSince := t_OwnerlessSince r;
     t_OverageSince := t_OverageSince r; t_ResidencyMode := t_ResidencyMode r;
     t_RecordVersion := t_RecordVersion r; t_CreatedAt := t_CreatedAt r; t_UpdatedAt := t_UpdatedAt r;
     t_DeletedAt := t_DeletedAt r |}.

Definition set_t_RealmType (v : RealmType) (r : Tenant) : Tenant :=
  {| t_ID := t_ID r; t_Slug := t_Slug r; t_Name := t_Name r; t_Plan := t_Plan r;
     t_FeatureFlags := t_FeatureFlags r; t_Status := t_Status r; t_TrialEndsAt := t_TrialEndsAt r;
     t_TrialReactivationCount := t_TrialReactivationCount r;
     t_SubscriptionStartedAt := t_SubscriptionStartedAt r; t_CancelledAt := t_CancelledAt r;
     t_SuspensionSource := t_SuspensionSource r; t_LastEventAt := t_LastEventAt r; t_RealmID := t_RealmID r;
     t_RealmType := v; t_KeycloakShard := t_KeycloakShard r; t_MFAFreshnessSeconds := t_MFAFreshnessSeconds r;
     t_LocalAccountsEnabled := t_LocalAccountsEnabled r; t_RealmSyncPending := t_RealmSyncPending r;
     t_DefaultLocale := t_DefaultLocale r; t_LicensedSeats := t_LicensedSeats r;
     t_OwnerlessSince := t_OwnerlessSince r; t_OverageSince := t_OverageSince r;
     t_ResidencyMode := t_ResidencyMode r; t_RecordVersion := t_RecordVersion r; t_CreatedAt := t_CreatedAt r;
     t_UpdatedAt := t_UpdatedAt r; t_DeletedAt := t_DeletedAt r |}.

Definition set_t_KeycloakShard (v : string) (r : Tenant) : Tenant :=
  {| t_ID := t_ID r; t_Slug := t_Slug r; t_Name := t_Name r; t_Plan := t_Plan r;
     t_FeatureFlags := t_FeatureFlags r; t_Status := t_Status r; t_TrialEndsAt := t_TrialEndsAt r;
     t_TrialReactivationCount := t_TrialReactivationCount r;
     t_SubscriptionStartedAt := t_SubscriptionStartedAt r; t_CancelledAt := t_CancelledAt r;
     t_SuspensionSource := t_SuspensionSource r; t_LastEventAt := t_LastEventAt r; t_RealmID := t_RealmID r;
     t_RealmType := t_RealmType r; t_KeycloakShard := v; t_MFAFreshnessSeconds := t_MFAFreshnessSeconds r;
     t_LocalAccountsEnabled := t_LocalAccountsEnabled r; t_RealmSyncPending := t_RealmSyncPending r;
     t_DefaultLocale := t_DefaultLocale r; t_LicensedSeats := t_LicensedSeats r;
     t_OwnerlessSince := t_OwnerlessSince r; t_OverageSince := t_OverageSince r;
     t_ResidencyMode := t_ResidencyMode r; t_RecordVersion := t_RecordVersion r; t_CreatedAt := t_CreatedAt r;
     t_UpdatedAt := t_UpdatedAt r; t_DeletedAt := t_DeletedAt r |}.

Definition set_t_MFAFreshnessSeconds (v : Z) (r : Tenant) : Tenant :=
  {| t_ID := t_ID r; t_Slug := t_Slug r; t_Name := t_Name r; t_Plan := t_Plan r;
     t_FeatureFlags := t_FeatureFlags r; t_Status := t_Status r; t_TrialEndsAt := t_TrialEndsAt r;
     t_TrialReactivationCount := t_TrialReactivationCount r;
     t_SubscriptionStartedAt := t_SubscriptionStartedAt r; t_CancelledAt := t_CancelledAt r;
     t_SuspensionSource := t_SuspensionSource r; t_LastEventAt := t_LastEventAt r; t_RealmID := t_RealmID r;
     t_RealmType := t_RealmType r; t_KeycloakShard := t_KeycloakShard r; t_MFAFreshnessSeconds := v;
     t_LocalAccountsEnabled := t_LocalAccountsEnabled r; t_RealmSyncPending := t_RealmSyncPending r;
     t_DefaultLocale := t_DefaultLocale r; t_LicensedSeats := t_LicensedSeats r;
     t_OwnerlessSince := t_OwnerlessSince r; t_OverageSince := t_OverageSince r;
     t_ResidencyMode := t_ResidencyMode r; t_RecordVersion := t_RecordVersion r; t_CreatedAt := t_CreatedAt r;
     t_UpdatedAt := t_UpdatedAt r; t_DeletedAt := t_DeletedAt r |}.

Definition set_t_LocalAccountsEnabled (v : bool) (r : Tenant) : Tenant :=
  {| t_ID := t_ID r; t_Slug := t_Slug r; t_Name := t_Name r; t_Plan := t_Plan r;
     t_FeatureFlags := t_FeatureFlags r; t_Status := t_Status r; t_TrialEndsAt := t_TrialEndsAt r;
     t_TrialReactivationCount := t_TrialReactivationCount r;
     t_SubscriptionStartedAt := t_SubscriptionStartedAt r; t_CancelledAt := t_CancelledAt r;
     t_SuspensionSource := t_SuspensionSource r; t_LastEventAt := t_LastEventAt r; t_RealmID := t_RealmID r;
     t_RealmType := t_RealmType r; t_KeycloakShard := t_KeycloakShard r;
     t_MFAFreshnessSeconds := t_MFAFreshnessSeconds r; t_LocalAccountsEnabled := v;
     t_RealmSyncPending := t_RealmSyncPending r; t_DefaultLocale := t_DefaultLocale r;
     t_LicensedSeats := t_LicensedSeats r; t_OwnerlessSince := t_OwnerlessSince r;
     t_OverageSince := t_OverageSince r; t_ResidencyMode := t_ResidencyMode r;
     t_RecordVersion := t_RecordVersion r; t_CreatedAt := t_CreatedAt r; t_UpdatedAt := t_UpdatedAt r;
     t_DeletedAt := t_DeletedAt r |}.

Definition set_t_RealmSyncPending (v : bool) (r : Tenant) : Tenant :=
  {| t_ID := t_ID r; t_Slug := t_Slug r; t_Name := t_Name r; t_Plan := t_Plan r;
     t_FeatureFlags := t_FeatureFlags r; t_Status := t_Status r; t_TrialEndsAt := t_TrialEndsAt r;
     t_TrialReactivationCount := t_TrialReactivationCount r;
     t_SubscriptionStartedAt := t_SubscriptionStartedAt r; t_CancelledAt := t_CancelledAt r;
     t_SuspensionSource := t_SuspensionSource r; t_LastEventAt := t_LastEventAt r; t_RealmID := t_RealmID r;
     t_RealmType := t_RealmType r; t_KeycloakShard := t_KeycloakShard r;
     t_MFAFreshnessSeconds := t_MFAFreshnessSeconds r; t_LocalAccountsEnabled := t_LocalAccountsEnabled r;
     t_RealmSyncPending := v; t_DefaultLocale := t_DefaultLocale r; t_LicensedSeats := t_LicensedSeats r;
     t_OwnerlessSince := t_OwnerlessSince r; t_OverageSince := t_OverageSince r;
     t_ResidencyMode := t_ResidencyMode r; t_RecordVersion := t_RecordVersion r; t_CreatedAt := t_CreatedAt r;
     t_UpdatedAt := t_UpdatedAt r; t_DeletedAt := t_DeletedAt r |}.

Definition set_t_DefaultLocale (v : string) (r : Tenant) : Tenant :=
  {| t_ID := t_ID r; t_Slug := t_Slug r; t_Name := t_Name r; t_Plan := t_Plan r;
     t_FeatureFlags := t_FeatureFlags r; t_Status := t_Status r; t_TrialEndsAt := t_TrialEndsAt r;
     t_TrialReactivationCount := t_TrialReactivationCount r;
     t_SubscriptionStartedAt := t_SubscriptionStartedAt r; t_CancelledAt := t_CancelledAt r;
     t_SuspensionSource := t_SuspensionSource r; t_LastEventAt := t_LastEventAt r; t_RealmID := t_RealmID r;
     t_RealmType := t_RealmType r; t_KeycloakShard := t_KeycloakShard r;
     t_MFAFreshnessSeconds := t_MFAFreshnessSeconds r; t_LocalAccountsEnabled := t_LocalAccountsEnabled r;
     t_RealmSyncPending := t_RealmSyncPending r; t_DefaultLocale := v; t_LicensedSeats := t_LicensedSeats r;
     t_OwnerlessSince := t_OwnerlessSince r; t_OverageSince := t_OverageSince r;
     t_ResidencyMode := t_ResidencyMode r; t_RecordVersion := t_RecordVersion r; t_CreatedAt := t_CreatedAt r;
     t_UpdatedAt := t_UpdatedAt r; t_DeletedAt := t_DeletedAt r |}.

Definition set_t_LicensedSeats (v : Z) (r : Tenant) : Tenant :=
  {| t_ID := t_ID r; t_Slug := t_Slug r; t_Name := t_Name r; t_Plan := t_Plan r;
     t_FeatureFlags := t_FeatureFlags r; t_Status := t_Status r; t_TrialEndsAt := t_TrialEndsAt r;
     t_TrialReactivationCount := t_TrialReactivationCount r;
     t_SubscriptionStartedAt := t_SubscriptionStartedAt r; t_CancelledAt := t_CancelledAt r;
     t_SuspensionSource := t_SuspensionSource r; t_LastEventAt := t_LastEventAt r; t_RealmID := t_RealmID r;
     t_RealmType := t_RealmType r; t_KeycloakShard := t_KeycloakShard r;
     t_MFAFreshnessSeconds := t_MFAFreshnessSeconds r; t_LocalAccountsEnabled := t_LocalAccountsEnabled r;
     t_RealmSyncPending := t_RealmSyncPending r; t_DefaultLocale := t_DefaultLocale r; t_LicensedSeats := v;
     t_OwnerlessSince := t_OwnerlessSince r; t_OverageSince := t_OverageSince r;
     t_ResidencyMode := t_ResidencyMode r; t_RecordVersion := t_RecordVersion r; t_CreatedAt := t_CreatedAt r;
     t_UpdatedAt := t_UpdatedAt r; t_DeletedAt := t_DeletedAt r |}.

Definition set_t_OwnerlessSince (v : option time) (r : Tenant) : Tenant :=
  {| t_ID := t_ID r; t_Slug := t_Slug r; t_Name := t_Name r; t_Plan := t_Plan r;
     t_FeatureFlags := t_FeatureFlags r; t_Status := t_Status r; t_TrialEndsAt := t_TrialEndsAt r;
     t_TrialReactivationCount := t_TrialReactivationCount r;
     t_SubscriptionStartedAt := t_SubscriptionStartedAt r; t_CancelledAt := t_CancelledAt r;
     t_SuspensionSource := t_SuspensionSource r; t_LastEventAt := t_LastEventAt r; t_RealmID := t_RealmID r;
     t_RealmType := t_RealmType r; t_KeycloakShard := t_KeycloakShard r;
     t_MFAFreshnessSeconds := t_MFAFreshnessSeconds r; t_LocalAccountsEnabled := t_LocalAccountsEnabled r;
     t_RealmSyncPending := t_RealmSyncPending r; t_DefaultLocale := t_DefaultLocale r;
     t_LicensedSeats := t_LicensedSeats r; t_OwnerlessSince := v; t_OverageSince := t_OverageSince r;
     t_ResidencyMode := t_ResidencyMode r; t_RecordVersion := t_RecordVersion r; t_CreatedAt := t_CreatedAt r;
     t_UpdatedAt := t_UpdatedAt r; t_DeletedAt := t_DeletedAt r |}.

Definition set_t_OverageSince (v : option time) (r : Tenant) : Tenant :=
  {| t_ID := t_ID r; t_Slug := t_Slug r; t_Name := t_Name r; t_Plan := t_Plan r;
     t_FeatureFlags := t_FeatureFlags r; t_Status := t_Status r; t_TrialEndsAt := t_TrialEndsAt r;
     t_TrialReactivationCount := t_TrialReactivationCount r;
     t_SubscriptionStartedAt := t_SubscriptionStartedAt r; t_CancelledAt := t_CancelledAt r;
     t_SuspensionSource := t_SuspensionSource r; t_LastEventAt := t_LastEventAt r; t_RealmID := t_RealmID r;
     t_RealmType := t_RealmType r; t_KeycloakShard := t_KeycloakShard r;
     t_MFAFreshnessSeconds := t_MFAFreshnessSeconds r; t_LocalAccountsEnabled := t_LocalAccountsEnabled r;
     t_RealmSyncPending := t_RealmSyncPending r; t_DefaultLocale := t_DefaultLocale r;
     t_LicensedSeats := t_LicensedSeats r; t_OwnerlessSince := t_OwnerlessSince r; t_OverageSince := v;
     t_ResidencyMode := t_ResidencyMode r; t_RecordVersion := t_RecordVersion r; t_CreatedAt := t_CreatedAt r;
     t_UpdatedAt := t_UpdatedAt r; t_DeletedAt := t_DeletedAt r |}.

Definition set_t_ResidencyMode (v : ResidencyMode) (r : Tenant) : Tenant :=
  {| t_ID := t_ID r; t_Slug := t_Slug r; t_Name := t_Name r; t_Plan := t_Plan r;
     t_FeatureFlags := t_FeatureFlags r; t_Status := t_Status r; t_TrialEndsAt := t_TrialEndsAt r;
     t_TrialReactivationCount := t_TrialReactivationCount r;
     t_SubscriptionStartedAt := t_SubscriptionStartedAt r; t_CancelledAt := t_CancelledAt r;
     t_SuspensionSource := t_SuspensionSource r; t_LastEventAt := t_LastEventAt r; t_RealmID := t_RealmID r;
     t_RealmType := t_RealmType r; t_KeycloakShard := t_KeycloakShard r;
     t_MFAFreshnessSeconds := t_MFAFreshnessSeconds r; t_LocalAccountsEnabled := t_LocalAccountsEnabled r;
     t_RealmSyncPending := t_RealmSyncPending r; t_DefaultLocale := t_DefaultLocale r;
     t_LicensedSeats := t_LicensedSeats r; t_OwnerlessSince := t_OwnerlessSince r;
     t_OverageSince := t_OverageSince r; t_ResidencyMode := v; t_RecordVersion := t_RecordVersion r;
     t_CreatedAt := t_CreatedAt r; t_UpdatedAt := t_UpdatedAt r; t_DeletedAt := t_DeletedAt r |}.

Definition set_t_RecordVersion (v : Z) (r : Tenant) : Tenant :=
  {| t_ID := t_ID r; t_Slug := t_Slug r; t_Name := t_Name r; t_Plan := t_Plan r;
     t_FeatureFlags := t_FeatureFlags r; t_Status := t_Status r; t_TrialEndsAt := t_TrialEndsAt r;
     t_TrialReactivationCount := t_TrialReactivationCount r;
     t_SubscriptionStartedAt := t_SubscriptionStartedAt r; t_CancelledAt := t_CancelledAt r;
     t_SuspensionSource := t_SuspensionSource r; t_LastEventAt := t_LastEventAt r; t_RealmID := t_RealmID r;
     t_RealmType := t_RealmType r; t_KeycloakShard := t_KeycloakShard r;
     t_MFAFreshnessSeconds := t_MFAFreshnessSeconds r; t_LocalAccountsEnabled := t_LocalAccountsEnabled r;
     t_RealmSyncPending := t_RealmSyncPending r; t_DefaultLocale := t_DefaultLocale r;
     t_LicensedSeats := t_LicensedSeats r; t_OwnerlessSince := t_OwnerlessSince r;
     t_OverageSince := t_OverageSince r; t_ResidencyMode := t_ResidencyMode r; t_RecordVersion := v;
     t_CreatedAt := t_CreatedAt r; t_UpdatedAt := t_UpdatedAt r; t_DeletedAt := t_DeletedAt r |}.

Definition set_t_CreatedAt (v : time) (r : Tenant) : Tenant :=
  {| t_ID := t_ID r; t_Slug := t_Slug r; t_Name := t_Name r; t_Plan := t_Plan r;
     t_FeatureFlags := t_FeatureFlags r; t_Status := t_Status r; t_TrialEndsAt := t_TrialEndsAt r;
     t_TrialReactivationCount := t_TrialReactivationCount r;
     t_SubscriptionStartedAt := t_SubscriptionStartedAt r; t_CancelledAt := t_CancelledAt r;
     t_SuspensionSource := t_SuspensionSource r; t_LastEventAt := t_LastEventAt r; t_RealmID := t_RealmID r;
     t_RealmType := t_RealmType r; t_KeycloakShard := t_KeycloakShard r;
     t_MFAFreshnessSeconds := t_MFAFreshnessSeconds r; t_LocalAccountsEnabled := t_LocalAccountsEnabled r;
     t_RealmSyncPending := t_RealmSyncPending r; t_DefaultLocale := t_DefaultLocale r;
     t_LicensedSeats := t_LicensedSeats r; t_OwnerlessSince := t_OwnerlessSince r;
     t_OverageSince := t_OverageSince r; t_ResidencyMode := t_ResidencyMode r;
     t_RecordVersion := t_RecordVersion r; t_CreatedAt := v; t_UpdatedAt := t_UpdatedAt r;
     t_DeletedAt := t_DeletedAt r |}.

Definition set_t_UpdatedAt (v : time) (r : Tenant) : Tenant :=
  {| t_ID := t_ID r; t_Slug := t_Slug r; t_Name := t_Name r; t_Plan := t_Plan r;
     t_FeatureFlags := t_FeatureFlags r; t_Status := t_Status r; t_TrialEndsAt := t_TrialEndsAt r;
     t_TrialReactivationCount := t_TrialReactivationCount r;
     t_SubscriptionStartedAt := t_SubscriptionStartedAt r; t_CancelledAt := t_CancelledAt r;
     t_SuspensionSource := t_SuspensionSource r; t_LastEventAt := t_LastEventAt r; t_RealmID := t_RealmID r;
     t_RealmType := t_RealmType r; t_KeycloakShard := t_KeycloakShard r;
     t_MFAFreshnessSeconds := t_MFAFreshnessSeconds r; t_LocalAccountsEnabled := t_LocalAccountsEnabled r;
     t_RealmSyncPending := t_RealmSyncPending r; t_DefaultLocale := t_DefaultLocale r;
     t_LicensedSeats := t_LicensedSeats r; t_OwnerlessSince := t_OwnerlessSince r;
     t_OverageSince := t_OverageSince r; t_ResidencyMode := t_ResidencyMode r;
     t_RecordVersion := t_RecordVersion r; t_CreatedAt := t_CreatedAt r; t_UpdatedAt := v;
     t_DeletedAt := t_DeletedAt r |}.

Definition set_t_DeletedAt (v : option time) (r : Tenant) : Tenant :=
  {| t_ID := t_ID r; t_Slug := t_Slug r; t_Name := t_Name r; t_Plan := t_Plan r;
     t_FeatureFlags := t_FeatureFlags r; t_Status := t_Status r; t_TrialEndsAt := t_TrialEndsAt r;
     t_TrialReactivationCount := t_TrialReactivationCount r;
     t_SubscriptionStartedAt := t_SubscriptionStartedAt r; t_CancelledAt := t_CancelledAt r;
     t_SuspensionSource := t_SuspensionSource r; t_LastEventAt := t_LastEventAt r; t_RealmID := t_RealmID r;
     t_RealmType := t_RealmType r; t_KeycloakShard := t_KeycloakShard r;
     t_MFAFreshnessSeconds := t_MFAFreshnessSeconds r; t_LocalAccountsEnabled := t_LocalAccountsEnabled r;
     t_RealmSyncPending := t_RealmSyncPending r; t_DefaultLocale := t_DefaultLocale r;
     t_LicensedSeats := t_LicensedSeats r; t_OwnerlessSince := t_OwnerlessSince r;
     t_OverageSince := t_OverageSince r; t_ResidencyMode := t_ResidencyMode r;
     t_RecordVersion := t_RecordVersion r; t_CreatedAt := t_CreatedAt r; t_UpdatedAt := t_UpdatedAt r;
     t_DeletedAt := v |}.

Definition set_tm_Status (v : MembershipStatus) (r : TenantMembership) : TenantMembership :=
  {| tm_ID := tm_ID r; tm_TenantID := tm_TenantID r; tm_UserID := tm_UserID r; tm_Status := v;
     tm_RecordVersion := tm_RecordVersion r; tm_CreatedAt := tm_CreatedAt r; tm_UpdatedAt := tm_UpdatedAt r;
     tm_DeletedAt := tm_DeletedAt r |}.

Definition set_tm_RecordVersion (v : Z) (r : TenantMembership) : TenantMembership :=
  {| tm_ID := tm_ID r; tm_TenantID := tm_TenantID r; tm_UserID := tm_UserID r; tm_Status := tm_Status r;
     tm_RecordVersion := v; tm_CreatedAt := tm_CreatedAt r; tm_UpdatedAt := tm_UpdatedAt r;
     tm_DeletedAt := tm_DeletedAt r |}.

Definition set_tm_UpdatedAt (v : time) (r : TenantMembership) : TenantMembership :=
  {| tm_ID := tm_ID r; tm_TenantID := tm_TenantID r; tm_UserID := tm_UserID r; tm_Status := tm_Status r;
     tm_RecordVersion := tm_RecordVersion r; tm_CreatedAt := tm_CreatedAt r; tm_UpdatedAt := v;
     tm_DeletedAt := tm_DeletedAt r |}.

Definition set_tm_DeletedAt (v : option time) (r : TenantMembership) : TenantMembership :=
  {| tm_ID := tm_ID r; tm_TenantID := tm_TenantID r; tm_UserID := tm_UserID r; tm_Status := tm_Status r;
     tm_RecordVersion := tm_RecordVersion r; tm_CreatedAt := tm_CreatedAt r; tm_UpdatedAt := tm_UpdatedAt r;
     tm_DeletedAt := v |}.

Definition set_tr_RecordVersion (v : Z) (r : TenantRole) : TenantRole :=
  {| tr_ID := tr_ID r; tr_TenantID := tr_TenantID r; tr_UserID := tr_UserID r;
     tr_TenantMembershipID := tr_TenantMembershipID r; tr_RoleCode := tr_RoleCode r;
     tr_GrantedBy := tr_GrantedBy r; tr_RecordVersion := v; tr_CreatedAt := tr_CreatedAt r;
     tr_UpdatedAt := tr_UpdatedAt r; tr_DeletedAt := tr_DeletedAt r |}.

Definition set_tr_UpdatedAt (v : time) (r : TenantRole) : TenantRole :=
  {| tr_ID := tr_ID r; tr_TenantID := tr_TenantID r; tr_UserID := tr_UserID r;
     tr_TenantMembershipID := tr_TenantMembershipID r; tr_RoleCode := tr_RoleCode r;
     tr_GrantedBy := tr_GrantedBy r; tr_RecordVersion := tr_RecordVersion r; tr_CreatedAt := tr_CreatedAt r;
     tr_UpdatedAt := v; tr_DeletedAt := tr_DeletedAt r |}.

Definition set_tr_DeletedAt (v : option time) (r : TenantRole) : TenantRole :=
  {| tr_ID := tr_ID r; tr_TenantID := tr_TenantID r; tr_UserID := tr_UserID r;
     tr_TenantMembershipID := tr_TenantMembershipID r; tr_RoleCode := tr_RoleCode r;
     tr_GrantedBy := tr_GrantedBy r; tr_RecordVersion := tr_RecordVersion r; tr_CreatedAt := tr_CreatedAt r;
     tr_UpdatedAt := tr_UpdatedAt r; tr_DeletedAt := v |}.

Definition set_dm_RoleLevel (v : DeptRole) (r : DeptMembership) : DeptMembership :=
  {| dm_ID := dm_ID r; dm_TenantID := dm_TenantID r; dm_UserID := dm_UserID r;
     dm_TenantMembershipID := dm_TenantMembershipID r; dm_DepartmentID := dm_DepartmentID r;
     dm_RoleLevel := v; dm_GrantedBy := dm_GrantedBy r; dm_RecordVersion := dm_RecordVersion r;
     dm_CreatedAt := dm_CreatedAt r; dm_UpdatedAt := dm_UpdatedAt r; dm_DeletedAt := dm_DeletedAt r |}.

Definition set_dm_GrantedBy (v : uuid) (r : DeptMembership) : DeptMembership :=
  {| dm_ID := dm_ID r; dm_TenantID := dm_TenantID r; dm_UserID := dm_UserID r;
     dm_TenantMembershipID := dm_TenantMembershipID r; dm_DepartmentID := dm_DepartmentID r;
     dm_RoleLevel := dm_RoleLevel r; dm_GrantedBy := v; dm_RecordVersion := dm_RecordVersion r;
     dm_CreatedAt := dm_CreatedAt r; dm_UpdatedAt := dm_UpdatedAt r; dm_DeletedAt := dm_DeletedAt r |}.

Definition set_dm_RecordVersion (v : Z) (r : DeptMembership) : DeptMembership :=
  {| dm_ID := dm_ID r; dm_TenantID := dm_TenantID r; dm_UserID := dm_UserID r;
     dm_TenantMembershipID := dm_TenantMembershipID r; dm_DepartmentID := dm_DepartmentID r;
     dm_RoleLevel := dm_RoleLevel r; dm_GrantedBy := dm_GrantedBy r; dm_RecordVersion := v;
     dm_CreatedAt := dm_CreatedAt r; dm_UpdatedAt := dm_UpdatedAt r; dm_DeletedAt := dm_DeletedAt r |}.

Definition set_dm_UpdatedAt (v : time) (r : DeptMembership) : DeptMembership :=
  {| dm_ID := dm_ID r; dm_TenantID := dm_TenantID r; dm_UserID := dm_UserID r;
     dm_TenantMembershipID := dm_TenantMembershipID r; dm_DepartmentID := dm_DepartmentID r;
     dm_RoleLevel := dm_RoleLevel r; dm_GrantedBy := dm_GrantedBy r; dm_RecordVersion := dm_RecordVersion r;
     dm_CreatedAt := dm_CreatedAt r; dm_UpdatedAt := v; dm_DeletedAt := dm_DeletedAt r |}.

Definition set_dm_DeletedAt (v : option time) (r : DeptMembership) : DeptMembership :=
  {| dm_ID := dm_ID r; dm_TenantID := dm_TenantID r; dm_UserID := dm_UserID r;
     dm_TenantMembershipID := dm_TenantMembershipID r; dm_DepartmentID := dm_DepartmentID r;
     dm_RoleLevel := dm_RoleLevel r; dm_GrantedBy := dm_GrantedBy r; dm_RecordVersion := dm_RecordVersion r;
     dm_CreatedAt := dm_CreatedAt r; dm_UpdatedAt := dm_UpdatedAt r; dm_DeletedAt := v |}.

Definition set_drl_DisplayName (v : string) (r : DeptRoleLabel) : DeptRoleLabel :=
  {| drl_ID := drl_ID r; drl_TenantID := drl_TenantID r; drl_RoleCode := drl_RoleCode r; drl_DisplayName := v;
     drl_RecordVersion := drl_RecordVersion r; drl_CreatedAt := drl_CreatedAt r;
     drl_UpdatedAt := drl_UpdatedAt r |}.

Definition set_drl_RecordVersion (v : Z) (r : DeptRoleLabel) : DeptRoleLabel :=
  {| drl_ID := drl_ID r; drl_TenantID := drl_TenantID r; drl_RoleCode := drl_RoleCode r;
     drl_DisplayName := drl_DisplayName r; drl_RecordVersion := v; drl_CreatedAt := drl_CreatedAt r;
     drl_UpdatedAt := drl_UpdatedAt r |}.

Definition set_drl_UpdatedAt (v : time) (r : DeptRoleLabel) : DeptRoleLabel :=
  {| drl_ID := drl_ID r; drl_TenantID := drl_TenantID r; drl_RoleCode := drl_RoleCode r;
     drl_DisplayName := drl_DisplayName r; drl_RecordVersion := drl_RecordVersion r;
     drl_CreatedAt := drl_CreatedAt r; drl_UpdatedAt := v |}.

Definition set_td_IsActive (v : bool) (r : TenantDepartment) : TenantDepartment :=
  {| td_TenantID := td_TenantID r; td_DepartmentID := td_DepartmentID r; td_IsActive := v;
     td_RecordVersion := td_RecordVersion r; td_CreatedAt := td_CreatedAt r;
     td_UpdatedAt := td_UpdatedAt r |}.

Definition set_td_RecordVersion (v : Z) (r : TenantDepartment) : TenantDepartment :=
  {| td_TenantID := td_TenantID r; td_DepartmentID := td_DepartmentID r; td_IsActive := td_IsActive r;
     td_RecordVersion := v; td_CreatedAt := td_CreatedAt r; td_UpdatedAt := td_UpdatedAt r |}.

Definition set_td_UpdatedAt (v : time) (r : TenantDepartment) : TenantDepartment :=
  {| td_TenantID := td_TenantID r; td_DepartmentID := td_DepartmentID r; td_IsActive := td_IsActive r;
     td_RecordVersion := td_RecordVersion r; td_CreatedAt := td_CreatedAt r; td_UpdatedAt := v |}.

Definition set_pi_ID (v : uuid) (r : PendingInvitation) : PendingInvitation :=
  {| pi_ID := v; pi_TenantID := pi_TenantID r; pi_Email := pi_Email r; pi_FullName := pi_FullName r;
     pi_InitialTenantRoles := pi_InitialTenantRoles r; pi_InitialDeptMappings := pi_InitialDeptMappings r;
     pi_InvitedBy := pi_InvitedBy r; pi_KeycloakUserID := pi_KeycloakUserID r; pi_Status := pi_Status r;
     pi_ExpiresAt := pi_ExpiresAt r; pi_AcceptedAt := pi_AcceptedAt r;
     pi_KCCleanupPending := pi_KCCleanupPending r; pi_RecordVersion := pi_RecordVersion r;
     pi_CreatedAt := pi_CreatedAt r; pi_UpdatedAt := pi_UpdatedAt r |}.

Definition set_pi_Email (v : string) (r : PendingInvitation) : PendingInvitation :=
  {| pi_ID := pi_ID r; pi_TenantID := pi_TenantID r; pi_Email := v; pi_FullName := pi_FullName r;
     pi_InitialTenantRoles := pi_InitialTenantRoles r; pi_InitialDeptMappings := pi_InitialDeptMappings r;
     pi_InvitedBy := pi_InvitedBy r; pi_KeycloakUserID := pi_KeycloakUserID r; pi_Status := pi_Status r;
     pi_ExpiresAt := pi_ExpiresAt r; pi_AcceptedAt := pi_AcceptedAt r;
     pi_KCCleanupPending := pi_KCCleanupPending r; pi_RecordVersion := pi_RecordVersion r;
     pi_CreatedAt := pi_CreatedAt r; pi_UpdatedAt := pi_UpdatedAt r |}.

Definition set_pi_FullName (v : string) (r : PendingInvitation) : PendingInvitation :=
  {| pi_ID := pi_ID r; pi_TenantID := pi_TenantID r; pi_Email := pi_Email r; pi_FullName := v;
     pi_InitialTenantRoles := pi_InitialTenantRoles r; pi_InitialDeptMappings := pi_InitialDeptMappings r;
     pi_InvitedBy := pi_InvitedBy r; pi_KeycloakUserID := pi_KeycloakUserID r; pi_Status := pi_Status r;
     pi_ExpiresAt := pi_ExpiresAt r; pi_AcceptedAt := pi_AcceptedAt r;
     pi_KCCleanupPending := pi_KCCleanupPending r; pi_RecordVersion := pi_RecordVersion r;
     pi_CreatedAt := pi_CreatedAt r; pi_UpdatedAt := pi_UpdatedAt r |}.

Definition set_pi_KeycloakUserID (v : option uuid) (r : PendingInvitation) : PendingInvitation :=
  {| pi_ID := pi_ID r; pi_TenantID := pi_TenantID r; pi_Email := pi_Email r; pi_FullName := pi_FullName r;
     pi_InitialTenantRoles := pi_InitialTenantRoles r; pi_InitialDeptMappings := pi_InitialDeptMappings r;
     pi_InvitedBy := pi_InvitedBy r; pi_KeycloakUserID := v; pi_Status := pi_Status r;
     pi_ExpiresAt := pi_ExpiresAt r; pi_AcceptedAt := pi_AcceptedAt r;
     pi_KCCleanupPending := pi_KCCleanupPending r; pi_RecordVersion := pi_RecordVersion r;
     pi_CreatedAt := pi_CreatedAt r; pi_UpdatedAt := pi_UpdatedAt r |}.

Definition set_pi_Status (v : InvitationStatus) (r : PendingInvitation) : PendingInvitation :=
  {| pi_ID := pi_ID r; pi_TenantID := pi_TenantID r; pi_Email := pi_Email r; pi_FullName := pi_FullName r;
     pi_InitialTenantRoles := pi_InitialTenantRoles r; pi_InitialDeptMappings := pi_InitialDeptMappings r;
     pi_InvitedBy := pi_InvitedBy r; pi_KeycloakUserID := pi_KeycloakUserID r; pi_Status := v;
     pi_ExpiresAt := pi_ExpiresAt r; pi_AcceptedAt := pi_AcceptedAt r;
     pi_KCCleanupPending := pi_KCCleanupPending r; pi_RecordVersion := pi_RecordVersion r;
     pi_CreatedAt := pi_CreatedAt r; pi_UpdatedAt := pi_UpdatedAt r |}.

Definition set_pi_AcceptedAt (v : option time) (r : PendingInvitation) : PendingInvitation :=
  {| pi_ID := pi_ID r; pi_TenantID := pi_TenantID r; pi_Email := pi_Email r; pi_FullName := pi_FullName r;
     pi_InitialTenantRoles := pi_InitialTenantRoles r; pi_InitialDeptMappings := pi_InitialDeptMappings r;
     pi_InvitedBy := pi_InvitedBy r; pi_KeycloakUserID := pi_KeycloakUserID r; pi_Status := pi_Status r;
     pi_ExpiresAt := pi_ExpiresAt r; pi_AcceptedAt := v; pi_KCCleanupPending := pi_KCCleanupPending r;
     pi_RecordVersion := pi_RecordVersion r; pi_CreatedAt := pi_CreatedAt r;
     pi_UpdatedAt := pi_UpdatedAt r |}.

Definition set_pi_KCCleanupPending (v : bool) (r : PendingInvitation) : PendingInvitation :=
  {| pi_ID := pi_ID r; pi_TenantID := pi_TenantID r; pi_Email := pi_Email r; pi_FullName := pi_FullName r;
     pi_InitialTenantRoles := pi_InitialTenantRoles r; pi_InitialDeptMappings := pi_InitialDeptMappings r;
     pi_InvitedBy := pi_InvitedBy r; pi_KeycloakUserID := pi_KeycloakUserID r; pi_Status := pi_Status r;
     pi_ExpiresAt := pi_ExpiresAt r; pi_AcceptedAt := pi_AcceptedAt r; pi_KCCleanupPending := v;
     pi_RecordVersion := pi_RecordVersion r; pi_CreatedAt := pi_CreatedAt r;
     pi_UpdatedAt := pi_UpdatedAt r |}.

Definition set_pi_RecordVersion (v : Z) (r : PendingInvitation) : PendingInvitation :=
  {| pi_ID := pi_ID r; pi_TenantID := pi_TenantID r; pi_Email := pi_Email r; pi_FullName := pi_FullName r;
     pi_InitialTenantRoles := pi_InitialTenantRoles r; pi_InitialDeptMappings := pi_InitialDeptMappings r;
     pi_InvitedBy := pi_InvitedBy r; pi_KeycloakUserID := pi_KeycloakUserID r; pi_Status := pi_Status r;
     pi_ExpiresAt := pi_ExpiresAt r; pi_AcceptedAt := pi_AcceptedAt r;
     pi_KCCleanupPending := pi_KCCleanupPending r; pi_RecordVersion := v; pi_CreatedAt := pi_CreatedAt r;
     pi_UpdatedAt := pi_UpdatedAt r |}.

Definition set_pi_UpdatedAt (v : time) (r : PendingInvitation) : PendingInvitation :=
  {| pi_ID := pi_ID r; pi_TenantID := pi_TenantID r; pi_Email := pi_Email r; pi_FullName := pi_FullName r;
     pi_InitialTenantRoles := pi_InitialTenantRoles r; pi_InitialDeptMappings := pi_InitialDeptMappings r;
     pi_InvitedBy := pi_InvitedBy r; pi_KeycloakUserID := pi_KeycloakUserID r; pi_Status := pi_Status r;
     pi_ExpiresAt := pi_ExpiresAt r; pi_AcceptedAt := pi_AcceptedAt r;
     pi_KCCleanupPending := pi_KCCleanupPending r; pi_RecordVersion := pi_RecordVersion r;
     pi_CreatedAt := pi_CreatedAt r; pi_UpdatedAt := v |}.

(** ** Decidable equality *)

Lemma json_eqb_spec (x y : json) : json_eqb x y = true ↔ x = y.
Proof.
  revert y. refine ((fix IH (x : json) : ∀ y, json_eqb x y = true ↔ x = y := _) x).
  destruct x as [|b|n|s|s|l|l]; intros y.
  1-5: destruct y; simpl; try (split; congruence);
    rewrite ?Bool.eqb_true_iff, ?Z.eqb_eq, ?String.eqb_eq; split; congruence.
  - destruct y as [| | | | |m|]; try (simpl; split; congruence).
    transitivity (l = m); [|split; congruence].
    revert m. induction l as [|a l IHl]; intros [|b m]; simpl; try (split; congruence).
    rewrite andb_true_iff, (IH a b), (IHl m). split; [intros [-> ->]; done|by intros [= -> ->]].
  - destruct y as [| | | | | |m]; try (simpl; split; congruence).
    transitivity (l = m); [|split; congruence].
    revert m. induction l as [|[k a] l IHl]; intros [|[k' b] m]; simpl; try (split; congruence).
    rewrite !andb_true_iff, (IH a b), (IHl m), String.eqb_eq.
    split; [intros [[-> ->] ->]; done|by intros [= -> -> ->]].
Qed.

#[global] Instance json_eq_dec : EqDecision json.
Proof.
  intros x y. destruct (json_eqb x y) eqn:E; [left|right].
  - by apply json_eqb_spec.
  - intros H%json_eqb_spec. congruence.
Defined.

#[global] Instance TenantPlan_eq_dec : EqDecision TenantPlan.
Proof. solve_decision. Defined.

#[global] Instance SubscriptionStatus_eq_dec : EqDecision SubscriptionStatus.
Proof. solve_decision. Defined.

#[global] Instance RealmType_eq_dec : EqDecision RealmType.
Proof. solve_decision. Defined.

#[global] Instance SuspensionSource_eq_dec : EqDecision SuspensionSource.
Proof. solve_decision. Defined.

#[global] Instance ResidencyMode_eq_dec : EqDecision ResidencyMode.
Proof. solve_decision. Defined.

#[global] Instance MembershipStatus_eq_dec : EqDecision MembershipStatus.
Proof. solve_decision. Defined.

#[global] Instance TenantRoleCode_eq_dec : EqDecision TenantRoleCode.
Proof. solve_decision. Defined.

#[global] Instance DeptRole_eq_dec : EqDecision DeptRole.
Proof. solve_decision. Defined.

#[global] Instance InvitationStatus_eq_dec : EqDecision InvitationStatus.
Proof. solve_decision. Defined.

#[global] Instance InvitationDeptMapping_eq_dec : EqDecision InvitationDeptMapping.
Proof. solve_decision. Defined.

#[global] Instance EligibilityReason_eq_dec : EqDecision EligibilityReason.
Proof. solve_decision. Defined.

#[global] Instance sentinel_eq_dec : EqDecision sentinel.
Proof. solve_decision. Defined.

#[global] Instance Tenant_eq_dec : EqDecision Tenant.
Proof. solve_decision. Defined.

#[global] Instance TenantMembership_eq_dec : EqDecision TenantMembership.
Proof. solve_decision. Defined.

#[global] Instance TenantRole_eq_dec : EqDecision TenantRole.
Proof. solve_decision. Defined.

#[global] Instance DeptMembership_eq_dec : EqDecision DeptMembership.
Proof. solve_decision. Defined.

#[global] Instance DeptRoleLabel_eq_dec : EqDecision DeptRoleLabel.
Proof. solve_decision. Defined.

#[global] Instance TenantDepartment_eq_dec : EqDecision TenantDepartment.
Proof. solve_decision. Defined.

#[global] Instance PendingInvitation_eq_dec : EqDecision PendingInvitation.
Proof. solve_decision. Defined.

#[global] Instance MembershipListCursor_eq_dec : EqDecision MembershipListCursor.
Proof. solve_decision. Defined.

#[global] Instance DeptMembershipView_eq_dec : EqDecision DeptMembershipView.
Proof. solve_decision. Defined.

#[global] Instance EventPayload_eq_dec : EqDecision EventPayload.
Proof. solve_decision. Defined.

#[global] Instance DomainEvent_eq_dec : EqDecision DomainEvent.
Proof. solve_decision. Defined.

#[global] Instance pg_error_eq_dec : EqDecision pg_error.
Proof. solve_decision. Defined.

#[global] Instance DomainError_eq_dec : EqDecision DomainError.
Proof. solve_decision. Defined.

#[global] Instance error_eq_dec : EqDecision error.
Proof. solve_decision. Defined.

(** ** Lemmas *)

(** Distinct sentinels have distinct wire codes, so matching on the code is
    matching on the sentinel. *)
Lemma sentinel_code_inj s s' : sentinel_code s = sentinel_code s' → s = s'.
Proof. destruct s, s'; simpl; first [reflexivity | discriminate]. Qed.

Lemma errors_Is_fail s m s' :
  errors_Is (fail_with s m) s' = true ↔ s = s'.
Proof.
  simpl. rewrite String.eqb_eq. split; [apply sentinel_code_inj|congruence].
Qed.

(** [Satisfies] is a total preorder on the three levels. *)
Lemma Satisfies_refl r : dept_role_known r = true → Satisfies r r = true.
Proof. by destruct r. Qed.

Lemma Satisfies_trans a b c :
  Satisfies a b = true → Satisfies b c = true → Satisfies a c = true.
Proof. by destruct a, b, c. Qed.
