(* ===== verification/Schema.v ===== *)
(** * Schema: the database and its constraints

    The tables of [internal/adapter/outbound/postgres/migrations], as lists of
    rows, with the constraints and triggers the statements of the repositories
    run into: the CHECK constraints of [tenants], the partial unique indexes,
    the foreign keys between the child tables, the [touch_row] trigger and the
    invitation expiry trigger.  Row-level security is not modelled: every
    statement modelled here names the tenant in its WHERE clause. *)

From S2P Require Import Prelude Domain.

(** ** Rows of the service's own bookkeeping tables *)

(** [processed_events]: the inbox's dedup ledger. *)
Record ProcessedEvent : Type := mkProcessedEvent {
  pe_event_id : uuid;
  pe_consumer : string
}.

(** A platform-events envelope, as the consumer reads it.  [env_Payload] is
    the payload's JSON value, [None] when its bytes are not JSON. *)
Record Envelope : Type := mkEnvelope {
  env_ID : string;
  env_Type : string;
  env_TenantID : string;
  env_Timestamp : time;
  env_Payload : option json
}.

(** [port.ParkedTenantEvent], a row of [pending_tenant_events].  The stored
    envelope is the one consumed. *)
Record ParkedTenantEvent : Type := mkParkedTenantEvent {
  pte_EventID : uuid;
  pte_TenantID : uuid;
  pte_EventType : string;
  pte_OccurredAt : time;
  pte_Envelope : Envelope;
  pte_ParkedAt : time
}.

(** A row of [trial_signup_ledger]. *)
Record LedgerRow : Type := mkLedgerRow {
  tsl_email_hash : string;
  tsl_tenant_id : option uuid;
  tsl_created_at : time
}.

#[global] Instance ProcessedEvent_eq_dec : EqDecision ProcessedEvent.
Proof. solve_decision. Defined.

#[global] Instance Envelope_eq_dec : EqDecision Envelope.
Proof. solve_decision. Defined.

#[global] Instance ParkedTenantEvent_eq_dec : EqDecision ParkedTenantEvent.
Proof. solve_decision. Defined.

#[global] Instance LedgerRow_eq_dec : EqDecision LedgerRow.
Proof. solve_decision. Defined.

(** The database: one list per table, plus the transactional outbox. *)
Record DB : Type := mkDB {
  tenants : list Tenant;
  tenant_departments : list TenantDepartment;
  tenant_memberships : list TenantMembership;
  tenant_roles : list TenantRole;
  dept_memberships : list DeptMembership;
  dept_role_labels : list DeptRoleLabel;
  pending_invitations : list PendingInvitation;
  processed_events : list ProcessedEvent;
  pending_tenant_events : list ParkedTenantEvent;
  trial_signup_ledger : list LedgerRow;
  outbox_events : list DomainEvent
}.

Definition set_tenants (v : list Tenant) (r : DB) : DB :=
  {| tenants := v; tenant_departments := tenant_departments r; tenant_memberships := tenant_memberships r;
     tenant_roles := tenant_roles r; dept_memberships := dept_memberships r;
     dept_role_labels := dept_role_labels r; pending_invitations := pending_invitations r;
     processed_events := processed_events r; pending_tenant_events := pending_tenant_events r;
     trial_signup_ledger := trial_signup_ledger r; outbox_events := outbox_events r |}.

Definition set_tenant_departments (v : list TenantDepartment) (r : DB) : DB :=
  {| tenants := tenants r; tenant_departments := v; tenant_memberships := tenant_memberships r;
     tenant_roles := tenant_roles r; dept_memberships := dept_memberships r;
     dept_role_labels := dept_role_labels r; pending_invitations := pending_invitations r;
     processed_events := processed_events r; pending_tenant_events := pending_tenant_events r;
     trial_signup_ledger := trial_signup_ledger r; outbox_events := outbox_events r |}.

Definition set_tenant_memberships (v : list TenantMembership) (r : DB) : DB :=
  {| tenants := tenants r; tenant_departments := tenant_departments r; tenant_memberships := v;
     tenant_roles := tenant_roles r; dept_memberships := dept_memberships r;
     dept_role_labels := dept_role_labels r; pending_invitations := pending_invitations r;
     processed_events := processed_events r; pending_tenant_events := pending_tenant_events r;
     trial_signup_ledger := trial_signup_ledger r; outbox_events := outbox_events r |}.

Definition set_tenant_roles (v : list TenantRole) (r : DB) : DB :=
  {| tenants := tenants r; tenant_departments := tenant_departments r;
     tenant_memberships := tenant_memberships r; tenant_roles := v; dept_memberships := dept_memberships r;
     dept_role_labels := dept_role_labels r; pending_invitations := pending_invitations r;
     processed_events := processed_events r; pending_tenant_events := pending_tenant_events r;
     trial_signup_ledger := trial_signup_ledger r; outbox_events := outbox_events r |}.

Definition set_dept_memberships (v : list DeptMembership) (r : DB) : DB :=
  {| tenants := tenants r; tenant_departments := tenant_departments r;
     tenant_memberships := tenant_memberships r; tenant_roles := tenant_roles r; dept_memberships := v;
     dept_role_labels := dept_role_labels r; pending_invitations := pending_invitations r;
     processed_events := processed_events r; pending_tenant_events := pending_tenant_events r;
     trial_signup_ledger := trial_signup_ledger r; outbox_events := outbox_events r |}.

Definition set_dept_role_labels (v : list DeptRoleLabel) (r : DB) : DB :=
  {| tenants := tenants r; tenant_departments := tenant_departments r;
     tenant_memberships := tenant_memberships r; tenant_roles := tenant_roles r;
     dept_memberships := dept_memberships r; dept_role_labels := v;
     pending_invitations := pending_invitations r; processed_events := processed_events r;
     pending_tenant_events := pending_tenant_events r; trial_signup_ledger := trial_signup_ledger r;
     outbox_events := outbox_events r |}.

Definition set_pending_invitations (v : list PendingInvitation) (r : DB) : DB :=
  {| tenants := tenants r; tenant_departments := tenant_departments r;
     tenant_memberships := tenant_memberships r; tenant_roles := tenant_roles r;
     dept_memberships := dept_memberships r; dept_role_labels := dept_role_labels r; pending_invitations := v;
     processed_events := processed_events r; pending_tenant_events := pending_tenant_events r;
     trial_signup_ledger := trial_signup_ledger r; outbox_events := outbox_events r |}.

Definition set_processed_events (v : list ProcessedEvent) (r : DB) : DB :=
  {| tenants := tenants r; tenant_departments := tenant_departments r;
     tenant_memberships := tenant_memberships r; tenant_roles := tenant_roles r;
     dept_memberships := dept_memberships r; dept_role_labels := dept_role_labels r;
     pending_invitations := pending_invitations r; processed_events := v;
     pending_tenant_events := pending_tenant_events r; trial_signup_ledger := trial_signup_ledger r;
     outbox_events := outbox_events r |}.

Definition set_pending_tenant_events (v : list ParkedTenantEvent) (r : DB) : DB :=
  {| tenants := tenants r; tenant_departments := tenant_departments r;
     tenant_memberships := tenant_memberships r; tenant_roles := tenant_roles r;
     dept_memberships := dept_memberships r; dept_role_labels := dept_role_labels r;
     pending_invitations := pending_invitations r; processed_events := processed_events r;
     pending_tenant_events := v; trial_signup_ledger := trial_signup_ledger r;
     outbox_events := outbox_events r |}.

Definition set_trial_signup_ledger (v : list LedgerRow) (r : DB) : DB :=
  {| tenants := tenants r; tenant_departments := tenant_departments r;
     tenant_memberships := tenant_memberships r; tenant_roles := tenant_roles r;
     dept_memberships := dept_memberships r; dept_role_labels := dept_role_labels r;
     pending_invitations := pending_invitations r; processed_events := processed_events r;
     pending_tenant_events := pending_tenant_events r; trial_signup_ledger := v;
     outbox_events := outbox_events r |}.

Definition set_outbox_events (v : list DomainEvent) (r : DB) : DB :=
  {| tenants := tenants r; tenant_departments := tenant_departments r;
     tenant_memberships := tenant_memberships r; tenant_roles := tenant_roles r;
     dept_memberships := dept_memberships r; dept_role_labels := dept_role_labels r;
     pending_invitations := pending_invitations r; processed_events := processed_events r;
     pending_tenant_events := pending_tenant_events r; trial_signup_ledger := trial_signup_ledger r;
     outbox_events := v |}.

(** ** The [touch_row] trigger

    BEFORE UPDATE, when the row is distinct from the old one: [updated_at] is
    the transaction's [now()] and [record_version] the old version plus one. *)
Class Touch (R : Type) := touch : time → R → R → R.

#[global] Instance Touch_Tenant : Touch Tenant := λ now old new,
  set_t_RecordVersion (t_RecordVersion old + 1) (set_t_UpdatedAt now new).
#[global] Instance Touch_TenantMembership : Touch TenantMembership := λ now old new,
  set_tm_RecordVersion (tm_RecordVersion old + 1) (set_tm_UpdatedAt now new).
#[global] Instance Touch_TenantRole : Touch TenantRole := λ now old new,
  set_tr_RecordVersion (tr_RecordVersion old + 1) (set_tr_UpdatedAt now new).
#[global] Instance Touch_DeptMembership : Touch DeptMembership := λ now old new,
  set_dm_RecordVersion (dm_RecordVersion old + 1) (set_dm_UpdatedAt now new).
#[global] Instance Touch_DeptRoleLabel : Touch DeptRoleLabel := λ now old new,
  set_drl_RecordVersion (drl_RecordVersion old + 1) (set_drl_UpdatedAt now new).
#[global] Instance Touch_TenantDepartment : Touch TenantDepartment := λ now old new,
  set_td_RecordVersion (td_RecordVersion old + 1) (set_td_UpdatedAt now new).
#[global] Instance Touch_PendingInvitation : Touch PendingInvitation := λ now old new,
  set_pi_RecordVersion (pi_RecordVersion old + 1) (set_pi_UpdatedAt now new).

(** The row an [UPDATE ... SET f] leaves in place of [r]. *)
Definition touched {R} `{EqDecision R} `{Touch R} (now : time) (f : R → R) (r : R) : R :=
  let r' := f r in
  if decide (r' = r) then r else touch now r r'.

(** ** CHECK constraints of [tenants] *)

(** A Go int written to an [int] column. *)
Definition int4 (n : Z) : bool := (-2147483648 <=? n) && (n <=? 2147483647).

(** chk_trial_ends_at_required *)
Definition chk_trial_ends_at_required (t : Tenant) : bool :=
  match t_Status t with
  | StatusTrial | StatusTrialExpired => notNull (t_TrialEndsAt t)
  | _ => true
  end.

(** chk_subscription_started_required *)
Definition chk_subscription_started_required (t : Tenant) : bool :=
  match t_Status t with
  | StatusTrial | StatusTrialExpired | StatusSuspended => true
  | _ => notNull (t_SubscriptionStartedAt t)
  end.

(** chk_offboarded_soft_deleted *)
Definition chk_offboarded_soft_deleted (t : Tenant) : bool :=
  match t_Status t with
  | StatusOffboarded => notNull (t_DeletedAt t)
  | _ => true
  end.

(** chk_cancelled_at_required; a NULL comparison in a CHECK passes. *)
Definition chk_cancelled_at_required (t : Tenant) : bool :=
  match t_Status t with
  | StatusCancelled | StatusOffboarded => notNull (t_CancelledAt t)
  | StatusSuspended =>
      match t_SuspensionSource t with
      | Some SuspensionSourceBillingLapse => notNull (t_CancelledAt t)
      | _ => true
      end
  | _ => isNull (t_CancelledAt t)
  end.

(** chk_suspension_source_required *)
Definition chk_suspension_source_required (t : Tenant) : bool :=
  Bool.eqb (t_Status t ==? StatusSuspended) (notNull (t_SuspensionSource t)).

(** Every constraint of the table that speaks of one row, in name order:
    the name of the first one the row violates. *)
Definition tenant_checks (t : Tenant) : option pg_error :=
  if negb (plan_known (t_Plan t)) || negb (realm_known (t_RealmType t)) then Some PgInvalidEnum
  else if negb (int4 (t_LicensedSeats t)) || negb (int4 (t_MFAFreshnessSeconds t)) then Some PgNumericOutOfRange
  else if negb (chk_cancelled_at_required t) then Some (PgCheckViolation "chk_cancelled_at_required")
  else if negb (chk_offboarded_soft_deleted t) then Some (PgCheckViolation "chk_offboarded_soft_deleted")
  else if negb (chk_subscription_started_required t) then Some (PgCheckViolation "chk_subscription_started_required")
  else if negb (chk_suspension_source_required t) then Some (PgCheckViolation "chk_suspension_source_required")
  else if negb (chk_trial_ends_at_required t) then Some (PgCheckViolation "chk_trial_ends_at_required")
  else if String.eqb (t_KeycloakShard t) "" then Some (PgCheckViolation "tenants_keycloak_shard_not_empty")
  else if negb (0 <? t_LicensedSeats t) then Some (PgCheckViolation "tenants_licensed_seats_positive")
  else if negb ((60 <=? t_MFAFreshnessSeconds t) && (t_MFAFreshnessSeconds t <=? 900))
       then Some (PgCheckViolation "tenants_mfa_freshness_range")
  else if String.eqb (t_Name t) "" then Some (PgCheckViolation "tenants_name_not_empty")
  else if negb ((0 <=? t_TrialReactivationCount t) && (t_TrialReactivationCount t <=? 1))
       then Some (PgCheckViolation "tenants_reactivation_range")
  else if String.eqb (t_RealmID t) "" then Some (PgCheckViolation "tenants_realm_id_not_empty")
  else if negb (0 <? t_RecordVersion t) then Some (PgCheckViolation "tenants_record_version_positive")
  else match t_ResidencyMode t with
       | ResidencyOther _ => Some (PgCheckViolation "tenants_residency_mode_check")
       | _ => if String.eqb (t_Slug t) "" then Some (PgCheckViolation "tenants_slug_not_empty") else None
       end.

Definition tenant_ok (t : Tenant) : bool := isNull (tenant_checks t).

(** uq_tenants_realm_id_dedicated: no other dedicated tenant has this realm. *)
Definition realm_free (t : Tenant) (l : list Tenant) : bool :=
  match t_RealmType t with
  | RealmDedicated =>
      negb (exists_row (λ u, negb (t_ID u =? t_ID t) && (t_RealmType u ==? RealmDedicated)
                             && String.eqb (t_RealmID u) (t_RealmID t)) l)
  | _ => true
  end.

(** ** Row visibility *)

Definition t_live (t : Tenant) : bool := isNull (t_DeletedAt t).
Definition tm_live (m : TenantMembership) : bool := isNull (tm_DeletedAt m).
Definition tr_live (r : TenantRole) : bool := isNull (tr_DeletedAt r).
Definition dm_live (d : DeptMembership) : bool := isNull (dm_DeletedAt d).

(** The WHERE clauses the repositories share. *)
Definition t_is (id : uuid) (t : Tenant) : bool := t_ID t =? id.
Definition t_is_live (id : uuid) (t : Tenant) : bool := (t_ID t =? id) && t_live t.
Definition tm_of (tenantID userID : uuid) (m : TenantMembership) : bool :=
  (tm_TenantID m =? tenantID) && (tm_UserID m =? userID) && tm_live m.
Definition tr_of (tenantID userID : uuid) (r : TenantRole) : bool :=
  (tr_TenantID r =? tenantID) && (tr_UserID r =? userID) && tr_live r.
Definition dm_of (tenantID userID : uuid) (d : DeptMembership) : bool :=
  (dm_TenantID d =? tenantID) && (dm_UserID d =? userID) && dm_live d.

(** ** Inserts: the unique indexes and foreign keys a new row can violate *)

Definition fk_tenant (db : DB) (name : string) (tenantID : uuid) : option pg_error :=
  if exists_row (t_is tenantID) (tenants db) then None else Some (PgForeignKeyViolation name).

Definition fk_membership (db : DB) (name : string) (id tenantID userID : uuid) : option pg_error :=
  if exists_row (λ m, (tm_ID m =? id) && (tm_TenantID m =? tenantID) && (tm_UserID m =? userID))
                (tenant_memberships db)
  then None else Some (PgForeignKeyViolation name).

Definition fk_tenant_dept (db : DB) (name : string) (tenantID departmentID : uuid) : option pg_error :=
  if exists_row (λ d, (td_TenantID d =? tenantID) && (td_DepartmentID d =? departmentID))
                (tenant_departments db)
  then None else Some (PgForeignKeyViolation name).

Definition first_error (l : list (option pg_error)) : option pg_error :=
  match List.find notNull l with Some (Some e) => Some e | _ => None end.

Definition check_enum (known : bool) : option pg_error :=
  if known then None else Some PgInvalidEnum.

Definition check_that (name : string) (b : bool) : option pg_error :=
  if b then None else Some (PgCheckViolation name).

(** SQL's [length] of a text: its UTF-8 characters, that is, the bytes that
    do not continue one. *)
Fixpoint char_length (s : string) : Z :=
  match s with
  | EmptyString => 0
  | String c s' =>
      let n := Ascii.N_of_ascii c in
      (if (N.leb 128 n && N.ltb n 192)%N then 0 else 1) + char_length s'
  end.

(** The empty database. *)
Definition empty_db : DB :=
  {| tenants := []; tenant_departments := []; tenant_memberships := []; tenant_roles := [];
     dept_memberships := []; dept_role_labels := []; pending_invitations := [];
     processed_events := []; pending_tenant_events := []; trial_signup_ledger := [];
     outbox_events := [] |}.

(** ** Lemmas *)

Lemma touched_id {R} `{EqDecision R} `{Touch R} now (f : R → R) r :
  f r = r → touched now f r = r.
Proof. intros E. unfold touched. by rewrite decide_True. Qed.

(** An update keeps a column the trigger does not write, when [f] keeps it. *)
Lemma touched_column {R A} `{EqDecision R} `{Touch R} (col : R → A) now (f : R → R) r :
  (∀ n o x, col (touch n o x) = col x) → col (touched now f r) = col (f r).
Proof. intros Hc. unfold touched. destruct (decide _) as [E|E]; [by rewrite E|apply Hc]. Qed.

(** A row that differs gets the next version. *)
Lemma touched_version now f r :
  t_RecordVersion (f r) = t_RecordVersion r →
  t_RecordVersion (touched now f r) =
  if decide (f r = r) then t_RecordVersion r else t_RecordVersion r + 1.
Proof. intros E. unfold touched. destruct (decide _); [done|]. reflexivity. Qed.
