(* ===== verification/Tx.v ===== *)
(** * Tx: the world, transactions and the environment

    Every operation of the program is a function of type [M A]: it takes the
    world (database, cache, calls made to other services, clocks) to a result
    and the world it leaves.  This file defines the world, the monad, the
    transaction runner of [internal/adapter/outbound/postgres/db.go]
    (commit, rollback, retry of deadlocks and serialization failures, the
    mapping of low-level errors), the class [Env] of everything the program
    calls that is not its own code, and a small program logic for
    properties of the database that hold across transactions.

    Concurrency: other transactions act on the database when one of ours
    begins.  Each attempt of a transaction consumes one [Attempt] of the
    world's schedule: the effect other transactions have had on the database
    since our last one, the database clock at BEGIN, and whether the commit
    fails.  Row locks make the statements of one transaction see the state it
    locked; interleavings inside a transaction are not modelled. *)

From S2P Require Import Prelude Domain Schema.

(** ** The world *)

(** One try of a transaction. *)
Record Attempt : Type := mkAttempt {
  at_now : time;              (* now() of the transaction *)
  at_env : DB → DB;           (* what other transactions did before it began *)
  at_fail : option error      (* the error the database reports instead of committing *)
}.

(** Values the program stores in its cache. *)
Inductive cache_val : Type :=
| CSeatUsage (u : SeatUsage)
| CTenant (t : Tenant)
| CPlans (l : list Plan)
| CDepartments (l : list Department)
| CGroupDepts (l : list GroupDeptMapping)
| CGroupDeptRoles (l : list GroupDeptRoleMapping)
| CGroupTenantRoles (l : list GroupTenantRoleMapping)
| CMembership (p : MembershipProjection) (planGen : string)
| CBytes (s : string).

(** [port.AuditActor] *)
Record AuditActor : Type := mkAuditActor {
  aa_Type : string;
  aa_ID : string;
  aa_Display : string
}.

(** [port.AuditWriteRequest] *)
Record AuditWriteRequest : Type := mkAuditWriteRequest {
  aw_IdempotencyKey : string;
  aw_TenantID : uuid;
  aw_EntryType : string;
  aw_Action : string;
  aw_Actor : AuditActor;
  aw_Target : option (string * string);
  aw_OccurredAt : time;
  aw_SourceService : string;
  aw_SourceEventType : string;
  aw_IPAddress : string;
  aw_UserAgent : string;
  aw_Metadata : gmap string json
}.

(** Calls to other services, in the order they are made. *)
Inductive Call : Type :=
| CallGetDelegateImpact (tenantID userID : uuid) (delegationID : option uuid)
| CallReassignDelegate (tenantID oldUserID newUserID : uuid)
| CallCancelByDelegate (tenantID userID : uuid)
| CallCreateInvitedUser (tenantID : uuid) (email fullName : string) (requiredActions : list string) (slug : string)
| CallDeleteUser (tenantID userID : uuid)
| CallPatchRealmConfig (tenantID : uuid) (localAccountsEnabled : option bool)
| CallRevokeUserSessions (tenantID userID : uuid)
| CallResetMFA (tenantID userID : uuid)
| CallIsServiceAccount (tenantID userID : uuid)
| CallDeptDelegate (tenantID userID deptID : uuid)
| CallGetIDPCount (tenantID : uuid)
| CallResolveGroups (tenantID : uuid) (groups : list string)
| CallCatalogDepartments
| CallCatalogPlans
| CallCacheGet (key : string)
| CallCacheMGet (keys : list string)
| CallCacheSet (key : string)
| CallCacheDelete (keys : list string)
| CallWriteEntry (req : AuditWriteRequest)
| CallSendToDLQ (queueURL body : string) (attributes : list (string * string)) (reason : string).

(** The state a request runs against.  [w_txnow] is the open transaction's
    [now()], [w_clock] the process's own [time.Now()]; [w_uuids] counts the
    uuids generated so far. *)
Record World : Type := mkWorld {
  w_db : DB;
  w_cache : list (string * cache_val);
  w_calls : list Call;
  w_clock : time;
  w_txnow : option time;
  w_sched : list Attempt;
  w_uuids : nat
}.

Definition set_w_db (v : DB) (r : World) : World :=
  {| w_db := v; w_cache := w_cache r; w_calls := w_calls r; w_clock := w_clock r; w_txnow := w_txnow r;
     w_sched := w_sched r; w_uuids := w_uuids r |}.

Definition set_w_cache (v : list (string * cache_val)) (r : World) : World :=
  {| w_db := w_db r; w_cache := v; w_calls := w_calls r; w_clock := w_clock r; w_txnow := w_txnow r;
     w_sched := w_sched r; w_uuids := w_uuids r |}.

Definition set_w_calls (v : list Call) (r : World) : World :=
  {| w_db := w_db r; w_cache := w_cache r; w_calls := v; w_clock := w_clock r; w_txnow := w_txnow r;
     w_sched := w_sched r; w_uuids := w_uuids r |}.

Definition set_w_clock (v : time) (r : World) : World :=
  {| w_db := w_db r; w_cache := w_cache r; w_calls := w_calls r; w_clock := v; w_txnow := w_txnow r;
     w_sched := w_sched r; w_uuids := w_uuids r |}.

Definition set_w_txnow (v : option time) (r : World) : World :=
  {| w_db := w_db r; w_cache := w_cache r; w_calls := w_calls r; w_clock := w_clock r; w_txnow := v;
     w_sched := w_sched r; w_uuids := w_uuids r |}.

Definition set_w_sched (v : list Attempt) (r : World) : World :=
  {| w_db := w_db r; w_cache := w_cache r; w_calls := w_calls r; w_clock := w_clock r; w_txnow := w_txnow r;
     w_sched := v; w_uuids := w_uuids r |}.

Definition set_w_uuids (v : nat) (r : World) : World :=
  {| w_db := w_db r; w_cache := w_cache r; w_calls := w_calls r; w_clock := w_clock r; w_txnow := w_txnow r;
     w_sched := w_sched r; w_uuids := v |}.

(** ** The monad *)

Definition M (A : Type) : Type := World → result error A * World.

Definition retM {A} (a : A) : M A := λ w, (Ok a, w).

Definition bindM {A B} (m : M A) (k : A → M B) : M B := λ w,
  match m w with
  | (Ok a, w') => k a w'
  | (Err e, w') => (Err e, w')
  end.

(** [return ..., err] *)
Definition throw {A} (e : error) : M A := λ w, (Err e, w).

(** Inspect the error of a call instead of returning it. *)
Definition tryM {A} (m : M A) : M (result error A) := λ w,
  let '(r, w') := m w in (Ok r, w').

(** [fmt.Errorf("msg: %w", err)] around a call. *)
Definition wrapM {A} (msg : string) (m : M A) : M A := λ w,
  match m w with
  | (Err e, w') => (Err (EWrap msg e), w')
  | ok => ok
  end.

#[global] Instance M_ret : MRet M := λ A a, retM a.
#[global] Instance M_bind : MBind M := λ A B k m, bindM m k.

Declare Scope m_scope.
Delimit Scope m_scope with m.
Notation "'let!' x ':=' m 'in' k" := (bindM m (λ x, k))
  (at level 10, x pattern, m at level 200, k at level 200) : m_scope.
Notation "m1 ;; m2" := (bindM m1 (λ _, m2))
  (at level 100, m2 at level 200, right associativity) : m_scope.
Open Scope m_scope.

(** [if cond { return err }] *)
Definition throw_if (c : bool) (e : error) : M unit :=
  if c then throw e else retM tt.

(** [for _, x := range l { ... }] with an early return on error. *)
Fixpoint for_each {A} (l : list A) (body : A → M unit) : M unit :=
  match l with
  | [] => retM tt
  | x :: l' => body x ;; for_each l' body
  end.

(** A loop that accumulates a value. *)
Fixpoint for_fold {A B} (l : list A) (acc : B) (body : B → A → M B) : M B :=
  match l with
  | [] => retM acc
  | x :: l' => let! acc' := body acc x in for_fold l' acc' body
  end.

Definition get_world : M World := λ w, (Ok w, w).

(** [time.Now().UTC()] *)
Definition time_Now : M time := λ w, (Ok (w_clock w), w).

(** ** Statements *)

(** One SQL statement of the open transaction: it sees the database and the
    transaction's [now()]; a statement that fails changes nothing. *)
Definition sql {A} (f : time → DB → result error (A * DB)) : M A := λ w,
  let now := match w_txnow w with Some n => n | None => w_clock w end in
  match f now (w_db w) with
  | Ok (a, d) => (Ok a, set_w_db d w)
  | Err e => (Err e, w)
  end.

(** A statement that only reads. *)
Definition query {A} (f : time → DB → A) : M A := λ w,
  let now := match w_txnow w with Some n => n | None => w_clock w end in
  (Ok (f now (w_db w)), w).

(** [QueryRow(...).Scan(...)]: no row is pgx.ErrNoRows. *)
Definition query_row {A} (f : time → DB → option A) : M A :=
  let! o := query f in
  match o with Some a => retM a | None => throw ENoRows end.

(** [errors.Is(err, pgx.ErrNoRows)] turned into another error. *)
Definition on_no_rows {A} (m : M A) (h : M A) : M A := λ w,
  match m w with
  | (Err ENoRows, w') => h w'
  | r => r
  end.

(** ** Transactions (db.go) *)

(** [IsDBUnavailable] *)
Definition IsDBUnavailable (e : error) : bool :=
  match errors_AsPg e with
  | Some PgConnectionException | Some PgInsufficientResources | Some PgOperatorIntervention
  | Some PgSystemError | Some PgPoolClosed => true
  | _ => false
  end.

(** [errors.Is(err, context.DeadlineExceeded) || errors.Is(err, context.Canceled)] *)
Definition is_context_error (e : error) : bool :=
  errors_IsContext e DeadlineExceeded || errors_IsContext e Canceled.

(** [pgcommon.IsDeadlock(err) || pgcommon.IsSerializationFailure(err)] *)
Definition is_retryable (e : error) : bool :=
  match errors_AsPg e with
  | Some PgDeadlock | Some PgSerializationFailure => true
  | _ => false
  end.

(** [wrapConnErr] *)
Definition wrapConnErr (e : error) : error :=
  match errors_AsDomain e with
  | Some _ => e
  | None =>
      if is_context_error e
      then EDomainWrap (NewError ErrRequestTimeout "request deadline exceeded during a database operation") e
      else if is_retryable e
      then EDomainWrap (WithDetails (NewError ErrConflict "concurrent update conflict — retry the request")
                                    [("code", JStr "concurrent_update")]) e
      else match errors_AsPg e with
           | Some PgQueryCanceled | Some PgLockNotAvailable =>
               EDomainWrap (NewError ErrRequestTimeout "database statement or lock timeout") e
           | _ => if IsDBUnavailable e
                  then EDomainWrap (NewError ErrDBUnavailable "database unavailable") e
                  else e
           end
  end.

(** The driver's error stays in the chain, so [RunInTx] still recognises a
    deadlock that a statement's own wrapper has already classified. *)
Lemma wrapConnErr_AsPg e : errors_AsPg (wrapConnErr e) = errors_AsPg e.
Proof. unfold wrapConnErr. by repeat case_match. Qed.

Lemma wrapConnErr_retryable e : is_retryable (wrapConnErr e) = is_retryable e.
Proof. unfold is_retryable. by rewrite wrapConnErr_AsPg. Qed.

Definition wrap_result {A} (r : result error A) : result error A :=
  match r with Ok a => Ok a | Err e => Err (wrapConnErr e) end.

(** The next attempt of the schedule; with the schedule exhausted the
    transaction runs alone, at the process's own time, and commits. *)
Definition next_attempt (w : World) : Attempt * World :=
  match w_sched w with
  | a :: s => (a, set_w_sched s w)
  | [] => (mkAttempt (w_clock w) (λ d, d) None, w)
  end.

(** BEGIN: other transactions have acted, [now()] is fixed. *)
Definition begin_tx (a : Attempt) (w : World) : World :=
  set_w_txnow (Some (at_now a)) (set_w_db (at_env a (w_db w)) w).

(** ROLLBACK to the state the transaction began with; calls, cache and
    generated uuids are not undone. *)
Definition rollback (outer : option time) (d : DB) (w : World) : World :=
  set_w_txnow outer (set_w_db d w).

Definition commit (outer : option time) (w : World) : World := set_w_txnow outer w.

(** One attempt of a transaction whose body reads and writes the captured
    variables [c]; they keep the body's writes even when the commit fails. *)
Definition attempt_tx {C A} (body : C → M (C * A)) (c : C) (w : World)
  : result error A * C * World :=
  let '(a, w1) := next_attempt w in
  let w2 := begin_tx a w1 in
  match body c w2 with
  | (Err e, w3) => (Err e, c, rollback (w_txnow w) (w_db w2) w3)
  | (Ok (c', x), w3) =>
      match at_fail a with
      | None => (Ok x, c', commit (w_txnow w) w3)
      | Some e => (Err e, c', rollback (w_txnow w) (w_db w2) w3)
      end
  end.

(** [pgcommon.RunInTxWithRetryOpts]: at most [n] attempts, retrying a
    deadlock or a serialization failure. *)
Fixpoint attempts {C A} (n : nat) (body : C → M (C * A)) (c : C) (w : World)
  : result error (C * A) * World :=
  match attempt_tx body c w with
  | (Ok x, c', w') => (Ok (c', x), w')
  | (Err e, c', w') =>
      match n with
      | O => (Err e, w')
      | S n' => if is_retryable e then attempts n' body c' w' else (Err e, w')
      end
  end.

(** [writeRetryOpts.MaxAttempts] *)
Definition MaxAttempts : nat := 3.

(** [TxRunner.RunInTx] with the closure's captured variables. *)
Definition RunInTx_captured {C A} (c : C) (body : C → M (C * A)) : M (C * A) := λ w,
  let '(r, w') := attempts (pred MaxAttempts) body c w in (wrap_result r, w').

(** [TxRunner.RunInTx] for a closure that only overwrites what it captures. *)
Definition RunInTx {A} (m : M A) : M A :=
  let! r := RunInTx_captured tt (λ _, let! a := m in retM (tt, a)) in retM r.2.

(** [withPool]: join the caller's transaction, or run in one of its own (a
    single attempt). *)
Definition withPool {A} (m : M A) : M A := λ w,
  match w_txnow w with
  | Some _ => let '(r, w') := m w in (wrap_result r, w')
  | None =>
      match attempt_tx (λ _ : unit, let! a := m in retM (tt, a)) tt w with
      | (r, _, w') => (wrap_result r, w')
      end
  end.

(** ** Everything the program calls that is not its own code *)

Record DelegateImpact : Type := mkDelegateImpact {
  di_ActiveWorkflows : Z;
  di_WorkflowIDs : list uuid
}.

(** [requestctx.RequestContext], as [requestctx.FromContext] yields it; a
    background caller has none. *)
Record RequestContext : Type := mkRequestContext {
  rc_UserID : uuid;
  rc_TenantID : uuid;
  rc_Roles : list string;
  rc_ClientIP : string;
  rc_UserAgent : string
}.

(** [port.GroupResolution]: the three mappings of GM-I1. *)
Record GroupResolution : Type := mkGroupResolution {
  gr_DeptMappings : list (string * uuid);
  gr_DeptRoleMappings : list (string * DeptRole);
  gr_TenantRoleMappings : list (string * TenantRoleCode)
}.

(** [port.CatalogPlan] and [port.CatalogDepartment]: the wire shapes of the
    Catalog Service. *)
Record CatalogDepartment : Type := mkCatalogDepartment {
  cd_ID : uuid;
  cd_Code : string;
  cd_Name : string;
  cd_IsSystem : bool;
  cd_IsActive : bool;
  cd_RecordVersion : Z
}.

Record CatalogPlan : Type := mkCatalogPlan {
  cp_Code : TenantPlan;
  cp_DisplayName : string;
  cp_WorkflowTemplateLimit : option Z;
  cp_TenderLimit : option Z;
  cp_TrialDurationDays : Z;
  cp_SSOEnabled : bool;
  cp_CustomBranding : string;
  cp_FeatureSet : gmap string json;
  cp_RecordVersion : Z
}.

(** The environment: google/uuid, the iteration order of Go maps, the other
    services' answers (the [nat] is the number of calls made so far, so an
    answer can change from one call to the next), the schema codec, and
    which optional collaborators are wired. *)
Class Env := {
  uuid_String : uuid → string;
  uuid_Parse : string → option uuid;
  uuid_New : nat → uuid;
  uuid_Parse_String : ∀ u, uuid_Parse (uuid_String u) = Some u;
  map_order : ∀ {A : Type}, nat → list A → list A;
  map_order_perm : ∀ {A : Type} n (l : list A), map_order n l ≡ₚ l;

  has_publisher : bool;
  codec_accepts : string → EventPayload → bool;
  request_ctx : option RequestContext;

  has_cache : bool;
  cache_up : nat → bool;
  cache_late : nat → bool;
  cache_kept : nat → string → bool;

  has_workflow : bool;
  wf_GetDelegateImpact : nat → uuid → uuid → option uuid → result error DelegateImpact;
  wf_ReassignDelegate : nat → uuid → uuid → uuid → result error unit;
  wf_CancelByDelegate : nat → uuid → uuid → result error unit;

  has_rp : bool;
  rp_CreateInvitedUser : nat → uuid → string → string → list string → string → result error uuid;
  rp_DeleteUser : nat → uuid → uuid → result error unit;
  rp_PatchRealmConfig : nat → uuid → option bool → result error unit;
  rp_RevokeUserSessions : nat → uuid → uuid → result error unit;
  rp_ResetMFA : nat → uuid → uuid → result error unit;

  has_tokenService : bool;
  ts_IsServiceAccount : nat → uuid → uuid → result error bool;

  has_delegationCheck : bool;
  dc_DeptDelegate : nat → uuid → uuid → uuid → result error (option uuid);

  has_catalog : bool;
  cat_Departments : nat → result error (list CatalogDepartment);
  cat_Plans : nat → result error (list CatalogPlan);

  has_idpReader : bool;
  idp_GetIDPCount : nat → uuid → result error Z;

  has_groupMapping : bool;
  gm_ResolveGroups : nat → uuid → list string → result error GroupResolution;

  has_audit : bool
}.

(** Different uuids print differently. *)
Lemma uuid_String_inj `{Env} u v : uuid_String u = uuid_String v → u = v.
Proof. intros E. pose proof (uuid_Parse_String u) as Hu. rewrite E, uuid_Parse_String in Hu. congruence. Qed.

(** A call to another service: recorded, answered by the environment; the
    caller inspects the error. *)
Definition call {A} (c : Call) (answer : nat → A) : M A := λ w,
  (Ok (answer (length (w_calls w))), set_w_calls (w_calls w ++ [c]) w).

(** The actor of an audit entry: the user, or the service itself. *)
Definition audit_actor `{Env} (actorID : uuid) : AuditActor :=
  if actorID =? uuid_Nil then mkAuditActor "iam_system" "" "" else mkAuditActor "user" (uuid_String actorID) "".

(** [go func() { ... audit.WriteEntry(ctx, req) ... }()]: the entry is handed to
    a goroutine nobody waits for; an error is only counted. *)
Definition go_WriteEntry (req : AuditWriteRequest) : M unit := call (CallWriteEntry req) (λ _, tt).

(** The order in which [for k := range m] visits a map with the keys [l]: it
    may differ from one loop to the next. *)
Definition map_range `{Env} {A} (l : list A) : M (list A) := λ w,
  (Ok (map_order (length (w_calls w) + w_uuids w) l), w).

(** [uuid.New()] *)
Definition new_uuid `{Env} : M uuid := λ w,
  (Ok (uuid_New (w_uuids w)), set_w_uuids (S (w_uuids w)) w).

(** [if x.ID == uuid.Nil { x.ID = uuid.New() }] *)
Definition id_or_new `{Env} (id : uuid) : M uuid :=
  if id =? uuid_Nil then new_uuid else retM id.

(** *** Cache (port.Cache, valkey/cache.go)

    A store that may be down or not wired at all, and whose entries may have
    expired: [cache_up n] says whether the [n]-th call is answered,
    [cache_late n] whether a write that was not has happened all the same, and
    [cache_kept n key] whether the entry under [key] is still there.  Values
    are stored as what their JSON decodes to. *)

Definition cache_entry `{Env} (n : nat) (key : string) (c : list (string * cache_val)) : option cache_val :=
  if cache_kept n key
  then snd <$> List.find (λ e : string * cache_val, String.eqb (fst e) key) c
  else None.

(** [Cache.Get]; [None] is a miss or an error. *)
Definition cache_Get `{Env} (key : string) : M (option cache_val) := λ w,
  let n := length (w_calls w) in
  (Ok (if cache_up n then cache_entry n key (w_cache w) else None),
   set_w_calls (w_calls w ++ [CallCacheGet key]) w).

(** [Cache.MGet]; [None] is an error. *)
Definition cache_MGet `{Env} (keys : list string) : M (option (list (option cache_val))) := λ w,
  let n := length (w_calls w) in
  (Ok (if cache_up n then Some (List.map (λ k, cache_entry n k (w_cache w)) keys) else None),
   set_w_calls (w_calls w ++ [CallCacheMGet keys]) w).

(** A write's answer and whether it was carried out: one that timed out may have
    been. *)
Definition cache_write `{Env} (n : nat) : bool * bool := (cache_up n, cache_up n || cache_late n).

(** [Cache.Set]; the result says whether the store answered. *)
Definition try_cache_Set `{Env} (key : string) (v : cache_val) : M bool :=
  let! (up, applied) := call (CallCacheSet key) cache_write in
  λ w, (Ok up, if (applied : bool)
               then set_w_cache ((key, v) :: delete_where (λ e, String.eqb (fst e) key) (w_cache w)) w
               else w).

(** [Cache.Delete] *)
Definition try_cache_Delete `{Env} (keys : list string) : M bool :=
  let! (up, applied) := call (CallCacheDelete keys) cache_write in
  λ w, (Ok up, if (applied : bool)
               then set_w_cache (delete_where (λ e, contains (fst e) keys) (w_cache w)) w
               else w).

(** [_ = cache.Set(...)] and [_ = cache.Delete(...)] *)
Definition cache_Set `{Env} (key : string) (v : cache_val) : M unit :=
  let! _ := try_cache_Set key v in retM tt.

Definition cache_Delete `{Env} (keys : list string) : M unit :=
  let! _ := try_cache_Delete keys in retM tt.

(** *** The outbox (internal/adapter/outbound/eventbus/publisher.go)

    [Enqueue] validates the payload against its schema and inserts it into
    [outbox_events] on the open transaction. *)
Definition Enqueue `{Env} (ev : DomainEvent) : M unit := λ w,
  if negb (codec_accepts (ev_Type ev) (ev_Data ev))
  then (Err (EWrap "validate event" (EPlain "schema validation failed")), w)
  else match w_txnow w with
       | None => (Err (EPlain "event enqueue requires an open RunInTx transaction"), w)
       | Some _ => (Ok tt, set_w_db (set_outbox_events (outbox_events (w_db w) ++ [ev]) (w_db w)) w)
       end.

(** [pub, _ := port.EventPublisherFromContext(txCtx); if pub != nil { ... }] *)
Definition publish `{Env} (ev : DomainEvent) : M unit :=
  if has_publisher then Enqueue ev else retM tt.

Definition rcIP `{Env} : string :=
  match request_ctx with Some rc => rc_ClientIP rc | None => "" end.
Definition rcUA `{Env} : string :=
  match request_ctx with Some rc => rc_UserAgent rc | None => "" end.

(** ** Program logic

    [keeps R m]: if every other transaction relates the databases before and
    after it by the preorder [R] (the rely condition), so does [m]. *)

Definition rely (R : DB → DB → Prop) (s : list Attempt) : Prop :=
  Forall (λ a, ∀ d, R d (at_env a d)) s.

(** What every operation leaves alone: the schedule is consumed from the
    front, a transaction opened is closed again, and the process's clock is
    not its own. *)
Definition flows (w w' : World) : Prop :=
  suffix (w_sched w') (w_sched w) ∧ w_txnow w' = w_txnow w ∧ w_clock w' = w_clock w.

Definition keeps (R : DB → DB → Prop) {A} (m : M A) : Prop :=
  ∀ w r w', rely R (w_sched w) → m w = (r, w') → R (w_db w) (w_db w') ∧ flows w w'.

(** [m] does nothing but that to the rest of the world. *)
Definition steady {A} (m : M A) : Prop := keeps (λ _ _, True) m.

Create HintDb keeps.

#[export] Instance flows_preorder : PreOrder flows.
Proof.
  split; [by intros w|]. intros w1 w2 w3 (? & ? & ?) (? & ? & ?).
  split; [by transitivity (w_sched w2)|]. split; congruence.
Qed.

#[export] Hint Extern 0 (flows _ _) => reflexivity : core.

Lemma rely_suffix R s s' : rely R s → suffix s' s → rely R s'.
Proof. intros H [k ->]. by apply Forall_app in H as [_ ?]. Qed.

Lemma rely_flows R w w' : rely R (w_sched w) → flows w w' → rely R (w_sched w').
Proof. intros H [? _]. by eapply rely_suffix. Qed.

Lemma rely_True s : rely (λ _ _, True) s.
Proof. by apply Forall_true. Qed.

Section keeps_rules.
  Context (R : DB → DB → Prop) `{!PreOrder R}.

Lemma keeps_ret {A} (a : A) : keeps R (retM a).
Proof. intros w r w' _ [= <- <-]. by split. Qed.

Lemma keeps_throw {A} e : keeps R (throw (A:=A) e).
Proof. intros w r w' _ [= <- <-]. by split. Qed.

Lemma keeps_throw_if c e : keeps R (throw_if c e).
Proof. destruct c; [apply keeps_throw|apply keeps_ret]. Qed.

Lemma keeps_bind {A B} (m : M A) (k : A → M B) :
  keeps R m → (∀ a, keeps R (k a)) → keeps R (bindM m k).
Proof.
  intros Hm Hk w r w' Hs. unfold bindM. destruct (m w) as [[a|e] w1] eqn:E; intros H.
  - destruct (Hm _ _ _ Hs E) as [H1 H2].
    destruct (Hk a w1 r w' (rely_flows _ _ _ Hs H2) H) as [H3 H4].
    split; [by transitivity (w_db w1)|by transitivity w1].
  - simplify_eq. eauto.
Qed.

Lemma keeps_try {A} (m : M A) : keeps R m → keeps R (tryM m).
Proof.
  intros Hm w r w' Hs. unfold tryM. destruct (m w) as [r1 w1] eqn:E. intros [= <- <-]. eauto.
Qed.

Lemma keeps_wrap {A} msg (m : M A) : keeps R m → keeps R (wrapM msg m).
Proof.
  intros Hm w r w' Hs. unfold wrapM. destruct (m w) as [[a|e] w1] eqn:E; intros [= <- <-]; eauto.
Qed.

Lemma keeps_on_no_rows {A} (m h : M A) : keeps R m → keeps R h → keeps R (on_no_rows m h).
Proof.
  intros Hm Hh w r w' Hs. unfold on_no_rows. destruct (m w) as [[a|e] w1] eqn:E.
  - intros [= <- <-]. eauto.
  - destruct (Hm _ _ _ Hs E) as [H1 H2].
    destruct e; intros H; simplify_eq; eauto.
    destruct (Hh w1 r w' (rely_flows _ _ _ Hs H2) H) as [H3 H4].
    split; [by transitivity (w_db w1)|by transitivity w1].
Qed.

Lemma keeps_for_each {A} (l : list A) body :
  (∀ x, keeps R (body x)) → keeps R (for_each l body).
Proof.
  intros H. induction l as [|x l IH]; simpl; [apply keeps_ret|].
  apply keeps_bind; [apply H|done].
Qed.

Lemma keeps_for_fold {A B} (l : list A) (acc : B) body :
  (∀ b x, keeps R (body b x)) → keeps R (for_fold l acc body).
Proof.
  intros H. revert acc. induction l as [|x l IH]; intros acc; simpl; [apply keeps_ret|].
  apply keeps_bind; [apply H|done].
Qed.

Lemma keeps_get_world : keeps R get_world.
Proof. intros w r w' _ [= <- <-]. by split. Qed.

Lemma keeps_time_Now : keeps R time_Now.
Proof. intros w r w' _ [= <- <-]. by split. Qed.

Lemma keeps_query {A} (f : time → DB → A) : keeps R (query f).
Proof. intros w r w' _ [= <- <-]. by split. Qed.

Lemma keeps_query_row {A} (f : time → DB → option A) : keeps R (query_row f).
Proof.
  apply keeps_bind; [apply keeps_query|]. intros [a|]; [apply keeps_ret|apply keeps_throw].
Qed.

Lemma keeps_sql {A} (f : time → DB → result error (A * DB)) :
  (∀ now d a d', f now d = Ok (a, d') → R d d') → keeps R (sql f).
Proof.
  intros Hf w r w' _. unfold sql. destruct (f _ (w_db w)) as [[a d]|e] eqn:E; intros [= <- <-].
  - split; [by eapply Hf|done].
  - by split.
Qed.

Lemma keeps_call {A} c (ans : nat → A) : keeps R (call c ans).
Proof. intros w r w' _ [= <- <-]. by split. Qed.

Lemma next_attempt_rely w a w1 :
  rely R (w_sched w) → next_attempt w = (a, w1) →
  R (w_db w) (at_env a (w_db w1)) ∧ rely R (w_sched w1).
Proof.
  intros Hs. unfold next_attempt. destruct (w_sched w) as [|a' s] eqn:Ew; intros [= <- <-]; simpl.
  - by rewrite Ew.
  - apply Forall_cons in Hs as [Ha Hs]. by split.
Qed.

Lemma next_attempt_flows w a w1 : next_attempt w = (a, w1) → flows w w1.
Proof.
  unfold next_attempt, flows. destruct (w_sched w) as [|a' s] eqn:Ew; intros [= <- <-]; simpl.
  - by rewrite Ew.
  - by split; [apply suffix_cons_r|].
Qed.

Lemma keeps_attempt_tx {C A} (body : C → M (C * A)) c w r c' w' :
  (∀ c, keeps R (body c)) → rely R (w_sched w) → attempt_tx body c w = (r, c', w') →
  R (w_db w) (w_db w') ∧ flows w w'.
Proof.
  intros Hb Hs. unfold attempt_tx.
  destruct (next_attempt w) as [a w1] eqn:En.
  destruct (next_attempt_rely _ _ _ Hs En) as (Hr & Hs1).
  destruct (next_attempt_flows _ _ _ En) as (Hf1 & Hf2 & Hf3).
  destruct (body c (begin_tx a w1)) as [[[c1 x]|e] w3] eqn:Eb;
    destruct (Hb c _ _ _ (Hs1 : rely R (w_sched (begin_tx a w1))) Eb) as (H1 & H2 & H3 & H4);
    simpl in H1, H2, H4; [destruct (at_fail a)|]; intros [= <- <- <-];
    (split; [try done; by etransitivity|]; split; [by etransitivity|split; [done|simpl; congruence]]).
Qed.

Lemma keeps_attempts {C A} n (body : C → M (C * A)) c w r w' :
  (∀ c, keeps R (body c)) → rely R (w_sched w) → attempts n body c w = (r, w') →
  R (w_db w) (w_db w') ∧ flows w w'.
Proof.
  intros Hb. revert c w. induction n as [|n IH]; intros c w Hs; simpl;
    destruct (attempt_tx body c w) as [[[x|e] c'] w1] eqn:E;
    destruct (keeps_attempt_tx _ _ _ _ _ _ Hb Hs E) as [H1 H2];
    [intros [= <- <-]; eauto..|].
  destruct (is_retryable e); [|intros [= <- <-]; eauto].
  intros H. destruct (IH c' w1 (rely_flows _ _ _ Hs H2) H) as [H3 H4].
  split; by etransitivity.
Qed.

Lemma keeps_RunInTx_captured {C A} (c : C) (body : C → M (C * A)) :
  (∀ c, keeps R (body c)) → keeps R (RunInTx_captured c body).
Proof.
  intros Hb w r w' Hs. unfold RunInTx_captured.
  destruct (attempts _ body c w) as [r1 w1] eqn:E. intros [= <- <-].
  by eapply keeps_attempts.
Qed.

Lemma keeps_RunInTx {A} (m : M A) : keeps R m → keeps R (RunInTx m).
Proof.
  intros Hm. apply keeps_bind; [|intros; apply keeps_ret].
  apply keeps_RunInTx_captured. intros ?. apply keeps_bind; [done|intros; apply keeps_ret].
Qed.

Lemma keeps_withPool {A} (m : M A) : keeps R m → keeps R (withPool m).
Proof.
  intros Hm w r w' Hs. unfold withPool. destruct (w_txnow w).
  - destruct (m w) as [r1 w1] eqn:E. intros [= <- <-]. eauto.
  - destruct (attempt_tx _ tt w) as [[r1 c] w1] eqn:E. intros [= <- <-].
    eapply keeps_attempt_tx; [|done..]. intros ?.
    apply keeps_bind; [done|intros; apply keeps_ret].
Qed.

Lemma keeps_map_range `{Env} {A} (l : list A) : keeps R (map_range l).
Proof. intros w r w' _ [= <- <-]. by split. Qed.

Lemma keeps_new_uuid `{Env} : keeps R new_uuid.
Proof. intros w r w' _ [= <- <-]. by split. Qed.

Lemma keeps_id_or_new `{Env} id : keeps R (id_or_new id).
Proof. unfold id_or_new. destruct (_ =? _); [apply keeps_new_uuid|apply keeps_ret]. Qed.

Lemma keeps_go_WriteEntry req : keeps R (go_WriteEntry req).
Proof. apply keeps_call. Qed.

Lemma keeps_cache_Get `{Env} k : keeps R (cache_Get k).
Proof. intros w r w' _ [= <- <-]. by split. Qed.

Lemma keeps_cache_MGet `{Env} ks : keeps R (cache_MGet ks).
Proof. intros w r w' _ [= <- <-]. by split. Qed.

Lemma keeps_try_cache_Set `{Env} k v : keeps R (try_cache_Set k v).
Proof.
  apply keeps_bind; [apply keeps_call|]. intros [? []] w r w' _ [= <- <-]; by split.
Qed.

Lemma keeps_try_cache_Delete `{Env} ks : keeps R (try_cache_Delete ks).
Proof.
  apply keeps_bind; [apply keeps_call|]. intros [? []] w r w' _ [= <- <-]; by split.
Qed.

Lemma keeps_cache_Set `{Env} k v : keeps R (cache_Set k v).
Proof. apply keeps_bind; [apply keeps_try_cache_Set|intros; apply keeps_ret]. Qed.

Lemma keeps_cache_Delete `{Env} ks : keeps R (cache_Delete ks).
Proof. apply keeps_bind; [apply keeps_try_cache_Delete|intros; apply keeps_ret]. Qed.

Lemma keeps_Enqueue `{Env} ev :
  (∀ d, R d (set_outbox_events (outbox_events d ++ [ev]) d)) → keeps R (Enqueue ev).
Proof.
  intros HR w r w' _. unfold Enqueue.
  destruct (negb _); [intros [= <- <-]; by split|].
  destruct (w_txnow w); intros [= <- <-]; (split; [|done]); [apply HR|done].
Qed.

Lemma keeps_publish `{Env} ev :
  (∀ d, R d (set_outbox_events (outbox_events d ++ [ev]) d)) → keeps R (publish ev).
Proof. intros HR. unfold publish. destruct has_publisher; [by apply keeps_Enqueue|apply keeps_ret]. Qed.

End keeps_rules.

#[export] Hint Resolve keeps_ret keeps_throw keeps_throw_if keeps_try keeps_wrap
  keeps_on_no_rows keeps_for_each keeps_for_fold keeps_get_world keeps_time_Now
  keeps_query keeps_query_row keeps_call keeps_go_WriteEntry keeps_RunInTx keeps_RunInTx_captured
  keeps_withPool keeps_map_range keeps_new_uuid keeps_id_or_new keeps_cache_Get keeps_cache_MGet
  keeps_try_cache_Set keeps_try_cache_Delete keeps_cache_Set keeps_cache_Delete keeps_publish keeps_Enqueue : keeps.

#[export] Instance True_preorder : PreOrder (λ _ _ : DB, True).
Proof. by split. Qed.

(** Walks through a program: sequencing, branches and loops; what is left are
    the statements that write, and the operations with a lemma in the
    database. *)
Ltac keeps_step :=
  match goal with
  | |- keeps _ (bindM _ _) => apply keeps_bind; [apply _| |intros ?]
  | |- keeps _ (let '(_, _) := ?x in _) => destruct x
  | |- keeps _ (match ?x with _ => _ end) => destruct x
  | |- keeps _ (if ?x then _ else _) => destruct x
  | |- keeps _ (withPool _) => apply keeps_withPool; [apply _|]
  | |- keeps _ (RunInTx _) => apply keeps_RunInTx; [apply _|]
  | |- keeps _ (RunInTx_captured _ _) => apply keeps_RunInTx_captured; [apply _|intros ?]
  | |- keeps _ (tryM _) => apply keeps_try
  | |- keeps _ (wrapM _ _) => apply keeps_wrap
  | |- keeps _ (on_no_rows _ _) => apply keeps_on_no_rows; [apply _| |]
  | |- keeps _ (for_each _ _) => apply keeps_for_each; [apply _|intros ?]
  | |- keeps _ (for_fold _ _ _) => apply keeps_for_fold; [apply _|intros ? ?]
  | |- keeps _ (sql _) => apply keeps_sql; [apply _|]
  | |- keeps _ _ => solve [eauto with keeps typeclass_instances]
  end.

Ltac keeps_auto := repeat keeps_step.

(** ** Steps beside the database

    Nothing of the database or the uuid source moved. *)
Definition same (w w' : World) : Prop := w_db w' = w_db w ∧ w_uuids w' = w_uuids w ∧ flows w w'.

(** A step that only talks to the cache and to other services. *)
Definition aside {A} (m : M A) : Prop := ∀ w, same w (m w).2.

#[export] Instance same_preorder : PreOrder same.
Proof.
  split; [by intros w|]. intros a b c (H1 & H2 & H3) (H4 & H5 & H6). split_and!; [congruence..|].
  by transitivity b.
Qed.

Create HintDb aside.

Lemma aside_ret {A} (a : A) : aside (retM a).
Proof. intros w. reflexivity. Qed.

Lemma aside_throw {A} e : aside (throw (A:=A) e).
Proof. intros w. reflexivity. Qed.

Lemma aside_throw_if c e : aside (throw_if c e).
Proof. destruct c; [apply aside_throw|apply aside_ret]. Qed.

Lemma aside_bind {A B} (m : M A) (k : A → M B) : aside m → (∀ a, aside (k a)) → aside (bindM m k).
Proof.
  intros Hm Hk w. specialize (Hm w). unfold bindM. destruct (m w) as [[a|e] w1]; [|done].
  etransitivity; [exact Hm|apply Hk].
Qed.

Lemma aside_try {A} (m : M A) : aside m → aside (tryM m).
Proof. intros Hm w. specialize (Hm w). unfold tryM. by destruct (m w). Qed.

Lemma aside_call {A} c (ans : nat → A) : aside (call c ans).
Proof. intros w. by split_and!. Qed.

Lemma aside_go_WriteEntry req : aside (go_WriteEntry req).
Proof. apply aside_call. Qed.

Lemma aside_time_Now : aside time_Now.
Proof. intros w. reflexivity. Qed.

Section aside_cache.
  Context `{Env}.

Lemma aside_cache_Get k : aside (cache_Get k).
Proof. intros w. by split_and!. Qed.

Lemma aside_cache_MGet ks : aside (cache_MGet ks).
Proof. intros w. by split_and!. Qed.

Lemma aside_try_cache_Set k v : aside (try_cache_Set k v).
Proof. apply aside_bind; [apply aside_call|]. by intros [? []] w; split_and!. Qed.

Lemma aside_try_cache_Delete ks : aside (try_cache_Delete ks).
Proof. apply aside_bind; [apply aside_call|]. by intros [? []] w; split_and!. Qed.

Lemma aside_cache_Set k v : aside (cache_Set k v).
Proof. apply aside_bind; [apply aside_try_cache_Set|intros; apply aside_ret]. Qed.

Lemma aside_cache_Delete ks : aside (cache_Delete ks).
Proof. apply aside_bind; [apply aside_try_cache_Delete|intros; apply aside_ret]. Qed.

Lemma aside_map_range {A} (l : list A) : aside (map_range l).
Proof. intros w. by split_and!. Qed.
End aside_cache.

#[export] Hint Resolve aside_ret aside_throw aside_throw_if aside_try aside_call aside_go_WriteEntry aside_time_Now aside_cache_Get
  aside_cache_MGet aside_try_cache_Set aside_try_cache_Delete aside_cache_Set aside_cache_Delete
  aside_map_range : aside.

Lemma aside_for_each {A} (l : list A) (f : A → M unit) : (∀ a, aside (f a)) → aside (for_each l f).
Proof. intros Hf. induction l as [|a l IH]; [apply aside_ret|]. by apply aside_bind. Qed.

Ltac aside_step :=
  match goal with
  | |- aside (for_each _ _) => apply aside_for_each; intros ?
  | |- aside (bindM _ _) => apply aside_bind; [|intros ?]
  | |- aside (let '(_, _) := ?x in _) => destruct x
  | |- aside (match ?x with _ => _ end) => destruct x
  | |- aside (if ?x then _ else _) => destruct x
  | |- aside (tryM _) => apply aside_try
  | |- aside _ => solve [eauto with aside]
  end.

Ltac aside_auto := repeat aside_step.

Lemma keeps_aside R `{!PreOrder R} {A} (m : M A) : aside m → keeps R m.
Proof. intros Hm w r w' _ E. specialize (Hm w). rewrite E in Hm. destruct Hm as (Hd & _ & Hf). simpl in *. by rewrite Hd. Qed.

(** No other transaction is in the way. *)
Definition alone (w : World) : Prop := w_sched w = [] ∧ w_txnow w = None.

Lemma alone_same w w' : alone w → same w w' → alone w'.
Proof.
  intros [Hs Ht] (_ & _ & Hsuf & Ht' & _). unfold alone. rewrite Hs in Hsuf. split; [|congruence].
  by apply suffix_nil_inv in Hsuf.
Qed.

(** ** The catalog readers

    [port.DepartmentCatalogReader] and [port.PlanCatalogReader], as the
    services see them: lookups that leave the database alone. *)
Class CatalogReader := {
  Departments : M (list Department);
  DepartmentByID : uuid → M Department;
  PlanByCode : TenantPlan → M Plan;
  Departments_aside : aside Departments;
  DepartmentByID_aside : ∀ id, aside (DepartmentByID id);
  PlanByCode_aside : ∀ code, aside (PlanByCode code)
}.

Section readers.
  Context `{CatalogReader} (R : DB → DB → Prop) `{!PreOrder R}.

Lemma keeps_Departments : keeps R Departments.
Proof. apply keeps_aside; [done|]. apply Departments_aside. Qed.

Lemma keeps_DepartmentByID id : keeps R (DepartmentByID id).
Proof. apply keeps_aside; [done|]. apply DepartmentByID_aside. Qed.

Lemma keeps_PlanByCode code : keeps R (PlanByCode code).
Proof. apply keeps_aside; [done|]. apply PlanByCode_aside. Qed.
End readers.

#[export] Hint Resolve keeps_Departments keeps_DepartmentByID keeps_PlanByCode : keeps.
#[export] Hint Resolve Departments_aside DepartmentByID_aside PlanByCode_aside : aside.

(** ** Running a transaction *)

(** A successful [RunInTx]: its body ran once to completion, on a database
    that other transactions (and the rolled-back attempts) led to, and what
    it left is what was committed. *)
Lemma attempts_ok_inv R `{!PreOrder R} {C A} n (body : C → M (C * A)) c w c' x w' :
  (∀ c, steady (body c)) → rely R (w_sched w) → attempts n body c w = (Ok (c', x), w') →
  ∃ c0 now w1 w2, R (w_db w) (w_db w1) ∧ rely R (w_sched w1) ∧ w_txnow w1 = Some now ∧
    body c0 w1 = (Ok (c', x), w2) ∧ w' = set_w_txnow (w_txnow w) w2.
Proof.
  intros Hb. revert c w.
  assert (∀ c w, rely R (w_sched w) →
    match attempt_tx body c w with
    | (Ok x, c', w') => ∃ now w1 w2, R (w_db w) (w_db w1) ∧ rely R (w_sched w1) ∧
        w_txnow w1 = Some now ∧ body c w1 = (Ok (c', x), w2) ∧ w' = set_w_txnow (w_txnow w) w2
    | (Err _, _, w') => R (w_db w) (w_db w') ∧ rely R (w_sched w') ∧ w_txnow w' = w_txnow w
    end) as Hone.
  { intros c0 w0 Hs. unfold attempt_tx. destruct (next_attempt w0) as [a w1] eqn:En.
    assert (R (w_db w0) (at_env a (w_db w1)) ∧ rely R (w_sched w1)) as [Hr Hs1].
    { by eapply next_attempt_rely. }
    destruct (body c0 (begin_tx a w1)) as [[[c1 y]|e] w3] eqn:Eb;
      destruct (Hb c0 _ _ _ (rely_True _) Eb) as (_ & H2 & _); simpl in H2;
      [destruct (at_fail a)|]; simpl.
    - split; [done|]. split; [by eapply rely_suffix|done].
    - exists (at_now a), (begin_tx a w1), w3. by repeat split.
    - split; [done|]. split; [by eapply rely_suffix|done]. }
  induction n as [|n IH]; intros c w Hs; simpl; specialize (Hone c w Hs);
    destruct (attempt_tx body c w) as [[[y|e] c1] w1].
  - intros [= -> -> ->]. destruct Hone as (now & w2 & w3 & ?). by exists c, now, w2, w3.
  - done.
  - intros [= -> -> ->]. destruct Hone as (now & w2 & w3 & ?). by exists c, now, w2, w3.
  - destruct Hone as (HR & Hs1 & Ht). destruct (is_retryable e); [|done].
    intros H. destruct (IH c1 w1 Hs1 H) as (c0 & now & w2 & w3 & HR' & Hs' & Ht' & Hb' & ->).
    exists c0, now, w2, w3. rewrite Ht. split; [by transitivity (w_db w1)|done].
Qed.

Lemma RunInTx_captured_ok_inv R `{!PreOrder R} {C A} c (body : C → M (C * A)) w c' x w' :
  (∀ c, steady (body c)) → rely R (w_sched w) →
  RunInTx_captured c body w = (Ok (c', x), w') →
  ∃ c0 now w1 w2, R (w_db w) (w_db w1) ∧ rely R (w_sched w1) ∧ w_txnow w1 = Some now ∧
    body c0 w1 = (Ok (c', x), w2) ∧ w' = set_w_txnow (w_txnow w) w2.
Proof.
  intros Hb Hs. unfold RunInTx_captured.
  destruct (attempts _ body c w) as [[[c1 y]|e] w1] eqn:E; [|done].
  intros [= -> -> ->]. by eapply attempts_ok_inv.
Qed.

Lemma steady_bind_ret {A} (m : M A) :
  steady m → ∀ _ : unit, steady (let! a := m in retM (tt, a)).
Proof. intros Hm _. apply keeps_bind; [apply _|done|intros; apply keeps_ret; apply _]. Qed.

Lemma RunInTx_ok_inv R `{!PreOrder R} {A} (m : M A) w x w' :
  steady m → rely R (w_sched w) → RunInTx m w = (Ok x, w') →
  ∃ now w1 w2, R (w_db w) (w_db w1) ∧ rely R (w_sched w1) ∧ w_txnow w1 = Some now ∧
    m w1 = (Ok x, w2) ∧ w' = set_w_txnow (w_txnow w) w2.
Proof.
  intros Hm Hs. unfold RunInTx, bindM at 1.
  destruct (RunInTx_captured _ _ w) as [[[c y]|e] w0] eqn:E; [|done].
  intros [= -> ->].
  destruct (RunInTx_captured_ok_inv R _ _ _ _ _ _ (steady_bind_ret m Hm) Hs E)
    as (c0 & now & w1 & w2 & HR & Hs1 & Ht & Hb & Hw).
  unfold bindM in Hb. destruct (m w1) as [[z|e] w3] eqn:Em; [|done].
  unfold retM in Hb. simplify_eq. by exists now, w1, w2.
Qed.

(** A failed [RunInTx] changed nothing: the database is what other
    transactions made of it. *)
Lemma attempts_err R `{!PreOrder R} {C A} n (body : C → M (C * A)) c w e w' :
  (∀ c, steady (body c)) → rely R (w_sched w) → attempts n body c w = (Err e, w') →
  R (w_db w) (w_db w') ∧ w_txnow w' = w_txnow w.
Proof.
  intros Hb. revert c w.
  assert (∀ c w, rely R (w_sched w) →
    match attempt_tx body c w with
    | (Ok x, c', w') => True
    | (Err _, _, w') => R (w_db w) (w_db w') ∧ rely R (w_sched w') ∧ w_txnow w' = w_txnow w
    end) as Hone.
  { intros c0 w0 Hs. unfold attempt_tx. destruct (next_attempt w0) as [a w1] eqn:En.
    assert (R (w_db w0) (at_env a (w_db w1)) ∧ rely R (w_sched w1)) as [Hr Hs1].
    { by eapply next_attempt_rely. }
    destruct (body c0 (begin_tx a w1)) as [[[c1 y]|e'] w3] eqn:Eb;
      destruct (Hb c0 _ _ _ (rely_True _) Eb) as (_ & H2 & _); simpl in H2;
      [destruct (at_fail a)|]; simpl; try done.
    all: split; [done|]; split; [by eapply rely_suffix|done]. }
  induction n as [|n IH]; intros c w Hs; simpl; specialize (Hone c w Hs);
    destruct (attempt_tx body c w) as [[[y|e1] c1] w1]; try done.
  - intros [= -> ->]. by destruct Hone as (? & ? & ?).
  - destruct Hone as (HR & Hs1 & Ht). destruct (is_retryable e1); [|by intros [= -> ->]].
    intros H. destruct (IH c1 w1 Hs1 H) as [HR' Ht'].
    split; [by transitivity (w_db w1)|by rewrite Ht'].
Qed.

Lemma RunInTx_captured_err R `{!PreOrder R} {C A} c (body : C → M (C * A)) w e w' :
  (∀ c, steady (body c)) → rely R (w_sched w) →
  RunInTx_captured c body w = (Err e, w') → R (w_db w) (w_db w') ∧ w_txnow w' = w_txnow w.
Proof.
  intros Hb Hs. unfold RunInTx_captured.
  destruct (attempts _ body c w) as [[[c1 y]|e1] w1] eqn:E; [done|].
  intros [= _ <-]. by eapply attempts_err.
Qed.

Lemma RunInTx_err R `{!PreOrder R} {A} (m : M A) w e w' :
  steady m → rely R (w_sched w) → RunInTx m w = (Err e, w') →
  R (w_db w) (w_db w') ∧ w_txnow w' = w_txnow w.
Proof.
  intros Hm Hs. unfold RunInTx, bindM at 1.
  destruct (RunInTx_captured _ _ w) as [[[c y]|e1] w0] eqn:E; [done|].
  intros [= <- <-]. by eapply (RunInTx_captured_err R); [apply (steady_bind_ret m Hm)|..].
Qed.

(** With no other transaction in the way, [RunInTx] is its body between
    BEGIN and COMMIT. *)
Definition started (w : World) : World := set_w_txnow (Some (w_clock w)) w.

Lemma RunInTx_alone_ok {A} (m : M A) w x w2 :
  alone w → m (started w) = (Ok x, w2) → RunInTx m w = (Ok x, set_w_txnow None w2).
Proof.
  intros [Hs Ht] Hm. unfold RunInTx, RunInTx_captured, attempts, attempt_tx, next_attempt, bindM.
  simpl. rewrite Hs. unfold begin_tx. simpl.
  replace (set_w_txnow (Some (w_clock w)) (set_w_db (w_db w) w)) with (started w) by (by destruct w).
  rewrite Hm. simpl. by rewrite Ht.
Qed.

Lemma RunInTx_alone_err {A} (m : M A) w e w2 :
  alone w → m (started w) = (Err e, w2) → is_retryable e = false →
  RunInTx m w = (Err (wrapConnErr e), set_w_txnow None (set_w_db (w_db w) w2)).
Proof.
  intros [Hs Ht] Hm He. unfold RunInTx, RunInTx_captured, attempts, attempt_tx, next_attempt, bindM.
  simpl. rewrite Hs. unfold begin_tx. simpl.
  replace (set_w_txnow (Some (w_clock w)) (set_w_db (w_db w) w)) with (started w) by (by destruct w).
  rewrite Hm. simpl. rewrite He. simpl. unfold rollback. simpl. by rewrite Ht.
Qed.

(** A repository call inside a transaction is its statements. *)
Lemma withPool_in_tx {A} (m : M A) w now :
  w_txnow w = Some now → withPool m w = let '(r, w') := m w in (wrap_result r, w').
Proof. intros H. unfold withPool. by rewrite H. Qed.

Lemma withPool_alone_ok {A} (m : M A) w x w2 :
  alone w → m (started w) = (Ok x, w2) → withPool m w = (Ok x, set_w_txnow None w2).
Proof.
  intros [Hs Ht] Hm. unfold withPool, attempt_tx, next_attempt, bindM. rewrite Ht, Hs.
  unfold begin_tx. simpl.
  replace (set_w_txnow (Some (w_clock w)) (set_w_db (w_db w) w)) with (started w) by (by destruct w).
  rewrite Hm. simpl. done.
Qed.
