(* ===== verification/Wp.v ===== *)
(** * Wp: total-correctness reasoning about operations

    [wp m Q w] says that running [m] in the world [w] gives a result and a
    world that satisfy [Q].  An operation always returns, so this is total
    correctness; the rules below follow the program text, errors included. *)

From S2P Require Import Prelude Domain Schema Tx.

Definition wp {A} (m : M A) (Q : result error A → World → Prop) (w : World) : Prop :=
  Q (m w).1 (m w).2.

(** [now()] as a statement in [w] sees it. *)
Definition now_in (w : World) : time := match w_txnow w with Some n => n | None => w_clock w end.

Lemma wp_intro {A} (m : M A) (Q : result error A → World → Prop) w :
  wp m Q w → ∀ r w', m w = (r, w') → Q r w'.
Proof. unfold wp. by intros H r w' E; rewrite E in H. Qed.

Lemma wp_elim {A} (m : M A) (Q : result error A → World → Prop) w :
  (∀ r w', m w = (r, w') → Q r w') → wp m Q w.
Proof. intros H. unfold wp. apply H. by destruct (m w). Qed.

Lemma wp_mono {A} (m : M A) (Q Q' : result error A → World → Prop) w :
  wp m Q w → (∀ r w', Q r w' → Q' r w') → wp m Q' w.
Proof. unfold wp. auto. Qed.

Lemma wp_ret {A} (a : A) (Q : result error A → World → Prop) w :
  Q (Ok a) w → wp (retM a) Q w.
Proof. done. Qed.

Lemma wp_throw {A} e (Q : result error A → World → Prop) w :
  Q (Err e) w → wp (throw (A:=A) e) Q w.
Proof. done. Qed.

Lemma wp_bind {A B} (m : M B) (k : B → M A) (Q : result error A → World → Prop) w :
  wp m (λ r w1, match r with Ok a => wp (k a) Q w1 | Err e => Q (Err e) w1 end) w →
  wp (bindM m k) Q w.
Proof. unfold wp, bindM. by destruct (m w) as [[a|e] w1]. Qed.

(** Regrouping two steps. *)
Lemma wp_bind_assoc {A B C} (m : M A) (k : A → M B) (f : B → M C) (Q : result error C → World → Prop) w :
  wp (bindM (bindM m k) f) Q w → wp (bindM m (λ a, bindM (k a) f)) Q w.
Proof. unfold wp, bindM. by destruct (m w) as [[a|e] w1]. Qed.

Lemma wp_try {A} (m : M A) (Q : result error (result error A) → World → Prop) w :
  wp m (λ r, Q (Ok r)) w → wp (tryM m) Q w.
Proof. unfold wp, tryM. by destruct (m w). Qed.

Lemma wp_wrap {A} msg (m : M A) (Q : result error A → World → Prop) w :
  wp m (λ r, Q (match r with Err e => Err (EWrap msg e) | ok => ok end)) w → wp (wrapM msg m) Q w.
Proof. unfold wp, wrapM. by destruct (m w) as [[a|e] w1]. Qed.

Lemma wp_query {A} (f : time → DB → A) (Q : result error A → World → Prop) w :
  Q (Ok (f (now_in w) (w_db w))) w → wp (query f) Q w.
Proof. done. Qed.

Lemma wp_query_row {A} (f : time → DB → option A) (Q : result error A → World → Prop) w :
  match f (now_in w) (w_db w) with Some a => Q (Ok a) w | None => Q (Err ENoRows) w end →
  wp (query_row f) Q w.
Proof.
  unfold query_row. intros H. apply wp_bind, wp_query.
  destruct (f (now_in w) (w_db w)); [by apply wp_ret|by apply wp_throw].
Qed.

Lemma wp_on_no_rows {A} (m h : M A) (Q : result error A → World → Prop) w :
  wp m (λ r w1, match r with Err ENoRows => wp h Q w1 | r => Q r w1 end) w → wp (on_no_rows m h) Q w.
Proof. unfold wp, on_no_rows. destruct (m w) as [[a|[]] w1]; done. Qed.

Lemma wp_sql {A} (f : time → DB → result error (A * DB)) (Q : result error A → World → Prop) w :
  match f (now_in w) (w_db w) with
  | Ok (a, d) => Q (Ok a) (set_w_db d w)
  | Err e => Q (Err e) w
  end → wp (sql f) Q w.
Proof. unfold wp, sql, now_in. by destruct (f _ _) as [[a d]|e]. Qed.

Lemma wp_call {A} c (ans : nat → A) (Q : result error A → World → Prop) w :
  Q (Ok (ans (length (w_calls w)))) (set_w_calls (w_calls w ++ [c]) w) → wp (call c ans) Q w.
Proof. done. Qed.

Lemma wp_in_tx {A} now (m : M A) (Q : result error A → World → Prop) w :
  w_txnow w = Some now → wp m (λ r, Q (wrap_result r)) w → wp (withPool m) Q w.
Proof. intros Ht. unfold wp, withPool. rewrite Ht. by destruct (m w). Qed.

Lemma wp_map_range {A} `{Env} (l : list A) (Q : result error (list A) → World → Prop) w :
  (∀ l', l' ≡ₚ l → Q (Ok l') w) → wp (map_range l) Q w.
Proof. intros HQ. apply HQ, map_order_perm. Qed.

Lemma wp_throw_if (c : bool) e (Q : result error unit → World → Prop) w :
  (if c then Q (Err e) w else Q (Ok tt) w) → wp (throw_if c e) Q w.
Proof. by destruct c. Qed.

Lemma wp_time_Now (Q : result error time → World → Prop) w :
  Q (Ok (w_clock w)) w → wp time_Now Q w.
Proof. done. Qed.

Lemma wp_new_uuid `{Env} (Q : result error uuid → World → Prop) w :
  Q (Ok (uuid_New (w_uuids w))) (set_w_uuids (S (w_uuids w)) w) → wp new_uuid Q w.
Proof. done. Qed.

(** A postcondition on success only. *)
Definition if_ok {A} (P : A → World → Prop) (r : result error A) (w : World) : Prop :=
  match r with Ok a => P a w | Err _ => True end.

(** For such a postcondition the steps before the last can be skipped. *)
Lemma wp_skip {A B} (m : M A) (k : A → M B) (P : B → World → Prop) w :
  (∀ a w1, wp (k a) (if_ok P) w1) → wp (bindM m k) (if_ok P) w.
Proof. intros Hk. apply wp_bind, wp_elim. intros [a|e] w1 _; [apply Hk|done]. Qed.

(** ** Publishing *)

(** The outbox grows by the events. *)
Definition enqueued (evs : list DomainEvent) (d : DB) : DB :=
  set_outbox_events (outbox_events d ++ evs) d.

Lemma enqueued_nil d : enqueued [] d = d.
Proof. unfold enqueued. rewrite app_nil_r. by destruct d. Qed.

Lemma enqueued_app evs evs' d : enqueued evs' (enqueued evs d) = enqueued (evs ++ evs') d.
Proof. unfold enqueued. simpl. by rewrite <- app_assoc. Qed.

(** The events an operation asks for: none without a publisher. *)
Definition emitted `{Env} (evs : list DomainEvent) : list DomainEvent :=
  if has_publisher then evs else [].

Lemma emitted_app `{Env} a b : emitted (a ++ b) = emitted a ++ emitted b.
Proof. unfold emitted. by destruct has_publisher. Qed.

(** The codec of the outbox validates a payload against the schema of its event
    type. *)
Definition codec_schemas `{Env} : Prop := ∀ p, codec_accepts (payload_type p) p = schema_valid p.

Lemma codec_valid `{Env} ev : codec_schemas → event_valid ev = true → codec_accepts (ev_Type ev) (ev_Data ev) = true.
Proof. intros Hc [->%String.eqb_eq Hv]%andb_true_iff. by rewrite Hc. Qed.

Section publishing.
  Context `{Env} (Hcodec : codec_schemas).

Lemma wp_publish ev (Q : result error unit → World → Prop) now w :
  w_txnow w = Some now → event_valid ev = true → Q (Ok tt) (set_w_db (enqueued (emitted [ev]) (w_db w)) w) → wp (publish ev) Q w.
Proof.
  intros Ht Hv HQ. unfold wp, publish, Enqueue, emitted in *.
  destruct has_publisher; simpl in *.
  - by rewrite codec_valid, Ht.
  - rewrite enqueued_nil in HQ. by destruct w.
Qed.

Lemma wp_publish_all {A} (f : A → DomainEvent) l (Q : result error unit → World → Prop) now w :
  w_txnow w = Some now → Forall (λ x, event_valid (f x) = true) l →
  Q (Ok tt) (set_w_db (enqueued (emitted (f <$> l)) (w_db w)) w) →
  wp (for_each l (λ x, publish (f x))) Q w.
Proof.
  intros Ht Hl. revert w Ht. induction Hl as [|x l Hx _ IH]; intros w Ht HQ; simpl.
  - apply wp_ret. unfold emitted in HQ. destruct has_publisher; rewrite enqueued_nil in HQ; by destruct w.
  - apply wp_bind, (wp_publish _ _ now); [done..|]. apply IH; [done|]. simpl.
    rewrite enqueued_app, <- emitted_app. simpl. by destruct w.
Qed.
End publishing.

(** ** Transactions *)

(** With nothing else running. *)
Lemma wp_RunInTx_alone {A} (m : M A) (Q : result error A → World → Prop) w :
  alone w →
  wp m (λ r w2, match r with
                | Ok a => Q (Ok a) (set_w_txnow None w2)
                | Err e => is_retryable e = false ∧
                           Q (Err (wrapConnErr e)) (set_w_txnow None (set_w_db (w_db w) w2))
                end) (started w) →
  wp (RunInTx m) Q w.
Proof.
  intros Ha. unfold wp at 1. destruct (m (started w)) as [[a|e] w2] eqn:E; simpl.
  - intros HQ. unfold wp. by rewrite (RunInTx_alone_ok _ _ _ _ Ha E).
  - intros [He HQ]. unfold wp. by rewrite (RunInTx_alone_err _ _ _ _ Ha E He).
Qed.

Lemma wp_RunInTx_captured_alone {C A} (c : C) (body : C → M (C * A))
    (Q : result error (C * A) → World → Prop) w :
  alone w →
  wp (body c) (λ r w2, match r with
                | Ok a => Q (Ok a) (set_w_txnow None w2)
                | Err e => is_retryable e = false ∧
                           Q (Err (wrapConnErr e)) (set_w_txnow None (set_w_db (w_db w) w2))
                end) (started w) →
  wp (RunInTx_captured c body) Q w.
Proof.
  intros [Hs Ht]. unfold wp, RunInTx_captured, attempts, attempt_tx, next_attempt. simpl. rewrite Hs.
  unfold begin_tx. simpl.
  replace (set_w_txnow (Some (w_clock w)) (set_w_db (w_db w) w)) with (started w) by (by destruct w).
  destruct (body c (started w)) as [[[c' a]|e] w2]; simpl.
  - by rewrite Ht.
  - intros [He HQ]. rewrite He. simpl. unfold rollback. by rewrite Ht.
Qed.

(** A repository call outside any transaction. *)
Lemma wp_alone {A} (m : M A) (Q : result error A → World → Prop) w :
  alone w →
  wp m (λ r w2, match r with
                | Ok a => Q (Ok a) (set_w_txnow None w2)
                | Err e => Q (Err (wrapConnErr e)) (set_w_txnow None (set_w_db (w_db w) w2))
                end) (started w) →
  wp (withPool m) Q w.
Proof.
  intros [Hs Ht]. unfold wp, withPool, attempt_tx, next_attempt, bindM. rewrite Ht, Hs.
  unfold begin_tx. simpl.
  replace (set_w_txnow (Some (w_clock w)) (set_w_db (w_db w) w)) with (started w) by (by destruct w).
  by destruct (m (started w)) as [[a|e] w2].
Qed.

(** A repository call with nothing else running is the same call in a
    transaction of its own. *)
Lemma wp_own_tx {A} (m : M A) (Q : result error A → World → Prop) w :
  alone w →
  wp (withPool m) (λ r w2, match r with
                           | Ok a => Q (Ok a) (set_w_txnow None w2)
                           | Err e => Q (Err e) (set_w_txnow None (set_w_db (w_db w) w2))
                           end) (started w) →
  wp (withPool m) Q w.
Proof.
  intros Ha. unfold wp at 1. rewrite (withPool_in_tx _ _ (w_clock w)) by done.
  intros HQ. apply wp_alone; [done|]. unfold wp.
  destruct (m (started w)) as [[a|e] w2]; exact HQ.
Qed.

Lemma started_stop w : alone w → set_w_txnow None (started w) = w.
Proof. intros [_ Ht]. destruct w. simpl in *. by rewrite Ht. Qed.

Lemma started_stop_db w : alone w → set_w_txnow None (set_w_db (w_db w) (started w)) = w.
Proof. intros [_ Ht]. destruct w. simpl in *. by rewrite Ht. Qed.

(** ** Read-only operations

    With nothing else running they leave the whole world as it is. *)
Definition reads {A} (m : M A) : Prop := ∀ w, alone w → (m w).2 = w.

(** The same inside a transaction. *)
Definition reads_tx {A} (m : M A) : Prop := ∀ w, (m w).2 = w.

Lemma reads_ret {A} (a : A) : reads (retM a).
Proof. done. Qed.

Lemma reads_throw {A} e : reads (throw (A:=A) e).
Proof. done. Qed.

Lemma reads_throw_if (c : bool) e : reads (throw_if c e).
Proof. by destruct c. Qed.

Lemma reads_time_Now : reads time_Now.
Proof. done. Qed.

Lemma reads_bind {A B} (m : M A) (k : A → M B) : reads m → (∀ a, reads (k a)) → reads (bindM m k).
Proof.
  intros Hm Hk w Ha. specialize (Hm w Ha). unfold bindM. destruct (m w) as [[a|e] w1]; simpl in *; [|done].
  subst w1. by apply Hk.
Qed.

Lemma reads_try {A} (m : M A) : reads m → reads (tryM m).
Proof. intros Hm w Ha. specialize (Hm w Ha). unfold tryM. by destruct (m w). Qed.

Lemma reads_for_each {A} (l : list A) body : (∀ x, reads (body x)) → reads (for_each l body).
Proof. intros Hb. induction l as [|x l IH]; [done|]. by apply reads_bind. Qed.

Lemma reads_tx_query {A} (f : time → DB → A) : reads_tx (query f).
Proof. done. Qed.

Lemma reads_tx_query_row {A} (f : time → DB → option A) : reads_tx (query_row f).
Proof. intros w. unfold query_row, bindM, query. by destruct (f _ _). Qed.

Lemma reads_tx_on_no_rows {A} (m : M A) e : reads_tx m → reads_tx (on_no_rows m (throw e)).
Proof. intros Hm w. specialize (Hm w). unfold on_no_rows. by destruct (m w) as [[a|[]] w1]. Qed.

Lemma reads_tx_throw {A} e : reads_tx (throw (A:=A) e).
Proof. done. Qed.

Lemma reads_withPool {A} (m : M A) : reads_tx m → reads (withPool m).
Proof.
  intros Hm w Ha. apply (wp_alone m (λ _ w', w' = w) w Ha).
  pose proof (Hm (started w)) as E. unfold wp. destruct (m (started w)) as [[a|e] w2]; simpl in *; subst w2.
  - by apply started_stop.
  - by apply started_stop_db.
Qed.

Create HintDb reads.
#[export] Hint Resolve reads_ret reads_throw reads_throw_if reads_time_Now reads_tx_query reads_tx_query_row
  reads_tx_on_no_rows reads_tx_throw : reads.

Ltac reads_auto :=
  repeat match goal with
  | |- reads (bindM _ _) => apply reads_bind; [|intros ?]
  | |- reads (withPool _) => apply reads_withPool
  | |- reads (if ?b then _ else _) => destruct b
  | |- reads (tryM _) => apply reads_try
  | |- reads (for_each _ _) => apply reads_for_each; intros ?
  | |- reads _ => solve [eauto with reads]
  | |- reads_tx _ => solve [eauto with reads]
  end.

Lemma wp_reads {A} (m : M A) (Q : result error A → World → Prop) w :
  reads m → alone w → (∀ r, Q r w) → wp m Q w.
Proof. intros Hr Ha HQ. unfold wp. by rewrite (Hr w Ha). Qed.

(** With others running: the body is run from a database the others led to,
    and only what it commits counts. *)
Lemma wp_RunInTx R `{!PreOrder R} {A} (m : M A) (Q : result error A → World → Prop) w :
  steady m → rely R (w_sched w) →
  (∀ w1 now, R (w_db w) (w_db w1) → rely R (w_sched w1) → w_txnow w1 = Some now →
     wp m (λ r w2, match r with Ok a => Q (Ok a) (set_w_txnow (w_txnow w) w2) | Err _ => True end) w1) →
  (∀ e w2, R (w_db w) (w_db w2) → w_txnow w2 = w_txnow w → Q (Err e) w2) →
  wp (RunInTx m) Q w.
Proof.
  intros Hm Hs Hok Herr. apply wp_elim. intros [a|e] w' E.
  - destruct (RunInTx_ok_inv R _ _ _ _ Hm Hs E) as (now & w1 & w2 & HR & Hs1 & Ht & Em & ->).
    exact (wp_intro _ _ _ (Hok w1 now HR Hs1 Ht) _ _ Em).
  - destruct (RunInTx_err R _ _ _ _ Hm Hs E) as [HR Ht]. by apply Herr.
Qed.

(** A transaction keeps [R] when what it commits does. *)
Lemma keeps_RunInTx_captured_committed R `{!PreOrder R} {C A} (c : C) (body : C → M (C * A)) :
  (∀ c, steady (body c)) →
  (∀ c w now, w_txnow w = Some now →
     wp (body c) (λ r w', match r with Ok _ => R (w_db w) (w_db w') | Err _ => True end) w) →
  keeps R (RunInTx_captured c body).
Proof.
  intros Hst Hm w r w' Hs E.
  assert (flows w w') as Hf.
  { refine (proj2 (keeps_RunInTx_captured (λ _ _, True) c body Hst w r w' (rely_True _) E)). }
  split; [|done]. destruct r as [[c' a]|e].
  - destruct (RunInTx_captured_ok_inv R _ _ _ _ _ _ Hst Hs E) as (c0 & now & w1 & w2 & HR & _ & Ht & Eb & ->).
    transitivity (w_db w1); [done|]. exact (wp_intro _ _ _ (Hm c0 w1 now Ht) _ _ Eb).
  - by destruct (RunInTx_captured_err R _ _ _ _ _ Hst Hs E).
Qed.

Lemma keeps_RunInTx_committed R `{!PreOrder R} {A} (m : M A) :
  steady m →
  (∀ w now, w_txnow w = Some now →
     wp m (λ r w', match r with Ok _ => R (w_db w) (w_db w') | Err _ => True end) w) →
  keeps R (RunInTx m).
Proof.
  intros Hst Hm. unfold RunInTx. apply keeps_bind; [done| |intros; by apply keeps_ret].
  apply keeps_RunInTx_captured_committed; [done|by apply steady_bind_ret|].
  intros _ w now Ht. apply wp_bind. eapply wp_mono; [exact (Hm w now Ht)|].
  by intros [a|e] w'.
Qed.

(** ** Best-effort steps

    A step that succeeds whatever it does outside the database, and leaves the
    database alone: cache evictions, session revocation. *)
Definition quiet (m : M unit) : Prop :=
  ∀ w, ∃ w', m w = (Ok tt, w') ∧ w_db w' = w_db w ∧ flows w w'.

Lemma wp_quiet (m : M unit) (Q : result error unit → World → Prop) w :
  quiet m → (∀ w', w_db w' = w_db w → flows w w' → Q (Ok tt) w') → wp m Q w.
Proof. intros Hq HQ. destruct (Hq w) as (w' & E & Hd & Hf). unfold wp. rewrite E. by apply HQ. Qed.

Lemma quiet_ret : quiet (retM tt).
Proof. intros w. by exists w. Qed.

Lemma quiet_call {A} c (ans : nat → A) : quiet (let! _ := call c ans in retM tt).
Proof. intros w. eexists. split; [reflexivity|done]. Qed.

Lemma quiet_cache_Delete `{Env} ks : quiet (cache_Delete ks).
Proof.
  intros w. unfold cache_Delete, try_cache_Delete, bindM, call. simpl.
  destruct (cache_up _ || cache_late _); eexists; (split; [reflexivity|done]).
Qed.

Lemma quiet_audit `{Env} (req : time → AuditWriteRequest) : quiet (let! now := time_Now in go_WriteEntry (req now)).
Proof. intros w. eexists. split; [reflexivity|done]. Qed.

Lemma quiet_if (b : bool) m : quiet m → quiet (if b then m else retM tt).
Proof. destruct b; [done|intros _; apply quiet_ret]. Qed.

(** A step beside the database, whatever it answers. *)
Lemma wp_aside {A} (m : M A) (Q : result error A → World → Prop) w :
  aside m → (∀ r w', same w w' → m w = (r, w') → Q r w') → wp m Q w.
Proof.
  intros Hm HQ. apply wp_elim. intros r w' E. specialize (Hm w). rewrite E in Hm. by apply HQ.
Qed.

(** ** Symbolic execution *)

(** One step of the program at the head of a [wp]. *)
Ltac wp_step :=
  lazymatch goal with
  | |- wp (bindM _ _) _ _ => apply wp_bind
  | |- wp (retM _) _ _ => apply wp_ret
  | |- wp (throw _) _ _ => apply wp_throw
  | |- wp (tryM _) _ _ => apply wp_try
  | |- wp (wrapM _ _) _ _ => apply wp_wrap
  | |- wp (query _) _ _ => apply wp_query
  | |- wp (query_row _) _ _ => apply wp_query_row
  | |- wp (on_no_rows _ _) _ _ => apply wp_on_no_rows
  | |- wp (sql _) _ _ => apply wp_sql
  | |- wp (call _ _) _ _ => apply wp_call
  | |- wp (throw_if _ _) _ _ => apply wp_throw_if
  | |- wp time_Now _ _ => apply wp_time_Now
  | |- wp new_uuid _ _ => apply wp_new_uuid
  | |- wp (withPool _) _ _ => eapply wp_in_tx; [eassumption|]
  | |- wp (let '(_, _) := ?x in _) _ _ => destruct x
  | |- match wrap_result (Ok _) with _ => _ end => cbn beta iota delta [wrap_result]
  | |- match wrap_result (Err _) with _ => _ end => cbn beta iota delta [wrap_result]
  | |- match Ok _ with _ => _ end => cbn beta iota
  | |- match Err _ with _ => _ end => cbn beta iota
  end.

(** ** Frames inside a transaction

    [keeps_tx R m]: run in an open transaction, [m] relates the databases
    before and after it by [R], whatever its result. *)
Definition keeps_tx (R : DB → DB → Prop) {A} (m : M A) : Prop :=
  ∀ w now, w_txnow w = Some now → wp m (λ _ w', R (w_db w) (w_db w') ∧ w_txnow w' = Some now) w.

Create HintDb keeps_tx.

Section keeps_tx_rules.
  Context (R : DB → DB → Prop) `{!PreOrder R}.

Lemma keeps_tx_ret {A} (a : A) : keeps_tx R (retM a).
Proof. intros w now Ht. by apply wp_ret. Qed.

Lemma keeps_tx_throw {A} e : keeps_tx R (throw (A:=A) e).
Proof. intros w now Ht. by apply wp_throw. Qed.

Lemma keeps_tx_throw_if (c : bool) e : keeps_tx R (throw_if c e).
Proof. intros w now Ht. apply wp_throw_if. by destruct c. Qed.

Lemma keeps_tx_bind {A B} (m : M A) (k : A → M B) :
  keeps_tx R m → (∀ a, keeps_tx R (k a)) → keeps_tx R (bindM m k).
Proof.
  intros Hm Hk w now Ht. apply wp_bind. eapply wp_mono; [exact (Hm w now Ht)|].
  intros [a|e] w1 [HR Ht1]; [|done]. eapply wp_mono; [exact (Hk a w1 now Ht1)|].
  intros r w2 [HR' Ht2]. split; [by etransitivity|done].
Qed.

Lemma keeps_tx_try {A} (m : M A) : keeps_tx R m → keeps_tx R (tryM m).
Proof. intros Hm w now Ht. apply wp_try. exact (Hm w now Ht). Qed.

Lemma keeps_tx_on_no_rows {A} (m h : M A) : keeps_tx R m → keeps_tx R h → keeps_tx R (on_no_rows m h).
Proof.
  intros Hm Hh w now Ht. apply wp_on_no_rows. eapply wp_mono; [exact (Hm w now Ht)|].
  intros [a|[]] w1 [HR Ht1]; try done. eapply wp_mono; [exact (Hh w1 now Ht1)|].
  intros r w2 [HR' Ht2]. split; [by etransitivity|done].
Qed.

Lemma keeps_tx_for_each {A} (l : list A) body :
  (∀ x, keeps_tx R (body x)) → keeps_tx R (for_each l body).
Proof.
  intros Hb. induction l as [|x l IH]; simpl; [apply keeps_tx_ret|by apply keeps_tx_bind].
Qed.

Lemma keeps_tx_for_fold {A B} (l : list A) (acc : B) body :
  (∀ b x, keeps_tx R (body b x)) → keeps_tx R (for_fold l acc body).
Proof.
  intros Hb. revert acc. induction l as [|x l IH]; intros acc; simpl; [apply keeps_tx_ret|by apply keeps_tx_bind].
Qed.

Lemma keeps_tx_query {A} (f : time → DB → A) : keeps_tx R (query f).
Proof. intros w now Ht. by apply wp_query. Qed.

Lemma keeps_tx_query_row {A} (f : time → DB → option A) : keeps_tx R (query_row f).
Proof. intros w now Ht. apply wp_query_row. by destruct (f _ _). Qed.

Lemma keeps_tx_sql {A} (f : time → DB → result error (A * DB)) :
  (∀ now d a d', f now d = Ok (a, d') → R d d') → keeps_tx R (sql f).
Proof.
  intros Hf w now Ht. apply wp_sql. destruct (f _ (w_db w)) as [[a d]|e] eqn:E; [|done].
  split; [by eapply Hf|done].
Qed.

Lemma keeps_tx_withPool {A} (m : M A) : keeps_tx R m → keeps_tx R (withPool m).
Proof. intros Hm w now Ht. eapply wp_in_tx; [done|]. exact (Hm w now Ht). Qed.

Lemma keeps_tx_new_uuid `{Env} : keeps_tx R new_uuid.
Proof. intros w now Ht. by apply wp_new_uuid. Qed.

Lemma keeps_tx_id_or_new `{Env} id : keeps_tx R (id_or_new id).
Proof. unfold id_or_new. destruct (_ =? _); [apply keeps_tx_new_uuid|apply keeps_tx_ret]. Qed.

Lemma keeps_tx_map_range `{Env} {A} (l : list A) : keeps_tx R (map_range l).
Proof. intros w now Ht. by apply wp_map_range. Qed.

Lemma keeps_tx_time_Now : keeps_tx R time_Now.
Proof. intros w now Ht. by apply wp_time_Now. Qed.

Lemma keeps_tx_publish `{Env} ev :
  (∀ d, R d (set_outbox_events (outbox_events d ++ [ev]) d)) → keeps_tx R (publish ev).
Proof.
  intros HR w now Ht. unfold wp, publish. destruct has_publisher; [|done]. unfold Enqueue.
  destruct (negb _); [done|]. rewrite Ht. by split; [apply HR|].
Qed.
End keeps_tx_rules.

#[export] Hint Resolve keeps_tx_ret keeps_tx_throw keeps_tx_throw_if keeps_tx_query keeps_tx_query_row
  keeps_tx_new_uuid keeps_tx_id_or_new keeps_tx_map_range keeps_tx_time_Now keeps_tx_publish : keeps_tx.

(** Walks through a program; what is left are the statements that write. *)
Ltac keeps_tx_step :=
  match goal with
  | |- keeps_tx _ (bindM _ _) => apply keeps_tx_bind; [apply _| |intros ?]
  | |- keeps_tx _ (let '(_, _) := ?x in _) => destruct x
  | |- keeps_tx _ (match ?x with _ => _ end) => destruct x
  | |- keeps_tx _ (if ?x then _ else _) => destruct x
  | |- keeps_tx _ (withPool _) => apply keeps_tx_withPool
  | |- keeps_tx _ (tryM _) => apply keeps_tx_try
  | |- keeps_tx _ (on_no_rows _ _) => apply keeps_tx_on_no_rows; [apply _| |]
  | |- keeps_tx _ (for_each _ _) => apply keeps_tx_for_each; [apply _|intros ?]
  | |- keeps_tx _ (for_fold _ _ _) => apply keeps_tx_for_fold; [apply _|intros ? ?]
  | |- keeps_tx _ (sql _) => apply keeps_tx_sql; [apply _|]
  | |- keeps_tx _ _ => solve [eauto with keeps_tx typeclass_instances]
  end.

Ltac keeps_tx_auto := repeat keeps_tx_step.
