(* ===== verification/TenantRepo.v ===== *)
(** * TenantRepo: statements on [tenants]

    The operations of [internal/adapter/outbound/postgres/tenant_repository.go]
    and the port types of [internal/core/port/tenant_repository.go].  Each
    [UPDATE] goes through [tenants_update], which runs the touch trigger and
    then the CHECK and unique constraints of the table on the new rows. *)

From S2P Require Import Prelude Domain Schema Tx.

(** ** Statements *)

Definition uq_realm (l : list Tenant) (t : Tenant) : option pg_error :=
  if realm_free t l then None else Some (PgUniqueViolation "uq_tenants_realm_id_dedicated").

(** [UPDATE tenants SET f WHERE p RETURNING ...]: the updated rows. *)
Definition tenants_update (p : Tenant → bool) (f : Tenant → Tenant) (now : time) (d : DB)
  : result error (list Tenant * DB) :=
  let l' := update_where p (touched now f) (tenants d) in
  let rows := List.map (touched now f) (select p (tenants d)) in
  match first_error (List.map tenant_checks rows ++ List.map (uq_realm l') rows) with
  | Some e => Err (EPg e)
  | None => Ok (rows, set_tenants l' d)
  end.

(** [tx.Exec] of such an update: [RowsAffected]. *)
Definition exec_update (p : Tenant → bool) (f : time → Tenant → Tenant) : M Z :=
  let! rows := sql (λ now d, tenants_update p (f now) now d) in
  retM (Z.of_nat (length rows)).

(** Case-insensitive text (the citext type): equality up to ASCII case. *)
Definition lower_ascii (c : Ascii.ascii) : Ascii.ascii :=
  let n := Ascii.N_of_ascii c in
  if (N.leb 65 n && N.leb n 90)%N then Ascii.ascii_of_N (n + 32) else c.

Fixpoint lower (s : string) : string :=
  match s with
  | EmptyString => EmptyString
  | String c s' => String (lower_ascii c) (lower s')
  end.

Definition citext_eq (a b : string) : bool := String.eqb (lower a) (lower b).

Definition day : Z := 86400000000.

(** A pending invitation that holds a seat. *)
Definition pi_holds_seat (now : time) (tenantID : uuid) (i : PendingInvitation) : bool :=
  (pi_TenantID i =? tenantID) && (pi_Status i ==? InvitePending) && (now <? pi_ExpiresAt i).

(** An active member. *)
Definition tm_active_of (tenantID : uuid) (m : TenantMembership) : bool :=
  (tm_TenantID m =? tenantID) && tm_live m && (tm_Status m ==? MembershipActive).

(** ** Reads *)

Definition tenant_not_found : error := fail_with ErrTenantNotFound "tenant not found".

(** [TenantRepository.FindByID] *)
Definition FindByID (id : uuid) : M Tenant :=
  withPool (on_no_rows (query_row (λ _ d, select_first (t_is_live id) (tenants d)))
                       (throw tenant_not_found)).

(** [TenantRepository.FindByIDIncludingDeleted] *)
Definition FindByIDIncludingDeleted (id : uuid) : M Tenant :=
  withPool (on_no_rows (query_row (λ _ d, select_first (t_is id) (tenants d)))
                       (throw tenant_not_found)).

(** [TenantRepository.LockByID] *)
Definition LockByID (id : uuid) : M unit :=
  withPool (let! n := query (λ _ d, count (t_is_live id) (tenants d)) in
            throw_if (n =? 0) tenant_not_found).

(** [TenantRepository.LicensedSeatsForUpdate] *)
Definition LicensedSeatsForUpdate (id : uuid) : M Z :=
  withPool (query_row (λ _ d, t_LicensedSeats <$> select_first (t_is_live id) (tenants d))).

(** [port.TenantProjectionLock] *)
Record TenantProjectionLock : Type := mkTenantProjectionLock {
  tpl_Status : SubscriptionStatus;
  tpl_Plan : TenantPlan;
  tpl_LastEventAt : option time
}.

(** [TenantRepository.LockForProjection]: no live row is [nil], not an error. *)
Definition LockForProjection (id : uuid) : M (option TenantProjectionLock) :=
  withPool (query (λ _ d,
    (λ t, mkTenantProjectionLock (t_Status t) (t_Plan t) (t_LastEventAt t))
      <$> select_first (t_is_live id) (tenants d))).

(** [port.SeatOccupancy] *)
Record SeatOccupancy : Type := mkSeatOccupancy {
  so_LicensedSeats : Z;
  so_OverageSince : option time;
  so_Active : Z;
  so_Pending : Z
}.

(** [TenantRepository.LockSeatOccupancy] *)
Definition LockSeatOccupancy (id : uuid) : M SeatOccupancy :=
  withPool (
    let! t := query_row (λ _ d, select_first (t_is_live id) (tenants d)) in
    let! active := query (λ _ d, count (tm_active_of id) (tenant_memberships d)) in
    let! pending := query (λ now d, count (pi_holds_seat now id) (pending_invitations d)) in
    retM (mkSeatOccupancy (t_LicensedSeats t) (t_OverageSince t) active pending)).

(** [TenantRepository.ListSubscriptionLapses] *)
Definition ListSubscriptionLapses (graceDays : Z) : M (list Tenant) :=
  withPool (query (λ now d,
    take 1000
      (sort_by (λ t, default 0 (t_CancelledAt t))
        (select (λ t, (t_Status t ==? StatusCancelled)
                      && match t_CancelledAt t with
                         | Some c => c <=? now - graceDays * day
                         | None => false
                         end
                      && t_live t) (tenants d))))).

(** [domain.TenantResolution] *)
Record TenantResolution : Type := mkTenantResolution {
  res_Found : bool;
  res_Realm : string;
  res_RealmType : option RealmType;
  res_TenantID : option uuid
}.

Definition resolution_of (t : Tenant) : TenantResolution :=
  mkTenantResolution true (t_RealmID t) (Some (t_RealmType t))
    (if t_RealmType t ==? RealmShared then Some (t_ID t) else None).

(** The live tenants of the pending invitations for an address, most recent
    invitation first. *)
Definition invited_tenants (now : time) (identifier : string) (d : DB) : list Tenant :=
  List.flat_map (λ i, select (t_is_live (pi_TenantID i)) (tenants d))
    (sort_by (λ i, - pi_CreatedAt i)
      (select (λ i, citext_eq (pi_Email i) identifier && (pi_Status i ==? InvitePending)
                    && (now <? pi_ExpiresAt i)) (pending_invitations d))).

(** [TenantRepository.ResolveByIdentifier] *)
Definition ResolveByIdentifier (identifier : string) : M TenantResolution :=
  withPool (query (λ now d,
    match select (λ t, String.eqb (t_Slug t) identifier && t_live t) (tenants d)
          ++ invited_tenants now identifier d with
    | [] => mkTenantResolution false "" None None
    | t :: _ => resolution_of t
    end)).

(** ** Writes *)

(** [TenantRepository.optimisticConflictOrNotFound] *)
Definition optimisticConflictOrNotFound {A} (id : uuid) : M A :=
  let! o := query (λ _ d, select_first (t_is_live id) (tenants d)) in
  match o with
  | None => throw tenant_not_found
  | Some t => throw (EDomain (WithDetails (NewError ErrOptimisticLockConflict "record version conflict")
                        [("record_version", JNum (t_RecordVersion t)); ("updated_at", JNum (t_UpdatedAt t))]))
  end.

(** [domain.TenantPatch], the columns P-2 writes. *)
Record TenantPatch : Type := mkTenantPatch {
  tp_Name : option string;
  tp_DefaultLocale : option string;
  tp_LocalAccountsEnabled : option bool;
  tp_MFAFreshnessSeconds : option Z;
  tp_ResidencyMode : option ResidencyMode;
  tp_RecordVersion : Z
}.

Definition opt_set {V R} (set : V → R → R) (o : option V) (r : R) : R :=
  match o with Some v => set v r | None => r end.

(** The SET list [Update] builds. *)
Definition apply_patch (p : TenantPatch) (t : Tenant) : Tenant :=
  opt_set set_t_ResidencyMode (tp_ResidencyMode p)
    (opt_set set_t_MFAFreshnessSeconds (tp_MFAFreshnessSeconds p)
      (opt_set set_t_LocalAccountsEnabled (tp_LocalAccountsEnabled p)
        (opt_set set_t_DefaultLocale (tp_DefaultLocale p)
          (opt_set set_t_Name (tp_Name p) t)))).

Definition patch_is_empty (p : TenantPatch) : bool :=
  isNull (tp_Name p) && isNull (tp_DefaultLocale p) && isNull (tp_LocalAccountsEnabled p)
  && isNull (tp_MFAFreshnessSeconds p) && isNull (tp_ResidencyMode p).

(** [TenantRepository.Update] *)
Definition Update (id : uuid) (patch : option TenantPatch) : M Tenant :=
  match patch with
  | None => throw (fail_with ErrValidation "patch is required")
  | Some p =>
      if patch_is_empty p then FindByID id
      else withPool (
        let! rows := sql (λ now d,
          tenants_update (λ t, t_is_live id t && (t_RecordVersion t =? tp_RecordVersion p))
                         (apply_patch p) now d) in
        match rows with
        | [] => optimisticConflictOrNotFound id
        | t :: _ => retM t
        end)
  end.

(** [TenantRepository.SetRealmSyncPending] *)
Definition SetRealmSyncPending (id : uuid) : M unit :=
  withPool (let! n := exec_update (t_is_live id) (λ _, set_t_RealmSyncPending true) in
            throw_if (n =? 0) tenant_not_found).

(** [TenantRepository.SetFeatureFlags] *)
Definition SetFeatureFlags (id : uuid) (flags : gmap string json) (expectedVersion : Z) : M unit :=
  withPool (
    let! n := exec_update (λ t, t_is_live id t && (t_RecordVersion t =? expectedVersion))
                          (λ _, set_t_FeatureFlags flags) in
    if n =? 0 then
      let! o := query (λ _ d, t_RecordVersion <$> select_first (t_is_live id) (tenants d)) in
      match o with
      | None => throw tenant_not_found
      | Some current => throw (EDomain (WithDetails (NewError ErrOptimisticLockConflict "record version conflict")
                                          [("record_version", JNum current)]))
      end
    else retM tt).

(** [TenantRepository.ClearOwnerlessSince] *)
Definition ClearOwnerlessSince (id : uuid) : M unit :=
  withPool (exec_update (t_is id) (λ _, set_t_OwnerlessSince None) ;; retM tt).

(** [TenantRepository.MarkOwnerlessIfUnset] *)
Definition MarkOwnerlessIfUnset (id : uuid) : M bool :=
  withPool (let! n := exec_update (λ t, t_is id t && isNull (t_OwnerlessSince t))
                                  (λ now, set_t_OwnerlessSince (Some now)) in
            retM (0 <? n)).

(** [TenantRepository.SetRealmFields] *)
Definition SetRealmFields (id : uuid) (realmID : string) (realmType : RealmType) (shard : string)
    (recordVersion : Z) : M unit :=
  withPool (
    let! n := exec_update (λ t, t_is id t && (t_RecordVersion t =? recordVersion))
                (λ _ t, set_t_KeycloakShard shard (set_t_RealmType realmType (set_t_RealmID realmID t))) in
    if n =? 0 then
      let! o := query (λ _ d, t_RecordVersion <$> select_first (t_is id) (tenants d)) in
      match o with
      | None => throw tenant_not_found
      | Some current => throw (EDomain (WithDetails (NewError ErrOptimisticLockConflict "record version conflict")
                                          [("record_version", JNum current)]))
      end
    else retM tt).

(** [TenantRepository.SetOverageSince] *)
Definition SetOverageSince (id : uuid) (since : option time) : M unit :=
  withPool (exec_update (t_is id) (λ _, set_t_OverageSince since) ;; retM tt).

(** [TenantRepository.SetLastEventAt] *)
Definition SetLastEventAt (id : uuid) (t : time) : M unit :=
  withPool (exec_update (t_is id) (λ _, set_t_LastEventAt (Some t)) ;; retM tt).

(** [port.TenantLifecyclePatch]: the operation with the fields it reads. *)
Inductive TenantLifecyclePatch : Type :=
| LifecycleSetRealm (RealmID : string) (KeycloakShard : string)
| LifecycleActivatePaid (Plan : TenantPlan)
| LifecycleSetStatusClearSuspension (Status : SubscriptionStatus)
| LifecycleTrialReactivate (TrialDurationDays : Z)
| LifecycleSuspendBillingLapse
| LifecycleSuspendOperator
| LifecycleOffboard
| LifecycleSetPlan (Plan : TenantPlan)
| LifecycleCancel
| LifecycleReactivatePaid
| LifecycleReactivateTrial
| LifecycleSetLicensedSeats (LicensedSeats : Z).

(** The extra WHERE conditions of [execLifecyclePatch]. *)
Definition patch_guard (patch : TenantLifecyclePatch) (t : Tenant) : bool :=
  match patch with
  | LifecycleTrialReactivate _ => t_TrialReactivationCount t <? 1
  | LifecycleReactivatePaid => notNull (t_SubscriptionStartedAt t)
  | LifecycleReactivateTrial => isNull (t_SubscriptionStartedAt t)
  | _ => true
  end.

(** The SET lists of [execLifecyclePatch]. *)
Definition patch_row (now : time) (patch : TenantLifecyclePatch) (t : Tenant) : Tenant :=
  match patch with
  | LifecycleSetRealm realmID shard =>
      set_t_KeycloakShard shard (set_t_RealmType RealmDedicated (set_t_RealmID realmID t))
  | LifecycleActivatePaid plan =>
      set_t_SuspensionSource None (set_t_Plan plan
        (set_t_SubscriptionStartedAt (Some now) (set_t_Status StatusActive t)))
  | LifecycleSetStatusClearSuspension status =>
      set_t_SuspensionSource None (set_t_Status status t)
  | LifecycleTrialReactivate days =>
      set_t_SuspensionSource None
        (set_t_TrialReactivationCount (t_TrialReactivationCount t + 1)
          (set_t_TrialEndsAt (Some (now + days * day)) (set_t_Status StatusTrial t)))
  | LifecycleSuspendBillingLapse =>
      set_t_CancelledAt (coalesce (t_CancelledAt t) now)
        (set_t_SuspensionSource (Some SuspensionSourceBillingLapse) (set_t_Status StatusSuspended t))
  | LifecycleSuspendOperator =>
      set_t_SuspensionSource (Some SuspensionSourceOperator) (set_t_Status StatusSuspended t)
  | LifecycleOffboard =>
      set_t_SuspensionSource None (set_t_CancelledAt (coalesce (t_CancelledAt t) now)
        (set_t_DeletedAt (Some now) (set_t_Status StatusOffboarded t)))
  | LifecycleSetPlan plan => set_t_Plan plan t
  | LifecycleCancel =>
      set_t_SuspensionSource None (set_t_CancelledAt (coalesce (t_CancelledAt t) now)
        (set_t_Status StatusCancelled t))
  | LifecycleReactivatePaid =>
      set_t_SuspensionSource None (set_t_CancelledAt None (set_t_Status StatusActive t))
  | LifecycleReactivateTrial =>
      set_t_SuspensionSource None (set_t_CancelledAt None (set_t_Status StatusTrial t))
  | LifecycleSetLicensedSeats n => set_t_LicensedSeats n t
  end.

(** [execLifecyclePatch] *)
Definition execLifecyclePatch (id : uuid) (patch : TenantLifecyclePatch) : M Z :=
  exec_update (λ t, t_is id t && patch_guard patch t) (λ now, patch_row now patch).

(** [TenantRepository.ApplyLifecyclePatch] *)
Definition ApplyLifecyclePatch (id : uuid) (patch : TenantLifecyclePatch) : M Z :=
  withPool (execLifecyclePatch id patch).

(** [TenantRepository.Insert]: the row the INSERT writes, the columns it does
    not list at their defaults. *)
Definition inserted_tenant (now : time) (t : Tenant) : Tenant :=
  {| t_ID := t_ID t; t_Slug := t_Slug t; t_Name := t_Name t; t_Plan := t_Plan t;
     t_FeatureFlags := t_FeatureFlags t; t_Status := t_Status t;
     t_TrialEndsAt := t_TrialEndsAt t; t_TrialReactivationCount := 0;
     t_SubscriptionStartedAt := t_SubscriptionStartedAt t; t_CancelledAt := t_CancelledAt t;
     t_SuspensionSource := None; t_LastEventAt := None;
     t_RealmID := t_RealmID t; t_RealmType := t_RealmType t; t_KeycloakShard := t_KeycloakShard t;
     t_MFAFreshnessSeconds := t_MFAFreshnessSeconds t;
     t_LocalAccountsEnabled := t_LocalAccountsEnabled t; t_RealmSyncPending := false;
     t_DefaultLocale := t_DefaultLocale t; t_LicensedSeats := t_LicensedSeats t;
     t_OwnerlessSince := None; t_OverageSince := None; t_ResidencyMode := ResidencyModeStandard;
     t_RecordVersion := 1; t_CreatedAt := now; t_UpdatedAt := now; t_DeletedAt := None |}.

(** [INSERT ... ON CONFLICT (id) DO NOTHING RETURNING]: the CHECK constraints
    come first, then the conflict arbiter, then the other unique indexes. *)
Definition insert_tenant (t : Tenant) (now : time) (d : DB) : result error (option Tenant * DB) :=
  let row := inserted_tenant now t in
  match tenant_checks row with
  | Some e => Err (EPg e)
  | None =>
      if exists_row (t_is (t_ID row)) (tenants d) then Ok (None, d)
      else if exists_row (λ u, String.eqb (t_Slug u) (t_Slug row)) (tenants d)
      then Err (EPg (PgUniqueViolation "uq_tenants_slug"))
      else if negb (realm_free row (tenants d))
      then Err (EPg (PgUniqueViolation "uq_tenants_realm_id_dedicated"))
      else Ok (Some row, set_tenants (tenants d ++ [row]) d)
  end.

Definition slug_taken (e : error) : bool :=
  match errors_AsPg e with
  | Some (PgUniqueViolation c) => String.eqb c "uq_tenants_slug"
  | _ => false
  end.

Definition Insert `{Env} (t : option Tenant) : M (Tenant * bool) :=
  match t with
  | None => throw (fail_with ErrValidation "tenant is required")
  | Some t =>
      let! id := id_or_new (t_ID t) in
      let t := set_t_ID id t in
      withPool (
        let! r := tryM (sql (insert_tenant t)) in
        match r with
        | Err e => if slug_taken e then throw (fail_with ErrSlugAlreadyTaken "slug already taken") else throw e
        | Ok (Some row) => retM (row, true)
        | Ok None =>
            let! existing := query_row (λ _ d, select_first (t_is_live (t_ID t)) (tenants d)) in
            retM (existing, false)
        end)
  end.

(** ** The GDPR wipe *)

(** The tables [gdprWipeTables] names. *)
Inductive WipeTable : Type :=
| WPendingInvitations | WDeptMemberships | WTenantRoles | WTenantMemberships
| WDeptRoleLabels | WTenantDepartments.

Definition gdprWipeTables : list WipeTable :=
  [WPendingInvitations; WDeptMemberships; WTenantRoles; WTenantMemberships;
   WDeptRoleLabels; WTenantDepartments].

(** Rows of the child tables that reference a membership or a tenant
    department that a delete would remove (NO ACTION foreign keys). *)
Definition role_refs (id : uuid) (m : TenantMembership) (r : TenantRole) : bool :=
  (tm_TenantID m =? id) && (tr_TenantMembershipID r =? tm_ID m)
  && (tr_TenantID r =? tm_TenantID m) && (tr_UserID r =? tm_UserID m).

Definition dept_refs_membership (id : uuid) (m : TenantMembership) (x : DeptMembership) : bool :=
  (tm_TenantID m =? id) && (dm_TenantMembershipID x =? tm_ID m)
  && (dm_TenantID x =? tm_TenantID m) && (dm_UserID x =? tm_UserID m).

Definition dept_refs_department (id : uuid) (t : TenantDepartment) (x : DeptMembership) : bool :=
  (td_TenantID t =? id) && (dm_TenantID x =? td_TenantID t) && (dm_DepartmentID x =? td_DepartmentID t).

(** [DELETE FROM table WHERE tenant_id = id] *)
Definition delete_tenant_rows (table : WipeTable) (id : uuid) (d : DB) : result error (unit * DB) :=
  match table with
  | WPendingInvitations =>
      Ok (tt, set_pending_invitations (delete_where (λ i, pi_TenantID i =? id) (pending_invitations d)) d)
  | WDeptMemberships =>
      Ok (tt, set_dept_memberships (delete_where (λ x, dm_TenantID x =? id) (dept_memberships d)) d)
  | WTenantRoles =>
      Ok (tt, set_tenant_roles (delete_where (λ r, tr_TenantID r =? id) (tenant_roles d)) d)
  | WTenantMemberships =>
      if exists_row (λ m, exists_row (role_refs id m) (tenant_roles d)) (tenant_memberships d)
      then Err (EPg (PgForeignKeyViolation "fk_tnr_tenant_membership"))
      else if exists_row (λ m, exists_row (dept_refs_membership id m) (dept_memberships d)) (tenant_memberships d)
      then Err (EPg (PgForeignKeyViolation "fk_dm_tenant_membership"))
      else Ok (tt, set_tenant_memberships (delete_where (λ m, tm_TenantID m =? id) (tenant_memberships d)) d)
  | WDeptRoleLabels =>
      Ok (tt, set_dept_role_labels (delete_where (λ l, drl_TenantID l =? id) (dept_role_labels d)) d)
  | WTenantDepartments =>
      if exists_row (λ t, exists_row (dept_refs_department id t) (dept_memberships d)) (tenant_departments d)
      then Err (EPg (PgForeignKeyViolation "fk_dm_tenant_dept"))
      else Ok (tt, set_tenant_departments (delete_where (λ t, td_TenantID t =? id) (tenant_departments d)) d)
  end.

(** [TenantRepository.WipeTenantChildren] *)
Definition WipeTenantChildren (id : uuid) : M unit :=
  withPool (for_each gdprWipeTables (λ table,
    wrapM "GDPR wipe: delete" (sql (λ _ d, delete_tenant_rows table id d)))).

(** The child rows of a tenant, removed together with its own row by ON
    DELETE CASCADE. *)
Definition cascade_delete (id : uuid) (d : DB) : DB :=
  set_tenants (delete_where (t_is id) (tenants d))
  (set_tenant_departments (delete_where (λ t, td_TenantID t =? id) (tenant_departments d))
  (set_tenant_memberships (delete_where (λ m, tm_TenantID m =? id) (tenant_memberships d))
  (set_tenant_roles (delete_where (λ r, tr_TenantID r =? id) (tenant_roles d))
  (set_dept_memberships (delete_where (λ x, dm_TenantID x =? id) (dept_memberships d))
  (set_dept_role_labels (delete_where (λ l, drl_TenantID l =? id) (dept_role_labels d))
  (set_pending_invitations (delete_where (λ i, pi_TenantID i =? id) (pending_invitations d)) d)))))).

(** [TenantRepository.HardDeleteTenant] *)
Definition HardDeleteTenant (id : uuid) : M unit :=
  withPool (sql (λ _ d, Ok (tt, cascade_delete id d))).

(** ** Lemmas: one tenant's row *)

(** The row of a tenant, deleted or not, and the primary key. *)
Definition tenant_row (id : uuid) (d : DB) : option Tenant := select_first (t_is id) (tenants d).
Definition pk_tenants (d : DB) : Prop := NoDup (t_ID <$> tenants d).

(** The database with one tenant's row rewritten. *)
Definition update_tenant (id : uuid) (f : Tenant → Tenant) (d : DB) : DB :=
  set_tenants (update_where (t_is id) f (tenants d)) d.

(** The row an operation leaves, as seen through the touch trigger. *)
Definition same_key (f : Tenant → Tenant) : Prop := ∀ t, t_ID (f t) = t_ID t.

Lemma tenant_row_Some id d t : tenant_row id d = Some t → t ∈ tenants d ∧ t_ID t = id.
Proof. intros [H1 H2]%select_first_Some. by apply Z.eqb_eq in H2. Qed.

Lemma pk_tenants_eq d t t' :
  pk_tenants d → t ∈ tenants d → t' ∈ tenants d → t_ID t = t_ID t' → t = t'.
Proof.
  unfold pk_tenants. induction (tenants d) as [|u l IH]; [set_solver|].
  intros [Hn Hl]%NoDup_cons. rewrite !elem_of_cons. intros [->|Ht] [->|Ht'] E; auto.
  - exfalso. apply Hn. rewrite E. apply list_elem_of_fmap. eauto.
  - exfalso. apply Hn. rewrite <- E. apply list_elem_of_fmap. eauto.
Qed.

Lemma tenant_row_in id d t :
  pk_tenants d → t ∈ tenants d → t_ID t = id → tenant_row id d = Some t.
Proof.
  intros Hpk Hin <-. destruct (tenant_row (t_ID t) d) as [u|] eqn:E.
  - apply tenant_row_Some in E as [Hu Hid]. f_equal. by eapply pk_tenants_eq.
  - unfold tenant_row in E. rewrite select_first_None in E. specialize (E t Hin).
    unfold t_is in E. by rewrite Z.eqb_refl in E.
Qed.

(** A live row is the tenant's row. *)
Lemma live_row id d t :
  pk_tenants d →
  select_first (t_is_live id) (tenants d) = Some t ↔ tenant_row id d = Some t ∧ t_live t = true.
Proof.
  intros Hpk. split.
  - intros [Hin [Hid Hl]%andb_true_iff]%select_first_Some. apply Z.eqb_eq in Hid.
    split; [by apply tenant_row_in|done].
  - intros [Hrow Hl]. apply tenant_row_Some in Hrow as [Hin Hid].
    destruct (select_first (t_is_live id) (tenants d)) as [u|] eqn:E.
    + apply select_first_Some in E as [Hu [Hidu _]%andb_true_iff]. apply Z.eqb_eq in Hidu.
      f_equal. eapply pk_tenants_eq; eauto. congruence.
    + rewrite select_first_None in E. specialize (E t Hin).
      unfold t_is_live in E. by rewrite Hid, Z.eqb_refl, Hl in E.
Qed.

(** Updating one row by key. *)
Lemma tenant_row_update id id' f d :
  same_key f →
  tenant_row id' (update_tenant id f d) =
  if id' =? id then f <$> tenant_row id' d else tenant_row id' d.
Proof.
  intros Hk. unfold tenant_row, update_tenant. simpl.
  induction (tenants d) as [|t l IH]; simpl; [by destruct (id' =? id)|].
  unfold t_is in *. destruct (t_ID t =? id) eqn:E1; simpl; rewrite ?Hk;
    destruct (t_ID t =? id') eqn:E2; simpl; try done;
    destruct (id' =? id) eqn:E3; try done; lia.
Qed.

Lemma pk_update id f d : same_key f → pk_tenants d → pk_tenants (update_tenant id f d).
Proof.
  intros Hk. unfold pk_tenants, update_tenant. simpl. intros H.
  replace (t_ID <$> update_where (t_is id) f (tenants d)) with (t_ID <$> tenants d); [done|].
  clear H. induction (tenants d) as [|t l IH]; [done|]. rewrite !fmap_cons, IH. simpl. f_equal.
  destruct (t_is id t); [by rewrite Hk|done].
Qed.

Lemma same_key_touched now f : same_key f → same_key (touched now f).
Proof. intros H t. rewrite touched_column; [apply H|done]. Qed.

Lemma same_key_patch now patch : same_key (patch_row now patch).
Proof. intros t. by destruct patch. Qed.

#[export] Hint Resolve same_key_touched same_key_patch pk_update : core.

(** With a guard on the row, an update by key rewrites it or does nothing. *)
Lemma update_where_guard id (g : Tenant → bool) f d t :
  pk_tenants d → tenant_row id d = Some t →
  update_where (λ t, t_is id t && g t) f (tenants d) =
  if g t then update_where (t_is id) f (tenants d) else tenants d.
Proof.
  intros Hpk Hrow. apply tenant_row_Some in Hrow as [Hin Hid].
  assert (∀ u, u ∈ tenants d → t_is id u = true → u = t) as Hu.
  { intros u Hu Hi. apply Z.eqb_eq in Hi. eapply pk_tenants_eq; eauto. congruence. }
  clear Hpk Hin. induction (tenants d) as [|u l IH]; simpl; [by destruct (g t)|].
  rewrite IH by set_solver. destruct (t_is id u) eqn:E; simpl.
  - rewrite (Hu u) by set_solver. by destruct (g t).
  - by destruct (g t).
Qed.

Lemma select_guard id (g : Tenant → bool) d t :
  pk_tenants d → tenant_row id d = Some t →
  select (λ t, t_is id t && g t) (tenants d) = if g t then [t] else [].
Proof.
  intros Hpk Hrow. unfold pk_tenants, tenant_row in *.
  induction (tenants d) as [|u l IH]; [done|]. simpl in *.
  apply NoDup_cons in Hpk as [Hn Hpk]. destruct (t_is id u) eqn:E.
  - simplify_eq. assert (select (λ t, t_is id t && g t) l = []) as ->.
    { apply Z.eqb_eq in E. destruct (select _ l) as [|v l'] eqn:Es; [done|].
      assert (v ∈ select (λ t, t_is id t && g t) l) as Hv by (rewrite Es; by left).
      apply elem_of_select in Hv as [Hv [Hi _]%andb_true_iff]. apply Z.eqb_eq in Hi.
      exfalso. apply Hn. rewrite E, <- Hi. apply list_elem_of_fmap. eauto. }
    simpl. by destruct (g t).
  - simpl. auto.
Qed.

(** What an [UPDATE ... WHERE id = $1 AND g] does to a database that holds
    the row. *)
Lemma tenants_update_row id g f now d t rows d' :
  pk_tenants d → tenant_row id d = Some t →
  tenants_update (λ t, t_is id t && g t) f now d = Ok (rows, d') →
  if g t then rows = [touched now f t] ∧ d' = update_tenant id (touched now f) d ∧
              tenant_checks (touched now f t) = None
  else rows = [] ∧ d' = d.
Proof.
  intros Hpk Hrow. unfold tenants_update.
  rewrite (update_where_guard id g _ d t) by done.
  rewrite (select_guard id g d t) by done.
  destruct (g t); simpl.
  - unfold first_error. simpl. destruct (tenant_checks (touched now f t)); [done|].
    simpl. destruct (uq_realm _ _); [done|]. intros [= <- <-]. done.
  - intros [= <- <-]. by destruct d.
Qed.

Lemma exec_update_row id g f now w t r w' :
  w_txnow w = Some now → pk_tenants (w_db w) → tenant_row id (w_db w) = Some t →
  exec_update (λ t, t_is id t && g t) f w = (Ok r, w') →
  if g t then r = 1 ∧ w' = set_w_db (update_tenant id (touched now (f now)) (w_db w)) w ∧
              tenant_checks (touched now (f now) t) = None
  else r = 0 ∧ w' = w.
Proof.
  intros Hnow Hpk Hrow. unfold exec_update, bindM, sql. rewrite Hnow.
  destruct (tenants_update _ _ _ _) as [[rows d']|e] eqn:E; [|done].
  apply (tenants_update_row _ _ _ _ _ t) in E; [|done..].
  intros [= <- <-]. destruct (g t); destruct E as [-> E].
  - by destruct E as [-> ?].
  - subst d'. split; [done|]. by destruct w.
Qed.

Lemma exec_update_ext p q f w :
  (∀ t, p t = q t) → exec_update p f w = exec_update q f w.
Proof.
  intros Hpq. unfold exec_update, bindM, sql, tenants_update, update_where, select.
  assert (∀ g l, List.map (λ x : Tenant, if p x then g x else x) l
                 = List.map (λ x, if q x then g x else x) l) as E1.
  { intros g l. apply List.map_ext. intros x. by rewrite Hpq. }
  assert (∀ l, List.filter p l = List.filter q l) as E2.
  { intros l. by apply List.filter_ext. }
  by rewrite !E1, !E2.
Qed.

Lemma withPool_ok {A} (m : M A) w now a w' :
  w_txnow w = Some now → withPool m w = (Ok a, w') → m w = (Ok a, w').
Proof.
  intros Ht. rewrite (withPool_in_tx _ _ now) by done.
  destruct (m w) as [[b|e] w1]; simpl; by intros [= -> ->].
Qed.

Lemma ApplyLifecyclePatch_row id patch now w t n w' :
  w_txnow w = Some now → pk_tenants (w_db w) → tenant_row id (w_db w) = Some t →
  ApplyLifecyclePatch id patch w = (Ok n, w') →
  if patch_guard patch t
  then n = 1 ∧ w' = set_w_db (update_tenant id (touched now (patch_row now patch)) (w_db w)) w ∧
       tenant_checks (touched now (patch_row now patch) t) = None
  else n = 0 ∧ w' = w.
Proof. intros Ht Hpk Hrow H%(withPool_ok _ _ now); [|done]. by eapply exec_update_row in H. Qed.

Lemma SetLastEventAt_row id ts now w t u w' :
  w_txnow w = Some now → pk_tenants (w_db w) → tenant_row id (w_db w) = Some t →
  SetLastEventAt id ts w = (Ok u, w') →
  w' = set_w_db (update_tenant id (touched now (set_t_LastEventAt (Some ts))) (w_db w)) w.
Proof.
  intros Ht Hpk Hrow H%(withPool_ok _ _ now); [|done]. revert H. unfold bindM.
  destruct (exec_update _ _ w) as [[n|e] w1] eqn:E; [|done]. intros [= _ <-].
  rewrite (exec_update_ext _ (λ t, t_is id t && (λ _, true) t)) in E
    by (intros; by rewrite andb_true_r).
  by eapply exec_update_row in E as (_ & -> & _).
Qed.

(** *** Reads keep every relation between databases *)
Section tenant_reads.
  Context (R : DB → DB → Prop) `{!PreOrder R}.

Lemma keeps_FindByID id : keeps R (FindByID id).
Proof. unfold FindByID. keeps_auto. Qed.

Lemma keeps_FindByIDIncludingDeleted id : keeps R (FindByIDIncludingDeleted id).
Proof. unfold FindByIDIncludingDeleted. keeps_auto. Qed.

Lemma keeps_LockByID id : keeps R (LockByID id).
Proof. unfold LockByID. keeps_auto. Qed.

Lemma keeps_LicensedSeatsForUpdate id : keeps R (LicensedSeatsForUpdate id).
Proof. unfold LicensedSeatsForUpdate. keeps_auto. Qed.

Lemma keeps_LockForProjection id : keeps R (LockForProjection id).
Proof. unfold LockForProjection. keeps_auto. Qed.

Lemma keeps_LockSeatOccupancy id : keeps R (LockSeatOccupancy id).
Proof. unfold LockSeatOccupancy. keeps_auto. Qed.

Lemma keeps_ListSubscriptionLapses n : keeps R (ListSubscriptionLapses n).
Proof. unfold ListSubscriptionLapses. keeps_auto. Qed.

Lemma keeps_ResolveByIdentifier s : keeps R (ResolveByIdentifier s).
Proof. unfold ResolveByIdentifier. keeps_auto. Qed.

Lemma keeps_optimisticConflictOrNotFound {A} id : keeps R (optimisticConflictOrNotFound (A:=A) id).
Proof. unfold optimisticConflictOrNotFound. keeps_auto. Qed.

(** A write to [tenants] keeps what every such update keeps. *)
Lemma keeps_exec_update p f :
  (∀ now d rows d', tenants_update p (f now) now d = Ok (rows, d') → R d d') →
  keeps R (exec_update p f).
Proof. intros Hu. unfold exec_update. keeps_auto. eauto. Qed.

End tenant_reads.

#[export] Hint Resolve keeps_FindByID keeps_FindByIDIncludingDeleted keeps_LockByID
  keeps_LicensedSeatsForUpdate keeps_LockForProjection keeps_LockSeatOccupancy
  keeps_ListSubscriptionLapses keeps_ResolveByIdentifier keeps_optimisticConflictOrNotFound : keeps.
