(* ===== verification/EventStores.v ===== *)
(** * EventStores: inbox, parked events and the trial ledger

    The bookkeeping tables of the event side: the exactly-once inbox
    ([internal/core/port/idempotency.go], implemented over platform-events'
    [inbox.Store] by [idempotency_repository.go]), [pending_tenant_events]
    ([parked_tenant_event_repository.go]) and [trial_signup_ledger]
    ([trial_signup_ledger_repository.go]).  The inbox store is a library:
    class [InboxStore] takes it as a parameter with the contract
    [port.Inbox] documents; [reference_inbox] is an instance. *)

From S2P Require Import Prelude Domain Schema Tx TenantRepo.

(** ** The inbox *)

Definition is_claim (consumer : string) (id : uuid) (p : ProcessedEvent) : bool :=
  (pe_event_id p =? id) && String.eqb (pe_consumer p) consumer.

Definition claimed_id (consumer : string) (id : uuid) (d : DB) : bool :=
  exists_row (is_claim consumer id) (processed_events d).

Definition add_claim (consumer : string) (id : uuid) (d : DB) : DB :=
  set_processed_events (processed_events d ++ [mkProcessedEvent id consumer]) d.

(** The contract of [port.Inbox]: one transaction whose first statement is
    the claim (INSERT ... ON CONFLICT DO NOTHING); an event already claimed
    skips [fn]; the claim and [fn]'s writes commit or roll back together.
    [None] is a duplicate.  An event id that is not a uuid is an error before
    any claim. *)
Definition inbox_tx {A} (consumer : string) (id : uuid) (fn : M A) : M (option A) :=
  let! won := sql (λ _ d,
    if claimed_id consumer id d then Ok (false, d) else Ok (true, add_claim consumer id d)) in
  if (won : bool) then (let! a := fn in retM (Some a)) else retM None.

Definition inbox_contract {A} (parse : string → option uuid) (bad_id : string → error) (consumer eventID : string)
    (fn : M A) : M (option A) :=
  match parse eventID with
  | None => throw (bad_id eventID)
  | Some id => λ w,
      match attempt_tx (λ _ : unit, let! a := inbox_tx consumer id fn in retM (tt, a)) tt w with
      | (r, _, w') => (r, w')
      end
  end.

(** platform-events' [inbox.Store.Process], one store per consumer name: how it
    reads an event id, the error for one it cannot read, and the processing. *)
Class InboxStore := {
  store_ParseID : string → option uuid;
  store_BadID : string → error;
  store_Process : ∀ {A : Type}, string → string → M A → M (option A);
  store_Process_contract : ∀ {A : Type} consumer eventID (fn : M A) w,
    store_Process consumer eventID fn w = inbox_contract store_ParseID store_BadID consumer eventID fn w
}.

(** The event with this id is recorded as processed. *)
Definition claimed `{InboxStore} (consumer eventID : string) (d : DB) : bool :=
  match store_ParseID eventID with
  | Some id => claimed_id consumer id d
  | None => false
  end.

(** [InboxRepository.ProcessOnce]; the result carries [fn]'s own, [None]
    meaning [duplicate]. *)
Definition ProcessOnce `{InboxStore} {A} (consumer eventID : string) (fn : M A) : M (option A) := λ w,
  let '(r, w') := store_Process consumer eventID fn w in (wrap_result r, w').

(** The rest of [InboxRepository]: one store per consumer name, built on first
    use; platform-events' constructor and [inbox.Store.Prune] are parameters. *)
Section inbox_repository.
  Context {Store : Type} (NewStore : string → result error Store) (store_Prune : Store → Z → nat → M Z).

(** [InboxRepository.store] *)
Definition store (consumer : string) (stores : gmap string Store) : result error Store * gmap string Store :=
  match stores !! consumer with
  | Some s => (Ok s, stores)
  | None => match NewStore consumer with
            | Err e => (Err e, stores)
            | Ok s => (Ok s, <[consumer := s]> stores)
            end
  end.

(** [InboxRepository.Prune]: the stores, and the rows deleted. *)
Definition Prune (consumer : string) (retention : Z) (batch : nat) (stores : gmap string Store)
  : gmap string Store * M Z :=
  let '(r, stores') := store consumer stores in
  (stores', match r with
            | Err e => throw e
            | Ok s => λ w, let '(n, w') := store_Prune s retention batch w in (wrap_result n, w')
            end).
End inbox_repository.

(** A store that satisfies the contract. *)
Definition reference_inbox (parse : string → option uuid) : InboxStore :=
  {| store_ParseID := parse; store_BadID := λ id, EWrap id (EPlain "invalid event id");
     store_Process := λ A, inbox_contract parse (λ id, EWrap id (EPlain "invalid event id"));
     store_Process_contract := λ A c e fn w, eq_refl |}.

(** ** Parked events (EVT-18) *)

(** [ParkedTenantEventRepository.Park] *)
Definition Park (ev : ParkedTenantEvent) : M unit :=
  withPool (sql (λ now d,
    if exists_row (λ p, pte_EventID p =? pte_EventID ev) (pending_tenant_events d) then Ok (tt, d)
    else Ok (tt, set_pending_tenant_events
                   (pending_tenant_events d
                    ++ [mkParkedTenantEvent (pte_EventID ev) (pte_TenantID ev) (pte_EventType ev)
                          (pte_OccurredAt ev) (pte_Envelope ev) now]) d))).

(** The replay order (occurred_at, then event_id). *)
Definition pte_le (p q : ParkedTenantEvent) : bool :=
  (pte_OccurredAt p <? pte_OccurredAt q)
  || ((pte_OccurredAt p =? pte_OccurredAt q) && (pte_EventID p <=? pte_EventID q)).

Definition order_parked (l : list ParkedTenantEvent) : list ParkedTenantEvent := isort pte_le l.

(** [ParkedTenantEventRepository.ListForTenant] *)
Definition ListForTenant (tenantID : uuid) : M (list ParkedTenantEvent) :=
  withPool (query (λ _ d, order_parked (select (λ p, pte_TenantID p =? tenantID) (pending_tenant_events d)))).

(** [ParkedTenantEventRepository.Claim] *)
Definition Claim (eventID : uuid) : M bool :=
  withPool (sql (λ _ d,
    let n := count (λ p, pte_EventID p =? eventID) (pending_tenant_events d) in
    Ok (n =? 1, set_pending_tenant_events
                  (delete_where (λ p, pte_EventID p =? eventID) (pending_tenant_events d)) d))).

(** [ParkedTenantEventRepository.LockTenantProvisioning]: the advisory lock
    serialises with I-1; it has no effect on the database. *)
Definition LockTenantProvisioning (tenantID : uuid) : M unit :=
  withPool (query (λ _ _, tt)).

(** ** The trial signup ledger (CR-4) *)

(** trial_signup_ledger_email_hash_format: 64 lower-case hex digits. *)
Definition is_hex_lower (c : Ascii.ascii) : bool :=
  let n := Ascii.N_of_ascii c in
  ((N.leb 48 n && N.leb n 57) || (N.leb 97 n && N.leb n 102))%N.

Fixpoint all_chars (p : Ascii.ascii → bool) (s : string) : bool :=
  match s with
  | EmptyString => true
  | String c s' => p c && all_chars p s'
  end.

Definition email_hash_format (h : string) : bool :=
  Nat.eqb (String.length h) 64 && all_chars is_hex_lower h.

(** [TrialSignupLedgerRepository.ExistsEmailHash] *)
Definition ExistsEmailHash (emailHash : string) : M bool :=
  withPool (query (λ _ d, exists_row (λ r, String.eqb (tsl_email_hash r) emailHash) (trial_signup_ledger d))).

(** The INSERT ... ON CONFLICT DO UPDATE SET tenant_id = the old one: the
    tenant the hash belongs to. *)
Definition upsert_ledger (emailHash : string) (tenantID : uuid) (now : time) (d : DB)
  : result error (option uuid * DB) :=
  if negb (email_hash_format emailHash)
  then Err (EPg (PgCheckViolation "trial_signup_ledger_email_hash_format"))
  else match select_first (λ r, String.eqb (tsl_email_hash r) emailHash) (trial_signup_ledger d) with
       | Some r => Ok (tsl_tenant_id r, d)
       | None => Ok (Some tenantID,
                     set_trial_signup_ledger
                       (trial_signup_ledger d ++ [mkLedgerRow emailHash (Some tenantID) now]) d)
       end.

(** [TrialSignupLedgerRepository.ClaimEmailHash] *)
Definition ClaimEmailHash (emailHash : string) (tenantID : uuid) : M unit :=
  let! holder := withPool (sql (upsert_ledger emailHash tenantID)) in
  match holder with
  | Some h => throw_if (negb (h =? tenantID))
                (fail_with ErrTrialAlreadyUsed "this email address has already been used for a trial")
  | None => throw (fail_with ErrTrialAlreadyUsed "this email address has already been used for a trial")
  end.

(** [TrialSignupLedgerRepository.PruneCreatedBefore] *)
Definition PruneCreatedBefore (cutoff : time) (limit : nat) : M Z :=
  withPool (sql (λ _ d,
    let victims := take limit (sort_by tsl_created_at
                     (select (λ r, tsl_created_at r <? cutoff) (trial_signup_ledger d))) in
    let is_victim r := contains (tsl_email_hash r) (List.map tsl_email_hash victims) in
    Ok (count is_victim (trial_signup_ledger d),
        set_trial_signup_ledger (delete_where is_victim (trial_signup_ledger d)) d))).

(** ** Ports between the consumer and the provisioning service *)

(** [service.TrialSignupInput] *)
Record TrialSignupInput : Type := mkTrialSignupInput {
  tsi_TenantID : uuid;
  tsi_Slug : string;
  tsi_Name : string;
  tsi_Plan : TenantPlan;
  tsi_OwnerUserID : uuid;
  tsi_DefaultLocale : string;
  tsi_EmailHash : string;
  tsi_LicensedSeats : Z
}.
