(* ===== verification/MembershipRepo.v ===== *)
(** * MembershipRepo: statements on [tenant_memberships]

    [internal/adapter/outbound/postgres/membership_repository.go]. *)

From S2P Require Import Prelude Domain Schema Tx TenantRepo.

Definition member_not_found : error := fail_with ErrMemberNotFound "member not found".

(** (created_at, id), the keyset order. *)
Definition tm_le (a b : TenantMembership) : bool :=
  (tm_CreatedAt a <? tm_CreatedAt b)
  || ((tm_CreatedAt a =? tm_CreatedAt b) && (tm_ID a <=? tm_ID b)).

(** [(created_at, id) > (cursor.CreatedAt, cursor.ID)] *)
Definition after_cursor (cursor : option MembershipListCursor) (m : TenantMembership) : bool :=
  match cursor with
  | None => true
  | Some c => (cur_CreatedAt c <? tm_CreatedAt m)
              || ((cur_CreatedAt c =? tm_CreatedAt m) && (cur_ID c <? tm_ID m))
  end.

(** The memberships of a tenant, in keyset order. *)
Definition listed (tenantID : uuid) (cursor : option MembershipListCursor) (d : DB) : list TenantMembership :=
  isort tm_le (select (λ m, (tm_TenantID m =? tenantID) && tm_live m && after_cursor cursor m)
                      (tenant_memberships d)).

Definition page_limit (limit : Z) : nat :=
  if (limit <=? 0) || (200 <? limit) then 50%nat else Z.to_nat limit.

(** [last] of a page and its cursor. *)
Definition cursor_of (m : TenantMembership) : MembershipListCursor :=
  mkMembershipListCursor (tm_CreatedAt m) (tm_ID m).

(** The page built from the [limit + 1] rows fetched. *)
Definition page_of (limit : nat) (rows : list TenantMembership) : MembershipListPage :=
  let item m := mkMembershipListItem m [] [] in
  if Nat.ltb limit (length rows)
  then mkMembershipListPage (List.map item (take limit rows)) (cursor_of <$> last (take limit rows))
  else mkMembershipListPage (List.map item rows) None.

(** [MembershipRepository.List] *)
Definition List (tenantID : uuid) (cursor : option MembershipListCursor) (limit : Z) : M MembershipListPage :=
  let limit := page_limit limit in
  let! rows := withPool (query (λ _ d, take (limit + 1) (listed tenantID cursor d))) in
  retM (page_of limit rows).

(** [MembershipRepository.FindByUserID] *)
Definition FindByUserID (tenantID userID : uuid) : M TenantMembership :=
  withPool (on_no_rows (query_row (λ _ d, select_first (tm_of tenantID userID) (tenant_memberships d)))
                       (throw member_not_found)).

(** The INSERT ... ON CONFLICT (tenant_id, user_id) WHERE deleted_at IS NULL
    DO NOTHING. *)
Definition insert_membership (id tenantID userID : uuid) (status : MembershipStatus) (now : time) (d : DB)
  : result error (option TenantMembership * DB) :=
  if negb (membership_known status) then Err (EPg PgInvalidEnum)
  else if exists_row (tm_of tenantID userID) (tenant_memberships d) then Ok (None, d)
  else if exists_row (λ m, tm_ID m =? id) (tenant_memberships d)
  then Err (EPg (PgUniqueViolation "tenant_memberships_pkey"))
  else match fk_tenant d "fk_tm_tenant" tenantID with
       | Some e => Err (EPg e)
       | None =>
           let row := mkTenantMembership id tenantID userID status 1 now now None in
           Ok (Some row, set_tenant_memberships (tenant_memberships d ++ [row]) d)
       end.

(** [MembershipRepository.Insert] *)
Definition Insert `{Env} (id tenantID userID : uuid) (status : MembershipStatus) : M TenantMembership :=
  let! id := id_or_new id in
  withPool (
    let! created := sql (insert_membership id tenantID userID status) in
    match created with
    | Some m => retM m
    | None => query_row (λ _ d, select_first (tm_of tenantID userID) (tenant_memberships d))
    end).

(** [MembershipRepository.probeMembership] *)
Definition probeMembership {A} (tenantID userID : uuid) : M A :=
  let! o := query (λ _ d, tm_RecordVersion <$> select_first (tm_of tenantID userID) (tenant_memberships d)) in
  match o with
  | None => throw member_not_found
  | Some v => throw (version_conflict v)
  end.

(** The live row at the expected version. *)
Definition tm_at (tenantID userID : uuid) (version : Z) (m : TenantMembership) : bool :=
  tm_of tenantID userID m && (tm_RecordVersion m =? version).

Definition memberships_update (p : TenantMembership → bool) (f : TenantMembership → TenantMembership)
    (now : time) (d : DB) : result error (list TenantMembership * DB) :=
  let '(rows, l) := update_returning p (touched now f) (tenant_memberships d) in
  Ok (rows, set_tenant_memberships l d).

(** [MembershipRepository.SetStatus] *)
Definition SetStatus (tenantID userID : uuid) (status : MembershipStatus) (expectedVersion : Z)
  : M TenantMembership :=
  withPool (
    let! rows := sql (λ now d,
      if negb (membership_known status) then Err (EPg PgInvalidEnum)
      else memberships_update (tm_at tenantID userID expectedVersion) (set_tm_Status status) now d) in
    match rows with
    | m :: _ => retM m
    | [] => probeMembership tenantID userID
    end).

(** [MembershipRepository.SoftDelete] *)
Definition SoftDelete (tenantID userID : uuid) (expectedVersion : Z) : M unit :=
  withPool (
    let! rows := sql (λ now d,
      memberships_update (tm_at tenantID userID expectedVersion)
        (λ m, set_tm_Status MembershipLeft (set_tm_DeletedAt (Some now) m)) now d) in
    match rows with
    | _ :: _ => retM tt
    | [] => probeMembership tenantID userID
    end).

(** [MembershipRepository.CountActive] *)
Definition CountActive (tenantID : uuid) : M Z :=
  withPool (query (λ _ d, count (tm_active_of tenantID) (tenant_memberships d))).

(** [MembershipRepository.ListActiveUserIDs] *)
Definition ListActiveUserIDs (tenantID : uuid) : M (list uuid) :=
  withPool (query (λ _ d, List.map tm_UserID
    (select (λ m, (tm_TenantID m =? tenantID) && tm_live m) (tenant_memberships d)))).

(** ** Lemmas *)

Section keeps_membership_repo.
  Context (R : DB → DB → Prop) `{!PreOrder R}.

Lemma keeps_List tid cur n : keeps R (List tid cur n).
Proof. unfold List. keeps_auto. Qed.

Lemma keeps_FindByUserID tid uid : keeps R (FindByUserID tid uid).
Proof. unfold FindByUserID. keeps_auto. Qed.

Lemma keeps_CountActive tid : keeps R (CountActive tid).
Proof. unfold CountActive. keeps_auto. Qed.

Lemma keeps_ListActiveUserIDs tid : keeps R (ListActiveUserIDs tid).
Proof. unfold ListActiveUserIDs. keeps_auto. Qed.

Lemma keeps_probeMembership {A} tid uid : keeps R (probeMembership (A:=A) tid uid).
Proof. unfold probeMembership. keeps_auto. Qed.

(** Writes to the table keep what every such statement keeps. *)
Context (HR : ∀ d l, R d (set_tenant_memberships l d)).

Lemma keeps_Insert `{Env} id tid uid st : keeps R (Insert id tid uid st).
Proof.
  unfold Insert. keeps_auto. intros ? d x d'. unfold insert_membership.
  repeat case_match; intros [= <- <-]; auto. reflexivity.
Qed.

Lemma keeps_SetStatus tid uid st v : keeps R (SetStatus tid uid st v).
Proof.
  unfold SetStatus. keeps_auto; [|apply keeps_probeMembership]. intros now d a d'.
  destruct (negb _); [done|]. intros [= <- <-]. auto.
Qed.

Lemma keeps_SoftDelete tid uid v : keeps R (SoftDelete tid uid v).
Proof.
  unfold SoftDelete. keeps_auto; [|apply keeps_probeMembership].
  intros now d a d' [= <- <-]. auto.
Qed.
End keeps_membership_repo.

#[export] Hint Resolve keeps_List keeps_FindByUserID keeps_CountActive keeps_ListActiveUserIDs
  keeps_probeMembership keeps_Insert keeps_SetStatus keeps_SoftDelete : keeps.
