(* ===== verification/RoleRepo.v ===== *)
(** * RoleRepo: statements on [tenant_roles]

    [internal/adapter/outbound/postgres/tenant_role_repository.go]. *)

From S2P Require Import Prelude Domain Schema Tx.

(** The order of the [tenant_role] enum. *)
Definition role_rank (c : TenantRoleCode) : Z :=
  match c with
  | RoleTenantOwner => 0
  | RoleTenantAdmin => 1
  | RoleTenderAdmin => 2
  | RoleMember => 3
  | RoleOther _ => 4
  end.

(** [TenantRoleRepository.listWhere] *)
Definition listWhere (p : TenantRole → bool) : M (list TenantRole) :=
  withPool (query (λ _ d, sort_by (λ r, role_rank (tr_RoleCode r)) (select p (tenant_roles d)))).

(** [TenantRoleRepository.ListByUser] *)
Definition ListByUser (tenantID userID : uuid) : M (list TenantRole) := listWhere (tr_of tenantID userID).

(** [TenantRoleRepository.ListByUsers] *)
Definition ListByUsers (tenantID : uuid) (userIDs : list uuid) : M (list TenantRole) :=
  match userIDs with
  | [] => retM []
  | _ => listWhere (λ r, (tr_TenantID r =? tenantID) && contains (tr_UserID r) userIDs && tr_live r)
  end.

(** [TenantRoleRepository.ListByRole] *)
Definition ListByRole (tenantID : uuid) (role : TenantRoleCode) : M (list TenantRole) :=
  if negb (role_known role) then withPool (throw (EPg PgInvalidEnum))
  else listWhere (λ r, (tr_TenantID r =? tenantID) && (tr_RoleCode r ==? role) && tr_live r).

(** A live tenant_owner grant. *)
Definition is_owner_grant (tenantID : uuid) (r : TenantRole) : bool :=
  (tr_TenantID r =? tenantID) && (tr_RoleCode r ==? RoleTenantOwner) && tr_live r.

(** [TenantRoleRepository.CountActiveOwners]: the grants, whatever the status
    of the member who holds them. *)
Definition CountActiveOwners (tenantID : uuid) : M Z :=
  withPool (query (λ _ d, count (is_owner_grant tenantID) (tenant_roles d))).

(** The grant of one role to one user, while live. *)
Definition tr_grant (tenantID userID : uuid) (role : TenantRoleCode) (r : TenantRole) : bool :=
  tr_of tenantID userID r && (tr_RoleCode r ==? role).

(** INSERT ... ON CONFLICT (tenant_id, user_id, role_code) WHERE deleted_at IS
    NULL DO NOTHING. *)
Definition insert_role (id tenantID userID membershipID : uuid) (role : TenantRoleCode) (grantedBy : uuid)
    (now : time) (d : DB) : result error (option TenantRole * DB) :=
  if negb (role_known role) then Err (EPg PgInvalidEnum)
  else if role ==? RoleMember then Err (EPg (PgCheckViolation "chk_tr_no_member"))
  else if exists_row (tr_grant tenantID userID role) (tenant_roles d) then Ok (None, d)
  else if exists_row (λ r, tr_ID r =? id) (tenant_roles d)
  then Err (EPg (PgUniqueViolation "tenant_roles_pkey"))
  else match first_error [fk_tenant d "fk_tnr_tenant" tenantID;
                          fk_membership d "fk_tnr_tenant_membership" membershipID tenantID userID] with
       | Some e => Err (EPg e)
       | None =>
           let row := mkTenantRole id tenantID userID membershipID role grantedBy 1 now now None in
           Ok (Some row, set_tenant_roles (tenant_roles d ++ [row]) d)
       end.

(** [TenantRoleRepository.Grant] *)
Definition Grant `{Env} (id tenantID userID membershipID : uuid) (role : TenantRoleCode) (grantedBy : uuid)
  : M TenantRole :=
  let! id := id_or_new id in
  withPool (
    let! created := sql (insert_role id tenantID userID membershipID role grantedBy) in
    match created with
    | Some r => retM r
    | None => query_row (λ _ d, select_first (tr_grant tenantID userID role) (tenant_roles d))
    end).

Definition roles_update (p : TenantRole → bool) (f : TenantRole → TenantRole) (now : time) (d : DB)
  : result error (list TenantRole * DB) :=
  let '(rows, l) := update_returning p (touched now f) (tenant_roles d) in
  Ok (rows, set_tenant_roles l d).

(** [TenantRoleRepository.Revoke] *)
Definition Revoke (tenantID userID : uuid) (role : TenantRoleCode) : M TenantRole :=
  withPool (
    let! rows := sql (λ now d,
      if negb (role_known role) then Err (EPg PgInvalidEnum)
      else roles_update (tr_grant tenantID userID role) (set_tr_DeletedAt (Some now)) now d) in
    match rows with
    | r :: _ => retM r
    | [] => throw (fail_with ErrMemberNotFound "role grant not found")
    end).

(** [TenantRoleRepository.SoftDeleteAllForUser] *)
Definition SoftDeleteAllForUser (tenantID userID : uuid) : M (list TenantRole) :=
  withPool (sql (λ now d, roles_update (tr_of tenantID userID) (set_tr_DeletedAt (Some now)) now d)).

(** ** Lemmas *)

Section keeps_role_repo.
  Context (R : DB → DB → Prop) `{!PreOrder R}.

Lemma keeps_listWhere p : keeps R (listWhere p).
Proof. unfold listWhere. keeps_auto. Qed.

Lemma keeps_ListByUser tid uid : keeps R (ListByUser tid uid).
Proof. apply keeps_listWhere. Qed.

Lemma keeps_ListByUsers tid l : keeps R (ListByUsers tid l).
Proof. unfold ListByUsers. destruct l; [keeps_auto|apply keeps_listWhere]. Qed.

Lemma keeps_ListByRole tid c : keeps R (ListByRole tid c).
Proof. unfold ListByRole. destruct (negb _); [keeps_auto|apply keeps_listWhere]. Qed.

Lemma keeps_CountActiveOwners tid : keeps R (CountActiveOwners tid).
Proof. unfold CountActiveOwners. keeps_auto. Qed.

Context (HR : ∀ d l, R d (set_tenant_roles l d)).

Lemma keeps_Grant `{Env} id tid uid mid c by_ : keeps R (Grant id tid uid mid c by_).
Proof.
  unfold Grant. keeps_auto. intros ? d x d'. unfold insert_role.
  repeat case_match; intros [= <- <-]; auto. reflexivity.
Qed.

Lemma keeps_Revoke tid uid c : keeps R (Revoke tid uid c).
Proof.
  unfold Revoke. keeps_auto. intros ? d x d'. destruct (negb _); [done|]. intros [= <- <-]. auto.
Qed.

Lemma keeps_SoftDeleteAllForUser tid uid : keeps R (SoftDeleteAllForUser tid uid).
Proof. unfold SoftDeleteAllForUser. keeps_auto. intros now d a d' [= <- <-]. auto. Qed.
End keeps_role_repo.

#[export] Hint Resolve keeps_ListByUser keeps_ListByUsers keeps_ListByRole keeps_CountActiveOwners
  keeps_Grant keeps_Revoke keeps_SoftDeleteAllForUser : keeps.
