(* ===== verification/DeptMembershipRepo.v ===== *)
(** * DeptMembershipRepo: statements on [dept_memberships]

    [internal/adapter/outbound/postgres/dept_membership_repository.go]. *)

From S2P Require Import Prelude Domain Schema Tx.

(** [DeptMembershipRepository.listWhere] *)
Definition listWhere (p : DeptMembership → bool) (le : DeptMembership → DeptMembership → bool)
  : M (list DeptMembership) :=
  withPool (query (λ _ d, isort le (select p (dept_memberships d)))).

Definition by_department (a b : DeptMembership) : bool := dm_DepartmentID a <=? dm_DepartmentID b.
Definition by_user (a b : DeptMembership) : bool := dm_UserID a <=? dm_UserID b.
Definition by_user_department (a b : DeptMembership) : bool :=
  (dm_UserID a <? dm_UserID b) || ((dm_UserID a =? dm_UserID b) && by_department a b).

(** [DeptMembershipRepository.ListByUser] *)
Definition ListByUser (tenantID userID : uuid) : M (list DeptMembership) :=
  listWhere (dm_of tenantID userID) by_department.

(** [DeptMembershipRepository.ListByUsers] *)
Definition ListByUsers (tenantID : uuid) (userIDs : list uuid) : M (list DeptMembership) :=
  match userIDs with
  | [] => retM []
  | _ => listWhere (λ r, (dm_TenantID r =? tenantID) && contains (dm_UserID r) userIDs && dm_live r)
                   by_user_department
  end.

(** The live rows of one department. *)
Definition dm_in (tenantID departmentID : uuid) (r : DeptMembership) : bool :=
  (dm_TenantID r =? tenantID) && (dm_DepartmentID r =? departmentID) && dm_live r.

(** [DeptMembershipRepository.ListByDepartment] *)
Definition ListByDepartment (tenantID departmentID : uuid) : M (list DeptMembership) :=
  listWhere (dm_in tenantID departmentID) by_user.

(** The live row of (tenant, user, department). *)
Definition dm_at (tenantID userID departmentID : uuid) (r : DeptMembership) : bool :=
  dm_of tenantID userID r && (dm_DepartmentID r =? departmentID).

Definition depts_update (p : DeptMembership → bool) (f : DeptMembership → DeptMembership) (now : time) (d : DB)
  : result error (list DeptMembership * DB) :=
  let '(rows, l) := update_returning p (touched now f) (dept_memberships d) in
  Ok (rows, set_dept_memberships l d).

(** INSERT ... ON CONFLICT (tenant_id, user_id, department_id) WHERE deleted_at
    IS NULL DO NOTHING. *)
Definition insert_dept_membership (id tenantID userID membershipID departmentID : uuid) (level : DeptRole)
    (grantedBy : uuid) (now : time) (d : DB) : result error (option DeptMembership * DB) :=
  if negb (dept_role_known level) then Err (EPg PgInvalidEnum)
  else if exists_row (dm_at tenantID userID departmentID) (dept_memberships d) then Ok (None, d)
  else if exists_row (λ r, dm_ID r =? id) (dept_memberships d)
  then Err (EPg (PgUniqueViolation "dept_memberships_pkey"))
  else match first_error [fk_tenant d "fk_dm_tenant" tenantID;
                          fk_tenant_dept d "fk_dm_tenant_dept" tenantID departmentID;
                          fk_membership d "fk_dm_tenant_membership" membershipID tenantID userID] with
       | Some e => Err (EPg e)
       | None =>
           let row := mkDeptMembership id tenantID userID membershipID departmentID level grantedBy 1 now now None in
           Ok (Some row, set_dept_memberships (dept_memberships d ++ [row]) d)
       end.

(** Insert the new level, or read the row that is there already. *)
Definition insert_level `{Env} (tenantID userID departmentID membershipID : uuid) (level : DeptRole)
    (grantedBy : uuid) : M DeptMembership :=
  let! id := new_uuid in
  let! created := sql (insert_dept_membership id tenantID userID membershipID departmentID level grantedBy) in
  match created with
  | Some r => retM r
  | None => query_row (λ _ d, select_first (dm_at tenantID userID departmentID) (dept_memberships d))
  end.

(** [DeptMembershipRepository.Assign]: (current, previous). *)
Definition Assign `{Env} (tenantID userID departmentID membershipID : uuid) (level : DeptRole) (grantedBy : uuid)
  : M (DeptMembership * option DeptMembership) :=
  withPool (
    let! existing := query (λ _ d, select_first (dm_at tenantID userID departmentID) (dept_memberships d)) in
    match existing with
    | Some e =>
        if dm_RoleLevel e ==? level then retM (e, Some e)
        else
          let! _ := sql (λ now d, depts_update (λ r, dm_ID r =? dm_ID e) (set_dm_DeletedAt (Some now)) now d) in
          let! r := insert_level tenantID userID departmentID membershipID level grantedBy in
          retM (r, Some e)
    | None =>
        let! r := insert_level tenantID userID departmentID membershipID level grantedBy in
        retM (r, None)
    end).

(** [DeptMembershipRepository.Remove] *)
Definition Remove (tenantID userID departmentID : uuid) : M DeptMembership :=
  withPool (
    let! rows := sql (λ now d,
      depts_update (dm_at tenantID userID departmentID) (set_dm_DeletedAt (Some now)) now d) in
    match rows with
    | r :: _ => retM r
    | [] => throw (fail_with ErrMemberNotFound "dept membership not found")
    end).

(** [DeptMembershipRepository.SoftDeleteAllForDept] *)
Definition SoftDeleteAllForDept (tenantID departmentID : uuid) : M (list DeptMembership) :=
  withPool (sql (λ now d, depts_update (dm_in tenantID departmentID) (set_dm_DeletedAt (Some now)) now d)).

(** [DeptMembershipRepository.SoftDeleteAllForUser] *)
Definition SoftDeleteAllForUser (tenantID userID : uuid) : M (list DeptMembership) :=
  withPool (sql (λ now d, depts_update (dm_of tenantID userID) (set_dm_DeletedAt (Some now)) now d)).

(** ** Lemmas *)

Section keeps_dept_repo.
  Context (R : DB → DB → Prop) `{!PreOrder R}.

Lemma keeps_dept_listWhere p le : keeps R (listWhere p le).
Proof. unfold listWhere. keeps_auto. Qed.

Lemma keeps_dept_ListByUser tid uid : keeps R (ListByUser tid uid).
Proof. apply keeps_dept_listWhere. Qed.

Lemma keeps_dept_ListByUsers tid l : keeps R (ListByUsers tid l).
Proof. unfold ListByUsers. destruct l; [keeps_auto|apply keeps_dept_listWhere]. Qed.

Lemma keeps_ListByDepartment tid did : keeps R (ListByDepartment tid did).
Proof. apply keeps_dept_listWhere. Qed.

Context (HR : ∀ d l, R d (set_dept_memberships l d)).

Lemma keeps_depts_update p f : keeps R (sql (λ now d, depts_update p (f now) now d)).
Proof. apply keeps_sql; [done|]. intros now d x d' [= <- <-]. auto. Qed.

Lemma keeps_insert_level `{Env} tid uid did mid lvl by_ : keeps R (insert_level tid uid did mid lvl by_).
Proof.
  unfold insert_level. keeps_auto. intros ? d x d'. unfold insert_dept_membership.
  repeat case_match; intros [= <- <-]; auto. reflexivity.
Qed.

Lemma keeps_Assign `{Env} tid uid did mid lvl by_ : keeps R (Assign tid uid did mid lvl by_).
Proof.
  unfold Assign. repeat first [apply keeps_insert_level | apply (keeps_depts_update _ (λ now, _)) | keeps_step].
Qed.

Lemma keeps_Remove tid uid did : keeps R (Remove tid uid did).
Proof. unfold Remove. repeat first [apply (keeps_depts_update _ (λ now, _)) | keeps_step]. Qed.

Lemma keeps_SoftDeleteAllForDept tid did : keeps R (SoftDeleteAllForDept tid did).
Proof. unfold SoftDeleteAllForDept. repeat first [apply (keeps_depts_update _ (λ now, _)) | keeps_step]. Qed.

Lemma keeps_dept_SoftDeleteAllForUser tid uid : keeps R (SoftDeleteAllForUser tid uid).
Proof. unfold SoftDeleteAllForUser. repeat first [apply (keeps_depts_update _ (λ now, _)) | keeps_step]. Qed.
End keeps_dept_repo.

#[export] Hint Resolve keeps_dept_ListByUser keeps_dept_ListByUsers keeps_ListByDepartment
  keeps_Assign keeps_Remove keeps_SoftDeleteAllForDept keeps_dept_SoftDeleteAllForUser : keeps.
