(* ===== verification/TenantDepartmentRepo.v ===== *)
(** * TenantDepartmentRepo: statements on [tenant_departments]

    [internal/adapter/outbound/postgres/tenant_department_repository.go]. *)

From S2P Require Import Prelude Domain Schema Tx.

Definition dept_not_found : error := fail_with ErrDepartmentNotFound "department not found for tenant".

Definition td_is (tenantID departmentID : uuid) (r : TenantDepartment) : bool :=
  (td_TenantID r =? tenantID) && (td_DepartmentID r =? departmentID).

(** [TenantDepartmentRepository.listWhere] *)
Definition listWhere (tenantID : uuid) (extra : TenantDepartment → bool) : M (list TenantDepartment) :=
  withPool (query (λ _ d, sort_by td_DepartmentID
    (select (λ r, (td_TenantID r =? tenantID) && extra r) (tenant_departments d)))).

(** [TenantDepartmentRepository.List] *)
Definition List (tenantID : uuid) : M (list TenantDepartment) := listWhere tenantID (λ _, true).

(** [TenantDepartmentRepository.ListActive] *)
Definition ListActive (tenantID : uuid) : M (list TenantDepartment) := listWhere tenantID td_IsActive.

(** [TenantDepartmentRepository.Find] *)
Definition Find (tenantID departmentID : uuid) : M TenantDepartment :=
  withPool (on_no_rows (query_row (λ _ d, select_first (td_is tenantID departmentID) (tenant_departments d)))
                       (throw dept_not_found)).

(** INSERT ... ON CONFLICT (tenant_id, department_id) DO NOTHING. *)
Definition insert_tenant_department (tenantID departmentID : uuid) (now : time) (d : DB)
  : result error (option TenantDepartment * DB) :=
  if exists_row (td_is tenantID departmentID) (tenant_departments d) then Ok (None, d)
  else match fk_tenant d "fk_td_tenant" tenantID with
       | Some e => Err (EPg e)
       | None =>
           let row := mkTenantDepartment tenantID departmentID true 1 now now in
           Ok (Some row, set_tenant_departments (tenant_departments d ++ [row]) d)
       end.

(** [TenantDepartmentRepository.Activate] *)
Definition Activate (tenantID departmentID : uuid) : M TenantDepartment :=
  withPool (
    let! created := sql (insert_tenant_department tenantID departmentID) in
    match created with
    | Some r => retM r
    | None => throw (fail_with ErrDepartmentAlreadyActivated "department is already activated for this tenant")
    end).

(** [TenantDepartmentRepository.SetActive] *)
Definition SetActive (tenantID departmentID : uuid) (isActive : bool) (expectedVersion : Z) : M TenantDepartment :=
  withPool (
    let! rows := sql (λ now d,
      let '(rows, l) := update_returning (λ r, td_is tenantID departmentID r && (td_RecordVersion r =? expectedVersion))
                          (touched now (set_td_IsActive isActive)) (tenant_departments d) in
      Ok (rows, set_tenant_departments l d)) in
    match rows with
    | r :: _ => retM r
    | [] =>
        let! probe := query (λ _ d, select_first (td_is tenantID departmentID) (tenant_departments d)) in
        match probe with
        | None => throw dept_not_found
        | Some r => throw (version_conflict (td_RecordVersion r))
        end
    end).

(** ** Lemmas *)

Section keeps_tenant_department_repo.
  Context (R : DB → DB → Prop) `{!PreOrder R}.

Lemma keeps_td_List tid : keeps R (List tid).
Proof. unfold List, listWhere. keeps_auto. Qed.

Lemma keeps_ListActive tid : keeps R (ListActive tid).
Proof. unfold ListActive, listWhere. keeps_auto. Qed.

Lemma keeps_Find tid did : keeps R (Find tid did).
Proof. unfold Find. keeps_auto. Qed.

Context (HR : ∀ d l, R d (set_tenant_departments l d)).

Lemma keeps_Activate tid did : keeps R (Activate tid did).
Proof.
  unfold Activate. keeps_auto. intros ? d x d'. unfold insert_tenant_department.
  repeat case_match; intros [= <- <-]; auto. reflexivity.
Qed.

Lemma keeps_SetActive tid did b v : keeps R (SetActive tid did b v).
Proof. unfold SetActive. keeps_auto. intros ? d x d' [= <- <-]. auto. Qed.
End keeps_tenant_department_repo.

#[export] Hint Resolve keeps_td_List keeps_ListActive keeps_Find keeps_Activate keeps_SetActive : keeps.
