(* ===== verification/DeptRoleLabelRepo.v ===== *)
(** * DeptRoleLabelRepo: statements on [dept_role_labels]

    [internal/adapter/outbound/postgres/dept_role_label_repository.go]. *)

From S2P Require Import Prelude Domain Schema Tx.

Definition drl_is (tenantID : uuid) (code : DeptRole) (l : DeptRoleLabel) : bool :=
  (drl_TenantID l =? tenantID) && (drl_RoleCode l ==? code).

(** The labels of a tenant, in the order of the [dept_role] enum. *)
Definition labels_of (tenantID : uuid) (d : DB) : list DeptRoleLabel :=
  sort_by (λ l, Rank (drl_RoleCode l)) (select (λ l, drl_TenantID l =? tenantID) (dept_role_labels d)).

(** [DeptRoleLabelRepository.List] *)
Definition List (tenantID : uuid) : M (list DeptRoleLabel) :=
  withPool (query (λ _ d, labels_of tenantID d)).

(** The CHECKs on [display_name]. *)
Definition label_checks (l : DeptRoleLabel) : option pg_error :=
  first_error [check_that "chk_display_name_length" (char_length (drl_DisplayName l) <=? 255);
               check_that "dept_role_labels_display_name_not_empty" (negb (String.eqb (drl_DisplayName l) ""))].

(** [DeptRoleLabelRepository.Update] *)
Definition Update (tenantID : uuid) (roleCode : DeptRole) (displayName : string) (expectedVersion : Z)
  : M DeptRoleLabel :=
  withPool (
    let! rows := sql (λ now d,
      if negb (dept_role_known roleCode) then Err (EPg PgInvalidEnum)
      else
        let '(rows, l) := update_returning (λ r, drl_is tenantID roleCode r && (drl_RecordVersion r =? expectedVersion))
                            (touched now (set_drl_DisplayName displayName)) (dept_role_labels d) in
        match first_error (List.map label_checks rows) with
        | Some e => Err (EPg e)
        | None => Ok (rows, set_dept_role_labels l d)
        end) in
    match rows with
    | r :: _ => retM r
    | [] =>
        let! probe := query (λ _ d, select_first (drl_is tenantID roleCode) (dept_role_labels d)) in
        match probe with
        | None => throw (fail_with ErrMemberNotFound "role label not found")
        | Some r => throw (version_conflict (drl_RecordVersion r))
        end
    end).

(** One VALUES row of the seeding INSERT ... ON CONFLICT (tenant_id, role_code)
    DO NOTHING. *)
Definition seed_label (tenantID id : uuid) (code : DeptRole) (name : string) (now : time) (d : DB)
  : result error (unit * DB) :=
  if exists_row (drl_is tenantID code) (dept_role_labels d) then Ok (tt, d)
  else if exists_row (λ l, drl_ID l =? id) (dept_role_labels d)
  then Err (EPg (PgUniqueViolation "dept_role_labels_pkey"))
  else match fk_tenant d "fk_drl_tenant" tenantID with
       | Some e => Err (EPg e)
       | None => Ok (tt, set_dept_role_labels
                           (dept_role_labels d ++ [mkDeptRoleLabel id tenantID code name 1 now now]) d)
       end.

Definition seeds : list (DeptRole * string) :=
  [(DeptPreparator, "Preparator"); (DeptReviewer, "Reviewer"); (DeptApprover, "Approver")].

(** [DeptRoleLabelRepository.Seed] *)
Definition Seed `{Env} (tenantID : uuid) : M (list DeptRoleLabel) :=
  withPool (for_each seeds (λ '(code, name),
    let! id := new_uuid in
    sql (seed_label tenantID id code name))) ;;
  List tenantID.

(** ** Lemmas *)

Section keeps_label_repo.
  Context (R : DB → DB → Prop) `{!PreOrder R}.

Lemma keeps_label_List tid : keeps R (List tid).
Proof. unfold List. keeps_auto. Qed.

Context (HR : ∀ d l, R d (set_dept_role_labels l d)).

Lemma keeps_label_Update tid c n v : keeps R (Update tid c n v).
Proof.
  unfold Update. keeps_auto. intros now d x d'. destruct (negb _); [done|]. simpl.
  destruct (first_error _); [done|]. intros [= <- <-]. auto.
Qed.

Lemma keeps_Seed `{Env} tid : keeps R (Seed tid).
Proof.
  unfold Seed. apply keeps_bind; [done| |intros; apply keeps_label_List].
  apply keeps_withPool; [done|]. apply keeps_for_each; [done|]. intros [code name].
  keeps_auto. intros ? d x d'. unfold seed_label.
  repeat case_match; intros [= <- <-]; auto. reflexivity.
Qed.
End keeps_label_repo.

#[export] Hint Resolve keeps_label_List keeps_label_Update keeps_Seed : keeps.
