(* ===== verification/InvitationRepo.v ===== *)
(** * InvitationRepo: statements on [pending_invitations]

    [internal/adapter/outbound/postgres/invitation_repository.go].  The
    [email] column is citext: it compares up to case.  Queries without ORDER
    BY read the table in the order of the model's list. *)

From S2P Require Import Prelude Domain Schema Tx TenantRepo.

Definition invitation_not_found : error := fail_with ErrInvitationNotFound "invitation not found".

Definition pi_pending (i : PendingInvitation) : bool := pi_Status i ==? InvitePending.
Definition pi_is (tenantID id : uuid) (i : PendingInvitation) : bool :=
  (pi_TenantID i =? tenantID) && (pi_ID i =? id).
Definition pi_email (tenantID : uuid) (email : string) (i : PendingInvitation) : bool :=
  (pi_TenantID i =? tenantID) && citext_eq (pi_Email i) email.
Definition pi_pending_email (tenantID : uuid) (email : string) (i : PendingInvitation) : bool :=
  pi_email tenantID email i && pi_pending i.

(** ** Reads *)

(** [InvitationRepository.List] *)
Definition List (tenantID : uuid) : M (list PendingInvitation) :=
  withPool (query (λ _ d, sort_by (λ i, - pi_CreatedAt i)
    (select (λ i, (pi_TenantID i =? tenantID) && pi_pending i) (pending_invitations d)))).

(** [InvitationRepository.LockByID] *)
Definition LockByID (id : uuid) : M (option PendingInvitation) :=
  withPool (query (λ _ d, select_first (λ i, pi_ID i =? id) (pending_invitations d))).

(** [InvitationRepository.FindByID] *)
Definition FindByID (tenantID id : uuid) : M PendingInvitation :=
  withPool (on_no_rows (query_row (λ _ d, select_first (pi_is tenantID id) (pending_invitations d)))
                       (throw invitation_not_found)).

(** [InvitationRepository.FindPendingByEmail] *)
Definition FindPendingByEmail (tenantID : uuid) (email : string) : M (option PendingInvitation) :=
  withPool (query (λ _ d, select_first (pi_pending_email tenantID email) (pending_invitations d))).

(** [InvitationRepository.FindPendingByKeycloakUser] *)
Definition FindPendingByKeycloakUser (tenantID keycloakUserID : uuid) : M (option PendingInvitation) :=
  withPool (query (λ _ d, select_first
    (λ i, (pi_TenantID i =? tenantID) && (pi_KeycloakUserID i ==? Some keycloakUserID) && pi_pending i)
    (pending_invitations d))).

(** [InvitationRepository.CountPending] *)
Definition CountPending (tenantID : uuid) : M Z :=
  withPool (query (λ now d, count (pi_holds_seat now tenantID) (pending_invitations d))).

(** [InvitationRepository.ListExpiring] *)
Definition ListExpiring (before : time) (limit : nat) : M (list PendingInvitation) :=
  withPool (query (λ _ d, take limit
    (select (λ i, pi_pending i && (pi_ExpiresAt i <? before)) (pending_invitations d)))).

(** [InvitationRepository.ListPendingKCCleanup] *)
Definition ListPendingKCCleanup (limit : nat) : M (list PendingInvitation) :=
  withPool (query (λ _ d, take limit (select pi_KCCleanupPending (pending_invitations d)))).

(** [InvitationRepository.MostRecentCreatedAt]: the zero time when there is
    none. *)
Definition MostRecentCreatedAt (tenantID : uuid) (email : string) : M time :=
  withPool (query (λ _ d,
    match sort_by (λ i, - pi_CreatedAt i) (select (pi_email tenantID email) (pending_invitations d)) with
    | [] => 0
    | i :: _ => pi_CreatedAt i
    end)).

(** [InvitationRepository.CountCreatedInWindow] *)
Definition CountCreatedInWindow (tenantID : uuid) (since : time) : M Z :=
  withPool (query (λ _ d, count (λ i, (pi_TenantID i =? tenantID) && (since <=? pi_CreatedAt i))
                                (pending_invitations d))).

(** [InvitationRepository.CountCreatedInWindowByActor]: its WHERE clause names
    [deleted_at], a column the table does not have (SQLSTATE 42703). *)
Definition CountCreatedInWindowByActor (tenantID actorID : uuid) (since : time) : M Z :=
  withPool (throw (EPg (PgUndefinedColumn "deleted_at"))).

(** ** Writes *)

(** The CHECK constraints on one row. *)
Definition pi_checks (i : PendingInvitation) : option pg_error :=
  first_error
    [check_that "chk_full_name_length" (char_length (pi_FullName i) <=? 512);
     check_that "chk_pi_accepted_at_only_if_accepted"
       (isNull (pi_AcceptedAt i) || (pi_Status i ==? InviteAccepted));
     check_that "chk_pi_accepted_requires_at"
       (negb (pi_Status i ==? InviteAccepted) || notNull (pi_AcceptedAt i));
     check_that "pi_full_name_not_empty" (negb (String.eqb (pi_FullName i) ""))].

(** uq_pi_pending: another pending row for the same address. *)
Definition uq_pi_pending (l : list PendingInvitation) (i : PendingInvitation) : option pg_error :=
  if pi_pending i && exists_row (λ j, negb (pi_ID j =? pi_ID i) && pi_pending_email (pi_TenantID i) (pi_Email i) j) l
  then Some (PgUniqueViolation "uq_pi_pending") else None.

(** The INSERT: parameter conversion, the expiry trigger, the CHECKs, the
    unique indexes, the foreign key. *)
Definition insert_invitation (i : PendingInvitation) (now : time) (d : DB)
  : result error (PendingInvitation * DB) :=
  let row := mkPendingInvitation (pi_ID i) (pi_TenantID i) (pi_Email i) (pi_FullName i)
               (pi_InitialTenantRoles i) (pi_InitialDeptMappings i) (pi_InvitedBy i) (pi_KeycloakUserID i)
               (pi_Status i) (pi_ExpiresAt i) None false 1 now now in
  match first_error
          [check_enum (forallb role_known (pi_InitialTenantRoles i));
           check_that "" (now <? pi_ExpiresAt i);
           pi_checks row;
           if exists_row (λ j, pi_ID j =? pi_ID i) (pending_invitations d)
           then Some (PgUniqueViolation "pending_invitations_pkey") else None;
           uq_pi_pending (pending_invitations d) row;
           fk_tenant d "fk_pi_tenant" (pi_TenantID i)] with
  | Some e => Err (EPg e)
  | None => Ok (row, set_pending_invitations (pending_invitations d ++ [row]) d)
  end.

Definition is_unique_violation (e : error) : bool :=
  match errors_AsPg e with Some (PgUniqueViolation _) => true | _ => false end.

(** [InvitationRepository.Insert] *)
Definition Insert `{Env} (i : PendingInvitation) : M PendingInvitation :=
  let! id := id_or_new (pi_ID i) in
  withPool (
    let! r := tryM (sql (insert_invitation (set_pi_ID id i))) in
    match r with
    | Ok row => retM row
    | Err e => if is_unique_violation e
               then throw (fail_with ErrInvitationAlreadyExists "invitation already exists for this email")
               else throw e
    end).

(** An UPDATE, with the constraints its rows must satisfy. *)
Definition invitations_update (p : PendingInvitation → bool) (f : PendingInvitation → PendingInvitation)
    (now : time) (d : DB) : result error (list PendingInvitation * DB) :=
  let '(rows, l) := update_returning p (touched now f) (pending_invitations d) in
  match first_error (List.map pi_checks rows ++ List.map (uq_pi_pending l) rows) with
  | Some e => Err (EPg e)
  | None => Ok (rows, set_pending_invitations l d)
  end.

(** The probe after an optimistic update that matched no row. *)
Definition conflict_or_not_found {A} (tenantID id : uuid) : M A :=
  let! probe := query (λ _ d, select_first (pi_is tenantID id) (pending_invitations d)) in
  match probe with
  | None => throw invitation_not_found
  | Some i => throw (version_conflict (pi_RecordVersion i))
  end.

Definition pi_at (tenantID id : uuid) (version : Z) (i : PendingInvitation) : bool :=
  pi_is tenantID id i && (pi_RecordVersion i =? version).

(** [InvitationRepository.SetKeycloakUserID] *)
Definition SetKeycloakUserID (tenantID id keycloakUserID : uuid) (expectedVersion : Z) : M unit :=
  withPool (
    let! rows := sql (λ now d, invitations_update (pi_at tenantID id expectedVersion)
                                 (set_pi_KeycloakUserID (Some keycloakUserID)) now d) in
    match rows with _ :: _ => retM tt | [] => conflict_or_not_found tenantID id end).

(** [InvitationRepository.SetStatus] *)
Definition SetStatus (tenantID id : uuid) (status : InvitationStatus) (expectedVersion : Z)
  : M PendingInvitation :=
  withPool (
    let! rows := sql (λ now d,
      invitations_update (λ i, pi_at tenantID id expectedVersion i && pi_pending i)
        (λ i, let i := set_pi_Status status i in
              if status ==? InviteAccepted then set_pi_AcceptedAt (Some now) i else i) now d) in
    match rows with
    | i :: _ => retM i
    | [] =>
        let! probe := query (λ _ d, select_first (pi_is tenantID id) (pending_invitations d)) in
        match probe with
        | None => throw invitation_not_found
        | Some i => if pi_pending i then throw (version_conflict (pi_RecordVersion i))
                    else throw invitation_not_found
        end
    end).

(** [InvitationRepository.SetKCCleanupPending] *)
Definition SetKCCleanupPending (tenantID id : uuid) (pending : bool) (expectedVersion : Z) : M unit :=
  withPool (
    let! rows := sql (λ now d, invitations_update (pi_at tenantID id expectedVersion)
                                 (set_pi_KCCleanupPending pending) now d) in
    match rows with _ :: _ => retM tt | [] => conflict_or_not_found tenantID id end).

(** [email = '', full_name = 'redacted'] *)
Definition redact (i : PendingInvitation) : PendingInvitation :=
  set_pi_Email "" (set_pi_FullName "redacted" i).

(** The rows [ExpireOverdue] picks. *)
Definition overdue (now : time) (limit : nat) (d : DB) : list uuid :=
  List.map pi_ID (take limit (sort_by pi_ExpiresAt
    (select (λ i, pi_pending i && (pi_ExpiresAt i <? now)) (pending_invitations d)))).

(** [InvitationRepository.ExpireOverdue] *)
Definition ExpireOverdue (limit : nat) : M Z :=
  withPool (
    let! rows := sql (λ now d, invitations_update (λ i, contains (pi_ID i) (overdue now limit d))
      (λ i, redact (set_pi_KCCleanupPending true (set_pi_Status InviteExpired i))) now d) in
    retM (Z.of_nat (length rows))).

(** [InvitationRepository.ClearKCCleanupPendingByID] *)
Definition ClearKCCleanupPendingByID (id : uuid) : M unit :=
  withPool (
    let! _ := sql (λ now d, invitations_update (λ i, pi_ID i =? id) (set_pi_KCCleanupPending false) now d) in
    retM tt).

(** [InvitationRepository.ErasePII] *)
Definition ErasePII (tenantID id : uuid) : M unit :=
  withPool (
    let! _ := sql (λ now d,
      invitations_update (λ i, (pi_ID i =? id) && ((tenantID =? uuid_Nil) || (pi_TenantID i =? tenantID)))
                         redact now d) in
    retM tt).

(** ** Lemmas *)

Section keeps_invitation_repo.
  Context (R : DB → DB → Prop) `{!PreOrder R}.

Lemma keeps_invitation_List tid : keeps R (List tid).
Proof. unfold List. keeps_auto. Qed.

Lemma keeps_invitation_LockByID id : keeps R (LockByID id).
Proof. unfold LockByID. keeps_auto. Qed.

Lemma keeps_invitation_FindByID tid id : keeps R (FindByID tid id).
Proof. unfold FindByID. keeps_auto. Qed.

Lemma keeps_FindPendingByEmail tid e : keeps R (FindPendingByEmail tid e).
Proof. unfold FindPendingByEmail. keeps_auto. Qed.

Lemma keeps_FindPendingByKeycloakUser tid k : keeps R (FindPendingByKeycloakUser tid k).
Proof. unfold FindPendingByKeycloakUser. keeps_auto. Qed.

Lemma keeps_CountPending tid : keeps R (CountPending tid).
Proof. unfold CountPending. keeps_auto. Qed.

Lemma keeps_MostRecentCreatedAt tid e : keeps R (MostRecentCreatedAt tid e).
Proof. unfold MostRecentCreatedAt. keeps_auto. Qed.

Lemma keeps_CountCreatedInWindow tid t : keeps R (CountCreatedInWindow tid t).
Proof. unfold CountCreatedInWindow. keeps_auto. Qed.

Lemma keeps_CountCreatedInWindowByActor tid a t : keeps R (CountCreatedInWindowByActor tid a t).
Proof. unfold CountCreatedInWindowByActor. keeps_auto. Qed.

Lemma keeps_conflict_or_not_found {A} tid id : keeps R (conflict_or_not_found (A:=A) tid id).
Proof. unfold conflict_or_not_found. keeps_auto. Qed.

Context (HR : ∀ d l, R d (set_pending_invitations l d)).

Lemma keeps_invitation_Insert `{Env} i : keeps R (Insert i).
Proof.
  unfold Insert. keeps_auto. intros ? d x d'. unfold insert_invitation.
  destruct (first_error _); [done|]. intros [= <- <-]. auto.
Qed.

Lemma keeps_invitations_update p f : keeps R (sql (λ now d, invitations_update (p now d) (f now) now d)).
Proof.
  apply keeps_sql; [done|]. intros now d x d'. unfold invitations_update. simpl.
  destruct (first_error _); [done|]. intros [= <- <-]. auto.
Qed.

Lemma keeps_SetKeycloakUserID tid id k v : keeps R (SetKeycloakUserID tid id k v).
Proof.
  unfold SetKeycloakUserID.
  repeat first [apply (keeps_invitations_update (λ _ _, _) (λ now, _)) | apply keeps_conflict_or_not_found | keeps_step].
Qed.

Lemma keeps_invitation_SetStatus tid id s v : keeps R (SetStatus tid id s v).
Proof.
  unfold SetStatus.
  repeat first [apply (keeps_invitations_update (λ _ _, _) (λ now, _)) | apply keeps_conflict_or_not_found | keeps_step].
Qed.

Lemma keeps_SetKCCleanupPending tid id b v : keeps R (SetKCCleanupPending tid id b v).
Proof.
  unfold SetKCCleanupPending.
  repeat first [apply (keeps_invitations_update (λ _ _, _) (λ now, _)) | apply keeps_conflict_or_not_found | keeps_step].
Qed.

Lemma keeps_ErasePII tid id : keeps R (ErasePII tid id).
Proof. unfold ErasePII. repeat first [apply (keeps_invitations_update (λ _ _, _) (λ now, _)) | keeps_step]. Qed.
End keeps_invitation_repo.

#[export] Hint Resolve keeps_invitation_List keeps_invitation_LockByID keeps_invitation_FindByID
  keeps_FindPendingByEmail keeps_FindPendingByKeycloakUser keeps_CountPending keeps_MostRecentCreatedAt
  keeps_CountCreatedInWindow keeps_CountCreatedInWindowByActor keeps_invitation_Insert keeps_SetKeycloakUserID
  keeps_invitation_SetStatus keeps_SetKCCleanupPending keeps_ErasePII : keeps.
