(* ===== verification/CacheKeys.v ===== *)
(** * CacheKeys: the keys of the read cache

    [internal/core/service/cache_keys.go] and [cacheKeyMemberships] of
    [authz_service.go]. *)

From S2P Require Import Prelude Domain Schema Tx Wp.

Section keys.
  Context `{Env}.

Definition cacheKeyTenant (tenantID : uuid) : string := "om:tenant:" +:+ uuid_String tenantID.
Definition cacheKeyLocale (tenantID : uuid) : string := "om:locale:" +:+ uuid_String tenantID.
Definition cacheKeyRoles (tenantID : uuid) : string := "om:roles:" +:+ uuid_String tenantID.
Definition cacheKeyGRM (tenantID : uuid) : string := "om:grm:" +:+ uuid_String tenantID.
Definition cacheKeyGDM (tenantID : uuid) : string := "om:gdm:" +:+ uuid_String tenantID.
Definition cacheKeyGTRM (tenantID : uuid) : string := "om:gtrm:" +:+ uuid_String tenantID.
Definition cacheKeyGRMStale (tenantID : uuid) : string := "om:grm:stale:" +:+ uuid_String tenantID.
Definition cacheKeyGDMStale (tenantID : uuid) : string := "om:gdm:stale:" +:+ uuid_String tenantID.
Definition cacheKeyGTRMStale (tenantID : uuid) : string := "om:gtrm:stale:" +:+ uuid_String tenantID.
Definition cacheKeyMembers50 (tenantID : uuid) : string := "om:members:" +:+ uuid_String tenantID +:+ ":50".
Definition cacheKeySeatUsage (tenantID : uuid) : string := "om:seat_usage:" +:+ uuid_String tenantID.
Definition cacheKeyDeptMembers (tenantID deptID : uuid) : string :=
  "om:dept_members:" +:+ uuid_String tenantID +:+ ":" +:+ uuid_String deptID.
Definition cacheKeyMemberships (tenantID userID : uuid) : string :=
  "om:memberships:" +:+ uuid_String tenantID +:+ ":" +:+ uuid_String userID.

(** The global keys. *)
Definition cacheKeyDepartments : string := "om:departments".
Definition cacheKeyDepartmentsStale : string := "om:departments:stale".
Definition cacheKeyPlans : string := "om:plans".
Definition cacheKeyPlansStale : string := "om:plans:stale".

(** [if s.cache != nil { _ = s.cache.Delete(ctx, keys...) }] *)
Definition evict (keys : list string) : M unit :=
  if has_cache then cache_Delete keys else retM tt.

End keys.

Lemma keeps_evict R `{!PreOrder R} `{Env} ks : keeps R (evict ks).
Proof. unfold evict. keeps_auto. Qed.

#[export] Hint Resolve keeps_evict : keeps.

Lemma aside_evict `{Env} ks : aside (evict ks).
Proof. unfold evict. aside_auto. Qed.

#[export] Hint Resolve aside_evict : aside.

Lemma quiet_evict `{Env} ks : quiet (evict ks).
Proof. unfold evict. destruct has_cache; [apply quiet_cache_Delete|apply quiet_ret]. Qed.
