(* ===== verification/Json.v ===== *)
(** * Json: printing JSON values and times

    [encoding/json.Marshal] on the values the program prints: compact, the
    keys of a map in increasing order, strings with Go's default escaping.
    Bytes above ASCII are copied as they are: strings are taken to be valid
    UTF-8 without the two separators U+2028 and U+2029. *)

From Stdlib Require Import Ascii.
From stdpp Require Import pretty.
From S2P Require Import Prelude Domain.

Definition hex_digit (n : N) : ascii :=
  if N.ltb n 10 then ascii_of_N (48 + n) else ascii_of_N (87 + n).

Definition unicode_escape (c : ascii) : string :=
  let n := N_of_ascii c in
  "\u00" +:+ String (hex_digit (N.div n 16)) (String (hex_digit (N.modulo n 16)) EmptyString).

(** One character of a string literal. *)
Definition escape_char (c : ascii) : string :=
  let n := N_of_ascii c in
  if N.eqb n 34 then String (ascii_of_N 92) (String c EmptyString)
  else if N.eqb n 92 then String c (String c EmptyString)
  else if N.eqb n 8 then "\b"
  else if N.eqb n 9 then "\t"
  else if N.eqb n 10 then "\n"
  else if N.eqb n 12 then "\f"
  else if N.eqb n 13 then "\r"
  else if N.ltb n 32 || N.eqb n 60 || N.eqb n 62 || N.eqb n 38 then unicode_escape c
  else String c EmptyString.

Fixpoint escape (s : string) : string :=
  match s with
  | EmptyString => EmptyString
  | String c s' => escape_char c +:+ escape s'
  end.

Definition quote : string := String (ascii_of_N 34) EmptyString.
Definition quoted (s : string) : string := quote +:+ escape s +:+ quote.

Fixpoint json_text (v : json) : string :=
  match v with
  | JNull => "null"
  | JBool true => "true"
  | JBool false => "false"
  | JNum n => pretty n
  | JFrac lit => lit
  | JStr s => quoted s
  | JArr l => "[" +:+ String.concat "," (List.map json_text l) +:+ "]"
  | JObj l => "{" +:+ String.concat ","
                ((fix go (l : list (string * json)) : list string :=
                    match l with
                    | [] => []
                    | (k, x) :: l' => (quoted k +:+ ":" +:+ json_text x) :: go l'
                    end) l) +:+ "}"
  end.

(** The order of [sort.Strings]: by bytes. *)
Definition string_le (a b : string) : bool := String.leb a b.

(** The keys of a map, in order. *)
Definition sorted_keys {A} (m : gmap string A) : list (string * A) :=
  isort (λ a b, string_le a.1 b.1) (map_to_list m).

(** [json.Marshal] of a [map[string]any]. *)
Definition json_Marshal (m : gmap string json) : string := json_text (JObj (sorted_keys m)).

(** ** The order of strings *)

Lemma string_le_total a b : string_le a b = false → string_le b a = true.
Proof. unfold string_le. destruct (String.leb_total a b); congruence. Qed.

Lemma string_le_antisym a b : string_le a b = true → string_le b a = true → a = b.
Proof. apply String.leb_antisym. Qed.

Lemma string_le_trans a b c : string_le a b = true → string_le b c = true → string_le a c = true.
Proof.
  unfold string_le, String.leb. revert b c. induction a as [|x a IH]; intros [|y b] [|z c]; simpl; try done.
  unfold Ascii.compare. specialize (IH b c).
  destruct (N.compare_spec (N_of_ascii x) (N_of_ascii y)) as [E1|E1|E1],
    (N.compare_spec (N_of_ascii y) (N_of_ascii z)) as [E2|E2|E2],
    (N.compare_spec (N_of_ascii x) (N_of_ascii z)) as [E3|E3|E3]; try done; try (exfalso; lia); auto.
Qed.

Lemma isort_strings_sorted l : StronglySorted (λ a b, string_le a b = true) (isort string_le l).
Proof. apply isort_sorted; [apply string_le_total|apply string_le_trans]. Qed.

Example json_Marshal_example :
  json_Marshal (<["sso_enabled" := JBool true]> (<["a<b" := JNum (-4)]> ∅)) =
  "{" +:+ quote +:+ "a\u003cb" +:+ quote +:+ ":-4," +:+ quote +:+ "sso_enabled" +:+ quote +:+ ":true}".
Proof. vm_compute. reflexivity. Qed.

(** ** Times as text

    RFC 3339, the layout of the reconciler's idempotency keys, and
    milliseconds. *)

(** [time.Time.MarshalJSON]: RFC 3339 in UTC with the fraction's trailing zeros
    dropped.  A time is a number of microseconds from year 1; the calendar
    counts years from 1 March of year 0, in cycles of 400 years. *)

Record civil : Type := mkCivil { c_year : Z; c_month : Z; c_day : Z }.

(** The day [z] days after 1 March of year 0, by cycles of 400, 100, 4 and 1
    years; the last cycle of a larger one keeps its leap day. *)
Definition civil_of_days (z : Z) : civil :=
  let era := z / 146097 in
  let doe := z mod 146097 in
  let c := Z.min (doe / 36524) 3 in
  let doc := doe - 36524 * c in
  let q := doc / 1461 in
  let doq := doc - 1461 * q in
  let y := Z.min (doq / 365) 3 in
  let doy := doq - 365 * y in
  let mp := (5 * doy + 2) / 153 in
  let m := if mp <? 10 then mp + 3 else mp - 9 in
  mkCivil (400 * era + 100 * c + 4 * q + y + (if m <=? 2 then 1 else 0)) m (doy - (153 * mp + 2) / 5 + 1).

(** [n] in decimal, on [w] digits. *)
Fixpoint pad (w : nat) (n : Z) : string :=
  match w with
  | O => ""
  | S w' => pad w' (n / 10) +:+ String (ascii_of_N (Z.to_N (48 + n mod 10))) ""
  end.

(** The fraction: at most [w] digits, its trailing zeros dropped. *)
Fixpoint fraction (w : nat) (n : Z) : string :=
  match w with
  | O => ""
  | S w' => if n mod 10 =? 0 then fraction w' (n / 10) else pad w n
  end.

Definition microseconds_per_day : Z := 86400000000.

Definition time_text (t : time) : string :=
  let d := civil_of_days (t / microseconds_per_day + 306) in
  let us := t mod microseconds_per_day in
  let s := us / 1000000 in
  let f := fraction 6 (us mod 1000000) in
  pad 4 (c_year d) +:+ "-" +:+ pad 2 (c_month d) +:+ "-" +:+ pad 2 (c_day d) +:+ "T" +:+
  pad 2 (s / 3600) +:+ ":" +:+ pad 2 (s / 60 mod 60) +:+ ":" +:+ pad 2 (s mod 60) +:+
  (if String.eqb f "" then "" else "." +:+ f) +:+ "Z".

(** [t.UTC().Format("2006-01-02T15:04")] *)
Definition minute_text (t : time) : string :=
  let d := civil_of_days (t / microseconds_per_day + 306) in
  let s := t mod microseconds_per_day / 1000000 in
  pad 4 (c_year d) +:+ "-" +:+ pad 2 (c_month d) +:+ "-" +:+ pad 2 (c_day d) +:+ "T" +:+
  pad 2 (s / 3600) +:+ ":" +:+ pad 2 (s / 60 mod 60).

(** [t.UnixMilli()]: 62135596800 seconds lie between year 1 and 1970. *)
Definition UnixMilli (t : time) : Z := t / 1000 - 62135596800000.
