(* ===== verification/CatalogService.v ===== *)
(** * CatalogService: the department and plan catalogs behind a cache

    [internal/core/service/catalog_service.go]: the lookups of the global
    catalogs, answered from the primary cache key, else from the Catalog
    Service, else from the stale-if-error key.  [CatalogService] is the
    instance of [CatalogReader] the other services run against. *)

From S2P Require Import Prelude Domain Schema Tx Wp CacheKeys.

Section service.
  Context `{Env}.

(** The conversions of the wire shapes. *)
Definition department_of (d : CatalogDepartment) : Department :=
  mkDepartment (cd_ID d) (cd_Code d) (cd_Name d) (cd_IsSystem d) (cd_IsActive d) (cd_RecordVersion d).

Definition plan_of (p : CatalogPlan) : Plan :=
  mkPlan (cp_Code p) (cp_DisplayName p) (cp_WorkflowTemplateLimit p) (cp_TenderLimit p)
    (cp_TrialDurationDays p) (cp_SSOEnabled p) (cp_CustomBranding p) (cp_FeatureSet p) (cp_RecordVersion p).

(** [CatalogService.getCachedDepartments] *)
Definition getCachedDepartments (key : string) : M (option (list Department)) :=
  if negb has_cache then retM None
  else
    let! raw := cache_Get key in
    retM (match raw with Some (CDepartments l) => Some l | _ => None end).

(** [CatalogService.setCachedDepartments] *)
Definition setCachedDepartments (depts : list Department) : M unit :=
  if negb has_cache then retM tt
  else
    cache_Set cacheKeyDepartments (CDepartments depts) ;;
    cache_Set cacheKeyDepartmentsStale (CDepartments depts).

(** [CatalogService.getCachedPlans] *)
Definition getCachedPlans (key : string) : M (option (list Plan)) :=
  if negb has_cache then retM None
  else
    let! raw := cache_Get key in
    retM (match raw with Some (CPlans l) => Some l | _ => None end).

(** [CatalogService.setCachedPlans] *)
Definition setCachedPlans (plans : list Plan) : M unit :=
  if negb has_cache then retM tt
  else
    cache_Set cacheKeyPlans (CPlans plans) ;;
    cache_Set cacheKeyPlansStale (CPlans plans).

(** [CatalogService.Departments] *)
Definition Departments : M (list Department) :=
  let! cached := getCachedDepartments cacheKeyDepartments in
  match cached with
  | Some l => retM l
  | None =>
      let! r := call CallCatalogDepartments cat_Departments in
      match r with
      | Err _ =>
          let! stale := getCachedDepartments cacheKeyDepartmentsStale in
          match stale with
          | Some l => retM l
          | None => throw (fail_with ErrCatalogUnavailable "catalog service unavailable and no cached department data")
          end
      | Ok depts =>
          let out := List.map department_of depts in
          setCachedDepartments out ;;
          retM out
      end
  end.

(** [CatalogService.DepartmentByID] *)
Definition DepartmentByID (id : uuid) : M Department :=
  let! all := Departments in
  match List.find (λ d, d_ID d =? id) all with
  | Some d => retM d
  | None => throw (fail_with ErrDepartmentNotFound "department not found")
  end.

(** [CatalogService.Plans] *)
Definition Plans : M (list Plan) :=
  let! cached := getCachedPlans cacheKeyPlans in
  match cached with
  | Some l => retM l
  | None =>
      let! r := call CallCatalogPlans cat_Plans in
      match r with
      | Err _ =>
          let! stale := getCachedPlans cacheKeyPlansStale in
          match stale with
          | Some l => retM l
          | None => throw (fail_with ErrCatalogUnavailable "catalog service unavailable and no cached plan data")
          end
      | Ok plans =>
          let out := List.map plan_of plans in
          setCachedPlans out ;;
          retM out
      end
  end.

(** [CatalogService.PlanByCode] *)
Definition PlanByCode (code : TenantPlan) : M Plan :=
  let! all := Plans in
  match List.find (λ p, p_Code p ==? code) all with
  | Some p => retM p
  | None => throw (fail_with ErrPlanNotFound "plan not found")
  end.

(** ** It is a catalog reader *)

Lemma aside_getCachedDepartments key : aside (getCachedDepartments key).
Proof. unfold getCachedDepartments. aside_auto. Qed.

Lemma aside_setCachedDepartments l : aside (setCachedDepartments l).
Proof. unfold setCachedDepartments. aside_auto. Qed.

Lemma aside_getCachedPlans key : aside (getCachedPlans key).
Proof. unfold getCachedPlans. aside_auto. Qed.

Lemma aside_setCachedPlans l : aside (setCachedPlans l).
Proof. unfold setCachedPlans. aside_auto. Qed.

#[local] Hint Resolve aside_getCachedDepartments aside_setCachedDepartments aside_getCachedPlans
  aside_setCachedPlans : aside.

Lemma aside_Departments : aside Departments.
Proof. unfold Departments. aside_auto. Qed.

Lemma aside_Plans : aside Plans.
Proof. unfold Plans. aside_auto. Qed.

#[local] Hint Resolve aside_Departments aside_Plans : aside.

Lemma aside_DepartmentByID id : aside (DepartmentByID id).
Proof. unfold DepartmentByID. aside_auto. Qed.

Lemma aside_PlanByCode code : aside (PlanByCode code).
Proof. unfold PlanByCode. aside_auto. Qed.

#[global] Instance CatalogService : CatalogReader := {|
  Tx.Departments := Departments;
  Tx.DepartmentByID := DepartmentByID;
  Tx.PlanByCode := PlanByCode;
  Departments_aside := aside_Departments;
  DepartmentByID_aside := aside_DepartmentByID;
  PlanByCode_aside := aside_PlanByCode
|}.
End service.
