(* ===== verification/Consumer.v ===== *)
(** * Consumer: the tenant lifecycle and billing events

    [internal/adapter/inbound/consumer/membership_event_consumer.go] and
    [dedup.go]: the EVT-15 clamp, classification, the exactly-once inbox, the
    EVT-14 recency guard, the projection of each event type onto [tenants],
    the EVT-16 and TenantMembershipsPurged relays, the GDPR wipe, the
    provisioning backstop and park-and-replay (EVT-18). *)

From S2P Require Import Prelude Domain Schema Tx TenantRepo EventStores.

(** ** Decoding payloads (encoding/json)

    A struct field is set by the last object member whose name matches the
    tag up to case; null leaves it alone; another kind of value is an error. *)

Definition json_error : error := EPlain "json: cannot unmarshal".

Definition members (p : option json) : result error (list (string * json)) :=
  match p with
  | Some (JObj l) => Ok l
  | Some JNull => Ok []
  | _ => Err json_error
  end.

Fixpoint decode_field {A} (name : string) (read : json → option A) (acc : A)
    (l : list (string * json)) : result error A :=
  match l with
  | [] => Ok acc
  | (k, v) :: l' =>
      if citext_eq k name then
        match v with
        | JNull => decode_field name read acc l'
        | _ => match read v with
               | Some a => decode_field name read a l'
               | None => Err json_error
               end
        end
      else decode_field name read acc l'
  end.

Definition read_string (v : json) : option string :=
  match v with JStr s => Some s | _ => None end.

(** A number literal that fits a Go int. *)
Definition read_int (v : json) : option Z :=
  match v with
  | JNum n => if (-9223372036854775808 <=? n) && (n <=? 9223372036854775807) then Some n else None
  | _ => None
  end.

Definition read_uuid `{Env} (v : json) : option uuid :=
  match v with JStr s => uuid_Parse s | _ => None end.

Definition lift {A} (r : result error A) : M A :=
  match r with Ok a => retM a | Err e => throw e end.

Definition string_field (p : option json) (name : string) : M string :=
  let! l := lift (members p) in lift (decode_field name read_string "" l).

Definition int_field (p : option json) (name : string) : M Z :=
  let! l := lift (members p) in lift (decode_field name read_int 0 l).

(** ** Event classification *)

Inductive eventKind : Type := kindUnknown | kindTenantLifecycle | kindBilling.

(** The event types of [knownEvents]. *)
Inductive EventType : Type :=
| TenantIdentityProvisioned | TenantRealmReady | TenantConverted | DirectPaidSignup
| TrialExpired | TrialReactivated | TenantSuspended | TenantOffboarded
| TenantPlanChanged | TenantPaymentPastDue | TenantSubscriptionCancelled
| TenantReactivated | TenantSeatsChanged.

#[global] Instance EventType_eq_dec : EqDecision EventType.
Proof. solve_decision. Defined.

Definition knownEvents : list (string * (EventType * eventKind)) :=
  [("TenantIdentityProvisioned", (TenantIdentityProvisioned, kindTenantLifecycle));
   ("TenantRealmReady", (TenantRealmReady, kindTenantLifecycle));
   ("TenantConverted", (TenantConverted, kindTenantLifecycle));
   ("DirectPaidSignup", (DirectPaidSignup, kindTenantLifecycle));
   ("TrialExpired", (TrialExpired, kindTenantLifecycle));
   ("TrialReactivated", (TrialReactivated, kindTenantLifecycle));
   ("TenantSuspended", (TenantSuspended, kindTenantLifecycle));
   ("TenantOffboarded", (TenantOffboarded, kindTenantLifecycle));
   ("TenantPlanChanged", (TenantPlanChanged, kindBilling));
   ("TenantPaymentPastDue", (TenantPaymentPastDue, kindBilling));
   ("TenantSubscriptionCancelled", (TenantSubscriptionCancelled, kindBilling));
   ("TenantReactivated", (TenantReactivated, kindBilling));
   ("TenantSeatsChanged", (TenantSeatsChanged, kindBilling))].

Definition event_type (s : string) : option EventType :=
  (λ e : string * (EventType * eventKind), e.2.1)
    <$> List.find (λ e : string * (EventType * eventKind), String.eqb e.1 s) knownEvents.

(** [classify] *)
Definition classify (s : string) : eventKind :=
  match List.find (λ e : string * (EventType * eventKind), String.eqb e.1 s) knownEvents with
  | Some e => e.2.2
  | None => kindUnknown
  end.

(** ** The consumer's wiring *)

(** [MembershipEventConsumer]: which optional collaborators are set.
    [c_provisioner] is the [TenantProvisioner] interface. *)
Record ConsumerConfig : Type := mkConsumerConfig {
  c_provisioner : option (TrialSignupInput → M (Tenant * bool));
  c_parked : bool;
  c_txRunner : bool;
  c_skew : Z
}.

(** [NewMembershipEventConsumer]: a skew that is not positive is five minutes. *)
Definition skew_or_default (skew : Z) : Z := if skew <=? 0 then 300000000 else skew.

Definition consumerName : string := "iam-org-membership".

Definition ErrPoisonPill : error := EPlain "event rejected as poison pill (EVT-15 future-time clamp)".
Definition errTenantNotYetProvisioned_text : string := "tenant not provisioned yet — retrying".
Definition errTenantNotYetProvisioned : error := EPlain errTenantNotYetProvisioned_text.
Definition ErrProvisioningRejected_text : string :=
  "TenantIdentityProvisioned rejected: I-1 cannot accept the payload".

(** ** The projection *)

(** [newPlan := domain.TenantPlan(payload.Plan); if newPlan == "" { newPlan = prevPlan }] *)
Definition plan_or (raw : string) (prevPlan : TenantPlan) : TenantPlan :=
  if String.eqb raw "" then prevPlan else TenantPlan_of_string raw.

(** [MembershipEventConsumer.applyProjection]: the new status and plan. *)
Definition applyProjection (tenantID : uuid) (env : Envelope) (prevStatus : SubscriptionStatus)
    (prevPlan : TenantPlan) (trialDurationDays : Z) : M (SubscriptionStatus * TenantPlan) :=
  match event_type (env_Type env) with
  | Some TenantRealmReady =>
      let! realm := string_field (env_Payload env) "realm" in
      let! shard := string_field (env_Payload env) "keycloak_shard" in
      ApplyLifecyclePatch tenantID (LifecycleSetRealm realm shard) ;;
      retM (prevStatus, prevPlan)
  | Some TenantConverted | Some DirectPaidSignup =>
      let! raw := string_field (env_Payload env) "plan" in
      let newPlan := plan_or raw prevPlan in
      ApplyLifecyclePatch tenantID (LifecycleActivatePaid newPlan) ;;
      retM (StatusActive, newPlan)
  | Some TrialExpired =>
      ApplyLifecyclePatch tenantID (LifecycleSetStatusClearSuspension StatusTrialExpired) ;;
      retM (StatusTrialExpired, prevPlan)
  | Some TrialReactivated =>
      let! rows := ApplyLifecyclePatch tenantID (LifecycleTrialReactivate trialDurationDays) in
      if rows =? 0 then retM (prevStatus, prevPlan) else retM (StatusTrial, prevPlan)
  | Some TenantSuspended =>
      let! source := string_field (env_Payload env) "source" in
      let op := if String.eqb source "operator" then LifecycleSuspendOperator
                else LifecycleSuspendBillingLapse in
      ApplyLifecyclePatch tenantID op ;;
      retM (StatusSuspended, prevPlan)
  | Some TenantOffboarded =>
      ApplyLifecyclePatch tenantID LifecycleOffboard ;;
      retM (StatusOffboarded, prevPlan)
  | Some TenantPlanChanged =>
      let! raw := string_field (env_Payload env) "plan" in
      let newPlan := plan_or raw prevPlan in
      ApplyLifecyclePatch tenantID (LifecycleSetPlan newPlan) ;;
      retM (prevStatus, newPlan)
  | Some TenantPaymentPastDue =>
      ApplyLifecyclePatch tenantID (LifecycleSetStatusClearSuspension StatusPastDue) ;;
      retM (StatusPastDue, prevPlan)
  | Some TenantSubscriptionCancelled =>
      ApplyLifecyclePatch tenantID LifecycleCancel ;;
      retM (StatusCancelled, prevPlan)
  | Some TenantReactivated =>
      if prevStatus ==? StatusOffboarded then retM (prevStatus, prevPlan)
      else
        let! rows := ApplyLifecyclePatch tenantID LifecycleReactivatePaid in
        if 0 <? rows then retM (StatusActive, prevPlan)
        else ApplyLifecyclePatch tenantID LifecycleReactivateTrial ;;
             retM (StatusTrial, prevPlan)
  | Some TenantSeatsChanged =>
      let! n := int_field (env_Payload env) "licensed_seats" in
      ApplyLifecyclePatch tenantID (LifecycleSetLicensedSeats n) ;;
      retM (prevStatus, prevPlan)
  | Some TenantIdentityProvisioned | None => retM (prevStatus, prevPlan)
  end.

(** The EVT-16 relay and the purge signal. *)
Definition state_changed_event `{Env} (tenantID : uuid) (env : Envelope)
    (prevStatus newStatus : SubscriptionStatus) (prevPlan newPlan : TenantPlan) : DomainEvent :=
  {| ev_Type := EventTenantStateChanged; ev_TenantID := tenantID;
     ev_Subject := uuid_String tenantID; ev_Actor := "iam-system";
     ev_Data := TenantStateChangedPayload tenantID newStatus prevStatus newPlan prevPlan
                  (env_Timestamp env) (env_Type env);
     ev_IPAddress := "system"; ev_UserAgent := "iam-org-membership/event-consumer" |}.

Definition purged_event `{Env} (tenantID : uuid) : DomainEvent :=
  {| ev_Type := EventTenantMembershipsPurged; ev_TenantID := tenantID;
     ev_Subject := uuid_String tenantID; ev_Actor := "iam-system";
     ev_Data := TenantMembershipsPurgedPayload tenantID SystemActorID;
     ev_IPAddress := "system"; ev_UserAgent := "iam-org-membership/event-consumer" |}.

Definition offboards (prevStatus newStatus : SubscriptionStatus) : bool :=
  negb (prevStatus ==? StatusOffboarded) && (newStatus ==? StatusOffboarded).

(** [locked.LastEventAt != nil && !env.Timestamp.After( *locked.LastEventAt)] *)
Definition is_stale (env : Envelope) (locked : TenantProjectionLock) : bool :=
  match tpl_LastEventAt locked with
  | Some last => negb (last <? env_Timestamp env)
  | None => false
  end.

(** The second half of [project]: the EVT-16 relay, then the wipe and its
    signal on a real transition to offboarded. *)
Definition relay_and_wipe `{Env} (tenantID : uuid) (env : Envelope)
    (prevStatus newStatus : SubscriptionStatus) (prevPlan newPlan : TenantPlan) : M bool :=
  (if negb (newStatus ==? prevStatus) || negb (newPlan ==? prevPlan)
   then publish (state_changed_event tenantID env prevStatus newStatus prevPlan newPlan)
   else retM tt) ;;
  if offboards prevStatus newStatus then
    WipeTenantChildren tenantID ;;
    publish (purged_event tenantID) ;;
    retM true
  else retM false.

(** [MembershipEventConsumer.project]: reports whether the GDPR wipe ran. *)
Definition project `{Env} (tenantID : uuid) (env : Envelope) (locked : TenantProjectionLock)
    (trialDurationDays : Z) : M bool :=
  if is_stale env locked then retM false
  else
    let prevStatus := tpl_Status locked in
    let prevPlan := tpl_Plan locked in
    let! (newStatus, newPlan) := applyProjection tenantID env prevStatus prevPlan trialDurationDays in
    SetLastEventAt tenantID (env_Timestamp env) ;;
    relay_and_wipe tenantID env prevStatus newStatus prevPlan newPlan.

(** ** The live path *)

(** [MembershipEventConsumer.trialDurationDays] *)
Definition trialDurationDays `{Env} `{CatalogReader} (tenantID : uuid) (env : Envelope) : M Z :=
  if negb (String.eqb (env_Type env) "TrialReactivated") then retM 0
  else
    let! r := tryM (FindByID tenantID) in
    match r with
    | Err e => if errors_Is e ErrTenantNotFound then retM 0
               else throw (EWrap "peek current plan for TrialReactivated" e)
    | Ok tenant =>
        if negb has_catalog then throw (EPlain "TrialReactivated: no PlanCatalogReader configured")
        else
          let! p := tryM (PlanByCode (t_Plan tenant)) in
          match p with
          | Err e => throw (EWrap "resolve plan for TrialReactivated" e)
          | Ok plan => retM (p_TrialDurationDays plan)
          end
    end.

(** [gdprWipeCacheKeys] *)
Definition gdprWipeCacheKeys `{Env} (tenantID : uuid) : list string :=
  let id := uuid_String tenantID in
  ["om:tenant:" +:+ id; "om:locale:" +:+ id; "om:roles:" +:+ id; "om:seat_usage:" +:+ id;
   "om:members:" +:+ id +:+ ":50"; "om:grm:" +:+ id; "om:grm:stale:" +:+ id;
   "om:gdm:" +:+ id; "om:gdm:stale:" +:+ id; "om:gtrm:" +:+ id; "om:gtrm:stale:" +:+ id].

(** [MembershipEventConsumer.evictAfterWipe] *)
Definition evictAfterWipe `{Env} (tenantID : uuid) : M unit :=
  if has_cache then cache_Delete (gdprWipeCacheKeys tenantID) else retM tt.

(** [MembershipEventConsumer.tenantAbsent] *)
Definition tenantAbsent `{Env} (c : ConsumerConfig) (tenantID : uuid) (env : Envelope)
  : M (option TenantProjectionLock) :=
  if String.eqb (env_Type env) "TenantOffboarded" then retM None
  else
    let! r := tryM (FindByIDIncludingDeleted tenantID) in
    match r with
    | Ok _ => retM None
    | Err e =>
        if negb (errors_Is e ErrTenantNotFound) then throw e
        else if negb (c_parked c) then throw errTenantNotYetProvisioned
        else
          LockTenantProvisioning tenantID ;;
          let! locked := LockForProjection tenantID in
          match locked with
          | Some l => retM (Some l)
          | None =>
              match uuid_Parse (env_ID env) with
              | None => throw (EWrap "park event: envelope id is not a uuid" (EPlain "invalid UUID"))
              | Some eventID =>
                  Park (mkParkedTenantEvent eventID tenantID (env_Type env) (env_Timestamp env) env 0) ;;
                  retM None
              end
          end
    end.

(** The inbox transaction of [Handle]. *)
Definition handle_tx `{Env} (c : ConsumerConfig) (tenantID : uuid) (env : Envelope)
    (trialDurationDays : Z) : M bool :=
  let! locked := LockForProjection tenantID in
  match locked with
  | Some l => project tenantID env l trialDurationDays
  | None =>
      let! locked := tenantAbsent c tenantID env in
      match locked with
      | None => retM false
      | Some l =>
          if String.eqb (env_Type env) "TrialReactivated" then throw errTenantNotYetProvisioned
          else project tenantID env l trialDurationDays
      end
  end.

(** [processOnce], with the result of the closure. *)
Definition processOnce `{InboxStore} {A} (consumer : string) (env : Envelope) (fn : M A) : M (option A) :=
  ProcessOnce consumer (env_ID env) fn.

(** [ackUnknown] *)
Definition ackUnknown `{InboxStore} (consumer : string) (env : Envelope) : M unit :=
  processOnce consumer env (retM tt) ;; retM tt.

(** [isPermanentProvisioningError] *)
Definition isPermanentProvisioningError (e : error) : bool :=
  errors_Is e ErrValidation || errors_Is e ErrInvalidPlan || errors_Is e ErrSlugAlreadyTaken.

(** [rejectProvisioning]: [%w] wraps the sentinel, [%v] drops the cause's
    chain. *)
Definition rejectProvisioning {A} (cause : error) : M A :=
  throw (EWrap "rejected" (EPlain ErrProvisioningRejected_text)).

(** [tenantIdentityProvisionedPayload] *)
Record TIPPayload : Type := mkTIPPayload {
  tip_TenantID : uuid;
  tip_OwnerUserID : uuid;
  tip_Slug : string;
  tip_Name : string;
  tip_Plan : string;
  tip_SignupType : string
}.

Definition decode_tip `{Env} (p : option json) : M TIPPayload :=
  let! l := lift (members p) in
  let! tid := lift (decode_field "tenant_id" read_uuid uuid_Nil l) in
  let! owner := lift (decode_field "owner_user_id" read_uuid uuid_Nil l) in
  let! slug := lift (decode_field "slug" read_string "" l) in
  let! name := lift (decode_field "name" read_string "" l) in
  let! plan := lift (decode_field "plan" read_string "" l) in
  let! signup := lift (decode_field "signup_type" read_string "" l) in
  retM (mkTIPPayload tid owner slug name plan signup).

(** The I-1 input the backstop builds from the payload. *)
Definition tip_signup (p : TIPPayload) : TrialSignupInput :=
  {| tsi_TenantID := tip_TenantID p; tsi_Slug := tip_Slug p; tsi_Name := tip_Name p;
     tsi_Plan := TenantPlan_of_string (tip_Plan p); tsi_OwnerUserID := tip_OwnerUserID p;
     tsi_DefaultLocale := ""; tsi_EmailHash := ""; tsi_LicensedSeats := 0 |}.

(** [MembershipEventConsumer.handleTenantIdentityProvisioned] *)
Definition handleTenantIdentityProvisioned `{Env} `{InboxStore} (c : ConsumerConfig)
    (tenantID : uuid) (env : Envelope) : M unit :=
  let! dec := tryM (decode_tip (env_Payload env)) in
  match dec with
  | Err e => rejectProvisioning e
  | Ok p =>
      if negb (tip_TenantID p =? tenantID)
      then rejectProvisioning (EPlain "payload tenant_id does not match envelope tenant_id")
      else
        let! r := tryM (FindByIDIncludingDeleted tenantID) in
        (match r with
         | Ok _ => retM tt
         | Err e =>
             if negb (errors_Is e ErrTenantNotFound)
             then throw (EWrap "TenantIdentityProvisioned: look up tenant" e)
             else match c_provisioner c with
                  | None => throw (EPlain "TenantIdentityProvisioned: no TenantProvisioner configured")
                  | Some signup =>
                      let! s := tryM (signup (tip_signup p)) in
                      match s with
                      | Ok _ => retM tt
                      | Err perr =>
                          if isPermanentProvisioningError perr then rejectProvisioning perr
                          else throw (EWrap "TenantIdentityProvisioned: provision tenant" perr)
                      end
                  end
         end) ;;
        processOnce consumerName env (retM tt) ;; retM tt
  end.

(** [MembershipEventConsumer.Handle] *)
Definition Handle `{Env} `{CatalogReader} `{InboxStore} (c : ConsumerConfig) (env : Envelope) : M unit :=
  let! now := time_Now in
  if negb (env_Timestamp env =? 0) && (now + c_skew c <? env_Timestamp env)
  then throw ErrPoisonPill
  else match classify (env_Type env) with
  | kindUnknown => ackUnknown consumerName env
  | _ =>
      match uuid_Parse (env_TenantID env) with
      | None => throw (EWrap "parse tenant_id from envelope" (EPlain "invalid UUID"))
      | Some tenantID =>
          if String.eqb (env_Type env) "TenantIdentityProvisioned"
          then handleTenantIdentityProvisioned c tenantID env
          else
            let! days := trialDurationDays tenantID env in
            let! wiped := processOnce consumerName env (handle_tx c tenantID env days) in
            match wiped with
            | Some true => evictAfterWipe tenantID
            | _ => retM tt
            end
      end
  end.

(** ** Park and replay *)

(** The transaction that replays one parked event; [applied] and
    [gdprWipeRan] are captured by the closure. *)
Definition replay_tx `{Env} (tenantID : uuid) (p : ParkedTenantEvent) (days : Z)
    (captured : bool * bool) : M ((bool * bool) * unit) :=
  let! claimed := Claim (pte_EventID p) in
  if negb (claimed : bool) then retM (captured, tt)
  else
    let! locked := LockForProjection tenantID in
    match locked with
    | None =>
        let! r := tryM (FindByIDIncludingDeleted tenantID) in
        match r with
        | Ok _ => retM (captured, tt)
        | Err e => if errors_Is e ErrTenantNotFound then throw errTenantNotYetProvisioned else throw e
        end
    | Some l =>
        let! wiped := project tenantID (pte_Envelope p) l days in
        retM ((true, wiped), tt)
    end.

(** [MembershipEventConsumer.replayParked]: the number of events applied.  It
    stops at the first failure. *)
Fixpoint replay_list `{Env} `{CatalogReader} (tenantID : uuid) (pending : list ParkedTenantEvent) (replayed : Z) : M Z :=
  match pending with
  | [] => retM replayed
  | p :: rest =>
      let! days := trialDurationDays tenantID (pte_Envelope p) in
      let! r := tryM (RunInTx_captured (false, false) (replay_tx tenantID p days)) in
      match r with
      | Err e => if errors_IsPlain e errTenantNotYetProvisioned_text then retM replayed
                 else throw (EWrap "replay parked" e)
      | Ok ((applied, wiped), _) =>
          (if (wiped : bool) then evictAfterWipe tenantID else retM tt) ;;
          replay_list tenantID rest (if (applied : bool) then replayed + 1 else replayed)
      end
  end.

Definition replayParked `{Env} `{CatalogReader} (c : ConsumerConfig) (tenantID : uuid) : M Z :=
  if negb (c_parked c) || negb (c_txRunner c) then retM 0
  else
    let! pending := wrapM "list parked events" (ListForTenant tenantID) in
    replay_list tenantID pending 0.
