(* ===== verification/MembershipService.v ===== *)
(** * MembershipService: members, their status, roles and removal

    [internal/core/service/membership_service.go] (P-4, P-5, P-7, P-8, P-26,
    P-27, P-28, P-34, I-5, I-11, I-13, I-15).  Logging and metrics are not
    modelled. *)

From S2P Require Import Prelude Domain Schema Tx.
From S2P Require Import MembershipRepo RoleRepo DeptMembershipRepo InvitationRepo TenantRepo CacheKeys.

(** [DelegateImpactAdvisory] *)
Record DelegateImpactAdvisory : Type := mkDelegateImpactAdvisory {
  dia_Checked : bool;
  dia_ActiveWorkflows : Z;
  dia_WorkflowIDs : list uuid
}.

(** [SetStatusResult] *)
Record SetStatusResult : Type := mkSetStatusResult {
  ssr_Membership : TenantMembership;
  ssr_DelegateImpact : option DelegateImpactAdvisory
}.

(** [RemovalAction] *)
Inductive RemovalAction : Type :=
| RemovalReplaceDelegate | RemovalStopWorkflows | RemovalOther (raw : string).

Section service.
  Context `{Env}.

(** [MembershipService.isServiceAccountOrDegrade] *)
Definition isServiceAccountOrDegrade (tenantID userID : uuid) : M bool :=
  if IsReservedSystemPrincipal userID then retM true
  else if negb has_tokenService then retM false
  else
    let! r := call (CallIsServiceAccount tenantID userID) (λ n, ts_IsServiceAccount n tenantID userID) in
    match r with
    | Err _ => retM false
    | Ok b => retM b
    end.

(** [MembershipService.invalidateMember] *)
Definition invalidateMember (tenantID userID : uuid) : M unit :=
  evict [cacheKeyMembers50 tenantID; cacheKeySeatUsage tenantID; cacheKeyMemberships tenantID userID].

(** [if s.rp != nil { _ = s.rp.RevokeUserSessions(ctx, tenantID, userID) }] *)
Definition revokeSessions (tenantID userID : uuid) : M unit :=
  if has_rp then
    let! _ := call (CallRevokeUserSessions tenantID userID) (λ n, rp_RevokeUserSessions n tenantID userID) in
    retM tt
  else retM tt.

(** An event about a user, with the caller's address and agent. *)
Definition user_event (type : string) (tenantID subject actorID : uuid) (data : EventPayload) : DomainEvent :=
  {| ev_Type := type; ev_TenantID := tenantID; ev_Subject := uuid_String subject;
     ev_Actor := uuid_String actorID; ev_Data := data; ev_IPAddress := rcIP; ev_UserAgent := rcUA |}.

Definition view_of (x : DeptMembership) : DeptMembershipView :=
  mkDeptMembershipView (dm_DepartmentID x) "" (dm_RoleLevel x).

(** Roles and departments of one listed member, from the page's batch reads. *)
Definition hydrate (allRoles : list TenantRole) (allDepts : list DeptMembership) (item : MembershipListItem)
  : MembershipListItem :=
  let uid := tm_UserID (mli_Membership item) in
  mkMembershipListItem (mli_Membership item)
    (RoleMember :: List.map tr_RoleCode (select (λ r, tr_UserID r =? uid) allRoles))
    (List.map view_of (select (λ x, dm_UserID x =? uid) allDepts)).

(** [MembershipService.List] *)
Definition List (tenantID : uuid) (cursor : option MembershipListCursor) (limit : Z) : M MembershipListPage :=
  let! page := MembershipRepo.List tenantID cursor limit in
  match mlp_Items page with
  | [] => retM page
  | items =>
      let userIDs := List.map (λ i, tm_UserID (mli_Membership i)) items in
      let! allRoles := RoleRepo.ListByUsers tenantID userIDs in
      let! allDepts := DeptMembershipRepo.ListByUsers tenantID userIDs in
      retM (mkMembershipListPage (List.map (hydrate allRoles allDepts) items) (mlp_NextCursor page))
  end.

(** [MembershipService.CheckActiveMembership] *)
Definition CheckActiveMembership (tenantID userID : uuid) : M TenantMembership :=
  MembershipRepo.FindByUserID tenantID userID.

(** [MembershipService.Get] *)
Definition Get (tenantID userID : uuid) : M MembershipListItem :=
  let! m := MembershipRepo.FindByUserID tenantID userID in
  let! trs := RoleRepo.ListByUser tenantID userID in
  let! dms := DeptMembershipRepo.ListByUser tenantID userID in
  retM (mkMembershipListItem m (RoleMember :: List.map tr_RoleCode trs) (List.map view_of dms)).

Definition holds_owner (trs : list TenantRole) : bool :=
  List.existsb (λ r, tr_RoleCode r ==? RoleTenantOwner) trs.

(** TM-13 then TM-8: lock the tenant, then refuse when one owner is left. *)
Definition guardLastOwner (tenantID : uuid) (msg : string) : M unit :=
  let! owners := RoleRepo.CountActiveOwners tenantID in
  throw_if (owners <=? 1) (fail_with ErrLastOwnerRemoval msg).

(** The WFI-13 advisory of a suspension. *)
Definition suspendAdvisory (tenantID userID : uuid) : M (option DelegateImpactAdvisory) :=
  if negb has_workflow then retM None
  else
    let! r := call (CallGetDelegateImpact tenantID userID None)
                   (λ n, wf_GetDelegateImpact n tenantID userID None) in
    match r with
    | Err _ => retM (Some (mkDelegateImpactAdvisory false 0 []))
    | Ok impact =>
        retM (if 0 <? di_ActiveWorkflows impact
              then Some (mkDelegateImpactAdvisory true (di_ActiveWorkflows impact) (di_WorkflowIDs impact))
              else None)
    end.

(** [MembershipService.SetStatus] *)
Definition SetStatus (tenantID userID : uuid) (status : MembershipStatus) (expectedVersion : Z)
  : M SetStatusResult :=
  let! m :=
    (if status ==? MembershipSuspended then
       let! trs := RoleRepo.ListByUser tenantID userID in
       if holds_owner trs then
         RunInTx (
           LockByID tenantID ;;
           guardLastOwner tenantID "cannot suspend the last tenant_owner" ;;
           MembershipRepo.SetStatus tenantID userID status expectedVersion)
       else MembershipRepo.SetStatus tenantID userID status expectedVersion
     else MembershipRepo.SetStatus tenantID userID status expectedVersion) in
  invalidateMember tenantID userID ;;
  if status ==? MembershipSuspended then
    revokeSessions tenantID userID ;;
    let! advisory := suspendAdvisory tenantID userID in
    retM (mkSetStatusResult m advisory)
  else retM (mkSetStatusResult m None).

(** The check of [ReconcileRoles] on the requested codes. *)
Definition validate_desired (desired : list TenantRoleCode) : M unit :=
  for_each desired (λ code,
    throw_if (code ==? RoleMember)
      (EDomain (WithDetails (NewError ErrInvalidRole "member cannot be granted; it is derived")
                            [("code", JStr "invalid_role")])) ;;
    throw_if (negb (IsElevated code))
      (EDomain (WithDetails (NewError ErrInvalidRole "unknown role_code") [("code", JStr "invalid_role")]))).

(** The loop over [desiredSet]: [granted] is captured. *)
Definition grant_missing (tenantID userID membershipID actorID : uuid) (current : list TenantRoleCode)
    (granted : list TenantRole) (code : TenantRoleCode) : M (list TenantRole) :=
  if contains code current then retM granted
  else
    let! tr := RoleRepo.Grant uuid_Nil tenantID userID membershipID code actorID in
    publish (user_event EventTenantRoleGranted tenantID userID actorID
               (TenantRoleGrantedPayload userID tenantID code actorID)) ;;
    retM (granted ++ [tr]).

(** The loop over [currentSet]: [revoked] is captured. *)
Definition revoke_extra (tenantID userID actorID : uuid) (desired : list TenantRoleCode)
    (revoked : list TenantRole) (code : TenantRoleCode) : M (list TenantRole) :=
  if contains code desired then retM revoked
  else
    let! tr := RoleRepo.Revoke tenantID userID code in
    publish (user_event EventTenantRoleRevoked tenantID userID actorID
               (TenantRoleRevokedPayload userID tenantID code actorID)) ;;
    retM (revoked ++ [tr]).

(** The transaction of [ReconcileRoles]; [captured] is (granted, revoked). *)
Definition reconcile_tx (tenantID userID membershipID actorID : uuid) (strippingOwner : bool)
    (desiredSet currentSet : list TenantRoleCode) (captured : list TenantRole * list TenantRole)
  : M ((list TenantRole * list TenantRole) * unit) :=
  (if strippingOwner then
     LockByID tenantID ;; guardLastOwner tenantID "cannot remove the last tenant_owner"
   else retM tt) ;;
  let! ds := map_range desiredSet in
  let! granted := for_fold ds captured.1 (grant_missing tenantID userID membershipID actorID currentSet) in
  let! cs := map_range currentSet in
  let! revoked := for_fold cs captured.2 (revoke_extra tenantID userID actorID desiredSet) in
  retM ((granted, revoked), tt).

(** [MembershipService.ReconcileRoles]: (granted, revoked). *)
Definition ReconcileRoles (tenantID userID : uuid) (desired : list TenantRoleCode) (actorID : uuid)
  : M (list TenantRole * list TenantRole) :=
  let! sa := isServiceAccountOrDegrade tenantID userID in
  throw_if sa (fail_with ErrServiceAccountNotGrantable "service accounts cannot be granted a tenant role") ;;
  validate_desired desired ;;
  let! m := MembershipRepo.FindByUserID tenantID userID in
  let! current := RoleRepo.ListByUser tenantID userID in
  let currentSet := remove_dups (List.map tr_RoleCode current) in
  let desiredSet := remove_dups desired in
  let strippingOwner := contains RoleTenantOwner currentSet && negb (contains RoleTenantOwner desiredSet) in
  (if strippingOwner
   then guardLastOwner tenantID "cannot remove the last tenant_owner"
   else retM tt) ;;
  let! r := RunInTx_captured ([], [])
              (reconcile_tx tenantID userID (tm_ID m) actorID strippingOwner desiredSet currentSet) in
  let '(granted, revoked) := r.1 in
  invalidateMember tenantID userID ;;
  (if negb (Nat.eqb (length revoked) 0) then revokeSessions tenantID userID else retM tt) ;;
  retM (granted, revoked).

(** Step 1 of a removal: the Workflow Service must answer that no workflow
    depends on the user (WFI-3, WFI-8). *)
Definition workflowGate (tenantID userID : uuid) : M unit :=
  if negb has_workflow then retM tt
  else
    let! r := call (CallGetDelegateImpact tenantID userID None)
                   (λ n, wf_GetDelegateImpact n tenantID userID None) in
    match r with
    | Err _ => throw (fail_with ErrWorkflowServiceUnavailable "workflow service unavailable")
    | Ok impact =>
        throw_if (0 <? di_ActiveWorkflows impact)
          (EDomain (WithDetails
             (NewError ErrWorkflowResolutionRequired "active workflows depend on this delegate")
             [("active_workflows", JNum (di_ActiveWorkflows impact));
              ("workflow_ids", JArr (List.map (λ i, JStr (uuid_String i)) (di_WorkflowIDs impact)));
              ("allowed_actions", JArr [JStr "replace_delegate"; JStr "stop_workflows"])]))
    end.

Definition role_revoked_event (tenantID userID actorID : uuid) (r : TenantRole) : DomainEvent :=
  user_event EventTenantRoleRevoked tenantID userID actorID
    (TenantRoleRevokedPayload userID tenantID (tr_RoleCode r) actorID).
Definition dept_revoked_event (tenantID userID actorID : uuid) (x : DeptMembership) : DomainEvent :=
  user_event EventDepartmentMembershipRevoked tenantID userID actorID
    (DepartmentMembershipRevokedPayload userID tenantID (dm_DepartmentID x) actorID).
Definition membership_revoked_event (tenantID userID actorID : uuid) : DomainEvent :=
  user_event EventMembershipRevoked tenantID userID actorID
    (MembershipRevokedPayload tenantID userID actorID).

(** Steps 4 and 5: revoke the roles, the departments and the membership, with
    their events. *)
Definition remove_cascade (tenantID userID actorID : uuid) (version : Z) : M unit :=
  let! revokedRoles := RoleRepo.SoftDeleteAllForUser tenantID userID in
  for_each revokedRoles (λ r, publish (role_revoked_event tenantID userID actorID r)) ;;
  let! revokedDepts := DeptMembershipRepo.SoftDeleteAllForUser tenantID userID in
  for_each revokedDepts (λ x, publish (dept_revoked_event tenantID userID actorID x)) ;;
  publish (membership_revoked_event tenantID userID actorID) ;;
  MembershipRepo.SoftDelete tenantID userID version.

(** Steps 2 to 5: the transaction. *)
Definition remove_tx (tenantID userID actorID : uuid) : M unit :=
  LockByID tenantID ;;
  let! mem := MembershipRepo.FindByUserID tenantID userID in
  let! trs := RoleRepo.ListByUser tenantID userID in
  (if holds_owner trs
   then guardLastOwner tenantID "cannot remove the last tenant_owner"
   else retM tt) ;;
  remove_cascade tenantID userID actorID (tm_RecordVersion mem).

(** [MembershipService.RemoveUser] *)
Definition RemoveUser (tenantID userID actorID : uuid) : M unit :=
  workflowGate tenantID userID ;;
  RunInTx (remove_tx tenantID userID actorID) ;;
  invalidateMember tenantID userID ;;
  revokeSessions tenantID userID.

Definition invalid_replacement (msg : string) : error :=
  EDomain (WithDetails (NewError ErrInvalidReplacement msg) [("code", JStr "invalid_replacement")]).

Definition workflow_unavailable (r : result error unit) : M unit :=
  match r with
  | Err _ => throw (fail_with ErrWorkflowServiceUnavailable "workflow service unavailable")
  | Ok _ => retM tt
  end.

(** [MembershipService.RemovalResolution] *)
Definition RemovalResolution (tenantID userID : uuid) (action : RemovalAction) (replacementUserID : option uuid)
  : M unit :=
  if negb has_workflow
  then throw (fail_with ErrWorkflowServiceUnavailable "workflow service not configured")
  else match action with
  | RemovalReplaceDelegate =>
      match replacementUserID with
      | None => throw (fail_with ErrValidation "replacement_user_id is required for replace_delegate")
      | Some replacement =>
          throw_if (replacement =? userID)
            (invalid_replacement "replacement cannot be the same user being removed") ;;
          let! rep := tryM (MembershipRepo.FindByUserID tenantID replacement) in
          throw_if (match rep with Err _ => true | Ok m => negb (tm_Status m ==? MembershipActive) end)
            (invalid_replacement "replacement is not an active member") ;;
          let! r := call (CallReassignDelegate tenantID userID replacement)
                         (λ n, wf_ReassignDelegate n tenantID userID replacement) in
          workflow_unavailable r
      end
  | RemovalStopWorkflows =>
      let! r := call (CallCancelByDelegate tenantID userID) (λ n, wf_CancelByDelegate n tenantID userID) in
      workflow_unavailable r
  | RemovalOther _ => throw (fail_with ErrInvalidAction "action must be replace_delegate or stop_workflows")
  end.

(** [MembershipService.ValidateAndEmitAssigneeOverride] *)
Definition ValidateAndEmitAssigneeOverride (tenantID tenderID newUserID departmentID : uuid)
    (requiredLevel : DeptRole) (actorID : uuid) : M unit :=
  let! actorRoles := wrapM "actor role check" (RoleRepo.ListByUser tenantID actorID) in
  throw_if (negb (List.existsb (λ r, (tr_RoleCode r ==? RoleTenderAdmin) || (tr_RoleCode r ==? RoleTenantAdmin)
                                     || (tr_RoleCode r ==? RoleTenantOwner)) actorRoles))
    (fail_with ErrInsufficientRole "actor must hold tender_admin, tenant_admin, or tenant_owner") ;;
  let! mem := tryM (MembershipRepo.FindByUserID tenantID newUserID) in
  match mem with
  | Err _ => throw (fail_with ErrAssigneeIneligible "assignee is not a member of this tenant")
  | Ok m =>
      throw_if (negb (tm_Status m ==? MembershipActive))
        (fail_with ErrAssigneeIneligible "assignee is not an active member") ;;
      let! depts := wrapM "assignee department membership lookup"
                      (DeptMembershipRepo.ListByUser tenantID newUserID) in
      throw_if (negb (List.existsb (λ x, (dm_DepartmentID x =? departmentID)
                                         && Satisfies (dm_RoleLevel x) requiredLevel) depts))
        (fail_with ErrAssigneeIneligible "assignee not at required level in department") ;;
      RunInTx (publish (user_event EventTenderAssigneeOverridden tenantID tenderID actorID
                          (TenderAssigneeOverriddenPayload tenderID tenantID newUserID actorID)))
  end.

(** [MembershipService.ResetUserMFA] *)
Definition ResetUserMFA (tenantID userID actorID : uuid) : M unit :=
  let! mem := MembershipRepo.FindByUserID tenantID userID in
  throw_if (negb (tm_Status mem ==? MembershipActive)) (fail_with ErrMemberNotActive "member is not active") ;;
  throw_if (negb has_rp) (fail_with ErrRealmProvisionerUnavailable "realm provisioner not configured") ;;
  let! r := call (CallResetMFA tenantID userID) (λ n, rp_ResetMFA n tenantID userID) in
  match r with
  | Err _ => throw (fail_with ErrRealmProvisionerUnavailable "realm provisioner unavailable")
  | Ok _ =>
      RunInTx (publish (user_event EventMFAReset tenantID userID actorID
                          (MFAResetPayload tenantID userID actorID)))
  end.

(** [MembershipService.SeatUsage] *)
Definition SeatUsage (seatOverageDays : Z) (tenantID : uuid) : M SeatUsage :=
  let! cached := (if has_cache then cache_Get (cacheKeySeatUsage tenantID) else retM None) in
  match cached with
  | Some (CSeatUsage u) => retM u
  | _ =>
      let! t := FindByIDIncludingDeleted tenantID in
      let! active := MembershipRepo.CountActive tenantID in
      let! pending := InvitationRepo.CountPending tenantID in
      let usage := {|
        su_TenantID := tenantID; su_ActiveUsers := active; su_PendingInvitations := pending;
        su_LicensedSeats := t_LicensedSeats t; su_OverCap := t_LicensedSeats t <=? active + pending;
        su_OverageSince := t_OverageSince t;
        su_GraceEndsAt :=
          match t_OverageSince t with
          | Some since => if 0 <? seatOverageDays then Some (since + seatOverageDays * day) else None
          | None => None
          end |} in
      (if has_cache then cache_Set (cacheKeySeatUsage tenantID) (CSeatUsage usage) else retM tt) ;;
      retM usage
  end.

End service.
