(* ===== verification/InvitationService.v ===== *)
(** * InvitationService: invite, accept, revoke

    [internal/core/service/invitation_service.go] (P-6, P-30, P-31, I-3).
    Text functions ([strings.ToLower], [strings.TrimSpace]) are modelled on
    ASCII; other bytes are left alone.  Logging and metrics are not modelled. *)

From Stdlib Require Import Ascii.
From S2P Require Import Prelude Domain Schema Tx.
From S2P Require Import MembershipRepo RoleRepo DeptMembershipRepo InvitationRepo MembershipService TenantRepo CacheKeys.

(** ** Text *)

(** The ASCII white space of [unicode.IsSpace]. *)
Definition is_space (c : ascii) : bool :=
  let n := N_of_ascii c in (N.leb 9 n && N.leb n 13)%N || N.eqb n 32.

Fixpoint trim_left (s : string) : string :=
  match s with
  | String c s' => if is_space c then trim_left s' else s
  | EmptyString => EmptyString
  end.

Fixpoint trim_right (s : string) : string :=
  match s with
  | EmptyString => EmptyString
  | String c s' =>
      match trim_right s' with
      | EmptyString => if is_space c then EmptyString else String c EmptyString
      | t => String c t
      end
  end.

(** [strings.TrimSpace] *)
Definition TrimSpace (s : string) : string := trim_right (trim_left s).

(** [normalizeEmail] *)
Definition normalizeEmail (s : string) : string := lower (TrimSpace s).

(** [strings.Index(s, "@")]; [None] is -1. *)
Fixpoint index_at (s : string) : option nat :=
  match s with
  | EmptyString => None
  | String c s' => if Ascii.eqb c "@"%char then Some 0%nat else S <$> index_at s'
  end.

(** [isValidEmail] *)
Definition isValidEmail (s : string) : bool :=
  match index_at s with
  | None => false
  | Some at_ =>
      Nat.ltb 0 at_ && Nat.ltb at_ (String.length s - 1)
      && isNull (index_at (String.substring (at_ + 1) (String.length s - (at_ + 1)) s))
  end.

(** ** The service *)

(** [InvitationInput] *)
Record InvitationInput : Type := mkInvitationInput {
  ii_Email : string;
  ii_FullName : string;
  ii_InitialTenantRoles : list TenantRoleCode;
  ii_InitialDeptMappings : list InvitationDeptMapping
}.

(** The limits an [InvitationService] is built with; a duration is in
    microseconds, 0 disables a limit. *)
Record InvitationConfig : Type := mkInvitationConfig {
  ic_expiryDays : Z;
  ic_reinviteCooldown : Z;
  ic_maxPerHour : Z;
  ic_maxPerActorPerHour : Z
}.

Definition hour : Z := 3600000000.

(** [NewInvitationService]'s default. *)
Definition expiryDays (c : InvitationConfig) : Z := if ic_expiryDays c <=? 0 then 7 else ic_expiryDays c.

Definition seat_limit_error (licensed active pending : Z) : error :=
  EDomain (WithDetails (NewError ErrSeatLimitReached "seat limit reached")
    [("licensed_seats", JNum licensed); ("active_users", JNum active); ("pending_invitations", JNum pending)]).

Section service.
  Context `{Env}.

(** The checks of [invite] on the request alone. *)
Definition validate_invite (req : InvitationInput) : M unit :=
  throw_if (String.eqb (ii_Email req) "") (fail_with ErrValidation "email is required") ;;
  throw_if (negb (isValidEmail (ii_Email req))) (fail_with ErrValidation "email is not a valid address") ;;
  throw_if (String.eqb (ii_FullName req) "") (fail_with ErrValidation "full_name is required") ;;
  throw_if (512 <? Z.of_nat (String.length (ii_FullName req)))
    (fail_with ErrValidation "full_name must not exceed 512 characters") ;;
  for_each (ii_InitialTenantRoles req) (λ r,
    throw_if (negb (IsElevated r))
      (EDomain (WithDetails (NewError ErrValidation "initial role must be elevated (not 'member')")
                            [("code", JStr "invalid_role")]))).

(** PI-11: the per-address cooldown. *)
Definition check_cooldown (c : InvitationConfig) (tenantID : uuid) (email : string) : M unit :=
  if 0 <? ic_reinviteCooldown c then
    let! mostRecent := InvitationRepo.MostRecentCreatedAt tenantID email in
    if mostRecent =? 0 then retM tt
    else
      let! now := time_Now in
      let elapsed := now - mostRecent in
      throw_if (elapsed <? ic_reinviteCooldown c)
        (EDomain (WithDetails (NewError ErrReinviteTooSoon "re-invite too soon")
                   [("retry_after_seconds", JNum ((ic_reinviteCooldown c - elapsed) / 1000000))]))
  else retM tt.

Definition rate_limited (msg : string) : error :=
  EDomain (WithDetails (NewError ErrInviteRateLimited msg) [("retry_after_seconds", JNum 3600)]).

(** PI-12: the per-tenant hourly ceiling. *)
Definition check_tenant_rate (c : InvitationConfig) (tenantID : uuid) : M unit :=
  if 0 <? ic_maxPerHour c then
    let! now := time_Now in
    let! n := InvitationRepo.CountCreatedInWindow tenantID (now - hour) in
    throw_if (ic_maxPerHour c <=? n) (rate_limited "invite rate limit reached")
  else retM tt.

(** SECURITY-5: the per-actor hourly ceiling. *)
Definition check_actor_rate (c : InvitationConfig) (tenantID actorID : uuid) : M unit :=
  if 0 <? ic_maxPerActorPerHour c then
    let! now := time_Now in
    let! n := InvitationRepo.CountCreatedInWindowByActor tenantID actorID (now - hour) in
    throw_if (ic_maxPerActorPerHour c <=? n) (rate_limited "actor invite rate limit reached")
  else retM tt.

(** [InvitationService.preflightSeatCheck] *)
Definition preflightSeatCheck (tenantID : uuid) : M Tenant :=
  let! t := FindByID tenantID in
  let! active := MembershipRepo.CountActive tenantID in
  let! pending := InvitationRepo.CountPending tenantID in
  throw_if (t_LicensedSeats t <=? active + pending) (seat_limit_error (t_LicensedSeats t) active pending) ;;
  retM t.

(** The Keycloak required actions of an invited user. *)
Definition required_actions (req : InvitationInput) : list string :=
  let needsTOTP :=
    List.existsb (λ r, (r ==? RoleTenantAdmin) || (r ==? RoleTenantOwner)) (ii_InitialTenantRoles req)
    || List.existsb (λ m, idm_Level m ==? DeptApprover) (ii_InitialDeptMappings req) in
  ["VERIFY_EMAIL"; "UPDATE_PASSWORD"] ++ (if needsTOTP then ["CONFIGURE_TOTP"] else []).

(** The PI-9 row of a lost seat race: revoked, with the user to clean up. *)
Definition orphan_row (tenantID : uuid) (req : InvitationInput) (actorID keycloakUserID : uuid) (now : time)
  : PendingInvitation :=
  mkPendingInvitation uuid_Nil tenantID (ii_Email req) (ii_FullName req) [] [] actorID (Some keycloakUserID)
    InviteRevoked now None false 0 0 0.

Definition invited_row (c : InvitationConfig) (tenantID : uuid) (req : InvitationInput)
    (actorID keycloakUserID : uuid) (now : time) : PendingInvitation :=
  mkPendingInvitation uuid_Nil tenantID (ii_Email req) (ii_FullName req) (ii_InitialTenantRoles req)
    (ii_InitialDeptMappings req) actorID (Some keycloakUserID) InvitePending (now + expiryDays c * day)
    None false 0 0 0.

(** The transaction of [invite]: the row created, or the seat-limit error
    after the clean-up row was written. *)
Definition invite_tx (c : InvitationConfig) (tenantID : uuid) (req : InvitationInput)
    (actorID keycloakUserID : uuid) : M (result error PendingInvitation) :=
  let! licensed := LicensedSeatsForUpdate tenantID in
  let! active := MembershipRepo.CountActive tenantID in
  let! pending := InvitationRepo.CountPending tenantID in
  let! now := time_Now in
  if licensed <=? active + pending then
    let! row := InvitationRepo.Insert (orphan_row tenantID req actorID keycloakUserID now) in
    InvitationRepo.SetKCCleanupPending tenantID (pi_ID row) true (pi_RecordVersion row) ;;
    retM (Err (seat_limit_error licensed active pending))
  else
    let! row := InvitationRepo.Insert (invited_row c tenantID req actorID keycloakUserID now) in
    retM (Ok row).

(** Best-effort [rp.DeleteUser]. *)
Definition deleteUser (tenantID keycloakUserID : uuid) : M unit :=
  let! _ := call (CallDeleteUser tenantID keycloakUserID) (λ n, rp_DeleteUser n tenantID keycloakUserID) in
  retM tt.

(** [InvitationService.invite] *)
Definition invite (c : InvitationConfig) (tenantID : uuid) (req : InvitationInput) (actorID : uuid)
  : M PendingInvitation :=
  let req := mkInvitationInput (normalizeEmail (ii_Email req)) (ii_FullName req)
               (ii_InitialTenantRoles req) (ii_InitialDeptMappings req) in
  validate_invite req ;;
  let! existing := InvitationRepo.FindPendingByEmail tenantID (ii_Email req) in
  throw_if (notNull existing)
    (fail_with ErrInvitationAlreadyExists "invitation already exists for this email") ;;
  check_cooldown c tenantID (ii_Email req) ;;
  check_tenant_rate c tenantID ;;
  check_actor_rate c tenantID actorID ;;
  let! tenant := preflightSeatCheck tenantID in
  let! created := call (CallCreateInvitedUser tenantID (ii_Email req) (ii_FullName req) (required_actions req)
                                              (t_Slug tenant))
                       (λ n, rp_CreateInvitedUser n tenantID (ii_Email req) (ii_FullName req) (required_actions req)
                                                  (t_Slug tenant)) in
  match created with
  | Err _ => throw (fail_with ErrRealmProvisionerUnavailable "realm provisioner unavailable")
  | Ok keycloakUserID =>
      let! sa := MembershipService.isServiceAccountOrDegrade tenantID keycloakUserID in
      throw_if sa (fail_with ErrServiceAccountNotGrantable
                     "service accounts cannot be invited as tenant members") ;;
      let! r := tryM (RunInTx (invite_tx c tenantID req actorID keycloakUserID)) in
      match r with
      | Err e => deleteUser tenantID keycloakUserID ;; throw e
      | Ok (Err seatLimitErr) => deleteUser tenantID keycloakUserID ;; throw seatLimitErr
      | Ok (Ok row) => evict [cacheKeySeatUsage tenantID] ;; retM row
      end
  end.

(** [InvitationService.auditInvitation] *)
Definition auditInvitation (tenantID invitationID actorID : uuid) (entryType action sourceEventType : string) : M unit :=
  let! now := time_Now in
  go_WriteEntry
    {| aw_IdempotencyKey := entryType +:+ ":" +:+ uuid_String tenantID +:+ ":" +:+ uuid_String invitationID;
       aw_TenantID := tenantID; aw_EntryType := entryType; aw_Action := action;
       aw_Actor := audit_actor actorID; aw_Target := Some ("invitation"%string, uuid_String invitationID);
       aw_OccurredAt := now; aw_SourceService := "iam-org-membership"; aw_SourceEventType := sourceEventType;
       aw_IPAddress := rcIP; aw_UserAgent := rcUA; aw_Metadata := ∅ |}.

(** [InvitationService.Invite]; on a seat-limit refusal [planLabel] reads the
    tenant for a metric's label. *)
Definition Invite (c : InvitationConfig) (tenantID : uuid) (req : InvitationInput) (actorID : uuid)
  : M PendingInvitation :=
  let! r := tryM (invite c tenantID req actorID) in
  match r with
  | Ok row =>
      (if has_audit then auditInvitation tenantID (pi_ID row) actorID "invitation.created" "create" "InvitationCreated"
       else retM tt) ;;
      retM row
  | Err e =>
      (if errors_Is e ErrSeatLimitReached then let! _ := tryM (FindByID tenantID) in retM tt else retM tt) ;;
      throw e
  end.

(** [InvitationService.List] *)
Definition List (tenantID : uuid) : M (list PendingInvitation) := InvitationRepo.List tenantID.

(** An event of the acceptance; no request context is attached to it. *)
Definition accept_event (type : string) (tenantID userID invitedBy : uuid) (data : EventPayload) : DomainEvent :=
  {| ev_Type := type; ev_TenantID := tenantID; ev_Subject := uuid_String userID;
     ev_Actor := uuid_String invitedBy; ev_Data := data; ev_IPAddress := ""; ev_UserAgent := "" |}.

(** One queued role, and one queued department mapping. *)
Definition accept_role (tenantID userID membershipID invitedBy : uuid) (code : TenantRoleCode) : M unit :=
  if negb (IsElevated code) then retM tt
  else
    let! tr := RoleRepo.Grant uuid_Nil tenantID userID membershipID code invitedBy in
    publish (accept_event EventTenantRoleGranted tenantID userID invitedBy
               (TenantRoleGrantedPayload userID tenantID (tr_RoleCode tr) invitedBy)).

Definition accept_dept (tenantID userID membershipID invitedBy : uuid) (m : InvitationDeptMapping) : M unit :=
  let! (assigned, _) := DeptMembershipRepo.Assign tenantID userID (idm_DepartmentID m) membershipID
                          (idm_Level m) invitedBy in
  publish (accept_event EventDepartmentMembershipGranted tenantID userID invitedBy
             (DepartmentMembershipGrantedPayload userID tenantID (dm_DepartmentID assigned)
                (dm_RoleLevel assigned) invitedBy)).

(** Re-lock the candidate invitation inside the transaction: [None] is the
    plain-add path. *)
Definition relock (tenantID : uuid) (pending : PendingInvitation) : M (option PendingInvitation) :=
  let! locked := InvitationRepo.LockByID (pi_ID pending) in
  match locked with
  | None => retM None
  | Some l =>
      if negb (InvitationRepo.pi_pending l) then retM None
      else
        let! now := time_Now in
        (if negb (pi_ExpiresAt l =? 0) && (pi_ExpiresAt l <=? now) then
           let! licensed := LicensedSeatsForUpdate tenantID in
           let! active := MembershipRepo.CountActive tenantID in
           let! pendCount := InvitationRepo.CountPending tenantID in
           throw_if (licensed <=? active + pendCount)
             (fail_with ErrSeatLimitReached "seat limit reached; expired invitation cannot be honoured")
         else retM tt) ;;
        retM (Some (set_pi_RecordVersion (pi_RecordVersion l) pending))
  end.

(** The transaction of [AddFromRegister]; [pending] is captured. *)
Definition accept_tx (tenantID userID : uuid) (pending : option PendingInvitation)
  : M (option PendingInvitation * TenantMembership) :=
  LockByID tenantID ;;
  let! pending := (match pending with
                   | None => retM None
                   | Some p => relock tenantID p
                   end) in
  let! mem := MembershipRepo.Insert uuid_Nil tenantID userID MembershipActive in
  (match pending with
   | None => retM tt
   | Some p =>
       InvitationRepo.SetStatus tenantID (pi_ID p) InviteAccepted (pi_RecordVersion p) ;;
       for_each (pi_InitialTenantRoles p) (accept_role tenantID userID (tm_ID mem) (pi_InvitedBy p)) ;;
       for_each (pi_InitialDeptMappings p) (accept_dept tenantID userID (tm_ID mem) (pi_InvitedBy p))
   end) ;;
  retM (pending, mem).

(** [InvitationService.AddFromRegister] *)
Definition AddFromRegister (tenantID userID keycloakUserID : uuid) (email : string) : M TenantMembership :=
  let! sa := (if keycloakUserID =? uuid_Nil then retM false
              else MembershipService.isServiceAccountOrDegrade tenantID keycloakUserID) in
  throw_if sa (fail_with ErrServiceAccountNotGrantable
                 "service accounts cannot be enrolled as tenant members") ;;
  let email := normalizeEmail email in
  throw_if (negb (String.eqb email "") && isNull (index_at email))
    (fail_with ErrValidation "invalid email address") ;;
  let! byUser := InvitationRepo.FindPendingByKeycloakUser tenantID keycloakUserID in
  let! pending := (if isNull byUser && negb (String.eqb email "")
                   then InvitationRepo.FindPendingByEmail tenantID email
                   else retM byUser) in
  let! (pending, mem) := RunInTx_captured pending (accept_tx tenantID userID) in
  (match pending with
   | Some p => let! _ := tryM (InvitationRepo.ErasePII tenantID (pi_ID p)) in retM tt
   | None => retM tt
   end) ;;
  evict [cacheKeySeatUsage tenantID; cacheKeyMembers50 tenantID; cacheKeyMemberships tenantID userID] ;;
  retM mem.

(** [InvitationService.Revoke] *)
Definition Revoke (tenantID id : uuid) (expectedVersion : Z) : M PendingInvitation :=
  let! inv := InvitationRepo.SetStatus tenantID id InviteRevoked expectedVersion in
  InvitationRepo.SetKCCleanupPending tenantID id true (pi_RecordVersion inv) ;;
  let! _ := tryM (InvitationRepo.ErasePII tenantID id) in
  evict [cacheKeySeatUsage tenantID] ;;
  (if has_audit then auditInvitation tenantID id (from_option rc_UserID uuid_Nil request_ctx)
                       "invitation.revoked" "revoke" "InvitationRevoked"
   else retM tt) ;;
  retM inv.

End service.
