(* ===== verification/DeptMembershipService.v ===== *)
(** * DeptMembershipService: department assignments

    [internal/core/service/dept_membership_service.go] (P-9, P-10, P-11,
    I-19). *)

From S2P Require Import Prelude Domain Schema Tx.
From S2P Require Import MembershipRepo DeptMembershipRepo TenantDepartmentRepo MembershipService CacheKeys.

Section service.
  Context `{Env} `{CatalogReader}.

(** [DeptMembershipService.deptDelegateOrDegrade] *)
Definition deptDelegateOrDegrade (tenantID userID deptID : uuid) : M (option uuid) :=
  if negb has_delegationCheck then retM None
  else
    let! r := call (CallDeptDelegate tenantID userID deptID) (λ n, dc_DeptDelegate n tenantID userID deptID) in
    match r with
    | Err _ => retM None
    | Ok id => retM id
    end.

(** [DeptMembershipService.ListByDepartment] *)
Definition ListByDepartment (tenantID deptID : uuid) : M (list DeptMembership) :=
  let! r := tryM (TenantDepartmentRepo.Find tenantID deptID) in
  match r with
  | Err _ => throw (fail_with ErrDepartmentNotFound "department not found or not activated for this tenant")
  | Ok _ => DeptMembershipRepo.ListByDepartment tenantID deptID
  end.

Definition resolution_required (msg : string) (impact : DelegateImpact) : error :=
  EDomain (WithDetails (NewError ErrWorkflowResolutionRequired msg)
    [("active_workflows", JNum (di_ActiveWorkflows impact));
     ("workflow_ids", JArr (List.map (λ i, JStr (uuid_String i)) (di_WorkflowIDs impact)));
     ("allowed_actions", JArr [JStr "replace_delegate"; JStr "stop_workflows"])]).

(** [DeptMembershipService.demotionGate] *)
Definition demotionGate (tenantID userID deptID : uuid) (level : DeptRole) : M unit :=
  if negb has_workflow then retM tt
  else
    let! r := tryM (DeptMembershipRepo.ListByUser tenantID userID) in
    let snapshot := match r with Ok l => l | Err _ => [] end in
    match select_first (λ x, dm_DepartmentID x =? deptID) snapshot with
    | None => retM tt
    | Some current =>
        if Rank (dm_RoleLevel current) <=? Rank level then retM tt
        else
          let! delegationID := deptDelegateOrDegrade tenantID userID deptID in
          match delegationID with
          | None => retM tt
          | Some id =>
              let! r := call (CallGetDelegateImpact tenantID userID (Some id))
                             (λ n, wf_GetDelegateImpact n tenantID userID (Some id)) in
              match r with
              | Err _ => retM tt
              | Ok impact =>
                  throw_if (negb (di_ActiveWorkflows impact =? 0))
                    (resolution_required "active workflows depend on this delegate at the current level" impact)
              end
          end
    end.

(** [DeptMembershipService.invalidate] *)
Definition invalidate (tenantID userID : uuid) : M unit :=
  evict [cacheKeyMembers50 tenantID; cacheKeySeatUsage tenantID; cacheKeyMemberships tenantID userID].

(** The event an assignment emits, from the row it replaced. *)
Definition assign_event (tenantID userID deptID : uuid) (level : DeptRole) (actorID : uuid)
    (previous : option DeptMembership) : option DomainEvent :=
  match previous with
  | None =>
      Some (MembershipService.user_event EventDepartmentMembershipGranted tenantID userID actorID
              (DepartmentMembershipGrantedPayload userID tenantID deptID level actorID))
  | Some p =>
      if dm_RoleLevel p ==? level then None
      else Some (MembershipService.user_event EventDepartmentMembershipLevelChanged tenantID userID actorID
                   (DepartmentMembershipLevelChangedPayload userID tenantID deptID (dm_RoleLevel p) level actorID))
  end.

(** The transaction of [Assign]. *)
Definition assign_tx (tenantID userID deptID membershipID : uuid) (level : DeptRole) (actorID : uuid)
  : M DeptMembership :=
  let! (out, previous) := DeptMembershipRepo.Assign tenantID userID deptID membershipID level actorID in
  (match assign_event tenantID userID deptID level actorID previous with
   | Some ev => publish ev
   | None => retM tt
   end) ;;
  retM out.

(** What [Assign] requires of the department: active in the catalog (D-5) and
    activated by the tenant (TD-6). *)
Definition check_department (tenantID deptID : uuid) : M unit :=
  (if has_catalog then
     let! dept := DepartmentByID deptID in
     throw_if (negb (d_IsActive dept))
       (fail_with ErrDepartmentRetired "cannot assign to a globally retired department")
   else retM tt) ;;
  let! r := tryM (TenantDepartmentRepo.Find tenantID deptID) in
  match r with
  | Err e => if errors_Is e ErrDepartmentNotFound
             then throw (fail_with ErrDepartmentDeactivated "department is not activated for this tenant")
             else throw e
  | Ok td => throw_if (negb (td_IsActive td))
               (fail_with ErrDepartmentDeactivated "department is deactivated for this tenant")
  end.

(** DM-2: the grantee is an active member. *)
Definition active_member (tenantID userID : uuid) : M TenantMembership :=
  let! r := tryM (MembershipRepo.FindByUserID tenantID userID) in
  match r with
  | Err e => if errors_Is e ErrMemberNotFound
             then throw (fail_with ErrMemberNotActive "grantee must be an active tenant member")
             else throw e
  | Ok m => throw_if (negb (tm_Status m ==? MembershipActive))
              (fail_with ErrMemberNotActive "grantee must be an active tenant member") ;;
            retM m
  end.

(** [DeptMembershipService.Assign] *)
Definition Assign (tenantID userID deptID : uuid) (level : DeptRole) (actorID : uuid) : M DeptMembership :=
  throw_if (negb (dept_role_known level))
    (EDomain (WithDetails (NewError ErrInvalidRole "invalid role_level") [("code", JStr "invalid_role_level")])) ;;
  let! sa := MembershipService.isServiceAccountOrDegrade tenantID userID in
  throw_if sa (fail_with ErrServiceAccountNotGrantable "service accounts cannot be granted a department role") ;;
  check_department tenantID deptID ;;
  let! m := active_member tenantID userID in
  demotionGate tenantID userID deptID level ;;
  let! dm := RunInTx (assign_tx tenantID userID deptID (tm_ID m) level actorID) in
  invalidate tenantID userID ;;
  retM dm.

(** [DeptMembershipService.Remove] *)
Definition Remove (tenantID userID deptID actorID : uuid) : M DeptMembership :=
  let! delegationID := deptDelegateOrDegrade tenantID userID deptID in
  let! r := call (CallGetDelegateImpact tenantID userID delegationID)
                 (λ n, wf_GetDelegateImpact n tenantID userID delegationID) in
  (match r with
   | Ok impact => throw_if (0 <? di_ActiveWorkflows impact)
                    (resolution_required "active workflows depend on this delegate" impact)
   | Err _ => retM tt
   end) ;;
  let! dm := RunInTx (
    let! out := DeptMembershipRepo.Remove tenantID userID deptID in
    publish (MembershipService.user_event EventDepartmentMembershipRevoked tenantID userID actorID
               (DepartmentMembershipRevokedPayload userID tenantID deptID actorID)) ;;
    retM out) in
  invalidate tenantID userID ;;
  evict [cacheKeyDeptMembers tenantID deptID] ;;
  retM dm.

(** [DeptMembershipService.CheckEligibility] *)
Definition CheckEligibility (tenantID userID deptID : uuid) (requiredLevel : DeptRole) : M AssigneeEligibility :=
  throw_if (Rank requiredLevel <? 0)
    (EDomain (WithDetails (NewError ErrValidation "required_level must be one of preparator, reviewer, approver")
                          [("code", JStr "invalid_role_level")])) ;;
  let no reason := mkAssigneeEligibility false reason None in
  let! m := tryM (MembershipRepo.FindByUserID tenantID userID) in
  match m with
  | Err e => if errors_Is e ErrMemberNotFound then retM (no EligibilityNotMember) else throw e
  | Ok m =>
      if negb (tm_Status m ==? MembershipActive) then retM (no EligibilityMemberNotActive)
      else
        let! td := tryM (TenantDepartmentRepo.Find tenantID deptID) in
        match td with
        | Err e => if errors_Is e ErrDepartmentNotFound then retM (no EligibilityDepartmentNotActive) else throw e
        | Ok td =>
            if negb (td_IsActive td) then retM (no EligibilityDepartmentNotActive)
            else
              let! dms := DeptMembershipRepo.ListByUser tenantID userID in
              match select_first (λ x, dm_DepartmentID x =? deptID) dms with
              | None => retM (no EligibilityNotInDepartment)
              | Some x =>
                  if negb (Satisfies (dm_RoleLevel x) requiredLevel)
                  then retM (mkAssigneeEligibility false EligibilityLevelInsufficient (Some (dm_RoleLevel x)))
                  else retM (mkAssigneeEligibility true EligibilityNone (Some (dm_RoleLevel x)))
              end
        end
  end.

End service.
