(* ===== verification/ProvisioningService.v ===== *)
(** * ProvisioningService: tenant creation and identity-driven changes

    [internal/core/service/provisioning_service.go] (I-1, I-2, I-4, I-5,
    CR-4).  The row-level-security settings it puts in the context, logging
    and metrics are not modelled. *)

From Stdlib Require Import Ascii.
From S2P Require Import Prelude Domain Schema Tx.
From S2P Require Import MembershipRepo RoleRepo DeptMembershipRepo TenantDepartmentRepo DeptRoleLabelRepo.
From S2P Require Import MembershipService InvitationService TenantRepo EventStores CacheKeys.

(** ** Validation *)

(** [NormalizeEmailHash]; [emailHashRe] is 64 lower-case hex digits. *)
Definition NormalizeEmailHash (h : string) : result error string :=
  let h := lower (InvitationService.TrimSpace h) in
  if email_hash_format h then Ok h
  else Err (fail_with ErrValidation
              "email_hash must be the 64-character hex HMAC-SHA256 of the lower-cased email").

Definition in_range (lo hi : N) (c : ascii) : bool := (N.leb lo (N_of_ascii c) && N.leb (N_of_ascii c) hi)%N.
Definition is_digit (c : ascii) : bool := in_range 48 57 c.
Definition is_lower (c : ascii) : bool := in_range 97 122 c.
Definition is_upper (c : ascii) : bool := in_range 65 90 c.
Definition is_hyphen (c : ascii) : bool := Ascii.eqb c "-"%char.
Definition slug_end (c : ascii) : bool := is_lower c || is_digit c.
Definition slug_mid (c : ascii) : bool := slug_end c || is_hyphen c.

(** [slugRe]: an end character, optionally followed by 1 to 61 middle
    characters and an end character. *)
Definition slugRe (s : list ascii) : bool :=
  match s with
  | [] => false
  | c :: rest =>
      slug_end c &&
      match rev rest with
      | [] => true
      | z :: mid => slug_end z && forallb slug_mid mid
                    && Nat.leb 1 (length mid) && Nat.leb (length mid) 61
      end
  end.

(** [isValidSlug] *)
Definition isValidSlug (s : string) : bool :=
  Nat.leb 3 (String.length s) && Nat.leb (String.length s) 63 && slugRe (String.list_ascii_of_string s).

(** The subtags between hyphens. *)
Fixpoint subtags (s : list ascii) : list (list ascii) :=
  match s with
  | [] => [[]]
  | c :: s' =>
      if is_hyphen c then [] :: subtags s'
      else match subtags s' with
           | t :: ts => (c :: t) :: ts
           | [] => [[c]]
           end
  end.

Definition subtag_ok (p : ascii → bool) (t : list ascii) : bool :=
  Nat.leb 1 (length t) && Nat.leb (length t) 8 && forallb p t.

(** [isValidLocale]: [localeRe] *)
Definition isValidLocale (s : string) : bool :=
  match subtags (String.list_ascii_of_string s) with
  | [] => false
  | t :: ts =>
      subtag_ok (λ c, is_lower c || is_upper c) t
      && forallb (subtag_ok (λ c, is_lower c || is_upper c || is_digit c)) ts
  end.

(** ** The service *)

(** The optional collaborators: the parked-event store, the replayer and the
    trial ledger. *)
Record ProvisioningConfig : Type := mkProvisioningConfig {
  pc_parked : bool;
  pc_replayer : option (uuid → M Z);
  pc_trialLedger : bool
}.

Definition DefaultTrialSeats : Z := 10.

(** The plan's code as the request carries it. *)
Definition plan_text (p : TenantPlan) : string :=
  match p with
  | PlanStarter => "starter" | PlanPro => "pro" | PlanEnterprise => "enterprise" | PlanOther raw => raw
  end.

Definition trialCodes : list string := ["ENGINEERING"; "DESIGN"; "PROCUREMENT"; "FINANCE"; "LEGAL"].

Section service.
  Context `{Env} `{CatalogReader}.

(** The checks of [TrialSignup] on the request; the normalized request, with
    its seats. *)
Definition validate_signup (req : TrialSignupInput) : result error (string * Z) :=
  if negb (plan_known (tsi_Plan req))
  then Err (EDomain (WithDetails (NewError ErrInvalidPlan "plan must be one of starter, pro, enterprise")
                       [("received", JStr (plan_text (tsi_Plan req)))]))
  else if negb (isValidSlug (tsi_Slug req))
  then Err (fail_with ErrValidation "slug must be 3–63 lowercase alphanumeric characters or hyphens, and must not start or end with a hyphen")
  else match (if String.eqb (tsi_EmailHash req) "" then Ok "" else NormalizeEmailHash (tsi_EmailHash req)) with
  | Err e => Err e
  | Ok hash =>
      if tsi_LicensedSeats req <? 0
      then Err (fail_with ErrValidation "licensed_seats must not be negative")
      else
        let seats := if tsi_LicensedSeats req =? 0 then DefaultTrialSeats else tsi_LicensedSeats req in
        if Nat.ltb 255 (String.length (tsi_Name req))
        then Err (fail_with ErrValidation "name must not exceed 255 characters")
        else if negb (String.eqb (tsi_DefaultLocale req) "") && negb (isValidLocale (tsi_DefaultLocale req))
        then Err (fail_with ErrValidation "default_locale must be a valid BCP-47 language tag (e.g. en-US, fr, zh-Hant)")
        else Ok (hash, seats)
  end.

(** The departments a trial activates. *)
Definition trial_departments (all : list Department) : list uuid :=
  List.map d_ID (select (λ d, d_IsSystem d && d_IsActive d && contains (d_Code d) trialCodes) all).

(** The tenant row of a trial. *)
Definition trial_tenant (req : TrialSignupInput) (seats : Z) (trialEnds : time) : Tenant :=
  {| t_ID := tsi_TenantID req; t_Slug := tsi_Slug req; t_Name := tsi_Name req; t_Plan := tsi_Plan req;
     t_FeatureFlags := ∅; t_Status := StatusTrial; t_TrialEndsAt := Some trialEnds;
     t_TrialReactivationCount := 0; t_SubscriptionStartedAt := None; t_CancelledAt := None;
     t_SuspensionSource := None; t_LastEventAt := None; t_RealmID := "trial"; t_RealmType := RealmShared;
     t_KeycloakShard := "shard-0"; t_MFAFreshnessSeconds := 300; t_LocalAccountsEnabled := true;
     t_RealmSyncPending := false;
     t_DefaultLocale := if String.eqb (tsi_DefaultLocale req) "" then "en-US" else tsi_DefaultLocale req;
     t_LicensedSeats := seats; t_OwnerlessSince := None; t_OverageSince := None;
     t_ResidencyMode := ResidencyModeStandard; t_RecordVersion := 0; t_CreatedAt := 0; t_UpdatedAt := 0;
     t_DeletedAt := None |}.

Definition system_event (type : string) (tenantID subject : uuid) (data : EventPayload) : DomainEvent :=
  {| ev_Type := type; ev_TenantID := tenantID; ev_Subject := uuid_String subject; ev_Actor := "iam-system";
     ev_Data := data; ev_IPAddress := ""; ev_UserAgent := "" |}.

(** Step 6: the three events of a signup. *)
Definition signup_events (req : TrialSignupInput) (trialEnds : time) : list DomainEvent :=
  let tid := tsi_TenantID req in
  let owner := tsi_OwnerUserID req in
  [system_event EventTenantCreated tid tid (TenantCreatedPayload tid (tsi_Slug req) (tsi_Plan req) StatusTrial);
   system_event EventTrialStarted tid tid (TrialStartedPayload tid (tsi_Plan req) trialEnds);
   system_event EventTenantRoleGranted tid owner (TenantRoleGrantedPayload owner tid RoleTenantOwner owner)].

(** Steps 2 to 6, for a tenant just inserted. *)
Definition seed_tenant (req : TrialSignupInput) (depts : list uuid) (trialEnds : time) : M unit :=
  let tid := tsi_TenantID req in
  let owner := tsi_OwnerUserID req in
  for_each depts (λ d, TenantDepartmentRepo.Activate tid d ;; retM tt) ;;
  DeptRoleLabelRepo.Seed tid ;;
  let! mem := MembershipRepo.Insert uuid_Nil tid owner MembershipActive in
  RoleRepo.Grant uuid_Nil tid owner (tm_ID mem) RoleTenantOwner owner ;;
  for_each (signup_events req trialEnds) publish.

(** The transaction of [TrialSignup]. *)
Definition signup_tx (c : ProvisioningConfig) (req : TrialSignupInput) (hash : string) (seats : Z)
    (depts : list uuid) (trialEnds : time) : M (Tenant * bool) :=
  (if pc_parked c then LockTenantProvisioning (tsi_TenantID req) else retM tt) ;;
  let! (t, fresh) := Insert (Some (trial_tenant req seats trialEnds)) in
  (if negb (String.eqb hash "") && pc_trialLedger c
   then ClaimEmailHash hash (tsi_TenantID req) else retM tt) ;;
  (if (fresh : bool) then seed_tenant req depts trialEnds else retM tt) ;;
  retM (t, fresh).

(** [ProvisioningService.replayParked] *)
Definition replayParked (c : ProvisioningConfig) (tenantID : uuid) : M unit :=
  match pc_replayer c with
  | None => retM tt
  | Some replay => let! _ := tryM (replay tenantID) in retM tt
  end.

(** [ProvisioningService.TrialSignup] *)
Definition TrialSignup (c : ProvisioningConfig) (req : TrialSignupInput) : M (Tenant * bool) :=
  match validate_signup req with
  | Err e => throw e
  | Ok (hash, seats) =>
      let! plan := PlanByCode (tsi_Plan req) in
      let! now := time_Now in
      let trialEnds := now + p_TrialDurationDays plan * day in
      let! all := Departments in
      let! r := RunInTx (signup_tx c req hash seats (trial_departments all) trialEnds) in
      replayParked c (tsi_TenantID req) ;;
      retM r
  end.

(** [ProvisioningService.SetRealmFields] *)
Definition SetRealmFields (tenantID : uuid) (realmID : string) (realmType : RealmType) (shard : string)
    (recordVersion : Z) : M unit :=
  RunInTx (TenantRepo.SetRealmFields tenantID realmID realmType shard recordVersion) ;;
  evict [cacheKeyTenant tenantID; "om:locale:" +:+ uuid_String tenantID].

(** [ProvisioningService.SetMembershipStatus] *)
Definition SetMembershipStatus (tenantID userID : uuid) (status : MembershipStatus) (expectedVersion : Z)
  : M TenantMembership :=
  throw_if (negb (membership_known status))
    (fail_with ErrValidation "status must be one of active, suspended, left") ;;
  let! mem := MembershipRepo.SetStatus tenantID userID status expectedVersion in
  evict [cacheKeyMemberships tenantID userID; cacheKeyMembers50 tenantID] ;;
  retM mem.

(** The transaction of [DeleteMember]: whether the tenant was marked
    ownerless by it. *)
Definition delete_member_tx (tenantID userID : uuid) : M bool :=
  let! r := tryM (MembershipRepo.FindByUserID tenantID userID) in
  match r with
  | Err e => if errors_Is e ErrMemberNotFound then retM false else throw e
  | Ok mem =>
      let! trs := RoleRepo.ListByUser tenantID userID in
      let! revokedRoles := RoleRepo.SoftDeleteAllForUser tenantID userID in
      for_each revokedRoles (λ r, publish (system_event EventTenantRoleRevoked tenantID userID
        (TenantRoleRevokedPayload userID tenantID (tr_RoleCode r) uuid_Nil))) ;;
      let! revokedDepts := DeptMembershipRepo.SoftDeleteAllForUser tenantID userID in
      for_each revokedDepts (λ x, publish (system_event EventDepartmentMembershipRevoked tenantID userID
        (DepartmentMembershipRevokedPayload userID tenantID (dm_DepartmentID x) uuid_Nil))) ;;
      publish (system_event EventMembershipRevoked tenantID userID
                 (MembershipRevokedPayload tenantID userID SystemActorID)) ;;
      MembershipRepo.SoftDelete tenantID userID (tm_RecordVersion mem) ;;
      if MembershipService.holds_owner trs then
        let! remaining := RoleRepo.CountActiveOwners tenantID in
        if remaining =? 0 then MarkOwnerlessIfUnset tenantID else retM false
      else retM false
  end.

(** [ProvisioningService.DeleteMember] *)
Definition DeleteMember (tenantID userID : uuid) : M unit :=
  let! _ := RunInTx (delete_member_tx tenantID userID) in
  evict [cacheKeyMemberships tenantID userID; cacheKeyMembers50 tenantID; cacheKeySeatUsage tenantID].

(** [ProvisioningService.CheckTrialEligibility] *)
Definition CheckTrialEligibility (c : ProvisioningConfig) (emailHash : string) : M unit :=
  match NormalizeEmailHash emailHash with
  | Err e => throw e
  | Ok h =>
      if negb (pc_trialLedger c) then retM tt
      else
        let! exists_ := ExistsEmailHash h in
        throw_if exists_ (fail_with ErrTrialAlreadyUsed "this email address has already been used for a trial")
  end.

End service.
