(* ===== verification/TenantService.v ===== *)
(** * TenantService: reading and changing a tenant's settings

    [internal/core/service/tenant_service.go] (P-1, P-2, I-18) with the two
    one-line services [tenant_resolution_service.go] (PUB-1) and
    [subscription_lapse_service.go] (I-16). *)

From stdpp Require Import pretty.
From S2P Require Import Prelude Domain Schema Json Tx Wp TenantRepo CacheKeys ProvisioningService.

(** [PlanChangeBlocker] *)
Record PlanChangeBlocker : Type := mkPlanChangeBlocker {
  pcb_Code : string;
  pcb_Detail : string
}.

(** [PlanChangeCheckResult] *)
Record PlanChangeCheckResult : Type := mkPlanChangeCheckResult {
  pcr_Allowed : bool;
  pcr_Blockers : list PlanChangeBlocker
}.

Definition BlockerCodeSSOIdpConfigured : string := "sso_idp_configured".

(** [string(mode)] *)
Definition residency_text (m : ResidencyMode) : string :=
  match m with
  | ResidencyModeStandard => "standard" | ResidencyModeStrict => "strict" | ResidencyOther raw => raw
  end.

Definition residency_known (m : ResidencyMode) : bool :=
  match m with ResidencyOther _ => false | _ => true end.

Section service.
  Context `{Env} `{CatalogReader}.

(** [TenantService.getCached] *)
Definition getCached (tenantID : uuid) : M (option Tenant) :=
  if negb has_cache then retM None
  else
    let! raw := cache_Get (cacheKeyTenant tenantID) in
    retM (match raw with Some (CTenant t) => Some t | _ => None end).

(** [TenantService.setCached] *)
Definition setCached (t : Tenant) : M unit :=
  if negb has_cache then retM tt else cache_Set (cacheKeyTenant (t_ID t)) (CTenant t).

(** [TenantService.invalidateCache] *)
Definition invalidateCache (tenantID : uuid) : M unit :=
  evict [cacheKeyTenant tenantID; cacheKeyLocale tenantID].

(** [TenantService.Get] *)
Definition Get (tenantID : uuid) : M Tenant :=
  let! cached := getCached tenantID in
  match cached with
  | Some t => retM t
  | None =>
      let! t := FindByID tenantID in
      setCached t ;;
      retM t
  end.

(** [TenantService.GetIncludingOffboarded] *)
Definition GetIncludingOffboarded (tenantID : uuid) : M Tenant := FindByIDIncludingDeleted tenantID.

Definition sso_blocker (idpCount : Z) (targetPlan : TenantPlan) : PlanChangeBlocker :=
  mkPlanChangeBlocker BlockerCodeSSOIdpConfigured
    ("tenant has " +:+ pretty idpCount +:+ " active IdP(s); target plan " +:+ plan_text targetPlan +:+ " has no SSO").

(** Step 3: the catalog confirms that the plan has SSO. *)
Definition plan_has_sso (targetPlan : TenantPlan) : M bool :=
  if negb has_catalog then retM false
  else
    let! r := tryM (PlanByCode targetPlan) in
    retM (match r with Ok p => p_SSOEnabled p | Err _ => false end).

(** [TenantService.PlanChangeCheck] *)
Definition PlanChangeCheck (tenantID : uuid) (targetPlan : TenantPlan) : M PlanChangeCheckResult :=
  throw_if (String.eqb (plan_text targetPlan) "") (fail_with ErrInvalidTargetPlan "target_plan is required") ;;
  throw_if (negb (plan_known targetPlan))
    (EDomain (WithDetails (NewError ErrInvalidTargetPlan "invalid target_plan: must be starter, pro, or enterprise")
                          [("received", JStr (plan_text targetPlan))])) ;;
  let! _ := Get tenantID in
  let! sso := plan_has_sso targetPlan in
  if (sso : bool) then retM (mkPlanChangeCheckResult true [])
  else if negb has_idpReader
  then throw (fail_with ErrRealmProvisionerUnavailable
                "realm provisioner client not configured; cannot verify IdP count")
  else
    let! r := call (CallGetIDPCount tenantID) (λ n, idp_GetIDPCount n tenantID) in
    match r with
    | Err _ => throw (fail_with ErrRealmProvisionerUnavailable
                        "realm provisioner unavailable; cannot verify IdP count for plan change")
    | Ok idpCount =>
        retM (if 0 <? idpCount then mkPlanChangeCheckResult false [sso_blocker idpCount targetPlan]
              else mkPlanChangeCheckResult true [])
    end.

(** The checks of [Patch] on the request. *)
Definition validate_patch (p : TenantPatch) : M unit :=
  throw_if (match tp_MFAFreshnessSeconds p with Some v => (v <? 60) || (900 <? v) | None => false end)
    (EDomain (WithDetails (NewError ErrValidation "mfa_freshness_seconds must be between 60 and 900")
                          [("code", JStr "invalid_mfa_freshness_seconds")])) ;;
  throw_if (match tp_Name p with Some n => Nat.ltb 255 (String.length n) | None => false end)
    (EDomain (WithDetails (NewError ErrValidation "name must not exceed 255 characters")
                          [("code", JStr "invalid_request")])) ;;
  throw_if (match tp_DefaultLocale p with
            | Some l => String.eqb l "" || negb (isValidLocale l)
            | None => false
            end)
    (EDomain (WithDetails
       (NewError ErrValidation "default_locale must be a valid BCP-47 language tag (e.g. en-US, fr, zh-Hant)")
       [("code", JStr "invalid_locale")])) ;;
  match tp_ResidencyMode p with
  | None => retM tt
  | Some m =>
      throw_if (negb (residency_known m))
        (EDomain (WithDetails (NewError ErrValidation "residency_mode must be 'standard' or 'strict'")
                              [("code", JStr "invalid_residency_mode"); ("received", JStr (residency_text m))]))
  end.

(** [domain.SystemActorID] unless an authenticated user made the request. *)
Definition settings_actor : uuid :=
  match request_ctx with
  | Some rc => if rc_UserID rc =? uuid_Nil then SystemActorID else rc_UserID rc
  | None => SystemActorID
  end.

(** [TenantService.enqueueSettingChanged] *)
Definition setting_event (tenantID : uuid) (setting oldVal newVal : string) : DomainEvent :=
  {| ev_Type := EventTenantSettingChanged; ev_TenantID := tenantID; ev_Subject := uuid_String tenantID;
     ev_Actor := uuid_String settings_actor;
     ev_Data := TenantSettingChangedPayload tenantID setting oldVal newVal settings_actor;
     ev_IPAddress := rcIP; ev_UserAgent := rcUA |}.

Definition enqueueSettingChanged (tenantID : uuid) (setting oldVal newVal : string) : M unit :=
  publish (setting_event tenantID setting oldVal newVal).

(** The pre-read: the tenant, when a realm sync or the old residency mode may
    be needed. *)
Definition pre_read (tenantID : uuid) (p : TenantPatch) : M (option Tenant) :=
  if notNull (tp_LocalAccountsEnabled p) || notNull (tp_ResidencyMode p) then
    let! t := FindByID tenantID in retM (Some t)
  else retM None.

Definition need_realm_sync (p : TenantPatch) (pre : option Tenant) : bool :=
  match tp_LocalAccountsEnabled p, pre with
  | Some b, Some t => negb (Bool.eqb (t_LocalAccountsEnabled t) b)
  | _, _ => false
  end.

(** The write: with its event in one transaction when the residency mode is
    set and a runner is wired. *)
Definition write_patch (txRunner : bool) (tenantID : uuid) (p : TenantPatch) (pre : option Tenant) : M Tenant :=
  match tp_ResidencyMode p with
  | Some m =>
      if txRunner then
        let oldMode := match pre with Some t => t_ResidencyMode t | None => ResidencyModeStandard end in
        RunInTx (
          let! t := Update tenantID (Some p) in
          enqueueSettingChanged tenantID "residency_mode" (residency_text oldMode) (residency_text m) ;;
          retM t)
      else Update tenantID (Some p)
  | None => Update tenantID (Some p)
  end.

(** T-15: push the setting to the realm; on failure leave the durable marker. *)
Definition sync_realm (tenantID : uuid) (p : TenantPatch) (needed : bool) : M bool :=
  if negb needed then retM false
  else
    let! r := call (CallPatchRealmConfig tenantID (tp_LocalAccountsEnabled p))
                   (λ n, rp_PatchRealmConfig n tenantID (tp_LocalAccountsEnabled p)) in
    match r with
    | Ok _ => retM false
    | Err _ => let! _ := tryM (SetRealmSyncPending tenantID) in retM true
    end.

(** What [auditSettingChange] reports as changed. *)
Definition changed_settings (p : TenantPatch) (before : option Tenant) : gmap string json :=
  let put {A} (key : string) (f : A → json) (o : option A) (m : gmap string json) : gmap string json :=
    match o with Some a => <[key := f a]> m | None => m end in
  put "residency_mode" (λ m, JObj (match before with
                                   | Some t => [("new", JStr (residency_text m)); ("old", JStr (residency_text (t_ResidencyMode t)))]
                                   | None => [("new", JStr (residency_text m))]
                                   end)) (tp_ResidencyMode p)
    (put "name" JStr (tp_Name p)
       (put "local_accounts_enabled" JBool (tp_LocalAccountsEnabled p)
          (put "default_locale" JStr (tp_DefaultLocale p)
             (put "mfa_freshness_seconds" JNum (tp_MFAFreshnessSeconds p) ∅)))).

(** The entry of [TenantService.auditSettingChange]. *)
Definition setting_entry (tenantID : uuid) (p : TenantPatch) (before : option Tenant) (now : time) : AuditWriteRequest :=
  let actor := audit_actor (from_option rc_UserID uuid_Nil request_ctx) in
  {| aw_IdempotencyKey := "tenant-setting:" +:+ uuid_String tenantID +:+ ":" +:+ aa_ID actor +:+ ":" +:+ pretty (UnixMilli now);
     aw_TenantID := tenantID; aw_EntryType := "config.tenant_setting.changed"; aw_Action := "update";
     aw_Actor := actor; aw_Target := None; aw_OccurredAt := now; aw_SourceService := "iam-org-membership";
     aw_SourceEventType := "TenantSettingChanged"; aw_IPAddress := rcIP; aw_UserAgent := rcUA;
     aw_Metadata := changed_settings p before |}.

Definition auditSettingChange (tenantID : uuid) (p : TenantPatch) (before : option Tenant) : M unit :=
  let! now := time_Now in go_WriteEntry (setting_entry tenantID p before now).

(** [TenantService.Patch]: the tenant and whether the realm sync is deferred. *)
Definition Patch (txRunner : bool) (tenantID : uuid) (patch : option TenantPatch) : M (Tenant * bool) :=
  match patch with
  | None => throw (fail_with ErrValidation "patch is required")
  | Some p =>
      if patch_is_empty p then let! t := FindByID tenantID in retM (t, false)
      else
        validate_patch p ;;
        let! pre := pre_read tenantID p in
        let! updated := write_patch txRunner tenantID p pre in
        invalidateCache tenantID ;;
        let! deferred := sync_realm tenantID p (need_realm_sync p pre) in
        (if has_audit then auditSettingChange tenantID p pre else retM tt) ;;
        retM (updated, deferred)
  end.

(** [requireActiveMember] *)
Definition requireActiveMember (rc : option RequestContext) (tenantID : uuid) : result error unit :=
  match rc with
  | None => Err (fail_with ErrMissingIdentity "missing identity")
  | Some rc => if rc_TenantID rc =? tenantID then Ok tt
               else Err (fail_with ErrInsufficientRole "cross-tenant access")
  end.

(** [TenantResolutionService.Resolve] *)
Definition Resolve (identifier : string) : M TenantResolution := ResolveByIdentifier identifier.

(** [SubscriptionLapseService.List] *)
Definition List (graceDays : Z) : M (list Tenant) := ListSubscriptionLapses graceDays.

End service.
