(* ===== verification/ReadModels.v ===== *)
(** * ReadModels: what is read across tables and tenants

    [internal/adapter/outbound/postgres/authz_repository.go]: the one-statement
    join behind I-8, with the row type of [internal/core/port/authz_repository.go];
    [reconciler_store.go] and [gauge_repository.go]: the cross-tenant sweeps and
    gauges.  A LIMIT without ORDER BY takes rows in the order of the table. *)

From S2P Require Import Prelude Domain Schema Tx TenantRepo EventStores RoleRepo DeptMembershipRepo.

(** ** The authorization read model *)

(** [port.MembershipProjectionRow] *)
Record MembershipProjectionRow : Type := mkMembershipProjectionRow {
  mpr_MembershipStatus : MembershipStatus;
  mpr_TenantPlan : TenantPlan;
  mpr_SubscriptionStatus : SubscriptionStatus;
  mpr_Locale : string;
  mpr_MFAFreshnessSeconds : Z;
  mpr_LocalAccountsEnabled : bool;
  mpr_ResidencyMode : ResidencyMode;
  mpr_TenantFeatureFlags : gmap string json;
  mpr_Roles : list TenantRoleCode;
  mpr_Departments : list DeptMembershipView
}.

(** The right side of a LEFT JOIN: the matching rows, or one row of NULLs. *)
Definition left_join {A} (rows : list A) : list (option A) :=
  match rows with
  | [] => [None]
  | _ => List.map Some rows
  end.

(** The joined rows of one membership: its roles times its departments. *)
Definition joined (roles : list TenantRole) (depts : list DeptMembership)
  : list (option TenantRole * option DeptMembership) :=
  List.flat_map (λ r, List.map (λ x, (r, x)) (left_join depts)) (left_join roles).

(** [array_agg(DISTINCT tr.role_code ORDER BY tr.role_code) FILTER (WHERE ...
    IS NOT NULL)] *)
Definition agg_roles (rows : list (option TenantRole * option DeptMembership)) : list TenantRoleCode :=
  sort_by role_rank (remove_dups (List.map tr_RoleCode (omap fst rows))).

(** [json_agg(json_build_object(...) ORDER BY dm.department_id) FILTER (WHERE
    ... IS NOT NULL)]: one element per joined row, and no DISTINCT. *)
Definition agg_departments (rows : list (option TenantRole * option DeptMembership)) : list DeptMembershipView :=
  List.map (λ x, mkDeptMembershipView (dm_DepartmentID x) "" (dm_RoleLevel x))
    (isort by_department (omap snd rows)).

(** The row the statement returns.  A user has one live membership in a tenant
    and a tenant one row (uq_tm_tenant_user, tenants_pkey), so there is one
    group at most. *)
Definition projection_of (tenantID userID : uuid) (d : DB) : option MembershipProjectionRow :=
  match select_first (tm_of tenantID userID) (tenant_memberships d),
        select_first (t_is tenantID) (tenants d) with
  | Some tm, Some t =>
      let rows := joined (select (tr_of tenantID userID) (tenant_roles d))
                         (select (dm_of tenantID userID) (dept_memberships d)) in
      Some (mkMembershipProjectionRow (tm_Status tm) (t_Plan t) (t_Status t) (t_DefaultLocale t)
              (t_MFAFreshnessSeconds t) (t_LocalAccountsEnabled t) (t_ResidencyMode t) (t_FeatureFlags t)
              (agg_roles rows) (agg_departments rows))
  | _, _ => None
  end.

(** [AuthZRepository.FindMembershipProjection]: no membership is [nil], not an
    error. *)
Definition FindMembershipProjection (tenantID userID : uuid) : M (option MembershipProjectionRow) :=
  withPool (query (λ _ d, projection_of tenantID userID d)).

Lemma keeps_FindMembershipProjection R `{!PreOrder R} tid uid : keeps R (FindMembershipProjection tid uid).
Proof. unfold FindMembershipProjection. keeps_auto. Qed.

#[export] Hint Resolve keeps_FindMembershipProjection : keeps.

(** ** Sweeps and gauges *)

(** [ReconcilerStore.ListSeatOverageCandidates] *)
Definition ListSeatOverageCandidates (limit : nat) : M (list uuid) :=
  withPool (query (λ _ d, take limit (List.map t_ID (select t_live (tenants d))))).

(** [port.RealmSyncCandidate] *)
Record RealmSyncCandidate : Type := mkRealmSyncCandidate {
  rsc_TenantID : uuid;
  rsc_LocalAccountsEnabled : bool
}.

(** [ReconcilerStore.ListRealmSyncPending]: false sorts before true. *)
Definition ListRealmSyncPending (limit : nat) : M (list RealmSyncCandidate) :=
  withPool (query (λ _ d,
    take limit (List.map (λ t, mkRealmSyncCandidate (t_ID t) (t_LocalAccountsEnabled t))
      (sort_by (λ t, if t_LocalAccountsEnabled t then 1 else 0)
        (select (λ t, t_RealmSyncPending t && t_live t) (tenants d)))))).

(** [ReconcilerStore.ClearRealmSyncPending] *)
Definition ClearRealmSyncPending (tenantID : uuid) : M unit :=
  withPool (exec_update (t_is tenantID) (λ _, set_t_RealmSyncPending false) ;; retM tt).

(** A trial past its grace. *)
Definition trial_over (graceDays : Z) (now : time) (t : Tenant) : bool :=
  (t_Status t ==? StatusTrialExpired)
  && match t_TrialEndsAt t with Some e => e <? now - graceDays * day | None => false end
  && t_live t.

(** [ReconcilerStore.ListExpiredTrialTenants] *)
Definition ListExpiredTrialTenants (graceDays : Z) (limit : nat) : M (list uuid) :=
  withPool (query (λ now d, take limit (List.map t_ID (select (trial_over graceDays now) (tenants d))))).

(** [min(p.parked_at)] of a tenant's parked events. *)
Definition first_parked (l : list ParkedTenantEvent) (tenantID : uuid) : time :=
  match select (λ p, pte_TenantID p =? tenantID) l with
  | [] => 0
  | p :: ps => List.fold_left (λ m q, Z.min m (pte_ParkedAt q)) ps (pte_ParkedAt p)
  end.

(** [ReconcilerStore.ListTenantsWithParkedEvents]: the join with [tenants]
    keeps the tenants whose row exists, deleted or not. *)
Definition ListTenantsWithParkedEvents (limit : nat) : M (list uuid) :=
  withPool (query (λ _ d,
    let l := pending_tenant_events d in
    take limit (sort_by (first_parked l)
      (select (λ id, exists_row (t_is id) (tenants d)) (remove_dups (List.map pte_TenantID l)))))).

(** ** Gauges *)

(** [GaugeRepository.CountOwnerlessTenants] *)
Definition CountOwnerlessTenants : M Z :=
  withPool (query (λ _ d, count (λ t, notNull (t_OwnerlessSince t) && t_live t) (tenants d))).

(** [GaugeRepository.CountRealmSyncPending] *)
Definition CountRealmSyncPending : M Z :=
  withPool (query (λ _ d, count (λ t, t_RealmSyncPending t && t_live t) (tenants d))).

(** [GaugeRepository.CountSeatOverageActive] *)
Definition CountSeatOverageActive : M Z :=
  withPool (query (λ _ d, count (λ t, notNull (t_OverageSince t) && t_live t) (tenants d))).

(** [GaugeRepository.CountPendingInvitationsStale] *)
Definition CountPendingInvitationsStale : M Z :=
  withPool (query (λ now d,
    count (λ i, (pi_Status i ==? InvitePending) && (pi_ExpiresAt i <? now)) (pending_invitations d))).

(** [GaugeRepository.CountParkedTenantEventsStale]: ten minutes. *)
Definition CountParkedTenantEventsStale : M Z :=
  withPool (query (λ now d, count (λ p, pte_ParkedAt p <? now - 600000000) (pending_tenant_events d))).

(** [GaugeRepository.RLSViolationCounts] over the rows of [rls_violation_log],
    the type and the time of each; the window ends at the process's clock. *)
Definition RLSViolationCounts (rls_violation_log : list (string * time)) (window : Z) : M (list (string * Z)) :=
  let! now := time_Now in
  withPool (query (λ _ _,
    let rows := select (λ r : string * time, now - window <=? snd r) rls_violation_log in
    List.map (λ t, (t, count (λ r : string * time, String.eqb (fst r) t) rows)) (remove_dups (List.map fst rows)))).
