(* ===== verification/AuthzService.v ===== *)
(** * AuthzService: the authorization projection and the session context

    [internal/core/service/authz_service.go] (I-8: the membership projection
    behind every authenticated request, cached under the plan generation it was
    built for) and [internal/core/service/session_context_service.go] (P-35). *)

From S2P Require Import Prelude Domain Schema Tx Wp Json TenantRepo ReadModels CacheKeys ProvisioningService.
From S2P Require Import TenantService.

(** [readOnlyForStatus] *)
Definition readOnlyForStatus (status : SubscriptionStatus) : bool := status ==? StatusCancelled.

(** [port.PlanGenerationKey] *)
Definition PlanGenerationKey (plan : TenantPlan) : string := "om:plans:gen:" +:+ plan_text plan.

(** The generations read with an entry: [gens[plan]] is empty when absent. *)
Abbreviation generations := (list (TenantPlan * string)).

Definition gen_of (gens : generations) (plan : TenantPlan) : string :=
  match List.find (λ e : TenantPlan * string, fst e ==? plan) gens with
  | Some (_, g) => g
  | None => ""
  end.

Section service.
  Context `{Env} `{CatalogReader}.

(** ** The projection *)

(** [deptCodes[d.ID] = d.Code], in order. *)
Definition dept_codes (all : list Department) : gmap uuid string :=
  List.fold_left (λ m d, <[d_ID d := d_Code d]> m) all ∅.

Definition with_code (codes : gmap uuid string) (v : DeptMembershipView) : DeptMembershipView :=
  mkDeptMembershipView (dmv_DepartmentID v) (default "" (codes !! dmv_DepartmentID v)) (dmv_RoleLevel v).

(** The plan's baseline overridden by the tenant's delta (PLAN-6). *)
Definition effective_flags (plan : option Plan) (tenant : gmap string json) : gmap string json :=
  tenant ∪ (match plan with Some p => p_FeatureSet p | None => ∅ end).

(** A flag counts as enabled when its value is true, or any other non-nil
    value that is not a bool. *)
Definition flag_enabled (v : json) : bool :=
  match v with JBool b => b | JNull => false | _ => true end.

(** [AuthZService.readFromDB] *)
Definition readFromDB (tenantID userID : uuid) : M (option MembershipProjection) :=
  let! row := FindMembershipProjection tenantID userID in
  match row with
  | None => retM None
  | Some row =>
      let! codes := (if has_catalog then
                       let! all := tryM Departments in
                       retM (match all with Ok l => dept_codes l | Err _ => ∅ end)
                     else retM ∅) in
      let! plan := tryM (PlanByCode (mpr_TenantPlan row)) in
      let effective := effective_flags (match plan with Ok p => Some p | Err _ => None end)
                                       (mpr_TenantFeatureFlags row) in
      let! kvs := map_range (map_to_list effective) in
      let enabledFlags := List.map fst (List.filter (λ kv : string * json, flag_enabled kv.2) kvs) in
      retM (Some {|
        mp_UserID := userID; mp_TenantID := tenantID; mp_Status := mpr_MembershipStatus row;
        mp_Plan := mpr_TenantPlan row; mp_SubscriptionStatus := mpr_SubscriptionStatus row;
        mp_ReadOnly := readOnlyForStatus (mpr_SubscriptionStatus row);
        mp_Locale := mpr_Locale row; mp_MFAFreshnessSeconds := mpr_MFAFreshnessSeconds row;
        mp_LocalAccountsEnabled := mpr_LocalAccountsEnabled row; mp_ResidencyMode := mpr_ResidencyMode row;
        mp_Roles := RoleMember :: mpr_Roles row;
        mp_Departments := List.map (with_code codes) (mpr_Departments row);
        mp_FeatureFlags := isort string_le enabledFlags |})
  end.

(** ** The cache *)

(** [AuthZService.getCached]: the hit and the generations read; no generations
    when the cache could not be read. *)
Definition getCached (tenantID userID : uuid) : M (option MembershipProjection * option generations) :=
  if negb has_cache then retM (None, None)
  else
    let! vals := cache_MGet (cacheKeyMemberships tenantID userID :: List.map PlanGenerationKey KnownPlans) in
    match vals with
    | None => retM (None, None)
    | Some [] => retM (None, Some [])
    | Some (entry :: vs) =>
        let gens := omap (λ pv : TenantPlan * option cache_val,
                            match snd pv with Some (CBytes g) => Some (fst pv, g) | _ => None end)
                         (zip KnownPlans vs) in
        match entry with
        | Some (CMembership p planGen) =>
            retM (if String.eqb planGen (gen_of gens (mp_Plan p)) then Some p else None, Some gens)
        | _ => retM (None, Some gens)
        end
    end.

(** [AuthZService.setCached] *)
Definition setCached (proj : MembershipProjection) (gens : option generations) : M unit :=
  match gens with
  | None => retM tt
  | Some gens =>
      if negb has_cache then retM tt
      else cache_Set (cacheKeyMemberships (mp_TenantID proj) (mp_UserID proj))
                     (CMembership proj (gen_of gens (mp_Plan proj)))
  end.

(** [AuthZService.GetMembership] *)
Definition GetMembership (tenantID userID : uuid) : M MembershipProjection :=
  let! (cached, gens) := getCached tenantID userID in
  match cached with
  | Some p => retM p
  | None =>
      let! proj := readFromDB tenantID userID in
      match proj with
      | None => throw (fail_with ErrMemberNotFound "no active membership in this tenant")
      | Some p => setCached p gens ;; retM p
      end
  end.

(** ** The session context (P-35) *)

(** [SessionContext] *)
Record SessionContext : Type := mkSessionContext {
  sc_TenantID : uuid;
  sc_Roles : list TenantRoleCode;
  sc_Departments : list DeptMembershipView;
  sc_Plan : TenantPlan;
  sc_FeatureFlags : list string;
  sc_ReadOnly : bool;
  sc_MFAFreshnessSeconds : Z;
  sc_Locale : string;
  sc_Slug : string
}.

Definition readOnlyFeatureFlag : string := "read_only".

(** [sessionFeatureFlags] *)
Definition sessionFeatureFlags (flags : list string) (readOnly : bool) : list string :=
  if negb readOnly then flags
  else if contains readOnlyFeatureFlag flags then flags
  else flags ++ [readOnlyFeatureFlag].

(** [SessionContextService.Get] *)
Definition SessionGet (tenantID userID : uuid) : M SessionContext :=
  let! proj := GetMembership tenantID userID in
  throw_if (negb (mp_Status proj ==? MembershipActive))
    (fail_with ErrInsufficientRole
       (if mp_Status proj ==? MembershipSuspended then "suspended members cannot access tenant APIs"
        else "member is not an active member of this tenant")) ;;
  let! t := TenantService.Get tenantID in
  retM {| sc_TenantID := tenantID; sc_Roles := mp_Roles proj; sc_Departments := mp_Departments proj;
          sc_Plan := mp_Plan proj; sc_FeatureFlags := sessionFeatureFlags (mp_FeatureFlags proj) (mp_ReadOnly proj);
          sc_ReadOnly := mp_ReadOnly proj; sc_MFAFreshnessSeconds := t_MFAFreshnessSeconds t;
          sc_Locale := t_DefaultLocale t; sc_Slug := t_Slug t |}.

End service.
