(* ===== verification/OperatorService.v ===== *)
(** * OperatorService: operator actions on a tenant

    [internal/core/service/operator_service.go]: O-4 (feature flags) and O-7
    (reassigning ownership). *)

From S2P Require Import Prelude Domain Schema Tx Wp Json TenantRepo MembershipRepo RoleRepo CacheKeys.
From S2P Require Import MembershipService TenantService.

Definition featureFlagAllowlist : list string := ["sso_enabled"; "custom_branding"; "require_mfa_all_users"].

(** [switch v.(type) { case string, bool, float64, int, int64, nil: ... }] *)
Definition is_scalar (v : json) : bool :=
  match v with JArr _ | JObj _ => false | _ => true end.

Section service.
  Context `{Env}.

(** The two checks of [SetFeatureFlags], each a loop over the map. *)
Definition validate_flags (flags : gmap string json) : M unit :=
  let! ks := map_range (map_to_list flags) in
  for_each ks (λ kv,
    throw_if (negb (contains kv.1 featureFlagAllowlist))
      (EDomain (WithDetails (NewError ErrValidation "unknown feature flag key")
                            [("code", JStr "unknown_feature_flag"); ("key", JStr kv.1)]))) ;;
  let! ks := map_range (map_to_list flags) in
  for_each ks (λ kv,
    throw_if (negb (is_scalar kv.2))
      (EDomain (WithDetails (NewError ErrValidation "feature flag values must be scalars")
                            [("code", JStr "invalid_feature_value"); ("key", JStr kv.1)]))).

(** The event of O-4; the address and agent only with an authenticated user. *)
Definition flags_event (tenantID : uuid) (oldFlags newFlags : gmap string json) : DomainEvent :=
  let '(actorID, ip, ua) :=
    match request_ctx with
    | Some rc => if rc_UserID rc =? uuid_Nil then (SystemActorID, "", "")
                 else (rc_UserID rc, rc_ClientIP rc, rc_UserAgent rc)
    | None => (SystemActorID, "", "")
    end in
  {| ev_Type := EventTenantSettingChanged; ev_TenantID := tenantID; ev_Subject := uuid_String tenantID;
     ev_Actor := uuid_String actorID;
     ev_Data := TenantSettingChangedPayload tenantID "feature_flags" (json_Marshal oldFlags) (json_Marshal newFlags)
                  actorID;
     ev_IPAddress := ip; ev_UserAgent := ua |}.

(** The eviction of O-4: the tenant, then the projection of every member. *)
Definition evict_members (tenantID : uuid) : M unit :=
  if negb has_cache then retM tt
  else
    cache_Delete [cacheKeyTenant tenantID] ;;
    let! r := tryM (ListActiveUserIDs tenantID) in
    match r with
    | Ok (u :: us) => cache_Delete (List.map (cacheKeyMemberships tenantID) (u :: us))
    | _ => retM tt
    end.

(** [OperatorService.SetFeatureFlags]; a nil map is an empty one. *)
Definition SetFeatureFlags (tenantID : uuid) (flags : option (gmap string json)) (expectedVersion : Z) : M Tenant :=
  let flags := default ∅ flags in
  validate_flags flags ;;
  let! current := FindByID tenantID in
  RunInTx (
    TenantRepo.SetFeatureFlags tenantID flags expectedVersion ;;
    publish (flags_event tenantID (t_FeatureFlags current) flags)) ;;
  let! updated := FindByID tenantID in
  evict_members tenantID ;;
  retM updated.

(** The event of O-7; it carries no address or agent. *)
Definition owner_event (tenantID newOwnerUserID actorID : uuid) : DomainEvent :=
  {| ev_Type := EventTenantRoleGranted; ev_TenantID := tenantID; ev_Subject := uuid_String newOwnerUserID;
     ev_Actor := uuid_String actorID;
     ev_Data := TenantRoleGrantedPayload newOwnerUserID tenantID RoleTenantOwner actorID;
     ev_IPAddress := ""; ev_UserAgent := "" |}.

(** The transaction of O-7. *)
Definition reassign_tx (tenantID newOwnerUserID membershipID actorID : uuid) : M TenantRole :=
  let! granted := RoleRepo.Grant uuid_Nil tenantID newOwnerUserID membershipID RoleTenantOwner actorID in
  ClearOwnerlessSince tenantID ;;
  publish (owner_event tenantID newOwnerUserID actorID) ;;
  retM granted.

(** [OperatorService.ReassignOwner] *)
Definition ReassignOwner (tenantID newOwnerUserID actorID : uuid) : M TenantRole :=
  let! t := FindByID tenantID in
  throw_if (t_Status t ==? StatusOffboarded) (fail_with ErrTenantOffboarded "tenant is offboarded") ;;
  let! mem := tryM (MembershipRepo.FindByUserID tenantID newOwnerUserID) in
  match mem with
  | Err _ => throw (fail_with ErrInvalidOwnerCandidate "new owner is not an active member")
  | Ok m =>
      throw_if (negb (tm_Status m ==? MembershipActive))
        (fail_with ErrInvalidOwnerCandidate "new owner is not an active member") ;;
      let! tr := RunInTx (reassign_tx tenantID newOwnerUserID (tm_ID m) actorID) in
      evict [cacheKeyTenant tenantID] ;;
      evict [cacheKeyMemberships tenantID newOwnerUserID] ;;
      retM tr
  end.

(** [OperatorService.ActiveRoleCodes] *)
Definition ActiveRoleCodes (tenantID userID : uuid) : M (list TenantRoleCode) :=
  let! roles := RoleRepo.ListByUser tenantID userID in
  retM (List.map tr_RoleCode roles).

End service.
