(* ===== verification/DepartmentService.v ===== *)
(** * DepartmentService: a tenant's departments and role labels

    [internal/core/service/department_service.go] (P-3, P-24, P-25, I-20) and
    [internal/core/service/role_label_service.go] (P-12, P-13). *)

From S2P Require Import Prelude Utf8 Domain Schema Tx Wp TenantDepartmentRepo DeptRoleLabelRepo CacheKeys.

(** [TenantDepartmentView] *)
Record TenantDepartmentView : Type := mkTenantDepartmentView {
  tdv_DepartmentID : uuid;
  tdv_Code : string;
  tdv_Name : string;
  tdv_IsSystem : bool;
  tdv_IsActive : bool;
  tdv_RecordVersion : Z
}.

Section service.
  Context `{Env} `{CatalogReader}.

(** [DepartmentService.invalidateCache] *)
Definition invalidateCache (tenantID : uuid) : M unit := evict [cacheKeyTenant tenantID].

Definition department_view (td : TenantDepartment) : M TenantDepartmentView :=
  let! d := DepartmentByID (td_DepartmentID td) in
  retM (mkTenantDepartmentView (td_DepartmentID td) (d_Code d) (d_Name d) (d_IsSystem d) (td_IsActive td)
          (td_RecordVersion td)).

(** [DepartmentService.listForTenant] *)
Definition listForTenant (tenantID : uuid) (activeOnly : bool) : M (list TenantDepartmentView) :=
  let! tds := (if activeOnly then TenantDepartmentRepo.ListActive tenantID
               else TenantDepartmentRepo.List tenantID) in
  for_fold tds [] (λ out td, let! v := department_view td in retM (out ++ [v])).

(** [DepartmentService.ListForTenant] and [ListActiveForTenant] *)
Definition ListForTenant (tenantID : uuid) : M (list TenantDepartmentView) := listForTenant tenantID false.
Definition ListActiveForTenant (tenantID : uuid) : M (list TenantDepartmentView) := listForTenant tenantID true.

(** [DepartmentService.Activate] *)
Definition Activate (tenantID departmentID : uuid) : M (TenantDepartment * bool) :=
  let! dept := DepartmentByID departmentID in
  throw_if (negb (d_IsActive dept))
    (fail_with ErrDepartmentRetired "cannot activate a globally retired department") ;;
  let! td := TenantDepartmentRepo.Activate tenantID departmentID in
  invalidateCache tenantID ;;
  retM (td, true).

(** [DepartmentService.SetActive] *)
Definition SetActive (tenantID departmentID : uuid) (isActive : bool) (expectedVersion : Z) : M TenantDepartment :=
  let! dept := DepartmentByID departmentID in
  throw_if (negb isActive && d_IsSystem dept)
    (fail_with ErrSystemDepartmentCannotBeRetired "system departments cannot be deactivated") ;;
  throw_if (isActive && negb (d_IsActive dept))
    (fail_with ErrDepartmentRetired "cannot reactivate a globally retired department") ;;
  let! td := TenantDepartmentRepo.SetActive tenantID departmentID isActive expectedVersion in
  invalidateCache tenantID ;;
  retM td.

(** [RoleLabelService.List] *)
Definition ListLabels (tenantID : uuid) : M (list DeptRoleLabel) := DeptRoleLabelRepo.List tenantID.

(** [RoleLabelService.Update] *)
Definition UpdateLabel (tenantID : uuid) (code : DeptRole) (displayName : string) (expectedVersion : Z)
  : M DeptRoleLabel :=
  throw_if (negb (dept_role_known code))
    (EDomain (WithDetails (NewError ErrValidation "invalid role_code") [("code", JStr "invalid_role")])) ;;
  throw_if (String.eqb displayName "") (fail_with ErrValidation "display_name must not be empty") ;;
  throw_if (Nat.ltb 255 (RuneCountInString displayName))
    (fail_with ErrValidation "display_name must not exceed 255 characters") ;;
  let! l := DeptRoleLabelRepo.Update tenantID code displayName expectedVersion in
  evict [cacheKeyRoles tenantID] ;;
  retM l.

End service.
