(* ===== verification/GroupMappingService.v ===== *)
(** * GroupMappingService: just-in-time assignment from group claims

    [internal/core/service/group_mapping_service.go] (I-10): the caller's
    Keycloak groups resolve to departments, levels and tenant roles, which are
    then granted, never revoked (GTRM-4). *)

From S2P Require Import Prelude Domain Schema Tx Wp MembershipRepo RoleRepo DeptMembershipRepo CacheKeys.

(** [JITResult] *)
Record JITResult : Type := mkJITResult {
  jit_AssignedDepts : list uuid;
  jit_GrantedTenantRoles : list TenantRoleCode
}.

(** The three lists of mappings. *)
Record Mappings : Type := mkMappings {
  mm_depts : list GroupDeptMapping;
  mm_deptRoles : list GroupDeptRoleMapping;
  mm_tenantRoles : list GroupTenantRoleMapping
}.

Definition no_mappings : Mappings := mkMappings [] [] [].

Section service.
  Context `{Env}.

(** ** Resolution *)

(** [GroupMappingService.getCachedResolution] *)
Definition getCachedResolution (tenantID : uuid) (stale : bool) : M (option Mappings) :=
  if negb has_cache then retM None
  else
    let keys := if stale
                then [cacheKeyGDMStale tenantID; cacheKeyGRMStale tenantID; cacheKeyGTRMStale tenantID]
                else [cacheKeyGDM tenantID; cacheKeyGRM tenantID; cacheKeyGTRM tenantID] in
    let! raw := cache_MGet keys in
    retM (match raw with
          | Some [Some (CGroupDepts dm); Some (CGroupDeptRoles dr); Some (CGroupTenantRoles tr)] =>
              Some (mkMappings dm dr tr)
          | _ => None
          end).

(** [GroupMappingService.setCachedResolution] *)
Definition setCachedResolution (tenantID : uuid) (m : Mappings) : M unit :=
  if negb has_cache then retM tt
  else
    cache_Set (cacheKeyGDM tenantID) (CGroupDepts (mm_depts m)) ;;
    cache_Set (cacheKeyGRM tenantID) (CGroupDeptRoles (mm_deptRoles m)) ;;
    cache_Set (cacheKeyGTRM tenantID) (CGroupTenantRoles (mm_tenantRoles m)) ;;
    cache_Set (cacheKeyGDMStale tenantID) (CGroupDepts (mm_depts m)) ;;
    cache_Set (cacheKeyGRMStale tenantID) (CGroupDeptRoles (mm_deptRoles m)) ;;
    cache_Set (cacheKeyGTRMStale tenantID) (CGroupTenantRoles (mm_tenantRoles m)).

(** The conversion of the service's answer. *)
Definition mappings_of (tenantID : uuid) (res : GroupResolution) : Mappings :=
  mkMappings (List.map (λ e, mkGroupDeptMapping tenantID (fst e) (snd e)) (gr_DeptMappings res))
             (List.map (λ e, mkGroupDeptRoleMapping tenantID (fst e) (snd e)) (gr_DeptRoleMappings res))
             (List.map (λ e, mkGroupTenantRoleMapping tenantID (fst e) (snd e)) (gr_TenantRoleMappings res)).

(** [GroupMappingService.resolveMappings] *)
Definition resolveMappings (tenantID : uuid) (groupNames : list string) : M Mappings :=
  let! cached := getCachedResolution tenantID false in
  match cached with
  | Some m => retM m
  | None =>
      if negb has_groupMapping then retM no_mappings
      else
        let! r := call (CallResolveGroups tenantID groupNames) (λ n, gm_ResolveGroups n tenantID groupNames) in
        match r with
        | Err _ =>
            let! stale := getCachedResolution tenantID true in
            retM (default no_mappings stale)
        | Ok res =>
            let m := mappings_of tenantID res in
            setCachedResolution tenantID m ;;
            retM m
        end
  end.

(** ** What the groups imply *)

(** The levels of one mapped department: those the same group carries. *)
Definition levels_of (groupNames : list string) (drs : list GroupDeptRoleMapping) (dm : GroupDeptMapping)
  : list (uuid * DeptRole) :=
  if contains (gd_KeycloakGroupName dm) groupNames then
    List.map (λ dr, (gd_DepartmentID dm, gdr_RoleCode dr))
      (select (λ dr, contains (gdr_KeycloakGroupName dr) groupNames
                     && String.eqb (gd_KeycloakGroupName dm) (gdr_KeycloakGroupName dr)) drs)
  else [].

(** Keep the first of equal elements. *)
Definition dedup {A} `{EqDecision A} (l : list A) : list A :=
  List.fold_left (λ acc x, if contains x acc then acc else acc ++ [x]) l [].

(** The (department, level) pairs, in the order of the mappings. *)
Definition dept_roles (groupNames : list string) (m : Mappings) : list (uuid * DeptRole) :=
  dedup (List.flat_map (levels_of groupNames (mm_deptRoles m)) (mm_depts m)).

(** The keys of [tenantRoleDedup]. *)
Definition tenant_roles_of (groupNames : list string) (m : Mappings) : list TenantRoleCode :=
  dedup (List.map gtr_RoleCode
    (select (λ tr, contains (gtr_KeycloakGroupName tr) groupNames && negb (gtr_RoleCode tr ==? RoleMember))
            (mm_tenantRoles m))).

(** ** Applying it *)

(** An event of the JIT flow: the actor is iam-system. *)
Definition jit_event (type : string) (tenantID userID : uuid) (data : EventPayload) : DomainEvent :=
  {| ev_Type := type; ev_TenantID := tenantID; ev_Subject := uuid_String userID; ev_Actor := "iam-system";
     ev_Data := data; ev_IPAddress := ""; ev_UserAgent := "" |}.

(** Granted, level changed, or nothing (TRG-3). *)
Definition jit_dept_event (tenantID userID : uuid) (assigned : DeptMembership) (previous : option DeptMembership)
  : option DomainEvent :=
  match previous with
  | None => Some (jit_event EventDepartmentMembershipGranted tenantID userID
                    (DepartmentMembershipGrantedPayload userID tenantID (dm_DepartmentID assigned)
                       (dm_RoleLevel assigned) uuid_Nil))
  | Some p =>
      if dm_RoleLevel p ==? dm_RoleLevel assigned then None
      else Some (jit_event EventDepartmentMembershipLevelChanged tenantID userID
                   (DepartmentMembershipLevelChangedPayload userID tenantID (dm_DepartmentID assigned)
                      (dm_RoleLevel p) (dm_RoleLevel assigned) uuid_Nil))
  end.

(** One (department, level) pair; [assignedDepts] is captured. *)
Definition jit_dept (tenantID userID membershipID : uuid) (assignedDepts : list uuid) (dr : uuid * DeptRole)
  : M (list uuid) :=
  let! (assigned, previous) := DeptMembershipRepo.Assign tenantID userID (fst dr) membershipID (snd dr) uuid_Nil in
  (match jit_dept_event tenantID userID assigned previous with
   | Some ev => publish ev
   | None => retM tt
   end) ;;
  retM (assignedDepts ++ [dm_DepartmentID assigned]).

(** One tenant role not yet held; [granted] is captured. *)
Definition jit_role (tenantID userID membershipID : uuid) (held : list TenantRoleCode)
    (granted : list TenantRoleCode) (code : TenantRoleCode) : M (list TenantRoleCode) :=
  if contains code held then retM granted
  else
    let! tr := RoleRepo.Grant uuid_Nil tenantID userID membershipID code uuid_Nil in
    publish (jit_event EventTenantRoleGranted tenantID userID
               (TenantRoleGrantedPayload userID tenantID (tr_RoleCode tr) uuid_Nil)) ;;
    retM (granted ++ [tr_RoleCode tr]).

(** The transaction; the closure appends to the captured result. *)
Definition jit_tx (tenantID userID membershipID : uuid) (deptRoles : list (uuid * DeptRole))
    (roles : list TenantRoleCode) (res : JITResult) : M (JITResult * unit) :=
  let! depts := for_fold deptRoles (jit_AssignedDepts res) (jit_dept tenantID userID membershipID) in
  let! existing := RoleRepo.ListByUser tenantID userID in
  let held := List.map tr_RoleCode existing in
  let! codes := map_range roles in
  let! granted := for_fold codes (jit_GrantedTenantRoles res) (jit_role tenantID userID membershipID held) in
  retM (mkJITResult depts granted, tt).

(** [GroupMappingService.AssignFromGroups] *)
Definition AssignFromGroups (tenantID userID : uuid) (groupNames : list string) : M JITResult :=
  match groupNames with
  | [] => retM (mkJITResult [] [])
  | _ =>
      let! m := resolveMappings tenantID groupNames in
      let! mem := MembershipRepo.FindByUserID tenantID userID in
      let! r := RunInTx_captured (mkJITResult [] [])
                  (jit_tx tenantID userID (tm_ID mem) (dept_roles groupNames m) (tenant_roles_of groupNames m)) in
      evict [cacheKeyMembers50 tenantID; cacheKeySeatUsage tenantID; cacheKeyMemberships tenantID userID] ;;
      retM r.1
  end.

End service.
