(* ===== verification/CatalogConsumer.v ===== *)
(** * CatalogConsumer: catalog changes

    [internal/adapter/inbound/consumer/catalog_consumer.go]: a department change
    clears the cached departments; a plan change clears the cached plans and
    gives the plan a new generation, which retires every cached projection of
    its tenants (CACHE-11). *)

From S2P Require Import Prelude Domain Schema Tx Wp EventStores CacheKeys Consumer ProvisioningService.
From S2P Require Import TenantService AuthzService.

Definition catalogConsumerName : string := "catalog".
Definition eventDepartmentCatalogChanged : string := "DepartmentCatalogChanged".
Definition eventPlanCatalogChanged : string := "PlanCatalogChanged".

(** [planCatalogChangedPayload.Code]; a payload that does not decode leaves it
    empty. *)
Definition plan_code (env : Envelope) : string :=
  match members (env_Payload env) with
  | Ok l => match decode_field "code" read_string "" l with Ok c => c | Err _ => "" end
  | Err _ => ""
  end.

(** [CatalogConsumer.affectedPlans] *)
Definition affectedPlans (env : Envelope) : list TenantPlan :=
  match List.find (λ p, String.eqb (plan_text p) (plan_code env)) KnownPlans with
  | Some p => [p]
  | None => KnownPlans
  end.

Section consumer.
  Context `{Env} `{InboxStore}.

Definition cache_error : error := EPlain "cache unavailable".

(** [CatalogConsumer.clearDepartments] *)
Definition clearDepartments : M unit := cache_Delete ["om:departments"; "om:departments:stale"].

(** The closure of [handlePlanChanged]. *)
Definition plan_changed (env : Envelope) : M unit :=
  let! up := try_cache_Delete ["om:plans"; "om:plans:stale"] in
  throw_if (negb up) (EWrap "catalog consumer: clear om:plans" cache_error) ;;
  for_each (affectedPlans env) (λ p,
    let! up := try_cache_Set (PlanGenerationKey p) (CBytes (env_ID env)) in
    throw_if (negb up) (EWrap ("catalog consumer: bump " +:+ PlanGenerationKey p) cache_error)).

(** [CatalogConsumer.handlePlanChanged] *)
Definition handlePlanChanged (env : Envelope) : M unit :=
  processOnce catalogConsumerName env (plan_changed env) ;; retM tt.

(** [CatalogConsumer.Handle] *)
Definition Handle (env : Envelope) : M unit :=
  if negb (String.eqb (env_Type env) eventDepartmentCatalogChanged
           || String.eqb (env_Type env) eventPlanCatalogChanged)
  then ackUnknown catalogConsumerName env
  else match uuid_Parse (env_ID env) with
       | None => throw (EPlain "catalog consumer: invalid event id")
       | Some eventID =>
           throw_if (eventID =? uuid_Nil) (EPlain "catalog consumer: invalid event id") ;;
           if String.eqb (env_Type env) eventPlanCatalogChanged then handlePlanChanged env
           else clearDepartments
       end.

End consumer.
