(* ===== verification/Jobs.v ===== *)
(** * Jobs: the reconciler's sweeps

    [cmd/reconciler/jobs]: the nine CronJob bodies and the registry of
    [cmd/reconciler/main.go].  A job is [M Result]: its only caller, [run],
    reads the result of a job that returned no error.  The rows of one sweep
    fail one by one and are counted.  Logging and metrics are not modelled, nor are
    the row-level-security settings put in the context. *)

From S2P Require Import Prelude Domain Schema Json Tx Wp TenantRepo InvitationRepo EventStores ReadModels Consumer.

(** [Result] *)
Record Result : Type := mkResult {
  r_Attempted : Z;
  r_Succeeded : Z;
  r_Failed : Z;
  r_Skipped : Z
}.

Definition no_result : Result := mkResult 0 0 0 0.
Definition count_ok (r : Result) : Result :=
  mkResult (r_Attempted r + 1) (r_Succeeded r + 1) (r_Failed r) (r_Skipped r).
Definition count_failed (r : Result) : Result :=
  mkResult (r_Attempted r + 1) (r_Succeeded r) (r_Failed r + 1) (r_Skipped r).
Definition count_skipped (r : Result) : Result :=
  mkResult (r_Attempted r + 1) (r_Succeeded r) (r_Failed r) (r_Skipped r + 1).
Definition count_rows (n : Z) (r : Result) : Result :=
  mkResult (r_Attempted r + n) (r_Succeeded r + n) (r_Failed r) (r_Skipped r).

(** [Context]: the collaborators that may be missing (platform-events' outbox
    runner and inbox, the replayer, the ledger), what [ctx.Err()] answers, and
    the settings. *)
Record Context : Type := mkContext {
  jc_OutboxRunner : option (Z → nat → M Z);            (* PrunePublished olderThan limit *)
  jc_Inbox : option (string → Z → nat → M Z);          (* Prune consumer retention batch *)
  jc_InboxConsumers : list string;
  jc_ParkedReplayer : option (uuid → M Z);
  jc_TrialLedger : bool;
  jc_ctxErr : M (option error);
  jc_BatchLimit : nat;
  jc_TrialGraceDays : Z;
  jc_OutboxRetentionDays : Z;
  jc_ProcessedEventsTTLDays : Z;
  jc_TrialLedgerRetentionDays : Z
}.

Definition cronIPAddress : string := "system".
Definition cronUserAgent (job : string) : string := "iam-org-membership/" +:+ job +:+ "-cron".

(** [for _, t := range targets { res.Attempted++; if err := step(t); err != nil
    { res.Failed++; continue }; res.Succeeded++ }] *)
Definition sweep {A} (targets : list A) (step : A → M unit) : M Result :=
  for_fold targets no_result (λ res t,
    let! r := tryM (step t) in
    retM (match r with Ok _ => count_ok res | Err _ => count_failed res end)).

Section jobs.
  Context `{Env} (jctx : Context).

(** ** Invitations *)

(** [auditInvitationExpiredBatch]: one entry a run, its key the minute. *)
Definition auditInvitationExpiredBatch (count : Z) : M unit :=
  let! now := time_Now in
  go_WriteEntry
    {| aw_IdempotencyKey := "invitation.expired:batch:" +:+ minute_text now;
       aw_TenantID := uuid_Nil; aw_EntryType := "invitation.expired"; aw_Action := "expire";
       aw_Actor := mkAuditActor "iam_system" "iam-system" ""; aw_Target := None; aw_OccurredAt := now;
       aw_SourceService := "iam-org-membership"; aw_SourceEventType := "InvitationExpiredBatch";
       aw_IPAddress := cronIPAddress; aw_UserAgent := cronUserAgent "invitation-expiry";
       aw_Metadata := {[ "count"%string := JNum count ]} |}.

(** [InvitationExpiry] *)
Definition InvitationExpiry : M Result :=
  let! n := ExpireOverdue (jc_BatchLimit jctx) in
  (if (0 <? n) && has_audit then auditInvitationExpiredBatch n else retM tt) ;;
  retM (count_rows n no_result).

(** One row of [InvitationKCCleanup]. *)
Definition kc_cleanup (res : Result) (t : PendingInvitation) : M Result :=
  match pi_KeycloakUserID t with
  | None =>
      let! r := tryM (ClearKCCleanupPendingByID (pi_ID t)) in
      retM (match r with Ok _ => count_skipped res | Err _ => count_failed res end)
  | Some kc =>
      let! del := call (CallDeleteUser (pi_TenantID t) kc) (λ n, rp_DeleteUser n (pi_TenantID t) kc) in
      match del with
      | Err _ => retM (count_failed res)
      | Ok _ =>
          let! r := tryM (ClearKCCleanupPendingByID (pi_ID t)) in
          retM (match r with Ok _ => count_ok res | Err _ => count_failed res end)
      end
  end.

(** [InvitationKCCleanup] *)
Definition InvitationKCCleanup : M Result :=
  let! targets := ListPendingKCCleanup (jc_BatchLimit jctx) in
  for_fold targets no_result kc_cleanup.

(** ** Realm settings *)

(** One row of [RealmConfigSync]. *)
Definition realm_sync (t : RealmSyncCandidate) : M unit :=
  let! r := call (CallPatchRealmConfig (rsc_TenantID t) (Some (rsc_LocalAccountsEnabled t)))
                 (λ n, rp_PatchRealmConfig n (rsc_TenantID t) (Some (rsc_LocalAccountsEnabled t))) in
  match r with
  | Err e => throw e
  | Ok _ => ClearRealmSyncPending (rsc_TenantID t)
  end.

(** [RealmConfigSync] *)
Definition RealmConfigSync : M Result :=
  let! targets := ListRealmSyncPending (jc_BatchLimit jctx) in
  sweep targets realm_sync.

(** ** Seats *)

Definition cron_event (job type : string) (tenantID : uuid) (data : EventPayload) : DomainEvent :=
  {| ev_Type := type; ev_TenantID := tenantID; ev_Subject := uuid_String tenantID; ev_Actor := "iam-system";
     ev_Data := data; ev_IPAddress := cronIPAddress; ev_UserAgent := cronUserAgent job |}.

Definition overage_started (tenantID : uuid) (occ : SeatOccupancy) (now : time) : DomainEvent :=
  cron_event "seat-overage-reconcile" EventTenantSeatOverageStarted tenantID
    (TenantSeatOverageStartedPayload tenantID (so_LicensedSeats occ) (so_Active occ) (so_Pending occ) now).

Definition overage_resolved (tenantID : uuid) (now : time) : DomainEvent :=
  cron_event "seat-overage-reconcile" EventTenantSeatOverageResolved tenantID
    (TenantSeatOverageResolvedPayload tenantID now).

(** The transaction of [reconcileOneTenant]. *)
Definition overage_tx (tenantID : uuid) : M unit :=
  let! occ := LockSeatOccupancy tenantID in
  match so_LicensedSeats occ <? so_Active occ + so_Pending occ, so_OverageSince occ with
  | true, None =>
      let! now := time_Now in
      SetOverageSince tenantID (Some now) ;;
      publish (overage_started tenantID occ now)
  | false, Some _ =>
      let! now := time_Now in
      SetOverageSince tenantID None ;;
      publish (overage_resolved tenantID now)
  | _, _ => retM tt
  end.

(** [reconcileOneTenant] *)
Definition reconcileOneTenant (tenantID : uuid) : M unit := RunInTx (overage_tx tenantID).

(** [SeatOverageReconcile] *)
Definition SeatOverageReconcile : M Result :=
  let! candidates := ListSeatOverageCandidates (jc_BatchLimit jctx) in
  sweep candidates reconcileOneTenant.

(** ** Trials *)

(** [deleteOneTrial] *)
Definition deleteOneTrial (tenantID : uuid) : M unit :=
  RunInTx (
    HardDeleteTenant tenantID ;;
    publish (cron_event "trial-cleanup" EventTenantMembershipsPurged tenantID
               (TenantMembershipsPurgedPayload tenantID SystemActorID))).

(** [TrialCleanup] *)
Definition TrialCleanup : M Result :=
  let! candidates := ListExpiredTrialTenants (jc_TrialGraceDays jctx) (jc_BatchLimit jctx) in
  sweep candidates deleteOneTrial.

(** ** Parked events *)

(** [ParkedEventsReplay] *)
Definition ParkedEventsReplay : M Result :=
  match jc_ParkedReplayer jctx with
  | None => retM no_result
  | Some replay =>
      let! tenantIDs := wrapM "list tenants with parked events"
                          (ListTenantsWithParkedEvents (jc_BatchLimit jctx)) in
      sweep tenantIDs (λ id, replay id ;; retM tt)
  end.

(** ** Pruning *)

Definition defaultPruneBatchLimit : nat := 500.
Definition defaultTrialLedgerRetentionDays : Z := 730.

Definition prune_limit : nat := match jc_BatchLimit jctx with O => defaultPruneBatchLimit | n => n end.

(** [for { n, err := prune(); ...; if n < limit { break }; if err := check();
    err != nil { return } }]: [None] when [fuel] batches were not enough. *)
Fixpoint prune_until (fuel : nat) (prune : M Z) (limit : nat) (check : M (option error)) (res : Result)
  : M (option Result) :=
  match fuel with
  | O => retM None
  | S fuel' =>
      let! n := prune in
      let res := count_rows n res in
      if n <? Z.of_nat limit then retM (Some res)
      else
        let! e := check in
        match e with
        | Some e => throw e
        | None => prune_until fuel' prune limit check res
        end
  end.

(** [OutboxPrune] *)
Definition OutboxPrune (fuel : nat) : M (option Result) :=
  match jc_OutboxRunner jctx with
  | None => retM (Some no_result)
  | Some prunePublished =>
      let retentionDays := if jc_OutboxRetentionDays jctx <=? 0 then 8 else jc_OutboxRetentionDays jctx in
      prune_until fuel (prunePublished (retentionDays * day) prune_limit) prune_limit (jc_ctxErr jctx) no_result
  end.

(** [ProcessedEventsPrune] *)
Definition ProcessedEventsPrune : M Result :=
  match jc_Inbox jctx with
  | None => retM no_result
  | Some prune =>
      let ttlDays := if jc_ProcessedEventsTTLDays jctx <=? 0 then 8 else jc_ProcessedEventsTTLDays jctx in
      for_fold (jc_InboxConsumers jctx) no_result (λ res consumer,
        let! n := prune consumer (ttlDays * day) (jc_BatchLimit jctx) in
        retM (count_rows n res))
  end.

(** [TrialLedgerPrune] *)
Definition TrialLedgerPrune (fuel : nat) : M (option Result) :=
  if negb (jc_TrialLedger jctx) then retM (Some no_result)
  else
    let days := if jc_TrialLedgerRetentionDays jctx <=? 0 then defaultTrialLedgerRetentionDays
                else jc_TrialLedgerRetentionDays jctx in
    let! now := time_Now in
    prune_until fuel (PruneCreatedBefore (now - days * day) prune_limit) prune_limit (retM None) no_result.

(** ** The registry *)

Definition some_result (m : M Result) : M (option Result) := let! r := m in retM (Some r).

Definition registry (fuel : nat) (job : string) : option (M (option Result)) :=
  if String.eqb job "invitation-expiry" then Some (some_result InvitationExpiry)
  else if String.eqb job "invitation-kc-cleanup" then Some (some_result InvitationKCCleanup)
  else if String.eqb job "realm-config-sync" then Some (some_result RealmConfigSync)
  else if String.eqb job "seat-overage-reconcile" then Some (some_result SeatOverageReconcile)
  else if String.eqb job "trial-cleanup" then Some (some_result TrialCleanup)
  else if String.eqb job "outbox-prune" then Some (OutboxPrune fuel)
  else if String.eqb job "processed-events-prune" then Some (some_result ProcessedEventsPrune)
  else if String.eqb job "parked-events-replay" then Some (some_result ParkedEventsReplay)
  else if String.eqb job "trial-ledger-prune" then Some (TrialLedgerPrune fuel)
  else None.

End jobs.
