(* ===== verification/EventBus.v ===== *)
(** * EventBus: the wire format and the two topics

    [internal/adapter/outbound/eventbus]: the Glue header and the schema names
    of [glue_codec.go], [codec.go], and the routing of published envelopes of
    [routing_publisher.go].  A byte string is a list of byte values.  The AWS
    client, [json.Compact] and the publishers behind the topics are
    parameters. *)

From S2P Require Import Prelude Utf8 Domain Schema Tx.

Abbreviation bytes := (list N).

(** ** [GlueCodec] *)

Definition glueHeaderVersion : N := 3.
Definition glueNoCompression : N := 0.
Definition glueHeaderSize : nat := 18.

(** [id[:]]: the sixteen bytes of a uuid, most significant first. *)
Definition uuid_bytes (u : uuid) : bytes :=
  List.map (λ i : nat, Z.to_N (Z.shiftr u (8 * (15 - Z.of_nat i)) mod 256)) (List.seq 0 16).

Section codec.
  Context `{Env}.

(** [prependGlueHeader] *)
Definition prependGlueHeader (schemaVersionID : string) (payload : bytes) : result error bytes :=
  match uuid_Parse schemaVersionID with
  | None => Err (EWrap "parse schema version UUID" (EPlain "invalid UUID"))
  | Some id => Ok ([glueHeaderVersion; glueNoCompression] ++ uuid_bytes id ++ payload)
  end.

(** [stripGlueHeader] *)
Definition stripGlueHeader (encoded : bytes) : result error bytes :=
  if Nat.ltb (length encoded) glueHeaderSize then Err (EPlain "glue codec: encoded payload is too short")
  else match encoded with
       | b0 :: _ => if negb (N.eqb b0 glueHeaderVersion)
                    then Err (EPlain "glue codec: unexpected header version byte")
                    else Ok (drop glueHeaderSize encoded)
       | [] => Err (EPlain "glue codec: encoded payload is too short")
       end.

(** ** Schema names *)

Definition schemaFileNames : list (string * string) :=
  [("department_catalog_changed.json", "DepartmentCatalogChanged");
   ("plan_catalog_changed.json", "PlanCatalogChanged");
   ("department_membership_granted.json", EventDepartmentMembershipGranted);
   ("department_membership_level_changed.json", EventDepartmentMembershipLevelChanged);
   ("department_membership_revoked.json", EventDepartmentMembershipRevoked);
   ("direct_paid_signup.json", "DirectPaidSignup");
   ("membership_revoked.json", EventMembershipRevoked);
   ("mfa_reset.json", EventMFAReset);
   ("tenant_converted.json", "TenantConverted");
   ("tenant_created.json", EventTenantCreated);
   ("tenant_identity_provisioned.json", "TenantIdentityProvisioned");
   ("tenant_setting_changed.json", EventTenantSettingChanged);
   ("tenant_memberships_purged.json", EventTenantMembershipsPurged);
   ("tenant_offboarded.json", "TenantOffboarded");
   ("tenant_payment_past_due.json", "TenantPaymentPastDue");
   ("tenant_plan_changed.json", "TenantPlanChanged");
   ("tenant_reactivated.json", "TenantReactivated");
   ("tenant_realm_ready.json", "TenantRealmReady");
   ("tenant_role_granted.json", EventTenantRoleGranted);
   ("tenant_role_revoked.json", EventTenantRoleRevoked);
   ("tenant_seat_overage_resolved.json", EventTenantSeatOverageResolved);
   ("tenant_seat_overage_started.json", EventTenantSeatOverageStarted);
   ("tenant_seats_changed.json", "TenantSeatsChanged");
   ("tenant_state_changed.json", EventTenantStateChanged);
   ("tenant_subscription_cancelled.json", "TenantSubscriptionCancelled");
   ("tenant_suspended.json", "TenantSuspended");
   ("tender_assignee_overridden.json", EventTenderAssigneeOverridden);
   ("trial_expired.json", "TrialExpired");
   ("trial_reactivated.json", "TrialReactivated");
   ("trial_started.json", EventTrialStarted)].

(** [strings.HasSuffix] and [strings.TrimSuffix] *)
Definition has_suffix (s suffix : string) : bool :=
  Nat.leb (String.length suffix) (String.length s)
  && String.eqb (String.substring (String.length s - String.length suffix) (String.length suffix) s) suffix.
Definition trim_suffix (s suffix : string) : string :=
  if has_suffix s suffix then String.substring 0 (String.length s - String.length suffix) s else s.

(** [eventTypeFromSchemaFile] *)
Definition eventTypeFromSchemaFile (filename : string) : string :=
  match List.find (λ e : string * string, String.eqb (fst e) filename) schemaFileNames with
  | Some (_, name) => name
  | None => trim_suffix filename ".json"
  end.

(** An entry of the schema directory: its name, whether it is a directory and
    what reading it gives. *)
Record DirEntry : Type := mkDirEntry {
  de_Name : string;
  de_IsDir : bool;
  de_Read : result error bytes
}.

Definition is_schema_file (e : DirEntry) : bool := negb (de_IsDir e) && has_suffix (de_Name e) ".json".

(** [allSchemaNamesFromFS]; the directory itself may be unreadable. *)
Definition allSchemaNamesFromFS (schemas : result error (list DirEntry)) : result error (list string) :=
  match schemas with
  | Err e => Err e
  | Ok entries => Ok (List.map (λ e, eventTypeFromSchemaFile (de_Name e)) (select is_schema_file entries))
  end.

(** [AllSchemaNames], over the embedded directory. *)
Definition AllSchemaNames (schemasFS : result error (list DirEntry)) : result error (list string) :=
  match allSchemaNamesFromFS schemasFS with
  | Err e => Err e
  | Ok names => Ok (select IsProducedEvent names)
  end.

(** ** [asciiEscape] *)

(** [fmt.Fprintf("%04x")] of a value below 65536. *)
Definition hex_digit (d : N) : N := if N.ltb d 10 then 48 + d else 87 + d.
Definition hex4 (r : N) : bytes :=
  [hex_digit (N.land (N.shiftr r 12) 15); hex_digit (N.land (N.shiftr r 8) 15);
   hex_digit (N.land (N.shiftr r 4) 15); hex_digit (N.land r 15)].

(** [\u] and four digits. *)
Definition unicode_escape (r : N) : bytes := [92; 117]%N ++ hex4 r.

Definition escape_rune (r : N) : bytes :=
  if N.ltb r 128 then [r]
  else if N.ltb 65535 r then
    let r := (r - 65536)%N in
    unicode_escape (55296 + N.shiftr r 10) ++ unicode_escape (56320 + N.land r 1023)
  else unicode_escape r.

(** The loop of [asciiEscape]; the input's length is fuel enough, a rune takes
    at least one byte. *)
Fixpoint ascii_escape (fuel : nat) (b : bytes) : bytes :=
  match fuel, b with
  | S fuel', _ :: _ => let '(r, size) := DecodeRune b in escape_rune r ++ ascii_escape fuel' (drop size b)
  | _, _ => []
  end.

(** [asciiEscape] *)
Definition asciiEscape (b : bytes) : bytes := ascii_escape (length b) b.

(** ** The version of a schema *)

(** [glue.GetSchemaByDefinition]'s answer: the version, if any, and whether it
    is AVAILABLE. *)
Record GlueSchema : Type := mkGlueSchema {
  gs_SchemaVersionId : option string;
  gs_Available : bool
}.

Section versions.
  Context (json_Compact : bytes → result error bytes)
          (client_GetSchemaByDefinition : string → bytes → result error GlueSchema)
          (schemas : result error (list DirEntry)).

(** [registeredDefinition] *)
Definition registeredDefinition (schemaName : string) : result error bytes :=
  match schemas with
  | Err e => Err e
  | Ok entries =>
      match List.find (λ e, is_schema_file e && String.eqb (eventTypeFromSchemaFile (de_Name e)) schemaName) entries with
      | None => Err (EPlain ("no embedded schema file for " +:+ schemaName))
      | Some e =>
          match de_Read e with
          | Err err => Err err
          | Ok raw =>
              match json_Compact raw with
              | Err err => Err (EWrap ("compact schema " +:+ de_Name e) err)
              | Ok compact => Ok (asciiEscape compact)
              end
          end
      end
  end.

(** [GlueCodec.fetchVersionID] *)
Definition fetchVersionID (schemaName : string) : result error string :=
  match registeredDefinition schemaName with
  | Err e => Err e
  | Ok definition =>
      match client_GetSchemaByDefinition schemaName definition with
      | Err e => Err e
      | Ok out =>
          match gs_SchemaVersionId out with
          | None => Err (EPlain ("nil SchemaVersionId for schema " +:+ schemaName))
          | Some id => if gs_Available out then Ok id
                       else Err (EPlain ("schema " +:+ schemaName +:+ " is not AVAILABLE"))
          end
      end
  end.

(** [GlueCodec.versionCache]: schema name to version. *)
Abbreviation VersionCache := (gmap string string).

(** [newGlueCodecFromFS]: every name must resolve. *)
Fixpoint newGlueCodecFromFS (schemaNames : list string) (cache : VersionCache) : result error VersionCache :=
  match schemaNames with
  | [] => Ok cache
  | name :: names =>
      match fetchVersionID name with
      | Err e => Err (EWrap ("resolve glue schema " +:+ name) e)
      | Ok id => newGlueCodecFromFS names (<[name := id]> cache)
      end
  end.

(** [GlueCodec.versionID]: the cached version, else the registry's, which is
    cached. *)
Definition versionID (schemaName : string) (cache : VersionCache) : result error string * VersionCache :=
  match cache !! schemaName with
  | Some id => (Ok id, cache)
  | None =>
      match fetchVersionID schemaName with
      | Err e => (Err e, cache)
      | Ok id => (Ok id, <[schemaName := id]> cache)
      end
  end.

(** [GlueCodec.Encode] *)
Definition Encode (schemaName : string) (payload : bytes) (cache : VersionCache)
  : result error (bytes * string) * VersionCache :=
  let '(r, cache') := versionID schemaName cache in
  match r with
  | Err e => (Err (EWrap ("get glue schema version " +:+ schemaName) e), cache')
  | Ok versionID =>
      match prependGlueHeader versionID payload with
      | Err e => (Err e, cache')
      | Ok out => (Ok (out, versionID), cache')
      end
  end.

(** [GlueCodec.Decode] *)
Definition Decode (schemaID : string) (encoded : bytes) : result error bytes := stripGlueHeader encoded.

End versions.
End codec.

(** [NoopCodec.Encode] *)
Definition NoopEncode (schemaName : string) (payload : bytes) : result error (bytes * string) := Ok (payload, "").

(** ** [Publisher]: envelopes and their order *)

(** The envelope [Enqueue] builds, without the id and the time the library
    adds.  An option that is not set is absent. *)
Record OutboxEnvelope : Type := mkOutboxEnvelope {
  oe_Type : string;
  oe_Source : string;
  oe_TenantID : string;
  oe_Subject : string;
  oe_Actor : string;
  oe_SchemaVersion : string;
  oe_IPAddress : option string;
  oe_UserAgent : option string;
  oe_TraceID : option string;
  oe_CorrelationID : option string;
  oe_Payload : EventPayload
}.

Definition EventSource : string := "iam-org-membership".

Definition if_set (s : string) : option string := if String.eqb s "" then None else Some s.

(** The envelope of an event; [span] are the trace and span ids of the context. *)
Definition envelope_of `{Env} (span : string * string) (ev : DomainEvent) : OutboxEnvelope :=
  {| oe_Type := ev_Type ev; oe_Source := EventSource; oe_TenantID := uuid_String (ev_TenantID ev);
     oe_Subject := ev_Subject ev; oe_Actor := ev_Actor ev; oe_SchemaVersion := "1";
     oe_IPAddress := if_set (ev_IPAddress ev); oe_UserAgent := if_set (ev_UserAgent ev);
     oe_TraceID := if_set (fst span);
     oe_CorrelationID := if String.eqb (fst span) "" then None else Some (snd span);
     oe_Payload := ev_Data ev |}.

(** [orderingKey] *)
Definition orderingKey (env : OutboxEnvelope) : string :=
  if String.eqb (oe_Subject env) "" then "" else oe_TenantID env +:+ "/" +:+ oe_Subject env.

(** [enqueue]; the advisory lock and the two inserts are parameters. *)
Definition enqueue (advisory_lock : string → M unit) (outbox_Enqueue : OutboxEnvelope → M unit)
    (outbox_EnqueueOrdered : OutboxEnvelope → string → M unit) (env : OutboxEnvelope) : M unit :=
  let key := orderingKey env in
  if String.eqb key "" then outbox_Enqueue env
  else
    let! r := tryM (advisory_lock ("outbox-order:" +:+ key)) in
    match r with
    | Err e => throw (EWrap "lock ordering key" e)
    | Ok _ => outbox_EnqueueOrdered env key
    end.

(** ** [RoutingPublisher] *)

(** [events.BatchFailure] *)
Record BatchFailure : Type := mkBatchFailure {
  bf_ID : string;
  bf_Code : string;
  bf_Message : string;
  bf_Retryable : bool
}.

(** What a publisher answers: an [events.BatchError], or another error with its
    text and whether it is one of the transient ones. *)
Inductive publish_error : Type :=
| BatchError (failures : list BatchFailure)
| LaneError (message : string) (retryable : bool).

(** [events.Publisher]; [None] of an answer is a nil error. *)
Record Publisher : Type := mkPublisher {
  pub_Publish : Envelope → option publish_error;
  pub_PublishBatch : list Envelope → option publish_error
}.

Record RoutingPublisher : Type := mkRoutingPublisher {
  rp_membership : option Publisher;
  rp_tenant : option Publisher
}.

(** [RoutingPublisher.pubForType] *)
Definition pubForType (r : RoutingPublisher) (eventType : string) : option Publisher * string :=
  let topic := TopicForEvent eventType in
  (if String.eqb topic TopicTenant then rp_tenant r else rp_membership r, topic).

(** [RoutingPublisher.Publish] *)
Definition Publish (r : RoutingPublisher) (env : Envelope) : option publish_error :=
  match pubForType r (env_Type env) with
  | (None, topic) => Some (LaneError ("eventbus: no publisher wired for topic " +:+ topic) false)
  | (Some pub, _) => pub_Publish pub env
  end.

(** [publishLane] *)
Definition publishLane (pub : option Publisher) (topic : string) (batch : list Envelope) : option publish_error :=
  match pub with
  | None => Some (LaneError ("eventbus: no publisher wired for topic " +:+ topic) false)
  | Some p => pub_PublishBatch p batch
  end.

(** [appendLaneFailures] *)
Definition appendLaneFailures (failures : list BatchFailure) (batch : list Envelope) (err : option publish_error)
  : list BatchFailure :=
  match err with
  | None => failures
  | Some (BatchError fs) => failures ++ fs
  | Some (LaneError msg retryable) =>
      failures ++ List.map (λ e, mkBatchFailure (env_ID e) "LaneError" msg retryable) batch
  end.

Definition on_tenant_topic (e : Envelope) : bool := String.eqb (TopicForEvent (env_Type e)) TopicTenant.

(** [RoutingPublisher.PublishBatch] *)
Definition PublishBatch (r : RoutingPublisher) (envs : list Envelope) : option publish_error :=
  let membershipBatch := select (λ e, negb (on_tenant_topic e)) envs in
  let tenantBatch := select on_tenant_topic envs in
  match membershipBatch, tenantBatch with
  | [], [] => None
  | _, [] => publishLane (rp_membership r) TopicMembership membershipBatch
  | [], _ => publishLane (rp_tenant r) TopicTenant tenantBatch
  | _, _ =>
      let failures := appendLaneFailures [] membershipBatch
                        (publishLane (rp_membership r) TopicMembership membershipBatch) in
      let failures := appendLaneFailures failures tenantBatch
                        (publishLane (rp_tenant r) TopicTenant tenantBatch) in
      match failures with
      | [] => None
      | _ => Some (BatchError failures)
      end
  end.

(** [NoopPublisher] *)
Definition NoopPublisher : Publisher := mkPublisher (λ _, None) (λ _, None).
