(* ===== verification/Pipeline.v ===== *)
(** * Pipeline: from a queue to a consumer

    [internal/adapter/inbound/sqspipeline] and the validating codec of
    [adapter/outbound/eventbus]: what happens to a delivered message around the
    consumer's own [Handle].  The SQS runner and the publisher behind the
    dead-letter queue are platform-events code; a compiled JSON schema is a
    parameter.  The span of [instrumentedHandler] is not modelled. *)

From S2P Require Import Prelude Domain Schema Tx Consumer EventBus.

(** ** The embedded schemas (validating_codec.go) *)

Definition ErrNoSchema_text : string := "no compiled schema registered for this event type".

Section validating_codec.
  Context (compile : string → bytes → result error (json → result error unit)).

(** [ValidatingCodec.schemas] *)
Definition Schemas : Type := list (string * (json → result error unit)).

(** The loop of [newValidatingCodecFromFS]; a later file of the same event type
    takes the earlier one's place. *)
Fixpoint compile_all (entries : list DirEntry) (schemas : Schemas) : result error Schemas :=
  match entries with
  | [] => Ok schemas
  | e :: entries' =>
      if negb (is_schema_file e) then compile_all entries' schemas
      else match de_Read e with
           | Err err => Err (EWrap ("read schema " +:+ de_Name e) err)
           | Ok data =>
               let name := eventTypeFromSchemaFile (de_Name e) in
               match compile name data with
               | Err err => Err (EWrap ("schema " +:+ de_Name e) err)
               | Ok sch => compile_all entries' ((name, sch) :: schemas)
               end
           end
  end.

(** [newValidatingCodecFromFS]: no directory, no schemas. *)
Definition newValidatingCodecFromFS (dir : result error (list DirEntry)) : result error Schemas :=
  match dir with
  | Err _ => Ok []
  | Ok entries => compile_all entries []
  end.
End validating_codec.

Definition schema_of (schemas : Schemas) (eventType : string) : option (json → result error unit) :=
  snd <$> List.find (λ e : string * (json → result error unit), String.eqb (fst e) eventType) schemas.

(** [ValidatingCodec.Validate]; a payload that is not JSON is [None]. *)
Definition Validate (schemas : Schemas) (eventType : string) (payload : option json) : result error unit :=
  match schema_of schemas eventType with
  | None => Err (EWrap ("validate " +:+ eventType) (EPlain ErrNoSchema_text))
  | Some sch =>
      match payload with
      | None => Err (EWrap ("validate " +:+ eventType) (EPlain "payload is not JSON"))
      | Some doc =>
          match sch doc with
          | Err err => Err (EWrap ("validate " +:+ eventType) err)
          | Ok _ => Ok tt
          end
      end
  end.

(** [ValidatingCodec.Encode] *)
Definition ValidatingEncode {A} (schemas : Schemas) (inner : string → json → result error A)
    (eventType : string) (payload : json) : result error A :=
  match Validate schemas eventType (Some payload) with
  | Err e => Err e
  | Ok _ => inner eventType payload
  end.

(** [consumedValidator] (cmd/server/main.go): an event type without a schema
    passes. *)
Definition consumedValidator (schemas : Schemas) (eventType : string) (payload : option json) : result error unit :=
  match Validate schemas eventType payload with
  | Ok _ => Ok tt
  | Err e => if errors_IsPlain e ErrNoSchema_text then Ok tt else Err e
  end.

(** ** The queue's settings (consumer.go) *)

Definition dlqForwardReceiveCount : Z := 4.
Definition sqsDrainTimeout : Z := 15000000.
Definition sqsHandlerTimeout : Z := 20000000.
Definition sqsQueueDepthInterval : Z := 60000000.

(** [eventcfg.SQSConfigEnv], the fields set here; durations in microseconds. *)
Record SQSConfigEnv : Type := mkSQSConfigEnv {
  sqs_QueueURL : string;
  sqs_Concurrency : Z;
  sqs_MaxReceiveCount : Z;
  sqs_DrainTimeout : Z;
  sqs_HandlerTimeout : Z;
  sqs_QueueDepthInterval : Z
}.

Definition or_default (v d : Z) : Z := if v <=? 0 then d else v.

(** [sqsEnvForQueue] *)
Definition sqsEnvForQueue (base : SQSConfigEnv) (queueURL : string) (concurrency : Z) : SQSConfigEnv :=
  {| sqs_QueueURL := queueURL;
     sqs_Concurrency := if 0 <? concurrency then concurrency else sqs_Concurrency base;
     sqs_MaxReceiveCount := or_default (sqs_MaxReceiveCount base) dlqForwardReceiveCount;
     sqs_DrainTimeout := or_default (sqs_DrainTimeout base) sqsDrainTimeout;
     sqs_HandlerTimeout := or_default (sqs_HandlerTimeout base) sqsHandlerTimeout;
     sqs_QueueDepthInterval := or_default (sqs_QueueDepthInterval base) sqsQueueDepthInterval |}.

(** ** The dead-letter queue (dlq.go) *)

Definition poisonPillReason : string := "future_time_clamp".
Definition schemaViolationReason : string := "schema_violation".
Definition provisioningRejectedReason : string := "provisioning_rejected".

Definition errSchemaViolation_text : string := "consumed event payload violates its embedded schema".
Definition ErrPoisonPill_text : string := "event rejected as poison pill (EVT-15 future-time clamp)".

(** [dlqReason] *)
Definition dlqReason (err : error) : option string :=
  if errors_IsPlain err ErrPoisonPill_text then Some poisonPillReason
  else if errors_IsPlain err errSchemaViolation_text then Some schemaViolationReason
  else if errors_IsPlain err ErrProvisioningRejected_text then Some provisioningRejectedReason
  else None.

(** What [ResolveDLQ] answers: the queue, one of the two configuration errors,
    or another error. *)
Inductive resolved_dlq : Type :=
| DLQResolved (url : string)
| ErrDLQNotConfigured
| ErrDLQInvalidRedrivePolicy
| DLQTransient (e : error).

(** [requireDLQ] *)
Definition requireDLQ (queueURL : string) (answer : resolved_dlq) : result error unit :=
  match answer with
  | DLQResolved _ | DLQTransient _ => Ok tt
  | ErrDLQNotConfigured =>
      Err (EWrap ("queue " +:+ queueURL +:+ " has no usable RedrivePolicy") (EPlain "dlq not configured"))
  | ErrDLQInvalidRedrivePolicy =>
      Err (EWrap ("queue " +:+ queueURL +:+ " has no usable RedrivePolicy") (EPlain "invalid redrive policy"))
  end.

(** [events.SourceMessage]: the delivered message as the transport has it. *)
Record SourceMessage : Type := mkSourceMessage {
  sm_QueueURL : string;
  sm_Body : string;
  sm_Attributes : list (string * string)
}.

(** [events.Handler]; nil acknowledges the message, an error leaves it on the
    queue. *)
Definition EventHandler : Type := Envelope → M unit.

Section pipeline.
  Context (SendToDLQ : nat → SourceMessage → string → result error unit).

(** [routeRejectsToDLQ]; [source] is what the context holds. *)
Definition routeRejectsToDLQ (source : option SourceMessage) (h : EventHandler) : EventHandler := λ env,
  let! r := tryM (h env) in
  match r with
  | Ok _ => retM tt
  | Err err =>
      match dlqReason err with
      | None => throw err
      | Some reason =>
          match source with
          | None => throw err
          | Some src =>
              let! sent := call (CallSendToDLQ (sm_QueueURL src) (sm_Body src) (sm_Attributes src) reason)
                             (λ n, SendToDLQ n src reason) in
              match sent with
              | Err _ => throw err
              | Ok _ => retM tt
              end
          end
      end
  end.

(** [validateConsumed]: the violation wraps its sentinel. *)
Definition validateConsumed (validate : string → option json → result error unit) (h : EventHandler) : EventHandler := λ env,
  match validate (env_Type env) (env_Payload env) with
  | Ok _ => h env
  | Err _ => throw (EWrap "schema" (EPlain errSchemaViolation_text))
  end.

(** [inboundHandler] *)
Definition inboundHandler (validate : string → option json → result error unit) (source : option SourceMessage)
    (h : EventHandler) : EventHandler :=
  routeRejectsToDLQ source (validateConsumed validate h).
End pipeline.
