(* ===== verification/Wire.v ===== *)
(** * Wire: the text forms of the domain's values

    The string constants behind the domain's enums ([internal/core/domain]),
    the conversions [domain.T(s)] of request text, the integers of path and
    query text ([strconv]), and the JSON of timestamps ([time.Time.MarshalJSON])
    and of the values the services return.  A struct is the object of its
    tagged fields in their order; a [gin.H] is a map, whose keys
    [encoding/json] prints in order. *)

From Stdlib Require Import Ascii.
From stdpp Require Import pretty.
From S2P Require Import Prelude Domain Schema Tx Json TenantRepo ProvisioningService TenantService.
From S2P Require Import MembershipService GroupMappingService.

(** ** Enums *)

Definition status_text (s : SubscriptionStatus) : string :=
  match s with
  | StatusTrial => "trial" | StatusActive => "active" | StatusPastDue => "past_due"
  | StatusCancelled => "cancelled" | StatusSuspended => "suspended"
  | StatusTrialExpired => "trial_expired" | StatusOffboarded => "offboarded"
  end.

Definition realm_text (r : RealmType) : string :=
  match r with RealmShared => "shared" | RealmDedicated => "dedicated" | RealmOther s => s end.

Definition RealmType_of_string (s : string) : RealmType :=
  if String.eqb s "shared" then RealmShared
  else if String.eqb s "dedicated" then RealmDedicated else RealmOther s.

Definition ResidencyMode_of_string (s : string) : ResidencyMode :=
  if String.eqb s "standard" then ResidencyModeStandard
  else if String.eqb s "strict" then ResidencyModeStrict else ResidencyOther s.

Definition membership_text (s : MembershipStatus) : string :=
  match s with
  | MembershipActive => "active" | MembershipSuspended => "suspended" | MembershipLeft => "left"
  | MembershipOther s => s
  end.

Definition MembershipStatus_of_string (s : string) : MembershipStatus :=
  if String.eqb s "active" then MembershipActive
  else if String.eqb s "suspended" then MembershipSuspended
  else if String.eqb s "left" then MembershipLeft else MembershipOther s.

Definition role_text (c : TenantRoleCode) : string :=
  match c with
  | RoleTenantOwner => "tenant_owner" | RoleTenantAdmin => "tenant_admin"
  | RoleTenderAdmin => "tender_admin" | RoleMember => "member" | RoleOther s => s
  end.

Definition TenantRoleCode_of_string (s : string) : TenantRoleCode :=
  if String.eqb s "tenant_owner" then RoleTenantOwner
  else if String.eqb s "tenant_admin" then RoleTenantAdmin
  else if String.eqb s "tender_admin" then RoleTenderAdmin
  else if String.eqb s "member" then RoleMember else RoleOther s.

Definition dept_role_text (r : DeptRole) : string :=
  match r with
  | DeptPreparator => "preparator" | DeptReviewer => "reviewer" | DeptApprover => "approver"
  | DeptOther s => s
  end.

Definition DeptRole_of_string (s : string) : DeptRole :=
  if String.eqb s "preparator" then DeptPreparator
  else if String.eqb s "reviewer" then DeptReviewer
  else if String.eqb s "approver" then DeptApprover else DeptOther s.

Definition invitation_text (s : InvitationStatus) : string :=
  match s with
  | InvitePending => "pending" | InviteAccepted => "accepted"
  | InviteExpired => "expired" | InviteRevoked => "revoked"
  end.

Definition eligibility_text (r : EligibilityReason) : string :=
  match r with
  | EligibilityNone => ""
  | EligibilityNotMember => "not_member"
  | EligibilityMemberNotActive => "member_not_active"
  | EligibilityDepartmentNotActive => "department_not_active"
  | EligibilityNotInDepartment => "not_in_department"
  | EligibilityLevelInsufficient => "level_insufficient"
  end.

Definition RemovalAction_of_string (s : string) : RemovalAction :=
  if String.eqb s "replace_delegate" then RemovalReplaceDelegate
  else if String.eqb s "stop_workflows" then RemovalStopWorkflows else RemovalOther s.

(** ** Integers (strconv) *)

Definition digit_value (c : ascii) : option Z :=
  if is_digit c then Some (Z.of_N (N_of_ascii c) - 48) else None.

Fixpoint decimal_from (acc : Z) (s : string) : option Z :=
  match s with
  | EmptyString => Some acc
  | String c s' => match digit_value c with Some d => decimal_from (10 * acc + d) s' | None => None end
  end.

(** The digits of a number: at least one. *)
Definition decimal (s : string) : option Z :=
  match s with EmptyString => None | _ => decimal_from 0 s end.

(** [strconv.ParseInt(s, 10, 64)], and [strconv.Atoi] on a 64-bit machine: an
    optional sign, digits, and the range of an int64. *)
Definition ParseInt (s : string) : option Z :=
  let n := match s with
           | String c s' =>
               if Ascii.eqb c "-"%char then Z.opp <$> decimal s'
               else if Ascii.eqb c "+"%char then decimal s'
               else decimal s
           | EmptyString => None
           end in
  match n with
  | Some n => if (- 2 ^ 63 <=? n) && (n <? 2 ^ 63) then Some n else None
  | None => None
  end.

(** ** JSON of values *)

Section values.
  Context `{Env}.

Definition JUuid (u : uuid) : json := JStr (uuid_String u).
Definition JTime (t : time) : json := JStr (time_text t).

(** A field tagged [omitempty], absent on its type's zero value. *)
Definition omitempty (k : string) (v : option json) : list (string * json) :=
  match v with Some v => [(k, v)] | None => [] end.

Definition nonempty (s : string) : option json := if String.eqb s "" then None else Some (JStr s).

(** [gin.H] *)
Definition gin_H (l : list (string * json)) : json := JObj (isort (λ a b, string_le a.1 b.1) l).

(** A slice that only [append] fills: [nil], printed as null, while empty. *)
Definition JSlice (l : list json) : json := match l with [] => JNull | _ => JArr l end.

Definition DeptMembershipView_json (v : DeptMembershipView) : json :=
  JObj ([("department_id", JUuid (dmv_DepartmentID v))] ++ omitempty "code" (nonempty (dmv_Code v)) ++
        [("role_level", JStr (dept_role_text (dmv_RoleLevel v)))]).

Definition MembershipProjection_json (p : MembershipProjection) : json :=
  JObj [("user_id", JUuid (mp_UserID p)); ("tenant_id", JUuid (mp_TenantID p));
        ("status", JStr (membership_text (mp_Status p))); ("plan", JStr (plan_text (mp_Plan p)));
        ("subscription_status", JStr (status_text (mp_SubscriptionStatus p)));
        ("read_only", JBool (mp_ReadOnly p)); ("default_locale", JStr (mp_Locale p));
        ("mfa_freshness_seconds", JNum (mp_MFAFreshnessSeconds p));
        ("local_accounts_enabled", JBool (mp_LocalAccountsEnabled p));
        ("residency_mode", JStr (residency_text (mp_ResidencyMode p)));
        ("roles", JArr (List.map (λ c, JStr (role_text c)) (mp_Roles p)));
        ("departments", JArr (List.map DeptMembershipView_json (mp_Departments p)));
        ("feature_flags", JArr (List.map JStr (mp_FeatureFlags p)))].

Definition JITResult_json (r : JITResult) : json :=
  JObj [("assigned_depts", JSlice (List.map JUuid (jit_AssignedDepts r)));
        ("granted_tenant_roles", JSlice (List.map (λ c, JStr (role_text c)) (jit_GrantedTenantRoles r)))].

Definition DelegateImpactAdvisory_json (a : DelegateImpactAdvisory) : json :=
  JObj ([("checked", JBool (dia_Checked a))] ++
        omitempty "active_workflows" (if dia_ActiveWorkflows a =? 0 then None else Some (JNum (dia_ActiveWorkflows a))) ++
        omitempty "workflow_ids" (match dia_WorkflowIDs a with [] => None | l => Some (JArr (List.map JUuid l)) end)).

Definition PlanChangeBlocker_json (b : PlanChangeBlocker) : json :=
  JObj [("code", JStr (pcb_Code b)); ("detail", JStr (pcb_Detail b))].

Definition PlanChangeCheckResult_json (r : PlanChangeCheckResult) : json :=
  JObj [("allowed", JBool (pcr_Allowed r)); ("blockers", JArr (List.map PlanChangeBlocker_json (pcr_Blockers r)))].

End values.

(** 2024-02-29T12:34:56.7Z, and Go's zero time. *)
Example time_text_leap : time_text (63844806896700000 ) = "2024-02-29T12:34:56.7Z".
Proof. vm_compute. reflexivity. Qed.

Example time_text_zero : time_text 0 = "0001-01-01T00:00:00Z".
Proof. reflexivity. Qed.
