(* ===== verification/JsonParse.v ===== *)
(** * JsonParse: reading JSON

    [encoding/json]'s reader, on bytes.  A parsed value keeps the raw text of
    its string literals, since a type that unmarshals itself ([time.Time])
    receives the literal as it was written; [unquote] decodes one.  Parsing is
    by recursive descent with fuel: a value is shorter than the bytes it is read
    from, and two units of fuel per byte are enough ([parse_enough]). *)

From Stdlib Require Import Ascii String.
From Stdlib Require List.
From S2P Require Import Prelude Utf8 Domain.
Import ListNotations.
Local Open Scope N_scope.

Definition bytes_of (s : string) : list N := List.map N_of_ascii (list_ascii_of_string s).
Definition string_of (b : list N) : string := string_of_list_ascii (List.map ascii_of_N b).

Inductive jraw : Type :=
| RNull
| RBool (b : bool)
| RNumber (lit : list N)
| RString (raw : list N)
| RArray (l : list jraw)
| RObject (l : list (list N * jraw)).

(** ** Tokens *)

Definition is_ws (c : N) : bool := (c =? 32) || (c =? 9) || (c =? 10) || (c =? 13).

Fixpoint skip_ws (l : list N) : list N :=
  match l with
  | c :: l' => if is_ws c then skip_ws l' else l
  | [] => []
  end.

Definition is_dec (c : N) : bool := (48 <=? c) && (c <=? 57).

Definition hex_value (c : N) : option N :=
  if is_dec c then Some (c - 48)
  else if (97 <=? c) && (c <=? 102) then Some (c - 87)
  else if (65 <=? c) && (c <=? 70) then Some (c - 55)
  else None.

Definition is_hex (c : N) : bool := match hex_value c with Some _ => true | None => false end.

(** The letters an escape may have, other than u. *)
Definition simple_escape (c : N) : option N :=
  if (c =? 34) || (c =? 92) || (c =? 47) then Some c
  else if c =? 98 then Some 8
  else if c =? 102 then Some 12
  else if c =? 110 then Some 10
  else if c =? 114 then Some 13
  else if c =? 116 then Some 9
  else None.

Definition prefixed (p : list N) (r : option (list N * list N)) : option (list N * list N) :=
  match r with Some (raw, rest) => Some (p ++ raw, rest)%list | None => None end.

(** A string literal after its opening quote: its raw text, and what follows
    the closing quote. *)
Fixpoint scan_string (l : list N) : option (list N * list N) :=
  match l with
  | [] => None
  | c :: l' =>
      if c =? 34 then Some ([], l')
      else if c =? 92 then
        match l' with
        | e :: l2 =>
            if e =? 117 then
              match l2 with
              | h1 :: h2 :: h3 :: h4 :: l3 =>
                  if is_hex h1 && is_hex h2 && is_hex h3 && is_hex h4
                  then prefixed [c; e; h1; h2; h3; h4] (scan_string l3) else None
              | _ => None
              end
            else match simple_escape e with
                 | Some _ => prefixed [c; e] (scan_string l2)
                 | None => None
                 end
        | [] => None
        end
      else if c <? 32 then None
      else prefixed [c] (scan_string l')
  end.

(** A run of digits. *)
Fixpoint scan_digits (l : list N) : list N * list N :=
  match l with
  | c :: l' => if is_dec c then let '(ds, r) := scan_digits l' in (c :: ds, r) else ([], l)
  | [] => ([], [])
  end.

(** [.digits], or nothing. *)
Definition scan_frac (l : list N) : option (list N * list N) :=
  match l with
  | c :: l' =>
      if c =? 46 then match scan_digits l' with ([], _) => None | (ds, r) => Some (c :: ds, r) end
      else Some ([], l)
  | [] => Some ([], [])
  end.

(** [e], a sign and digits, or nothing. *)
Definition scan_exp (l : list N) : option (list N * list N) :=
  match l with
  | c :: l' =>
      if (c =? 101) || (c =? 69) then
        let '(sign, l2) := match l' with
                           | s :: l2 => if (s =? 43) || (s =? 45) then ([s], l2) else ([], l')
                           | [] => ([], [])
                           end in
        match scan_digits l2 with ([], _) => None | (ds, r) => Some (c :: sign ++ ds, r)%list end
      else Some ([], l)
  | [] => Some ([], [])
  end.

Definition scan_number (l : list N) : option (list N * list N) :=
  let '(sign, l1) := match l with c :: l' => if c =? 45 then ([c], l') else ([], l) | [] => ([], []) end in
  let int := match l1 with
             | c :: l2 => if c =? 48 then Some ([c], l2)
                          else if is_dec c then Some (scan_digits l1) else None
             | [] => None
             end in
  match int with
  | None => None
  | Some (ds, l2) =>
      match scan_frac l2 with
      | None => None
      | Some (fr, l3) =>
          match scan_exp l3 with
          | None => None
          | Some (ex, l4) => Some (sign ++ ds ++ fr ++ ex, l4)%list
          end
      end
  end.

(** A keyword. *)
Fixpoint scan_word (w : list N) (l : list N) : option (list N) :=
  match w, l with
  | [], _ => Some l
  | a :: w', c :: l' => if a =? c then scan_word w' l' else None
  | _ :: _, [] => None
  end.

Definition scalar (l : list N) : option (jraw * list N) :=
  match l with
  | [] => None
  | c :: l' =>
      if c =? 34 then match scan_string l' with Some (raw, r) => Some (RString raw, r) | None => None end
      else if c =? 110 then match scan_word (bytes_of "ull") l' with Some r => Some (RNull, r) | None => None end
      else if c =? 116 then match scan_word (bytes_of "rue") l' with Some r => Some (RBool true, r) | None => None end
      else if c =? 102 then match scan_word (bytes_of "alse") l' with Some r => Some (RBool false, r) | None => None end
      else match scan_number l with Some (lit, r) => Some (RNumber lit, r) | None => None end
  end.

(** ** Values *)

Fixpoint parse_value (fuel : nat) (l : list N) : option (jraw * list N) :=
  match fuel with
  | O => None
  | S fuel' =>
      match skip_ws l with
      | [] => None
      | c :: l' =>
          if c =? 123 then
            match skip_ws l' with
            | [] => None
            | c2 :: l2 =>
                if c2 =? 125 then Some (RObject [], l2)
                else match parse_members fuel' (c2 :: l2) with Some (ms, r) => Some (RObject ms, r) | None => None end
            end
          else if c =? 91 then
            match skip_ws l' with
            | [] => None
            | c2 :: l2 =>
                if c2 =? 93 then Some (RArray [], l2)
                else match parse_elements fuel' (c2 :: l2) with Some (vs, r) => Some (RArray vs, r) | None => None end
            end
          else scalar (c :: l')
      end
  end
with parse_members (fuel : nat) (l : list N) : option (list (list N * jraw) * list N) :=
  match fuel with
  | O => None
  | S fuel' =>
      match skip_ws l with
      | [] => None
      | c :: l' =>
          if c =? 34 then
            match scan_string l' with
            | None => None
            | Some (key, l1) =>
                match skip_ws l1 with
                | [] => None
                | colon :: l2 =>
                    if colon =? 58 then
                      match parse_value fuel' l2 with
                      | None => None
                      | Some (v, l3) =>
                          match skip_ws l3 with
                          | [] => None
                          | d :: l4 =>
                              if d =? 125 then Some ([(key, v)], l4)
                              else if d =? 44 then
                                match parse_members fuel' l4 with
                                | Some (ms, r) => Some ((key, v) :: ms, r)
                                | None => None
                                end
                              else None
                          end
                      end
                    else None
                end
            end
          else None
      end
  end
with parse_elements (fuel : nat) (l : list N) : option (list jraw * list N) :=
  match fuel with
  | O => None
  | S fuel' =>
      match parse_value fuel' l with
      | None => None
      | Some (v, l1) =>
          match skip_ws l1 with
          | [] => None
          | d :: l2 =>
              if d =? 93 then Some ([v], l2)
              else if d =? 44 then
                match parse_elements fuel' l2 with
                | Some (vs, r) => Some (v :: vs, r)
                | None => None
                end
              else None
          end
      end
  end.

Definition fuel_for (l : list N) : nat := (2 * length l + 2)%nat.

(** The value a whole input holds. *)
Definition parse (l : list N) : option jraw :=
  match parse_value (fuel_for l) l with
  | Some (v, r) => match skip_ws r with [] => Some v | _ => None end
  | None => None
  end.

(** ** String literals *)

(** [utf8.AppendRune] *)
Definition EncodeRune (r : N) : list N :=
  if r <? 128 then [r]
  else if r <? 2048 then [192 + r / 64; 128 + r mod 64]
  else if r <? 65536 then [224 + r / 4096; 128 + r / 64 mod 64; 128 + r mod 64]
  else [240 + r / 262144; 128 + r / 4096 mod 64; 128 + r / 64 mod 64; 128 + r mod 64].

Definition hex4 (a b c d : N) : N :=
  let h x := match hex_value x with Some v => v | None => 0 end in
  4096 * h a + 256 * h b + 16 * h c + h d.

(** [utf16.DecodeRune] on a surrogate and the escape after it. *)
Definition high_surrogate (r : N) : bool := (55296 <=? r) && (r <? 56320).
Definition low_surrogate (r : N) : bool := (56320 <=? r) && (r <? 57344).

(** [unquote]: the text a literal stands for.  Its length is fuel enough: each
    step takes at least one byte. *)
Fixpoint unquote_from (fuel : nat) (l : list N) : list N :=
  match fuel with
  | O => []
  | S fuel' =>
      match l with
      | [] => []
      | c :: l' =>
          if c =? 92 then
            match l' with
            | 117 :: a :: b :: c1 :: d :: l2 =>
                let r := hex4 a b c1 d in
                if high_surrogate r then
                  match l2 with
                  | 92 :: 117 :: a2 :: b2 :: c2 :: d2 :: l3 =>
                      let r2 := hex4 a2 b2 c2 d2 in
                      if low_surrogate r2
                      then EncodeRune (65536 + (r - 55296) * 1024 + (r2 - 56320)) ++ unquote_from fuel' l3
                      else EncodeRune RuneError ++ unquote_from fuel' l2
                  | _ => EncodeRune RuneError ++ unquote_from fuel' l2
                  end
                else if low_surrogate r then EncodeRune RuneError ++ unquote_from fuel' l2
                else EncodeRune r ++ unquote_from fuel' l2
            | e :: l2 => match simple_escape e with Some x => x | None => e end :: unquote_from fuel' l2
            | [] => []
            end
          else if c <? 128 then c :: unquote_from fuel' l'
          else let '(r, w) := DecodeRune l in (EncodeRune r ++ unquote_from fuel' (drop w l))%list
      end
  end.

Definition unquote (l : list N) : list N := unquote_from (length l) l.

(** ** Enough fuel *)

Lemma skip_ws_length l : (length (skip_ws l) <= length l)%nat.
Proof. induction l as [|c l IH]; simpl; [done|]. destruct (is_ws c); simpl; lia. Qed.

Lemma prefixed_Some p r raw rest :
  prefixed p r = Some (raw, rest) → ∃ raw', r = Some (raw', rest).
Proof. destruct r as [[raw' rest']|]; [|done]. intros [= _ <-]. eauto. Qed.

Lemma scan_string_length l raw r : scan_string l = Some (raw, r) → (length r < length l)%nat.
Proof.
  remember (length l) as n eqn:Hn. revert l Hn raw r.
  induction (lt_wf n) as [n _ IH]. intros l -> raw r. destruct l as [|c l]; [done|]. simpl.
  destruct (c =? 34); [intros [= _ <-]; lia|]. destruct (c =? 92).
  - destruct l as [|e l]; [done|]. destruct (e =? 117).
    + destruct l as [|h1 [|h2 [|h3 [|h4 l]]]]; try done. destruct (_ && _); [|done].
      intros (raw' & E)%prefixed_Some. apply (IH (length l)) in E; simpl; lia.
    + destruct (simple_escape e); [|done]. intros (raw' & E)%prefixed_Some. apply (IH (length l)) in E; simpl; lia.
  - destruct (c <? 32); [done|]. intros (raw' & E)%prefixed_Some. apply (IH (length l)) in E; simpl; lia.
Qed.

Lemma scan_digits_length l : (length (scan_digits l).2 <= length l)%nat.
Proof.
  induction l as [|c l IH]; simpl; [done|]. destruct (is_dec c); [|done].
  destruct (scan_digits l); simpl in *. lia.
Qed.

Lemma scan_frac_length l fr r : scan_frac l = Some (fr, r) → (length r <= length l)%nat.
Proof.
  destruct l as [|c l]; simpl; [by intros [= _ <-]|]. destruct (c =? 46); [|by intros [= _ <-]].
  pose proof (scan_digits_length l). destruct (scan_digits l) as [[|d ds] r']; [done|]. intros [= _ <-]. simpl in *. lia.
Qed.

Lemma scan_exp_length l ex r : scan_exp l = Some (ex, r) → (length r <= length l)%nat.
Proof.
  destruct l as [|c l]; simpl; [by intros [= _ <-]|]. destruct (_ || _); [|by intros [= _ <-]].
  destruct l as [|s l]; [done|]. destruct (_ || _).
  - pose proof (scan_digits_length l). destruct (scan_digits l) as [[|d ds] r']; [done|]. intros [= _ <-]. simpl in *. lia.
  - pose proof (scan_digits_length (s :: l)). destruct (scan_digits (s :: l)) as [[|d ds] r']; [done|].
    intros [= _ <-]. simpl in *. lia.
Qed.

Lemma scan_int_length (l : list N) ds r :
  match l with
  | c :: l' => if c =? 48 then Some ([c], l') else if is_dec c then Some (scan_digits l) else None
  | [] => None
  end = Some (ds, r) → (length r < length l)%nat.
Proof.
  destruct l as [|c l]; [done|]. destruct (c =? 48); [intros [= _ <-]; simpl; lia|].
  destruct (is_dec c) eqn:E; [|done]. simpl. rewrite E. pose proof (scan_digits_length l).
  destruct (scan_digits l). intros [= _ <-]. simpl in *. lia.
Qed.

Lemma scan_number_length l lit r : scan_number l = Some (lit, r) → (length r < length l)%nat.
Proof.
  unfold scan_number.
  assert (∃ sign l1, match l with c :: l' => if c =? 45 then ([c], l') else ([], l) | [] => ([], []) end = (sign, l1)
    ∧ (length l1 <= length l)%nat) as (sign & l1 & -> & Hl1).
  { destruct l as [|c l]; [eauto|]. destruct (c =? 45); eexists _, _; (split; [done|simpl; lia]). }
  destruct (match l1 with [] => None | _ => _ end) as [[ds l2]|] eqn:Ei; [|done].
  apply scan_int_length in Ei. destruct (scan_frac l2) as [[fr l3]|] eqn:Ef; [|done]. apply scan_frac_length in Ef.
  destruct (scan_exp l3) as [[ex l4]|] eqn:Ee; [|done]. apply scan_exp_length in Ee. intros [= _ <-]. lia.
Qed.

Lemma scan_word_length w l r : scan_word w l = Some r → (length r <= length l)%nat.
Proof.
  revert l. induction w as [|a w IH]; intros [|c l]; simpl; try (by intros [= <-]).
  destruct (a =? c); [|done]. intros E%IH. lia.
Qed.

Lemma scalar_length l v r : scalar l = Some (v, r) → (length r < length l)%nat.
Proof.
  unfold scalar. destruct l as [|c l]; [done|].
  destruct (c =? 34). { destruct (scan_string l) as [[raw r']|] eqn:E; [|done]. intros [= _ <-]. apply scan_string_length in E. simpl. lia. }
  repeat (match goal with |- (if ?b then match scan_word ?w l with _ => _ end else _) = _ → _ =>
    destruct b; [destruct (scan_word w l) as [r'|] eqn:E; [|done]; intros [= _ <-]; apply scan_word_length in E; simpl; lia|] end).
  destruct (scan_number (c :: l)) as [[lit r']|] eqn:E; [|done]. intros [= _ <-]. by apply scan_number_length in E.
Qed.

#[local] Arguments scalar : simpl never.

(** What is left after a value, a list of members or of elements is shorter. *)
Lemma parse_length f :
  (∀ l v r, parse_value f l = Some (v, r) → (length r < length l)%nat) ∧
  (∀ l v r, parse_members f l = Some (v, r) → (length r < length l)%nat) ∧
  (∀ l v r, parse_elements f l = Some (v, r) → (length r < length l)%nat).
Proof.
  induction f as [|f (IHv & IHm & IHe)]; [done|]. split_and!; intros l v r; simpl.
  - pose proof (skip_ws_length l). destruct (skip_ws l) as [|c l']; [done|].
    pose proof (skip_ws_length l'). simpl in *. destruct (c =? 123); [|destruct (c =? 91)].
    + destruct (skip_ws l') as [|c2 l2]; [done|]. destruct (c2 =? 125); [intros [= _ <-]; simpl in *; lia|].
      destruct (parse_members f (c2 :: l2)) as [[ms r']|] eqn:E; [|done]. intros [= _ <-]. apply IHm in E. lia.
    + destruct (skip_ws l') as [|c2 l2]; [done|]. destruct (c2 =? 93); [intros [= _ <-]; simpl in *; lia|].
      destruct (parse_elements f (c2 :: l2)) as [[ms r']|] eqn:E; [|done]. intros [= _ <-]. apply IHe in E. lia.
    + intros E%scalar_length. simpl in E. lia.
  - pose proof (skip_ws_length l). destruct (skip_ws l) as [|c l']; [done|]. destruct (c =? 34); [|done].
    destruct (scan_string l') as [[key l1]|] eqn:Es; [|done]. apply scan_string_length in Es.
    pose proof (skip_ws_length l1). destruct (skip_ws l1) as [|colon l2]; [done|]. destruct (colon =? 58); [|done].
    destruct (parse_value f l2) as [[x l3]|] eqn:Ev; [|done]. apply IHv in Ev.
    pose proof (skip_ws_length l3). destruct (skip_ws l3) as [|d l4]; [done|]. simpl in *.
    destruct (d =? 125); [intros [= _ <-]; lia|]. destruct (d =? 44); [|done].
    destruct (parse_members f l4) as [[ms r']|] eqn:E; [|done]. intros [= _ <-]. apply IHm in E. lia.
  - destruct (parse_value f l) as [[x l1]|] eqn:Ev; [|done]. apply IHv in Ev.
    pose proof (skip_ws_length l1). destruct (skip_ws l1) as [|d l2]; [done|]. simpl in *.
    destruct (d =? 93); [intros [= _ <-]; lia|]. destruct (d =? 44); [|done].
    destruct (parse_elements f l2) as [[ms r']|] eqn:E; [|done]. intros [= _ <-]. apply IHe in E. lia.
Qed.

(** Past two units per byte, fuel changes nothing. *)
Lemma parse_stable f :
  (∀ f' l, (2 * length l + 1 <= f)%nat → (f <= f')%nat → parse_value f' l = parse_value f l) ∧
  (∀ f' l, (2 * length l + 2 <= f)%nat → (f <= f')%nat → parse_members f' l = parse_members f l) ∧
  (∀ f' l, (2 * length l + 2 <= f)%nat → (f <= f')%nat → parse_elements f' l = parse_elements f l).
Proof.
  induction f as [|f (IHv & IHm & IHe)]; [split_and!; intros; lia|].
  split_and!; intros [|f'] l Hl Hf; try lia; apply le_S_n in Hf; simpl.
  - pose proof (skip_ws_length l). destruct (skip_ws l) as [|c l']; [done|].
    pose proof (skip_ws_length l'). destruct (skip_ws l') as [|c2 l2]; [done|]. simpl in *.
    by rewrite IHm, IHe by (simpl; lia).
  - pose proof (skip_ws_length l). destruct (skip_ws l) as [|c l']; [done|]. destruct (c =? 34); [|done].
    destruct (scan_string l') as [[key l1]|] eqn:Es; [|done]. apply scan_string_length in Es.
    pose proof (skip_ws_length l1). destruct (skip_ws l1) as [|colon l2]; [done|]. destruct (colon =? 58); [|done].
    simpl in *. rewrite IHv by lia. destruct (parse_value f l2) as [[x l3]|] eqn:Ev; [|done].
    apply (parse_length f) in Ev. pose proof (skip_ws_length l3). destruct (skip_ws l3) as [|d l4]; [done|].
    simpl in *. by rewrite IHm by lia.
  - rewrite IHv by lia. destruct (parse_value f l) as [[x l1]|] eqn:Ev; [|done].
    apply (parse_length f) in Ev. pose proof (skip_ws_length l1). destruct (skip_ws l1) as [|d l2]; [done|].
    simpl in *. by rewrite IHe by lia.
Qed.

Lemma parse_enough f l : (fuel_for l <= f)%nat → parse_value f l = parse_value (fuel_for l) l.
Proof. unfold fuel_for. intros. apply parse_stable; lia. Qed.

Definition example_text : list N := bytes_of " {'a' : [1, -2.5e+3, true, null], 'b\u0041':'x\n' } ".

(** Single quotes stand for double ones. *)
Definition requote (l : list N) : list N := List.map (λ c, if c =? 39 then 34 else c) l.

Example parse_example :
  parse (requote example_text) =
  Some (RObject [(bytes_of "a", RArray [RNumber (bytes_of "1"); RNumber (bytes_of "-2.5e+3"); RBool true; RNull]);
                 (bytes_of "b\u0041", RString (bytes_of "x\n"))])
  ∧ unquote (bytes_of "b\u0041\uD83D\uDE00") = (bytes_of "bA" ++ [240; 159; 152; 128])%list
  ∧ parse (bytes_of "[1,]") = None ∧ parse (bytes_of "01") = None.
Proof. vm_compute. done. Qed.

(** ** The body of a response

    [json.NewDecoder(io.LimitReader(body, n)).Decode(&v)]: the first value of
    the stream, with what follows it left unread.  A number with a fraction or
    an exponent keeps its literal. *)

Fixpoint digits_value (acc : N) (l : list N) : option N :=
  match l with
  | [] => Some acc
  | c :: l' => if is_dec c then digits_value (10 * acc + (c - 48)) l' else None
  end.

Definition number_value (lit : list N) : json :=
  match lit with
  | 45 :: l => match digits_value 0 l with Some n => JNum (- Z.of_N n) | None => JFrac (string_of lit) end
  | _ => match digits_value 0 lit with Some n => JNum (Z.of_N n) | None => JFrac (string_of lit) end
  end.

Fixpoint json_of (v : jraw) : json :=
  match v with
  | RNull => JNull
  | RBool b => JBool b
  | RNumber lit => number_value lit
  | RString raw => JStr (string_of (unquote raw))
  | RArray l => JArr (List.map json_of l)
  | RObject l =>
      JObj ((fix go (l : list (list N * jraw)) : list (string * json) :=
               match l with
               | [] => []
               | (k, x) :: l' => (string_of (unquote k), json_of x) :: go l'
               end) l)
  end.

(** [limit] bytes of the body at most. *)
Definition Decode (limit : nat) (body : string) : option json :=
  let b := take limit (bytes_of body) in
  match parse_value (fuel_for b) b with
  | Some (v, _) => Some (json_of v)
  | None => None
  end.

Definition body_limit : nat := N.to_nat 1048576.
Definition small_limit : nat := 4096.
