(* ===== verification/Cursor.v ===== *)
(** * Cursor: the opaque page cursor of the members list

    P-4 hands out the position after the last row as base64 of JSON and reads it
    back from the query ([membership_handler.go]); [encoding/json] prints and
    reads the two untagged fields of [domain.MembershipListCursor].
    [time.Time.UnmarshalJSON] reads RFC 3339 by a fast path, and hands what that
    refuses to [time.Parse]; the latter is a parameter, which a cursor this
    program wrote never reaches.

    First [encoding/base64]'s [URLEncoding]: the alphabet of RFC 4648 with "-" and
    "_", padded.  [DecodeString] skips line breaks, refuses a quantum without its
    padding and anything after the padding, and does not look at the bits the
    padding leaves unused. *)

From Stdlib Require Import Ascii String.
From Stdlib Require List.
From S2P Require Import Prelude Domain Tx Json JsonParse Wire.
Import ListNotations.

Abbreviation text := (list ascii) (only parsing).

(** ** The alphabet *)

Definition encodeURL : text :=
  list_ascii_of_string "ABCDEFGHIJKLMNOPQRSTUVWXYZabcdefghijklmnopqrstuvwxyz0123456789-_".

Definition padding : ascii := "="%char.

Definition sextet_char (n : N) : ascii := nth (N.to_nat n) encodeURL padding.

Fixpoint index_of (c : ascii) (l : text) (n : N) : option N :=
  match l with
  | [] => None
  | x :: l' => if Ascii.eqb x c then Some n else index_of c l' (n + 1)
  end.

Definition char_sextet (c : ascii) : option N := index_of c encodeURL 0.

(** ** [EncodeToString] *)

Fixpoint encode (l : text) : text :=
  match l with
  | [] => []
  | [a] =>
      let a := N_of_ascii a in
      [sextet_char (a / 4); sextet_char (a mod 4 * 16); padding; padding]
  | [a; b] =>
      let a := N_of_ascii a in let b := N_of_ascii b in
      [sextet_char (a / 4); sextet_char (a mod 4 * 16 + b / 16); sextet_char (b mod 16 * 4); padding]
  | a :: b :: c :: l' =>
      let a := N_of_ascii a in let b := N_of_ascii b in let c := N_of_ascii c in
      sextet_char (a / 4) :: sextet_char (a mod 4 * 16 + b / 16) ::
      sextet_char (b mod 16 * 4 + c / 64) :: sextet_char (c mod 64) :: encode l'
  end.

(** ** [DecodeString] *)

Definition line_break (c : ascii) : bool := Ascii.eqb c "010"%char || Ascii.eqb c "013"%char.

Definition byte0 (s0 s1 : N) : ascii := ascii_of_N (s0 * 4 + s1 / 16).
Definition byte1 (s1 s2 : N) : ascii := ascii_of_N (s1 mod 16 * 16 + s2 / 4).
Definition byte2 (s2 s3 : N) : ascii := ascii_of_N (s2 mod 4 * 64 + s3).

(** Quanta of four characters; the last may be padded. *)
Fixpoint decode (l : text) : option text :=
  match l with
  | [] => Some []
  | c0 :: c1 :: c2 :: c3 :: l' =>
      match char_sextet c0, char_sextet c1, char_sextet c2, char_sextet c3 with
      | Some s0, Some s1, Some s2, Some s3 =>
          (λ r, byte0 s0 s1 :: byte1 s1 s2 :: byte2 s2 s3 :: r) <$> decode l'
      | Some s0, Some s1, Some s2, None =>
          if Ascii.eqb c3 padding && match l' with [] => true | _ => false end
          then Some [byte0 s0 s1; byte1 s1 s2] else None
      | Some s0, Some s1, None, _ =>
          if Ascii.eqb c2 padding && Ascii.eqb c3 padding && match l' with [] => true | _ => false end
          then Some [byte0 s0 s1] else None
      | _, _, _, _ => None
      end
  | _ => None
  end.

Definition EncodeToString (s : string) : string := string_of_list_ascii (encode (list_ascii_of_string s)).

Definition DecodeString (s : string) : option string :=
  string_of_list_ascii <$> decode (List.filter (λ c, negb (line_break c)) (list_ascii_of_string s)).

(** ** Round trip *)

Lemma below_64 (P : N → bool) : forallb (λ n, P (N.of_nat n)) (seq 0 64) = true → ∀ n, (n < 64)%N → P n = true.
Proof.
  intros Hall n Hn. rewrite forallb_forall in Hall. specialize (Hall (N.to_nat n)). rewrite N2Nat.id in Hall.
  apply Hall, in_seq. lia.
Qed.

Lemma char_sextet_char n : (n < 64)%N → char_sextet (sextet_char n) = Some n.
Proof.
  intros Hn. apply (bool_decide_eq_true_1 _). revert n Hn.
  apply (below_64 (λ n, bool_decide (char_sextet (sextet_char n) = Some n))). vm_compute. reflexivity.
Qed.

Lemma sextet_not_break n : (n < 64)%N → line_break (sextet_char n) = false.
Proof.
  intros Hn. apply negb_true_iff. revert n Hn.
  apply (below_64 (λ n, negb (line_break (sextet_char n)))). vm_compute. reflexivity.
Qed.

Lemma byte_bound (a : ascii) : (N_of_ascii a < 256)%N.
Proof. apply N_ascii_bounded. Qed.

#[local] Ltac divlia := zify; Z.to_euclidean_division_equations; lia.

(** What each byte contributes to the sextets comes back. *)
Lemma byte_back0 a b : byte0 (N_of_ascii a / 4) (N_of_ascii a mod 4 * 16 + N_of_ascii b / 16) = a.
Proof.
  pose proof (byte_bound a). pose proof (byte_bound b). unfold byte0.
  rewrite <- (ascii_N_embedding a) at 3. f_equal. divlia.
Qed.

Lemma byte_back1 a b c :
  byte1 (N_of_ascii a mod 4 * 16 + N_of_ascii b / 16) (N_of_ascii b mod 16 * 4 + N_of_ascii c / 64) = b.
Proof.
  pose proof (byte_bound a). pose proof (byte_bound b). pose proof (byte_bound c). unfold byte1.
  rewrite <- (ascii_N_embedding b) at 3. f_equal. divlia.
Qed.

Lemma byte_back2 b c : byte2 (N_of_ascii b mod 16 * 4 + N_of_ascii c / 64) (N_of_ascii c mod 64) = c.
Proof.
  pose proof (byte_bound b). pose proof (byte_bound c). unfold byte2.
  rewrite <- (ascii_N_embedding c) at 3. f_equal. divlia.
Qed.

Lemma sextet_bounds a b :
  (N_of_ascii a / 4 < 64 ∧ N_of_ascii a mod 4 * 16 + N_of_ascii b / 16 < 64 ∧
   N_of_ascii a mod 16 * 4 + N_of_ascii b / 64 < 64 ∧ N_of_ascii a mod 64 < 64)%N.
Proof. pose proof (byte_bound a). pose proof (byte_bound b). divlia. Qed.

(** Induction by quanta of three bytes. *)
Lemma by_quanta (P : text → Prop) :
  P [] → (∀ a, P [a]) → (∀ a b, P [a; b]) → (∀ a b c l, P l → P (a :: b :: c :: l)) → ∀ l, P l.
Proof.
  intros H0 H1 H2 H3.
  enough (∀ l, P l ∧ (∀ a, P (a :: l)) ∧ (∀ a b, P (a :: b :: l))) as Hall by apply Hall.
  induction l as [|x l (IH0 & IH1 & IH2)]; split_and!; auto.
Qed.

#[local] Arguments char_sextet : simpl never.
#[local] Arguments sextet_char : simpl never.

Lemma decode_encode l : decode (encode l) = Some l.
Proof.
  induction l as [|a|a b|a b c l IH] using by_quanta; [done|..].
  - destruct (sextet_bounds a "000"%char) as (B0 & B1 & _). change (N_of_ascii "000") with 0%N in B1.
    rewrite N.add_0_r in B1. simpl.
    rewrite !char_sextet_char by done. simpl.
    do 2 f_equal. rewrite <- (byte_back0 a "000") at 3. by rewrite N.add_0_r.
  - destruct (sextet_bounds a b) as (B0 & B1 & _), (sextet_bounds b "000"%char) as (_ & _ & B2 & _).
    change (N_of_ascii "000") with 0%N in B2. rewrite N.add_0_r in B2. simpl.
    rewrite !char_sextet_char by done. simpl. rewrite byte_back0. do 3 f_equal.
    rewrite <- (byte_back1 a b "000") at 3. by rewrite N.add_0_r.
  - destruct (sextet_bounds a b) as (B0 & B1 & _), (sextet_bounds b c) as (_ & _ & B2 & _),
      (sextet_bounds c c) as (_ & _ & _ & B3). simpl.
    rewrite !char_sextet_char, IH by done. simpl. by rewrite byte_back0, byte_back1, byte_back2.
Qed.

Lemma encode_no_breaks l : List.filter (λ c, negb (line_break c)) (encode l) = encode l.
Proof.
  induction l as [|a|a b|a b c l IH] using by_quanta; [done|..].
  - destruct (sextet_bounds a "000"%char) as (B0 & B1 & _). change (N_of_ascii "000") with 0%N in B1.
    rewrite N.add_0_r in B1. simpl. by rewrite !sextet_not_break.
  - destruct (sextet_bounds a b) as (B0 & B1 & _), (sextet_bounds b "000"%char) as (_ & _ & B2 & _).
    change (N_of_ascii "000") with 0%N in B2. rewrite N.add_0_r in B2. simpl. by rewrite !sextet_not_break.
  - destruct (sextet_bounds a b) as (B0 & B1 & _), (sextet_bounds b c) as (_ & _ & B2 & _),
      (sextet_bounds c c) as (_ & _ & _ & B3). simpl. by rewrite !sextet_not_break, IH.
Qed.

Lemma DecodeString_EncodeToString s : DecodeString (EncodeToString s) = Some s.
Proof.
  unfold DecodeString, EncodeToString.
  rewrite list_ascii_of_string_of_list_ascii, encode_no_breaks, decode_encode. simpl.
  by rewrite string_of_list_ascii_of_string.
Qed.

Example encode_example : EncodeToString "Many hands?" = "TWFueSBoYW5kcz8=".
Proof. reflexivity. Qed.

Example decode_errors :
  DecodeString "TWE" = None ∧ DecodeString "TQ==TQ==" = None ∧ DecodeString "T+E=" = None ∧
  DecodeString "TWE=" = Some "Ma".
Proof. repeat split. Qed.

(** ** Reading a timestamp *)

Definition digit_of (c : N) : option Z := if is_dec c then Some (Z.of_N c - 48) else None.

(** Decimal digits. *)
Fixpoint number_from (acc : Z) (l : list N) : option Z :=
  match l with
  | [] => Some acc
  | c :: l' => match digit_of c with Some d => number_from (10 * acc + d) l' | None => None end
  end.

(** [parseUint] *)
Definition parseUint (l : list N) (lo hi : Z) : option Z :=
  match number_from 0 l with
  | Some n => if (lo <=? n) && (n <=? hi) then Some n else None
  | None => None
  end.

Definition isLeap (y : Z) : bool := (y mod 4 =? 0) && (negb (y mod 100 =? 0) || (y mod 400 =? 0)).

Definition daysIn (m y : Z) : Z :=
  if m =? 2 then (if isLeap y then 29 else 28)
  else if (m =? 4) || (m =? 6) || (m =? 9) || (m =? 11) then 30 else 31.

(** Days since 1 March of year 0. *)
Definition days_of_civil (y m d : Z) : Z :=
  let y' := if m <=? 2 then y - 1 else y in
  let yoe := y' mod 400 in
  let mp := if m <=? 2 then m + 9 else m - 3 in
  146097 * (y' / 400) + 365 * yoe + yoe / 4 - yoe / 100 + (153 * mp + 2) / 5 + d - 1.

(** The fraction after the seconds in microseconds, and what follows it; digits
    past the ninth are dropped. *)
Definition scan_fraction (l : list N) : Z * list N :=
  match l with
  | 46%N :: l' =>
      match scan_digits l' with
      | ([], _) => (0, l)
      | (ds, r) =>
          let ds9 := take 9 ds in
          (match number_from 0 ds9 with Some n => n * 10 ^ (9 - Z.of_nat (length ds9)) / 1000 | None => 0 end, r)
      end
  | _ => (0, l)
  end.

(** The zone: Z, or an offset in microseconds. *)
Definition scan_zone (l : list N) : option Z :=
  match l with
  | [90%N] => Some 0
  | [sg; h1; h2; 58%N; m1; m2] =>
      match parseUint [h1; h2] 0 23, parseUint [m1; m2] 0 59 with
      | Some h, Some m =>
          let off := (60 * h + m) * 60000000 in
          if N.eqb sg 43 then Some off else if N.eqb sg 45 then Some (- off) else None
      | _, _ => None
      end
  | _ => None
  end.

(** [parseRFC3339] *)
Definition parseRFC3339 (l : list N) : option time :=
  match l with
  | y1 :: y2 :: y3 :: y4 :: 45%N :: m1 :: m2 :: 45%N :: d1 :: d2 :: 84%N ::
    h1 :: h2 :: 58%N :: n1 :: n2 :: 58%N :: s1 :: s2 :: rest =>
      match parseUint [y1; y2; y3; y4] 0 9999, parseUint [m1; m2] 1 12 with
      | Some year, Some month =>
          match parseUint [d1; d2] 1 (daysIn month year), parseUint [h1; h2] 0 23,
                parseUint [n1; n2] 0 59, parseUint [s1; s2] 0 59 with
          | Some day, Some hour, Some min, Some sec =>
              let '(us, rest') := scan_fraction rest in
              match scan_zone rest' with
              | Some off =>
                  Some ((days_of_civil year month day - 306) * microseconds_per_day
                        + (3600 * hour + 60 * min + sec) * 1000000 + us - off)
              | None => None
              end
          | _, _, _, _ => None
          end
      | _, _ => None
      end
  | _ => None
  end.

(** ** The cursor *)

Section cursor.
  Context `{Env} (time_Parse : list N → option time).

(** [Time.UnmarshalJSON] on a literal's raw text. *)
Definition time_UnmarshalJSON (raw : list N) : option time :=
  match parseRFC3339 raw with Some t => Some t | None => time_Parse raw end.

(** A key names the field whose name it equals but for case. *)
Definition names_field (key : list N) (field : string) : bool :=
  String.eqb (TenantRepo.lower (string_of (unquote key))) field.

(** One member of the object; null leaves the field as it is, an unknown key is
    skipped. *)
Definition set_cursor_field (c : MembershipListCursor) (kv : list N * jraw) : option MembershipListCursor :=
  let '(key, v) := kv in
  if names_field key "createdat" then
    match v with
    | RNull => Some c
    | RString raw => (λ t, mkMembershipListCursor t (cur_ID c)) <$> time_UnmarshalJSON raw
    | _ => None
    end
  else if names_field key "id" then
    match v with
    | RNull => Some c
    | RString raw => (λ u, mkMembershipListCursor (cur_CreatedAt c) u) <$> uuid_Parse (string_of (unquote raw))
    | _ => None
    end
  else Some c.

Fixpoint set_cursor_fields (c : MembershipListCursor) (l : list (list N * jraw)) : option MembershipListCursor :=
  match l with
  | [] => Some c
  | kv :: l' => match set_cursor_field c kv with Some c' => set_cursor_fields c' l' | None => None end
  end.

(** [json.Unmarshal(decoded, cursor)] *)
Definition cursor_Unmarshal (b : list N) : option MembershipListCursor :=
  let zero := mkMembershipListCursor 0 uuid_Nil in
  match parse b with
  | Some RNull => Some zero
  | Some (RObject l) => set_cursor_fields zero l
  | _ => None
  end.

(** [json.Marshal(page.NextCursor)] *)
Definition cursor_Marshal (c : MembershipListCursor) : string :=
  json_text (JObj [("CreatedAt", JTime (cur_CreatedAt c)); ("ID", JUuid (cur_ID c))]).

Definition encode_cursor (c : MembershipListCursor) : string := EncodeToString (cursor_Marshal c).

(** The cursor of a query; [None] is "invalid cursor". *)
Definition decode_cursor (raw : string) : option MembershipListCursor :=
  if Nat.ltb 512 (String.length raw) then None
  else match DecodeString raw with
       | Some decoded => cursor_Unmarshal (bytes_of decoded)
       | None => None
       end.

End cursor.
