(* ===== verification/Http.v ===== *)
(** * Http: requests, problem responses and the middleware chain

    [internal/adapter/inbound/http/middleware.go] and [path_tenant.go], and the
    role predicates of [pkg/requestctx].  A handler is a function of the
    request's context to a response, in the same monad as the services; a
    middleware takes the next handler.  What gin and platform-gincommon do is
    the input: the matched route, the path and query parameters, the gateway
    identity they leave in the context, and the outcome of binding a body.  An
    error response is a problem of one of the library's types, with the detail,
    code and extension members the code gives it; an error the code hands over
    unclassified stays one. *)

From Stdlib Require Import Ascii String.
From S2P Require Import Prelude Domain Schema Tx Consumer TenantRepo MembershipRepo.
Open Scope Z_scope.

(** ** Requests *)

(** [gincommon.RequestContext]: the gateway's headers, as text. *)
Record PlatformContext : Type := mkPlatformContext {
  pl_UserID : string;
  pl_TenantID : string;
  pl_Roles : list string;
  pl_ClientIP : string
}.

(** A request as gin presents it.  [rq_Done] is the error of the request's
    context at the moment an error is handled. *)
Record Request : Type := mkRequest {
  rq_Method : string;
  rq_FullPath : string;
  rq_Params : list (string * string);
  rq_Query : list (string * string);
  rq_ContentLength : Z;
  rq_ContentType : string;
  rq_UserAgent : string;
  rq_RequestID : string;
  rq_Identity : option PlatformContext;
  rq_Done : option ctx_error
}.

(** [pgcommon.GUCSet]: the settings a checked-out connection binds for row-level
    security. *)
Record GUCSet : Type := mkGUCSet {
  g_UserID : string;
  g_TenantID : string;
  g_TenantRoles : list string
}.

Definition no_guc : GUCSet := mkGUCSet "" "" [].

(** The request's context: the caller and the database settings. *)
Record Ctx : Type := mkCtx {
  c_Request : Request;
  c_Caller : option RequestContext;
  c_GUC : GUCSet;
  c_RequestID : string
}.

(** The context a request arrives with. *)
Definition incoming (rq : Request) : Ctx := mkCtx rq None no_guc "".

Definition lookup_first (k : string) (l : list (string * string)) : option string :=
  snd <$> List.find (λ e : string * string, String.eqb e.1 k) l.

(** [c.Param], [c.Query] and [c.GetQuery] *)
Definition Param (c : Ctx) (name : string) : string := default "" (lookup_first name (rq_Params (c_Request c))).
Definition GetQuery (c : Ctx) (name : string) : option string := lookup_first name (rq_Query (c_Request c)).
Definition Query (c : Ctx) (name : string) : string := default "" (GetQuery c name).

(** ** The caller (pkg/requestctx) *)

Definition IamSystemPrincipal : string := "iam-system".
Definition CommercialSystemPrincipal : string := "commercial-system".

(** 00000000-0000-0000-0000-0000000000c1 *)
Definition CommercialSystemUUID : uuid := 193.

(** [RequestContext.HasRole] *)
Definition HasRole (rc : RequestContext) (role : string) : bool :=
  List.existsb (λ r, String.eqb r role) (rc_Roles rc).

(** [IsAdmin], [IsOperator], [IsSystem] and [IsCommercialSystem] *)
Definition IsAdmin (rc : RequestContext) : bool := HasRole rc "tenant_owner" || HasRole rc "tenant_admin".
Definition IsOperator (rc : RequestContext) : bool := HasRole rc "platform_operator".
Definition IsSystem (rc : RequestContext) : bool := HasRole rc IamSystemPrincipal.
Definition IsCommercialSystem (rc : RequestContext) : bool := HasRole rc CommercialSystemPrincipal.

(** [requestctx.WithContext] *)
Definition WithCaller (rc : RequestContext) (c : Ctx) : Ctx :=
  mkCtx (c_Request c) (Some rc) (c_GUC c) (c_RequestID c).

(** [requestctx.WithRequestID] *)
Definition WithRequestID (id : string) (c : Ctx) : Ctx :=
  if String.eqb id "" then c else mkCtx (c_Request c) (c_Caller c) (c_GUC c) id.

(** [pgcommon.WithGUCSet] *)
Definition WithGUCSet (g : GUCSet) (c : Ctx) : Ctx :=
  mkCtx (c_Request c) (c_Caller c) g (c_RequestID c).

(** ** Responses *)

(** The problem types of platform-gincommon the code builds, and its own
    [TenantMismatchType]. *)
Inductive problem_type : Type :=
| BadRequestError | UnauthorizedError | ForbiddenError | NotFoundError | ConflictError
| RateLimitError | ServiceUnavailableError | BusinessRuleError
| TypeUnsupportedMediaType | TenantMismatchType.

#[export] Instance problem_type_eq_dec : EqDecision problem_type.
Proof. solve_decision. Defined.

(** [problem.Error]; without a code the type's own applies. *)
Record problem : Type := mkProblem {
  pb_Type : problem_type;
  pb_Detail : string;
  pb_Code : option string;
  pb_Extensions : list (string * json)
}.

Definition problem_New (t : problem_type) (detail : string) : problem := mkProblem t detail None [].

Definition WithCode (p : problem) (code : string) : problem :=
  mkProblem (pb_Type p) (pb_Detail p) (Some code) (pb_Extensions p).

Definition WithExtensions (p : problem) (ext : list (string * json)) : problem :=
  mkProblem (pb_Type p) (pb_Detail p) (pb_Code p) ext.

(** What a request is answered with: [c.JSON], [c.Status], a problem, an error
    left to [gincommon.FromError], or an abort that writes nothing. *)
Inductive Response : Type :=
| RJSON (status : Z) (body : json)
| RStatus (status : Z)
| RProblem (p : problem)
| RFromError (e : error)
| RAborted.

(** An error a handler reports: one of the program's, or the [*problem.Error]
    the library's binding returns. *)
Inductive http_error : Type :=
| HProblem (p : problem)
| HError (e : error).

(** ** Errors *)

Definition upper_ascii (c : ascii) : ascii :=
  let n := N_of_ascii c in if N.leb 97 n && N.leb n 122 then ascii_of_N (n - 32) else c.

(** [strings.ToUpper], on ASCII. *)
Fixpoint ToUpper (s : string) : string :=
  match s with
  | EmptyString => EmptyString
  | String c s' => String (upper_ascii c) (ToUpper s')
  end.

Definition problem_type_of (s : sentinel) : problem_type :=
  match s with
  | ErrValidation | ErrNoMutableField | ErrInvalidTargetPlan => BadRequestError
  | ErrMissingIdentity => UnauthorizedError
  | ErrInsufficientRole | ErrCannotRemoveOwner | ErrTenantTrialExpired | ErrTenantSuspended
  | ErrTenantReadOnly | ErrServiceAccountNotGrantable => ForbiddenError
  | ErrTenantNotFound | ErrMemberNotFound | ErrDepartmentNotFound | ErrInvitationNotFound
  | ErrPlanNotFound => NotFoundError
  | ErrOptimisticLockConflict | ErrConflict | ErrSlugAlreadyTaken | ErrMemberAlreadyExists
  | ErrDeptMembershipAlreadyExists | ErrWorkflowResolutionRequired | ErrSeatLimitReached
  | ErrInvitationAlreadyExists | ErrTenantOffboarded | ErrDepartmentAlreadyActivated
  | ErrRoleAlreadyGranted | ErrTrialAlreadyUsed => ConflictError
  | ErrReinviteTooSoon | ErrInviteRateLimited => RateLimitError
  | ErrDBUnavailable | ErrCacheUnavailable | ErrWorkflowServiceUnavailable
  | ErrRealmProvisionerUnavailable | ErrRequestTimeout | ErrCatalogUnavailable
  | ErrGroupMappingUnavailable | ErrDependencyUnavailable => ServiceUnavailableError
  | _ => BusinessRuleError
  end.

(** [domainErrorToProblem] *)
Definition domainErrorToProblem (de : DomainError) : problem :=
  WithCode (problem_New (problem_type_of (de_Cause de)) (de_Message de)) (ToUpper (de_Code de)).

(** [toDomainProblem]: a problem, or the error as it is. *)
Definition toDomainProblem (err : http_error) : problem + error :=
  match err with
  | HProblem p => inl p
  | HError e =>
      match errors_AsDomain e with
      | Some de => inl (WithExtensions (domainErrorToProblem de) (de_Details de))
      | None =>
          if IsDBUnavailable e
          then inl (problem_New ServiceUnavailableError "database unavailable")
          else match errors_AsPg e with
               | Some PgQueryCanceled | Some PgLockNotAvailable =>
                   inl (problem_New ServiceUnavailableError "database statement or lock timeout")
               | Some PgDeadlock | Some PgSerializationFailure =>
                   inl (problem_New ConflictError "concurrent update conflict — retry the request")
               | _ => if errors_IsContext e Canceled
                      then inl (problem_New ServiceUnavailableError "request canceled")
                      else inr e
               end
      end
  end.

Definition clientClosedRequest : Z := 499.

(** [leaveToRequestContext]: the answer when the request's own context has
    ended. *)
Definition leaveToRequestContext (c : Ctx) (err : http_error) : option Response :=
  match rq_Done (c_Request c), err with
  | Some DeadlineExceeded, HError e =>
      if errors_IsContext e DeadlineExceeded || errors_Is e ErrRequestTimeout then Some RAborted else None
  | Some Canceled, HError e =>
      if errors_IsContext e Canceled || errors_Is e ErrRequestTimeout
      then Some (RStatus clientClosedRequest) else None
  | _, _ => None
  end.

(** [HandleError] *)
Definition HandleError (c : Ctx) (err : http_error) : Response :=
  match leaveToRequestContext c err with
  | Some r => r
  | None => match toDomainProblem err with inl p => RProblem p | inr e => RFromError e end
  end.

(** [gincommon.AbortWithProblem] *)
Definition Abort (t : problem_type) (detail : string) : M Response := retM (RProblem (problem_New t detail)).

(** [HandleError(c, domain.NewError(...)); return] *)
Definition Refuse (c : Ctx) (e : error) : M Response := retM (HandleError c (HError e)).

(** A handler whose every [if err != nil] is [HandleError] and return. *)
Definition serve (c : Ctx) (m : M Response) : M Response :=
  let! r := tryM m in
  match r with Ok resp => retM resp | Err e => Refuse c e end.

(** ** Middleware *)

Definition Handler : Type := Ctx → M Response.

Section middleware.
  Context `{Env}.

(** [parseBridgedIdentity] *)
Definition parseBridgedIdentity (p : PlatformContext) (userAgent : string) : problem + RequestContext :=
  let userID :=
    if String.eqb (pl_UserID p) IamSystemPrincipal then Some uuid_Nil
    else if String.eqb (pl_UserID p) CommercialSystemPrincipal then Some CommercialSystemUUID
    else uuid_Parse (pl_UserID p) in
  match userID with
  | None => inl (problem_New UnauthorizedError "x-user-id header is not a valid UUID")
  | Some userID =>
      match uuid_Parse (pl_TenantID p) with
      | None => inl (problem_New UnauthorizedError "x-tenant-id header is not a valid UUID")
      | Some tenantID => inr (mkRequestContext userID tenantID (pl_Roles p) (pl_ClientIP p) userAgent)
      end
  end.

(** [GUCBridgeMiddleware] *)
Definition GUCBridgeMiddleware (next : Handler) : Handler := λ c,
  match rq_Identity (c_Request c) with
  | None => next c
  | Some p =>
      match parseBridgedIdentity p (rq_UserAgent (c_Request c)) with
      | inl pb => retM (RProblem pb)
      | inr rc =>
          next (WithGUCSet (mkGUCSet (pl_UserID p) (pl_TenantID p) (pl_Roles p))
                  (WithRequestID (rq_RequestID (c_Request c)) (WithCaller rc c)))
      end
  end.

(** [RequireJSONContentType] *)
Definition RequireJSONContentType (next : Handler) : Handler := λ c,
  let m := rq_Method (c_Request c) in
  if negb (String.eqb m "POST" || String.eqb m "PUT" || String.eqb m "PATCH") then next c
  else if rq_ContentLength (c_Request c) =? 0 then next c
  else if negb (String.eqb (rq_ContentType (c_Request c)) "application/json")
  then Abort TypeUnsupportedMediaType "Content-Type must be application/json"
  else next c.

(** [RequireSystemRole] *)
Definition RequireSystemRole (next : Handler) : Handler := λ c,
  match c_Caller c with
  | Some rc => if HasRole rc IamSystemPrincipal then next c
               else Abort ForbiddenError "internal route requires iam-system role"
  | None => Abort ForbiddenError "internal route requires iam-system role"
  end.

Definition commercialSystemAllowedRoutes : list string :=
  ["GET /api/v1/internal/tenants/:id/seat-usage"; "GET /api/v1/internal/tenants/:id/plan-context";
   "GET /api/v1/internal/tenants/:id/plan-change-check"].

(** [RequireInternalCaller] *)
Definition RequireInternalCaller (next : Handler) : Handler := λ c,
  match c_Caller c with
  | None => Abort ForbiddenError "internal route requires iam-system role"
  | Some rc =>
      if IsSystem rc then next c
      else if IsCommercialSystem rc then
        if contains (rq_Method (c_Request c) +:+ " " +:+ rq_FullPath (c_Request c)) commercialSystemAllowedRoutes
        then next c
        else Abort ForbiddenError "commercial-system is not authorised on this internal route"
      else Abort ForbiddenError "internal route requires iam-system role"
  end.

Definition is_write (method : string) : bool :=
  negb (String.eqb method "GET") && negb (String.eqb method "HEAD") && negb (String.eqb method "OPTIONS").

(** The error a tenant's status is refused with. *)
Definition status_refused (s : SubscriptionStatus) (method : string) : option error :=
  match s with
  | StatusTrialExpired =>
      Some (fail_with ErrTenantTrialExpired
              "tenant trial has expired — no API access; reactivate via the emailed link (TRIAL-4)")
  | StatusSuspended => Some (fail_with ErrTenantSuspended "tenant is suspended")
  | StatusOffboarded => Some (fail_with ErrTenantNotFound "tenant not found")
  | StatusCancelled =>
      if is_write method then Some (fail_with ErrTenantReadOnly "cancelled tenant is read-only (§16 A53)") else None
  | StatusTrial | StatusActive | StatusPastDue => None
  end.

(** [RequireActiveTenant] *)
Definition RequireActiveTenant (next : Handler) : Handler := λ c,
  match c_Caller c with
  | None => next c
  | Some rc =>
      if HasRole rc "iam-system" || IsOperator rc then next c
      else
        let! r := tryM (FindByID (rc_TenantID rc)) in
        match r with
        | Err e =>
            if errors_Is e ErrTenantNotFound then Refuse c (fail_with ErrTenantNotFound "tenant not found")
            else Refuse c (fail_with ErrDBUnavailable "database unavailable — please retry")
        | Ok t =>
            match status_refused (t_Status t) (rq_Method (c_Request c)) with
            | Some e => Refuse c e
            | None => next c
            end
        end
  end.

(** [RequireActiveMembership] *)
Definition RequireActiveMembership (next : Handler) : Handler := λ c,
  match c_Caller c with
  | None => next c
  | Some rc =>
      if HasRole rc "iam-system" || IsOperator rc then next c
      else
        let! r := tryM (MembershipRepo.FindByUserID (rc_TenantID rc) (rc_UserID rc)) in
        match r with
        | Err e =>
            if errors_Is e ErrMemberNotFound
            then Abort ForbiddenError "caller is not an active member of this tenant"
            else next c
        | Ok m =>
            if negb (tm_Status m ==? MembershipActive)
            then Abort ForbiddenError (if tm_Status m ==? MembershipSuspended
                                       then "suspended members cannot access tenant APIs"
                                       else "member is not an active member of this tenant")
            else next c
        end
  end.

(** [RequireOperatorRole] *)
Definition RequireOperatorRole (next : Handler) : Handler := λ c,
  match c_Caller c with
  | Some rc => if IsOperator rc then next c
               else Abort ForbiddenError "operator route requires platform_operator role"
  | None => Abort ForbiddenError "operator route requires platform_operator role"
  end.

(** ** The path tenant (path_tenant.go) *)

Definition invalid_uuid (msg : string) : error :=
  EDomain (WithDetails (NewError ErrValidation msg) [("code", JStr "invalid_uuid")]).

(** [parsePathTenant] *)
Definition parsePathTenant (raw : string) : result error uuid :=
  match uuid_Parse raw with
  | Some id => Ok id
  | None => Err (invalid_uuid "tenant id in path is not a valid UUID")
  end.

(** [requestctx.WithTenant] *)
Definition WithTenant (tenantID : uuid) (c : Ctx) : Ctx :=
  WithGUCSet (mkGUCSet (g_UserID (c_GUC c)) (uuid_String tenantID) (g_TenantRoles (c_GUC c))) c.

(** [requestctx.WithSystemTenant] *)
Definition WithSystemTenant (tenantID : uuid) (c : Ctx) : Ctx :=
  WithGUCSet (mkGUCSet IamSystemPrincipal (uuid_String tenantID) (g_TenantRoles (c_GUC c))) c.

(** [BindPathTenant] *)
Definition BindPathTenant (strict : bool) (next : Handler) : Handler := λ c,
  match parsePathTenant (Param c "id") with
  | Err e => Refuse c e
  | Ok pathTenant =>
      match c_Caller c with
      | None => next (WithTenant pathTenant c)
      | Some rc =>
          if strict && negb (rc_TenantID rc =? pathTenant)
          then Abort TenantMismatchType "x-tenant-id does not match the tenant in the request path"
          else next (WithCaller (mkRequestContext (rc_UserID rc) pathTenant (rc_Roles rc) (rc_ClientIP rc)
                                   (rc_UserAgent rc)) (WithTenant pathTenant c))
      end
  end.

Definition PublicTenantMismatchDetail : string := "tenant in path does not match the caller's tenant".

(** [RequirePathTenantMatch] *)
Definition RequirePathTenantMatch (next : Handler) : Handler := λ c,
  match parsePathTenant (Param c "id") with
  | Err e => Refuse c e
  | Ok pathTenant =>
      match c_Caller c with
      | None => Refuse c (fail_with ErrMissingIdentity "missing identity")
      | Some rc =>
          if negb (rc_TenantID rc =? pathTenant)
          then Refuse c (fail_with ErrInsufficientRole PublicTenantMismatchDetail)
          else next c
      end
  end.

End middleware.
