(* ===== verification/HttpDto.v ===== *)
(** * HttpDto: request bodies and response bodies

    [internal/adapter/inbound/http/dto.go] and the request structs of
    [internal_handler.go].  A request body is the record that binding fills; an
    absent pointer is [None] and an absent value field is its zero.  A response
    struct is the JSON object of its tagged fields, in their order. *)

From Stdlib Require Import String.
From S2P Require Import Prelude Domain Schema Tx Json TenantRepo ProvisioningService TenantService.
From S2P Require Import AuthzService DepartmentService Wire.
Open Scope Z_scope.

(** ** Request bodies *)

Record TenantPatchRequest : Type := mkTenantPatchRequest {
  tpr_Name : option string;
  tpr_DefaultLocale : option string;
  tpr_LocalAccountsEnabled : option bool;
  tpr_MFAFreshnessSeconds : option Z;
  tpr_ResidencyMode : option string;
  tpr_RecordVersion : Z
}.

(** [TenantPatchRequest.ToDomain] *)
Definition ToDomain (r : TenantPatchRequest) : TenantPatch :=
  mkTenantPatch (tpr_Name r) (tpr_DefaultLocale r) (tpr_LocalAccountsEnabled r) (tpr_MFAFreshnessSeconds r)
    (ResidencyMode_of_string <$> tpr_ResidencyMode r) (tpr_RecordVersion r).

Record TenantDepartmentPatchRequest : Type := mkTenantDepartmentPatchRequest {
  tdp_IsActive : option bool;
  tdp_RecordVersion : Z
}.

Record MembershipPatchRequest : Type := mkMembershipPatchRequest {
  mpr_Status : option string;
  mpr_RecordVersion : Z
}.

Record RemovalResolutionRequest : Type := mkRemovalResolutionRequest {
  rrr_Action : string;
  rrr_ReplacementUserID : option uuid
}.

Record RoleLabelPatchRequest : Type := mkRoleLabelPatchRequest {
  rlp_DisplayName : string;
  rlp_RecordVersion : Z
}.

Record InvitationCreateRequest : Type := mkInvitationCreateRequest {
  icr_Email : string;
  icr_FullName : string;
  icr_InitialTenantRoles : list string;
  icr_InitialDeptMappings : list InvitationDeptMapping
}.

Record OperatorFeatureFlagsRequest : Type := mkOperatorFeatureFlagsRequest {
  off_RecordVersion : Z;
  off_FeatureFlags : option (gmap string json)
}.

Record OperatorReassignOwnerRequest : Type := mkOperatorReassignOwnerRequest {
  orr_UserID : uuid;
  orr_NewOwnerUserID : uuid
}.

(** [OperatorReassignOwnerRequest.EffectiveUserID] *)
Definition EffectiveUserID (r : OperatorReassignOwnerRequest) : uuid :=
  if negb (orr_UserID r =? uuid_Nil) then orr_UserID r else orr_NewOwnerUserID r.

Record internalProvisionRequest : Type := mkInternalProvisionRequest {
  ipr_TenantID : uuid;
  ipr_Slug : string;
  ipr_Name : string;
  ipr_Plan : string;
  ipr_OwnerUserID : uuid;
  ipr_DefaultLocale : string;
  ipr_LicensedSeats : Z;
  ipr_EmailHash : string
}.

Record internalRealmPatchRequest : Type := mkInternalRealmPatchRequest {
  irp_RealmID : string;
  irp_RealmType : string;
  irp_KeycloakShard : string;
  irp_RecordVersion : Z
}.

Record internalMembershipPatchRequest : Type := mkInternalMembershipPatchRequest {
  imp_Status : string;
  imp_RecordVersion : Z
}.

Record internalAddMemberRequest : Type := mkInternalAddMemberRequest {
  iam_UserID : uuid;
  iam_KeycloakUserID : uuid;
  iam_Email : string
}.

Record internalJITRequest : Type := mkInternalJITRequest {
  ijr_UserID : uuid;
  ijr_Groups : list string
}.

Record assigneeOverrideRequest : Type := mkAssigneeOverrideRequest {
  aor_NewUserID : uuid;
  aor_DepartmentID : uuid;
  aor_RequiredLevel : string;
  aor_ActorID : uuid
}.

(** ** Response bodies *)

Section responses.
  Context `{Env}.

(** [TenantToResponse] *)
Definition TenantToResponse (t : Tenant) : json :=
  JObj ([("id", JUuid (t_ID t)); ("slug", JStr (t_Slug t)); ("name", JStr (t_Name t));
         ("plan", JStr (plan_text (t_Plan t))); ("status", JStr (status_text (t_Status t)))] ++
        omitempty "trial_ends_at" (JTime <$> t_TrialEndsAt t) ++
        omitempty "subscription_started_at" (JTime <$> t_SubscriptionStartedAt t) ++
        [("realm_id", JStr (t_RealmID t)); ("realm_type", JStr (realm_text (t_RealmType t)));
         ("mfa_freshness_seconds", JNum (t_MFAFreshnessSeconds t));
         ("local_accounts_enabled", JBool (t_LocalAccountsEnabled t));
         ("realm_sync_pending", JBool (t_RealmSyncPending t));
         ("default_locale", JStr (t_DefaultLocale t)); ("licensed_seats", JNum (t_LicensedSeats t))] ++
        omitempty "ownerless_since" (JTime <$> t_OwnerlessSince t) ++
        omitempty "overage_since" (JTime <$> t_OverageSince t) ++
        [("residency_mode", JStr (residency_text (t_ResidencyMode t)));
         ("feature_flags", JObj (sorted_keys (t_FeatureFlags t)));
         ("record_version", JNum (t_RecordVersion t)); ("updated_at", JTime (t_UpdatedAt t))]).

(** [DepartmentResponse] *)
Definition DepartmentResponse (v : TenantDepartmentView) : json :=
  JObj [("department_id", JUuid (tdv_DepartmentID v)); ("code", JStr (tdv_Code v)); ("name", JStr (tdv_Name v));
        ("is_system", JBool (tdv_IsSystem v)); ("is_active", JBool (tdv_IsActive v));
        ("record_version", JNum (tdv_RecordVersion v))].

(** [DeptMemberView] *)
Definition DeptMemberView (v : DeptMembershipView) : json :=
  JObj [("department_id", JUuid (dmv_DepartmentID v)); ("level", JStr (dept_role_text (dmv_RoleLevel v)))].

(** [memberItemToResponse] *)
Definition memberItemToResponse (it : MembershipListItem) : json :=
  JObj [("user_id", JUuid (tm_UserID (mli_Membership it)));
        ("status", JStr (membership_text (tm_Status (mli_Membership it))));
        ("tenant_roles", JArr (List.map (λ r, JStr (role_text r)) (mli_TenantRoles it)));
        ("departments", JArr (List.map DeptMemberView (mli_Departments it)));
        ("record_version", JNum (tm_RecordVersion (mli_Membership it)));
        ("updated_at", JTime (tm_UpdatedAt (mli_Membership it)))].

(** [pageItemsToResponse] *)
Definition pageItemsToResponse (items : list MembershipListItem) : json :=
  JArr (List.map memberItemToResponse items).

(** [RolesReconcileResponse] *)
Definition RolesReconcileResponse (userID : uuid) (roles : list string) : json :=
  JObj [("user_id", JUuid userID); ("roles", JArr (List.map JStr roles))].

(** The body of P-27 and I-11. *)
Definition seat_usage_body (u : SeatUsage) : json :=
  gin_H ([("active_users", JNum (su_ActiveUsers u)); ("pending_invitations", JNum (su_PendingInvitations u));
          ("licensed_seats", JNum (su_LicensedSeats u)); ("over_cap", JBool (su_OverCap u))] ++
         omitempty "overage_since" (JTime <$> su_OverageSince u) ++
         omitempty "grace_ends_at" (JTime <$> su_GraceEndsAt u)).

(** [RoleLabelResponse] *)
Definition RoleLabelResponse (l : DeptRoleLabel) : json :=
  JObj [("role_code", JStr (dept_role_text (drl_RoleCode l))); ("display_name", JStr (drl_DisplayName l));
        ("record_version", JNum (drl_RecordVersion l))].

(** [invitationToResponse] *)
Definition invitationToResponse (inv : PendingInvitation) : json :=
  JObj [("id", JUuid (pi_ID inv)); ("invitation_id", JUuid (pi_ID inv)); ("email", JStr (pi_Email inv));
        ("full_name", JStr (pi_FullName inv)); ("status", JStr (invitation_text (pi_Status inv)));
        ("expires_at", JTime (pi_ExpiresAt inv)); ("record_version", JNum (pi_RecordVersion inv))].

(** [{"items": ...}] *)
Definition items (l : list json) : json := gin_H [("items", JArr l)].

(** The body of P-24 and P-25. *)
Definition tenant_department_body (td : TenantDepartment) : json :=
  gin_H [("department_id", JUuid (td_DepartmentID td)); ("is_active", JBool (td_IsActive td));
         ("record_version", JNum (td_RecordVersion td))].

(** [InternalTenantRealmResponse] *)
Definition InternalTenantRealmResponse (tenantID : uuid) (realmID realmType : string) (version : Z) : json :=
  JObj [("tenant_id", JUuid tenantID); ("realm_id", JStr realmID); ("realm_type", JStr realmType);
        ("record_version", JNum version)].

(** [AssigneeEligibilityResponse] *)
Definition AssigneeEligibilityResponse (tenantID userID deptID : uuid) (required : DeptRole)
  (res : AssigneeEligibility) : json :=
  JObj ([("tenant_id", JUuid tenantID); ("user_id", JUuid userID); ("department_id", JUuid deptID);
         ("required_level", JStr (dept_role_text required)); ("eligible", JBool (ae_Eligible res))] ++
        omitempty "reason" (nonempty (eligibility_text (ae_Reason res))) ++
        omitempty "role_level" ((λ r, JStr (dept_role_text r)) <$> ae_RoleLevel res)).

(** [PublicTenantResolveResponse] *)
Definition PublicTenantResolveResponse (found : bool) (realm strategy : string) (tenantID : option uuid) : json :=
  JObj ([("found", JBool found)] ++ omitempty "realm" (nonempty realm) ++ omitempty "strategy" (nonempty strategy) ++
        omitempty "tenant_id" (JUuid <$> tenantID)).

(** [SessionContextToResponse] *)
Definition SessionContextToResponse (sc : SessionContext) : json :=
  JObj [("tenant_id", JUuid (sc_TenantID sc));
        ("roles", JArr (List.map (λ r, JStr (role_text r)) (sc_Roles sc)));
        ("departments", JArr (List.map (λ d, JObj [("id", JUuid (dmv_DepartmentID d));
                                                   ("level", JStr (dept_role_text (dmv_RoleLevel d)))])
                                (sc_Departments sc)));
        ("plan", JStr (plan_text (sc_Plan sc))); ("feature_flags", JArr (List.map JStr (sc_FeatureFlags sc)));
        ("read_only", JBool (sc_ReadOnly sc)); ("mfa_freshness_seconds", JNum (sc_MFAFreshnessSeconds sc));
        ("locale", JStr (sc_Locale sc)); ("slug", JStr (sc_Slug sc))].

(** [SubscriptionLapseItem]; a missing timestamp is Go's zero time. *)
Definition SubscriptionLapseItem (t : Tenant) : json :=
  JObj [("tenant_id", JUuid (t_ID t)); ("realm_id", JStr (t_RealmID t));
        ("realm_type", JStr (realm_text (t_RealmType t)));
        ("cancelled_at", JTime (default 0 (t_CancelledAt t)))].

(** [OperatorReassignOwnerResponse] *)
Definition OperatorReassignOwnerResponse (tenantID userID : uuid) (roles : list TenantRoleCode) : json :=
  JObj [("tenant_id", JUuid tenantID); ("user_id", JUuid userID);
        ("roles", JArr (List.map (λ r, JStr (role_text r)) roles)); ("ownerless_since", JNull)].

End responses.
