(* ===== verification/HttpHandlers.v ===== *)
(** * HttpHandlers: the tenant-facing, operator, self and public endpoints

    [internal/adapter/inbound/http]: the handlers of [tenant_handler.go],
    [department_handler.go], [membership_handler.go],
    [dept_membership_handler.go], [role_label_handler.go],
    [invitation_handler.go], [operator_handler.go], [me_handler.go] and
    [public_handler.go].  A handler that reads a body takes the outcome of
    [gincommon.ShouldBindJSON] on it. *)

From Stdlib Require Import String.
From S2P Require Import Prelude Domain Schema Tx Json TenantRepo Consumer CatalogService MembershipService.
From S2P Require Import InvitationService DeptMembershipService ProvisioningService TenantService.
From S2P Require Import AuthzService OperatorService DepartmentService GroupMappingService Wire Cursor Http.
From S2P Require Import HttpDto.
Open Scope Z_scope.

(** How the services and the router were built; what gincommon's
    [ProtectedMiddlewares] refuse, and [time.Parse] on what its fast path does
    not read. *)
Record HttpConfig : Type := mkHttpConfig {
  hc_txRunner : bool;
  hc_invitations : InvitationConfig;
  hc_provisioning : ProvisioningConfig;
  hc_seatOverageDays : Z;
  hc_graceDays : Z;
  hc_departments : bool;
  hc_strictTenantPath : bool;
  hc_me : bool;
  hc_public : bool;
  hc_protected : Request → option problem;
  hc_time_Parse : list N → option time
}.

(** The outcome of binding a request body. *)
Abbreviation Body := (result http_error) (only parsing).

(** [if err := ShouldBindJSON(c, &req); err != nil { HandleError(c, err); return }] *)
Definition with_body {A} (c : Ctx) (body : Body A) (k : A → M Response) : M Response :=
  match body with
  | Ok req => k req
  | Err e => retM (HandleError c e)
  end.

Definition StatusOK : Z := 200.
Definition StatusCreated : Z := 201.
Definition StatusAccepted : Z := 202.
Definition StatusNoContent : Z := 204.

(** ** Shared checks *)

Section checks.
  Context `{Env} (c : Ctx).

(** [parseTenantIDParam] *)
Definition parseTenantIDParam : result error uuid :=
  let raw := Param c "id" in
  if String.eqb raw "" then Err (invalid_uuid "tenant id is required")
  else match uuid_Parse raw with
       | Some id => Ok id
       | None => Err (invalid_uuid "tenant id is not a valid UUID")
       end.

(** [parseUUIDParam] *)
Definition parseUUIDParam (name : string) : result error uuid :=
  let raw := Param c name in
  if String.eqb raw "" then Err (invalid_uuid (name +:+ " is required"))
  else match uuid_Parse raw with
       | Some id => Ok id
       | None => Err (invalid_uuid (name +:+ " is not a valid UUID"))
       end.

(** [requestctx.FromContext], refused when absent. *)
Definition identity : result error RequestContext :=
  match c_Caller c with
  | Some rc => Ok rc
  | None => Err (fail_with ErrMissingIdentity "missing identity")
  end.

(** [rc, _ := requestctx.FromContext(...)]: a nil dereference when absent, which
    the check before it rules out. *)
Definition caller : result error RequestContext :=
  match c_Caller c with
  | Some rc => Ok rc
  | None => Err (EPlain "runtime error: invalid memory address or nil pointer dereference")
  end.

(** The caller, of this tenant. *)
Definition same_tenant (tenantID : uuid) (msg : string) : M RequestContext :=
  let! rc := lift identity in
  throw_if (negb (rc_TenantID rc =? tenantID)) (fail_with ErrInsufficientRole msg) ;;
  retM rc.

(** [requireSameTenantMember] *)
Definition requireSameTenantMember (tenantID : uuid) : M unit :=
  let! _ := same_tenant tenantID "cannot access another tenant" in retM tt.

(** [requireTenantAdmin] *)
Definition requireTenantAdmin (tenantID : uuid) : M unit :=
  requireSameTenantMember tenantID ;;
  let! rc := lift caller in
  throw_if (negb (IsAdmin rc)) (fail_with ErrInsufficientRole "tenant_admin or tenant_owner required").

(** [requireTenderAdminOrHigher] *)
Definition requireTenderAdminOrHigher (tenantID : uuid) : M unit :=
  requireSameTenantMember tenantID ;;
  let! rc := lift caller in
  throw_if (negb (HasRole rc (role_text RoleTenderAdmin)) && negb (IsAdmin rc))
    (fail_with ErrInsufficientRole "tender_admin, tenant_admin, or tenant_owner required").

(** [requireOperator] *)
Definition requireOperator : M unit :=
  let! rc := lift identity in
  throw_if (negb (IsOperator rc)) (fail_with ErrInsufficientRole "platform_operator required").

End checks.

Section handlers.
  Context `{Env} (cfg : HttpConfig).

(** ** TenantHandler *)

(** P-1 [TenantHandler.Get] *)
Definition TenantGet (c : Ctx) : M Response := serve c (
  let! tenantID := lift (parseTenantIDParam c) in
  let! _ := same_tenant c tenantID "cannot read another tenant" in
  let! t := TenantService.Get tenantID in
  retM (RJSON StatusOK (TenantToResponse t))).

(** P-2 [TenantHandler.Patch] *)
Definition TenantPatch_ (c : Ctx) (body : Body TenantPatchRequest) : M Response := serve c (
  let! tenantID := lift (parseTenantIDParam c) in
  let! rc := same_tenant c tenantID "cannot update another tenant" in
  throw_if (negb (HasRole rc "tenant_owner")) (fail_with ErrInsufficientRole "tenant_owner required") ;;
  with_body c body (λ req,
    let! (updated, realmSyncDeferred) := TenantService.Patch (hc_txRunner cfg) tenantID (Some (ToDomain req)) in
    retM (RJSON (if (realmSyncDeferred : bool) then StatusAccepted else StatusOK) (TenantToResponse updated)))).

(** ** DepartmentHandler *)

(** P-3 [DepartmentHandler.List] *)
Definition DepartmentList (c : Ctx) : M Response := serve c (
  let! tenantID := lift (parseTenantIDParam c) in
  let! _ := same_tenant c tenantID "cannot read another tenant" in
  let! views := DepartmentService.ListForTenant tenantID in
  retM (RJSON StatusOK (items (List.map DepartmentResponse views)))).

(** P-24 [DepartmentHandler.Activate]: a body that does not bind is the same
    refusal as a missing id. *)
Definition DepartmentActivate (c : Ctx) (body : Body uuid) : M Response := serve c (
  let! tenantID := lift (parseTenantIDParam c) in
  let! rc := same_tenant c tenantID "cannot mutate another tenant" in
  throw_if (negb (IsAdmin rc)) (fail_with ErrInsufficientRole "tenant_admin or tenant_owner required") ;;
  match body with
  | Err _ => throw (invalid_uuid "department_id is required")
  | Ok departmentID =>
      throw_if (departmentID =? uuid_Nil) (invalid_uuid "department_id is required") ;;
      let! (td, wasCreated) := DepartmentService.Activate tenantID departmentID in
      retM (RJSON (if (wasCreated : bool) then StatusCreated else StatusOK) (tenant_department_body td))
  end).

(** P-25 [DepartmentHandler.Patch] *)
Definition DepartmentPatch (c : Ctx) (body : Body TenantDepartmentPatchRequest) : M Response := serve c (
  let! tenantID := lift (parseTenantIDParam c) in
  let! deptID := (match uuid_Parse (Param c "dept_id") with
                  | Some id => retM id
                  | None => throw (invalid_uuid "department id is not a valid UUID")
                  end) in
  let! rc := same_tenant c tenantID "cannot mutate another tenant" in
  throw_if (negb (IsAdmin rc)) (fail_with ErrInsufficientRole "tenant_admin or tenant_owner required") ;;
  with_body c body (λ req,
    match tdp_IsActive req with
    | None => throw (fail_with ErrValidation "is_active is required")
    | Some isActive =>
        let! td := DepartmentService.SetActive tenantID deptID isActive (tdp_RecordVersion req) in
        retM (RJSON StatusOK (tenant_department_body td))
    end)).

(** ** MembershipHandler *)

Definition invalid_query (msg code : string) : error :=
  EDomain (WithDetails (NewError ErrValidation msg) [("code", JStr code)]).

(** The page size asked for. *)
Definition parse_limit (c : Ctx) : result error Z :=
  match GetQuery c "limit" with
  | None => Ok 50
  | Some s =>
      match ParseInt s with
      | Some n => if (n <=? 0) || (200 <? n) then Err (invalid_query "invalid limit" "invalid_limit") else Ok n
      | None => Err (invalid_query "invalid limit" "invalid_limit")
      end
  end.

(** The position to start from. *)
Definition parse_cursor (c : Ctx) : result error (option MembershipListCursor) :=
  let raw := Query c "cursor" in
  if String.eqb raw "" then Ok None
  else match decode_cursor (hc_time_Parse cfg) raw with
       | Some cur => Ok (Some cur)
       | None => Err (invalid_query "invalid cursor" "invalid_cursor")
       end.

(** P-4 [MembershipHandler.List] *)
Definition MembershipList (c : Ctx) : M Response := serve c (
  let! tenantID := lift (parseTenantIDParam c) in
  requireSameTenantMember c tenantID ;;
  let! limit := lift (parse_limit c) in
  let! cursor := lift (parse_cursor c) in
  let! page := MembershipService.List tenantID cursor limit in
  retM (RJSON StatusOK
          (gin_H ([("items", pageItemsToResponse (mlp_Items page))] ++
                  omitempty "next_cursor" ((λ n, JStr (encode_cursor n)) <$> mlp_NextCursor page))))).

(** P-5 [MembershipHandler.Get] *)
Definition MembershipGet (c : Ctx) : M Response := serve c (
  let! tenantID := lift (parseTenantIDParam c) in
  let! userID := lift (parseUUIDParam c "user_id") in
  requireSameTenantMember c tenantID ;;
  let! item := MembershipService.Get tenantID userID in
  retM (RJSON StatusOK (memberItemToResponse item))).

(** P-7 [MembershipHandler.Patch] *)
Definition MembershipPatch (c : Ctx) (body : Body MembershipPatchRequest) : M Response := serve c (
  let! tenantID := lift (parseTenantIDParam c) in
  let! userID := lift (parseUUIDParam c "user_id") in
  requireTenantAdmin c tenantID ;;
  with_body c body (λ req,
    match mpr_Status req with
    | None => throw (fail_with ErrValidation "status is required")
    | Some s =>
        let status := MembershipStatus_of_string s in
        throw_if (negb (status ==? MembershipActive) && negb (status ==? MembershipSuspended))
          (fail_with ErrValidation "status must be 'active' or 'suspended'") ;;
        let! res := MembershipService.SetStatus tenantID userID status (mpr_RecordVersion req) in
        let m := ssr_Membership res in
        retM (RJSON StatusOK
                (gin_H ([("user_id", JUuid (tm_UserID m)); ("status", JStr (membership_text (tm_Status m)));
                         ("record_version", JNum (tm_RecordVersion m)); ("updated_at", JTime (tm_UpdatedAt m))] ++
                        omitempty "delegate_impact" (DelegateImpactAdvisory_json <$> ssr_DelegateImpact res))))
    end)).

(** P-28 [MembershipHandler.ReconcileRoles] *)
Definition MembershipReconcileRoles (c : Ctx) (body : Body (list string)) : M Response := serve c (
  let! tenantID := lift (parseTenantIDParam c) in
  let! userID := lift (parseUUIDParam c "user_id") in
  requireTenantAdmin c tenantID ;;
  with_body c body (λ roles,
    let! rc := lift (caller c) in
    let! _ := MembershipService.ReconcileRoles tenantID userID (List.map TenantRoleCode_of_string roles) (rc_UserID rc) in
    retM (RJSON StatusOK (RolesReconcileResponse userID (isort string_le (remove_dups roles)))))).

(** P-27 [MembershipHandler.SeatUsage] *)
Definition MembershipSeatUsage (c : Ctx) : M Response := serve c (
  let! tenantID := lift (parseTenantIDParam c) in
  requireTenantAdmin c tenantID ;;
  let! usage := MembershipService.SeatUsage (hc_seatOverageDays cfg) tenantID in
  retM (RJSON StatusOK (seat_usage_body usage))).

(** P-8 [MembershipHandler.Remove] *)
Definition MembershipRemove (c : Ctx) : M Response := serve c (
  let! tenantID := lift (parseTenantIDParam c) in
  let! userID := lift (parseUUIDParam c "user_id") in
  requireTenantAdmin c tenantID ;;
  let! rc := lift (caller c) in
  MembershipService.RemoveUser tenantID userID (rc_UserID rc) ;;
  retM (RStatus StatusNoContent)).

(** P-34 [MembershipHandler.ResetMFA] *)
Definition MembershipResetMFA (c : Ctx) : M Response := serve c (
  let! tenantID := lift (parseTenantIDParam c) in
  let! userID := lift (parseUUIDParam c "user_id") in
  requireTenantAdmin c tenantID ;;
  let! rc := lift (caller c) in
  MembershipService.ResetUserMFA tenantID userID (rc_UserID rc) ;;
  retM (RStatus StatusNoContent)).

(** P-26 [MembershipHandler.RemovalResolution] *)
Definition MembershipRemovalResolution (c : Ctx) (body : Body RemovalResolutionRequest) : M Response := serve c (
  let! tenantID := lift (parseTenantIDParam c) in
  let! userID := lift (parseUUIDParam c "user_id") in
  requireTenantAdmin c tenantID ;;
  with_body c body (λ req,
    let! rc := lift (caller c) in
    MembershipService.RemovalResolution tenantID userID (RemovalAction_of_string (rrr_Action req))
      (rrr_ReplacementUserID req) ;;
    retM (RStatus StatusNoContent))).

(** ** DeptMembershipHandler *)

(** P-9 [DeptMembershipHandler.List] *)
Definition DeptMembershipList (c : Ctx) : M Response := serve c (
  let! tenantID := lift (parseTenantIDParam c) in
  let! deptID := lift (parseUUIDParam c "dept_id") in
  requireSameTenantMember c tenantID ;;
  let! dms := DeptMembershipService.ListByDepartment tenantID deptID in
  retM (RJSON StatusOK
          (items (List.map (λ dm, gin_H [("user_id", JUuid (dm_UserID dm));
                                         ("level", JStr (dept_role_text (dm_RoleLevel dm)))]) dms)))).

(** P-10 [DeptMembershipHandler.Assign] *)
Definition DeptMembershipAssign (c : Ctx) (body : Body string) : M Response := serve c (
  let! tenantID := lift (parseTenantIDParam c) in
  let! deptID := lift (parseUUIDParam c "dept_id") in
  let! userID := lift (parseUUIDParam c "user_id") in
  requireTenantAdmin c tenantID ;;
  with_body c body (λ level,
    let! rc := lift (caller c) in
    let! dm := DeptMembershipService.Assign tenantID userID deptID (DeptRole_of_string level) (rc_UserID rc) in
    retM (RJSON StatusOK
            (gin_H [("user_id", JUuid (dm_UserID dm)); ("department_id", JUuid (dm_DepartmentID dm));
                    ("level", JStr (dept_role_text (dm_RoleLevel dm)));
                    ("record_version", JNum (dm_RecordVersion dm))])))).

(** P-11 [DeptMembershipHandler.Remove] *)
Definition DeptMembershipRemove (c : Ctx) : M Response := serve c (
  let! tenantID := lift (parseTenantIDParam c) in
  let! deptID := lift (parseUUIDParam c "dept_id") in
  let! userID := lift (parseUUIDParam c "user_id") in
  requireTenantAdmin c tenantID ;;
  let! rc := lift (caller c) in
  let! dm := DeptMembershipService.Remove tenantID userID deptID (rc_UserID rc) in
  retM (RJSON StatusOK
          (gin_H [("user_id", JUuid (dm_UserID dm)); ("department_id", JUuid (dm_DepartmentID dm));
                  ("removed", JBool true)]))).

(** ** RoleLabelHandler *)

(** P-12 [RoleLabelHandler.List] *)
Definition RoleLabelList (c : Ctx) : M Response := serve c (
  let! tenantID := lift (parseTenantIDParam c) in
  requireSameTenantMember c tenantID ;;
  let! labels := ListLabels tenantID in
  retM (RJSON StatusOK (items (List.map RoleLabelResponse labels)))).

(** P-13 [RoleLabelHandler.Patch] *)
Definition RoleLabelPatch (c : Ctx) (body : Body RoleLabelPatchRequest) : M Response := serve c (
  let! tenantID := lift (parseTenantIDParam c) in
  let roleCode := Param c "role_code" in
  throw_if (negb (contains roleCode ["preparator"; "reviewer"; "approver"]%string))
    (EDomain (mkDomainError "invalid_role" "invalid role_code" ErrValidation [])) ;;
  requireTenantAdmin c tenantID ;;
  with_body c body (λ req,
    let! l := UpdateLabel tenantID (DeptRole_of_string roleCode) (rlp_DisplayName req) (rlp_RecordVersion req) in
    retM (RJSON StatusOK (RoleLabelResponse l)))).

(** ** InvitationHandler *)

(** P-30 [InvitationHandler.List] *)
Definition InvitationList (c : Ctx) : M Response := serve c (
  let! tenantID := lift (parseTenantIDParam c) in
  requireTenantAdmin c tenantID ;;
  let! invs := InvitationService.List tenantID in
  retM (RJSON StatusOK (items (List.map invitationToResponse invs)))).

(** P-6 [InvitationHandler.Invite] *)
Definition InvitationInvite (c : Ctx) (body : Body InvitationCreateRequest) : M Response := serve c (
  let! tenantID := lift (parseTenantIDParam c) in
  requireTenantAdmin c tenantID ;;
  with_body c body (λ req,
    let roles := List.map TenantRoleCode_of_string (icr_InitialTenantRoles req) in
    let! rc := lift (caller c) in
    let! inv := InvitationService.Invite (hc_invitations cfg) tenantID
                  (mkInvitationInput (icr_Email req) (icr_FullName req) roles (icr_InitialDeptMappings req))
                  (rc_UserID rc) in
    retM (RJSON StatusAccepted (invitationToResponse inv)))).

(** The version of P-31: the body's, or else the query's. *)
Definition revoke_version (c : Ctx) (fromBody : Z) : result error Z :=
  if fromBody =? 0 then
    let verStr := Query c "record_version" in
    if String.eqb verStr "" then Ok fromBody
    else match ParseInt verStr with
         | Some v => Ok v
         | None => Err (fail_with ErrValidation "record_version query param must be a positive integer")
         end
  else Ok fromBody.

(** P-31 [InvitationHandler.Revoke] *)
Definition InvitationRevoke (c : Ctx) (body : Body Z) : M Response := serve c (
  let! tenantID := lift (parseTenantIDParam c) in
  let! invID := lift (parseUUIDParam c "invitation_id") in
  requireTenantAdmin c tenantID ;;
  with_body c (if 0 <? rq_ContentLength (c_Request c) then body else Ok 0) (λ fromBody,
    let! version := lift (revoke_version c fromBody) in
    let! _ := InvitationService.Revoke tenantID invID version in
    retM (RStatus StatusNoContent))).

(** ** OperatorHandler *)

(** O-4 [OperatorHandler.SetFeatureFlags] *)
Definition OperatorSetFeatureFlags (c : Ctx) (body : Body OperatorFeatureFlagsRequest) : M Response := serve c (
  requireOperator c ;;
  let! tenantID := lift (parseTenantIDParam c) in
  with_body c body (λ req,
    let! t := OperatorService.SetFeatureFlags tenantID (off_FeatureFlags req) (off_RecordVersion req) in
    retM (RJSON StatusOK (TenantToResponse t)))).

(** O-7 [OperatorHandler.ReassignOwner] *)
Definition OperatorReassignOwner (c : Ctx) (body : Body OperatorReassignOwnerRequest) : M Response := serve c (
  requireOperator c ;;
  let! tenantID := lift (parseTenantIDParam c) in
  with_body c body (λ req,
    let newOwnerID := EffectiveUserID req in
    throw_if (newOwnerID =? uuid_Nil) (fail_with ErrValidation "user_id is required") ;;
    let! rc := lift (caller c) in
    let! tr := OperatorService.ReassignOwner tenantID newOwnerID (rc_UserID rc) in
    let! roleCodes := ActiveRoleCodes tenantID (tr_UserID tr) in
    retM (RJSON StatusOK (OperatorReassignOwnerResponse (tr_TenantID tr) (tr_UserID tr) roleCodes)))).

(** ** MeHandler and PublicHandler *)

(** P-35 [MeHandler.SessionContext] *)
Definition MeSessionContext (c : Ctx) : M Response := serve c (
  let! rc := lift (identity c) in
  let! sc := SessionGet (rc_TenantID rc) (rc_UserID rc) in
  retM (RJSON StatusOK (SessionContextToResponse sc))).

Definition maxIdentifierLen : nat := 254.

(** PUB-1 [PublicHandler.ResolveTenant] *)
Definition PublicResolveTenant (c : Ctx) : M Response := serve c (
  let identifier := TrimSpace (Query c "identifier") in
  throw_if (String.eqb identifier "" || Nat.ltb maxIdentifierLen (String.length identifier))
    (invalid_query "identifier is required (max 254 characters)" "invalid_identifier") ;;
  let! res := TenantService.Resolve identifier in
  retM (RJSON StatusOK
          (if negb (res_Found res) then PublicTenantResolveResponse false "" "" None
           else PublicTenantResolveResponse true (res_Realm res) (default "" (realm_text <$> res_RealmType res))
                  (if res_RealmType res ==? Some RealmShared then res_TenantID res else None)))).

End handlers.
