(* ===== verification/InternalHandlers.v ===== *)
(** * InternalHandlers: the service-to-service endpoints

    [internal/adapter/inbound/http/internal_handler.go], I-1 to I-20 and the
    trial-eligibility gate. *)

From Stdlib Require Import String.
From S2P Require Import Prelude Domain Schema Tx Json EventStores Consumer CatalogService MembershipService.
From S2P Require Import InvitationService DeptMembershipService ProvisioningService TenantService.
From S2P Require Import AuthzService DepartmentService GroupMappingService Wire Http HttpDto HttpHandlers.
Open Scope Z_scope.

Section handlers.
  Context `{Env} (cfg : HttpConfig).

(** I-1 [InternalHandler.ProvisionTenant] *)
Definition ProvisionTenant (c : Ctx) (body : Body internalProvisionRequest) : M Response := serve c (
  with_body c body (λ req,
    throw_if ((ipr_TenantID req =? uuid_Nil) || String.eqb (ipr_Slug req) "" || String.eqb (ipr_Name req) ""
              || (ipr_OwnerUserID req =? uuid_Nil))
      (fail_with ErrValidation "tenant_id, slug, name, owner_user_id are required") ;;
    throw_if (String.eqb (ipr_Plan req) "") (fail_with ErrValidation "plan is required") ;;
    throw_if (negb (plan_known (TenantPlan_of_string (ipr_Plan req))))
      (EDomain (WithDetails (NewError ErrInvalidPlan "plan must be one of starter, pro, enterprise")
                  [("received", JStr (ipr_Plan req))])) ;;
    let! (t, wasCreated) :=
      TrialSignup (hc_provisioning cfg)
        {| tsi_TenantID := ipr_TenantID req; tsi_Slug := ipr_Slug req; tsi_Name := ipr_Name req;
           tsi_Plan := TenantPlan_of_string (ipr_Plan req); tsi_OwnerUserID := ipr_OwnerUserID req;
           tsi_DefaultLocale := ipr_DefaultLocale req; tsi_EmailHash := ipr_EmailHash req;
           tsi_LicensedSeats := ipr_LicensedSeats req |} in
    retM (RJSON (if (wasCreated : bool) then StatusCreated else StatusOK) (TenantToResponse t)))).

(** I-2 [InternalHandler.PatchTenantRealm] *)
Definition PatchTenantRealm (c : Ctx) (body : Body internalRealmPatchRequest) : M Response := serve c (
  let! tenantID := lift (parseTenantIDParam c) in
  with_body c body (λ req,
    throw_if (String.eqb (irp_RealmID req) "" || String.eqb (irp_KeycloakShard req) ""
              || String.eqb (irp_RealmType req) "")
      (fail_with ErrValidation "realm_id, realm_type, keycloak_shard are required") ;;
    throw_if (negb (realm_known (RealmType_of_string (irp_RealmType req))))
      (EDomain (WithDetails (NewError ErrInvalidRealmType "realm_type must be one of shared, dedicated")
                  [("received", JStr (irp_RealmType req))])) ;;
    ProvisioningService.SetRealmFields tenantID (irp_RealmID req) (RealmType_of_string (irp_RealmType req))
      (irp_KeycloakShard req) (irp_RecordVersion req) ;;
    retM (RJSON StatusOK (InternalTenantRealmResponse tenantID (irp_RealmID req) (irp_RealmType req)
                            (irp_RecordVersion req + 1))))).

(** I-4 [InternalHandler.PatchMemberLifecycle] *)
Definition PatchMemberLifecycle (c : Ctx) (body : Body internalMembershipPatchRequest) : M Response := serve c (
  let! tenantID := lift (parseTenantIDParam c) in
  let! userID := lift (parseUUIDParam c "user_id") in
  with_body c body (λ req,
    let! m := SetMembershipStatus tenantID userID (MembershipStatus_of_string (imp_Status req)) (imp_RecordVersion req) in
    retM (RJSON StatusOK (gin_H [("user_id", JUuid (tm_UserID m)); ("status", JStr (membership_text (tm_Status m)));
                                 ("record_version", JNum (tm_RecordVersion m))])))).

(** I-3 [InternalHandler.AddMember] *)
Definition AddMember (c : Ctx) (body : Body internalAddMemberRequest) : M Response := serve c (
  let! tenantID := lift (parseTenantIDParam c) in
  with_body c body (λ req,
    throw_if (iam_UserID req =? uuid_Nil) (fail_with ErrValidation "user_id is required") ;;
    let kcID := if iam_KeycloakUserID req =? uuid_Nil then iam_UserID req else iam_KeycloakUserID req in
    let! mem := AddFromRegister tenantID (iam_UserID req) kcID (iam_Email req) in
    retM (RJSON StatusCreated
            (gin_H [("tenant_id", JUuid (tm_TenantID mem)); ("user_id", JUuid (tm_UserID mem));
                    ("status", JStr (membership_text (tm_Status mem)));
                    ("record_version", JNum (tm_RecordVersion mem))])))).

(** I-10 [InternalHandler.AssignFromGroups] *)
Definition InternalAssignFromGroups (c : Ctx) (body : Body internalJITRequest) : M Response := serve c (
  let! tenantID := lift (parseTenantIDParam c) in
  with_body c body (λ req,
    throw_if (ijr_UserID req =? uuid_Nil) (fail_with ErrValidation "user_id is required") ;;
    let! res := AssignFromGroups tenantID (ijr_UserID req) (ijr_Groups req) in
    retM (RJSON StatusOK (JITResult_json res)))).

(** I-5 [InternalHandler.DeleteMember] *)
Definition InternalDeleteMember (c : Ctx) : M Response := serve c (
  let! tenantID := lift (parseTenantIDParam c) in
  let! userID := lift (parseUUIDParam c "user_id") in
  DeleteMember tenantID userID ;;
  retM (RJSON StatusOK (gin_H [("user_id", JUuid userID); ("removed", JBool true)]))).

(** I-8 [InternalHandler.GetMemberships] *)
Definition GetMemberships (c : Ctx) : M Response := serve c (
  let! userID := lift (parseUUIDParam c "id") in
  let! tenantID := (match uuid_Parse (Query c "tenant_id") with
                    | Some id => retM id
                    | None => throw (invalid_uuid "tenant_id query param required")
                    end) in
  let! proj := GetMembership tenantID userID in
  retM (RJSON StatusOK (MembershipProjection_json proj))).

(** I-9 [InternalHandler.GetLocale] *)
Definition GetLocale (c : Ctx) : M Response := serve c (
  let! tenantID := lift (parseTenantIDParam c) in
  let! t := TenantService.Get tenantID in
  retM (RJSON StatusOK (gin_H [("tenant_id", JUuid tenantID); ("default_locale", JStr (t_DefaultLocale t))]))).

(** I-14 [InternalHandler.GetMFAFreshness] *)
Definition GetMFAFreshness (c : Ctx) : M Response := serve c (
  let! tenantID := lift (parseTenantIDParam c) in
  let! t := TenantService.Get tenantID in
  retM (RJSON StatusOK (gin_H [("tenant_id", JUuid tenantID);
                               ("mfa_freshness_seconds", JNum (t_MFAFreshnessSeconds t))]))).

(** I-11 [InternalHandler.GetSeatUsage] *)
Definition GetSeatUsage (c : Ctx) : M Response := serve c (
  let! tenantID := lift (parseTenantIDParam c) in
  let! usage := MembershipService.SeatUsage (hc_seatOverageDays cfg) tenantID in
  retM (RJSON StatusOK (seat_usage_body usage))).

Definition member_inactive : json := gin_H [("active", JBool false); ("tenant_membership_id", JNull)].

(** I-15 [InternalHandler.CheckMemberExists] *)
Definition CheckMemberExists (c : Ctx) : M Response := serve c (
  let! tenantID := lift (parseTenantIDParam c) in
  let! userID := lift (parseUUIDParam c "user_id") in
  let! r := tryM (CheckActiveMembership tenantID userID) in
  match r with
  | Err e => if errors_Is e ErrMemberNotFound then retM (RJSON StatusOK member_inactive) else throw e
  | Ok m =>
      if negb (tm_Status m ==? MembershipActive) then retM (RJSON StatusOK member_inactive)
      else retM (RJSON StatusOK (gin_H [("active", JBool true); ("tenant_membership_id", JUuid (tm_ID m))]))
  end).

(** I-19 [InternalHandler.CheckAssigneeEligibility] *)
Definition CheckAssigneeEligibility (c : Ctx) : M Response := serve c (
  let! tenantID := lift (parseTenantIDParam c) in
  let! userID := lift (parseUUIDParam c "user_id") in
  let! deptID := (match uuid_Parse (Query c "department_id") with
                  | Some id => retM id
                  | None => throw (invalid_uuid "department_id query param required")
                  end) in
  let required := DeptRole_of_string (Query c "required_level") in
  let! res := CheckEligibility tenantID userID deptID required in
  retM (RJSON StatusOK (AssigneeEligibilityResponse tenantID userID deptID required res))).

(** I-17 [InternalHandler.GetPlanContext] *)
Definition GetPlanContext (c : Ctx) : M Response := serve c (
  let! tenantID := lift (parseTenantIDParam c) in
  let! t := TenantService.Get tenantID in
  retM (RJSON StatusOK
          (gin_H [("tenant_id", JUuid (t_ID t)); ("plan", JStr (plan_text (t_Plan t)));
                  ("status", JStr (status_text (t_Status t))); ("licensed_seats", JNum (t_LicensedSeats t));
                  ("feature_flags", JObj (sorted_keys (t_FeatureFlags t)));
                  ("residency_mode", JStr (residency_text (t_ResidencyMode t)));
                  ("record_version", JNum (t_RecordVersion t))]))).

(** I-18 [InternalHandler.PlanChangeCheck] *)
Definition InternalPlanChangeCheck (c : Ctx) : M Response := serve c (
  let! tenantID := lift (parseTenantIDParam c) in
  let! result := PlanChangeCheck tenantID (TenantPlan_of_string (Query c "target_plan")) in
  retM (RJSON StatusOK (PlanChangeCheckResult_json result))).

(** I-16 [InternalHandler.ListSubscriptionLapses] *)
Definition InternalListSubscriptionLapses (c : Ctx) : M Response := serve c (
  let! tenants := TenantService.List (hc_graceDays cfg) in
  retM (RJSON StatusOK (JObj [("tenants", JArr (List.map SubscriptionLapseItem tenants))]))).

(** I-13 [InternalHandler.AssigneeOverride] *)
Definition AssigneeOverride (c : Ctx) (body : Body assigneeOverrideRequest) : M Response := serve c (
  let! tenantID := lift (parseTenantIDParam c) in
  let! tenderID := lift (parseUUIDParam c "tender_id") in
  with_body c body (λ req,
    throw_if ((aor_ActorID req =? uuid_Nil) || (aor_NewUserID req =? uuid_Nil) || (aor_DepartmentID req =? uuid_Nil))
      (fail_with ErrValidation "actor_id, new_user_id, department_id required") ;;
    ValidateAndEmitAssigneeOverride tenantID tenderID (aor_NewUserID req) (aor_DepartmentID req)
      (DeptRole_of_string (aor_RequiredLevel req)) (aor_ActorID req) ;;
    retM (RJSON StatusOK (gin_H [("eligible", JBool true); ("tender_id", JUuid tenderID);
                                 ("tenant_id", JUuid tenantID); ("user_id", JUuid (aor_NewUserID req))])))).

(** CR-4 [InternalHandler.CheckTrialEligibility] *)
Definition InternalCheckTrialEligibility (c : Ctx) (body : Body string) : M Response := serve c (
  with_body c body (λ emailHash,
    CheckTrialEligibility (hc_provisioning cfg) emailHash ;;
    retM (RJSON StatusOK (gin_H [("eligible", JBool true)])))).

(** I-20 [InternalHandler.ListDepartments] *)
Definition InternalListDepartments (c : Ctx) : M Response :=
  if negb (hc_departments cfg)
  then retM (RJSON 501 (gin_H [("error", JStr "department service not configured")]))
  else serve c (
    let! tenantID := lift (parseTenantIDParam c) in
    let! views := ListActiveForTenant tenantID in
    retM (RJSON StatusOK (JObj [("items", JArr (List.map DepartmentResponse views))]))).

End handlers.
