(* ===== verification/Router.v ===== *)
(** * Router: the routes, their middleware, and the probes

    [internal/adapter/inbound/http/router.go].  [routes] is the table
    [registerAPIRoutes] and [registerPublicRoutes] build, group by group;
    [dispatch] runs a matched route: its chain of middleware around its handler,
    with the caller the chain established as the request context the services
    see.  Matching a path to a route is gin's. *)

From Stdlib Require Import String.
From stdpp Require Import pretty.
From S2P Require Import Prelude Domain Schema Tx Json Wire Http HttpDto HttpHandlers InternalHandlers.
Open Scope Z_scope.

(** ** Endpoints *)

Inductive Endpoint : Type :=
| P1_TenantGet | P2_TenantPatch
| P3_DepartmentList | P24_DepartmentActivate | P25_DepartmentPatch
| P4_MembershipList | P5_MembershipGet | P6_Invite | P7_MembershipPatch | P8_MembershipRemove
| P26_RemovalResolution | P28_ReconcileRoles | P34_ResetMFA | P27_SeatUsage
| P9_DeptMembershipList | P10_DeptMembershipAssign | P11_DeptMembershipRemove
| P12_RoleLabelList | P13_RoleLabelPatch
| P30_InvitationList | P31_InvitationRevoke
| P35_SessionContext
| O4_SetFeatureFlags | O7_ReassignOwner
| I1_ProvisionTenant | I8_GetMemberships | I16_ListSubscriptionLapses | CR4_CheckTrialEligibility
| I2_PatchTenantRealm | I3_AddMember | I10_AssignFromGroups | I4_PatchMemberLifecycle | I5_DeleteMember
| I9_GetLocale | I14_GetMFAFreshness | I11_GetSeatUsage | I13_AssigneeOverride | I15_CheckMemberExists
| I17_GetPlanContext | I18_PlanChangeCheck | I19_CheckAssigneeEligibility | I20_ListDepartments
| PUB1_ResolveTenant.

#[export] Instance Endpoint_eq_dec : EqDecision Endpoint.
Proof. solve_decision. Defined.

(** What the endpoint binds from the request body. *)
Definition body_of (e : Endpoint) : Type :=
  match e with
  | P2_TenantPatch => Body TenantPatchRequest
  | P24_DepartmentActivate => Body uuid
  | P25_DepartmentPatch => Body TenantDepartmentPatchRequest
  | P6_Invite => Body InvitationCreateRequest
  | P7_MembershipPatch => Body MembershipPatchRequest
  | P26_RemovalResolution => Body RemovalResolutionRequest
  | P28_ReconcileRoles => Body (list string)
  | P10_DeptMembershipAssign => Body string
  | P13_RoleLabelPatch => Body RoleLabelPatchRequest
  | P31_InvitationRevoke => Body Z
  | O4_SetFeatureFlags => Body OperatorFeatureFlagsRequest
  | O7_ReassignOwner => Body OperatorReassignOwnerRequest
  | I1_ProvisionTenant => Body internalProvisionRequest
  | I2_PatchTenantRealm => Body internalRealmPatchRequest
  | I3_AddMember => Body internalAddMemberRequest
  | I10_AssignFromGroups => Body internalJITRequest
  | I4_PatchMemberLifecycle => Body internalMembershipPatchRequest
  | I13_AssigneeOverride => Body assigneeOverrideRequest
  | CR4_CheckTrialEligibility => Body string
  | _ => unit
  end.

Definition handle `{Env} (cfg : HttpConfig) (e : Endpoint) : body_of e → Handler :=
  match e with
  | P1_TenantGet => λ _, TenantGet
  | P2_TenantPatch => λ b c, TenantPatch_ cfg c b
  | P3_DepartmentList => λ _, DepartmentList
  | P24_DepartmentActivate => λ b c, DepartmentActivate c b
  | P25_DepartmentPatch => λ b c, DepartmentPatch c b
  | P4_MembershipList => λ _, MembershipList cfg
  | P5_MembershipGet => λ _, MembershipGet
  | P6_Invite => λ b c, InvitationInvite cfg c b
  | P7_MembershipPatch => λ b c, MembershipPatch c b
  | P8_MembershipRemove => λ _, MembershipRemove
  | P26_RemovalResolution => λ b c, MembershipRemovalResolution c b
  | P28_ReconcileRoles => λ b c, MembershipReconcileRoles c b
  | P34_ResetMFA => λ _, MembershipResetMFA
  | P27_SeatUsage => λ _, MembershipSeatUsage cfg
  | P9_DeptMembershipList => λ _, DeptMembershipList
  | P10_DeptMembershipAssign => λ b c, DeptMembershipAssign c b
  | P11_DeptMembershipRemove => λ _, DeptMembershipRemove
  | P12_RoleLabelList => λ _, RoleLabelList
  | P13_RoleLabelPatch => λ b c, RoleLabelPatch c b
  | P30_InvitationList => λ _, InvitationList
  | P31_InvitationRevoke => λ b c, InvitationRevoke c b
  | P35_SessionContext => λ _, MeSessionContext
  | O4_SetFeatureFlags => λ b c, OperatorSetFeatureFlags c b
  | O7_ReassignOwner => λ b c, OperatorReassignOwner c b
  | I1_ProvisionTenant => λ b c, ProvisionTenant cfg c b
  | I8_GetMemberships => λ _, GetMemberships
  | I16_ListSubscriptionLapses => λ _, InternalListSubscriptionLapses cfg
  | CR4_CheckTrialEligibility => λ b c, InternalCheckTrialEligibility cfg c b
  | I2_PatchTenantRealm => λ b c, PatchTenantRealm c b
  | I3_AddMember => λ b c, AddMember c b
  | I10_AssignFromGroups => λ b c, InternalAssignFromGroups c b
  | I4_PatchMemberLifecycle => λ b c, PatchMemberLifecycle c b
  | I5_DeleteMember => λ _, InternalDeleteMember
  | I9_GetLocale => λ _, GetLocale
  | I14_GetMFAFreshness => λ _, GetMFAFreshness
  | I11_GetSeatUsage => λ _, GetSeatUsage cfg
  | I13_AssigneeOverride => λ b c, AssigneeOverride c b
  | I15_CheckMemberExists => λ _, CheckMemberExists
  | I17_GetPlanContext => λ _, GetPlanContext
  | I18_PlanChangeCheck => λ _, InternalPlanChangeCheck
  | I19_CheckAssigneeEligibility => λ _, CheckAssigneeEligibility
  | I20_ListDepartments => λ _, InternalListDepartments cfg
  | PUB1_ResolveTenant => λ _, PublicResolveTenant
  end.

(** ** Middleware chains *)

Inductive Middleware : Type :=
| MProtected | MGUCBridge | MRequireJSON | MPathTenantMatch | MActiveTenant | MActiveMembership
| MOperatorRole | MInternalCaller | MBindPathTenant.

#[export] Instance Middleware_eq_dec : EqDecision Middleware.
Proof. solve_decision. Defined.

(** [gincommon.ProtectedMiddlewares] *)
Definition ProtectedMiddlewares (cfg : HttpConfig) (next : Handler) : Handler := λ c,
  match hc_protected cfg (c_Request c) with
  | Some p => retM (RProblem p)
  | None => next c
  end.

Definition apply_middleware `{Env} (cfg : HttpConfig) (m : Middleware) : Handler → Handler :=
  match m with
  | MProtected => ProtectedMiddlewares cfg
  | MGUCBridge => GUCBridgeMiddleware
  | MRequireJSON => RequireJSONContentType
  | MPathTenantMatch => RequirePathTenantMatch
  | MActiveTenant => RequireActiveTenant
  | MActiveMembership => RequireActiveMembership
  | MOperatorRole => RequireOperatorRole
  | MInternalCaller => RequireInternalCaller
  | MBindPathTenant => BindPathTenant (hc_strictTenantPath cfg)
  end.

Definition chained `{Env} (cfg : HttpConfig) (ms : list Middleware) (h : Handler) : Handler :=
  foldr (apply_middleware cfg) h ms.

(** ** The table *)

Record Route : Type := mkRoute {
  r_Method : string;
  r_Path : string;
  r_Chain : list Middleware;
  r_Endpoint : Endpoint
}.

Record RouteGroup : Type := mkRouteGroup {
  rg_Path : string;
  rg_Chain : list Middleware
}.

(** [r.Group(path, middleware...)] *)
Definition Group (g : RouteGroup) (path : string) (ms : list Middleware) : RouteGroup :=
  mkRouteGroup (rg_Path g +:+ path) (rg_Chain g ++ ms).

Definition on (method : string) (g : RouteGroup) (path : string) (e : Endpoint) : Route :=
  mkRoute method (rg_Path g +:+ path) (rg_Chain g) e.

Abbreviation GET := (on "GET").
Abbreviation POST := (on "POST").
Abbreviation PUT := (on "PUT").
Abbreviation PATCH := (on "PATCH").
Abbreviation DELETE := (on "DELETE").

Definition engine : RouteGroup := mkRouteGroup "" [].
Definition v1 : RouteGroup := Group engine "/api/v1" [MProtected; MGUCBridge; MRequireJSON].
Definition tenants : RouteGroup := Group v1 "/tenants/:id" [MPathTenantMatch; MActiveTenant; MActiveMembership].
Definition me : RouteGroup := Group v1 "/me" [MActiveTenant].
Definition op : RouteGroup := Group v1 "/operator" [MOperatorRole].
Definition internal : RouteGroup := Group v1 "/internal" [MInternalCaller].
Definition tenantScoped : RouteGroup := Group internal "/tenants/:id" [MBindPathTenant].

(** [registerAPIRoutes] *)
Definition registerAPIRoutes (cfg : HttpConfig) : list Route :=
  [GET tenants "" P1_TenantGet;
   PATCH tenants "" P2_TenantPatch;
   GET tenants "/departments" P3_DepartmentList;
   POST tenants "/departments" P24_DepartmentActivate;
   PATCH tenants "/departments/:dept_id" P25_DepartmentPatch;
   GET tenants "/members" P4_MembershipList;
   GET tenants "/members/:user_id" P5_MembershipGet;
   POST tenants "/members" P6_Invite;
   PATCH tenants "/members/:user_id" P7_MembershipPatch;
   DELETE tenants "/members/:user_id" P8_MembershipRemove;
   POST tenants "/users/:user_id/removal-resolution" P26_RemovalResolution;
   PUT tenants "/members/:user_id/roles" P28_ReconcileRoles;
   POST tenants "/members/:user_id/reset-mfa" P34_ResetMFA;
   GET tenants "/seat-usage" P27_SeatUsage;
   GET tenants "/departments/:dept_id/members" P9_DeptMembershipList;
   PUT tenants "/departments/:dept_id/members/:user_id" P10_DeptMembershipAssign;
   DELETE tenants "/departments/:dept_id/members/:user_id" P11_DeptMembershipRemove;
   GET tenants "/roles" P12_RoleLabelList;
   PATCH tenants "/roles/:role_code" P13_RoleLabelPatch;
   GET tenants "/invitations" P30_InvitationList;
   DELETE tenants "/invitations/:invitation_id" P31_InvitationRevoke] ++
  (if hc_me cfg then [GET me "/session-context" P35_SessionContext] else []) ++
  [PATCH op "/tenants/:id/feature-flags" O4_SetFeatureFlags;
   POST op "/tenants/:id/reassign-owner" O7_ReassignOwner;
   POST internal "/tenants" I1_ProvisionTenant;
   GET internal "/users/:id/memberships" I8_GetMemberships;
   GET internal "/subscription-lapses" I16_ListSubscriptionLapses;
   POST internal "/trial-eligibility" CR4_CheckTrialEligibility;
   PATCH tenantScoped "" I2_PatchTenantRealm;
   POST tenantScoped "/members" I3_AddMember;
   POST tenantScoped "/dept-memberships" I10_AssignFromGroups;
   PATCH tenantScoped "/members/:user_id" I4_PatchMemberLifecycle;
   DELETE tenantScoped "/members/:user_id" I5_DeleteMember;
   GET tenantScoped "/locale" I9_GetLocale;
   GET tenantScoped "/mfa-freshness" I14_GetMFAFreshness;
   GET tenantScoped "/seat-usage" I11_GetSeatUsage;
   POST tenantScoped "/tenders/:tender_id/assignee-override" I13_AssigneeOverride;
   GET tenantScoped "/members/:user_id/exists" I15_CheckMemberExists;
   GET tenantScoped "/plan-context" I17_GetPlanContext;
   GET tenantScoped "/plan-change-check" I18_PlanChangeCheck;
   GET tenantScoped "/members/:user_id/eligibility" I19_CheckAssigneeEligibility;
   GET tenantScoped "/departments" I20_ListDepartments].

(** [registerPublicRoutes]: directly on the engine, with no middleware of its
    own. *)
Definition registerPublicRoutes (cfg : HttpConfig) : list Route :=
  if hc_public cfg then [GET (Group engine "/api/v1/public" []) "/tenants/resolve" PUB1_ResolveTenant] else [].

Definition routes (cfg : HttpConfig) : list Route := registerAPIRoutes cfg ++ registerPublicRoutes cfg.

(** ** Dispatch *)

(** The environment with the caller the context carries. *)
Definition with_caller (E : Env) (rc : option RequestContext) : Env :=
  {| uuid_String := @uuid_String E; uuid_Parse := @uuid_Parse E; uuid_New := @uuid_New E;
     uuid_Parse_String := @uuid_Parse_String E; map_order := @map_order E; map_order_perm := @map_order_perm E;
     has_publisher := @has_publisher E; codec_accepts := @codec_accepts E; request_ctx := rc;
     has_cache := @has_cache E; cache_up := @cache_up E; cache_late := @cache_late E; cache_kept := @cache_kept E;
     has_workflow := @has_workflow E; wf_GetDelegateImpact := @wf_GetDelegateImpact E;
     wf_ReassignDelegate := @wf_ReassignDelegate E; wf_CancelByDelegate := @wf_CancelByDelegate E;
     has_rp := @has_rp E; rp_CreateInvitedUser := @rp_CreateInvitedUser E; rp_DeleteUser := @rp_DeleteUser E;
     rp_PatchRealmConfig := @rp_PatchRealmConfig E; rp_RevokeUserSessions := @rp_RevokeUserSessions E;
     rp_ResetMFA := @rp_ResetMFA E;
     has_tokenService := @has_tokenService E; ts_IsServiceAccount := @ts_IsServiceAccount E;
     has_delegationCheck := @has_delegationCheck E; dc_DeptDelegate := @dc_DeptDelegate E;
     has_catalog := @has_catalog E; cat_Departments := @cat_Departments E; cat_Plans := @cat_Plans E;
     has_idpReader := @has_idpReader E; idp_GetIDPCount := @idp_GetIDPCount E;
     has_groupMapping := @has_groupMapping E; gm_ResolveGroups := @gm_ResolveGroups E;
     has_audit := @has_audit E |}.

(** The handler at the end of a chain. *)
Definition endpoint `{E : Env} (cfg : HttpConfig) (e : Endpoint) (b : body_of e) : Handler := λ c,
  @handle (with_caller E (c_Caller c)) cfg e b c.

(** A request gin has matched to a route. *)
Definition matched (r : Route) (rq : Request) : Request :=
  mkRequest (r_Method r) (r_Path r) (rq_Params rq) (rq_Query rq) (rq_ContentLength rq) (rq_ContentType rq)
    (rq_UserAgent rq) (rq_RequestID rq) (rq_Identity rq) (rq_Done rq).

Definition dispatch `{Env} (cfg : HttpConfig) (r : Route) (b : body_of (r_Endpoint r)) (rq : Request) : M Response :=
  chained cfg (r_Chain r) (endpoint cfg (r_Endpoint r) b) (incoming (matched r rq)).

(** ** Probes *)

(** The answers of the dependencies [/readyz] asks: [Some] error's text, or
    [None]; a dependency that is not wired has no answer. *)
Record healthHandlers : Type := mkHealthHandlers {
  hh_postgres : option string;
  hh_sysPostgres : option (option string);
  hh_cache : option string;
  hh_outbox : option string;
  hh_consumers : list (option (option string))
}.

(** [healthz] *)
Definition healthz : Response := RJSON StatusOK (gin_H [("status", JStr "ok")]).

(** One check: its key, and what it shows when it fails. *)
Definition check_entry (key : string) (failed : option string) : string * json * bool :=
  match failed with
  | Some text => (key, JStr text, false)
  | None => (key, JStr "ok", true)
  end.

(** [consumer_%d]; a consumer that is not wired is skipped but keeps its
    number. *)
Fixpoint consumer_checks (i : Z) (l : list (option (option string))) : list (string * json * bool) :=
  match l with
  | [] => []
  | None :: l' => consumer_checks (i + 1) l'
  | Some failed :: l' => check_entry ("consumer_" +:+ pretty i) failed :: consumer_checks (i + 1) l'
  end.

(** [readyz] *)
Definition readyz (h : healthHandlers) : Response :=
  let shown (text : string) (a : option string) := (λ _ : string, text) <$> a in
  let checks := [check_entry "database" (shown "down" (hh_postgres h))] ++
                match hh_sysPostgres h with
                | Some a => [check_entry "sys_database" (shown "down" a)]
                | None => []
                end ++
                [check_entry "cache" (shown "down" (hh_cache h));
                 check_entry "outbox" (shown "initialising" (hh_outbox h))] ++
                consumer_checks 0 (hh_consumers h) in
  let healthy := forallb snd checks in
  RJSON (if healthy then StatusOK else 503)
    (gin_H [("status", JStr (if healthy then "ready" else "not ready")); ("checks", gin_H (List.map fst checks))]).

(** ** Access to the documentation *)

Record DocsConfig : Type := mkDocsConfig {
  dc_Environment : string;
  dc_Enabled : bool;
  dc_AuthToken : string
}.

(** [DocsConfig.active] *)
Definition docs_active (d : DocsConfig) : bool := negb (String.eqb (dc_Environment d) "prod") || dc_Enabled d.

(** The docs' [authMiddleware]: the refusal, if any. *)
Definition docs_refused (d : DocsConfig) (authorization : string) : option problem :=
  if String.eqb (dc_Environment d) "prod" && negb (String.eqb (dc_AuthToken d) "")
  then if String.eqb authorization ("Bearer " +:+ dc_AuthToken d) then None
       else Some (problem_New UnauthorizedError "docs require Authorization: Bearer <DOCS_AUTH_TOKEN>")
  else None.
