(* ===== verification/Clients.v ===== *)
(** * Clients: the calls to the other services

    [internal/adapter/outbound/{realmprovisioner,workflow,tokenservice,
    delegationcheck,catalogadmin,groupmappingclient,auditlog}/http_client.go] and
    [httpx/transport.go]: the request each method sends and what it makes of the
    answer.  [Do] is [http.Client.Do], the building of the request included:
    the network, an argument of every method.  Metrics, warnings and timeouts
    are not modelled; [sha256] is the hash of [crypto/sha256], in hexadecimal.
    A uuid's text needs no escaping in a query. *)

From Stdlib Require Import String.
From stdpp Require Import pretty.
From S2P Require Import Prelude Domain Schema Tx Json Consumer Wire JsonParse.
Open Scope Z_scope.

Record OutRequest : Type := mkOutRequest {
  or_Method : string;
  or_URL : string;
  or_Headers : list (string * string);
  or_Body : string
}.

Record OutResponse : Type := mkOutResponse {
  os_StatusCode : Z;
  os_Body : string
}.

Definition Doer : Type := OutRequest → result error OutResponse.

(** ** The transport (httpx) *)

Definition HeaderRequestID : string := "X-Request-ID".

Definition header (k : string) (l : list (string * string)) : string :=
  default "" (snd <$> List.find (λ e : string * string, String.eqb (fst e) k) l).

(** [requestIDTransport.RoundTrip]: the request that goes on. *)
Definition RoundTrip (contextID : string) (req : OutRequest) : OutRequest :=
  if String.eqb contextID "" || negb (String.eqb (header HeaderRequestID (or_Headers req)) "") then req
  else mkOutRequest (or_Method req) (or_URL req) (or_Headers req ++ [(HeaderRequestID, contextID)]) (or_Body req).

(** ** Shared steps *)

Definition success (status : Z) : bool := (200 <=? status) && (status <? 300).

Definition StatusNotFound : Z := 404.

(** [io.ReadAll(io.LimitReader(resp.Body, 4096))], for a message. *)
Definition excerpt (body : string) : string := substring 0 small_limit body.

(** [fmt.Errorf("%s returned %d: %s", ...)] *)
Definition returned (op : string) (resp : OutResponse) : error :=
  EPlain (op +:+ " returned " +:+ pretty (os_StatusCode resp) +:+ ": " +:+ excerpt (os_Body resp)).

Definition read_bool (v : json) : option bool :=
  match v with JBool b => Some b | _ => None end.

(** An element of a slice: null leaves it zero. *)
Definition element {A} (zero : A) (read : json → option A) (v : json) : option A :=
  match v with JNull => Some zero | _ => read v end.

Definition read_list {A} (zero : A) (read : json → option A) (v : json) : option (list A) :=
  match v with JArr l => mapM (element zero read) l | _ => None end.

(** A pointer field: present. *)
Definition read_some {A} (read : json → option A) (v : json) : option (option A) := Some <$> read v.

(** A struct inside a struct. *)
Definition read_struct {A} (decode : list (string * json) → result error A) (v : json) : option A :=
  match v with
  | JObj l => match decode l with Ok a => Some a | Err _ => None end
  | _ => None
  end.

(** Sequencing of the fields of a struct. *)
Definition andThen {A B} (r : result error A) (k : A → result error B) : result error B :=
  match r with Ok a => k a | Err e => Err e end.

(** [json.NewDecoder(io.LimitReader(resp.Body, limit)).Decode(&out)] *)
Definition decode_body {A} (limit : nat) (decode : list (string * json) → result error A) (resp : OutResponse) : result error A :=
  andThen (members (Decode limit (os_Body resp))) decode.

Section clients.
  Context `{Env}.

(** The headers of an internal call. *)
Definition setInternalHeaders (tenantID : uuid) : list (string * string) :=
  [("x-tenant-id", uuid_String tenantID); ("x-user-id", "iam-system"); ("x-tenant-roles", "iam-system")].

Definition json_headers (l : list (string * string)) : list (string * string) :=
  ("Content-Type", "application/json") :: l.

(** A client that reports only success. *)
Definition exchange (Do : Doer) (op : string) (req : OutRequest) : result error unit :=
  match Do req with
  | Err e => Err e
  | Ok resp => if success (os_StatusCode resp) then Ok tt else Err (returned op resp)
  end.

(** ** Realm Provisioner *)

Definition internalAPIBase : string := "/api/v1/internal".

(** [HTTPClient.url] *)
Definition rp_url (baseURL path : string) : string := baseURL +:+ internalAPIBase +:+ path.

Definition rp_user_url (baseURL : string) (tenantID userID : uuid) (suffix : string) : string :=
  rp_url baseURL ("/tenants/" +:+ uuid_String tenantID +:+ "/users/" +:+ uuid_String userID +:+ suffix).

(** [createInvitedUserIdempotencyKey] *)
Definition createInvitedUserIdempotencyKey (sha256 : string → string) (tenantID : uuid) (email : string) : string :=
  "invite-" +:+ sha256 (uuid_String tenantID +:+ ":" +:+ email).

(** The request of [CreateInvitedUser]. *)
Definition create_user_request (sha256 : string → string) (baseURL : string) (tenantID : uuid)
    (email fullName : string) (requiredActions : list string) (slug : string) : OutRequest :=
  mkOutRequest "POST" (rp_url baseURL ("/tenants/" +:+ uuid_String tenantID +:+ "/users"))
    (json_headers (setInternalHeaders tenantID ++
       [("Idempotency-Key", createInvitedUserIdempotencyKey sha256 tenantID email)]))
    (json_text (JObj ([("email", JStr email); ("full_name", JStr fullName)] ++
                      (if requiredActions is [] then [] else [("required_actions", JArr (List.map JStr requiredActions))]) ++
                      [("tenant_slug", JStr slug)]))).

(** [HTTPClient.CreateInvitedUser]; without a base URL, a fresh uuid. *)
Definition CreateInvitedUser (Do : Doer) (sha256 : string → string) (baseURL : string) (fresh : uuid)
    (tenantID : uuid) (email fullName : string) (requiredActions : list string) (slug : string) : result error uuid :=
  if String.eqb baseURL "" then Ok fresh
  else match Do (create_user_request sha256 baseURL tenantID email fullName requiredActions slug) with
       | Err e => Err e
       | Ok resp =>
           if negb (success (os_StatusCode resp)) then Err (returned "rp: CreateInvitedUser" resp)
           else decode_body body_limit (decode_field "keycloak_user_id" read_uuid uuid_Nil) resp
       end.

(** [HTTPClient.DeleteUser] *)
Definition DeleteUser (Do : Doer) (baseURL : string) (tenantID keycloakUserID : uuid) : result error unit :=
  if String.eqb baseURL "" then Ok tt
  else match Do (mkOutRequest "DELETE" (rp_user_url baseURL tenantID keycloakUserID "") (setInternalHeaders tenantID) "") with
       | Err e => Err e
       | Ok resp =>
           if os_StatusCode resp =? StatusNotFound then Ok tt
           else if success (os_StatusCode resp) then Ok tt
           else Err (returned "rp: DeleteUser" resp)
       end.

(** [HTTPClient.PatchRealmConfig] *)
Definition PatchRealmConfig (Do : Doer) (baseURL : string) (tenantID : uuid) (localAccountsEnabled : option bool)
  : result error unit :=
  if String.eqb baseURL "" then Ok tt
  else match localAccountsEnabled with
       | None => Ok tt
       | Some b =>
           exchange Do "rp: PatchRealmConfig"
             (mkOutRequest "PATCH" (rp_url baseURL ("/tenants/" +:+ uuid_String tenantID +:+ "/realm-config"))
                (json_headers (setInternalHeaders tenantID))
                (json_text (JObj [("desired_value", JBool b); ("setting_key", JStr "local_accounts_enabled")])))
       end.

(** [HTTPClient.RevokeUserSessions] *)
Definition RevokeUserSessions (Do : Doer) (baseURL : string) (tenantID keycloakUserID : uuid) : result error unit :=
  if String.eqb baseURL "" then Ok tt
  else match Do (mkOutRequest "POST" (rp_user_url baseURL tenantID keycloakUserID "/revoke-sessions")
                   (setInternalHeaders tenantID) "") with
       | Err e => Err e
       | Ok resp => if success (os_StatusCode resp) then Ok tt
                    else Err (EPlain ("rp: RevokeUserSessions returned " +:+ pretty (os_StatusCode resp)))
       end.

(** [HTTPClient.ResetMFA] *)
Definition ResetMFA (Do : Doer) (baseURL : string) (tenantID keycloakUserID : uuid) : result error unit :=
  if String.eqb baseURL "" then Ok tt
  else exchange Do "rp: ResetMFA"
         (mkOutRequest "POST" (rp_user_url baseURL tenantID keycloakUserID "/mfa-reset") (setInternalHeaders tenantID) "").

(** [HTTPClient.GetIDPCount] *)
Definition GetIDPCount (Do : Doer) (baseURL : string) (tenantID : uuid) : result error Z :=
  if String.eqb baseURL "" then Ok 0
  else match Do (mkOutRequest "GET" (rp_url baseURL ("/tenants/" +:+ uuid_String tenantID +:+ "/realm"))
                   (setInternalHeaders tenantID) "") with
       | Err e => Err (EWrap "rp: GetIDPCount transport error" e)
       | Ok resp =>
           if negb (os_StatusCode resp =? 200)
           then Err (EPlain ("rp: GetIDPCount returned " +:+ pretty (os_StatusCode resp)))
           else match decode_body small_limit (decode_field "idp_count" read_int 0) resp with
                | Err e => Err (EWrap "rp: GetIDPCount decode" e)
                | Ok n => Ok n
                end
       end.

(** ** Workflow Service *)

Definition with_token (token : string) (l : list (string * string)) : list (string * string) :=
  if String.eqb token "" then l else l ++ [("x-internal-token", token)].

(** The request of [GetDelegateImpact]; [url.Values.Encode] sorts by key. *)
Definition delegate_impact_request (baseURL token : string) (tenantID userID : uuid) (delegationID : option uuid) : OutRequest :=
  mkOutRequest "GET"
    (baseURL +:+ "/api/v1/internal/workflows/delegate-impact?delegate_user_id=" +:+ uuid_String userID +:+
     match delegationID with Some d => "&delegation_id=" +:+ uuid_String d | None => "" end +:+
     "&tenant_id=" +:+ uuid_String tenantID)
    (with_token token (setInternalHeaders tenantID)) "".

(** [HTTPClient.GetDelegateImpact] *)
Definition GetDelegateImpact (Do : Doer) (baseURL token : string) (tenantID userID : uuid) (delegationID : option uuid)
  : result error DelegateImpact :=
  if String.eqb baseURL "" then Ok (mkDelegateImpact 0 [])
  else match Do (delegate_impact_request baseURL token tenantID userID delegationID) with
       | Err e => Err e
       | Ok resp =>
           if negb (os_StatusCode resp =? 200) then Err (returned "workflow: GetDelegateImpact" resp)
           else match decode_body body_limit (λ l,
                        andThen (decode_field "active_workflows" read_int 0 l) (λ n,
                        andThen (decode_field "workflow_ids" (read_list uuid_Nil read_uuid) [] l) (λ ids,
                        Ok (mkDelegateImpact n ids)))) resp with
                | Err e => Err (EWrap "workflow: decode response" e)
                | Ok i => Ok i
                end
       end.

(** [HTTPClient.postInternal] *)
Definition postInternal (Do : Doer) (baseURL token : string) (tenantID : uuid) (path : string) (body : json)
  : result error unit :=
  exchange Do ("workflow: " +:+ path)
    (mkOutRequest "POST" (baseURL +:+ path) (json_headers (with_token token (setInternalHeaders tenantID))) (json_text body)).

Definition delegation_member (delegationID : option uuid) : list (string * json) :=
  match delegationID with Some d => [("delegation_id", JUuid d)] | None => [] end.

(** [HTTPClient.ReassignDelegate] *)
Definition ReassignDelegate (Do : Doer) (baseURL token : string) (tenantID oldUserID newUserID : uuid)
    (delegationID : option uuid) : result error unit :=
  if String.eqb baseURL "" then Ok tt
  else postInternal Do baseURL token tenantID "/api/v1/internal/workflows/reassign-delegate"
         (gin_H ([("tenant_id", JUuid tenantID); ("old_delegate_id", JUuid oldUserID);
                  ("new_delegate_id", JUuid newUserID)] ++ delegation_member delegationID)).

(** [HTTPClient.CancelByDelegate] *)
Definition CancelByDelegate (Do : Doer) (baseURL token : string) (tenantID userID : uuid)
    (delegationID : option uuid) : result error unit :=
  if String.eqb baseURL "" then Ok tt
  else postInternal Do baseURL token tenantID "/api/v1/internal/workflows/cancel-by-delegate"
         (gin_H ([("tenant_id", JUuid tenantID); ("delegate_user_id", JUuid userID)] ++ delegation_member delegationID)).

(** ** Token Service *)

Definition SystemPrincipalID : string := "00000000-0000-0000-0000-0000000000a1".

(** [HTTPClient.IsServiceAccount] *)
Definition IsServiceAccount (Do : Doer) (baseURL : string) (tenantID userID : uuid) : result error bool :=
  if String.eqb baseURL ""
  then Err (EPlain "tokenservice: baseURL not configured — TOKEN_SERVICE_BASE_URL must be set")
  else match Do (mkOutRequest "GET"
                   (baseURL +:+ "/api/v1/internal/tenants/" +:+ uuid_String tenantID +:+
                    "/service-accounts?principal_sub=" +:+ uuid_String userID)
                   [("x-user-id", SystemPrincipalID); ("x-tenant-id", uuid_String tenantID);
                    ("x-tenant-roles", "iam-system")] "") with
       | Err e => Err e
       | Ok resp =>
           if os_StatusCode resp =? StatusNotFound then Ok false
           else if negb (success (os_StatusCode resp)) then Err (returned "tokenservice: IsServiceAccount" resp)
           else match decode_body body_limit (decode_field "principal_id" read_uuid uuid_Nil) resp with
                | Err e => Err (EWrap "tokenservice: decode response" e)
                | Ok _ => Ok true
                end
       end.

(** ** Delegation Service *)

(** [HTTPClient.DeptDelegate] *)
Definition DeptDelegate (Do : Doer) (baseURL : string) (tenantID userID deptID : uuid) : result error (option uuid) :=
  if String.eqb baseURL ""
  then Err (EPlain "delegationcheck: baseURL not configured — DELEGATION_BASE_URL must be set")
  else match Do (mkOutRequest "GET"
                   (baseURL +:+ "/internal/delegations/dept-delegate?dept_id=" +:+ uuid_String deptID +:+
                    "&tenant_id=" +:+ uuid_String tenantID +:+ "&user_id=" +:+ uuid_String userID)
                   (setInternalHeaders tenantID) "") with
       | Err e => Err e
       | Ok resp =>
           if negb (success (os_StatusCode resp)) then Err (returned "delegationcheck: DeptDelegate" resp)
           else match decode_body body_limit (λ l,
                        andThen (decode_field "found" read_bool false l) (λ found,
                        andThen (decode_field "delegation_id" (read_some read_uuid) None l) (λ id,
                        andThen (decode_field "delegator_id" (read_some read_uuid) None l) (λ _,
                        andThen (decode_field "delegate_id" (read_some read_uuid) None l) (λ _,
                        Ok (found, id)))))) resp with
                | Err e => Err (EWrap "delegationcheck: decode response" e)
                | Ok (found, id) => if negb found then Ok None else Ok id
                end
       end.

(** ** Catalog Service *)

Definition CatalogDepartment_decode (l : list (string * json)) : result error CatalogDepartment :=
  andThen (decode_field "id" read_uuid uuid_Nil l) (λ id,
  andThen (decode_field "code" read_string "" l) (λ code,
  andThen (decode_field "name" read_string "" l) (λ name,
  andThen (decode_field "is_system" read_bool false l) (λ isSystem,
  andThen (decode_field "is_active" read_bool false l) (λ isActive,
  andThen (decode_field "record_version" read_int 0 l) (λ version,
  Ok (mkCatalogDepartment id code name isSystem isActive version))))))).

Definition zero_department : CatalogDepartment := mkCatalogDepartment uuid_Nil "" "" false false 0.

Definition read_feature_set (v : json) : option (gmap string json) :=
  match v with JObj l => Some (list_to_map (List.rev l)) | _ => None end.

Definition CatalogPlan_decode (l : list (string * json)) : result error CatalogPlan :=
  andThen (decode_field "code" read_string "" l) (λ code,
  andThen (decode_field "display_name" read_string "" l) (λ name,
  andThen (decode_field "workflow_template_limit" (read_some read_int) None l) (λ templates,
  andThen (decode_field "tender_limit" (read_some read_int) None l) (λ tenders,
  andThen (decode_field "trial_duration_days" read_int 0 l) (λ days,
  andThen (decode_field "sso_enabled" read_bool false l) (λ sso,
  andThen (decode_field "custom_branding" read_string "" l) (λ branding,
  andThen (decode_field "feature_set" read_feature_set ∅ l) (λ features,
  andThen (decode_field "record_version" read_int 0 l) (λ version,
  Ok (mkCatalogPlan (TenantPlan_of_string code) name templates tenders days sso branding features version)))))))))).

Definition zero_plan : CatalogPlan := mkCatalogPlan (TenantPlan_of_string "") "" None None 0 false "" ∅ 0.

Definition read_versions (v : json) : option (list Z) :=
  match v with JObj l => mapM (λ e : string * json, element 0 read_int e.2) l | _ => None end.

(** [setInternalHeaders] of the catalog client: no tenant. *)
Definition catalog_get (Do : Doer) (op baseURL path : string) : result error OutResponse :=
  if String.eqb baseURL ""
  then Err (EPlain "catalogadmin: baseURL not configured — CATALOG_ADMIN_BASE_URL must be set")
  else match Do (mkOutRequest "GET" (baseURL +:+ path)
                   [("x-user-id", "iam-system"); ("x-tenant-id", uuid_String uuid_Nil); ("x-tenant-roles", "iam-system")] "") with
       | Err e => Err e
       | Ok resp => if success (os_StatusCode resp) then Ok resp else Err (returned op resp)
       end.

(** [HTTPClient.Departments] *)
Definition CatalogDepartments (Do : Doer) (baseURL : string) : result error (list CatalogDepartment) :=
  andThen (catalog_get Do "catalogadmin: Departments" baseURL "/api/v1/internal/departments")
    (decode_body body_limit (λ l,
       andThen (decode_field "departments" (read_list zero_department (read_struct CatalogDepartment_decode)) [] l) (λ ds,
       andThen (decode_field "as_of" read_string "" l) (λ _, Ok ds)))).

(** [HTTPClient.Plans] *)
Definition CatalogPlans (Do : Doer) (baseURL : string) : result error (list CatalogPlan) :=
  andThen (catalog_get Do "catalogadmin: Plans" baseURL "/api/v1/internal/plans")
    (decode_body body_limit (λ l,
       andThen (decode_field "plans" (read_list zero_plan (read_struct CatalogPlan_decode)) [] l) (λ ps,
       andThen (decode_field "record_versions" read_versions [] l) (λ _, Ok ps)))).

(** ** Group Mapping Service *)

Definition mapping_decode {A} (field : string) (read : json → option A) (zero : A) (l : list (string * json))
  : result error (string * A) :=
  andThen (decode_field "keycloak_group_name" read_string "" l) (λ group,
  andThen (decode_field field read zero l) (λ a, Ok (group, a))).

Definition read_mappings {A} (field : string) (read : json → option A) (zero : A) : json → option (list (string * A)) :=
  read_list (""%string, zero) (read_struct (mapping_decode field read zero)).

Definition read_dept_role (v : json) : option DeptRole := DeptRole_of_string <$> read_string v.
Definition read_tenant_role (v : json) : option TenantRoleCode := TenantRoleCode_of_string <$> read_string v.

Definition GroupResolution_decode (l : list (string * json)) : result error GroupResolution :=
  andThen (decode_field "dept_mappings" (read_mappings "department_id" read_uuid uuid_Nil) [] l) (λ depts,
  andThen (decode_field "dept_role_mappings" (read_mappings "role_code" read_dept_role (DeptRole_of_string "")) [] l) (λ levels,
  andThen (decode_field "tenant_role_mappings"
             (read_mappings "role_code" read_tenant_role (TenantRoleCode_of_string "")) [] l) (λ roles,
  Ok (mkGroupResolution depts levels roles)))).

(** [HTTPClient.ResolveGroups] *)
Definition ResolveGroups (Do : Doer) (baseURL : string) (tenantID : uuid) (groups : list string)
  : result error GroupResolution :=
  if String.eqb baseURL ""
  then Err (EPlain "groupmappingclient: baseURL not configured — GROUP_MAPPING_BASE_URL must be set")
  else match Do (mkOutRequest "POST"
                   (baseURL +:+ "/internal/tenants/" +:+ uuid_String tenantID +:+ "/group-resolution")
                   (json_headers (setInternalHeaders tenantID))
                   (json_text (JObj [("groups", JArr (List.map JStr groups))]))) with
       | Err e => Err e
       | Ok resp =>
           if negb (success (os_StatusCode resp)) then Err (returned "groupmappingclient: ResolveGroups" resp)
           else match decode_body body_limit GroupResolution_decode resp with
                | Err e => Err (EWrap "groupmappingclient: decode response" e)
                | Ok r => Ok r
                end
       end.

(** ** Audit Log *)

(** [directWriteRequest], as JSON. *)
Definition directWriteRequest (req : AuditWriteRequest) : json :=
  let actor := aw_Actor req in
  JObj ([("tenant_id", JUuid (aw_TenantID req)); ("entry_type", JStr (aw_EntryType req));
         ("action", JStr (aw_Action req));
         ("actor", JObj ([("type", JStr (aa_Type actor))] ++ omitempty "id" (nonempty (aa_ID actor)) ++
                         omitempty "display" (nonempty (aa_Display actor))))] ++
        omitempty "target" ((λ t : string * string,
          JObj ([("type", JStr t.1)] ++ omitempty "id" (nonempty t.2))) <$> aw_Target req) ++
        [("occurred_at", JTime (aw_OccurredAt req)); ("source_service", JStr (aw_SourceService req));
         ("source_event_type", JStr (aw_SourceEventType req))] ++
        omitempty "ip_address" (nonempty (aw_IPAddress req)) ++ omitempty "user_agent" (nonempty (aw_UserAgent req)) ++
        omitempty "metadata" (if bool_decide (aw_Metadata req = ∅) then None
                              else Some (JObj (sorted_keys (aw_Metadata req))))).

(** [HTTPClient.WriteEntry] *)
Definition WriteEntry (Do : Doer) (baseURL : string) (req : AuditWriteRequest) : result error unit :=
  if String.eqb baseURL "" then Ok tt
  else match Do (mkOutRequest "POST" (baseURL +:+ "/api/v1/internal/audit-entries")
                   (json_headers (("Idempotency-Key", aw_IdempotencyKey req) :: setInternalHeaders (aw_TenantID req)))
                   (json_text (directWriteRequest req))) with
       | Err e => Err (EWrap "auditlog: WriteEntry transport error" e)
       | Ok resp =>
           if negb (os_StatusCode resp =? 200) && negb (os_StatusCode resp =? 201)
           then Err (EPlain ("auditlog: WriteEntry returned " +:+ pretty (os_StatusCode resp) +:+ " for entry_type " +:+
                             aw_EntryType req))
           else Ok tt
       end.

End clients.

(** ** The services' view

    The base URLs and the token the process reads from its environment. *)
Record ClientConfig : Type := mkClientConfig {
  cc_realmProvisioner : string;
  cc_workflow : string;
  cc_workflowToken : string;
  cc_tokenService : string;
  cc_delegation : string;
  cc_catalog : string;
  cc_groupMapping : string
}.

(** The environment in which every collaborator is its HTTP client; [net n] is
    the network at the [n]-th call, [fresh n] the uuid generated there. *)
Definition clients_env (E : Env) (sha256 : string → string) (cc : ClientConfig) (net : nat → Doer) (fresh : nat → uuid) : Env :=
  {| uuid_String := @uuid_String E; uuid_Parse := @uuid_Parse E; uuid_New := @uuid_New E;
     uuid_Parse_String := @uuid_Parse_String E; map_order := @map_order E; map_order_perm := @map_order_perm E;
     has_publisher := @has_publisher E; codec_accepts := @codec_accepts E; request_ctx := @request_ctx E;
     has_cache := @has_cache E; cache_up := @cache_up E; cache_late := @cache_late E; cache_kept := @cache_kept E;
     has_workflow := true;
     wf_GetDelegateImpact := λ n, GetDelegateImpact (net n) (cc_workflow cc) (cc_workflowToken cc);
     wf_ReassignDelegate := λ n t o u, ReassignDelegate (net n) (cc_workflow cc) (cc_workflowToken cc) t o u None;
     wf_CancelByDelegate := λ n t u, CancelByDelegate (net n) (cc_workflow cc) (cc_workflowToken cc) t u None;
     has_rp := true;
     rp_CreateInvitedUser := λ n, CreateInvitedUser (net n) sha256 (cc_realmProvisioner cc) (fresh n);
     rp_DeleteUser := λ n, DeleteUser (net n) (cc_realmProvisioner cc);
     rp_PatchRealmConfig := λ n, PatchRealmConfig (net n) (cc_realmProvisioner cc);
     rp_RevokeUserSessions := λ n, RevokeUserSessions (net n) (cc_realmProvisioner cc);
     rp_ResetMFA := λ n, ResetMFA (net n) (cc_realmProvisioner cc);
     has_tokenService := true;
     ts_IsServiceAccount := λ n, IsServiceAccount (net n) (cc_tokenService cc);
     has_delegationCheck := true;
     dc_DeptDelegate := λ n, DeptDelegate (net n) (cc_delegation cc);
     has_catalog := true;
     cat_Departments := λ n, CatalogDepartments (net n) (cc_catalog cc);
     cat_Plans := λ n, CatalogPlans (net n) (cc_catalog cc);
     has_idpReader := true;
     idp_GetIDPCount := λ n, GetIDPCount (net n) (cc_realmProvisioner cc);
     has_groupMapping := true;
     gm_ResolveGroups := λ n, ResolveGroups (net n) (cc_groupMapping cc);
     has_audit := true |}.
