(* ===== verification/Startup.v ===== *)
(** * Startup: what the processes read from their environment

    [cmd/server/identity.go], the helpers and [validateRequiredEnv] of
    [cmd/server/main.go], the constructors of the outbound clients, the database
    settings of [postgres/db.go], [postgres/migrate.go] and [cmd/migrate].  The
    environment is a function from names to values; [os.Getenv] answers the
    empty string for a name that is not set.  A panic at start-up is an error.
    The logger, the migration runner and the DSN that pgcommon assembles are
    parameters. *)

From Stdlib Require Import Ascii String.
From stdpp Require Import pretty.
From S2P Require Import Prelude Utf8 Domain Tx TenantRepo InvitationService Wire JsonParse Router Clients.
Open Scope Z_scope.

Definition Environment : Type := string → option string.

(** ** Durations *)

(** [time.Duration], in nanoseconds. *)
Definition duration : Type := Z.

(** A product of int64s, wrapped. *)
Definition wrap64 (n : Z) : Z := (n + 2 ^ 63) mod 2 ^ 64 - 2 ^ 63.

Definition second : duration := 1000000000.
Definition millisecond : duration := 1000000.
Definition minute : duration := 60 * second.

(** [unitMap] *)
Definition unit_of (u : list N) : option Z :=
  if bool_decide (u = bytes_of "ns") then Some 1
  else if bool_decide (u = bytes_of "us" ∨ u = [194; 181; 115]%N ∨ u = [206; 188; 115]%N) then Some 1000
  else if bool_decide (u = bytes_of "ms") then Some millisecond
  else if bool_decide (u = bytes_of "s") then Some second
  else if bool_decide (u = bytes_of "m") then Some minute
  else if bool_decide (u = bytes_of "h") then Some (60 * minute)
  else None.

(** [leadingInt]: [None] on overflow. *)
Fixpoint leadingInt (acc : Z) (l : list N) : option (Z * list N) :=
  match l with
  | c :: l' =>
      if is_dec c then
        let x := 10 * acc + (Z.of_N c - 48) in
        if (2 ^ 63 / 10 <? acc) || (2 ^ 63 <? x) then None else leadingInt x l'
      else Some (acc, l)
  | [] => Some (acc, [])
  end.

(** [leadingFraction]: the digits, the power of ten they are over, and the rest;
    digits past an overflow are dropped. *)
Fixpoint leadingFraction (acc scale : Z) (overflow : bool) (l : list N) : Z * Z * list N :=
  match l with
  | c :: l' =>
      if is_dec c then
        let y := 10 * acc + (Z.of_N c - 48) in
        if overflow || ((2 ^ 63 - 1) / 10 <? acc) || (2 ^ 63 <? y)
        then leadingFraction acc scale true l'
        else leadingFraction y (10 * scale) false l'
      else (acc, scale, l)
  | [] => (acc, scale, [])
  end.

(** The unit: everything up to a digit or a dot. *)
Fixpoint span_unit (l : list N) : list N * list N :=
  match l with
  | c :: l' => if is_dec c || N.eqb c 46 then ([], l) else let '(u, r) := span_unit l' in (c :: u, r)
  | [] => ([], [])
  end.

(** One number and its unit; [None] is an error. *)
Definition duration_step (l : list N) : option (Z * list N) :=
  match l with
  | c :: _ =>
      if negb (is_dec c || N.eqb c 46) then None
      else match leadingInt 0 l with
           | None => None
           | Some (v, r) =>
               let pre := negb (Nat.eqb (length r) (length l)) in
               let '(f, scale, r', post) :=
                 match r with
                 | c0 :: r0 =>
                     if N.eqb c0 46 then
                       let '(f, scale, r1) := leadingFraction 0 1 false r0 in
                       (f, scale, r1, negb (Nat.eqb (length r1) (length r0)))
                     else (0, 1, r, false)
                 | [] => (0, 1, r, false)
                 end in
               if negb pre && negb post then None
               else let '(u, rest) := span_unit r' in
                    match unit_of u with
                    | None => None
                    | Some unit =>
                        if 2 ^ 63 / unit <? v then None
                        else let v' := v * unit + f * unit / scale in
                             if 2 ^ 63 <? v' then None else Some (v', rest)
                    end
           end
  | [] => None
  end.

Fixpoint duration_sum (fuel : nat) (acc : Z) (l : list N) : option Z :=
  match fuel, l with
  | _, [] => Some acc
  | O, _ => None
  | S fuel, _ =>
      match duration_step l with
      | Some (v, rest) => if 2 ^ 63 <? acc + v then None else duration_sum fuel (acc + v) rest
      | None => None
      end
  end.

(** [time.ParseDuration]; a fraction is cut to whole nanoseconds. *)
Definition ParseDuration (s : string) : option duration :=
  let '(neg, l) := match bytes_of s with
                   | 45%N :: l => (true, l)
                   | 43%N :: l => (false, l)
                   | l => (false, l)
                   end in
  match l with
  | [48%N] => Some 0
  | [] => None
  | _ => match duration_sum (length l) 0 l with
         | Some d => if neg then Some (- d) else if 2 ^ 63 - 1 <? d then None else Some d
         | None => None
         end
  end.

(** [strconv.ParseBool] *)
Definition ParseBool (s : string) : option bool :=
  if contains s ["1"; "t"; "T"; "TRUE"; "true"; "True"]%string then Some true
  else if contains s ["0"; "f"; "F"; "FALSE"; "false"; "False"]%string then Some false
  else None.

(** ** The environment *)

Section environment.
  Context (env : Environment).

(** [os.Getenv] *)
Definition Getenv (key : string) : string := default "" (env key).

(** [envOr] *)
Definition envOr (key def : string) : string :=
  let v := Getenv key in if String.eqb v "" then def else v.

(** [envBool] *)
Definition envBool (key : string) (def : bool) : bool :=
  let v := TrimSpace (Getenv key) in
  if String.eqb v "" then def
  else match ParseBool v with Some b => b | None => def end.

(** [envInt]: only a positive number overrides the default. *)
Definition envInt (key : string) (def : Z) : Z :=
  let v := Getenv key in
  if String.eqb v "" then def
  else match ParseInt v with
       | Some n => if 0 <? n then n else def
       | None => def
       end.

(** [envDuration] *)
Definition envDuration (key : string) (def : duration) : duration :=
  let v := Getenv key in
  if String.eqb v "" then def
  else match ParseDuration v with
       | Some d => if 0 <? d then d else def
       | None => def
       end.

(** [runMigrationsAtStartup] *)
Definition runMigrationsAtStartup : bool :=
  let v := TrimSpace (Getenv "RUN_MIGRATIONS") in
  if String.eqb v "" then true
  else match ParseBool v with Some run => run | None => true end.

(** [resolveAppEnv] *)
Definition resolveAppEnv : string :=
  let named key := lower (TrimSpace (Getenv key)) in
  if negb (String.eqb (named "APP_ENV") "") then named "APP_ENV"
  else if negb (String.eqb (named "ENVIRONMENT") "") then named "ENVIRONMENT"
  else "dev".

(** [isDevLikeAppEnv] *)
Definition isDevLikeAppEnv (appEnv : string) : bool := contains appEnv ["local"; "dev"; "test"]%string.

(** [loggerEnv] *)
Definition loggerEnv (appEnv : string) : string := if isDevLikeAppEnv appEnv then "dev" else appEnv.

(** *** What must be set *)

(** [req] *)
Record req : Type := mkReq {
  req_key : string;
  req_devOK : bool;
  req_stagingWarn : bool;
  req_reason : string
}.

Definition reqs : list req :=
  [mkReq "VALKEY_URL" false false "Valkey address is required for caching";
   mkReq "SNS_TOPIC_MEMBERSHIP_ARN" true false "iam.membership.events topic ARN; events queue in outbox but never publish without it";
   mkReq "SNS_TOPIC_TENANT_ARN" true false "iam.tenant.events topic ARN; TenantCreated/TrialStarted queue but never publish without it";
   mkReq "GLUE_REGISTRY_MEMBERSHIP_NAME" true false "iam-membership-events Glue registry name; NoopCodec (plain JSON) used on that topic without it";
   mkReq "GLUE_REGISTRY_TENANT_NAME" true false "iam-tenant-events Glue registry name; NoopCodec (plain JSON) used on that topic without it";
   mkReq "REALM_PROVISIONER_BASE_URL" true false "Realm Provisioner base URL; unset makes RP calls fail OPEN (fabricated KC UUIDs, silent no-ops for GetIDPCount) — wrong in staging, fatal in production (CD-20)";
   mkReq "WORKFLOW_SERVICE_BASE_URL" true true "Workflow Service base URL; unset makes delegate-impact report zero workflows (fail-open, opposite of WFI-13 intent) — wrong in staging, fatal in production";
   mkReq "SQS_CATALOG_ORGM_QUEUE_URL" true false "catalog-orgm-q URL; unset leaves plan and department catalog changes TTL-only (up to ~15 min for I-8 feature flags) instead of seconds (LLD §6.3)";
   mkReq "CATALOG_ADMIN_BASE_URL" false false "CatalogAdminClient is NOT fail-open — absent value causes catalog_unavailable 503 on every write path that touches department/plan resolution (§20.7)";
   mkReq "SYSTEM_DATABASE_URL" true false "BYPASSRLS org_membership_migrator DSN; without it cross-tenant queries silently RLS-filter to zero rows with no alert";
   mkReq "AUDIT_LOG_BASE_URL" true true "iam-audit-log AL-5 base URL; unset skips audit writes silently — compliance records missing in staging/prod"].

Definition newline : string := String "010"%char "".

Definition isStaging (appEnv : string) : bool := String.eqb appEnv "staging".

(** The loop over [reqs]: what is missing and what is only warned about. *)
Fixpoint check_reqs (appEnv : string) (l : list req) : list string * list string :=
  match l with
  | [] => ([], [])
  | r :: l' =>
      let '(missing, warned) := check_reqs appEnv l' in
      if negb (String.eqb (Getenv (req_key r)) "") then (missing, warned)
      else if req_devOK r && isDevLikeAppEnv appEnv then (missing, warned)
      else if req_stagingWarn r && isStaging appEnv then (missing, req_key r :: warned)
      else ((req_key r +:+ ": " +:+ req_reason r) :: missing, warned)
  end.

Definition database_missing : list string :=
  if String.eqb (Getenv "DATABASE_URL") "" &&
     (String.eqb (Getenv "PG_HOST") "" || String.eqb (Getenv "PG_USER") "" || String.eqb (Getenv "PG_PASSWORD") "")
  then ["DATABASE_URL (or PG_HOST + PG_USER + PG_PASSWORD): PostgreSQL connection required"%string] else [].

Definition migration_missing : list string :=
  if default false (ParseBool (TrimSpace (Getenv "PG_BOUNCER_MODE"))) && String.eqb (Getenv "MIGRATION_DATABASE_URL") ""
  then ["MIGRATION_DATABASE_URL: required when PG_BOUNCER_MODE=true — migrations must bypass PgBouncer"%string] else [].

Definition valkey_missing (appEnv : string) : list string :=
  let v := Getenv "VALKEY_URL" in
  if contains appEnv ["prod"; "staging"]%string && negb (String.eqb v "") && negb (String.prefix "rediss://" v)
  then ["VALKEY_URL: must use rediss:// in production/staging"%string] else [].

(** [validateRequiredEnv]: the keys warned about, or the panic. *)
Definition validateRequiredEnv (appEnv : string) : result error (list string) :=
  let '(missing, warned) := check_reqs appEnv reqs in
  match missing ++ database_missing ++ migration_missing ++ valkey_missing appEnv with
  | [] => Ok warned
  | all => Err (EPlain ("startup aborted — required env vars missing or misconfigured:" +:+ newline +:+
                        String.concat "" (List.map (λ m, "  • " +:+ m +:+ newline) all)))
  end.

(** *** The outbound clients: their [New] *)

(** [envDurationMs]: a bare number is milliseconds, and its product wraps. *)
Definition envDurationMs (key : string) (def : duration) : duration :=
  let v := Getenv key in
  let parsed := match ParseDuration v with
                | Some d => if 0 <? d then d else def
                | None => def
                end in
  if String.eqb v "" then def
  else match ParseInt v with
       | Some n => if 0 <? n then wrap64 (n * millisecond) else parsed
       | None => parsed
       end.

(** [NewHTTPClient]'s and [httpx.NewClient]'s timeout. *)
Definition client_timeout (timeout def : duration) : duration := if timeout <=? 0 then def else timeout.

(** The timeouts of the seven clients, in the order of [ClientConfig], with the
    audit log's last. *)
Definition timeouts_from_env : list duration :=
  [client_timeout (envDurationMs "REALM_PROVISIONER_TIMEOUT_MS" (3 * second)) (3 * second);
   client_timeout (envDurationMs "WORKFLOW_TIMEOUT_MS" (3 * second)) (3 * second);
   client_timeout (envDurationMs "TOKEN_SERVICE_TIMEOUT_MS" (1000 * millisecond)) (1000 * millisecond);
   client_timeout (envDurationMs "DELEGATION_TIMEOUT_MS" (1000 * millisecond)) (1000 * millisecond);
   client_timeout (envDurationMs "CATALOG_ADMIN_TIMEOUT_MS" (3 * second)) (3 * second);
   client_timeout (envDurationMs "GROUP_MAPPING_TIMEOUT_MS" (300 * millisecond)) (300 * millisecond);
   client_timeout (envDurationMs "AUDIT_LOG_TIMEOUT_MS" (3000 * millisecond)) (3 * second)].

(** Their base URLs. *)
Definition clients_from_env : ClientConfig :=
  {| cc_realmProvisioner := envOr "REALM_PROVISIONER_BASE_URL" "";
     cc_workflow := envOr "WORKFLOW_SERVICE_BASE_URL" "";
     cc_workflowToken := envOr "WORKFLOW_INTERNAL_TOKEN" "";
     cc_tokenService := envOr "TOKEN_SERVICE_BASE_URL" "";
     cc_delegation := envOr "DELEGATION_BASE_URL" "";
     cc_catalog := envOr "CATALOG_ADMIN_BASE_URL" "";
     cc_groupMapping := envOr "GROUP_MAPPING_BASE_URL" "" |}.

(** *** The documentation (SECURITY-10) *)

(** [main]'s [DocsConfig], or its panic. *)
Definition docs_from_env (appEnv : string) : result error DocsConfig :=
  let enabled := String.eqb (envOr "DOCS_ENABLED" "false") "true" in
  let token := Getenv "DOCS_AUTH_TOKEN" in
  if enabled && String.eqb token "" && contains appEnv ["prod"; "staging"]%string
  then Err (EPlain "startup aborted — DOCS_ENABLED requires DOCS_AUTH_TOKEN in production/staging (SECURITY-10)")
  else Ok (mkDocsConfig appEnv enabled token).

End environment.

(** ** Connections (db.go) *)

(** [pgcommon.Config], the fields set here; [pg_GUCProvider] is whether one is
    installed. *)
Record PoolConfig : Type := mkPoolConfig {
  pg_DSN : string;
  pg_PoolName : string;
  pg_GUCProvider : bool;
  pg_PGBouncerMode : bool;
  pg_MinConns : Z;
  pg_Tracer : bool;
  pg_Logger : bool
}.

Definition SystemPoolName : string := "system".

Section connections.
  Context (env : Environment) (fromEnv : PoolConfig).   (* pgcommon.ConfigFromEnv *)

(** [DSNFromEnv] *)
Definition DSNFromEnv : string := pg_DSN fromEnv.

(** [SystemPoolConfig] *)
Definition SystemPoolConfig (dsn : string) (log : bool) : PoolConfig :=
  {| pg_DSN := dsn; pg_PoolName := SystemPoolName; pg_GUCProvider := false; pg_PGBouncerMode := true;
     pg_MinConns := match env "PG_MIN_CONNS"%string with None => 0 | Some _ => pg_MinConns fromEnv end;
     pg_Tracer := false; pg_Logger := log |}.

(** [SystemDSNFromEnv] *)
Definition SystemDSNFromEnv : string :=
  let dsn := Getenv env "SYSTEM_DATABASE_URL" in if String.eqb dsn "" then DSNFromEnv else dsn.

(** The app pool of both processes: row-level security's settings come from the
    request's context. *)
Definition AppPoolConfig : PoolConfig :=
  {| pg_DSN := DSNFromEnv; pg_PoolName := pg_PoolName fromEnv; pg_GUCProvider := true;
     pg_PGBouncerMode := pg_PGBouncerMode fromEnv; pg_MinConns := pg_MinConns fromEnv;
     pg_Tracer := true; pg_Logger := true |}.

End connections.

(** [itoa] *)
Definition itoa (n : Z) : string := if n <=? 0 then "100" else pretty n.

(** ** Migrations (migrate.go, cmd/migrate) *)

Definition ErrMigrationDirty_text : string := "migration dirty".
Definition ErrVersionNotInSource_text : string := "version not in source".

(** [explainMigrationError] *)
Definition explainMigrationError (stage : string) (err : error) : error :=
  if errors_IsPlain err ErrMigrationDirty_text
  then EWrap (stage +:+ ": a previous migration failed part-way and left the schema dirty — repair it by hand, then force the version (see docs/lld §19)") err
  else if errors_IsPlain err ErrVersionNotInSource_text
  then EWrap (stage +:+ ": the database schema is newer than this image (rolled back to an older build?) — deploy a build that contains the applied migration, or run its down migration first") err
  else EWrap stage err.

Section migrations.
  Context (ApplySchema RunMigrations : string → M unit).   (* pgmigrate.Runner over a DSN *)

(** [MigrateSchema] *)
Definition MigrateSchema (dsn : string) : M unit :=
  let! r := tryM (ApplySchema dsn) in
  match r with
  | Err e => throw (explainMigrationError "outbox schema" e)
  | Ok _ =>
      let! r := tryM (RunMigrations dsn) in
      match r with
      | Err e => throw (explainMigrationError "domain migrations" e)
      | Ok _ => retM tt
      end
  end.

(** [run] of cmd/migrate: the exit status. *)
Definition migrate_run (loggerFails : bool) (migrationDSN : string) : M Z :=
  if loggerFails then retM 1
  else if String.eqb migrationDSN "" then retM 1
  else let! r := tryM (MigrateSchema migrationDSN) in
       retM (match r with Err _ => 1 | Ok _ => 0 end).
End migrations.

(** [migrateTimeout], and what MIGRATE_TIMEOUT makes of it. *)
Definition migrateTimeout : duration := 10 * minute.
Definition migrate_timeout (env : Environment) : duration := envDuration env "MIGRATE_TIMEOUT" migrateTimeout.
