(* ===== verification/Valkey.v ===== *)
(** * Valkey: the cache adapter

    [internal/adapter/outbound/valkey/cache.go]: [port.Cache] over go-redis, and
    the names of the keys.  The client is an interface, the class
    [RedisClient]: the commands the adapter sends, on the data the server holds.
    [RedisLaws] states what the adapter relies on; [map_client] is a client
    that satisfies it. *)

From stdpp Require Import pretty.
From S2P Require Import Prelude Domain Schema Tx CacheKeys AuthzService Startup.
Open Scope Z_scope.

(** ** The client *)

(** An error of go-redis: [redis.Nil] for a key that is not there, or another. *)
Inductive redis_error : Type :=
| RedisNil
| RedisError (e : error).

(** A value of an MGET's reply, an [interface{}]. *)
Inductive redis_value : Type :=
| RVNil
| RVString (s : list N)
| RVOther.

Class RedisClient : Type := {
  redis : Type;
  client_Get : string → redis → result redis_error (list N) * redis;
  client_MGet : list string → redis → result redis_error (list redis_value) * redis;
  client_Set : string → list N → duration → redis → result redis_error unit * redis;
  client_SetNX : string → list N → duration → redis → result redis_error bool * redis;
  client_Del : list string → redis → result redis_error unit * redis;
  client_Ping : redis → result redis_error unit * redis
}.

(** What is promised: [live] are the entries that have not expired.  Entries
    only leave by themselves; a read that is answered is answered from them; a
    write that is answered happened; one that is not may have. *)
Class RedisLaws (R : RedisClient) : Type := {
  live : redis → gmap string (list N);
  law_Get key r a r' : client_Get key r = (a, r') →
    live r' ⊆ live r ∧ match a with
                       | Ok v => live r !! key = Some v
                       | Err RedisNil => live r !! key = None
                       | Err (RedisError _) => True
                       end;
  law_MGet keys r a r' : client_MGet keys r = (a, r') →
    live r' ⊆ live r ∧
    ∀ vals, a = Ok vals →
      vals = List.map (λ k, match live r !! k with Some s => RVString s | None => RVNil end) keys;
  law_Set key v ttl r a r' : client_Set key v ttl r = (a, r') →
    live r' ⊆ <[key := v]> (live r) ∨ live r' ⊆ live r ∧ ∃ e, a = Err e;
  law_SetNX key v ttl r a r' : client_SetNX key v ttl r = (a, r') →
    match a with
    | Ok true => live r !! key = None ∧ live r' ⊆ <[key := v]> (live r)
    | Ok false => live r' ⊆ live r
    | Err _ => live r' ⊆ live r ∨ live r !! key = None ∧ live r' ⊆ <[key := v]> (live r)
    end;
  law_Del keys r a r' : client_Del keys r = (a, r') →
    live r' ⊆ live r ∧ (a = Ok tt → ∀ k, k ∈ keys → live r' !! k = None)
}.

(** ** The adapter *)

(** [redis.Options], the fields set here. *)
Record Options : Type := mkOptions {
  op_Addr : string;
  op_DialTimeout : duration;
  op_ReadTimeout : duration;
  op_WriteTimeout : duration
}.

(** The options of [New]; [ParseURL] is go-redis's. *)
Definition New_options (ParseURL : string → result error Options) (addr : string) : Options :=
  let opts := match ParseURL addr with Ok opts => opts | Err _ => mkOptions addr 0 0 0 end in
  let or_default d def := if d =? 0 then def else d in
  mkOptions (op_Addr opts) (or_default (op_DialTimeout opts) (100 * millisecond))
    (or_default (op_ReadTimeout opts) (50 * millisecond)) (or_default (op_WriteTimeout opts) (50 * millisecond)).

Section adapter.
  Context `{RedisClient}.

(** [Cache.Get]: no bytes and no error on a miss. *)
Definition Get (key : string) (r : redis) : result redis_error (option (list N)) * redis :=
  match client_Get key r with
  | (Ok val, r') => (Ok (Some val), r')
  | (Err RedisNil, r') => (Ok None, r')
  | (Err e, r') => (Err e, r')
  end.

(** [Cache.MGet] *)
Definition MGet (keys : list string) (r : redis) : result redis_error (list (option (list N))) * redis :=
  match client_MGet keys r with
  | (Err e, r') => (Err e, r')
  | (Ok vals, r') => (Ok (List.map (λ v, match v with RVString s => Some s | _ => None end) vals), r')
  end.

(** [Cache.Set] *)
Definition Set_ (key : string) (value : list N) (ttl : duration) (r : redis) : result redis_error unit * redis :=
  client_Set key value ttl r.

(** [Cache.SetNX] *)
Definition SetNX (key : string) (value : list N) (ttl : duration) (r : redis) : result redis_error bool * redis :=
  client_SetNX key value ttl r.

(** [Cache.Delete] *)
Definition Delete (keys : list string) (r : redis) : result redis_error unit * redis :=
  match keys with
  | [] => (Ok tt, r)
  | _ => client_Del keys r
  end.

(** [Cache.Health] *)
Definition cache_Health (r : redis) : result redis_error unit * redis := client_Ping r.
End adapter.

(** ** Keys *)

Section keys.
  Context `{Env}.

Definition MembershipsKey (tenantID userID : uuid) : string :=
  "om:memberships:" +:+ uuid_String tenantID +:+ ":" +:+ uuid_String userID.
Definition TenantKey (tenantID : uuid) : string := "om:tenant:" +:+ uuid_String tenantID.
Definition MembersPageKey (tenantID : uuid) (limit : Z) : string :=
  "om:members:" +:+ uuid_String tenantID +:+ ":" +:+ pretty limit.
Definition DeptMembersKey (tenantID deptID : uuid) : string :=
  "om:dept_members:" +:+ uuid_String tenantID +:+ ":" +:+ uuid_String deptID.
Definition LocaleKey (tenantID : uuid) : string := "om:locale:" +:+ uuid_String tenantID.
Definition RolesKey (tenantID : uuid) : string := "om:roles:" +:+ uuid_String tenantID.
Definition GroupRoleMappingsKey (tenantID : uuid) : string := "om:grm:" +:+ uuid_String tenantID.
Definition GroupDeptMappingsKey (tenantID : uuid) : string := "om:gdm:" +:+ uuid_String tenantID.
Definition SeatUsageKey (tenantID : uuid) : string := "om:seat_usage:" +:+ uuid_String tenantID.
Definition PlansKey : string := "om:plans".
Definition DepartmentsKey : string := "om:departments".
Definition DepartmentsStaleKey : string := "om:departments:stale".
Definition PlansStaleKey : string := "om:plans:stale".

(** What the services keep in the cache, by what it is about. *)
Inductive cache_key : Type :=
| KTenant (tid : uuid) | KLocale (tid : uuid) | KRoles (tid : uuid)
| KGRM (tid : uuid) | KGDM (tid : uuid) | KGTRM (tid : uuid)
| KGRMStale (tid : uuid) | KGDMStale (tid : uuid) | KGTRMStale (tid : uuid)
| KMembers (tid : uuid) | KSeatUsage (tid : uuid)
| KDeptMembers (tid did : uuid) | KMemberships (tid uid : uuid)
| KDepartments | KDepartmentsStale | KPlans | KPlansStale
| KPlanGeneration (plan : TenantPlan).

Definition key_text (k : cache_key) : string :=
  match k with
  | KTenant t => cacheKeyTenant t | KLocale t => cacheKeyLocale t | KRoles t => cacheKeyRoles t
  | KGRM t => cacheKeyGRM t | KGDM t => cacheKeyGDM t | KGTRM t => cacheKeyGTRM t
  | KGRMStale t => cacheKeyGRMStale t | KGDMStale t => cacheKeyGDMStale t | KGTRMStale t => cacheKeyGTRMStale t
  | KMembers t => cacheKeyMembers50 t | KSeatUsage t => cacheKeySeatUsage t
  | KDeptMembers t d => cacheKeyDeptMembers t d | KMemberships t u => cacheKeyMemberships t u
  | KDepartments => cacheKeyDepartments | KDepartmentsStale => cacheKeyDepartmentsStale
  | KPlans => cacheKeyPlans | KPlansStale => cacheKeyPlansStale
  | KPlanGeneration p => PlanGenerationKey p
  end.
End keys.

(** ** A client

    The data is a map with deadlines and the server's clock; a script says of
    each command whether it is answered. *)

Inductive delivery : Type := Answered | Dropped | TimedOut.

Record map_redis : Type := mkMapRedis {
  mr_entries : gmap string (list N * option Z);
  mr_now : Z;
  mr_script : list delivery
}.

Definition mr_live (r : map_redis) : gmap string (list N) :=
  omap (λ e : list N * option Z,
          if from_option (λ deadline, mr_now r <? deadline) true (snd e) then Some (fst e) else None) (mr_entries r).

(** A time to live of zero is none. *)
Definition mr_put (key : string) (v : list N) (ttl : duration) (r : map_redis) : gmap string (list N * option Z) :=
  <[key := (v, if ttl =? 0 then None else Some (mr_now r + ttl))]> (mr_entries r).

Definition mr_error : redis_error := RedisError (EPlain "i/o timeout").

(** One command: [f] is its reply and what it does to the entries. *)
Definition mr_command {A} (f : result redis_error A * gmap string (list N * option Z)) (r : map_redis)
  : result redis_error A * map_redis :=
  let script := tail (mr_script r) in
  match default Answered (head (mr_script r)) with
  | Answered => (fst f, mkMapRedis (snd f) (mr_now r) script)
  | Dropped => (Err mr_error, mkMapRedis (mr_entries r) (mr_now r) script)
  | TimedOut => (Err mr_error, mkMapRedis (snd f) (mr_now r) script)
  end.

#[export] Instance map_client : RedisClient := {|
  redis := map_redis;
  client_Get key r := mr_command (match mr_live r !! key with Some v => Ok v | None => Err RedisNil end, mr_entries r) r;
  client_MGet keys r :=
    mr_command (Ok (List.map (λ k, match mr_live r !! k with Some s => RVString s | None => RVNil end) keys), mr_entries r) r;
  client_Set key v ttl r := mr_command (Ok tt, mr_put key v ttl r) r;
  client_SetNX key v ttl r :=
    mr_command (match mr_live r !! key with
                | Some _ => (Ok false, mr_entries r)
                | None => (Ok true, mr_put key v ttl r)
                end) r;
  client_Del keys r := mr_command (Ok tt, List.fold_right (λ k m, delete k m) (mr_entries r) keys) r;
  client_Ping r := mr_command (Ok tt, mr_entries r) r
|}.
