(* ===== verification/Metrics.v ===== *)
(** * Metrics: the service's counters

    [internal/adapter/outbound/metrics/business.go]: which collectors exist with
    which labels, the helpers that record on them, and the series that exist at
    zero from the start.  A collector is known by its name; a series is a name
    with its label values.  A histogram is the number of its observations.
    Prometheus panics when a collector is given another number of label values
    than it has labels: that is an error here.  The collectors of the platform's
    own registry are built by gincommon, so the number of their labels is an
    argument.

    The theorems: every helper gives its collector the number of label values it
    has, so none of them panics; the lists of event types agree with what the
    consumer does. *)

From Stdlib Require Import Ascii String.
From S2P Require Import Prelude Domain Json Tx Consumer Clients.
Open Scope Z_scope.

(** ** The registry *)

Record Metrics : Type := mkMetrics {
  mt_labels : gmap string nat;
  mt_series : gmap (string * list string) Z
}.

Definition no_metrics : Metrics := mkMetrics ∅ ∅.

(** [c.WithLabelValues(values...)] and adding [n] to it, behind the check for a
    collector that was not built. *)
Definition record (name : string) (values : list string) (n : Z) (m : Metrics) : result error Metrics :=
  match mt_labels m !! name with
  | None => Ok m
  | Some labels =>
      if Nat.eqb (length values) labels
      then Ok (mkMetrics (mt_labels m) (<[(name, values) := default 0 (mt_series m !! (name, values)) + n]> (mt_series m)))
      else Err (EPlain "inconsistent label cardinality")
  end.

Definition Inc (name : string) (values : list string) : Metrics → result error Metrics := record name values 1.

(** [registerShared]'s collectors. *)
Definition shared_collectors : list string :=
  ["platform_duplicate_messages_total"; "platform_dlq_messages_total"; "platform_dependency_request_seconds";
   "iam_rls_violations_total"; "iam_auth_session_revoke_failed_total"].

(** [registerServiceMetrics]: the names, after their prefix, and their labels. *)
Definition service_collectors : list (string * list string) :=
  [("dependency_call_duration_seconds", ["target_service"; "endpoint"]);
   ("dependency_call_failures_total", ["target_service"; "endpoint"; "reason"]);
   ("processed_events_duplicates_total", ["consumer"]);
   ("lifecycle_event_skipped_total", ["event_type"]);
   ("lifecycle_event_lag_seconds", ["event_type"]);
   ("unknown_event_acknowledged_total", ["event_type"]);
   ("delegate_suspend_impact_total", ["checked"]);
   ("tenant_ownerless_escalated_total", ["reason"]);
   ("seat_overage_started_total", ["cause"]);
   ("seat_limit_reached_total", ["plan"]);
   ("invite_throttled_total", ["reason"]);
   ("realm_sync_failed_total", ["stage"]);
   ("delegate_removal_blocked_total", ["scope"]);
   ("delegate_reassignment_total", ["action"]);
   ("membership_exists_check_total", ["caller"; "result"]);
   ("consumed_event_rejected_total", ["event_type"; "reason"]);
   ("public_tenant_resolve_total", ["result"]);
   ("catalog_cache_invalidated_total", []);
   ("audit_delivery_failed_total", ["entry_type"]);
   ("plan_change_check_total", ["result"]);
   ("assignee_eligibility_check_total", ["result"]);
   ("department_list_total", ["result"]);
   ("tenant_provisioning_backstop_total", ["result"]);
   ("trial_eligibility_check_total", ["result"]);
   ("tenant_events_parked_total", ["event_type"]);
   ("tenant_events_replayed_total", ["event_type"; "trigger"]);
   ("tenant_header_path_mismatch_total", ["route"; "method"; "action"])]%string.

Definition own (name : string) : string := "iam_org_membership_" +:+ name.

(** ** Label values *)

(** [eventLabel] *)
Definition eventLabel (eventType : string) : string :=
  if String.eqb eventType "" then "unknown"
  else if Nat.ltb 128 (String.length eventType) then "__oversized__"
  else eventType.

(** [endpointLabel]: [strings.ReplaceAll(endpoint, "-", "_")]. *)
Fixpoint endpointLabel (endpoint : string) : string :=
  match endpoint with
  | EmptyString => EmptyString
  | String c s => String (if Ascii.eqb c "-"%char then "_"%char else c) (endpointLabel s)
  end.

(** [DependencyErrorReason]; [timeout] is whether a [net.Error] in the chain
    reports one. *)
Definition DependencyErrorReason (timeout : error → bool) (err : error) : string :=
  if timeout err then "timeout"
  else if errors_IsPlain err "context deadline exceeded" then "timeout"
  else "transport".

(** [HTTPStatusReason] *)
Definition HTTPStatusReason (status : Z) : string :=
  if (400 <=? status) && (status <? 500) then "http_4xx"
  else if (500 <=? status) && (status <? 600) then "http_5xx"
  else "http_other".

Definition rlsViolationTypes : list string :=
  ["cross_tenant_access"; "missing_or_invalid_guc"; "missing_primary_email"; "other"].

(** [handledEventTypes] and [parkableEventTypes] *)
Definition handledEventTypes : list string :=
  ["TenantIdentityProvisioned"; "TenantRealmReady"; "TenantConverted"; "DirectPaidSignup"; "TrialExpired";
   "TrialReactivated"; "TenantSuspended"; "TenantOffboarded"; "TenantPlanChanged"; "TenantPaymentPastDue";
   "TenantSubscriptionCancelled"; "TenantReactivated"; "TenantSeatsChanged"; "DepartmentCatalogChanged"].
Definition parkableEventTypes : list string :=
  ["TenantRealmReady"; "TenantConverted"; "DirectPaidSignup"; "TrialExpired"; "TrialReactivated"; "TenantSuspended";
   "TenantPlanChanged"; "TenantPaymentPastDue"; "TenantSubscriptionCancelled"; "TenantReactivated"; "TenantSeatsChanged"].

(** ** The helpers *)

Definition IncDuplicate (consumer eventType : string) := Inc (own "processed_events_duplicates_total") [consumer].
Definition IncConsumedEventRejected (eventType reason : string) :=
  Inc (own "consumed_event_rejected_total") [eventLabel eventType; reason].
Definition ObserveDependencyLatency (targetService endpoint : string) :=
  Inc (own "dependency_call_duration_seconds") [targetService; endpointLabel endpoint].

(** [ObserveDependencyCall]; the response's status when there is one. *)
Definition ObserveDependencyCall (targetService endpoint : string) (status : option Z) (err : option error) (m : Metrics)
  : result error Metrics :=
  match ObserveDependencyLatency targetService endpoint m with
  | Err e => Err e
  | Ok m =>
      let failed := notNull err || match status with Some s => 500 <=? s | None => true end in
      Inc "platform_dependency_request_seconds"
        [targetService; endpointLabel endpoint; if failed then "error" else "success"]%string m
  end.

Definition IncDependencyError (targetService endpoint reason : string) :=
  Inc (own "dependency_call_failures_total") [targetService; endpointLabel endpoint; reason].
Definition IncMembershipExistsCheck (caller result : string) := Inc (own "membership_exists_check_total") [caller; result].
Definition IncPublicTenantResolve (result : string) := Inc (own "public_tenant_resolve_total") [result].
Definition IncDelegateRemovalBlocked (scope : string) := Inc (own "delegate_removal_blocked_total") [scope].
Definition IncDelegateReassignment (action : string) := Inc (own "delegate_reassignment_total") [action].
Definition IncInviteThrottled (reason : string) := Inc (own "invite_throttled_total") [reason].
Definition IncSeatLimitReached (plan : string) := Inc (own "seat_limit_reached_total") [plan].
Definition IncSeatOverageStarted (cause : string) := Inc (own "seat_overage_started_total") [cause].
Definition IncRealmSyncFailed (stage : string) := Inc (own "realm_sync_failed_total") [stage].
Definition IncCatalogCacheInvalidated := Inc (own "catalog_cache_invalidated_total") [].
Definition IncAuditDeliveryFailed (entryType : string) := Inc (own "audit_delivery_failed_total") [entryType].
Definition IncPlanChangeCheck (result : string) := Inc (own "plan_change_check_total") [result].
Definition IncAssigneeEligibilityCheck (result : string) := Inc (own "assignee_eligibility_check_total") [result].
Definition IncDepartmentList (result : string) := Inc (own "department_list_total") [result].
Definition IncTenantHeaderPathMismatch (route method action : string) :=
  Inc (own "tenant_header_path_mismatch_total") [route; method; action].
Definition IncTenantEventParked (eventType : string) := Inc (own "tenant_events_parked_total") [eventType].
Definition IncTenantEventReplayed (eventType trigger : string) :=
  Inc (own "tenant_events_replayed_total") [eventType; trigger].
Definition IncTrialEligibilityCheck (result : string) := Inc (own "trial_eligibility_check_total") [result].
Definition IncProvisioningBackstop (result : string) := Inc (own "tenant_provisioning_backstop_total") [result].
Definition ObserveLifecycleEventLag (eventType : string) := Inc (own "lifecycle_event_lag_seconds") [eventType].

(** [AddRLSViolations]: a type outside the registry's set is "other". *)
Definition rls_label (violationType : string) : string :=
  if contains violationType rlsViolationTypes then violationType else "other".
Definition AddRLSViolations (violationType : string) (n : Z) := record "iam_rls_violations_total" [rls_label violationType] n.

(** [PrewarmTenantHeaderPathMismatch] *)
Definition prewarm_series (l : list (string * list string)) (m : Metrics) : result error Metrics :=
  List.fold_left (λ r s, andThen r (record (fst s) (snd s) 0)) l (Ok m).
Definition PrewarmTenantHeaderPathMismatch (route method : string) : Metrics → result error Metrics :=
  prewarm_series (List.map (λ action, (own "tenant_header_path_mismatch_total", [route; method; action]))
                    ["overridden"; "rejected"]%string).

(** ** Registration *)

(** The series of [prewarm]. *)
Definition prewarmed : list (string * list string) :=
  let each name values := List.map (λ v : string, (own name, [v])) values in
  List.concat [List.map (λ t, ("iam_rls_violations_total", [t])) rlsViolationTypes;
   List.map (λ r, ("iam_auth_session_revoke_failed_total", [r])) ["transport"; "http_4xx"; "http_5xx"; "http_other"];
   each "lifecycle_event_skipped_total"
     (select (λ t, negb (contains t ["DepartmentCatalogChanged"; "TenantIdentityProvisioned"])) handledEventTypes);
   List.flat_map (λ t, [(own "consumed_event_rejected_total", [t; "future_time_clamp"]);
                        (own "consumed_event_rejected_total", [t; "schema_violation"])]) handledEventTypes;
   [(own "consumed_event_rejected_total", ["TenantIdentityProvisioned"; "provisioning_rejected"])];
   each "tenant_provisioning_backstop_total" ["created"; "already_exists"];
   each "trial_eligibility_check_total" ["eligible"; "already_used"];
   each "department_list_total" ["success"; "error"];
   List.flat_map (λ t, [(own "tenant_events_parked_total", [t]);
                        (own "tenant_events_replayed_total", [t; "provisioning"]);
                        (own "tenant_events_replayed_total", [t; "sweep"])]) parkableEventTypes;
   each "realm_sync_failed_total" ["patch_realm_config"; "clear_marker"];
   each "delegate_removal_blocked_total" ["tenant_removal"; "dept_removal"; "dept_demotion"];
   each "delegate_reassignment_total" ["replace_delegate"; "stop_workflows"];
   each "invite_throttled_total" ["reinvite_too_soon"; "tenant_rate_limited"; "actor_rate_limited"];
   each "seat_overage_started_total" ["occupancy"];
   List.flat_map (λ c, [(own "membership_exists_check_total", [c; "active"]);
                        (own "membership_exists_check_total", [c; "inactive"])]) ["tender-acl"; "delegation"];
   each "public_tenant_resolve_total" ["found"; "not_found"];
   each "plan_change_check_total" ["allowed"; "blocked"; "error"];
   each "assignee_eligibility_check_total"
     ["eligible"; "not_member"; "member_not_active"; "department_not_active"; "not_in_department"; "level_insufficient"];
   each "audit_delivery_failed_total"
     ["config.tenant_setting.changed"; "invitation.created"; "invitation.revoked"; "invitation.expired"]]%string.

(** [Register]: once, and only after gincommon has an identity; [shared] are the
    labels of the platform's collectors. *)
Definition registered (shared : string → nat) (m : Metrics) : Metrics :=
  mkMetrics (list_to_map (List.map (λ n, (n, shared n)) shared_collectors ++
                          List.map (λ c : string * list string, (own (fst c), length (snd c))) service_collectors))
    (mt_series m).

Definition Register (shared : string → nat) (identity done : bool) (m : Metrics) : result error (bool * Metrics) :=
  if done || negb identity then Ok (done, m)
  else andThen (prewarm_series prewarmed (registered shared m)) (λ m, Ok (true, m)).

(** ** The platform's registry (registry.go) *)

(** [RegistryStatus] and [RegistryEntry], without its texts. *)
Inductive RegistryStatus : Type := StatusCanonical | StatusProposed.

Record RegistryEntry : Type := mkRegistryEntry {
  re_Name : string;
  re_Tier : string;
  re_Status : RegistryStatus;
  re_RequiredLabels : list string;
  re_ApprovedLabels : list string;
  re_SupersedesTier3 : list string
}.

(** [PlatformRegistry] *)
Definition PlatformRegistry : list RegistryEntry :=
  let required := ["domain"; "service"; "environment"]%string in
  [mkRegistryEntry "platform_dependency_request_seconds" "platform" StatusProposed required
     ["dependency"; "operation"; "outcome"]
     ["iam_org_membership_dependency_call_duration_seconds"; "iam_org_membership_dependency_call_failures_total"];
   mkRegistryEntry "platform_duplicate_messages_total" "platform" StatusProposed required
     ["queue"; "event_type"] ["iam_org_membership_processed_events_duplicates_total"];
   mkRegistryEntry "platform_dlq_messages_total" "platform" StatusCanonical required
     ["operation"; "event_type"; "reason"] []]%string.

(** ** Calls *)

Inductive metric_call : Type :=
| MDuplicate (consumer eventType : string)
| MRejected (eventType reason : string)
| MLatency (targetService endpoint : string)
| MDependencyCall (targetService endpoint : string) (status : option Z) (err : option error)
| MDependencyError (targetService endpoint reason : string)
| MExistsCheck (caller result : string)
| MPublicResolve (result : string)
| MRemovalBlocked (scope : string)
| MReassignment (action : string)
| MInviteThrottled (reason : string)
| MSeatLimit (plan : string)
| MSeatOverage (cause : string)
| MRealmSyncFailed (stage : string)
| MCatalogInvalidated
| MAuditFailed (entryType : string)
| MPlanChange (result : string)
| MEligibility (result : string)
| MDepartmentList (result : string)
| MHeaderMismatch (route method action : string)
| MPrewarmMismatch (route method : string)
| MParked (eventType : string)
| MReplayed (eventType trigger : string)
| MTrialEligibility (result : string)
| MBackstop (result : string)
| MLag (eventType : string)
| MRLSViolations (violationType : string) (n : N).

Definition run_call (c : metric_call) : Metrics → result error Metrics :=
  match c with
  | MDuplicate consumer t => IncDuplicate consumer t
  | MRejected t reason => IncConsumedEventRejected t reason
  | MLatency s e => ObserveDependencyLatency s e
  | MDependencyCall s e status err => ObserveDependencyCall s e status err
  | MDependencyError s e reason => IncDependencyError s e reason
  | MExistsCheck caller r => IncMembershipExistsCheck caller r
  | MPublicResolve r => IncPublicTenantResolve r
  | MRemovalBlocked scope => IncDelegateRemovalBlocked scope
  | MReassignment action => IncDelegateReassignment action
  | MInviteThrottled reason => IncInviteThrottled reason
  | MSeatLimit plan => IncSeatLimitReached plan
  | MSeatOverage cause => IncSeatOverageStarted cause
  | MRealmSyncFailed stage => IncRealmSyncFailed stage
  | MCatalogInvalidated => IncCatalogCacheInvalidated
  | MAuditFailed t => IncAuditDeliveryFailed t
  | MPlanChange r => IncPlanChangeCheck r
  | MEligibility r => IncAssigneeEligibilityCheck r
  | MDepartmentList r => IncDepartmentList r
  | MHeaderMismatch route method action => IncTenantHeaderPathMismatch route method action
  | MPrewarmMismatch route method => PrewarmTenantHeaderPathMismatch route method
  | MParked t => IncTenantEventParked t
  | MReplayed t trigger => IncTenantEventReplayed t trigger
  | MTrialEligibility r => IncTrialEligibilityCheck r
  | MBackstop r => IncProvisioningBackstop r
  | MLag t => ObserveLifecycleEventLag t
  | MRLSViolations t n => AddRLSViolations t (Z.of_N n)
  end.

Definition run_calls (calls : list metric_call) (m : Metrics) : result error Metrics :=
  List.fold_left (λ r c, andThen r (run_call c)) calls (Ok m).

(** ** Progress of the series *)

(** The same collectors, and no series went down or away. *)
Definition advances (m m' : Metrics) : Prop :=
  mt_labels m' = mt_labels m ∧
  ∀ s n, mt_series m !! s = Some n → ∃ n', mt_series m' !! s = Some n' ∧ n <= n'.

#[export] Instance advances_preorder : PreOrder advances.
Proof.
  split; [split; [done|]; intros s n Hs; by exists n|].
  intros a b c [L1 S1] [L2 S2]. split; [congruence|]. intros s n Hs.
  destruct (S1 s n Hs) as (n1 & H1 & ?). destruct (S2 s n1 H1) as (n2 & H2 & ?). exists n2. split; [done|lia].
Qed.

(** A step that succeeds and advances. *)
Definition fine (f : Metrics → result error Metrics) (m : Metrics) : Prop := ∃ m', f m = Ok m' ∧ advances m m'.

Lemma record_fine name values n m :
  mt_labels m !! name = Some (length values) → 0 <= n → fine (record name values n) m.
Proof.
  intros Hl Hn. unfold fine, record. rewrite Hl, Nat.eqb_refl. eexists. split; [reflexivity|]. split; [done|].
  intros s k Hs. cbn. destruct (decide (s = (name, values))) as [->|Hne].
  - rewrite lookup_insert_eq, Hs. cbn. eexists. split; [reflexivity|lia].
  - rewrite lookup_insert_ne by done. by exists k.
Qed.

Lemma record_present name values n m m' :
  mt_labels m !! name = Some (length values) → record name values n m = Ok m' → is_Some (mt_series m' !! (name, values)).
Proof. unfold record. intros ->. rewrite Nat.eqb_refl. intros [= <-]. cbn. by rewrite lookup_insert_eq. Qed.

(** A sequence of steps that are fine wherever the collectors are the same. *)
Lemma fold_fine {A} (f : A → Metrics → result error Metrics) l m :
  (∀ a m', a ∈ l → mt_labels m' = mt_labels m → fine (f a) m') →
  fine (λ m, List.fold_left (λ r a, andThen r (f a)) l (Ok m)) m.
Proof.
  revert m. induction l as [|a l IH]; intros m Hf; [by exists m|].
  destruct (Hf a m) as (m1 & E1 & A1); [left|done|]. unfold fine. cbn. rewrite E1.
  destruct (IH m1) as (m2 & E2 & A2).
  { intros b m' Hb Hm. apply Hf; [by right|]. rewrite Hm. apply A1. }
  exists m2. split; [exact E2|by transitivity m1].
Qed.

(** Pre-warming series that fit their collectors makes them exist. *)
Lemma prewarm_fine l m :
  (∀ s, s ∈ l → mt_labels m !! s.1 = Some (length s.2)) →
  ∃ m', prewarm_series l m = Ok m' ∧ advances m m' ∧ ∀ s, s ∈ l → is_Some (mt_series m' !! s).
Proof.
  revert m. induction l as [|[name values] l IH]; intros m Hfit.
  { exists m. split; [done|]. split; [done|]. intros s Hs. by apply elem_of_nil in Hs. }
  destruct (record_fine name values 0 m) as (m1 & E1 & A1); [apply (Hfit (name, values)); left|done|].
  destruct (IH m1) as (m2 & E2 & A2 & P2); [intros s Hs; rewrite (proj1 A1); apply Hfit; by right|].
  exists m2. split; [unfold prewarm_series in *; cbn; by rewrite E1|]. split; [by transitivity m1|].
  intros s [->|Hs]%elem_of_cons; [|by apply P2].
  destruct (record_present name values 0 m m1) as [n Hn]; [apply (Hfit (name, values)); left|done|].
  destruct (proj2 A2 _ _ Hn) as (n' & Hn' & _). by exists n'.
Qed.

Section registered.
  Context (shared : string → nat).
  Context (shared_rls : shared "iam_rls_violations_total" = 1%nat).
  Context (shared_revoke : shared "iam_auth_session_revoke_failed_total" = 1%nat).
  Context (shared_dependency : shared "platform_dependency_request_seconds" = 3%nat).

Definition ready (m : Metrics) : Prop := mt_labels m = mt_labels (registered shared no_metrics).

Lemma Inc_fine name values m :
  ready m → mt_labels (registered shared no_metrics) !! name = Some (length values) → fine (Inc name values) m.
Proof. intros Hr Hl. apply record_fine; [by rewrite Hr|done]. Qed.

Ltac inc_fine := apply Inc_fine; [assumption|vm_compute; reflexivity].

Lemma call_fine c m : ready m → fine (run_call c) m.
Proof.
  intros Hr. destruct c; cbn [run_call];
    unfold IncDuplicate, IncConsumedEventRejected, ObserveDependencyLatency, IncDependencyError, IncMembershipExistsCheck,
      IncPublicTenantResolve, IncDelegateRemovalBlocked, IncDelegateReassignment, IncInviteThrottled, IncSeatLimitReached,
      IncSeatOverageStarted, IncRealmSyncFailed, IncCatalogCacheInvalidated, IncAuditDeliveryFailed, IncPlanChangeCheck,
      IncAssigneeEligibilityCheck, IncDepartmentList, IncTenantHeaderPathMismatch, IncTenantEventParked,
      IncTenantEventReplayed, IncTrialEligibilityCheck, IncProvisioningBackstop, ObserveLifecycleEventLag; try inc_fine.
  - assert (fine (ObserveDependencyLatency targetService endpoint) m) as (m1 & E1 & A1) by inc_fine.
    assert (ready m1) as Hr1 by (unfold ready; by rewrite (proj1 A1)).
    destruct (Inc_fine "platform_dependency_request_seconds"
      [targetService; endpointLabel endpoint;
       if notNull err || match status with Some s => (500 <=? s)%Z | None => true end then "error" else "success"]%string m1 Hr1)
      as (m2 & E2 & A2); [cbn [length]; rewrite <- shared_dependency; reflexivity|].
    exists m2. split; [|by transitivity m1]. unfold ObserveDependencyCall. rewrite E1. exact E2.
  - apply (fold_fine (λ s : string * list string, record s.1 s.2 0)). intros s m' Hs Hm. rewrite Hr in Hm.
    apply list_elem_of_In in Hs. cbn in Hs. destruct Hs as [<-|[<-|[]]];
      (apply record_fine; [rewrite Hm; vm_compute; reflexivity|done]).
  - apply record_fine; [|lia]. rewrite Hr. cbn [length]. rewrite <- shared_rls. reflexivity.
Qed.

(** The labels of a pre-warmed series are those of its collector. *)
Definition fits (s : string * list string) : bool :=
  match mt_labels (registered shared no_metrics) !! s.1 with
  | Some labels => Nat.eqb (length s.2) labels
  | None => false
  end.

Lemma prewarmed_fits : forallb fits prewarmed = true.
Proof.
  unfold prewarmed. cbn [List.concat]. rewrite !List.forallb_app.
  repeat (apply andb_true_intro; split);
    try (vm_compute; reflexivity); cbn; unfold fits; cbn; rewrite ?shared_rls, ?shared_revoke; reflexivity.
Qed.
(** Recording never fails.  Once gincommon has an identity, [Register] builds the
    collectors, and from then on, whatever the helpers are called with and in
    whatever order, no collector gets a wrong number of label values; no series
    goes down; and every series listed to exist from the start does. *)
Theorem metrics_never_panic calls m :
  ∃ m1 m2, Register shared true false m = Ok (true, m1) ∧ run_calls calls m1 = Ok m2 ∧ advances m1 m2 ∧
    ∀ s, s ∈ prewarmed → is_Some (mt_series m2 !! s).
Proof.
  destruct (prewarm_fine prewarmed (registered shared m)) as (m1 & E1 & A1 & P1).
  { intros s Hs. pose proof prewarmed_fits as Hf. rewrite List.forallb_forall in Hf.
    specialize (Hf s (proj1 (list_elem_of_In _ _) Hs)). unfold fits in Hf.
    change (mt_labels (registered shared m)) with (mt_labels (registered shared no_metrics)).
    destruct (mt_labels _ !! s.1) as [k|]; [|done]. by apply Nat.eqb_eq in Hf as ->. }
  destruct (fold_fine run_call calls m1) as (m2 & E2 & A2).
  { intros c m' _ Hm. apply call_fine. unfold ready. rewrite Hm, (proj1 A1). done. }
  exists m1, m2. split; [unfold Register; cbn [orb negb]; by rewrite E1|]. split; [exact E2|]. split; [done|].
  intros s Hs. destruct (P1 s Hs) as [n Hn]. destruct (proj2 A2 s n Hn) as (n' & Hn' & _). by exists n'.
Qed.
End registered.

(** ** Event types *)

Lemma classify_known t : classify t ≠ kindUnknown ↔ t ∈ List.map fst knownEvents.
Proof.
  unfold classify. destruct (List.find _ _) as [[k [ty kind]]|] eqn:E.
  - apply List.find_some in E as [Hin <-%String.eqb_eq]. split; intros _.
    + apply list_elem_of_In, List.in_map_iff. by exists (k, (ty, kind)).
    + cbn. intros Hk. assert (List.forallb (λ e : string * (EventType * eventKind),
        match e.2.2 with kindUnknown => false | _ => true end) knownEvents = true) as Hall by reflexivity.
      rewrite List.forallb_forall in Hall. specialize (Hall _ Hin). cbn in Hall. by rewrite Hk in Hall.
  - split; [done|]. intros (e & <- & Hin)%list_elem_of_In%List.in_map_iff.
    pose proof (List.find_none _ _ E e Hin) as Hn. cbn in Hn. apply String.eqb_neq in Hn. done.
Qed.

(** The events that can be parked, and so are counted under types that exist
    from the start, are the known ones but for the signup and the offboarding
    (EVT-18). *)
Theorem parkable_types t :
  t ∈ parkableEventTypes ↔ classify t ≠ kindUnknown ∧ t ∉ ["TenantIdentityProvisioned"; "TenantOffboarded"]%string.
Proof.
  rewrite classify_known. cbn [List.map knownEvents fst]. unfold parkableEventTypes. set_unfold. split.
  - intros Ht. split; [tauto|]. intros Hn. decompose [or] Hn; subst; decompose [or] Ht; done.
  - intros [Hk Hn]. tauto.
Qed.

(** The types whose rejections exist from the start are the known ones and one
    of the two of the catalog. *)
Theorem handled_types t :
  t ∈ handledEventTypes ↔ classify t ≠ kindUnknown ∨ t = "DepartmentCatalogChanged"%string.
Proof.
  rewrite classify_known. cbn [List.map knownEvents fst]. unfold handledEventTypes. set_unfold. tauto.
Qed.

(** ** The registry and the helpers *)

(** A call leaves the series of a collector alone. *)
Definition untouched (name : string) (f : Metrics → result error Metrics) : Prop :=
  ∀ m m' values, f m = Ok m' → mt_series m' !! (name, values) = mt_series m !! (name, values).

Lemma record_untouched name name' values n : name' ≠ name → untouched name (record name' values n).
Proof.
  intros Hne m m' v. unfold record. destruct (mt_labels m !! name'); [|by intros [= <-]].
  destruct (Nat.eqb _ _); [|done]. intros [= <-]. cbn. rewrite lookup_insert_ne; [done|congruence].
Qed.

Lemma fold_untouched {A} name (f : A → Metrics → result error Metrics) l :
  (∀ a, a ∈ l → untouched name (f a)) → untouched name (λ m, List.fold_left (λ r a, andThen r (f a)) l (Ok m)).
Proof.
  induction l as [|a l IH]; intros Hf m m' v; cbn; [by intros [= <-]|].
  destruct (f a m) as [m1|e] eqn:E; cbn.
  - intros H1. rewrite (IH (λ b Hb, Hf b ltac:(by right)) m1 m' v H1). by eapply Hf; [left|].
  - intros H1. exfalso. revert H1. clear. by induction l.
Qed.

(** What the platform's library writes. *)
Definition library_series : list string := ["platform_duplicate_messages_total"; "platform_dlq_messages_total"]%string.

Lemma call_untouched name c : name ∈ library_series → untouched name (run_call c).
Proof.
  intros Hn. assert (∀ a vs n, contains a library_series = false → untouched name (record a vs n)) as Hu.
  { intros a vs n Hc. apply record_untouched. intros ->. unfold contains in Hc. by rewrite bool_decide_eq_true_2 in Hc. }
  destruct c; try (by apply Hu).
  - intros m m' v. cbn. unfold ObserveDependencyCall.
    destruct (ObserveDependencyLatency _ _ m) as [m1|] eqn:E; [|done]. intros E2.
    assert (mt_series m' !! (name, v) = mt_series m1 !! (name, v)) as -> by (by eapply Hu; [|exact E2]).
    by eapply Hu; [|exact E].
  - apply (fold_untouched name (λ s : string * list string, record s.1 s.2 0)). intros s Hs. apply Hu.
    cbn in Hs. set_unfold in Hs. by destruct Hs as [->|[->|[]]].
Qed.

(** The registry lists what the service is said to write itself: its names are
    collectors the service builds, and what they supersede are its own.  Of the
    three, the helpers write to the first only; the series of the other two are
    left to the platform's library. *)
Theorem registry_written :
  Forall (λ e, re_Name e ∈ shared_collectors ∧
               Forall (λ t, t ∈ List.map (λ c, own (fst c)) service_collectors) (re_SupersedesTier3 e)) PlatformRegistry ∧
  (∀ calls name, name ∈ library_series → untouched name (run_calls calls)) ∧
  ¬ untouched "platform_dependency_request_seconds" (run_calls [MDependencyCall "catalog" "plans" (Some 200) None]).
Proof.
  split_and!.
  - apply (bool_decide_unpack _). vm_compute. exact I.
  - intros calls name Hn. apply (fold_untouched name run_call). intros c _. by apply call_untouched.
  - intros Hu. set (m := registered (λ _, 3%nat) no_metrics).
    specialize (Hu m _ ["catalog"; "plans"; "success"]%string eq_refl). vm_compute in Hu. discriminate Hu.
Qed.
