(* ===== verification/Server.v ===== *)
(** * Server: how the processes are put together

    [main] of [cmd/server] (which consumers run on which queue, with which
    settings, the services' limits, readiness and the order of shutdown),
    [wiring.go], [consumer_heartbeat.go], [exporters.go], and [run] of
    [cmd/reconciler].
    Connections, AWS clients and listeners are the libraries'; what their
    constructors answer is an argument. *)

From Stdlib Require Import String.
From stdpp Require Import pretty.
From S2P Require Import Prelude Domain Schema Tx EventStores Consumer CatalogService InvitationService.
From S2P Require Import Json ProvisioningService ReadModels Jobs EventBus Pipeline Http HttpHandlers Router Clients Startup Metrics.
From S2P Require CatalogConsumer.
Open Scope Z_scope.

(** Microseconds of a duration, rounded down and up. *)
Definition micros (d : duration) : Z := d / 1000.
Definition micros_up (d : duration) : Z := - (- d / 1000).

(** ** The services' settings *)

Section settings.
  Context (env : Environment).

(** The limits of invitations (PI-11, PI-12, SECURITY-5). *)
Definition server_invitations : InvitationConfig :=
  mkInvitationConfig (envInt env "INVITATION_EXPIRY_DAYS" 7)
    (micros_up (wrap64 (envInt env "INVITE_REINVITE_COOLDOWN_MINUTES" 60 * minute)))
    (envInt env "INVITE_MAX_PER_TENANT_PER_HOUR" 200)
    (envInt env "INVITE_MAX_PER_ACTOR_PER_HOUR" 10).

(** The skew of the consumers. *)
Definition server_skew : Z := skew_or_default (micros (envDuration env "MAX_LIFECYCLE_EVENT_SKEW_SECONDS" (300 * second))).

Section services.
  Context `{Env} `{CatalogReader}.

(** [membershipConsumer] as the provisioning services see it: [ReplayParked]
    does not provision. *)
Definition server_replayer : uuid → M Z :=
  Consumer.replayParked (mkConsumerConfig None true true server_skew).

(** [backstopProvisioning]: no trial ledger. *)
Definition backstopProvisioning : ProvisioningConfig := mkProvisioningConfig true (Some server_replayer) false.

(** [membershipConsumer] *)
Definition membershipConsumer : ConsumerConfig :=
  mkConsumerConfig (Some (TrialSignup backstopProvisioning)) true true server_skew.

(** The configuration behind [NewRouter]; the platform's middlewares and
    [time.Parse] are arguments. *)
Definition server_http (protected : Request → option problem) (time_Parse : list N → option time) : HttpConfig :=
  {| hc_txRunner := true;
     hc_invitations := server_invitations;
     hc_provisioning := mkProvisioningConfig true (Some server_replayer) true;
     hc_seatOverageDays := envInt env "SEAT_OVERAGE_GRACE_DAYS" 30;
     hc_graceDays := envInt env "SUBSCRIPTION_GRACE_DAYS" 30;
     hc_departments := true;
     hc_strictTenantPath := envBool env "STRICT_TENANT_PATH_VALIDATION" false;
     hc_me := true; hc_public := true;
     hc_protected := protected; hc_time_Parse := time_Parse |}.

(** ** The consumers *)

(** [ConsumerHeartbeat] *)
Record ConsumerHeartbeat : Type := mkConsumerHeartbeat {
  hb_queue : string;
  hb_alive : bool;
  hb_startedAt : time
}.

(** [newConsumerHeartbeat] *)
Definition newConsumerHeartbeat (queue : string) (now : time) : ConsumerHeartbeat := mkConsumerHeartbeat queue true now.

(** [MarkDead] *)
Definition MarkDead (h : ConsumerHeartbeat) : ConsumerHeartbeat := mkConsumerHeartbeat (hb_queue h) false (hb_startedAt h).

(** [Duration.String] of whole seconds. *)
Definition seconds_text (s : Z) : string :=
  let h := s / 3600 in let m := s / 60 mod 60 in let r := s mod 60 in
  (if 0 <? h then pretty h +:+ "h" else "") +:+ (if 0 <? s / 60 then pretty m +:+ "m" else "") +:+ pretty r +:+ "s".

(** [Round(time.Second)] of a span of microseconds: halves go up. *)
Definition rounded_seconds (us : Z) : Z := (us + 500000) / 1000000.

(** [ConsumerHeartbeat.Health]: the error's text. *)
Definition Health (now : time) (h : ConsumerHeartbeat) : option string :=
  if hb_alive h then None
  else Some ("consumer " +:+ quoted (hb_queue h) +:+ " exited after " +:+ seconds_text (rounded_seconds (now - hb_startedAt h))).

(** A consumer on its queue: its settings and its handler. *)
Record wiredConsumer : Type := mkWiredConsumer {
  wc_queue : string;
  wc_settings : SQSConfigEnv;
  wc_handler : EventHandler;
  wc_heartbeat : ConsumerHeartbeat
}.

Section consumers.
  Context `{InboxStore} (SendToDLQ : nat → SourceMessage → string → result error unit) (schemas : Schemas).
  Context (ResolveDLQ : string → resolved_dlq) (NewConsumer : SQSConfigEnv → result error unit).
  Context (sqsEnv : SQSConfigEnv) (source : option SourceMessage) (now : time).

(** [sqspipeline.Handler] around a consumer's [Handle]. *)
Definition queue_handler (h : EventHandler) : EventHandler :=
  inboundHandler SendToDLQ (consumedValidator schemas) source h.

(** One [if url := os.Getenv(...); url != ""] block: not wired, wired, or the
    panic of the DLQ preflight or of the consumer's constructor. *)
Definition wire (queue urlKey concurrencyKey : string) (concurrency : Z) (h : EventHandler)
  : result error (list wiredConsumer) :=
  let url := Getenv env urlKey in
  if String.eqb url "" then Ok []
  else match requireDLQ url (ResolveDLQ url) with
       | Err e => Err (EWrap "DLQ preflight" e)
       | Ok _ =>
           let settings := sqsEnvForQueue sqsEnv url (envInt env concurrencyKey concurrency) in
           match NewConsumer settings with
           | Err e => Err (EWrap ("build " +:+ queue +:+ " consumer") e)
           | Ok _ => Ok [mkWiredConsumer queue settings (queue_handler h) (newConsumerHeartbeat queue now)]
           end
       end.

(** [sqsConsumers] *)
Definition sqsConsumers : result error (list wiredConsumer) :=
  andThen (wire "tenant-orgm-q" "SQS_TENANT_ORGM_QUEUE_URL" "SQS_TENANT_ORGM_CONCURRENCY" 4 (Consumer.Handle membershipConsumer)) (λ a,
  andThen (wire "billing-orgm-q" "SQS_BILLING_ORGM_QUEUE_URL" "SQS_BILLING_ORGM_CONCURRENCY" 2 (Consumer.Handle membershipConsumer)) (λ b,
  andThen (wire "catalog-orgm-q" "SQS_CATALOG_ORGM_QUEUE_URL" "SQS_CATALOG_ORGM_CONCURRENCY" 2 CatalogConsumer.Handle) (λ c,
  Ok (a ++ b ++ c)))).
End consumers.
End services.
End settings.

(** ** The publishers (wiring.go) *)

(** [events.Codec]: none, or Glue's with the versions it resolved. *)
Inductive topicCodec : Type :=
| NoopCodec
| GlueCodec (registryName : string) (versions : gmap string string).

(** The names [main] splits by topic. *)
Definition membershipSchemas (allSchemaNames : list string) : list string :=
  select (λ name, negb (String.eqb (TopicForEvent name) TopicTenant)) allSchemaNames.
Definition tenantSchemas (allSchemaNames : list string) : list string :=
  select (λ name, String.eqb (TopicForEvent name) TopicTenant) allSchemaNames.

Section publishers.
  Context (json_Compact : list N → result error (list N)).
  Context (client_GetSchemaByDefinition : string → string → list N → result error GlueSchema).   (* per registry *)
  Context (schemasFS : result error (list DirEntry)).
  Context (NewSNSPublisher : string → topicCodec → result error Publisher).

(** [buildTopicPublisher] *)
Definition buildTopicPublisher (topicARN : string) (codec : topicCodec) : result error Publisher :=
  if String.eqb topicARN "" then Ok NoopPublisher else NewSNSPublisher topicARN codec.

(** [buildTopicCodec] *)
Definition buildTopicCodec (registryName : string) (schemaNames : list string) : result error topicCodec :=
  if String.eqb registryName "" then Ok NoopCodec
  else andThen (newGlueCodecFromFS json_Compact (client_GetSchemaByDefinition registryName) schemasFS schemaNames ∅)
         (λ versions, Ok (GlueCodec registryName versions)).

(** A panic names its stage. *)
Definition stage {A} (name : string) (r : result error A) : result error A :=
  match r with Ok a => Ok a | Err e => Err (EWrap name e) end.

(** The codecs of the two topics, and the routing publisher over them. *)
Definition server_codecs (env : Environment) : result error (topicCodec * topicCodec) :=
  andThen (stage "list embedded event schemas" (AllSchemaNames schemasFS)) (λ allSchemaNames,
  andThen (stage "init membership glue codec"
             (buildTopicCodec (Getenv env "GLUE_REGISTRY_MEMBERSHIP_NAME") (membershipSchemas allSchemaNames))) (λ membershipCodec,
  andThen (stage "init tenant glue codec"
             (buildTopicCodec (Getenv env "GLUE_REGISTRY_TENANT_NAME") (tenantSchemas allSchemaNames))) (λ tenantCodec,
  Ok (membershipCodec, tenantCodec)))).

Definition routingPublisher (env : Environment) : result error RoutingPublisher :=
  andThen (server_codecs env) (λ '(membershipCodec, tenantCodec),
  andThen (stage "build membership publisher" (buildTopicPublisher (Getenv env "SNS_TOPIC_MEMBERSHIP_ARN") membershipCodec)) (λ membershipPub,
  andThen (stage "build tenant publisher" (buildTopicPublisher (Getenv env "SNS_TOPIC_TENANT_ARN") tenantCodec)) (λ tenantPub,
  Ok (mkRoutingPublisher (Some membershipPub) (Some tenantPub))))).
End publishers.

(** How a consumer's [Start] ends. *)
Inductive start_outcome : Type :=
| Panicked
| Returned (err : option error).

(** The goroutine of a consumer: a panic is recovered, and on every way out the
    heartbeat is dead. *)
Definition consumer_exit (o : start_outcome) (h : ConsumerHeartbeat) : ConsumerHeartbeat := MarkDead h.

(** What [/readyz] asks of the consumers. *)
Definition consumer_pings (now : time) (l : list ConsumerHeartbeat) : list (option (option string)) :=
  List.map (λ h, Some (Health now h)) l.

(** ** The gauge exporters (exporters.go) *)

(** The gauges, and the counters, among them that of row-level security
    violations. *)
Record Gauges : Type := mkGauges {
  gg_TenantOwnerless : Z;
  gg_RealmSyncPending : Z;
  gg_SeatOverageActive : Z;
  gg_PendingInvitationsStale : Z;
  gg_ParkedTenantEventsStale : Z;
  gg_Metrics : Metrics
}.

Definition add_positive (r : result error Metrics) (e : string * Z) : result error Metrics :=
  if 0 <? snd e then andThen r (AddRLSViolations (fst e) (snd e)) else r.

(** [tick]'s [run]: an error leaves the gauge as it was. *)
Definition emit {A} (query : M A) (set : A → Gauges → Gauges) (g : Gauges) : M Gauges :=
  let! r := tryM query in
  retM (match r with Ok a => set a g | Err _ => g end).

Definition exporterInterval : duration := 5 * minute.

(** One round of [runBusinessExporters]; the table of the violations is the
    database's own. *)
Definition exporters_round (rls_violation_log : list (string * time)) (g : Gauges) : M Gauges :=
  let! g := emit CountOwnerlessTenants (λ n g, mkGauges n (gg_RealmSyncPending g) (gg_SeatOverageActive g)
              (gg_PendingInvitationsStale g) (gg_ParkedTenantEventsStale g) (gg_Metrics g)) g in
  let! g := emit CountRealmSyncPending (λ n g, mkGauges (gg_TenantOwnerless g) n (gg_SeatOverageActive g)
              (gg_PendingInvitationsStale g) (gg_ParkedTenantEventsStale g) (gg_Metrics g)) g in
  let! g := emit CountSeatOverageActive (λ n g, mkGauges (gg_TenantOwnerless g) (gg_RealmSyncPending g) n
              (gg_PendingInvitationsStale g) (gg_ParkedTenantEventsStale g) (gg_Metrics g)) g in
  let! g := emit CountPendingInvitationsStale (λ n g, mkGauges (gg_TenantOwnerless g) (gg_RealmSyncPending g)
              (gg_SeatOverageActive g) n (gg_ParkedTenantEventsStale g) (gg_Metrics g)) g in
  let! g := emit CountParkedTenantEventsStale (λ n g, mkGauges (gg_TenantOwnerless g) (gg_RealmSyncPending g)
              (gg_SeatOverageActive g) (gg_PendingInvitationsStale g) n (gg_Metrics g)) g in
  let! r := tryM (RLSViolationCounts rls_violation_log (micros exporterInterval)) in
  match r with
  | Err _ => retM g
  | Ok counts =>
      match List.fold_left add_positive counts (Ok (gg_Metrics g)) with
      | Err e => throw e
      | Ok m => retM (mkGauges (gg_TenantOwnerless g) (gg_RealmSyncPending g) (gg_SeatOverageActive g)
                        (gg_PendingInvitationsStale g) (gg_ParkedTenantEventsStale g) m)
      end
  end.

(** ** The reconciler ([run] of cmd/reconciler) *)

(** [isDevLikeEnv] *)
Definition isDevLikeEnv (appEnv : string) : bool := contains appEnv ["dev"; "local"; "test"]%string.

(** The settings of [jobs.Context]; its collaborators are arguments. *)
Definition jobs_context (env : Environment) (outboxRunner : Z → nat → M Z) (inbox : string → Z → nat → M Z)
    (inboxConsumers : list string) (parkedReplayer : uuid → M Z) (ctxErr : M (option error)) : Jobs.Context :=
  {| jc_OutboxRunner := Some outboxRunner; jc_Inbox := Some inbox; jc_InboxConsumers := inboxConsumers;
     jc_ParkedReplayer := Some parkedReplayer; jc_TrialLedger := true; jc_ctxErr := ctxErr;
     jc_BatchLimit := Z.to_nat (envInt env "RECONCILER_BATCH_LIMIT" 500);
     jc_TrialGraceDays := envInt env "TRIAL_GRACE_DAYS" 15;
     jc_OutboxRetentionDays := envInt env "OUTBOX_RETENTION_DAYS" 8;
     jc_ProcessedEventsTTLDays := envInt env "PROCESSED_EVENTS_TTL_DAYS" 8;
     jc_TrialLedgerRetentionDays := envInt env "TRIAL_LEDGER_RETENTION_DAYS" 730 |}.

(** [run]: the exit status.  [jobFlag] is --job when given; [tracing] is the
    error of the tracer, a panic, whose exit status is the runtime's 2; [setup]
    is the first error of the other constructors.  Without fuel for the job's
    loops there is no answer. *)
Definition reconciler_run `{Env} (env : Environment) (loggerFails : bool) (jobFlag : option string)
    (tracing setup : option error) (jctx : Jobs.Context) (fuel : nat) : M (option Z) :=
  let jobName := default (Getenv env "RECONCILER_JOB") jobFlag in
  if loggerFails then retM (Some 1)
  else if String.eqb jobName "" then retM (Some 1)
  else match registry jctx fuel jobName with
       | None => retM (Some 1)
       | Some fn =>
           if String.eqb (Getenv env "SYSTEM_DATABASE_URL") "" && negb (isDevLikeEnv (resolveAppEnv env))
           then retM (Some 1)
           else match tracing, setup with
                | Some _, _ => retM (Some 2)
                | None, Some _ => retM (Some 1)
                | None, None =>
                    let! r := tryM fn in
                    retM (match r with
                          | Err _ => Some 1
                          | Ok None => None
                          | Ok (Some _) => Some 0
                          end)
                end
       end.

(** ** Shutdown

    The end of [main]: a program of actions in sequence and in parallel. *)

Inductive shutdown_action : Type :=
| HTTPShutdown | MetricsShutdown | ConsumerStop (queue : string) | OutboxStop | CancelBackground
| PoolDrain (pool : string) | ShutdownTracing | LoggerFlush.

Inductive steps : Type :=
| Act (a : shutdown_action)
| Seq (l : list steps)
| Par (l : list steps).

Definition shutdown (queues : list string) : steps :=
  Seq [Par (Seq [Act HTTPShutdown; Act MetricsShutdown] :: List.map (λ q, Act (ConsumerStop q)) queues);
       Act OutboxStop; Act CancelBackground;
       Par [Act (PoolDrain "app"); Act (PoolDrain "system")];
       Act ShutdownTracing; Act LoggerFlush].

(** The interleavings of some lists. *)
Inductive interleaving {A} : list (list A) → list A → Prop :=
| interleaving_nil ls : Forall (λ l, l = []) ls → interleaving ls []
| interleaving_cons ls1 x l ls2 t :
    interleaving (ls1 ++ l :: ls2) t → interleaving (ls1 ++ (x :: l) :: ls2) (x :: t).

(** The orders in which a program's actions can happen. *)
Inductive happens : steps → list shutdown_action → Prop :=
| happens_Act a : happens (Act a) [a]
| happens_Seq l ts : Forall2 happens l ts → happens (Seq l) (concat ts)
| happens_Par l ts t : Forall2 happens l ts → interleaving ts t → happens (Par l) t.

(** The time it takes when each action takes [d]. *)
Fixpoint time_of (d : shutdown_action → duration) (p : steps) : duration :=
  match p with
  | Act a => d a
  | Seq l => List.fold_right (λ p n, time_of d p + n) 0 l
  | Par l => List.fold_right (λ p n, Z.max (time_of d p) n) 0 l
  end.

Definition httpDrainTimeout : duration := 30 * second.
Definition poolDrainTimeout : duration := 10 * second.
