(* ===== verification/Boot.v ===== *)
(** * Boot: the processes from [main] to their end

    [main] of [cmd/server] from the first check to the listeners, and [run] of
    [cmd/reconciler]: what is built in which order, what a panic or an early
    return leaves behind, and what the deferred functions do.  The constructors
    of the libraries (logger, tracing, pools, AWS clients, runners) are the
    fields of [Libraries]; each may fail.  What a process does is a list of
    actions; [defer] adds to the functions that run, last first, when it ends.

    The theorems: nothing of the server works before the schema is there; every
    pool and the cache are closed again, in reverse, however start-up ends; what
    a started server consists of; the reconciler's exit status, its drains and
    its metrics. *)

From Stdlib Require Import String.
From S2P Require Import Prelude Domain Schema Tx EventStores Consumer CatalogService.
From S2P Require Import ReadModels Jobs EventBus Pipeline Http HttpHandlers Router Clients Startup Metrics Server.
Open Scope Z_scope.

(** ** Actions *)

Inductive boot_action : Type :=
| LoggerBuilt
| TracingStarted
| MetricsRegistered
| PoolOpened (name dsn : string)
| BackgroundStarted
| SchemaMigrated (dsn : string)
| CacheOpened (addr : string)
| OutboxStarted
| ConsumerStarted (queue : string)
| ExportersStarted
| MetricsListening (addr : string)
| Listening (addr : string)
| PoolClosed (name : string)
| BackgroundCancelled
| CacheClosed
| JobEnded (name : string)
| MetricsPushed (url job : string)
| SpanStarted
| SpanEnded
| TimerStarted
| TimerCancelled
| TracingShutdown
| LoggerFlushed.

#[global] Instance boot_action_eq_dec : EqDecision boot_action.
Proof. solve_decision. Defined.

(** What happened, and what is deferred, the latest first.  A deferred function
    sees what happened before it. *)
Record boot_state : Type := mkBootState {
  bs_done : list boot_action;
  bs_defers : list (list boot_action → list boot_action)
}.

Definition no_boot : boot_state := mkBootState [] [].

(** The deferred functions run. *)
Definition unwind (st : boot_state) : list boot_action :=
  List.fold_left (λ done d, done ++ d done) (bs_defers st) (bs_done st).

(** ** The monad: a step ends with a value, or ends the process *)

Definition Boot (X A : Type) : Type := boot_state * World → (A + X) * (boot_state * World).

#[global] Instance boot_ret X : MRet (Boot X) := λ _ a s, (inl a, s).
#[global] Instance boot_bind X : MBind (Boot X) := λ _ _ k m s,
  match m s with
  | (inl a, s') => k a s'
  | (inr x, s') => (inr x, s')
  end.

Section steps.
  Context {X : Type}.

Definition act (a : boot_action) : Boot X unit := λ '(st, w),
  (inl tt, (mkBootState (bs_done st ++ [a]) (bs_defers st), w)).
Definition defer (d : list boot_action → list boot_action) : Boot X unit := λ '(st, w),
  (inl tt, (mkBootState (bs_done st) (d :: bs_defers st), w)).
Definition stop {A} (x : X) : Boot X A := λ s, (inr x, s).

(** [if err != nil { ... }] with the way out. *)
Definition check {A} (out : error → X) (r : result error A) : Boot X A :=
  match r with Ok a => mret a | Err e => stop (out e) end.

(** An operation on the world. *)
Definition perform {A} (m : M A) : Boot X (result error A) := λ '(st, w),
  let '(r, w') := m w in (inl r, (st, w')).

Fixpoint acts (l : list boot_action) : Boot X unit :=
  match l with
  | [] => mret tt
  | a :: l' => _ ← act a; acts l'
  end.
End steps.

(** ** The libraries *)

Record Libraries : Type := mkLibraries {
  lib_NewLogger : string → result error unit;
  lib_InitTracing : string → string → string → result error unit;    (* service, version, environment *)
  lib_Observability : string → result error unit;                    (* panics on an unknown environment *)
  lib_shared : string → nat;                                         (* labels of the platform's collectors *)
  lib_InitEventMetrics : result error unit;
  lib_InitPoolMetrics : result error unit;
  lib_pgConfig : PoolConfig;                                         (* pgcommon.ConfigFromEnv *)
  lib_MigrationDSN : string;                                         (* pgcommon.MigrationDSNFromEnv *)
  lib_NewPool : PoolConfig → result error unit;
  lib_ApplySchema : string → M unit;
  lib_RunMigrations : string → M unit;
  lib_LoadAWS : string → result error unit;                          (* region *)
  lib_NewDLQPublisher : string → result error unit;                  (* consumer name *)
  lib_compile : string → bytes → result error (json → result error unit);
  lib_schemasFS : result error (list DirEntry);                      (* the embedded event schemas *)
  lib_Compact : list N → result error (list N);
  lib_registries : string → string → list N → result error GlueSchema;
  lib_NewSNSPublisher : string → topicCodec → result error Publisher;
  lib_NewRunner : option RoutingPublisher → result error unit;       (* none: the no-op publisher *)
  lib_SendToDLQ : nat → SourceMessage → string → result error unit;
  lib_ResolveDLQ : string → resolved_dlq;
  lib_NewConsumer : SQSConfigEnv → result error unit;
  lib_sqsEnv : SQSConfigEnv
}.

Definition buildVersion : string := "dev".

(** Something built, with the deferred call that undoes it. *)
Definition opens {X} (a c : boot_action) : Boot X unit :=
  _ ← act a;
  defer (λ _, [c]).

(** A pool and its deferred [Close]. *)
Definition open_pool {X} (out : error → X) (L : Libraries) (name : string) (cfg : PoolConfig) : Boot X unit :=
  _ ← check out (lib_NewPool L cfg);
  opens (PoolOpened name (pg_DSN cfg)) (PoolClosed name).

(** A pool with a tracer: [cfg.Tracer = gincommon.NewSpanTracer(...)]. *)
Definition traced (cfg : PoolConfig) : PoolConfig :=
  mkPoolConfig (pg_DSN cfg) (pg_PoolName cfg) (pg_GUCProvider cfg) (pg_PGBouncerMode cfg) (pg_MinConns cfg) true
    (pg_Logger cfg).

(** ** The server *)

(** What [main] has built when it waits for a signal. *)
Record Server : Type := mkServer {
  srv_schemas : Schemas;
  srv_publisher : RoutingPublisher;
  srv_consumers : list wiredConsumer;
  srv_http : HttpConfig;
  srv_docs : DocsConfig
}.

Section server.
  Context `{Env} `{InboxStore} (env : Environment) (L : Libraries).
  Context (protected : Request → option problem) (time_Parse : list N → option time).
  Context (source : option SourceMessage) (now : time).

Definition panic (stage : string) : error → error := EWrap stage.

(** [initLibraryMetrics] *)
Definition initLibraryMetrics : Boot error unit :=
  _ ← check (panic "init platform-events metrics") (lib_InitEventMetrics L);
  check (panic "init platform-pgcommon metrics") (lib_InitPoolMetrics L).

(** Sections 1 and 2 of [main]: the logger and tracing. *)
Definition boot_telemetry (appEnv : string) : Boot error unit :=
  _ ← check (panic "init logger") (lib_NewLogger L (loggerEnv appEnv));
  _ ← act LoggerBuilt;
  let serviceName := envOr env "APP_NAME" "iam-org-membership" in
  let version := envOr env "BUILD_VERSION" buildVersion in
  _ ← check (panic "init tracing") (lib_InitTracing L serviceName version appEnv);
  act TracingStarted.

(** The collectors: the platform's, this service's, the libraries'. *)
Definition boot_metrics (appEnv : string) : Boot error unit :=
  _ ← check (panic "observability") (lib_Observability L appEnv);
  _ ← check (panic "register") (Register (lib_shared L) true false no_metrics);
  _ ← initLibraryMetrics;
  act MetricsRegistered.

(** The schema, unless the migrate Job has it (RUN_MIGRATIONS=false). *)
Definition boot_schema : Boot error unit :=
  if runMigrationsAtStartup env
  then r ← perform (MigrateSchema (lib_ApplySchema L) (lib_RunMigrations L) (lib_MigrationDSN L));
       _ ← check (panic "migrate") r;
       act (SchemaMigrated (lib_MigrationDSN L))
  else mret tt.

(** Sections 3 and 4: the pools, the schema, the cache. *)
Definition boot_storage : Boot error unit :=
  _ ← open_pool (panic "connect to postgres") L "app" (AppPoolConfig (lib_pgConfig L));
  _ ← open_pool (panic "connect sysPool") L "system"
        (traced (SystemPoolConfig env (lib_pgConfig L) (SystemDSNFromEnv env (lib_pgConfig L)) true));
  _ ← opens BackgroundStarted BackgroundCancelled;
  _ ← boot_schema;
  opens (CacheOpened (envOr env "VALKEY_URL" "localhost:6379")) CacheClosed.

(** Sections 5 to 7: the AWS clients, the codecs, the publishers and the outbox
    runner. *)
Definition boot_events : Boot error (Schemas * RoutingPublisher) :=
  _ ← check (panic "load aws config") (lib_LoadAWS L (envOr env "AWS_REGION" "ap-south-1"));
  _ ← check (panic "build DLQ publisher") (lib_NewDLQPublisher L (envOr env "APP_NAME" "iam-org-membership"));
  schemas ← check (panic "init validating codec") (newValidatingCodecFromFS (lib_compile L) (lib_schemasFS L));
  publisher ← check id
                (routingPublisher (lib_Compact L) (lib_registries L) (lib_schemasFS L) (lib_NewSNSPublisher L) env);
  _ ← check (panic "create outbox runner") (lib_NewRunner L (Some publisher));
  _ ← act OutboxStarted;
  mret (schemas, publisher).

(** Sections 7b and 7c: the consumers and the exporters. *)
Definition boot_consumers (schemas : Schemas) : Boot error (list wiredConsumer) :=
  cs ← check id (sqsConsumers env (lib_SendToDLQ L) schemas (lib_ResolveDLQ L) (lib_NewConsumer L) (lib_sqsEnv L) source now);
  _ ← acts (List.map (λ wc, ConsumerStarted (wc_queue wc)) cs);
  _ ← act ExportersStarted;
  mret cs.

(** [main] up to [<-quit]. *)
Definition server_start : Boot error Server :=
  let appEnv := resolveAppEnv env in
  _ ← check id (validateRequiredEnv env appEnv);
  _ ← boot_telemetry appEnv;
  _ ← boot_metrics appEnv;
  _ ← boot_storage;
  '(schemas, publisher) ← boot_events;
  cs ← boot_consumers schemas;
  docs ← check id (docs_from_env env appEnv);
  _ ← act (Listening (":" +:+ envOr env "APP_PORT" "8080"));
  _ ← act (MetricsListening (":" +:+ envOr env "METRICS_PORT" "9090"));
  mret (mkServer schemas publisher cs (server_http env protected time_Parse) docs).
End server.

(** [main]: what happened until the process has ended.  The server that started
    runs [shutdown] in one of its orders on a signal, and then the deferred
    functions too. *)
Definition server_log `{Env} `{InboxStore} env L protected time_Parse source now (w : World) : list boot_action :=
  unwind (snd (server_start env L protected time_Parse source now (no_boot, w))).1.

(** ** The reconciler *)

(** How [run] ends early. *)
Inductive exit : Type :=
| ExitReturn (status : Z)
| ExitPanic (e : error).

Definition exit_status (r : option Z + exit) : option Z :=
  match r with
  | inl status => status
  | inr (ExitReturn status) => Some status
  | inr (ExitPanic _) => Some 2
  end.

(** RECONCILER_TIMEOUT, five minutes by default, and the bound of a statement. *)
Definition reconciler_timeout (env : Environment) : duration := envDuration env "RECONCILER_TIMEOUT" (5 * minute).
Definition defaultReconcilerStatementTimeout : duration := 2 * minute.
Definition reconciler_statement_timeout (env : Environment) : duration :=
  envDuration env "RECONCILER_STATEMENT_TIMEOUT" defaultReconcilerStatementTimeout.

(** [drainPools]: once; the system pool when it was opened. *)
Definition drainPools (done : list boot_action) : list boot_action :=
  PoolClosed "app" ::
  (if existsb (λ a, match a with PoolOpened "system" _ => true | _ => false end) done then [PoolClosed "system"] else []).

Section reconciler.
  Context `{Env} (env : Environment) (L : Libraries) (Push : string → string → result error unit).

(** [pushMetrics]: on the job's own context, so nothing is sent once that has
    ended. *)
Definition pushMetrics (ctxErr : M (option error)) (jobName : string) : Boot exit unit :=
  let url := Getenv env "PROMETHEUS_PUSHGATEWAY_URL" in
  if String.eqb url "" then mret tt
  else r ← perform ctxErr;
       match r with
       | Ok None => if is_ok (Push url jobName) then act (MetricsPushed url jobName) else mret tt
       | _ => mret tt
       end.

(** [run] up to the pools. *)
Definition reconciler_telemetry (appEnv : string) : Boot exit unit :=
  let returns (_ : error) := ExitReturn 1 in
  _ ← check (λ e, ExitPanic (EWrap "init tracing" e))
        (lib_InitTracing L (envOr env "APP_NAME" "iam-org-membership") (envOr env "BUILD_VERSION" buildVersion) appEnv);
  _ ← act TracingStarted;
  _ ← defer (λ _, [LoggerFlushed]);
  _ ← defer (λ _, [TracingShutdown]);
  _ ← check ExitPanic (lib_Observability L appEnv);
  _ ← check ExitPanic (Register (lib_shared L) true false no_metrics);
  _ ← check returns (lib_InitEventMetrics L);
  _ ← check returns (lib_InitPoolMetrics L);
  _ ← act MetricsRegistered;
  _ ← act TimerStarted;
  _ ← defer (λ _, [TimerCancelled]);
  _ ← act SpanStarted;
  defer (λ _, [SpanEnded]).

(** The pools, the codec and the outbox runner. *)
Definition reconciler_storage : Boot exit unit :=
  let returns (_ : error) := ExitReturn 1 in
  let app := AppPoolConfig (lib_pgConfig L) in
  let system := traced (SystemPoolConfig env (lib_pgConfig L) (SystemDSNFromEnv env (lib_pgConfig L)) true) in
  _ ← check returns (lib_NewPool L app);
  _ ← act (PoolOpened "app" (pg_DSN app));
  _ ← defer drainPools;
  _ ← check returns (lib_NewPool L system);
  _ ← act (PoolOpened "system" (pg_DSN system));
  _ ← check returns (newValidatingCodecFromFS (lib_compile L) (lib_schemasFS L));
  check returns (lib_NewRunner L None).

(** [run]; [jctx] is the context of the jobs over the pools. *)
Definition reconciler_main (flag : option string) (jctx : Jobs.Context) (fuel : nat) : Boot exit (option Z) :=
  let jobName := default (Getenv env "RECONCILER_JOB") flag in
  let appEnv := resolveAppEnv env in
  _ ← check (λ _, ExitReturn 1) (lib_NewLogger L (loggerEnv appEnv));
  _ ← act LoggerBuilt;
  _ ← (if String.eqb jobName "" then stop (ExitReturn 1) else mret tt);
  fn ← (match registry jctx fuel jobName with None => stop (ExitReturn 1) | Some fn => mret fn end);
  _ ← (if String.eqb (Getenv env "SYSTEM_DATABASE_URL") "" && negb (isDevLikeEnv appEnv)
       then stop (ExitReturn 1) else mret tt);
  _ ← reconciler_telemetry appEnv;
  _ ← reconciler_storage;
  r ← perform fn;
  _ ← act (JobEnded jobName);
  _ ← pushMetrics (jc_ctxErr jctx) jobName;
  mret (match r with
        | Err _ => Some 1
        | Ok None => None
        | Ok (Some _) => Some 0
        end).
End reconciler.

(** ** Reasoning about a start *)

(** Where a step ends. *)
Definition ends {X A} (m : Boot X A) (s : boot_state * World) (Q : A → boot_state → Prop) (R : boot_state → Prop) : Prop :=
  match m s with
  | (inl a, (st, _)) => Q a st
  | (inr _, (st, _)) => R st
  end.

(** From [P] the step reaches [Q], or stops the process where [R] holds. *)
Definition triple {X A} (R P : boot_state → Prop) (m : Boot X A) (Q : A → boot_state → Prop) : Prop :=
  ∀ s, P s.1 → ends m s Q R.

Section triples.
  Context {X : Type} (R : boot_state → Prop).

Lemma triple_ret {A} (a : A) (P : boot_state → Prop) : triple R P (mret a : Boot X A) (λ _, P).
Proof. by intros [st w] HP. Qed.

Lemma triple_bind {A B} P (m : Boot X A) (k : A → Boot X B) Q Q' :
  triple R P m Q → (∀ a, triple R (Q a) (k a) Q') → triple R P (m ≫= k) Q'.
Proof.
  intros Hm Hk s HP. specialize (Hm s HP). unfold ends, mbind, boot_bind in *.
  destruct (m s) as [[a|x] [st w]]; [|done]. by apply (Hk a (st, w)).
Qed.

Lemma triple_check {A} (out : error → X) (r : result error A) P :
  (∀ st, P st → R st) → triple R P (check out r) (λ _, P).
Proof. intros HR [st w] HP. unfold check, ends. destruct r; cbn; [done|by apply HR]. Qed.

Lemma triple_act a P Q :
  (∀ st, P st → Q (mkBootState (bs_done st ++ [a]) (bs_defers st))) → triple (X:=X) R P (act a) (λ _, Q).
Proof. intros HQ [st w] HP. by apply HQ. Qed.

Lemma triple_perform {A} (m : M A) P : triple (X:=X) R P (perform m) (λ _, P).
Proof. intros [st w] HP. unfold ends, perform. by destruct (m w). Qed.

Lemma triple_weaken {A} (P P' : boot_state → Prop) (m : Boot X A) Q :
  (∀ st, P st → P' st) → triple R P' m Q → triple R P m Q.
Proof. intros HP Hm s Hs. by apply Hm, HP. Qed.
End triples.

(** ** The server's start *)

Definition serves (a : boot_action) : bool :=
  match a with OutboxStarted | ConsumerStarted _ | ExportersStarted | Listening _ | MetricsListening _ => true | _ => false end.

(** What undoes an action when the process ends. *)
Definition closing (a : boot_action) : list boot_action :=
  match a with
  | PoolOpened name _ => [PoolClosed name]
  | BackgroundStarted => [BackgroundCancelled]
  | CacheOpened _ => [CacheClosed]
  | _ => []
  end.

Definition closings (l : list boot_action) : list boot_action := List.rev (List.flat_map closing l).

(** Exactly what was opened is deferred to be closed. *)
Definition tidy (st : boot_state) : Prop := bs_defers st = List.map (λ c _, [c]) (closings (bs_done st)).

Lemma tidy_unwind st : tidy st → unwind st = bs_done st ++ closings (bs_done st).
Proof.
  unfold tidy, unwind. intros ->. generalize (closings (bs_done st)) as l. generalize (bs_done st) as d.
  intros d l. revert d. induction l as [|c l IH]; intros d; cbn; [by rewrite app_nil_r|].
  by rewrite IH, <- app_assoc.
Qed.

Section ready.
  Context (env : Environment) (L : Libraries).

(** The pools and the cache are open and the schema is there. *)
Definition ready (l : list boot_action) : Prop :=
  PoolOpened "app" (DSNFromEnv (lib_pgConfig L)) ∈ l ∧
  PoolOpened "system" (SystemDSNFromEnv env (lib_pgConfig L)) ∈ l ∧
  CacheOpened (envOr env "VALKEY_URL" "localhost:6379") ∈ l ∧
  (runMigrationsAtStartup env = true → SchemaMigrated (lib_MigrationDSN L) ∈ l).

Definition ordered (l : list boot_action) : Prop :=
  ∀ l1 a l2, l = l1 ++ a :: l2 → serves a = true → ready l1.

Lemma ordered_snoc l a : ordered l → (serves a = true → ready l) → ordered (l ++ [a]).
Proof.
  intros Hl Ha l1 b l2 E Hb. destruct l2 as [|c l2 _] using rev_ind.
  - apply app_inj_tail in E as [<- <-]. auto.
  - rewrite app_comm_cons, app_assoc in E. apply app_inj_tail in E as [-> _]. by apply (Hl l1 b l2).
Qed.

Definition sound (st : boot_state) : Prop := ordered (bs_done st) ∧ tidy st.

Lemma sound_act a st :
  sound st → closing a = [] → (serves a = true → ready (bs_done st)) →
  sound (mkBootState (bs_done st ++ [a]) (bs_defers st)).
Proof.
  intros [Ho Ht] Hc Hs. split; [by apply ordered_snoc|]. unfold tidy, closings in *. cbn [bs_done bs_defers].
  rewrite Ht, List.flat_map_app. cbn. by rewrite Hc, app_nil_r.
Qed.

Lemma sound_open a c st :
  sound st → closing a = [c] → serves a = false →
  sound (mkBootState (bs_done st ++ [a]) ((λ _, [c]) :: bs_defers st)).
Proof.
  intros [Ho Ht] Hc Hs. split; [apply ordered_snoc; [done|by rewrite Hs]|]. unfold tidy, closings in *.
  cbn [bs_done bs_defers]. rewrite Ht, List.flat_map_app. cbn. by rewrite Hc, List.rev_app_distr.
Qed.
End ready.

Section server_start.
  Context `{Env} `{InboxStore} (env : Environment) (L : Libraries).
  Context (protected : Request → option problem) (time_Parse : list N → option time).
  Context (source : option SourceMessage) (now : time).

#[local] Notation Sound := (sound env L).
#[local] Notation Serving := (λ st, Sound st ∧ ready env L (bs_done st)).

Lemma ready_app l l' : ready env L l → ready env L (l ++ l').
Proof. intros (?&?&?&?). repeat split; intros; apply elem_of_app; auto. Qed.

Lemma step_act {X} a : closing a = [] → serves a = false → triple (X:=X) Sound Sound (act a) (λ _, Sound).
Proof. intros Hc Hs. apply triple_act. intros st HS. apply sound_act; [done|done|by rewrite Hs]. Qed.

Lemma step_serve {X} a : closing a = [] → triple (X:=X) Sound Serving (act a) (λ _, Serving).
Proof. intros Hc. apply triple_act. intros st [HS Hr]. split; [by apply sound_act|by apply ready_app]. Qed.

#[local] Notation At P := (λ st, Sound st ∧ P (bs_done st)).

Lemma step_opens {X} a c (P Q : list boot_action → Prop) :
  closing a = [c] → serves a = false → (∀ l, P l → Q (l ++ [a])) →
  triple (X:=X) Sound (At P) (opens a c) (λ _, At Q).
Proof. intros Hc Hs HQ [st w] [HS HP]. cbn. split; [exact (sound_open env L a c st HS Hc Hs)|by apply HQ]. Qed.

Lemma step_pool {X} out name cfg (P Q : list boot_action → Prop) :
  (∀ l, P l → Q (l ++ [PoolOpened name (pg_DSN cfg)])) →
  triple (X:=X) Sound (At P) (open_pool out L name cfg) (λ _, At Q).
Proof.
  intros HQ. eapply triple_bind; [apply triple_check; intros st HS; apply HS|intros ?; cbv beta]. by eapply step_opens.
Qed.

Lemma step_telemetry appEnv :
  triple Sound Sound (boot_telemetry env L appEnv) (λ _, Sound) ∧
  triple Sound Sound (boot_metrics L appEnv) (λ _, Sound).
Proof.
  unfold boot_telemetry, boot_metrics, initLibraryMetrics. split;
  repeat first [by apply step_act
               |eapply triple_bind; [first [by apply triple_check|by apply step_act
                  |eapply triple_bind; [by apply triple_check|intros ?; cbv beta; by apply triple_check]]|intros ?; cbv beta]].
Qed.

#[local] Notation app_open l := (PoolOpened "app" (DSNFromEnv (lib_pgConfig L)) ∈ l).
#[local] Notation pools_open l := (app_open l ∧ PoolOpened "system" (SystemDSNFromEnv env (lib_pgConfig L)) ∈ l).
#[local] Notation schema_there l := (runMigrationsAtStartup env = true → SchemaMigrated (lib_MigrationDSN L) ∈ l).

Lemma step_schema : triple Sound (At (λ l, pools_open l)) (boot_schema env L) (λ _, At (λ l, pools_open l ∧ schema_there l)).
Proof.
  unfold boot_schema. destruct (runMigrationsAtStartup env); [|by intros [st w] [HS HP]; cbn].
  eapply triple_bind; [apply triple_perform|intros r; cbv beta].
  eapply triple_bind; [apply triple_check; intros st HS; apply HS|intros ?; cbv beta]. apply triple_act.
  intros st (HS & Ha & Hs). split; [by apply sound_act|]. cbn. rewrite !elem_of_app. set_solver.
Qed.

Lemma step_storage : triple Sound Sound (boot_storage env L) (λ _, Serving).
Proof.
  unfold boot_storage. eapply triple_weaken; [by intros st HS; apply (conj HS I)|].
  eapply triple_bind; [apply (step_pool _ _ _ (λ _, True) (λ l, app_open l))|intros ?; cbv beta]; [set_solver|].
  eapply triple_bind; [apply (step_pool _ _ _ _ (λ l, pools_open l))|intros ?; cbv beta]; [set_solver|].
  eapply triple_bind; [apply (step_opens _ _ (λ l, pools_open l) (λ l, pools_open l))|intros ?; cbv beta]; [done..|set_solver|].
  eapply triple_bind; [apply step_schema|intros ?; cbv beta].
  apply (step_opens _ _ (λ l, pools_open l ∧ schema_there l) (ready env L)); [done..|].
  intros l [[Ha Hs] Hm]. unfold ready. set_solver.
Qed.

Lemma step_events : triple Sound Serving (boot_events env L) (λ _, Serving).
Proof.
  unfold boot_events.
  repeat (eapply triple_bind; [first [apply triple_check; intros st HS; apply HS|by apply step_serve]|intros ?; cbv beta]).
  apply triple_ret.
Qed.

Lemma step_acts {X} l : Forall (λ a, closing a = []) l → triple (X:=X) Sound Serving (acts l) (λ _, Serving).
Proof.
  induction 1 as [|a l Ha _ IH]; [apply triple_ret|].
  cbn [acts]. eapply triple_bind; [by apply step_serve|by intros ?].
Qed.

Lemma step_consumers schemas : triple Sound Serving (boot_consumers env L source now schemas) (λ _, Serving).
Proof.
  unfold boot_consumers. eapply triple_bind; [apply triple_check; intros st HS; apply HS|intros cs; cbv beta].
  eapply triple_bind; [apply step_acts; by induction cs; constructor|intros ?; cbv beta].
  eapply triple_bind; [by apply step_serve|intros ?; cbv beta]. apply triple_ret.
Qed.

Lemma step_start : triple Sound Sound (server_start env L protected time_Parse source now) (λ _, Serving).
Proof.
  unfold server_start. eapply triple_bind; [by apply triple_check|intros ?; cbv beta].
  do 2 (eapply triple_bind; [apply step_telemetry|intros ?; cbv beta]). eapply triple_bind; [apply step_storage|intros ?; cbv beta].
  eapply triple_bind; [apply step_events|intros [schemas publisher]; cbv beta].
  eapply triple_bind; [apply step_consumers|intros cs; cbv beta].
  eapply triple_bind; [apply triple_check; intros st HS; apply HS|intros docs; cbv beta].
  do 2 (eapply triple_bind; [by apply step_serve|intros ?; cbv beta]). apply triple_ret.
Qed.


(** *** A started server *)

Lemma boot_bind_ok {X A B} (m : Boot X A) (k : A → Boot X B) s b s' :
  (m ≫= k) s = (inl b, s') → ∃ a s1, m s = (inl a, s1) ∧ k a s1 = (inl b, s').
Proof. unfold mbind, boot_bind. destruct (m s) as [[a|x] s1]; [|done]. intros E. by exists a, s1. Qed.

Lemma check_ok {X A} (out : error → X) (r : result error A) s a s' :
  check out r s = (inl a, s') → r = Ok a ∧ s' = s.
Proof. destruct r; cbn; [by intros [= -> ->]|done]. Qed.

(** What a server that started has passed and is made of. *)
Record started (srv : Server) : Prop := {
  st_required : is_ok (validateRequiredEnv env (resolveAppEnv env)) = true;
  st_schemas : newValidatingCodecFromFS (lib_compile L) (lib_schemasFS L) = Ok (srv_schemas srv);
  st_publisher : routingPublisher (lib_Compact L) (lib_registries L) (lib_schemasFS L) (lib_NewSNSPublisher L) env =
                 Ok (srv_publisher srv);
  st_consumers : sqsConsumers env (lib_SendToDLQ L) (srv_schemas srv) (lib_ResolveDLQ L) (lib_NewConsumer L) (lib_sqsEnv L)
                   source now = Ok (srv_consumers srv);
  st_docs : docs_from_env env (resolveAppEnv env) = Ok (srv_docs srv);
  st_http : srv_http srv = server_http env protected time_Parse
}.

Lemma start_started w srv s' :
  server_start env L protected time_Parse source now (no_boot, w) = (inl srv, s') → started srv.
Proof.
  unfold server_start. intros (v & s1 & [Hv _]%check_ok & E)%boot_bind_ok.
  do 3 apply boot_bind_ok in E as (_ & ? & _ & E).
  apply boot_bind_ok in E as ([schemas publisher] & s4 & Hev & E).
  apply boot_bind_ok in E as (cs & s5 & Hcs & E). apply boot_bind_ok in E as (docs & s6 & [Hd _]%check_ok & E).
  apply boot_bind_ok in E as (_ & s7 & _ & E). apply boot_bind_ok in E as (_ & s8 & _ & [= <- _]).
  unfold boot_events in Hev. apply boot_bind_ok in Hev as (_ & t1 & _ & Hev). apply boot_bind_ok in Hev as (_ & t2 & _ & Hev).
  apply boot_bind_ok in Hev as (sch & t3 & [Hs _]%check_ok & Hev).
  apply boot_bind_ok in Hev as (pub & t4 & [Hp _]%check_ok & Hev).
  apply boot_bind_ok in Hev as (_ & t5 & _ & Hev). apply boot_bind_ok in Hev as (_ & t6 & _ & [= -> -> _]).
  unfold boot_consumers in Hcs. apply boot_bind_ok in Hcs as (cs' & u1 & [Hc _]%check_ok & Hcs).
  apply boot_bind_ok in Hcs as (_ & u2 & _ & Hcs). apply boot_bind_ok in Hcs as (_ & u3 & _ & [= -> _]).
  split; try done. by rewrite Hv.
Qed.
End server_start.

(** ** The reconciler's run *)

Definition failure {A} (r : result error A) : option error := match r with Ok _ => None | Err e => Some e end.

Section reconciler_run.
  Context `{Env} (env : Environment) (L : Libraries) (Push : string → string → result error unit).
  Context (flag : option string) (jctx : Jobs.Context) (fuel : nat).

#[local] Notation run := (reconciler_main env L Push flag jctx fuel).
#[local] Notation jobName := (default (Getenv env "RECONCILER_JOB") flag).
#[local] Notation url := (Getenv env "PROMETHEUS_PUSHGATEWAY_URL").

(** The first panic, and the first error that ends [run]. *)
Definition first_of (l : list (option error)) : option error := head (omap id l).

Definition first_panic : option error :=
  first_of
    [failure (lib_InitTracing L (envOr env "APP_NAME" "iam-org-membership") (envOr env "BUILD_VERSION" buildVersion)
                (resolveAppEnv env));
     failure (lib_Observability L (resolveAppEnv env)); failure (Register (lib_shared L) true false no_metrics)].

Definition first_failure : option error :=
  first_of
    [failure (lib_InitEventMetrics L); failure (lib_InitPoolMetrics L);
     failure (lib_NewPool L (AppPoolConfig (lib_pgConfig L)));
     failure (lib_NewPool L (traced (SystemPoolConfig env (lib_pgConfig L) (SystemDSNFromEnv env (lib_pgConfig L)) true)));
     failure (newValidatingCodecFromFS (lib_compile L) (lib_schemasFS L)); failure (lib_NewRunner L None)].

(** The push succeeds: there is a gateway, the job's own context has not ended,
    and the gateway accepts. *)
Definition pushes (w : World) : bool :=
  negb (String.eqb url "") && match (jc_ctxErr jctx w).1 with Ok None => true | _ => false end && is_ok (Push url jobName).

Lemma pushMetrics_run st w :
  ∃ w', pushMetrics env Push (jc_ctxErr jctx) jobName (st, w) =
    (inl tt, (if pushes w then mkBootState (bs_done st ++ [MetricsPushed url jobName]) (bs_defers st) else st, w')).
Proof.
  unfold pushMetrics, pushes. destruct (String.eqb url ""); [by exists w|]. unfold mbind, boot_bind, perform.
  destruct (jc_ctxErr jctx w) as [[[e|]|e] w']; exists w'; cbn; [done| |done]. by destruct (is_ok _).
Qed.

(** What has happened when the job has run, and what is deferred then. *)
Definition ran : boot_state :=
  mkBootState
    [LoggerBuilt; TracingStarted; MetricsRegistered; TimerStarted; SpanStarted;
     PoolOpened "app" (DSNFromEnv (lib_pgConfig L)); PoolOpened "system" (SystemDSNFromEnv env (lib_pgConfig L));
     JobEnded jobName]
    [drainPools; λ _, [SpanEnded]; λ _, [TimerCancelled]; λ _, [TracingShutdown]; λ _, [LoggerFlushed]].

(** Before the job: the pools that were opened are closed, and once tracing
    started it is shut down and the log flushed, in this order and last. *)
Definition cleaned (st : boot_state) : Prop :=
  (∀ name dsn, PoolOpened name dsn ∈ bs_done st → PoolClosed name ∈ unwind st) ∧
  (TracingStarted ∈ bs_done st → ∃ l, unwind st = l ++ [TracingShutdown; LoggerFlushed]).

Definition early (st : boot_state) : Prop := cleaned st ∧ ∀ j, JobEnded j ∉ bs_done st.

Lemma unwind_last d ds a b :
  unwind (mkBootState d (ds ++ [λ _, [a]; λ _, [b]])) = unwind (mkBootState d ds) ++ [a; b].
Proof. unfold unwind. cbn [bs_done bs_defers]. rewrite List.fold_left_app. cbn. by rewrite <- app_assoc. Qed.

Ltac flushed :=
  first [exact (ex_intro _ _ (unwind_last _ [] _ _))|exact (ex_intro _ _ (unwind_last _ [_; _] _ _))
        |exact (ex_intro _ _ (unwind_last _ [_; _; _] _ _))].

Lemma ran_cleaned : cleaned ran.
Proof. split; [cbn; set_solver|]. intros _. flushed. Qed.

(** An early end, and one constructor after the other. *)
Ltac ends_early :=
  right; eexists _, _; split; [reflexivity|]; split; [done|];
  split; [split; [cbn; set_solver|intros Ht; first [by exfalso; cbn in Ht; set_solver|flushed]]|cbn; set_solver].

Ltac boot_cases :=
  repeat (cbn [check mret boot_ret stop act defer perform fst snd bs_done bs_defers app];
          match goal with
          | |- context [check _ ?r] => destruct r; [|cbn [check mret boot_ret stop]; ends_early]
          end).

(** [run] ends before the job, with a status other than 0, or it has run the job
    and its status is the job's. *)
Lemma reconciler_main_run w :
  (∃ fn, registry jctx fuel jobName = Some fn ∧
     let '(r, w1) := fn w in
     ∃ w', run (no_boot, w) =
       (inl (match r with Err _ => Some 1 | Ok None => None | Ok (Some _) => Some 0 end),
        (if pushes w1 then mkBootState (bs_done ran ++ [MetricsPushed url jobName]) (bs_defers ran) else ran, w'))) ∨
  (∃ x st, run (no_boot, w) = (inr x, (st, w)) ∧ exit_status (inr x) ≠ Some 0 ∧ early st).
Proof.
  unfold reconciler_main, reconciler_telemetry, reconciler_storage. unfold mbind, boot_bind.
  destruct (lib_NewLogger _ _); [|cbn; ends_early]. cbn [check mret boot_ret act bs_done bs_defers no_boot app].
  destruct (String.eqb jobName ""); [cbn; ends_early|]. cbv beta iota.
  destruct (registry jctx fuel jobName) as [fn|]; [|cbn; ends_early]. cbv beta iota.
  destruct (_ && _); [cbn; ends_early|]. cbv beta iota.
  boot_cases. left. exists fn. split; [done|]. cbn [check mret boot_ret perform]. destruct (fn w) as [r w1] eqn:E.
  cbn [act bs_done bs_defers app]. destruct (pushMetrics_run ran w1) as [w' Hp]. exists w'. unfold ran in Hp. cbn in Hp |- *.
  by rewrite Hp.
Qed.

(** A run of the reconciler cleans up on every way out: the pools that were
    opened are closed, and once tracing started it is shut down and the log
    flushed, last and in this order.  When the job ran, successful or not, its
    metrics are pushed exactly when there is a gateway that accepts them and the
    job's own context has not ended: a run that was cut off by
    RECONCILER_TIMEOUT pushes nothing. *)
Theorem reconciler_cleans_and_pushes w r st w' :
  run (no_boot, w) = (r, (st, w')) →
  cleaned st ∧
  ((∃ j, JobEnded j ∈ bs_done st) →
   ∃ fn, registry jctx fuel jobName = Some fn ∧
     (MetricsPushed url jobName ∈ unwind st ↔ pushes (fn w).2 = true)).
Proof.
  intros E. destruct (reconciler_main_run w) as [(fn & Hj & Hr)|(x & st' & Hr & _ & Hc & Hn)].
  - destruct (fn w) as [r0 w1] eqn:Ef. destruct Hr as [w2 Hr]. rewrite Hr in E. injection E as _ <- _.
    destruct (pushes w1) eqn:Ep.
    + split; [|intros _; exists fn; split; [done|]; rewrite Ef; cbn; set_solver].
      destruct ran_cleaned as [Hp Ht]. split; [cbn; set_solver|]. intros _. flushed.
    + split; [apply ran_cleaned|]. intros _. exists fn. split; [done|]. rewrite Ef. cbn. rewrite Ep. set_solver.
  - rewrite Hr in E. injection E as _ <- _. split; [done|]. intros [j Hjob]. by destruct (Hn j).
Qed.

(** The exit status is that of [reconciler_run], with the first panic and the
    first error of the constructors. *)
Theorem reconciler_main_status w :
  exit_status (run (no_boot, w)).1 =
  match (reconciler_run env (negb (is_ok (lib_NewLogger L (loggerEnv (resolveAppEnv env))))) flag first_panic first_failure jctx
           fuel w).1 with
  | Ok status => status
  | Err _ => None
  end.
Proof.
  unfold reconciler_main, reconciler_run, first_panic, first_failure, reconciler_telemetry, reconciler_storage.
  unfold mbind, boot_bind. destruct (lib_NewLogger _ _); [|done].
  cbn [is_ok negb check mret boot_ret act bs_done bs_defers no_boot].
  destruct (String.eqb jobName ""); [done|]. cbv beta iota.
  destruct (registry jctx fuel jobName) as [fn|]; [|done]. cbv beta iota.
  destruct (_ && _); [done|]. cbv beta iota.
  repeat (cbn [check mret boot_ret stop act defer perform fst snd bs_done bs_defers app];
          match goal with |- context [check _ ?r] => destruct r; [|by cbn] end).
  cbn [check mret boot_ret perform]. unfold bindM, tryM. destruct (fn w) as [r w1] eqn:Ef. cbn [act bs_done bs_defers app].
  match goal with |- context [pushMetrics _ _ _ _ (?s, ?v)] => destruct (pushMetrics_run s v) as [w' ->] end.
  destruct r as [[]|]; cbn; by rewrite Ef.
Qed.
End reconciler_run.
