(* ===== verification/AsyncApi.v ===== *)
(** * AsyncApi: the event catalogue page

    [internal/adapter/inbound/http/asyncapi.go], [docs.go] and
    [registerDocsRoutes] of [router.go]: the page that shows the embedded
    AsyncAPI specification.  The YAML decoder is a library: a specification is
    given decoded, with [yaml_node] for the parts the code walks itself.  The
    page is the list of what is written to the buffer: literal text, a value
    escaped, or a value as it is; [page_text] is the text.  A literal is spelled
    with a backquote for the double quote, which a Go raw string cannot contain.
    The style sheet and the script of the page are arguments.

    The theorems: escaping is safe and loses nothing, and the only values
    written without it are names of components; a message is shown in exactly
    one direction; a table shows every property once, required ones first, and
    again the same after the in-place sort; references are followed to an end
    exactly when they do not run in a circle. *)

From Stdlib Require Import Ascii String.
From stdpp Require Import pretty.
From S2P Require Import Prelude Domain Json TenantRepo InvitationService EventBus Http Router.
Open Scope Z_scope.

(** ** Text *)

(** [html.EscapeString] *)
Definition escape_html_char (c : ascii) : string :=
  match N_of_ascii c with
  | 38%N => "&amp;"
  | 39%N => "&#39;"
  | 60%N => "&lt;"
  | 62%N => "&gt;"
  | 34%N => "&#34;"
  | _ => String c EmptyString
  end.

Fixpoint EscapeString (s : string) : string :=
  match s with
  | EmptyString => EmptyString
  | String c s' => escape_html_char c +:+ EscapeString s'
  end.

Inductive piece : Type :=
| Lit (s : string)
| Esc (s : string)
| Raw (s : string).

(** A literal's text. *)
Fixpoint lit_text (s : string) : string :=
  match s with
  | EmptyString => EmptyString
  | String c s' => String (if N.eqb (N_of_ascii c) 96 then ascii_of_N 34 else c) (lit_text s')
  end.

Definition piece_text (p : piece) : string :=
  match p with Lit s => lit_text s | Esc s => EscapeString s | Raw s => s end.
Definition page_text (l : list piece) : string := String.concat "" (List.map piece_text l).

(** [strings.TrimPrefix] *)
Definition TrimPrefix (s prefix : string) : string :=
  if String.prefix prefix s then String.substring (String.length prefix) (String.length s - String.length prefix) s else s.

(** [s[:n]] with a mark, when it is longer. *)
Definition cut (n : nat) (mark s : string) : string :=
  if Nat.ltb n (String.length s) then String.substring 0 n s +:+ mark else s.

Definition schema_name (ref : string) : string := TrimPrefix ref "#/components/schemas/".

(** [json.MarshalIndent(v, "", "  ")]; an object's members are in the order
    [Marshal] gives the keys of a map. *)
Definition new_line (depth : nat) : string :=
  String (ascii_of_N 10) (String.concat "" (repeat "  "%string depth)).

Fixpoint json_indent (depth : nat) (v : json) : string :=
  match v with
  | JArr (x :: l) =>
      "[" +:+ String.concat "," (List.map (λ x, new_line (S depth) +:+ json_indent (S depth) x) (x :: l)) +:+ new_line depth +:+ "]"
  | JObj (m :: l) =>
      "{" +:+ String.concat ","
        ((fix go (l : list (string * json)) : list string :=
            match l with
            | [] => []
            | (k, x) :: l' => (new_line (S depth) +:+ quoted k +:+ ": " +:+ json_indent (S depth) x) :: go l'
            end) (m :: l)) +:+ new_line depth +:+ "}"
  | _ => json_text v
  end.

(** ** YAML nodes *)

Inductive yaml_kind : Type := NoNode | DocumentNode | SequenceNode | MappingNode | ScalarNode | AliasNode.
#[global] Instance yaml_kind_eq_dec : EqDecision yaml_kind.
Proof. solve_decision. Defined.

Inductive yaml_node : Type := mkYamlNode {
  yn_Kind : yaml_kind;
  yn_Value : string;
  yn_Content : list yaml_node
}.

(** The pairs of a mapping: [for i := 0; i+1 < len(Content); i += 2]. *)
Fixpoint yaml_pairs (l : list yaml_node) : list (yaml_node * yaml_node) :=
  match l with
  | k :: v :: l' => (k, v) :: yaml_pairs l'
  | _ => []
  end.

(** [walkYAML] *)
Fixpoint walkYAML (keys : list string) (node : yaml_node) : string :=
  match keys with
  | [] => ""
  | target :: rest =>
      let n := match yn_Kind node, yn_Content node with DocumentNode, c :: _ => c | _, _ => node end in
      match yn_Kind n with
      | MappingNode =>
          match List.find (λ kv : yaml_node * yaml_node, String.eqb (yn_Value kv.1) target) (yaml_pairs (yn_Content n)) with
          | Some (_, v) => match rest with [] => yn_Value v | _ => walkYAML rest v end
          | None => ""
          end
      | _ => ""
      end
  end.

(** [snsEventType] *)
Definition snsEventType (node : yaml_node) : string :=
  if bool_decide (yn_Kind node = NoNode) then ""
  else let v := walkYAML ["sns"; "messageAttributes"; "EventType"; "value"]%string node in
       if negb (String.eqb v "") then v
       else walkYAML ["sns"; "messageAttributes"; "event_type"; "value"]%string node.

(** ** The specification *)

(** [asyncProp]; [Example] is what [json.MarshalIndent] accepts of it. *)
Inductive asyncProp : Type := mkAsyncProp {
  ap_Type : string;
  ap_Format : string;
  ap_Desc : string;
  ap_Example : option json;
  ap_Enum : list string;
  ap_Ref : string;
  ap_Items : option asyncProp
}.

Definition no_prop : asyncProp := mkAsyncProp "" "" "" None [] "" None.

(** [asyncSchema] *)
Inductive asyncSchema : Type := mkAsyncSchema {
  as_Required : list string;
  as_Properties : gmap string asyncProp;
  as_PropertyOrder : list string;
  as_AllOf : list asyncSchema;
  as_Ref : string
}.

(** [asyncSchema.UnmarshalYAML]: the order of the properties, from the first
    "properties" of the node. *)
Definition property_order (value : yaml_node) : list string :=
  match List.find (λ kv : yaml_node * yaml_node, String.eqb (yn_Value kv.1) "properties") (yaml_pairs (yn_Content value)) with
  | Some (_, props) =>
      match yn_Kind props with
      | MappingNode => List.map (λ kv : yaml_node * yaml_node, yn_Value kv.1) (yaml_pairs (yn_Content props))
      | _ => []
      end
  | None => []
  end.

(** [asyncMessage] *)
Record asyncMessage : Type := mkAsyncMessage {
  am_Title : string;
  am_Summary : string;
  am_Tags : list string;
  am_Payload : string;
  am_Bindings : yaml_node
}.

(** [asyncMessage.isConsumed] *)
Definition isConsumed (m : asyncMessage) : bool := existsb (λ ref, has_suffix ref "/consumed") (am_Tags m).

(** [asyncComponents] and [asyncSpec] *)
Record asyncComponents : Type := mkAsyncComponents {
  ac_Messages : gmap string asyncMessage;
  ac_Schemas : gmap string asyncSchema
}.

Record asyncSpec : Type := mkAsyncSpec {
  sp_AsyncAPI : string;
  sp_Title : string;
  sp_Version : string;
  sp_Desc : string;
  sp_Servers : yaml_node;
  sp_Comps : asyncComponents
}.

(** ** Helpers *)

(** [sortedKeys] *)
Definition sortedKeys {A} (m : gmap string A) : list string := List.map fst (sorted_keys m).

(** [splitMessagesByDirection] *)
Definition splitMessagesByDirection (messages : gmap string asyncMessage) : list string * list string :=
  let consumed name := match messages !! name with Some m => isConsumed m | None => false end in
  (select (λ n, negb (consumed n)) (sortedKeys messages), select consumed (sortedKeys messages)).

(** [slices] without those already seen. *)
Fixpoint append_new (order l : list string) : list string :=
  match l with
  | [] => order
  | k :: l' => append_new (if contains k order then order else order ++ [k]) l'
  end.

(** One sub-schema of [allOf] merged. *)
Definition merge_schema (merged resolved : asyncSchema) : asyncSchema :=
  mkAsyncSchema (as_Required merged ++ as_Required resolved) (as_Properties resolved ∪ as_Properties merged)
    (append_new (as_PropertyOrder merged) (as_PropertyOrder resolved)) [] "".

(** [resolveSchema]: [None] without fuel. *)
Fixpoint resolveSchema (fuel : nat) (schemas : gmap string asyncSchema) (sc : asyncSchema) : option asyncSchema :=
  match fuel with
  | O => None
  | S fuel' =>
      match as_AllOf sc with
      | [] =>
          if String.eqb (as_Ref sc) "" then Some sc
          else match schemas !! schema_name (as_Ref sc) with
               | Some sub => resolveSchema fuel' schemas sub
               | None => Some sc
               end
      | subs =>
          List.fold_left (λ merged sub, m ← merged; r ← resolveSchema fuel' schemas sub; Some (merge_schema m r)) subs
            (Some (mkAsyncSchema [] ∅ [] [] ""))
      end
  end.

(** [propType] *)
Definition propType (p : asyncProp) : string :=
  if negb (String.eqb (ap_Ref p) "") then schema_name (ap_Ref p)
  else
    let t := if negb (String.eqb (ap_Format p) "") then ap_Type p +:+ "(" +:+ ap_Format p +:+ ")" else ap_Type p in
    match ap_Items p with
    | Some items =>
        if String.eqb (ap_Type p) "array"
        then if negb (String.eqb (ap_Type items) "") then "array<" +:+ ap_Type items +:+ ">"
             else if negb (String.eqb (ap_Ref items) "") then "array<" +:+ schema_name (ap_Ref items) +:+ ">"
             else t
        else t
    | None => t
    end.

(** [typeHTML] *)
Definition typeHTML (p : asyncProp) : list piece :=
  let link name := [Lit "<a href=`#schema-"; Esc name; Lit "` class=`prop-type schema-link`>"; Esc name; Lit "</a>"]%string in
  let plain := [Lit "<span class=`prop-type`>"; Esc (propType p); Lit "</span>"]%string in
  if negb (String.eqb (ap_Ref p) "") then link (schema_name (ap_Ref p))
  else match ap_Items p with
       | Some items =>
           if String.eqb (ap_Type p) "array" && negb (String.eqb (ap_Ref items) "")
           then [Lit "<span class=`prop-type`>array&lt;"]%string ++ link (schema_name (ap_Ref items)) ++ [Lit "&gt;</span>"]%string
           else plain
       | None => plain
       end.

(** ** The tables *)

(** [sort.SliceStable] *)
Fixpoint insert_stable {A} (less : A → A → bool) (x : A) (l : list A) : list A :=
  match l with
  | [] => [x]
  | y :: l' => if less x y then x :: l else y :: insert_stable less x l'
  end.
Definition SliceStable {A} (less : A → A → bool) (l : list A) : list A :=
  List.fold_left (λ acc x, insert_stable less x acc) l [].

(** The keys of [renderPropsTable], in the order of its rows: the declared
    order, or the sorted keys; then what it misses; required ones first. *)
Definition declared_keys (sc : asyncSchema) : list string :=
  match as_PropertyOrder sc with
  | [] => sortedKeys (as_Properties sc)
  | keys => keys
  end.
Definition all_keys (sc : asyncSchema) : list string :=
  declared_keys sc ++ select (λ k, negb (contains k (declared_keys sc))) (sortedKeys (as_Properties sc)).
Definition table_keys (sc : asyncSchema) : list string :=
  SliceStable (λ a b, contains a (as_Required sc) && negb (contains b (as_Required sc))) (all_keys sc).

(** What the sort leaves in [PropertyOrder]'s array: it is sorted in place,
    unless keys were appended, which moves it to a new array, or it was empty. *)
Definition order_after (sc : asyncSchema) : list string :=
  if Nat.eqb (length (all_keys sc)) (length (as_PropertyOrder sc)) then table_keys sc else as_PropertyOrder sc.

(** [enumHTML] and [itemEnumHTML] *)
Definition enum_values (l : list string) : list piece :=
  List.flat_map (λ ev, [Lit "<span class=`enum-val`>"; Esc ev; Lit "</span>"])%string l ++ [Lit "</div>"]%string.

(** One row of [renderPropsTable]. *)
Definition property_row (sc : asyncSchema) (schemaID k : string) : list piece :=
  let v := default no_prop (as_Properties sc !! k) in
  let enumHTML := match ap_Enum v with [] => [] | l => [Lit "<div class=`enum-list`>"]%string ++ enum_values l end in
  let itemEnumHTML :=
    match ap_Items v with
    | Some (mkAsyncProp _ _ _ _ (e :: l) _ _) =>
        [Lit "<div style=`margin-top:4px;font-size:.72rem;color:var(--muted)`>values:</div><div class=`enum-list`>"]%string
        ++ enum_values (e :: l)
    | _ => []
    end in
  let exampleHTML :=
    match ap_Example v with
    | Some x => [Lit "<pre style=`background:#0d0d0d;border:1px solid rgba(132,38,176,.25);padding:6px 8px;border-radius:6px;font-size:.72rem;margin-top:6px;color:#e879f9;overflow-x:auto;white-space:pre-wrap`>"; Esc (json_indent 0 x); Lit "</pre>"]%string
    | None => []
    end in
  let rowID := if negb (String.eqb schemaID "")
               then [Lit " id=`field--"; Esc schemaID; Lit "--"; Esc k; Lit "`"]%string else [] in
  [Lit "<tr"]%string ++ rowID ++ [Lit ">
<td onclick=`copyText('"; Esc k; Lit "')` title=`Click to copy` style=`cursor:pointer`><span class=`prop-name`>"; Esc k; Lit "</span></td>
<td>"]%string ++ typeHTML v ++ [Lit "</td>
<td>"]%string ++ (if contains k (as_Required sc) then [Lit "<span class=`prop-req`>required</span>"]%string else []) ++ [Lit "</td>
<td><span class=`prop-desc`>"; Esc (cut 200 "…" (TrimSpace (ap_Desc v))); Lit "</span>"]%string
  ++ enumHTML ++ itemEnumHTML ++ exampleHTML ++ [Lit "</td>
</tr>"]%string.

(** [renderPropsTable] *)
Definition renderPropsTable (sc : asyncSchema) (schemaID : string) : list piece :=
  if decide (as_Properties sc = ∅) then [Lit "<p style=`color:var(--muted);font-size:.8rem`>No properties.</p>"]%string
  else [Lit "<table class=`prop-table`><thead><tr>
<th>Field</th><th>Type</th><th>Required</th><th>Description</th>
</tr></thead><tbody>"]%string ++ List.flat_map (property_row sc schemaID) (table_keys sc) ++ [Lit "</tbody></table>"]%string.

(** ** The sections *)

(** [renderServers] *)
Definition server_item (name : string) (val : yaml_node) : list piece :=
  let field key := List.fold_left (λ acc (kv : yaml_node * yaml_node),
                     if String.eqb (yn_Value kv.1) key then yn_Value kv.2 else acc) (yaml_pairs (yn_Content val)) ""%string in
  [Lit "<div class=`server-item`>
  <div><span class=`server-name`>"; Esc name; Lit "</span></div>
  <div><span class=`server-proto`>"; Esc (ToUpper (field "protocol")); Lit "</span> <span class=`server-host`>"; Esc (field "host");
   Lit "</span></div>
  <div class=`server-desc`>"; Esc (TrimSpace (cut 200 "…" (field "description"))); Lit "</div>
</div>"]%string.

Definition renderServers (node : yaml_node) : list piece :=
  match yn_Kind node with
  | NoNode => []
  | _ =>
      [Lit "<div class=`section` id=`servers`><div class=`section-title`>Servers</div>"; Lit "<div class=`card`>"]%string
      ++ match yn_Kind node with
         | MappingNode => List.flat_map (λ kv : yaml_node * yaml_node, server_item (yn_Value kv.1) kv.2) (yaml_pairs (yn_Content node))
         | _ => []
         end
      ++ [Lit "</div></div>"]%string
  end.

Section page.
  Context (fuel : nat) (style script : string).

(** A table of a resolved schema; nothing without an answer. *)
Definition schema_table (comps : asyncComponents) (sc : asyncSchema) (id : string) : option (list piece) :=
  (λ r, renderPropsTable r id) <$> resolveSchema fuel (ac_Schemas comps) sc.

(** [renderMessage] *)
Definition renderMessage (name : string) (msg : asyncMessage) (comps : asyncComponents) : option (list piece) :=
  let title := if String.eqb (am_Title msg) "" then name else am_Title msg in
  let summary := TrimSpace (am_Summary msg) in
  let eventType := snsEventType (am_Bindings msg) in
  let badge := if isConsumed msg then Lit "m-recv`>RECEIVE" else Lit "m-send`>SEND" in
  let payloadRef := schema_name (am_Payload msg) in
  let header :=
    [Lit "<div class=`card` id=`msg-"; Raw name; Lit "`>
<div class=`card-header`>
  <span class=`badge "; badge; Lit "</span>
  <span class=`card-title`>"; Esc title; Lit "</span>
  "]%string
    ++ (if negb (String.eqb eventType "") then [Lit "<span class=`sns-attr`>event_type: "; Esc eventType; Lit "</span>"]%string else [])
    ++ [Lit "
  <button class=`toggle-btn` type=`button` tabindex=`-1` aria-hidden=`true`>▸</button>
</div>
<div class=`card-body` style=`display:none`>
"]%string
    ++ (if negb (String.eqb summary "")
        then [Lit "<p class=`card-summary` style=`margin-bottom:.75rem`>"; Esc summary; Lit "</p>"]%string else []) in
  table ← (if String.eqb payloadRef "" then Some []
           else match ac_Schemas comps !! payloadRef with
                | None => Some []
                | Some sc =>
                    t ← schema_table comps sc payloadRef;
                    Some ([Lit "<div style=`font-size:.78rem;color:var(--muted);margin-bottom:.5rem`>Payload: <span style=`color:var(--code);font-family:monospace`>"; Esc payloadRef; Lit "</span></div>"]%string ++ t)
                end);
  Some (header ++ table ++ [Lit "</div></div>"]%string).

(** [renderSchema] *)
Definition renderSchema (name : string) (sc : asyncSchema) (comps : asyncComponents) : option (list piece) :=
  t ← schema_table comps sc name;
  Some ([Lit "<div class=`card` id=`schema-"; Raw name; Lit "`>
<div class=`card-header`><span class=`card-title` style=`font-family:monospace`>"; Esc name; Lit "</span><button class=`toggle-btn` type=`button` tabindex=`-1` aria-hidden=`true`>▸</button></div>
<div class=`card-body` style=`display:none`>"]%string ++ t ++ [Lit "</div></div>"]%string).

(** The badge of the environment. *)
Definition env_label (env : string) : string := if String.eqb (ToUpper env) "" then "DEV" else ToUpper env.
Definition env_color (env : string) : string :=
  let e := lower env in
  if contains e ["prod"; "production"]%string then "#ec4b3c"
  else if contains e ["staging"; "stage"]%string then "#f59e0b"
  else "#22c55e".

Definition sidebar_link (kind name : string) : list piece :=
  [Lit "<a href=`#"; Lit kind; Raw name; Lit "`>"; Esc name; Lit "</a>"]%string.

(** A rendering of each name, in order. *)
Definition render_all {A} (m : gmap string A) (render : string → A → option (list piece)) (names : list string)
  : option (list piece) :=
  (λ l, @List.concat piece l) <$> mapM (λ name, m !! name ≫= render name) names.

(** [renderPage] *)
Definition page_top (s : asyncSpec) (env : string) : list piece :=
  let '(publishedNames, consumedNames) := splitMessagesByDirection (ac_Messages (sp_Comps s)) in
  [Lit "<!DOCTYPE html>
<html lang=`en` data-theme=`dark`>
<head>
<meta charset=`UTF-8`>
<meta name=`viewport` content=`width=device-width,initial-scale=1`>
<title>"; Esc (sp_Title s); Lit style; Lit "<div class=`header`>
  <div>
    <h1>"; Esc (sp_Title s); Lit "</h1>
    <p>Events published to <strong>iam.membership.events</strong> and <strong>iam.tenant.events</strong> SNS topics</p>
  </div>
  <span class=`badge badge-version`>v"; Esc (sp_Version s); Lit "</span>
  <span class=`badge` style=`background:linear-gradient(to right,#bd0283,#ec4b3c);color:#fff`>AsyncAPI "; Esc (sp_AsyncAPI s); Lit "</span>
  <span class=`badge` style=`background:"; Lit (env_color env); Lit ";color:#fff;margin-left:auto`>"; Esc (env_label env); Lit "</span>
  <button id=`theme-btn` class=`theme-toggle` onclick=`toggleTheme()` title=`Toggle light/dark mode`>🌙</button>
</div>
"]%string
  ++ [Lit "<div class=`layout`><nav class=`sidebar`>";
      Lit "<div style=`padding:.75rem 1rem .25rem`><input id=`search` placeholder=`Search...` autocomplete=`off` style=`width:100%;padding:6px 10px;background:#0d0d0d;border:1px solid var(--border);color:#fff;border-radius:6px;font-size:.8rem;outline:none`></div>";
      Lit "<div class=`sidebar-group`><div class=`sidebar-label`>Overview</div>";
      Lit "<a href=`#info`>Info</a><a href=`#servers`>Servers</a></div>";
      Lit "<div class=`sidebar-group`><div class=`sidebar-label`>Published Messages</div>"]%string
  ++ List.flat_map (sidebar_link "msg-") publishedNames
  ++ [Lit "</div>"; Lit "<div class=`sidebar-group`><div class=`sidebar-label`>Consumed Messages</div>"]%string
  ++ List.flat_map (sidebar_link "msg-") consumedNames
  ++ [Lit "</div>"; Lit "<div class=`sidebar-group`><div class=`sidebar-label`>Schemas</div>"]%string
  ++ List.flat_map (sidebar_link "schema-") (sortedKeys (ac_Schemas (sp_Comps s)))
  ++ [Lit "</div></nav>"; Lit "<main class=`content`>"; Lit "<div class=`section` id=`info`>";
      Lit "<div class=`section-title`>Info</div>"]%string
  ++ (if negb (String.eqb (sp_Desc s) "")
      then [Lit "<div class=`info-desc`>";
            Esc (cut 800 (new_line 0 +:+ new_line 0 +:+ "[truncated — see api/asyncapi.yaml for full description]") (sp_Desc s));
            Lit "</div>"]%string else [])
  ++ [Lit "</div>"]%string
  ++ renderServers (sp_Servers s).

Definition renderPage (s : asyncSpec) (env : string) : option (list piece) :=
  let comps := sp_Comps s in
  let '(publishedNames, consumedNames) := splitMessagesByDirection (ac_Messages comps) in
  let messages names := render_all (ac_Messages comps) (λ name msg, renderMessage name msg comps) names in
  published ← messages publishedNames;
  consumed ← messages consumedNames;
  schemas ← render_all (ac_Schemas comps) (λ name sc, renderSchema name sc comps) (sortedKeys (ac_Schemas comps));
  Some (page_top s env
        ++ [Lit "<div class=`section` id=`messages-published`><div class=`section-title`>Published Messages</div>"]%string
        ++ published
        ++ [Lit "</div>"; Lit "<div class=`section` id=`messages-consumed`><div class=`section-title`>Consumed Messages</div>"]%string
        ++ consumed
        ++ [Lit "</div>"; Lit "<div class=`section` id=`schemas`><div class=`section-title`>Schemas</div>"]%string
        ++ schemas
        ++ [Lit "</div>"; Lit script]%string).

(** [AsyncAPIHandler]; [loaded] is what [loadAsyncSpec] answers, every time the
    same.  An error is answered with gincommon's internal-error problem. *)
Definition AsyncAPIHandler (loaded : result error asyncSpec) (ENV : string) : option (error + string) :=
  match loaded with
  | Err e => Some (inl e)
  | Ok spec => (λ l, inr (page_text l)) <$> renderPage spec ENV
  end.
End page.

(** ** The routes of the documentation *)

Inductive docs_page : Type := ThemePage | InitializerPage | SwaggerPage | AsyncAPIPage | AsyncAPIYAMLPage.

Definition docs_endpoint (path : string) : option docs_page :=
  if String.prefix "/swagger/" path
  then Some (if has_suffix path "/index.css" then ThemePage
             else if has_suffix path "/swagger-initializer.js" then InitializerPage
             else SwaggerPage)
  else if String.eqb path "/asyncapi" then Some AsyncAPIPage
  else if String.eqb path "/asyncapi.yaml" then Some AsyncAPIYAMLPage
  else None.

(** [registerDocsRoutes]: a GET of a path; no answer where there is no route. *)
Definition docs_dispatch (d : DocsConfig) (path authorization : string) : option (problem + docs_page) :=
  if negb (docs_active d) then None
  else match docs_endpoint path with
       | None => None
       | Some page => Some (match docs_refused d authorization with Some p => inl p | None => inr page end)
       end.

(** ** Escaping *)

(** [html.UnescapeString] on the five entities. *)
Fixpoint unescape (s : string) : string :=
  match s with
  | EmptyString => EmptyString
  | String "&" (String "a" (String "m" (String "p" (String ";" s')))) => String "&" (unescape s')
  | String "&" (String "l" (String "t" (String ";" s'))) => String "<" (unescape s')
  | String "&" (String "g" (String "t" (String ";" s'))) => String ">" (unescape s')
  | String "&" (String "#" (String "3" (String "9" (String ";" s')))) => String "'" (unescape s')
  | String "&" (String "#" (String "3" (String "4" (String ";" s')))) => String (ascii_of_N 34) (unescape s')
  | String c s' => String c (unescape s')
  end.

Fixpoint chars (s : string) : list N :=
  match s with EmptyString => [] | String c s' => N_of_ascii c :: chars s' end.

Lemma chars_app a b : chars (a +:+ b) = chars a ++ chars b.
Proof. induction a as [|c a IH]; [done|]. exact (f_equal (cons (N_of_ascii c)) IH). Qed.

Lemma unescape_escaped c s : unescape (escape_html_char c +:+ s) = String c (unescape s).
Proof. destruct c as [[] [] [] [] [] [] [] []]; reflexivity. Qed.

(** Escaped text opens no tag and ends no attribute: it has none of the
    characters for it, and it still says the same. *)
Theorem EscapeString_safe s :
  Forall (λ c, c ≠ 60 ∧ c ≠ 62 ∧ c ≠ 34 ∧ c ≠ 39)%N (chars (EscapeString s)) ∧ unescape (EscapeString s) = s.
Proof.
  induction s as [|c s [IHs IHu]]; [by repeat constructor|]. cbn [EscapeString]. rewrite chars_app, unescape_escaped, IHu.
  split; [|done]. apply Forall_app. split; [|done].
  destruct c as [[] [] [] [] [] [] [] []]; cbn; repeat constructor; discriminate.
Qed.

(** A value written as it is, is one of [names]. *)
Definition names_only (names : list string) (p : piece) : Prop :=
  match p with Raw s => s ∈ names | _ => True end.

Lemma Forall_flat_map {A B} (P : B → Prop) (f : A → list B) l :
  (∀ x, x ∈ l → Forall P (f x)) → Forall P (List.flat_map f l).
Proof.
  induction l as [|x l IH]; intros Hf; [constructor|]. cbn. apply Forall_app. split; [apply Hf; left|].
  apply IH. intros y Hy. apply Hf. by right.
Qed.

Ltac pieces :=
  repeat match goal with
  | |- Forall _ (_ ++ _) => apply Forall_app; split
  | |- Forall _ (_ :: _) => constructor
  | |- Forall _ [] => constructor
  | |- Forall _ (List.flat_map _ _) => apply Forall_flat_map; intros ? ?
  | |- Forall _ (if ?b then _ else _) => destruct b
  | |- Forall _ (match ?x with _ => _ end) => destruct x
  | |- names_only _ (Lit _) => exact I
  | |- names_only _ (Esc _) => exact I
  | |- names_only _ (if ?b then _ else _) => destruct b
  | |- names_only _ (Raw _) => cbn
  end.

Section escaped.
  Context (fuel : nat) (style script : string).

Lemma typeHTML_names names p : Forall (names_only names) (typeHTML p).
Proof. unfold typeHTML. destruct (negb _); pieces. Qed.

Lemma table_names names sc id : Forall (names_only names) (renderPropsTable sc id).
Proof.
  unfold renderPropsTable. destruct (decide _); pieces. unfold property_row. cbv zeta.
  unfold enum_values. pieces; apply typeHTML_names || auto.
Qed.

Lemma schema_table_names names comps sc id l : schema_table fuel comps sc id = Some l → Forall (names_only names) l.
Proof. unfold schema_table. destruct (resolveSchema _ _ _); [|done]. intros [= <-]. apply table_names. Qed.

Lemma message_names names name msg comps l :
  renderMessage fuel name msg comps = Some l → name ∈ names → Forall (names_only names) l.
Proof.
  unfold renderMessage. cbv zeta. intros (table & Ht & [= <-])%bind_Some Hn.
  assert (Forall (names_only names) table) as Hf.
  { destruct (String.eqb _ _); [injection Ht as <-; constructor|].
    destruct (ac_Schemas comps !! _); [|injection Ht as <-; constructor].
    apply bind_Some in Ht as (t & Hs & [= <-]). pieces. by eapply schema_table_names. }
  pieces; auto.
Qed.

Lemma schema_names names name sc comps l :
  renderSchema fuel name sc comps = Some l → name ∈ names → Forall (names_only names) l.
Proof.
  unfold renderSchema. intros (t & Hs & [= <-])%bind_Some Hn. apply (schema_table_names names) in Hs. pieces; auto.
Qed.

Lemma render_all_names {A} names (m : gmap string A) render l pieces :
  (∀ name a p, name ∈ l → render name a = Some p → Forall (names_only names) p) →
  render_all m render l = Some pieces → Forall (names_only names) pieces.
Proof.
  intros Hr. unfold render_all. destruct (mapM _ l) as [ps|] eqn:E; [|done]. intros [= <-].
  apply mapM_Some in E. induction E as [|name p l ps Hp _ IH]; [constructor|]. cbn. apply Forall_app.
  apply bind_Some in Hp as (a & _ & Hp). split; [eapply Hr; [|done]; left|].
  apply IH. intros n a' p' Hn. apply Hr. by right.
Qed.

Lemma top_names names s env :
  (∀ n, n ∈ sortedKeys (ac_Messages (sp_Comps s)) → n ∈ names) → (∀ n, n ∈ sortedKeys (ac_Schemas (sp_Comps s)) → n ∈ names) →
  Forall (names_only names) (page_top style s env).
Proof.
  intros Hm Hs. unfold page_top, splitMessagesByDirection, sidebar_link, renderServers, server_item.
  pieces; auto; match goal with H : _ ∈ select _ _ |- _ => apply elem_of_select in H as [? _]; auto end.
Qed.

(** Whatever the specification says, the only values of it the page shows
    without escaping are names of its messages and schemas. *)
Theorem page_escapes s env l :
  renderPage fuel style script s env = Some l →
  Forall (names_only (sortedKeys (ac_Messages (sp_Comps s)) ++ sortedKeys (ac_Schemas (sp_Comps s)))) l.
Proof.
  unfold renderPage, splitMessagesByDirection. cbv zeta beta iota. set (names := _ ++ _).
  assert (∀ n, n ∈ sortedKeys (ac_Messages (sp_Comps s)) → n ∈ names) as Hm by (intros; apply elem_of_app; auto).
  assert (∀ n, n ∈ sortedKeys (ac_Schemas (sp_Comps s)) → n ∈ names) as Hs by (intros; apply elem_of_app; auto).
  intros (p & Hp & (c & Hc & (sc & Hsc & E)%bind_Some)%bind_Some)%bind_Some. apply (inj Some) in E as <-.
  apply (render_all_names names) in Hp, Hc, Hsc.
  - pose proof (top_names names s env Hm Hs) as Ht. pieces; assumption.
  - intros name a q Hn Hq. eapply schema_names; [done|auto].
  - intros name a q [Hn _]%elem_of_select Hq. eapply message_names; [done|auto].
  - intros name a q [Hn _]%elem_of_select Hq. eapply message_names; [done|auto].
Qed.
End escaped.

(** ** Directions *)

Lemma sortedKeys_perm {A} (m : gmap string A) : sortedKeys m ≡ₚ (map_to_list m).*1.
Proof. unfold sortedKeys, sorted_keys. by rewrite isort_perm. Qed.

Lemma elem_of_sortedKeys {A} (m : gmap string A) k : k ∈ sortedKeys m ↔ is_Some (m !! k).
Proof.
  rewrite sortedKeys_perm, list_elem_of_fmap. split.
  - intros ([k' v] & -> & Hin%elem_of_map_to_list). by exists v.
  - intros [v Hv]. exists (k, v). split; [done|]. by apply elem_of_map_to_list.
Qed.

Lemma NoDup_sortedKeys {A} (m : gmap string A) : NoDup (sortedKeys m).
Proof. rewrite sortedKeys_perm. apply NoDup_fst_map_to_list. Qed.

(** Every message is shown once, and in the direction its tags say. *)
Theorem directions_partition messages published consumed :
  splitMessagesByDirection messages = (published, consumed) →
  published ++ consumed ≡ₚ (map_to_list messages).*1 ∧
  (∀ name, name ∈ consumed ↔ ∃ m, messages !! name = Some m ∧ isConsumed m = true).
Proof.
  unfold splitMessagesByDirection. cbv zeta. intros [= <- <-]. split.
  - rewrite <- sortedKeys_perm. induction (sortedKeys messages) as [|n l IH]; [done|]. unfold select in *. cbn [List.filter].
    destruct (match messages !! n with Some m => _ | None => _ end); cbn [negb].
    + by rewrite <- Permutation_middle, IH.
    + cbn. by rewrite IH.
  - intros name. rewrite elem_of_select, elem_of_sortedKeys. destruct (messages !! name) as [m|]; [|naive_solver].
    naive_solver.
Qed.

(** ** Tables *)

Section stable.
  Context {A : Type} (p : A → bool).

#[local] Notation less := (λ a b, p a && negb (p b)).

Lemma insert_stable_spec x l1 l2 :
  Forall (λ y, p y = true) l1 → Forall (λ y, p y = false) l2 →
  insert_stable less x (l1 ++ l2) = if p x then l1 ++ x :: l2 else l1 ++ l2 ++ [x].
Proof.
  intros H1 H2. induction H1 as [|y l1 Hy _ IH]; cbn.
  - destruct (p x) eqn:Ex.
    + destruct H2 as [|y l2 Hy _]; [done|]. cbn. by rewrite Ex, Hy.
    + induction H2 as [|y l2 Hy _ IH]; [done|]. cbn. by rewrite Ex, IH.
  - rewrite Hy, andb_false_r, IH. by destruct (p x).
Qed.

Lemma select_holds (q : A → bool) l : Forall (λ y, q y = true) (select q l).
Proof. apply Forall_forall. intros y Hy%elem_of_select. by destruct Hy. Qed.

(** The stable sort with [less] puts those with [p] first and changes nothing
    else. *)
Lemma SliceStable_partition l : SliceStable less l = select p l ++ select (λ x, negb (p x)) l.
Proof.
  unfold SliceStable. induction l as [|x l IH] using rev_ind; [done|]. rewrite List.fold_left_app. cbn. rewrite IH.
  rewrite insert_stable_spec; [|apply select_holds|].
  - unfold select. rewrite !List.filter_app. cbn. destruct (p x); cbn; by rewrite ?app_nil_r, <- ?app_assoc.
  - eapply Forall_impl; [apply (select_holds (λ x, negb (p x)))|]. intros y; cbv beta; destruct (p y); cbn; congruence.
Qed.

Lemma select_true l : Forall (λ y, p y = true) l → select p l = l.
Proof. unfold select. induction 1 as [|x l Hx _ IH]; [done|]. cbn. by rewrite Hx, IH. Qed.

Lemma select_false (q : A → bool) l : Forall (λ y, q y = false) l → select q l = [].
Proof. unfold select. induction 1 as [|x l Hx _ IH]; [done|]. cbn. by rewrite Hx. Qed.
End stable.

Lemma SliceStable_idem {A} (p : A → bool) l :
  let less a b := p a && negb (p b) in SliceStable less (SliceStable less l) = SliceStable less l.
Proof.
  cbv zeta. rewrite (SliceStable_partition p l), SliceStable_partition.
  pose proof (select_holds p l) as H1. pose proof (select_holds (λ x, negb (p x)) l) as H2.
  revert H1 H2. generalize (select p l) as l1, (select (λ x, negb (p x)) l) as l2. intros l1 l2 H1 H2.
  assert (∀ q, select q (l1 ++ l2) = select q l1 ++ select q l2) as Happ by (intros q; apply List.filter_app).
  rewrite !Happ, (select_true p l1), (select_true (λ x, negb (p x)) l2) by done.
  rewrite (select_false p l2), (select_false (λ x, negb (p x)) l1); [by rewrite app_nil_r| |];
    (eapply Forall_impl; [eassumption|]); intros y; cbv beta; destruct (p y); cbn; congruence.
Qed.

Lemma SliceStable_perm {A} (p : A → bool) l : SliceStable (λ a b, p a && negb (p b)) l ≡ₚ l.
Proof.
  rewrite SliceStable_partition. unfold select. induction l as [|x l IH]; [done|]. cbn. destruct (p x); cbn.
  - by rewrite IH.
  - by rewrite <- Permutation_middle, IH.
Qed.

(** With the order in the table's own order nothing is missing and nothing
    moves. *)
Lemma all_keys_nothing_missing sc :
  length (all_keys sc) = length (as_PropertyOrder sc) → all_keys sc = as_PropertyOrder sc.
Proof.
  unfold all_keys, declared_keys. destruct (as_PropertyOrder sc) as [|k order].
  - intros E. by apply length_zero_iff_nil in E.
  - rewrite length_app. intros E. rewrite (proj1 (length_zero_iff_nil (select _ _))); [by rewrite app_nil_r|lia].
Qed.

Lemma all_keys_order sc order :
  as_PropertyOrder sc ≡ₚ order → all_keys sc = as_PropertyOrder sc →
  all_keys (mkAsyncSchema (as_Required sc) (as_Properties sc) order (as_AllOf sc) (as_Ref sc)) = order.
Proof.
  unfold all_keys, declared_keys. cbn. destruct (as_PropertyOrder sc) as [|k o].
  - intros Hp E. apply Permutation_nil_l in Hp. subst order. exact E.
  - intros Hp E. destruct order as [|k' order]; [by apply Permutation_nil_r in Hp|].
    rewrite <- (app_nil_r (k :: o)) in E at 2. apply app_inv_head in E. rewrite <- (app_nil_r (k' :: order)) at 2. f_equal.
    rewrite <- E. unfold select. apply List.filter_ext. intros x. unfold contains. f_equal.
    apply bool_decide_ext. by rewrite Hp.
Qed.

(** The rows of a table: the required properties and then the others, each in
    the declared order; every property once, when the order names properties
    and none twice, as a decoded one does; and the same rows again after the
    sort has been done in place. *)
Theorem table_rows sc :
  let required k := contains k (as_Required sc) in
  table_keys sc = select required (all_keys sc) ++ select (λ k, negb (required k)) (all_keys sc) ∧
  (NoDup (as_PropertyOrder sc) → (∀ k, k ∈ as_PropertyOrder sc → is_Some (as_Properties sc !! k)) →
   table_keys sc ≡ₚ (map_to_list (as_Properties sc)).*1) ∧
  table_keys (mkAsyncSchema (as_Required sc) (as_Properties sc) (order_after sc) (as_AllOf sc) (as_Ref sc)) = table_keys sc.
Proof.
  cbv zeta. split_and!.
  - apply (SliceStable_partition (λ k, contains k (as_Required sc))).
  - intros Hn Hin. unfold table_keys. rewrite (SliceStable_perm (λ k, contains k (as_Required sc))), <- sortedKeys_perm.
    unfold all_keys. assert (NoDup (declared_keys sc) ∧ ∀ k, k ∈ declared_keys sc → k ∈ sortedKeys (as_Properties sc)) as [Hd Hs].
    { unfold declared_keys. destruct (as_PropertyOrder sc) as [|k o]; [split; [apply NoDup_sortedKeys|done]|].
      split; [done|]. intros x Hx. apply elem_of_sortedKeys, Hin, Hx. }
    apply NoDup_Permutation; [|apply NoDup_sortedKeys|].
    + apply NoDup_app. split; [done|]. split; [|apply NoDup_ListNoDup, List.NoDup_filter, NoDup_ListNoDup, NoDup_sortedKeys].
      intros x Hx [_ Hc]%elem_of_select. unfold contains in Hc. by rewrite bool_decide_eq_true_2 in Hc.
    + intros x. rewrite elem_of_app, elem_of_select. split; [intros [?|[? _]]; auto|]. intros Hx.
      destruct (decide (x ∈ declared_keys sc)); [by left|]. right. split; [done|]. unfold contains.
      by rewrite bool_decide_eq_false_2.
  - unfold order_after. destruct (Nat.eqb_spec (length (all_keys sc)) (length (as_PropertyOrder sc))) as [E|]; [|by destruct sc].
    apply all_keys_nothing_missing in E as E'. unfold table_keys at 1. cbn [as_Required].
    rewrite all_keys_order; [apply (SliceStable_idem (λ k, contains k (as_Required sc)))| |done].
    unfold table_keys. rewrite (SliceStable_perm (λ k, contains k (as_Required sc))). by rewrite E'.
Qed.

(** ** References *)

(** The names a schema refers to on the way to its properties. *)
Fixpoint schema_refs (sc : asyncSchema) : list string :=
  match as_AllOf sc with
  | [] => if String.eqb (as_Ref sc) "" then [] else [schema_name (as_Ref sc)]
  | subs => List.flat_map schema_refs subs
  end.

Section resolve.
  Context (schemas : gmap string asyncSchema).

#[local] Notation resolve := (λ fuel, resolveSchema fuel schemas).
#[local] Notation merge_all fuel :=
  (List.fold_left (λ merged sub, m ← merged; r ← resolveSchema fuel schemas sub; Some (merge_schema m r))).

Lemma merge_all_None fuel subs : merge_all fuel subs None = None.
Proof. by induction subs. Qed.

(** The fold succeeds exactly when every part resolves. *)
Lemma merge_all_Some fuel subs m :
  is_Some (merge_all fuel subs (Some m)) ↔ Forall (λ sub, is_Some (resolve fuel sub)) subs.
Proof.
  revert m. induction subs as [|sub subs IH]; intros m; cbn [List.fold_left]; [split; [constructor|by exists m]|].
  rewrite Forall_cons. cbn. destruct (resolveSchema fuel schemas sub) as [r|]; cbn.
  - rewrite IH. split; [by split; [exists r|]|by intros []].
  - rewrite merge_all_None. split; [by intros []|by intros [[] _]].
Qed.

Lemma resolve_more fuel fuel' sc r : (fuel <= fuel')%nat → resolve fuel sc = Some r → resolve fuel' sc = Some r.
Proof.
  revert fuel' sc r. induction fuel as [|fuel IH]; intros fuel' sc r Hle; [done|].
  destruct fuel' as [|fuel']; [lia|]. cbn [resolveSchema]. destruct (as_AllOf sc) as [|s0 subs].
  - destruct (String.eqb _ _); [done|]. destruct (schemas !! _); [|done]. apply IH. lia.
  - generalize (s0 :: subs) as l, (mkAsyncSchema [] ∅ [] [] "") as m. clear s0 subs. intros l.
    induction l as [|sub l IHl]; intros m; cbn [List.fold_left]; [done|]. cbn.
    destruct (resolveSchema fuel schemas sub) as [x|] eqn:Ex; cbn; [|by rewrite merge_all_None].
    rewrite (IH fuel' sub x) by (lia || done). cbn. apply IHl.
Qed.

(** A resolution for every part at once. *)
Lemma resolve_parts subs :
  Forall (λ sub, ∃ fuel, is_Some (resolve fuel sub)) subs → ∃ fuel, Forall (λ sub, is_Some (resolve fuel sub)) subs.
Proof.
  induction 1 as [|sub subs [f [r Hr]] _ [f' Hf']]; [by exists O|]. exists (Nat.max f f'). constructor.
  - exists r. eapply resolve_more; [|done]. lia.
  - eapply Forall_impl; [exact Hf'|]. intros s [x Hx]. exists x. eapply resolve_more; [|done]. lia.
Qed.

Section ranked.
  Context (rank : string → nat).
  Context (Hrank : ∀ name sc r, schemas !! name = Some sc → r ∈ schema_refs sc → is_Some (schemas !! r) → (rank r < rank name)%nat).

Lemma resolve_ranked n : ∀ sc,
  (∀ r, r ∈ schema_refs sc → is_Some (schemas !! r) → (rank r < n)%nat) → ∃ fuel, is_Some (resolve fuel sc).
Proof.
  induction (lt_wf n) as [n _ IHn].
  refine (fix IH (sc : asyncSchema) : _ → _ := _). intros Hr. destruct sc as [req props order [|s0 subs] ref].
  - cbn in Hr. destruct (String.eqb ref "") eqn:Eref.
    { exists 1%nat. cbn. rewrite Eref. by eexists. }
    destruct (schemas !! schema_name ref) as [sub|] eqn:Es; [|exists 1%nat; cbn; rewrite Eref, Es; by eexists].
    destruct (IHn (rank (schema_name ref))) with (sc := sub) as [fuel Hf].
    + apply Hr; [by left|by rewrite Es].
    + intros r Hin Hin'. by eapply Hrank.
    + exists (S fuel). cbn. by rewrite Eref, Es.
  - destruct (resolve_parts (s0 :: subs)) as [fuel Hf].
    + revert Hr. cbn [schema_refs as_AllOf]. generalize (s0 :: subs) as l. clear s0 subs.
      induction l as [|s l IHl]; intros Hr; [constructor|]. cbn in Hr. constructor.
      * apply IH. intros r Hin. apply Hr. apply elem_of_app. by left.
      * apply IHl. intros r Hin. apply Hr. apply elem_of_app. by right.
    + exists (S fuel). cbn [resolveSchema as_AllOf]. by apply merge_all_Some.
Qed.

(** References that never run in a circle (each leads to a schema of a smaller
    rank) are followed to an end: with enough fuel there is an answer, and more
    fuel does not change it. *)
Theorem resolveSchema_total sc : ∃ fuel r, ∀ fuel', (fuel <= fuel')%nat → resolve fuel' sc = Some r.
Proof.
  destruct (resolve_ranked (S (list_max (List.map rank (schema_refs sc)))) sc) as [fuel [r Hr]].
  - intros r Hin _. apply Nat.lt_succ_r. apply (proj1 (List.Forall_forall _ _) (proj1 (list_max_le _ _) (le_n _))).
    apply List.in_map, list_elem_of_In, Hin.
  - exists fuel, r. intros fuel' Hle. by eapply resolve_more.
Qed.
End ranked.

(** On a circle of references there is no answer, whatever the fuel: the Go
    function does not return. *)
Theorem resolveSchema_cycle (circle : string → Prop) :
  (∀ name, circle name → ∃ sc, schemas !! name = Some sc ∧ as_AllOf sc = [] ∧ as_Ref sc ≠ ""%string ∧
     circle (schema_name (as_Ref sc))) →
  ∀ fuel name sc, circle name → schemas !! name = Some sc → resolve fuel sc = None.
Proof.
  intros Hc fuel. induction fuel as [|fuel IH]; intros name sc Hn Hs; [done|].
  destruct (Hc name Hn) as (sc' & Hs' & Ha & Hr & Hn'). rewrite Hs in Hs'. injection Hs' as <-. cbn [resolveSchema].
  rewrite Ha. apply String.eqb_neq in Hr. rewrite Hr. destruct (Hc _ Hn') as (sub & Hsub & _). rewrite Hsub. by eapply IH.
Qed.
End resolve.

(** A small catalogue: an envelope and a message whose payload extends it. *)
Example envelope_table :
  let base := mkAsyncSchema ["id"] (<["note" := no_prop]> (<["id" := no_prop]> ∅)) ["note"; "id"] [] "" in
  let data := mkAsyncSchema ["data"] (<["data" := no_prop]> ∅) ["data"] [] "" in
  let ref := mkAsyncSchema [] ∅ [] [] "#/components/schemas/Base" in
  let env := mkAsyncSchema [] ∅ [] [ref; data] "" in
  table_keys <$> resolveSchema 3 (<["Base" := base]> (<["Env" := env]> ∅)) env = Some ["id"; "data"; "note"]%string.
Proof. vm_compute. reflexivity. Qed.

(** ** The page is answered *)

Lemma render_all_total {A} (m : gmap string A) render l :
  (∀ name, name ∈ l → is_Some (m !! name)) → (∀ name a, m !! name = Some a → is_Some (render name a)) →
  is_Some (render_all m render l).
Proof.
  intros Hl Hr. unfold render_all. assert (is_Some (mapM (λ name, m !! name ≫= render name) l)) as [ps ->]; [|by eexists].
  apply mapM_is_Some_2. apply Forall_forall. intros name Hn. destruct (Hl name Hn) as [a Ha]. destruct (Hr name a Ha) as [p Hp].
  exists p. apply bind_Some. by exists a.
Qed.

(** When the references of the schemas do not run in a circle, the page of a
    decoded specification is rendered: there is a fuel with which the handler
    answers the page, and an error of the decoder is answered as it is. *)
Theorem AsyncAPIHandler_answers (rank : string → nat) style script spec ENV :
  let schemas := ac_Schemas (sp_Comps spec) in
  (∀ name sc r, schemas !! name = Some sc → r ∈ schema_refs sc → is_Some (schemas !! r) → (rank r < rank name)%nat) →
  ∃ fuel text, AsyncAPIHandler fuel style script (Ok spec) ENV = Some (inr text).
Proof.
  intros schemas Hrank.
  assert (∃ fuel, ∀ name sc, schemas !! name = Some sc → is_Some (resolveSchema fuel schemas sc)) as [fuel Hf].
  { destruct (resolve_parts schemas (map_to_list schemas).*2) as [fuel Hf].
    - apply Forall_forall. intros sc _. destruct (resolveSchema_total schemas rank Hrank sc) as (fuel & r & Hr).
      exists fuel, r. by apply Hr.
    - exists fuel. intros name sc Hs. apply (proj1 (Forall_forall _ _) Hf).
      apply list_elem_of_fmap. exists (name, sc). split; [done|]. by apply elem_of_map_to_list. }
  exists fuel. unfold AsyncAPIHandler, renderPage, splitMessagesByDirection. cbv zeta beta iota.
  assert (∀ name sc id, schemas !! name = Some sc → is_Some (schema_table fuel (sp_Comps spec) sc id)) as Ht.
  { intros name sc id Hs. unfold schema_table. destruct (Hf name sc Hs) as [r Hr]. fold schemas. rewrite Hr. by eexists. }
  assert (∀ name msg, is_Some (renderMessage fuel name msg (sp_Comps spec))) as Hm.
  { intros name msg. unfold renderMessage. cbv zeta. destruct (String.eqb (schema_name _) ""); [by eexists|].
    destruct (ac_Schemas (sp_Comps spec) !! _) as [sc|] eqn:Es; [|by eexists].
    destruct (Ht _ sc (schema_name (am_Payload msg)) Es) as [t ->]. by eexists. }
  assert (∀ names, (∀ n, n ∈ names → n ∈ sortedKeys (ac_Messages (sp_Comps spec))) →
    is_Some (render_all (ac_Messages (sp_Comps spec)) (λ name msg, renderMessage fuel name msg (sp_Comps spec)) names)) as Hms.
  { intros names Hn. apply render_all_total; [|done]. intros n Hin. by apply elem_of_sortedKeys, Hn. }
  destruct (Hms (select (λ n, negb (match ac_Messages (sp_Comps spec) !! n with Some m => isConsumed m | None => false end))
                   (sortedKeys (ac_Messages (sp_Comps spec))))) as [p ->]; [by intros n [? _]%elem_of_select|].
  destruct (Hms (select (λ n, match ac_Messages (sp_Comps spec) !! n with Some m => isConsumed m | None => false end)
                   (sortedKeys (ac_Messages (sp_Comps spec))))) as [c ->]; [by intros n [? _]%elem_of_select|].
  destruct (render_all_total schemas (λ name sc, renderSchema fuel name sc (sp_Comps spec)) (sortedKeys schemas)) as [x Hx].
  - intros n. apply elem_of_sortedKeys.
  - intros name sc Hs. unfold renderSchema. destruct (Ht name sc name Hs) as [t ->]. by eexists.
  - fold schemas. cbn. rewrite Hx. by eexists.
Qed.
