(* ===== verification/Demo.v ===== *)
(** * Demo: a concrete environment and sample rows

    An instance of [Env] in which every collaborator is wired and answers
    normally, and a few rows, for the witnesses that evaluate the model on
    concrete inputs.  A uuid is printed in binary. *)

From Stdlib Require Import Ascii.
From S2P Require Import Prelude Domain Schema Tx Wp EventStores.

(** ** Printing uuids *)

Fixpoint pos_string (p : positive) : string :=
  match p with
  | xH => "1"
  | xO q => String.append (pos_string q) "0"
  | xI q => String.append (pos_string q) "1"
  end.

Definition z_string (z : Z) : string :=
  match z with
  | Z0 => "0"
  | Zpos p => pos_string p
  | Zneg p => String "-"%char (pos_string p)
  end.

Fixpoint parse_bits (s : string) (acc : option positive) : option positive :=
  match s with
  | EmptyString => acc
  | String c s' =>
      if Ascii.eqb c "1"%char then parse_bits s' (Some (match acc with Some p => xI p | None => xH end))
      else if Ascii.eqb c "0"%char then
        match acc with Some p => parse_bits s' (Some (xO p)) | None => None end
      else None
  end.

Definition z_parse (s : string) : option Z :=
  if String.eqb s "0" then Some 0
  else match s with
       | String c s' =>
           if Ascii.eqb c "-"%char then Zneg <$> parse_bits s' None
           else Zpos <$> parse_bits s None
       | EmptyString => None
       end.

Definition rotate {A} (n : nat) (l : list A) : list A := drop (n mod 2) l ++ take (n mod 2) l.

(** ** Sample rows *)

Definition demo_tenant (id : uuid) (slug : string) (status : SubscriptionStatus) : Tenant :=
  {| t_ID := id; t_Slug := slug; t_Name := "Acme"; t_Plan := PlanPro; t_FeatureFlags := ∅;
     t_Status := status; t_TrialEndsAt := Some 2000; t_TrialReactivationCount := 0;
     t_SubscriptionStartedAt := Some 100; t_CancelledAt := None; t_SuspensionSource := None;
     t_LastEventAt := Some 500; t_RealmID := "trial"; t_RealmType := RealmShared;
     t_KeycloakShard := "shard-0"; t_MFAFreshnessSeconds := 300; t_LocalAccountsEnabled := true;
     t_RealmSyncPending := false; t_DefaultLocale := "en-US"; t_LicensedSeats := 10;
     t_OwnerlessSince := None; t_OverageSince := None; t_ResidencyMode := ResidencyModeStandard;
     t_RecordVersion := 1; t_CreatedAt := 10; t_UpdatedAt := 10; t_DeletedAt := None |}.

Definition demo_member (id tenantID userID : uuid) (status : MembershipStatus) : TenantMembership :=
  mkTenantMembership id tenantID userID status 1 10 10 None.

Definition demo_role (id tenantID userID membershipID : uuid) (role : TenantRoleCode) : TenantRole :=
  mkTenantRole id tenantID userID membershipID role 1 1 10 10 None.

Definition demo_dept (id tenantID userID membershipID departmentID : uuid) (level : DeptRole) : DeptMembership :=
  mkDeptMembership id tenantID userID membershipID departmentID level 1 1 10 10 None.

(** A world with a given database, nothing else running. *)
Definition demo_world (d : DB) : World :=
  {| w_db := d; w_cache := []; w_calls := []; w_clock := 1000; w_txnow := None; w_sched := [];
     w_uuids := 0 |}.

(** A catalog plan. *)
Definition demo_cplan (code : TenantPlan) (sso : bool) : CatalogPlan :=
  mkCatalogPlan code "Plan" None None 14 sso "none" ∅ 1.

(** ** The environment *)

Lemma parse_bits_app p s : parse_bits (pos_string p +:+ s) None = parse_bits s (Some p).
Proof.
  revert s. induction p as [p IH|p IH|]; intros s; simpl; [| |done];
    by rewrite string_append_assoc, IH.
Qed.

Lemma parse_bits_string p : parse_bits (pos_string p) None = Some p.
Proof. rewrite <- (string_append_nil (pos_string p)). apply parse_bits_app. Qed.

(** A printed positive starts with the digit 1. *)
Lemma pos_string_head p : ∃ s, pos_string p = String "1"%char s.
Proof. induction p as [p [s E]|p [s E]|]; simpl; rewrite ?E; simpl; eauto. Qed.

Lemma z_parse_string z : z_parse (z_string z) = Some z.
Proof.
  destruct z as [|p|p]; [done|..]; unfold z_parse; simpl.
  - pose proof (parse_bits_string p) as E. destruct (pos_string_head p) as [s Es].
    rewrite Es in *. simpl in *. by rewrite E.
  - by rewrite parse_bits_string.
Qed.

Lemma rotate_perm {A} n (l : list A) : rotate n l ≡ₚ l.
Proof. unfold rotate. rewrite Permutation_app_comm. by rewrite take_drop. Qed.

#[local] Instance demo_env : Env := {
  uuid_String := z_string; uuid_Parse := z_parse; uuid_New := λ n, 1000 + Z.of_nat n;
  uuid_Parse_String := z_parse_string;
  map_order := @rotate; map_order_perm := @rotate_perm;
  has_publisher := true; codec_accepts := λ _ p, schema_valid p;
  request_ctx := Some (mkRequestContext 11 7 ["tenant_owner"] "10.0.0.1" "agent");
  has_cache := true; cache_up := λ _, true; cache_late := λ _, false; cache_kept := λ _ _, true;
  has_workflow := true;
  wf_GetDelegateImpact := λ _ _ _ _, Ok (mkDelegateImpact 0 []);
  wf_ReassignDelegate := λ _ _ _ _, Ok tt; wf_CancelByDelegate := λ _ _ _, Ok tt;
  has_rp := true;
  rp_CreateInvitedUser := λ n _ _ _ _ _, Ok (5000 + Z.of_nat n); rp_DeleteUser := λ _ _ _, Ok tt;
  rp_PatchRealmConfig := λ _ _ _, Ok tt; rp_RevokeUserSessions := λ _ _ _, Ok tt;
  rp_ResetMFA := λ _ _ _, Ok tt;
  has_tokenService := true; ts_IsServiceAccount := λ _ _ _, Ok false;
  has_delegationCheck := true; dc_DeptDelegate := λ _ _ _ _, Ok None;
  has_catalog := true;
  cat_Plans := λ _, Ok [demo_cplan PlanStarter false; demo_cplan PlanPro true; demo_cplan PlanEnterprise true];
  cat_Departments := λ _, Ok [mkCatalogDepartment 301 "ENGINEERING" "Engineering" true true 1;
                              mkCatalogDepartment 302 "SALES" "Sales" false true 1;
                              mkCatalogDepartment 303 "LEGAL" "Legal" true true 1];
  has_idpReader := true; idp_GetIDPCount := λ _ _, Ok 0;
  has_groupMapping := true; gm_ResolveGroups := λ _ _ _, Ok (mkGroupResolution [] [] []);
  has_audit := true
}.

Lemma demo_codec : codec_schemas.
Proof. done. Qed.

Lemma demo_world_alone d : alone (demo_world d).
Proof. done. Qed.

Lemma result_of {A B : Type} (x : A * B) a : x.1 = a → x = (a, x.2).
Proof. intros <-. by destruct x. Qed.
