(* ===== verification/LifecycleSpec.v ===== *)
(** * LifecycleSpec: the tenant lifecycle as a state machine

    An abstract tenant (status, plan, paid or not, trial reactivations used,
    event watermark) with one step per event type, and the theorems that the
    consumer of [Consumer.v] implements it: the refinement of [project] and
    [Handle], the EVT-14, EVT-15 and dedup guards, the GDPR wipe, and which
    lifecycle updates the CHECK constraints of [tenants] let through. *)

From S2P Require Import Prelude Domain Schema Tx Wp TenantRepo EventStores Consumer.

(** ** The abstract machine *)

Record AbsTenant : Type := mkAbsTenant {
  a_status : SubscriptionStatus;
  a_plan : TenantPlan;
  a_paid : bool;
  a_reactivations : Z;
  a_deleted : bool;
  a_last : option time
}.

Definition abs (t : Tenant) : AbsTenant :=
  mkAbsTenant (t_Status t) (t_Plan t) (notNull (t_SubscriptionStartedAt t))
    (t_TrialReactivationCount t) (notNull (t_DeletedAt t)) (t_LastEventAt t).

Definition with_status (s : SubscriptionStatus) (a : AbsTenant) : AbsTenant :=
  mkAbsTenant s (a_plan a) (a_paid a) (a_reactivations a) (a_deleted a) (a_last a).

(** The string a payload field decodes to. *)
Definition payload_string (p : option json) (name : string) : string :=
  match members p with
  | Ok l => match decode_field name read_string "" l with Ok s => s | Err _ => "" end
  | Err _ => ""
  end.

(** One event applied to the abstract tenant. *)
Definition abs_apply (env : Envelope) (a : AbsTenant) : AbsTenant :=
  match event_type (env_Type env) with
  | Some TenantConverted | Some DirectPaidSignup =>
      mkAbsTenant StatusActive (plan_or (payload_string (env_Payload env) "plan") (a_plan a))
        true (a_reactivations a) (a_deleted a) (a_last a)
  | Some TrialExpired => with_status StatusTrialExpired a
  | Some TrialReactivated =>
      if a_reactivations a <? 1
      then mkAbsTenant StatusTrial (a_plan a) (a_paid a) (a_reactivations a + 1) (a_deleted a) (a_last a)
      else a
  | Some TenantSuspended => with_status StatusSuspended a
  | Some TenantOffboarded =>
      mkAbsTenant StatusOffboarded (a_plan a) (a_paid a) (a_reactivations a) true (a_last a)
  | Some TenantPlanChanged =>
      mkAbsTenant (a_status a) (plan_or (payload_string (env_Payload env) "plan") (a_plan a))
        (a_paid a) (a_reactivations a) (a_deleted a) (a_last a)
  | Some TenantPaymentPastDue => with_status StatusPastDue a
  | Some TenantSubscriptionCancelled => with_status StatusCancelled a
  | Some TenantReactivated =>
      if a_status a ==? StatusOffboarded then a
      else with_status (if a_paid a then StatusActive else StatusTrial) a
  | Some TenantRealmReady | Some TenantSeatsChanged | Some TenantIdentityProvisioned | None => a
  end.

Definition abs_stale (env : Envelope) (a : AbsTenant) : bool :=
  match a_last a with
  | Some last => negb (last <? env_Timestamp env)
  | None => false
  end.

(** The EVT-14 guard around it: an applied event moves the watermark to its
    own time. *)
Definition abs_step (env : Envelope) (a : AbsTenant) : AbsTenant :=
  if abs_stale env a then a
  else let a' := abs_apply env a in
       mkAbsTenant (a_status a') (a_plan a') (a_paid a') (a_reactivations a') (a_deleted a')
         (Some (env_Timestamp env)).

(** The events a step from [a] to [a'] relays. *)
Definition abs_relays `{Env} (tenantID : uuid) (env : Envelope) (a a' : AbsTenant) : list DomainEvent :=
  (if has_publisher && (negb (a_status a' ==? a_status a) || negb (a_plan a' ==? a_plan a))
   then [state_changed_event tenantID env (a_status a) (a_status a') (a_plan a) (a_plan a')] else [])
  ++ (if has_publisher && offboards (a_status a) (a_status a') then [purged_event tenantID] else []).

(** The six child tables without a tenant's rows. *)
Definition children_wiped (id : uuid) (d : DB) : DB :=
  set_tenant_departments (delete_where (λ t, td_TenantID t =? id) (tenant_departments d))
  (set_dept_role_labels (delete_where (λ l, drl_TenantID l =? id) (dept_role_labels d))
  (set_tenant_memberships (delete_where (λ m, tm_TenantID m =? id) (tenant_memberships d))
  (set_tenant_roles (delete_where (λ r, tr_TenantID r =? id) (tenant_roles d))
  (set_dept_memberships (delete_where (λ x, dm_TenantID x =? id) (dept_memberships d))
  (set_pending_invitations (delete_where (λ i, pi_TenantID i =? id) (pending_invitations d)) d))))).

(** Which rows a lifecycle update may reach without violating a CHECK. *)
Definition patch_allowed (patch : TenantLifecyclePatch) (t : Tenant) : bool :=
  match patch with
  | LifecycleSetRealm realm shard => negb (String.eqb realm "") && negb (String.eqb shard "")
  | LifecycleActivatePaid plan => plan_known plan && isNull (t_CancelledAt t)
  | LifecycleSetStatusClearSuspension s =>
      match s with
      | StatusTrial | StatusTrialExpired => isNull (t_CancelledAt t) && notNull (t_TrialEndsAt t)
      | StatusActive | StatusPastDue => isNull (t_CancelledAt t) && notNull (t_SubscriptionStartedAt t)
      | StatusCancelled => notNull (t_CancelledAt t) && notNull (t_SubscriptionStartedAt t)
      | StatusSuspended => false
      | StatusOffboarded =>
          notNull (t_CancelledAt t) && notNull (t_SubscriptionStartedAt t) && notNull (t_DeletedAt t)
      end
  | LifecycleTrialReactivate _ => isNull (t_CancelledAt t) && (t_TrialReactivationCount t <? 1)
  | LifecycleSuspendBillingLapse | LifecycleSuspendOperator => true
  | LifecycleOffboard | LifecycleCancel => notNull (t_SubscriptionStartedAt t)
  | LifecycleSetPlan plan => plan_known plan
  | LifecycleReactivatePaid => notNull (t_SubscriptionStartedAt t)
  | LifecycleReactivateTrial => notNull (t_TrialEndsAt t)
  | LifecycleSetLicensedSeats n => (0 <? n) && (n <=? 2147483647)
  end.

(** The update an event asks for on row [t], or the decoding error; [None]
    when the event leaves the row alone. *)
Definition event_patch (env : Envelope) (days : Z) (t : Tenant)
  : result error (option TenantLifecyclePatch) :=
  let field {A} name (read : json → option A) zero (k : A → option TenantLifecyclePatch) :=
    match members (env_Payload env) with
    | Err e => Err e
    | Ok l => match decode_field name read zero l with Err e => Err e | Ok a => Ok (k a) end
    end in
  match event_type (env_Type env) with
  | Some TenantRealmReady =>
      match field "realm" read_string ""%string (λ _, None) with
      | Err e => Err e
      | Ok _ => field "keycloak_shard" read_string ""%string (λ shard,
                  Some (LifecycleSetRealm (payload_string (env_Payload env) "realm") shard))
      end
  | Some TenantConverted | Some DirectPaidSignup =>
      field "plan" read_string ""%string (λ raw, Some (LifecycleActivatePaid (plan_or raw (t_Plan t))))
  | Some TrialExpired => Ok (Some (LifecycleSetStatusClearSuspension StatusTrialExpired))
  | Some TrialReactivated =>
      Ok (if t_TrialReactivationCount t <? 1 then Some (LifecycleTrialReactivate days) else None)
  | Some TenantSuspended =>
      field "source" read_string ""%string (λ source,
        Some (if String.eqb source "operator" then LifecycleSuspendOperator
              else LifecycleSuspendBillingLapse))
  | Some TenantOffboarded => Ok (Some LifecycleOffboard)
  | Some TenantPlanChanged =>
      field "plan" read_string ""%string (λ raw, Some (LifecycleSetPlan (plan_or raw (t_Plan t))))
  | Some TenantPaymentPastDue => Ok (Some (LifecycleSetStatusClearSuspension StatusPastDue))
  | Some TenantSubscriptionCancelled => Ok (Some LifecycleCancel)
  | Some TenantReactivated =>
      Ok (if t_Status t ==? StatusOffboarded then None
          else Some (if notNull (t_SubscriptionStartedAt t) then LifecycleReactivatePaid
                     else LifecycleReactivateTrial))
  | Some TenantSeatsChanged =>
      field "licensed_seats" read_int 0 (λ n, Some (LifecycleSetLicensedSeats n))
  | Some TenantIdentityProvisioned | None => Ok None
  end.

(** uq_tenants_realm_id_dedicated holds. *)
Definition uq_realms (d : DB) : Prop := ∀ t, t ∈ tenants d → realm_free t (tenants d) = true.

(** The realm an update claims is not another tenant's. *)
Definition realm_available (patch : TenantLifecyclePatch) (t : Tenant) (d : DB) : bool :=
  match patch with
  | LifecycleSetRealm realm shard =>
      realm_free (set_t_RealmType RealmDedicated (set_t_RealmID realm t)) (tenants d)
  | _ => true
  end.

(** ** Lemmas *)

Lemma update_tenant_id id d : update_tenant id (λ t, t) d = d.
Proof.
  unfold update_tenant. replace (update_where _ _ _) with (tenants d); [by destruct d|].
  unfold update_where. rewrite <- (List.map_id (tenants d)) at 1.
  apply List.map_ext. intros t. by destruct (t_is id t).
Qed.

Lemma update_tenant_compose id f g d :
  same_key f → update_tenant id g (update_tenant id f d) = update_tenant id (λ t, g (f t)) d.
Proof.
  intros Hf. unfold update_tenant, update_where. simpl. rewrite List.map_map.
  replace (List.map _ (tenants d)) with
    (List.map (λ t, if t_is id t then g (f t) else t) (tenants d)); [by destruct d|].
  apply List.map_ext. intros t. destruct (t_is id t) eqn:E; [|by rewrite E].
  unfold t_is in *. by rewrite Hf, E.
Qed.

Lemma abs_touched now f t : abs (touched now f t) = abs (f t).
Proof. by apply touched_column. Qed.

(** The concrete effect of one projection: rewrite the row by some [F]. *)
Definition projects_to (id : uuid) (t : Tenant) (F : Tenant → Tenant) (w w' : World) : Prop :=
  same_key F ∧ w' = set_w_db (update_tenant id F (w_db w)) w.

Lemma projects_to_id id t w : projects_to id t (λ t, t) w w.
Proof. split; [done|]. rewrite update_tenant_id. by destruct w. Qed.

Lemma lift_ok {A} (r : result error A) w a w' : lift r w = (Ok a, w') → r = Ok a ∧ w' = w.
Proof. by destruct r; intros [= -> ->]. Qed.

Lemma string_field_ok p name w s w' :
  string_field p name w = (Ok s, w') → s = payload_string p name ∧ w' = w.
Proof.
  unfold string_field, bindM, payload_string.
  destruct (members p) as [l|e]; simpl; [|done].
  destruct (decode_field _ _ _ _); simpl; by intros [= -> ->].
Qed.

Lemma int_field_world p name w n w' : int_field p name w = (Ok n, w') → w' = w.
Proof.
  unfold int_field, bindM. destruct (members p) as [l|e]; simpl; [|done].
  destruct (decode_field _ _ _ _); simpl; by intros [= -> ->].
Qed.

Lemma bindM_ok {A B} (m : M A) (k : A → M B) w b w' :
  bindM m k w = (Ok b, w') → ∃ a w1, m w = (Ok a, w1) ∧ k a w1 = (Ok b, w').
Proof. unfold bindM. destruct (m w) as [[a|e] w1]; [eauto|done]. Qed.

Lemma retM_ok {A} (a b : A) w w' : retM a w = (Ok b, w') → b = a ∧ w' = w.
Proof. by intros [= -> ->]. Qed.

(** Inverts a successful run, step by step. *)
Ltac run_inv :=
  repeat match goal with
  | H : bindM _ _ _ = (Ok _, _) |- _ => apply bindM_ok in H as (? & ? & ? & ?)
  | H : retM _ _ = (Ok _, _) |- _ => apply retM_ok in H as [? ?]
  | H : string_field _ _ _ = (Ok _, _) |- _ => apply string_field_ok in H as [? ?]
  | H : int_field _ _ _ = (Ok _, _) |- _ => apply int_field_world in H
  | H : throw _ _ = (Ok _, _) |- _ => discriminate H
  end; simplify_eq/=.

(** One patch that matches the row: the abstract effect of its SET list. *)
Lemma patch_projects id patch now w t n w' :
  w_txnow w = Some now → pk_tenants (w_db w) → tenant_row id (w_db w) = Some t →
  patch_guard patch t = true →
  ApplyLifecyclePatch id patch w = (Ok n, w') →
  n = 1 ∧ projects_to id t (touched now (patch_row now patch)) w w' ∧
  abs (touched now (patch_row now patch) t) = abs (patch_row now patch t).
Proof.
  intros Hnow Hpk Hrow Hg H.
  apply (ApplyLifecyclePatch_row _ _ now _ t) in H; [|done..]. rewrite Hg in H.
  destruct H as (-> & -> & _). split; [done|]. split; [split; [auto|done]|apply abs_touched].
Qed.

Lemma applyProjection_abs id env now days w t s p w' :
  w_txnow w = Some now → pk_tenants (w_db w) → tenant_row id (w_db w) = Some t →
  applyProjection id env (t_Status t) (t_Plan t) days w = (Ok (s, p), w') →
  ∃ F, projects_to id t F w w' ∧ abs (F t) = abs_apply env (abs t) ∧
       s = a_status (abs_apply env (abs t)) ∧ p = a_plan (abs_apply env (abs t)).
Proof.
  intros Hnow Hpk Hrow. unfold applyProjection, abs_apply.
  destruct (event_type (env_Type env)) as [[]|]; intros H; run_inv;
    repeat match goal with
    | H : ApplyLifecyclePatch _ ?patch _ = _ |- _ =>
        lazymatch patch with
        | LifecycleTrialReactivate _ => fail
        | LifecycleReactivatePaid => fail
        | LifecycleReactivateTrial => fail
        | (if _ then _ else _) => fail
        | _ => eapply patch_projects in H as (-> & ? & ?); [|done..]
        end
    end;
    try (eexists; split; [eassumption|]; by split);
    try (exists (λ t, t); split; [apply projects_to_id|done]).
  - (* TrialReactivated *)
    apply (ApplyLifecyclePatch_row _ _ now _ t) in H as H'; [|done..]. simpl in H' |- *.
    destruct (t_TrialReactivationCount t <? 1) eqn:Ec; destruct H' as [-> H'].
    + destruct H' as [-> _]. simpl in H0. apply retM_ok in H0 as [[= -> ->] ->].
      eexists. split; [split; [|done]; auto|]. rewrite abs_touched. by simpl.
    + subst. simpl in H0. apply retM_ok in H0 as [[= -> ->] ->].
      exists (λ t, t). split; [apply projects_to_id|done].
  - (* TenantSuspended *)
    match goal with HA : ApplyLifecyclePatch _ _ _ = _ |- _ => revert HA end.
    destruct (String.eqb (payload_string (env_Payload env) "source") "operator"); intros HA;
      (eapply patch_projects in HA as (-> & ? & Habs); [|done..];
       eexists; split; [eassumption|]; rewrite Habs; by split).
  - (* TenantReactivated *)
    destruct (t_Status t ==? StatusOffboarded) eqn:Eo.
    { run_inv. exists (λ t, t). split; [apply projects_to_id|done]. }
    apply bindM_ok in H as (n & w1 & HA & HB).
    apply (ApplyLifecyclePatch_row _ _ now _ t) in HA; [|done..]. simpl in HA |- *.
    destruct (notNull (t_SubscriptionStartedAt t)) eqn:Ep; destruct HA as [-> HA].
    + destruct HA as [-> _]. simpl in HB. run_inv.
      eexists. split; [split; [|done]; auto|]. rewrite abs_touched. unfold abs. simpl. by rewrite Ep.
    + subst. simpl in HB. run_inv.
      match goal with HC : ApplyLifecyclePatch _ _ _ = _ |- _ =>
        eapply patch_projects in HC as (_ & Hp & Habs); [|done..|]; cycle 1 end.
      { simpl. unfold notNull in Ep. by destruct (isNull _). }
      eexists. split; [eassumption|]. rewrite Habs. unfold abs. simpl. by rewrite Ep.
Qed.

(** *** The wipe *)

Lemma no_refs {A B} (key : B → Z) id (refs : A → B → bool) (la : list A) (lb : list B) :
  (∀ a b, refs a b = true → key b = id) →
  exists_row (λ a, exists_row (refs a) (delete_where (λ b, key b =? id) lb)) la = false.
Proof.
  intros Hr. apply not_true_iff_false. unfold exists_row.
  rewrite List.existsb_exists. intros (a & _ & (b & Hb & Hab)%List.existsb_exists).
  apply list_elem_of_In, elem_of_delete_where in Hb as [_ Hb].
  apply Hr in Hab. lia.
Qed.

Lemma set_w_db_twice d d' w : set_w_db d (set_w_db d' w) = set_w_db d w.
Proof. done. Qed.

(** A statement that succeeds, followed by the rest of the program. *)
Lemma sql_step {A B} msg (f : time → DB → result error (A * DB)) (k : A → M B) w now a d :
  w_txnow w = Some now → f now (w_db w) = Ok (a, d) →
  bindM (wrapM msg (sql f)) k w = k a (set_w_db d w).
Proof. intros Ht Hf. unfold bindM, wrapM, sql. by rewrite Ht, Hf. Qed.

Lemma WipeTenantChildren_runs id w now :
  w_txnow w = Some now →
  WipeTenantChildren id w = (Ok tt, set_w_db (children_wiped id (w_db w)) w).
Proof.
  intros Ht. unfold WipeTenantChildren. rewrite (withPool_in_tx _ _ now) by done.
  unfold gdprWipeTables, for_each.
  do 3 (erewrite sql_step; [|done|reflexivity]).
  erewrite sql_step; [|done|]; cycle 1.
  { simpl. rewrite !no_refs; [reflexivity|..].
    all: unfold role_refs, dept_refs_membership; intros ? ?;
      rewrite !andb_true_iff, !Z.eqb_eq; intuition congruence. }
  erewrite sql_step; [|done|reflexivity].
  erewrite sql_step; [|done|]; cycle 1.
  { simpl. rewrite no_refs; [reflexivity|].
    unfold dept_refs_department; intros ? ?.
    rewrite !andb_true_iff, !Z.eqb_eq; intuition congruence. }
  simpl. rewrite !set_w_db_twice. unfold children_wiped. done.
Qed.

(** *** The projection of one event *)

Lemma publish_ok `{Env} ev w u w' now :
  w_txnow w = Some now → publish ev w = (Ok u, w') →
  w' = set_w_db (set_outbox_events
         (outbox_events (w_db w) ++ if has_publisher then [ev] else []) (w_db w)) w.
Proof.
  intros Ht. unfold publish. destruct has_publisher.
  - unfold Enqueue. rewrite Ht. destruct (negb _); [done|]. by intros [= _ <-].
  - intros [= _ <-]. rewrite app_nil_r. by destruct w as [[]].
Qed.

(** The database after one event: the row rewritten by [F], the child rows
    gone when the tenant was offboarded, the relays in the outbox. *)
Definition projected `{Env} (id : uuid) (env : Envelope) (a : AbsTenant) (F : Tenant → Tenant) (d : DB) : DB :=
  let a' := abs_step env a in
  set_outbox_events (outbox_events d ++ abs_relays id env a a')
    (update_tenant id F
      (if offboards (a_status a) (a_status a') then children_wiped id d else d)).

Lemma update_tenant_children id id' f d :
  update_tenant id f (children_wiped id' d) = children_wiped id' (update_tenant id f d).
Proof. by destruct d. Qed.

Lemma set_outbox_children ev id d :
  set_outbox_events ev (children_wiped id d) = children_wiped id (set_outbox_events ev d).
Proof. by destruct d. Qed.

Lemma offboards_same s : offboards s s = false.
Proof. by destruct s. Qed.

Lemma abs_relays_same `{Env} id env a a' :
  a_status a' = a_status a → a_plan a' = a_plan a → abs_relays id env a a' = [].
Proof.
  intros E1 E2. unfold abs_relays. rewrite E1, E2, !bool_eq_refl, offboards_same. simpl.
  by rewrite !andb_false_r.
Qed.

Lemma relay_and_wipe_spec `{Env} id env now a a' w wiped w' :
  w_txnow w = Some now →
  relay_and_wipe id env (a_status a) (a_status a') (a_plan a) (a_plan a') w = (Ok wiped, w') →
  wiped = offboards (a_status a) (a_status a') ∧
  w' = set_w_db (set_outbox_events (outbox_events (w_db w) ++ abs_relays id env a a')
                   (if wiped then children_wiped id (w_db w) else w_db w)) w.
Proof.
  intros Hnow Hr. unfold relay_and_wipe in Hr. unfold abs_relays.
  apply bindM_ok in Hr as (u1 & w1 & HA & Hr).
  destruct (negb (a_status a' ==? a_status a) || negb (a_plan a' ==? a_plan a));
    [apply (publish_ok _ _ _ _ now) in HA; [|done]|apply retM_ok in HA as [_ ->]]; subst.
  all: destruct (offboards _ _).
  all: try (apply retM_ok in Hr as [-> ->]; split; [done|]; simpl;
            rewrite ?andb_false_r, ?andb_true_r, ?app_nil_r; by destruct w as [[]], has_publisher).
  all: apply bindM_ok in Hr as (u2 & w2 & HB & Hr);
    rewrite (WipeTenantChildren_runs _ _ now) in HB by done; injection HB as _ <-;
    apply bindM_ok in Hr as (u3 & w3 & HC & Hr); apply retM_ok in Hr as [-> ->];
    apply (publish_ok _ _ _ _ now) in HC; [|done]; subst w3; split; [done|].
  all: rewrite ?andb_false_r, ?andb_true_r; destruct has_publisher; simpl;
    rewrite ?app_nil_r, <- ?app_assoc; by destruct w as [[]].
Qed.

Lemma project_spec `{Env} id env locked now days w t wiped w' :
  w_txnow w = Some now → pk_tenants (w_db w) → tenant_row id (w_db w) = Some t →
  locked = mkTenantProjectionLock (t_Status t) (t_Plan t) (t_LastEventAt t) →
  project id env locked days w = (Ok wiped, w') →
  ∃ F, same_key F ∧ abs (F t) = abs_step env (abs t) ∧
    w' = set_w_db (projected id env (abs t) F (w_db w)) w ∧
    wiped = offboards (t_Status t) (a_status (abs_step env (abs t))).
Proof.
  intros Hnow Hpk Hrow -> Hp. unfold project in Hp. simpl in Hp.
  change (is_stale env _) with (abs_stale env (abs t)) in Hp.
  unfold projected, abs_step. destruct (abs_stale env (abs t)) eqn:Es.
  { apply retM_ok in Hp as [-> ->]. exists (λ t, t).
    rewrite abs_relays_same, offboards_same, update_tenant_id, app_nil_r by done.
    split; [done|]. split; [done|]. split; [by destruct w as [[]]|]. by rewrite offboards_same. }
  apply bindM_ok in Hp as ([s p] & w1 & HA & Hp).
  apply (applyProjection_abs _ _ now _ _ t) in HA as (F & [HF ->] & Habs & -> & ->); [|done..].
  assert (tenant_row id (update_tenant id F (w_db w)) = Some (F t)) as Hrow1.
  { rewrite tenant_row_update, Z.eqb_refl, Hrow by done. done. }
  apply bindM_ok in Hp as ([] & w2 & HB & Hp).
  apply (SetLastEventAt_row _ _ now _ (F t)) in HB; [|done|simpl; auto|done]. subst w2.
  rewrite set_w_db_twice in Hp. simpl in Hp. rewrite update_tenant_compose in Hp by done.
  set (a' := mkAbsTenant _ _ _ _ _ _).
  apply (relay_and_wipe_spec id env now (abs t) a') in Hp as [-> ->]; [|done].
  exists (λ t0, touched now (set_t_LastEventAt (Some (env_Timestamp env))) (F t0)).
  split; [|split; [|split; [|done]]].
  - intros u. by rewrite same_key_touched.
  - rewrite abs_touched. unfold a'. rewrite <- Habs. done.
  - simpl. destruct (offboards _ _); [|done]. by rewrite update_tenant_children.
Qed.

(** *** The CHECK constraints *)

(** A row that passes the constraints, column by column. *)
Record tenant_valid (t : Tenant) : Prop := {
  tv_plan : plan_known (t_Plan t) = true;
  tv_realm_type : realm_known (t_RealmType t) = true;
  tv_seats_int4 : int4 (t_LicensedSeats t) = true;
  tv_mfa_int4 : int4 (t_MFAFreshnessSeconds t) = true;
  tv_cancelled : chk_cancelled_at_required t = true;
  tv_offboarded : chk_offboarded_soft_deleted t = true;
  tv_started : chk_subscription_started_required t = true;
  tv_source : chk_suspension_source_required t = true;
  tv_trial_ends : chk_trial_ends_at_required t = true;
  tv_shard : String.eqb (t_KeycloakShard t) "" = false;
  tv_seats : (0 <? t_LicensedSeats t) = true;
  tv_mfa : (60 <=? t_MFAFreshnessSeconds t) && (t_MFAFreshnessSeconds t <=? 900) = true;
  tv_name : String.eqb (t_Name t) "" = false;
  tv_reactivations : (0 <=? t_TrialReactivationCount t) && (t_TrialReactivationCount t <=? 1) = true;
  tv_realm : String.eqb (t_RealmID t) "" = false;
  tv_version : (0 <? t_RecordVersion t) = true;
  tv_residency : match t_ResidencyMode t with ResidencyOther _ => false | _ => true end = true;
  tv_slug : String.eqb (t_Slug t) "" = false
}.

Lemma tenant_checks_valid t : tenant_checks t = None ↔ tenant_valid t.
Proof.
  unfold tenant_checks. split.
  - intros H. repeat case_match; try discriminate H; rewrite ?negb_false_iff, ?orb_false_iff, ?negb_false_iff in *;
      destruct_and?; split; try done; by repeat case_match.
  - intros [E1 E2 E3 E4 E5 E6 E7 E8 E9 E10 E11 E12 E13 E14 E15 E16 E17 E18].
    rewrite E1, E2, E3, E4, E5, E6, E7, E8, E9, E10, E11, E12, E13, E14, E15, E16. simpl.
    destruct (t_ResidencyMode t); [by rewrite E18..|done].
Qed.

Lemma tenant_valid_touched now f t :
  t_RecordVersion (f t) = t_RecordVersion t → tenant_valid t →
  tenant_valid (touched now f t) ↔ tenant_valid (f t).
Proof.
  intros Hv Ht. unfold touched. destruct (decide _) as [->|_]; [done|].
  pose proof (tv_version _ Ht) as Hpos.
  split; intros []; (split; [done..| |done|done]); simpl in *; [by rewrite Hv|lia].
Qed.

Ltac solve_check :=
  unfold chk_cancelled_at_required, chk_offboarded_soft_deleted, chk_subscription_started_required,
    chk_suspension_source_required, chk_trial_ends_at_required, coalesce, notNull, int4 in *;
  simpl in *; rewrite ?andb_true_iff, ?negb_true_iff in *; destruct_and?;
  repeat match goal with
  | |- context [match ?x with _ => _ end] => destruct x; simpl in *
  | |- context [isNull ?x] => destruct x; simpl in *
  | H : context [match ?x with _ => _ end] |- _ => destruct x; simpl in *
  end; try done; try lia.

(** Which updates a valid row admits. *)
Lemma patch_row_allowed now patch t :
  tenant_valid t → patch_guard patch t = true →
  tenant_valid (patch_row now patch t) → patch_allowed patch t = true.
Proof.
  intros HE Hg [F1 _ F3 _ F5 F6 F7 F8 F9 F10 F11 _ _ _ F15 _ _ _].
  pose proof (tv_started _ HE) as E7. pose proof (tv_trial_ends _ HE) as E9.
  destruct patch as [| |st| | | | | | | | |]; try destruct st; simpl in F1, F3, F10, F11, F15, Hg |- *;
    rewrite ?F1, ?F10, ?F15, ?Hg, ?andb_true_r; try done; try (unfold int4 in F3; lia);
    clear HE F1 F3 F10 F11 F15 Hg; destruct t; solve_check.
Qed.

Lemma patch_row_valid now patch t :
  tenant_valid t → patch_guard patch t = true → patch_allowed patch t = true →
  tenant_valid (patch_row now patch t).
Proof.
  intros [E1 E2 E3 E4 E5 E6 E7 E8 E9 E10 E11 E12 E13 E14 E15 E16 E17 E18] Hg Ha.
  destruct patch as [| |st| | | | | | | | |]; try destruct st; split; simpl in Ha, Hg |- *; try assumption;
    try (unfold int4; lia);
    clear E1 E2 E3 E4 E10 E11 E12 E13 E14 E15 E16 E17 E18 Hg; destruct t; solve_check.
Qed.

(** *** When an update goes through *)

Lemma realm_free_spec t l :
  realm_free t l = true ↔
  (t_RealmType t = RealmDedicated → ∀ u, u ∈ l → t_ID u ≠ t_ID t →
   t_RealmType u = RealmDedicated → t_RealmID u ≠ t_RealmID t).
Proof.
  unfold realm_free. destruct (t_RealmType t) eqn:Et; [naive_solver| |naive_solver].
  rewrite negb_true_iff. unfold exists_row. rewrite <- not_true_iff_false, List.existsb_exists. split.
  - intros Hn _ u Hu Hid Hr E. apply Hn. exists u. rewrite <- list_elem_of_In. split; [done|].
    rewrite !andb_true_iff, negb_true_iff, Z.eqb_neq, bool_eq_true, String.eqb_eq. done.
  - intros Hf (u & Hu & Hp). rewrite <- list_elem_of_In in Hu.
    rewrite !andb_true_iff, negb_true_iff, Z.eqb_neq, bool_eq_true, String.eqb_eq in Hp.
    destruct Hp as [[? ?] ?]. by apply (Hf eq_refl u).
Qed.

(** An update of a row whose new realm is free goes through when the new row
    passes the CHECK constraints. *)
Lemma exec_update_valid id g f now w t :
  w_txnow w = Some now → pk_tenants (w_db w) → uq_realms (w_db w) →
  tenant_row id (w_db w) = Some t → g t = true → same_key (f now) →
  realm_free (f now t) (tenants (w_db w)) = true → tenant_valid (touched now (f now) t) →
  exec_update (λ t, t_is id t && g t) f w =
    (Ok 1, set_w_db (update_tenant id (touched now (f now)) (w_db w)) w) ∧
  uq_realms (update_tenant id (touched now (f now)) (w_db w)).
Proof.
  intros Hnow Hpk Huq Hrow Hg Hk Hfree Hv. set (T := touched now (f now)) in *.
  assert (∀ u, t_ID (T u) = t_ID u) as HT by (intros; unfold T; rewrite same_key_touched; done).
  assert (t_RealmType (T t) = t_RealmType (f now t) ∧ t_RealmID (T t) = t_RealmID (f now t)) as [HT1 HT2].
  { by split; apply touched_column. }
  pose proof (tenant_row_Some _ _ _ Hrow) as [Hin Hid].
  assert (∀ u, u ∈ tenants (w_db w) → t_is id u = true → u = t) as Hone.
  { intros u Hu Hi. apply Z.eqb_eq in Hi. eapply pk_tenants_eq; eauto. congruence. }
  rewrite realm_free_spec, Hk in Hfree.
  assert (uq_realms (update_tenant id T (w_db w))) as Huq'.
  { intros u (v & Hv' & ->)%elem_of_update_where. apply realm_free_spec. simpl.
    intros Hd x (y & Hy & ->)%elem_of_update_where.
    destruct (t_is id v) eqn:Ev, (t_is id y) eqn:Ey; rewrite ?HT.
    - rewrite (Hone v), (Hone y) by done. done.
    - rewrite (Hone v) in * by done. rewrite HT2. apply Hfree; [congruence|done].
    - rewrite (Hone y) in * by done. rewrite HT1, HT2. intros Hne Hr E.
      eapply (Hfree Hr v); congruence.
    - by apply (realm_free_spec v (tenants (w_db w))); [apply Huq|..]. }
  split; [|done].
  unfold exec_update, bindM, sql, tenants_update. rewrite Hnow.
  rewrite (select_guard id g _ t), (update_where_guard id g _ _ t) by done. rewrite Hg. simpl.
  fold T. unfold first_error. simpl. rewrite (proj2 (tenant_checks_valid _) Hv). simpl.
  unfold uq_realm. assert (T t ∈ tenants (update_tenant id T (w_db w))) as HTin; cycle 1.
  { pose proof (Huq' _ HTin) as E. simpl in E. by rewrite E. }
  apply elem_of_update_where. exists t. unfold t_is. by rewrite Hid, Z.eqb_refl.
Qed.

Lemma realm_available_free now patch t d :
  uq_realms d → t ∈ tenants d → realm_available patch t d = true →
  realm_free (patch_row now patch t) (tenants d) = true.
Proof.
  intros Huq Hin Ha. destruct patch; [exact Ha|..]; exact (Huq t Hin).
Qed.

(** The error a constraint reports is not one the transaction runner
    rewrites. *)
Lemma tenant_checks_plain t e : tenant_checks t = Some e → wrapConnErr (EPg e) = EPg e.
Proof. unfold tenant_checks. intros H. repeat case_match; simplify_eq; done. Qed.

(** A lifecycle update on a valid row succeeds exactly when it is allowed. *)
Lemma ApplyLifecyclePatch_refused id patch now w t :
  w_txnow w = Some now → pk_tenants (w_db w) → tenant_row id (w_db w) = Some t →
  tenant_valid t → patch_guard patch t = true → patch_allowed patch t = false →
  ∃ e, ApplyLifecyclePatch id patch w = (Err (EPg e), w) ∧ tenant_checks (touched now (patch_row now patch) t) = Some e.
Proof.
  intros Hnow Hpk Hrow Hv Hg Ha.
  destruct (tenant_checks (touched now (patch_row now patch) t)) as [e|] eqn:E.
  - exists e. split; [|done]. unfold ApplyLifecyclePatch. rewrite (withPool_in_tx _ _ now) by done.
    unfold execLifecyclePatch, exec_update, bindM, sql, tenants_update. rewrite Hnow.
    rewrite (select_guard id (patch_guard patch) _ t) by done. rewrite Hg. simpl.
    unfold first_error. simpl. rewrite E. simpl. by rewrite (tenant_checks_plain _ _ E).
  - apply tenant_checks_valid, tenant_valid_touched, patch_row_allowed in E; [congruence|done..|by destruct patch|done].
Qed.

Lemma ApplyLifecyclePatch_allowed id patch now w t :
  w_txnow w = Some now → pk_tenants (w_db w) → uq_realms (w_db w) →
  tenant_row id (w_db w) = Some t → tenant_valid t →
  patch_guard patch t = true → patch_allowed patch t = true → realm_available patch t (w_db w) = true →
  let d' := update_tenant id (touched now (patch_row now patch)) (w_db w) in
  ApplyLifecyclePatch id patch w = (Ok 1, set_w_db d' w) ∧ uq_realms d' ∧
  tenant_valid (touched now (patch_row now patch) t).
Proof.
  intros Hnow Hpk Huq Hrow Hv Hg Ha Hr d'.
  assert (tenant_valid (touched now (patch_row now patch) t)) as Hv'.
  { apply tenant_valid_touched; [by destruct patch|done|]. by apply patch_row_valid. }
  destruct (exec_update_valid id (patch_guard patch) (λ now, patch_row now patch) now w t) as [He Hu]; auto.
  { apply realm_available_free; [done| |done]. by apply tenant_row_Some in Hrow as [? _]. }
  split; [|done]. unfold ApplyLifecyclePatch. rewrite (withPool_in_tx _ _ now) by done.
  unfold execLifecyclePatch. by rewrite He.
Qed.

(** A dedicated realm another tenant holds is refused by the unique index. *)
Lemma realm_free_update id now f t d :
  pk_tenants d → tenant_row id d = Some t → same_key f →
  realm_free (f t) (tenants d) = false →
  realm_free (touched now f t) (update_where (t_is id) (touched now f) (tenants d)) = false.
Proof.
  intros Hpk Hrow Hk Hf. pose proof (tenant_row_Some _ _ _ Hrow) as [Hin Hid].
  apply not_true_iff_false. intros H. apply not_true_iff_false in Hf. apply Hf. clear Hf.
  rewrite realm_free_spec in H |- *. rewrite same_key_touched, !(touched_column _ _ f) in H by done.
  intros Hd u Hu Hne Hr. rewrite Hk in Hne. apply H; [done| |done..].
  apply elem_of_update_where. exists u. split; [done|].
  unfold t_is. by rewrite (proj2 (Z.eqb_neq _ _)) by congruence.
Qed.

Lemma ApplyLifecyclePatch_realm_taken id patch now w t :
  w_txnow w = Some now → pk_tenants (w_db w) → uq_realms (w_db w) →
  tenant_row id (w_db w) = Some t → tenant_valid t →
  patch_guard patch t = true → patch_allowed patch t = true → realm_available patch t (w_db w) = false →
  ApplyLifecyclePatch id patch w = (Err (EPg (PgUniqueViolation "uq_tenants_realm_id_dedicated")), w).
Proof.
  intros Hnow Hpk Huq Hrow Hv Hg Ha Hr.
  assert (tenant_valid (touched now (patch_row now patch) t)) as Hv'.
  { apply tenant_valid_touched; [by destruct patch|done|]. by apply patch_row_valid. }
  destruct patch as [realm shard| | | | | | | | | | |]; try done.
  unfold ApplyLifecyclePatch. rewrite (withPool_in_tx _ _ now) by done.
  unfold execLifecyclePatch, exec_update, bindM, sql, tenants_update. rewrite Hnow.
  rewrite (select_guard id (patch_guard (LifecycleSetRealm realm shard)) _ t),
    (update_where_guard id (patch_guard (LifecycleSetRealm realm shard)) _ _ t) by done.
  simpl. unfold first_error. simpl. rewrite (proj2 (tenant_checks_valid _) Hv'). simpl.
  unfold uq_realm. rewrite realm_free_update; [done..|]. exact Hr.
Qed.

Lemma SetLastEventAt_valid id ts now w t :
  w_txnow w = Some now → pk_tenants (w_db w) → uq_realms (w_db w) →
  tenant_row id (w_db w) = Some t → tenant_valid t →
  ∃ w', SetLastEventAt id ts w = (Ok tt, w') ∧ w_txnow w' = Some now.
Proof.
  intros Hnow Hpk Huq Hrow Hv. pose proof (tenant_row_Some _ _ _ Hrow) as [Hin _].
  destruct (exec_update_valid id (λ _, true) (λ _, set_t_LastEventAt (Some ts)) now w t) as [He _]; try done.
  { exact (Huq t Hin). }
  { apply tenant_valid_touched; [done..|]. by destruct Hv; split. }
  eexists. split; [|shelve]. unfold SetLastEventAt. rewrite (withPool_in_tx _ _ now) by done.
  unfold bindM. rewrite (exec_update_ext _ (λ t, t_is id t && (λ _, true) t)), He
    by (intros; by rewrite andb_true_r). reflexivity.
  Unshelve. done.
Qed.

Lemma publish_runs `{Env} ev w now :
  codec_schemas → event_valid ev = true → w_txnow w = Some now → ∃ w', publish ev w = (Ok tt, w') ∧ w_txnow w' = Some now.
Proof.
  intros Hc Hv Ht. unfold publish. destruct has_publisher; [|by eexists].
  unfold Enqueue. rewrite codec_valid, Ht by done. by eexists.
Qed.

Lemma relay_and_wipe_runs `{Env} id env s s' p p' w now :
  codec_schemas → plan_known p = true → plan_known p' = true → w_txnow w = Some now →
  ∃ b w', relay_and_wipe id env s s' p p' w = (Ok b, w').
Proof.
  intros Hc Hp Hp' Ht. unfold relay_and_wipe.
  assert (∃ w1, (if negb (s' ==? s) || negb (p' ==? p)
                 then publish (state_changed_event id env s s' p p') else retM tt) w = (Ok tt, w1)
                ∧ w_txnow w1 = Some now) as (w1 & E1 & Ht1).
  { destruct (_ || _); [apply publish_runs; [done| |done]|by eexists].
    unfold event_valid. cbn [ev_Data ev_Type state_changed_event payload_type schema_valid]. by rewrite Hp, Hp', String.eqb_refl. }
  unfold bindM at 1. rewrite E1. destruct (offboards s s'); [|by do 2 eexists].
  unfold bindM at 1. rewrite (WipeTenantChildren_runs _ _ now) by done.
  destruct (publish_runs (purged_event id) (set_w_db (children_wiped id (w_db w1)) w1) now)
    as (w2 & E2 & _); [done..|].
  unfold bindM. rewrite E2. by do 2 eexists.
Qed.

(** An update whose own WHERE condition fails touches nothing. *)
Lemma ApplyLifecyclePatch_skips id patch now w t :
  w_txnow w = Some now → pk_tenants (w_db w) → tenant_row id (w_db w) = Some t →
  patch_guard patch t = false → ApplyLifecyclePatch id patch w = (Ok 0, w).
Proof.
  intros Hnow Hpk Hrow Hg. unfold ApplyLifecyclePatch. rewrite (withPool_in_tx _ _ now) by done.
  unfold execLifecyclePatch, exec_update, bindM, sql, tenants_update. rewrite Hnow.
  rewrite (select_guard id (patch_guard patch) _ t), (update_where_guard id (patch_guard patch) _ _ t) by done.
  rewrite Hg. simpl. by destruct w as [[]].
Qed.

(** What the projection does with the update its event asks for. *)
Definition runs_patch (id : uuid) (p : TenantLifecyclePatch) {A} (m : M A) (w : World) : Prop :=
  (∀ w', ApplyLifecyclePatch id p w = (Ok 1, w') → ∃ a, m w = (Ok a, w')) ∧
  (∀ e, ApplyLifecyclePatch id p w = (Err e, w) → m w = (Err e, w)).

Lemma runs_patch_then {A} id p (k : Z → M A) w :
  (∀ w, ∃ a, k 1 w = (Ok a, w)) → runs_patch id p (bindM (ApplyLifecyclePatch id p) k) w.
Proof.
  intros Hk. split; intros ? E; unfold bindM; rewrite E; [apply Hk|done].
Qed.

Lemma applyProjection_outcome id env now days w t :
  w_txnow w = Some now → pk_tenants (w_db w) → tenant_row id (w_db w) = Some t →
  match event_patch env days t with
  | Err e => applyProjection id env (t_Status t) (t_Plan t) days w = (Err e, w)
  | Ok None => ∃ sp, applyProjection id env (t_Status t) (t_Plan t) days w = (Ok sp, w)
  | Ok (Some p) => patch_guard p t = true ∧
      runs_patch id p (applyProjection id env (t_Status t) (t_Plan t) days) w
  end.
Proof.
  intros Hnow Hpk Hrow. unfold event_patch, applyProjection, string_field, int_field, payload_string.
  destruct (event_type (env_Type env)) as [[]|]; try (by eexists);
    try (split; [done|]; apply runs_patch_then; by eexists).
  all: try (destruct (members (env_Payload env)) as [l|e]; [|done];
    destruct (decode_field _ _ _ l) as [v|e] eqn:Ed; [|unfold bindM; simpl; by rewrite ?Ed]).
  all: try (split; [by destruct (String.eqb _ _) || done|];
    unfold runs_patch, bindM; simpl; rewrite Ed; simpl;
    (split; intros ? E; rewrite E; [by eexists|done])).
  - destruct (decode_field "keycloak_shard" _ _ l) as [u|e] eqn:Eu;
      [split; [done|]; unfold runs_patch|]; unfold bindM; simpl; rewrite Ed, Eu; simpl; [|done].
    split; intros ? E; rewrite E; [by eexists|done].
  - destruct (t_TrialReactivationCount t <? 1) eqn:Ec.
    + split; [done|]. apply runs_patch_then. by eexists.
    + unfold bindM. rewrite (ApplyLifecyclePatch_skips _ _ now _ t) by done. by eexists.
  - destruct (t_Status t ==? StatusOffboarded); [by eexists|].
    destruct (notNull (t_SubscriptionStartedAt t)) eqn:Ep; (split; [by simpl; destruct (t_SubscriptionStartedAt t)|]).
    + apply runs_patch_then. by eexists.
    + unfold runs_patch, bindM. rewrite (ApplyLifecyclePatch_skips id LifecycleReactivatePaid now _ t) by done.
      simpl. split; intros ? E; rewrite E; [by eexists|done].
Qed.
(** The update an event asks for is one the schema lets through. *)
Definition event_admitted (env : Envelope) (days : Z) (t : Tenant) (d : DB) : bool :=
  match event_patch env days t with
  | Err _ => false
  | Ok None => true
  | Ok (Some p) => patch_allowed p t && realm_available p t d
  end.

Lemma applyProjection_admitted id env now days w t :
  w_txnow w = Some now → pk_tenants (w_db w) → uq_realms (w_db w) →
  tenant_row id (w_db w) = Some t → tenant_valid t →
  if event_admitted env days t (w_db w) then
    ∃ sp w' t', applyProjection id env (t_Status t) (t_Plan t) days w = (Ok sp, w') ∧
      w_txnow w' = Some now ∧ pk_tenants (w_db w') ∧ uq_realms (w_db w') ∧
      tenant_row id (w_db w') = Some t' ∧ tenant_valid t'
  else ∃ e, applyProjection id env (t_Status t) (t_Plan t) days w = (Err e, w).
Proof.
  intros Hnow Hpk Huq Hrow Hv. unfold event_admitted.
  pose proof (applyProjection_outcome id env now days w t Hnow Hpk Hrow) as Ho.
  destruct (event_patch env days t) as [[p|]|e]; [|destruct Ho as [sp Ho]; eauto 10|eauto].
  destruct Ho as (Hg & Hok & Herr). destruct (patch_allowed p t) eqn:Ea; simpl.
  - destruct (realm_available p t (w_db w)) eqn:Er.
    + destruct (ApplyLifecyclePatch_allowed id p now w t) as (E & Hu & Hv'); [done..|].
      destruct (Hok _ E) as [sp Hsp]. do 3 eexists. split; [exact Hsp|]. simpl.
      split; [done|]. split; [by auto|]. split; [done|]. split; [|exact Hv'].
      by rewrite tenant_row_update, Z.eqb_refl, Hrow by auto.
    + eexists. apply Herr. by apply (ApplyLifecyclePatch_realm_taken _ _ now _ t).
  - destruct (ApplyLifecyclePatch_refused id p now w t) as (e & E & _); [done..|]. eauto.
Qed.

Lemma project_outcome `{Env} id env now days w t :
  codec_schemas → w_txnow w = Some now → pk_tenants (w_db w) → uq_realms (w_db w) →
  tenant_row id (w_db w) = Some t → tenant_valid t → abs_stale env (abs t) = false →
  let locked := mkTenantProjectionLock (t_Status t) (t_Plan t) (t_LastEventAt t) in
  if event_admitted env days t (w_db w)
  then ∃ b w', project id env locked days w = (Ok b, w')
  else ∃ e, project id env locked days w = (Err e, w).
Proof.
  intros Hc Hnow Hpk Huq Hrow Hv Hst locked. unfold project.
  change (is_stale env locked) with (abs_stale env (abs t)). rewrite Hst. simpl.
  pose proof (applyProjection_admitted id env now days w t Hnow Hpk Huq Hrow Hv) as Ho.
  destruct (event_admitted env days t (w_db w)).
  - destruct Ho as ([s p] & w1 & t1 & E & Hn1 & Hpk1 & Huq1 & Hrow1 & Hv1).
    unfold bindM at 1. rewrite E.
    destruct (SetLastEventAt_valid id (env_Timestamp env) now w1 t1) as (w2 & E2 & Hn2); [done..|].
    unfold bindM at 1. rewrite E2. apply (relay_and_wipe_runs _ _ _ _ _ _ _ now); [done|apply (tv_plan _ Hv)| |done].
    apply (applyProjection_abs _ _ now _ _ t) in E as (F & [HF ->] & Habs & _ & ->); [|done..].
    rewrite <- Habs. simpl in Hrow1. rewrite tenant_row_update, Z.eqb_refl, Hrow in Hrow1 by done.
    injection Hrow1 as <-. apply (tv_plan _ Hv1).
  - destruct Ho as [e E]. exists e. unfold bindM at 1. by rewrite E.
Qed.

(** *** The inbox transaction *)

(** The database with the event claimed. *)
Definition claim_event `{InboxStore} (env : Envelope) (d : DB) : DB :=
  match store_ParseID (env_ID env) with
  | Some id => add_claim consumerName id d
  | None => d
  end.

(** A claim leaves the tenants alone. *)
Lemma claim_tenants `{InboxStore} env d :
  tenants (claim_event env d) = tenants d ∧ (pk_tenants d → pk_tenants (claim_event env d)) ∧
  (uq_realms d → uq_realms (claim_event env d)) ∧ (∀ id, tenant_row id (claim_event env d) = tenant_row id d).
Proof. unfold claim_event. by destruct (store_ParseID _). Qed.

Lemma alone_started w : w_txnow (started w) = Some (w_clock w).
Proof. done. Qed.

Lemma reads_alone {A} (m : M A) w r w' :
  keeps eq m → alone w → m w = (r, w') → w_db w' = w_db w ∧ alone w' ∧ w_clock w' = w_clock w.
Proof.
  intros Hk [Hs Ht] H. destruct (Hk w r w') as (E & Hsuf & Ht' & Hc); [by rewrite Hs; constructor|done|].
  split; [done|]. split; [|done]. split; [|congruence].
  rewrite Hs in Hsuf. by apply suffix_nil_inv in Hsuf.
Qed.

(** An event whose id the store cannot read. *)
Lemma processOnce_bad_id `{InboxStore} {A} consumer env (fn : M A) w :
  store_ParseID (env_ID env) = None →
  processOnce consumer env fn w = (Err (wrapConnErr (store_BadID (env_ID env))), w).
Proof.
  intros Hid. unfold processOnce, ProcessOnce. rewrite store_Process_contract. unfold inbox_contract. by rewrite Hid.
Qed.

Lemma processOnce_duplicate `{InboxStore} {A} env (fn : M A) w :
  alone w → claimed consumerName (env_ID env) (w_db w) = true →
  processOnce consumerName env fn w = (Ok None, w).
Proof.
  intros [Hs Ht] Hc. unfold claimed in Hc. unfold processOnce, ProcessOnce. rewrite store_Process_contract.
  unfold inbox_contract. destruct (store_ParseID (env_ID env)) as [id|]; [|done].
  unfold attempt_tx, next_attempt, inbox_tx, bindM, sql. rewrite Hs. simpl. rewrite Hc.
  simpl. rewrite Ht. destruct w; simpl in *; by subst.
Qed.

Lemma processOnce_first `{InboxStore} {A} env (fn : M A) w id :
  alone w → store_ParseID (env_ID env) = Some id → claimed consumerName (env_ID env) (w_db w) = false →
  processOnce consumerName env fn w =
  match fn (set_w_db (claim_event env (w_db w)) (started w)) with
  | (Ok a, w2) => (Ok (Some a), set_w_txnow None w2)
  | (Err e, w2) => (Err (wrapConnErr e), set_w_txnow None (set_w_db (w_db w) w2))
  end.
Proof.
  intros [Hs Ht] Hid Hc. unfold claimed in Hc. rewrite Hid in Hc.
  unfold processOnce, ProcessOnce. rewrite store_Process_contract.
  unfold inbox_contract. rewrite Hid. unfold attempt_tx, next_attempt, inbox_tx, bindM, sql. rewrite Hs. simpl. rewrite Hc.
  simpl. unfold begin_tx, claim_event, started. rewrite Hid. simpl.
  replace (set_w_db _ (set_w_txnow _ (set_w_db _ w))) with
    (set_w_db (add_claim consumerName id (w_db w)) (set_w_txnow (Some (w_clock w)) w)) by (by destruct w).
  destruct (fn _) as [[a|e] w2]; simpl; [by rewrite Ht|].
  unfold rollback. simpl. by rewrite Ht.
Qed.

Lemma keeps_trialDurationDays R `{!PreOrder R} `{Env} `{CatalogReader} id env : keeps R (trialDurationDays id env).
Proof. unfold trialDurationDays. keeps_auto. Qed.

#[export] Hint Resolve keeps_trialDurationDays : keeps.

Lemma LockForProjection_in_tx id w now :
  w_txnow w = Some now →
  LockForProjection id w =
  (Ok ((λ t, mkTenantProjectionLock (t_Status t) (t_Plan t) (t_LastEventAt t))
        <$> select_first (t_is_live id) (tenants (w_db w))), w).
Proof. intros Ht. unfold LockForProjection. by rewrite (withPool_in_tx _ _ now). Qed.

(** On a live row, the transaction of [Handle] is the projection. *)
Lemma handle_tx_live `{Env} c id env days w now t :
  w_txnow w = Some now → pk_tenants (w_db w) → tenant_row id (w_db w) = Some t → t_live t = true →
  handle_tx c id env days w =
  project id env (mkTenantProjectionLock (t_Status t) (t_Plan t) (t_LastEventAt t)) days w.
Proof.
  intros Hnow Hpk Hrow Hl. unfold handle_tx, bindM.
  rewrite (LockForProjection_in_tx _ _ now) by done.
  by rewrite (proj2 (live_row id (w_db w) t Hpk)).
Qed.

(** The guards [Handle] passes on its way to the inbox transaction: the event is
    not dated beyond the skew, its type is one the consumer projects (every known
    one but TenantIdentityProvisioned, which is provisioned instead), and its
    tenant id is a uuid. *)
Definition accepted `{Env} (c : ConsumerConfig) (env : Envelope) (id : uuid) (now : time) : Prop :=
  (negb (env_Timestamp env =? 0) && (now + c_skew c <? env_Timestamp env)) = false ∧
  classify (env_Type env) ≠ kindUnknown ∧
  uuid_Parse (env_TenantID env) = Some id ∧
  String.eqb (env_Type env) "TenantIdentityProvisioned" = false.

Lemma Handle_accepted `{Env} `{CatalogReader} `{InboxStore} c env id w :
  accepted c env id (w_clock w) →
  Handle c env w =
  bindM (trialDurationDays id env) (λ days,
    bindM (processOnce consumerName env (handle_tx c id env days)) (λ wiped,
      match wiped with Some true => evictAfterWipe id | _ => retM tt end)) w.
Proof.
  intros (Hf & Hk & Hp & Ht). unfold Handle, bindM at 1, time_Now. rewrite Hf.
  destruct (classify _); [done|..]; by rewrite Hp, Ht.
Qed.

Lemma keeps_evictAfterWipe R `{!PreOrder R} `{Env} id : keeps R (evictAfterWipe id).
Proof. unfold evictAfterWipe. keeps_auto. Qed.

#[export] Hint Resolve keeps_evictAfterWipe : keeps.

(** Projecting next to a claimed event is claiming next to the projection. *)
Lemma projected_claim `{Env} `{InboxStore} id env a F d :
  projected id env a F (claim_event env d) = claim_event env (projected id env a F d).
Proof. unfold projected, claim_event. destruct (store_ParseID _), (offboards _ _); by destruct d. Qed.

(** ** Theorems *)

Section theorems.
  Context `{Env} `{CatalogReader} `{InboxStore}.

(** One delivery of an accepted event to a live tenant. *)
Lemma Handle_live c env id t w w' :
  alone w → pk_tenants (w_db w) → accepted c env id (w_clock w) →
  claimed consumerName (env_ID env) (w_db w) = false →
  tenant_row id (w_db w) = Some t → t_live t = true →
  Handle c env w = (Ok tt, w') →
  (∃ F, same_key F ∧ abs (F t) = abs_step env (abs t) ∧
        w_db w' = claim_event env (projected id env (abs t) F (w_db w))) ∧
  alone w' ∧ w_clock w' = w_clock w.
Proof.
  intros Hal Hpk Hacc Hcl Hrow Hlive. rewrite (Handle_accepted _ _ id) by done.
  intros (days & w1 & HA & HB)%bindM_ok.
  destruct (reads_alone _ _ _ _ (keeps_trialDurationDays eq id env) Hal HA) as (Edb & Hal1 & Hc1).
  apply bindM_ok in HB as (wiped & w2 & HB & HC).
  destruct (store_ParseID (env_ID env)) as [eid|] eqn:Eid; [|by rewrite processOnce_bad_id in HB].
  rewrite (processOnce_first _ _ _ eid) in HB by (rewrite ?Edb; done).
  destruct (claim_tenants env (w_db w1)) as (_ & Hpk1 & _ & Hrow1). specialize (Hrow1 id). rewrite Edb in *.
  rewrite (handle_tx_live _ _ _ _ _ (w_clock w1) t) in HB by (simpl; rewrite ?Hrow1; auto).
  destruct (project _ _ _ _ _) as [[b|e] w3] eqn:HP; [|done]. injection HB as <- <-.
  apply (project_spec _ _ _ (w_clock w1) _ _ t) in HP as (F & HF & Habs & -> & ->);
    [|simpl; rewrite ?Hrow1; auto..].
  apply reads_alone in HC as (HC & Hal2 & Hc2); [|keeps_auto|split; [apply Hal1|done]].
  split; [|split; [done|by rewrite Hc2]].
  exists F. split; [done|]. split; [done|]. rewrite HC. simpl. by rewrite projected_claim.
Qed.

(** An added claim is there. *)
Lemma add_claim_claimed consumer id d : claimed_id consumer id (add_claim consumer id d) = true.
Proof.
  unfold claimed_id, exists_row. apply List.existsb_exists. exists (mkProcessedEvent id consumer). split.
  - apply List.in_or_app. right. by left.
  - unfold is_claim. simpl. by rewrite Z.eqb_refl, String.eqb_refl.
Qed.

(** C1: The event consumer refines the lifecycle state machine.  When [Handle]
    accepts a lifecycle or billing event for a live tenant and returns nil,
    the tenant's row has moved by exactly one step of the abstract machine
    (EVT-14 guard included), the row still satisfies its primary key, the
    event is recorded as processed, the outbox gained exactly the
    TenantStateChanged relay of that step (none when neither status nor plan
    changed) and TenantMembershipsPurged on a transition to offboarded, the
    child tables lost the tenant's rows exactly on that transition, and
    nothing else in the database changed. *)
Theorem Handle_refines_lifecycle c env id t w w' :
  alone w → pk_tenants (w_db w) → accepted c env id (w_clock w) →
  claimed consumerName (env_ID env) (w_db w) = false →
  tenant_row id (w_db w) = Some t → t_live t = true →
  Handle c env w = (Ok tt, w') →
  ∃ F, same_key F ∧ abs (F t) = abs_step env (abs t) ∧
       w_db w' = claim_event env (projected id env (abs t) F (w_db w)).
Proof. intros. by edestruct Handle_live as [? _]. Qed.

(** What [Handle] has to have before it can project an event: the trial length
    of the tenant's plan, looked up for TrialReactivated only, and an event id the
    inbox takes.  [None] when the lookup failed or the id is not a uuid. *)
Definition prepared (id : uuid) (env : Envelope) (w : World) : option Z :=
  match (trialDurationDays id env w).1, store_ParseID (env_ID env) with
  | Ok days, Some _ => Some days
  | _, _ => None
  end.

Lemma prepared_untimed id env w eventID :
  String.eqb (env_Type env) "TrialReactivated" = false → store_ParseID (env_ID env) = Some eventID →
  prepared id env w = Some 0.
Proof. intros Hty Hid. unfold prepared, trialDurationDays. by rewrite Hty, Hid. Qed.

(** One delivery of a new event to a live tenant. *)
Lemma Handle_prepared c env id t w :
  alone w → pk_tenants (w_db w) → accepted c env id (w_clock w) →
  claimed consumerName (env_ID env) (w_db w) = false →
  tenant_row id (w_db w) = Some t → t_live t = true →
  match prepared id env w with
  | Some days => ∃ w1, w_db w1 = w_db w ∧ alone w1 ∧ Handle c env w =
      match project id env (mkTenantProjectionLock (t_Status t) (t_Plan t) (t_LastEventAt t)) days
              (set_w_db (claim_event env (w_db w)) (started w1)) with
      | (Ok wiped, w2) => (if wiped then evictAfterWipe id else retM tt) (set_w_txnow None w2)
      | (Err e, w2) => (Err (wrapConnErr e), set_w_txnow None (set_w_db (w_db w) w2))
      end
  | None => ∃ e w', Handle c env w = (Err e, w') ∧ w_db w' = w_db w
  end.
Proof.
  intros Hal Hpk Hacc Hcl Hrow Hlive. pose proof (Handle_accepted c env id w Hacc) as E. unfold bindM in E.
  unfold prepared. destruct (trialDurationDays id env w) as [[days|e] w1] eqn:HA;
    destruct (reads_alone _ _ _ _ (keeps_trialDurationDays eq id env) Hal HA) as (Edb & Hal1 & Hc1);
    [|rewrite E; by do 2 eexists].
  simpl. destruct (store_ParseID (env_ID env)) as [eid|] eqn:Eid.
  - exists w1. split; [done|]. split; [done|]. rewrite (processOnce_first _ _ _ eid) in E by (rewrite ?Edb; done).
    destruct (claim_tenants env (w_db w1)) as (_ & Hpk1 & _ & Hrow1). specialize (Hrow1 id). rewrite Edb in *.
    rewrite (handle_tx_live _ _ _ _ _ (w_clock w1) t) in E by (simpl; rewrite ?Hrow1; auto).
    rewrite E. by destruct (project _ _ _ _ _) as [[[]|e] w2].
  - rewrite processOnce_bad_id in E by done. rewrite E. by do 2 eexists.
Qed.

(** C2: EVT-14.  With nothing else running, a new event within the clock skew, of
    any type the consumer projects (all but TenantIdentityProvisioned), for a live
    tenant, that is not newer than the last one applied to the tenant changes nothing
    but its own record in processed_events: [Handle] acknowledges it and the
    database is the old one with the event claimed.  The guard comes after the
    catalog lookup of TrialReactivated and inside the inbox: when that lookup
    fails, or the event id is not a uuid, [Handle] returns an error and nothing
    changes at all. *)
Theorem Handle_stale_skips c env id t w :
  alone w → pk_tenants (w_db w) → accepted c env id (w_clock w) →
  claimed consumerName (env_ID env) (w_db w) = false →
  tenant_row id (w_db w) = Some t → t_live t = true →
  abs_stale env (abs t) = true →
  match prepared id env w with
  | Some _ => ∃ w', Handle c env w = (Ok tt, w') ∧ w_db w' = claim_event env (w_db w)
  | None => ∃ e w', Handle c env w = (Err e, w') ∧ w_db w' = w_db w
  end.
Proof.
  intros Hal Hpk Hacc Hcl Hrow Hlive Hst. pose proof (Handle_prepared c env id t w) as Hp.
  destruct (prepared id env w) as [days|]; [|by apply Hp]. destruct Hp as (w1 & _ & _ & ->); [done..|].
  unfold project. change (is_stale env _) with (abs_stale env (abs t)). rewrite Hst. by eexists.
Qed.

(** EVT-15.  An event dated beyond the allowed clock skew is refused as a
    poison pill and the world is untouched: no claim is recorded, no call is
    made. *)
Theorem Handle_rejects_future c env w :
  env_Timestamp env ≠ 0 → w_clock w + c_skew c < env_Timestamp env →
  Handle c env w = (Err ErrPoisonPill, w).
Proof.
  intros Hz Hf. unfold Handle, bindM, time_Now.
  rewrite (proj2 (Z.eqb_neq _ _) Hz), (proj2 (Z.ltb_lt _ _) Hf). done.
Qed.

Lemma Handle_decided c env id t w :
  codec_schemas → alone w → pk_tenants (w_db w) → uq_realms (w_db w) → accepted c env id (w_clock w) →
  claimed consumerName (env_ID env) (w_db w) = false →
  tenant_row id (w_db w) = Some t → t_live t = true → tenant_ok t = true →
  abs_stale env (abs t) = false →
  if match prepared id env w with Some days => event_admitted env days t (w_db w) | None => false end
  then ∃ w', Handle c env w = (Ok tt, w')
  else ∃ e w', Handle c env w = (Err e, w') ∧ w_db w' = w_db w.
Proof.
  intros Hc Hal Hpk Huq Hacc Hcl Hrow Hlive Hok Hst. pose proof (Handle_prepared c env id t w) as Hp.
  destruct (prepared id env w) as [days|]; [|by apply Hp]. destruct Hp as (w1 & Edb & Hal1 & ->); [done..|].
  apply isNull_true, tenant_checks_valid in Hok.
  set (w2 := set_w_db (claim_event env (w_db w)) (started w1)).
  destruct (claim_tenants env (w_db w)) as (Et & Hpk2 & Huq2 & Hrow2). specialize (Hpk2 Hpk). specialize (Huq2 Huq).
  specialize (Hrow2 id). rewrite Hrow in Hrow2.
  assert (event_admitted env days t (w_db w2) = event_admitted env days t (w_db w)) as Ea.
  { unfold event_admitted, realm_available. simpl. by rewrite Et. }
  pose proof (project_outcome id env (w_clock w1) days w2 t Hc eq_refl Hpk2 Huq2 Hrow2 Hok Hst) as Ho.
  cbv zeta in Ho. rewrite Ea in Ho. destruct (event_admitted env days t (w_db w)).
  - destruct Ho as (b & w' & ->). simpl. destruct b; [|by eexists].
    unfold evictAfterWipe. destruct has_cache; [|by eexists].
    destruct (quiet_cache_Delete (gdprWipeCacheKeys id) (set_w_txnow None w')) as (w3 & E & _). by exists w3.
  - destruct Ho as [e ->]. by do 2 eexists.
Qed.

(** An event whose update the row does not admit. *)
Lemma Handle_refused c env id t w :
  codec_schemas → alone w → pk_tenants (w_db w) → uq_realms (w_db w) → accepted c env id (w_clock w) →
  claimed consumerName (env_ID env) (w_db w) = false →
  tenant_row id (w_db w) = Some t → t_live t = true → tenant_ok t = true →
  abs_stale env (abs t) = false → (∀ days, event_admitted env days t (w_db w) = false) →
  ∃ e w', Handle c env w = (Err e, w') ∧ w_db w' = w_db w.
Proof.
  intros Hc Hal Hpk Huq Hacc Hcl Hrow Hlive Hok Hst Ha.
  pose proof (Handle_decided c env id t w Hc Hal Hpk Huq Hacc Hcl Hrow Hlive Hok Hst) as Hd.
  destruct (prepared id env w) as [days|]; [rewrite Ha in Hd|]; exact Hd.
Qed.

(** C5: When the consumer accepts an event.  With nothing else running, a new event
    within the clock skew, of any type the consumer projects (all but
    TenantIdentityProvisioned), newer than the last one applied, for a live, valid
    tenant is acknowledged exactly when the inbox takes its id, the trial length it needs
    was found (TrialReactivated only), its payload decodes, the update it asks
    for is one the CHECK constraints of [tenants] allow on that row
    ([patch_allowed]) and a realm it claims is free; otherwise [Handle] returns an
    error, nothing is written and the message is redelivered. *)
Theorem Handle_outcome c env id t w :
  codec_schemas → alone w → pk_tenants (w_db w) → uq_realms (w_db w) → accepted c env id (w_clock w) →
  claimed consumerName (env_ID env) (w_db w) = false →
  tenant_row id (w_db w) = Some t → t_live t = true → tenant_ok t = true →
  abs_stale env (abs t) = false →
  if match prepared id env w with Some days => event_admitted env days t (w_db w) | None => false end
  then ∃ w', Handle c env w = (Ok tt, w')
  else ∃ e w', Handle c env w = (Err e, w') ∧ w_db w' = w_db w.
Proof.
  intros Hc Hal Hpk Huq Hacc Hcl Hrow Hlive Hok Hst. by apply Handle_decided.
Qed.

(** A tenant that never paid cannot be offboarded.  For every live, valid
    tenant whose subscription_started_at is NULL (a trial, or a trial an
    operator has suspended) each newer TenantOffboarded event fails on
    chk_subscription_started_required and leaves the tenant's data in place,
    although the GDPR wipe is meant to run on it. *)
Theorem Handle_offboard_unpaid_fails c env id t w :
  codec_schemas → alone w → pk_tenants (w_db w) → uq_realms (w_db w) → accepted c env id (w_clock w) →
  env_Type env = "TenantOffboarded"%string →
  claimed consumerName (env_ID env) (w_db w) = false →
  tenant_row id (w_db w) = Some t → t_live t = true → tenant_ok t = true →
  abs_stale env (abs t) = false → t_SubscriptionStartedAt t = None →
  ∃ e w', Handle c env w = (Err e, w') ∧ w_db w' = w_db w.
Proof.
  intros ? ? ? ? ? Ety ? ? ? ? ? Hs. eapply Handle_refused; try done. intros days.
  unfold event_admitted, event_patch. rewrite Ety. simpl. by rewrite Hs.
Qed.

(** A cancelled or lapsed tenant cannot convert again.  While
    cancelled_at is set, every newer TenantConverted or DirectPaidSignup event
    fails on chk_cancelled_at_required: the update that activates the
    subscription does not clear cancelled_at. *)
Theorem Handle_convert_after_cancel_fails c env id t w :
  codec_schemas → alone w → pk_tenants (w_db w) → uq_realms (w_db w) → accepted c env id (w_clock w) →
  env_Type env = "TenantConverted"%string ∨ env_Type env = "DirectPaidSignup"%string →
  claimed consumerName (env_ID env) (w_db w) = false →
  tenant_row id (w_db w) = Some t → t_live t = true → tenant_ok t = true →
  abs_stale env (abs t) = false → t_CancelledAt t ≠ None →
  ∃ e w', Handle c env w = (Err e, w') ∧ w_db w' = w_db w.
Proof.
  intros ? ? ? ? ? Ety ? ? ? ? ? Hs.
  eapply Handle_refused; try done. intros days.
  unfold event_admitted, event_patch. destruct Ety as [-> | ->]; simpl;
    (destruct (members _); [|done]; destruct (decode_field _ _ _ _); [|done]); simpl;
    destruct (t_CancelledAt t); by rewrite ?andb_false_r.
Qed.

(** C8: The GDPR wipe.  Inside a transaction, deleting the six child tables in
    the order of [gdprWipeTables] never runs into a foreign key between them,
    whatever they hold, and leaves no row of the tenant in any of them while
    every other tenant's rows, and every other table, stay as they were. *)
Theorem WipeTenantChildren_complete id w now :
  w_txnow w = Some now →
  ∃ w', WipeTenantChildren id w = (Ok tt, w') ∧ w_db w' = children_wiped id (w_db w) ∧
    (∀ i, i ∈ pending_invitations (w_db w') ↔ i ∈ pending_invitations (w_db w) ∧ pi_TenantID i ≠ id) ∧
    (∀ x, x ∈ dept_memberships (w_db w') ↔ x ∈ dept_memberships (w_db w) ∧ dm_TenantID x ≠ id) ∧
    (∀ r, r ∈ tenant_roles (w_db w') ↔ r ∈ tenant_roles (w_db w) ∧ tr_TenantID r ≠ id) ∧
    (∀ m, m ∈ tenant_memberships (w_db w') ↔ m ∈ tenant_memberships (w_db w) ∧ tm_TenantID m ≠ id) ∧
    (∀ l, l ∈ dept_role_labels (w_db w') ↔ l ∈ dept_role_labels (w_db w) ∧ drl_TenantID l ≠ id) ∧
    (∀ t, t ∈ tenant_departments (w_db w') ↔ t ∈ tenant_departments (w_db w) ∧ td_TenantID t ≠ id).
Proof.
  intros Ht. eexists. split; [by apply (WipeTenantChildren_runs _ _ now)|]. split; [done|].
  split_and!; intros ?; simpl; by rewrite elem_of_delete_where, Z.eqb_neq.
Qed.
End theorems.
