(* ===== verification/LifecycleWitness.v ===== *)
(** * LifecycleWitness: the lifecycle theorems on concrete inputs

    Each lemma applies one theorem of [LifecycleSpec.v] to a concrete tenant,
    event and world, with the environment of [Demo.v], so that its hypotheses
    are seen to hold together. *)

From S2P Require Import CatalogService.
From S2P Require Import Prelude Domain Schema Tx Wp TenantRepo EventStores Consumer Demo LifecycleSpec.

#[local] Existing Instance demo_env.
#[local] Instance demo_inbox : InboxStore := reference_inbox z_parse.

Definition demo_consumer : ConsumerConfig := mkConsumerConfig None true true 300.

Definition demo_event (id type : string) (tenantID : uuid) (at_ : time) (payload : option json) : Envelope :=
  mkEnvelope id type (z_string tenantID) at_ payload.

Definition paid : Tenant := demo_tenant 7 "acme" StatusActive.
Definition unpaid : Tenant :=
  set_t_SubscriptionStartedAt None
    (set_t_SuspensionSource (Some SuspensionSourceOperator) (set_t_Status StatusSuspended paid)).
Definition cancelled : Tenant := set_t_CancelledAt (Some 400) (set_t_Status StatusCancelled paid).

Definition demo_db (t : Tenant) : DB :=
  set_tenant_memberships [demo_member 20 7 30 MembershipActive; demo_member 21 8 30 MembershipActive]
    (set_tenant_roles [demo_role 40 7 30 20 RoleTenantOwner]
      (set_tenants [demo_tenant 8 "other" StatusTrial; t] empty_db)).

Definition demo (t : Tenant) : World := demo_world (demo_db t).

Definition cancel_event : Envelope := demo_event "1" "TenantSubscriptionCancelled" 7 600 (Some (JObj [])).
Definition old_event : Envelope := demo_event "10" "TenantSubscriptionCancelled" 7 500 (Some (JObj [])).
Definition future_event : Envelope := demo_event "11" "TenantSubscriptionCancelled" 7 9000 (Some (JObj [])).
Definition offboard_event : Envelope := demo_event "100" "TenantOffboarded" 7 600 None.
Definition convert_event : Envelope :=
  demo_event "101" "TenantConverted" 7 600 (Some (JObj [("plan"%string, JStr "enterprise")])).

Lemma demo_alone t : alone (demo t).
Proof. by split. Qed.

Lemma demo_pk t : t_ID t = 7 → pk_tenants (w_db (demo t)).
Proof. intros E. unfold pk_tenants. simpl. rewrite E. apply NoDup_ListNoDup. repeat constructor; set_solver by lia. Qed.

Lemma demo_uq t : t_RealmType t = RealmShared → uq_realms (w_db (demo t)).
Proof.
  intros E u Hu. apply realm_free_spec. simpl in Hu. intros Hd.
  rewrite !elem_of_cons in Hu. destruct Hu as [-> | [-> | Hu]]; [done|congruence|by apply not_elem_of_nil in Hu].
Qed.

Lemma cancel_accepted : accepted demo_consumer cancel_event 7 1000.
Proof. split_and!; vm_compute; congruence. Qed.

Lemma old_accepted : accepted demo_consumer old_event 7 1000.
Proof. split_and!; vm_compute; congruence. Qed.

Lemma offboard_accepted : accepted demo_consumer offboard_event 7 1000.
Proof. split_and!; vm_compute; congruence. Qed.

Lemma convert_accepted : accepted demo_consumer convert_event 7 1000.
Proof. split_and!; vm_compute; congruence. Qed.

Lemma Handle_refines_lifecycle_witness :
  ∃ F w', Handle demo_consumer cancel_event (demo paid) = (Ok tt, w') ∧
    abs (F paid) = abs_step cancel_event (abs paid) ∧
    w_db w' = claim_event cancel_event (projected 7 cancel_event (abs paid) F (w_db (demo paid))).
Proof.
  assert (Handle demo_consumer cancel_event (demo paid)
          = (Ok tt, (Handle demo_consumer cancel_event (demo paid)).2)) as E
    by (apply result_of; vm_compute; reflexivity).
  destruct (Handle_refines_lifecycle demo_consumer cancel_event 7 paid (demo paid) _
    (demo_alone paid) (demo_pk paid eq_refl) cancel_accepted
    ltac:(by vm_compute) eq_refl eq_refl E) as (F & _ & HA & HD).
  exists F. eexists. split; [exact E|]. split; [exact HA|exact HD].
Defined.

Lemma Handle_stale_skips_witness :
  ∃ w', Handle demo_consumer old_event (demo paid) = (Ok tt, w') ∧
        w_db w' = claim_event old_event (w_db (demo paid)).
Proof.
  exact (Handle_stale_skips demo_consumer old_event 7 paid (demo paid) (demo_alone paid) (demo_pk paid eq_refl)
    old_accepted ltac:(by vm_compute) eq_refl eq_refl eq_refl).
Defined.

Lemma Handle_rejects_future_witness :
  Handle demo_consumer future_event (demo paid) = (Err ErrPoisonPill, demo paid).
Proof. apply (Handle_rejects_future demo_consumer future_event); [discriminate|reflexivity]. Defined.

Lemma Handle_outcome_witness : ∃ w', Handle demo_consumer convert_event (demo paid) = (Ok tt, w').
Proof.
  exact (Handle_outcome demo_consumer convert_event 7 paid (demo paid) demo_codec (demo_alone paid)
    (demo_pk paid eq_refl) (demo_uq paid eq_refl) convert_accepted
    ltac:(by vm_compute) eq_refl eq_refl eq_refl eq_refl).
Defined.

Lemma Handle_offboard_unpaid_fails_witness :
  ∃ e w', Handle demo_consumer offboard_event (demo unpaid) = (Err e, w') ∧ w_db w' = demo_db unpaid.
Proof.
  apply (Handle_offboard_unpaid_fails demo_consumer offboard_event 7 unpaid (demo unpaid));
    [apply demo_codec|apply demo_alone|by apply demo_pk|by apply demo_uq|apply offboard_accepted|vm_compute; reflexivity..].
Defined.

Lemma Handle_convert_after_cancel_fails_witness :
  ∃ e w', Handle demo_consumer convert_event (demo cancelled) = (Err e, w') ∧ w_db w' = demo_db cancelled.
Proof.
  apply (Handle_convert_after_cancel_fails demo_consumer convert_event 7 cancelled (demo cancelled));
    [apply demo_codec|apply demo_alone|by apply demo_pk|by apply demo_uq|apply convert_accepted
    |by left|vm_compute; reflexivity..|discriminate].
Defined.

Lemma WipeTenantChildren_complete_witness :
  ∃ w', WipeTenantChildren 7 (started (demo paid)) = (Ok tt, w') ∧ tenant_roles (w_db w') = [].
Proof.
  destruct (WipeTenantChildren_complete 7 (started (demo paid)) 1000 eq_refl) as (w' & E & Hd & _).
  exists w'. split; [exact E|]. rewrite Hd. reflexivity.
Defined.
