(* ===== verification/MembershipSpec.v ===== *)
(** * MembershipSpec: what member operations guarantee

    The theorems about [MembershipService.v] and the repositories it calls:
    the removal of a member and the change of a status on every branch, the
    optimistic lock, what each operation does to the owner grants of a tenant
    (for [OwnersSpec.v]), and how the last active owner can go. *)

From S2P Require Import Prelude Domain Schema Tx Wp.
From S2P Require Import MembershipRepo RoleRepo DeptMembershipRepo InvitationRepo TenantRepo CacheKeys MembershipService.

(** ** Vocabulary *)

(** The partial unique indexes on live rows: uq_tm_active_user and
    uq_tr_active_role. *)
Definition uq_live_member (d : DB) : Prop :=
  ∀ tid uid, count (tm_of tid uid) (tenant_memberships d) <= 1.
Definition uq_live_role (d : DB) : Prop :=
  ∀ tid uid c, count (RoleRepo.tr_grant tid uid c) (tenant_roles d) <= 1.

(** The enum column and chk_tr_no_member. *)
Definition roles_typed (d : DB) : Prop := ∀ r, r ∈ tenant_roles d → IsElevated (tr_RoleCode r) = true.

(** The number of live owner grants of a tenant. *)
Definition owners (tid : uuid) (d : DB) : Z := count (RoleRepo.is_owner_grant tid) (tenant_roles d).

(** A tenant that has an owner. *)
Definition owned (tid : uuid) (d : DB) : Prop := uq_live_role d ∧ 1 <= owners tid d.

(** What the owner-affecting operations keep. *)
Definition keeps_owned (tid : uuid) (d d' : DB) : Prop := owned tid d → owned tid d'.

#[export] Instance keeps_owned_preorder tid : PreOrder (keeps_owned tid).
Proof. split; [by intros d H|]. intros x y z H1 H2 H. by apply H2, H1. Qed.

(** ** Row lemmas *)

Lemma tr_of_split tid uid r : tr_of tid uid r = true ↔ tr_TenantID r = tid ∧ tr_UserID r = uid ∧ tr_live r = true.
Proof. unfold tr_of. rewrite !andb_true_iff, !Z.eqb_eq. tauto. Qed.

Lemma tm_of_split tid uid r : tm_of tid uid r = true ↔ tm_TenantID r = tid ∧ tm_UserID r = uid ∧ tm_live r = true.
Proof. unfold tm_of. rewrite !andb_true_iff, !Z.eqb_eq. tauto. Qed.

Lemma dm_of_split tid uid r : dm_of tid uid r = true ↔ dm_TenantID r = tid ∧ dm_UserID r = uid ∧ dm_live r = true.
Proof. unfold dm_of. rewrite !andb_true_iff, !Z.eqb_eq. tauto. Qed.

Lemma owner_grant_split tid r :
  RoleRepo.is_owner_grant tid r = true ↔
  tr_TenantID r = tid ∧ tr_RoleCode r = RoleTenantOwner ∧ tr_live r = true.
Proof. unfold RoleRepo.is_owner_grant. rewrite !andb_true_iff, Z.eqb_eq, bool_eq_true. tauto. Qed.

(** A soft-deleted row, with the version the trigger gives it. *)
Definition role_deleted (now : time) (r : TenantRole) : TenantRole := touched now (set_tr_DeletedAt (Some now)) r.
Definition dept_deleted (now : time) (x : DeptMembership) : DeptMembership :=
  touched now (set_dm_DeletedAt (Some now)) x.
Definition member_left (now : time) (m : TenantMembership) : TenantMembership :=
  touched now (λ m, set_tm_Status MembershipLeft (set_tm_DeletedAt (Some now) m)) m.

Lemma role_deleted_live now r : tr_live (role_deleted now r) = false.
Proof.
  unfold tr_live, role_deleted.
  by rewrite (touched_column tr_DeletedAt) by done.
Qed.

Lemma dept_deleted_live now x : dm_live (dept_deleted now x) = false.
Proof. unfold dm_live, dept_deleted. by rewrite (touched_column dm_DeletedAt) by done. Qed.

Lemma member_left_live now m : tm_live (member_left now m) = false.
Proof. unfold tm_live, member_left. by rewrite (touched_column tm_DeletedAt) by done. Qed.

Lemma role_deleted_code now r : tr_RoleCode (role_deleted now r) = tr_RoleCode r.
Proof. unfold role_deleted. by rewrite (touched_column tr_RoleCode) by done. Qed.

Lemma dept_deleted_dept now x : dm_DepartmentID (dept_deleted now x) = dm_DepartmentID x.
Proof. unfold dept_deleted. by rewrite (touched_column dm_DepartmentID) by done. Qed.

(** ** Soft-deleting roles *)

(** Rows taken out of the live set leave the other live counts alone. *)
Lemma count_roles_deleted (p q : TenantRole → bool) now l :
  (∀ r, tr_live r = false → p r = false) →
  count p (update_where q (role_deleted now) l) = count (λ r, p r && negb (q r)) l.
Proof. intros Hp. apply count_update_out. intros r _. apply Hp, role_deleted_live. Qed.

Lemma grant_live tid uid c r : tr_live r = false → RoleRepo.tr_grant tid uid c r = false.
Proof. intros E. unfold RoleRepo.tr_grant, tr_of. by rewrite E, andb_false_r. Qed.

Lemma owner_live tid r : tr_live r = false → RoleRepo.is_owner_grant tid r = false.
Proof. intros E. unfold RoleRepo.is_owner_grant. by rewrite E, andb_false_r. Qed.

Lemma uq_live_role_deleted q now d :
  uq_live_role d → uq_live_role (set_tenant_roles (update_where q (role_deleted now) (tenant_roles d)) d).
Proof.
  intros H tid uid c. simpl. rewrite count_roles_deleted by (intros r; apply grant_live).
  etransitivity; [|apply (H tid uid c)]. apply count_impl. by intros r _ [? _]%andb_true_iff.
Qed.

(** Deleting rows among which at most one is an owner grant, while two are
    left, keeps an owner. *)
Lemma owned_deleted tid q now d :
  (count (λ r, RoleRepo.is_owner_grant tid r && q r) (tenant_roles d) < owners tid d) →
  keeps_owned tid d (set_tenant_roles (update_where q (role_deleted now) (tenant_roles d)) d).
Proof.
  intros Hlt [Hu _]. split; [by apply uq_live_role_deleted|].
  unfold owners in *. simpl. rewrite count_roles_deleted by (intros r; apply owner_live).
  pose proof (count_split (RoleRepo.is_owner_grant tid) q (tenant_roles d)). lia.
Qed.

(** One user holds at most one owner grant of a tenant. *)
Lemma owner_grants_of_user tid uid d :
  uq_live_role d →
  count (λ r, RoleRepo.is_owner_grant tid r && tr_of tid uid r) (tenant_roles d) <= 1.
Proof.
  intros H. etransitivity; [|apply (H tid uid RoleTenantOwner)]. apply count_impl.
  intros r _ [Ho Hu]%andb_true_iff. unfold RoleRepo.tr_grant.
  apply owner_grant_split in Ho as (_ & -> & _). by rewrite Hu, bool_eq_refl.
Qed.

(** A table that the owner invariant does not read. *)
Lemma keeps_owned_same tid d d' : tenant_roles d' = tenant_roles d → keeps_owned tid d d'.
Proof. intros E [Hu Ho]. unfold owned, uq_live_role, owners. by rewrite E. Qed.

#[export] Hint Resolve keeps_owned_same : keeps.
#[export] Hint Extern 1 (keeps_owned _ _ _) => apply keeps_owned_same; reflexivity : keeps.

(** ** Small operations inside a transaction *)

Lemma wp_LockByID tid now (Q : result error unit → World → Prop) w :
  w_txnow w = Some now →
  (if count (t_is_live tid) (tenants (w_db w)) =? 0 then Q (Err tenant_not_found) w else Q (Ok tt) w) →
  wp (LockByID tid) Q w.
Proof.
  intros Ht HQ. unfold LockByID. repeat wp_step. simpl. by destruct (_ =? 0).
Qed.

Lemma wp_FindByUserID tid uid now (Q : result error TenantMembership → World → Prop) w :
  w_txnow w = Some now →
  match select_first (tm_of tid uid) (tenant_memberships (w_db w)) with
  | Some m => Q (Ok m) w
  | None => Q (Err MembershipRepo.member_not_found) w
  end → wp (MembershipRepo.FindByUserID tid uid) Q w.
Proof.
  intros Ht HQ. unfold MembershipRepo.FindByUserID. repeat wp_step.
  destruct (select_first _ _); [exact HQ|by apply wp_throw].
Qed.

(** The live roles of a user, as [ListByUser] returns them. *)
Definition roles_of (tid uid : uuid) (d : DB) : list TenantRole :=
  sort_by (λ r, RoleRepo.role_rank (tr_RoleCode r)) (select (tr_of tid uid) (tenant_roles d)).

Lemma holds_owner_roles_of tid uid d :
  holds_owner (roles_of tid uid d) = exists_row (RoleRepo.tr_grant tid uid RoleTenantOwner) (tenant_roles d).
Proof.
  apply eq_bool_prop_intro. rewrite !Is_true_true. unfold holds_owner. rewrite List.existsb_exists, exists_row_true.
  split; intros (r & Hr & Hc); exists r.
  - rewrite <- list_elem_of_In in Hr. unfold roles_of, sort_by in Hr.
    rewrite elem_of_isort, elem_of_select in Hr. destruct Hr as [Hr Hof].
    unfold RoleRepo.tr_grant. by rewrite Hof, Hc.
  - unfold RoleRepo.tr_grant in Hc. apply andb_true_iff in Hc as [Hof Hc].
    rewrite <- list_elem_of_In. unfold roles_of, sort_by. by rewrite elem_of_isort, elem_of_select.
Qed.

Lemma wp_ListByUser tid uid now (Q : result error (list TenantRole) → World → Prop) w :
  w_txnow w = Some now → Q (Ok (roles_of tid uid (w_db w))) w → wp (RoleRepo.ListByUser tid uid) Q w.
Proof. intros Ht HQ. unfold RoleRepo.ListByUser, RoleRepo.listWhere. by repeat wp_step. Qed.

Lemma wp_guardLastOwner tid msg now (Q : result error unit → World → Prop) w :
  w_txnow w = Some now →
  (if owners tid (w_db w) <=? 1 then Q (Err (fail_with ErrLastOwnerRemoval msg)) w else Q (Ok tt) w) →
  wp (guardLastOwner tid msg) Q w.
Proof.
  intros Ht HQ. unfold guardLastOwner, RoleRepo.CountActiveOwners. repeat wp_step.
  exact HQ.
Qed.

Lemma wp_role_SoftDeleteAllForUser tid uid now (Q : result error (list TenantRole) → World → Prop) w :
  w_txnow w = Some now →
  Q (Ok (role_deleted now <$> select (tr_of tid uid) (tenant_roles (w_db w))))
    (set_w_db (set_tenant_roles (update_where (tr_of tid uid) (role_deleted now) (tenant_roles (w_db w))) (w_db w)) w) →
  wp (RoleRepo.SoftDeleteAllForUser tid uid) Q w.
Proof.
  intros Ht HQ. unfold RoleRepo.SoftDeleteAllForUser. repeat wp_step.
  unfold now_in. rewrite Ht. exact HQ.
Qed.

Lemma wp_dept_SoftDeleteAllForUser tid uid now (Q : result error (list DeptMembership) → World → Prop) w :
  w_txnow w = Some now →
  Q (Ok (dept_deleted now <$> select (dm_of tid uid) (dept_memberships (w_db w))))
    (set_w_db (set_dept_memberships (update_where (dm_of tid uid) (dept_deleted now) (dept_memberships (w_db w)))
                 (w_db w)) w) →
  wp (DeptMembershipRepo.SoftDeleteAllForUser tid uid) Q w.
Proof.
  intros Ht HQ. unfold DeptMembershipRepo.SoftDeleteAllForUser. repeat wp_step.
  unfold now_in. rewrite Ht. exact HQ.
Qed.

(** The membership row itself, found and versioned in the same transaction. *)
Lemma wp_SoftDelete tid uid m now (Q : result error unit → World → Prop) w :
  w_txnow w = Some now → uq_live_member (w_db w) →
  select_first (tm_of tid uid) (tenant_memberships (w_db w)) = Some m →
  Q (Ok tt) (set_w_db (set_tenant_memberships
                         (update_where (tm_of tid uid) (member_left now) (tenant_memberships (w_db w))) (w_db w)) w) →
  wp (MembershipRepo.SoftDelete tid uid (tm_RecordVersion m)) Q w.
Proof.
  intros Ht Huq Hm HQ.
  assert (∀ x, x ∈ tenant_memberships (w_db w) →
            MembershipRepo.tm_at tid uid (tm_RecordVersion m) x = tm_of tid uid x) as Hat.
  { intros x Hx. unfold MembershipRepo.tm_at. destruct (tm_of tid uid x) eqn:E; [|done].
    rewrite (unique_eq _ _ _ _ Hm (Huq tid uid) Hx E). simpl. apply Z.eqb_refl. }
  unfold MembershipRepo.SoftDelete. repeat wp_step. unfold now_in. rewrite Ht.
  unfold MembershipRepo.memberships_update, update_returning.
  rewrite (select_ext _ _ _ Hat), (select_unique _ _ _ Hm (Huq tid uid)).
  erewrite update_where_ext; [apply wp_ret, HQ|]. intros x Hx. by rewrite Hat.
Qed.

(** ** Changing a status *)

(** Why an optimistic status update is refused, if it is. *)
Definition status_refusal (tid uid : uuid) (st : MembershipStatus) (version : Z) (d : DB) : option error :=
  if negb (membership_known st) then Some (EPg PgInvalidEnum)
  else match select_first (tm_of tid uid) (tenant_memberships d) with
       | None => Some MembershipRepo.member_not_found
       | Some m => if tm_RecordVersion m =? version then None else Some (version_conflict (tm_RecordVersion m))
       end.

(** The row with its new status. *)
Definition with_membership (now : time) (st : MembershipStatus) (m : TenantMembership) : TenantMembership :=
  touched now (set_tm_Status st) m.

Definition status_set (tid uid : uuid) (st : MembershipStatus) (now : time) (d : DB) : DB :=
  set_tenant_memberships (update_where (tm_of tid uid) (with_membership now st) (tenant_memberships d)) d.

Lemma set_memberships_id w : set_w_db (set_tenant_memberships (tenant_memberships (w_db w)) (w_db w)) w = w.
Proof. by destruct w as [[] ? ? ? ? ? ?]. Qed.

Lemma wp_repo_SetStatus tid uid st v now (Q : result error TenantMembership → World → Prop) w :
  w_txnow w = Some now → uq_live_member (w_db w) →
  match status_refusal tid uid st v (w_db w) with
  | Some e => Q (Err (wrapConnErr e)) w
  | None => ∀ m, select_first (tm_of tid uid) (tenant_memberships (w_db w)) = Some m →
              Q (Ok (with_membership now st m)) (set_w_db (status_set tid uid st now (w_db w)) w)
  end → wp (MembershipRepo.SetStatus tid uid st v) Q w.
Proof.
  intros Ht Huq HQ. unfold MembershipRepo.SetStatus, status_refusal in *. repeat wp_step.
  unfold now_in. rewrite Ht. destruct (negb _); [done|].
  unfold MembershipRepo.memberships_update, update_returning. cbn beta iota.
  destruct (select_first (tm_of tid uid) _) as [m|] eqn:Em.
  - pose proof (select_unique _ _ _ Em (Huq tid uid)) as Hsel.
    assert (∀ x, x ∈ tenant_memberships (w_db w) →
              MembershipRepo.tm_at tid uid v x = tm_of tid uid x && (tm_RecordVersion m =? v)) as Hat.
    { intros x Hx. unfold MembershipRepo.tm_at. destruct (tm_of tid uid x) eqn:E; [|done].
      by rewrite (unique_eq _ _ _ _ Em (Huq tid uid) Hx E). }
    rewrite (select_ext _ _ _ Hat). destruct (tm_RecordVersion m =? v).
    + erewrite select_ext; [rewrite Hsel|by intros; rewrite andb_true_r]. apply wp_ret.
      erewrite update_where_ext; [by apply HQ|]. intros x Hx. by rewrite Hat, andb_true_r.
    + rewrite select_none by (by intros; rewrite andb_false_r).
      rewrite update_where_none by (intros x Hx; by rewrite Hat, andb_false_r). rewrite set_memberships_id.
      unfold MembershipRepo.probeMembership. simpl. repeat wp_step. rewrite Em. by apply wp_throw.
  - assert (∀ x, x ∈ tenant_memberships (w_db w) → MembershipRepo.tm_at tid uid v x = false) as Hat.
    { intros x Hx. unfold MembershipRepo.tm_at. by rewrite (proj1 (select_first_None _ _) Em x Hx). }
    rewrite select_none, update_where_none, set_memberships_id by done.
    unfold MembershipRepo.probeMembership. simpl. repeat wp_step. rewrite Em. by apply wp_throw.
Qed.

(** Why the owner guard refuses a suspension, if it does. *)
Definition suspend_refusal (tid uid : uuid) (st : MembershipStatus) (d : DB) : option error :=
  if (st ==? MembershipSuspended)%stdpp
     && exists_row (RoleRepo.tr_grant tid uid RoleTenantOwner) (tenant_roles d) then
    if negb (exists_row (t_is_live tid) (tenants d)) then Some tenant_not_found
    else if owners tid d <=? 1
    then Some (fail_with ErrLastOwnerRemoval "cannot suspend the last tenant_owner") else None
  else None.

Definition set_status_refusal (tid uid : uuid) (st : MembershipStatus) (v : Z) (d : DB) : option error :=
  match suspend_refusal tid uid st d with Some e => Some e | None => wrapConnErr <$> status_refusal tid uid st v d end.

Lemma status_refusal_final tid uid st v d e :
  status_refusal tid uid st v d = Some e → is_retryable e = false ∧ wrapConnErr (wrapConnErr e) = wrapConnErr e.
Proof. unfold status_refusal. repeat case_match; by intros [= <-]. Qed.

(** The versions optimistic locking counts. *)
Lemma with_membership_version now st m :
  tm_RecordVersion (with_membership now st m) =
  if decide (tm_Status m = st) then tm_RecordVersion m else tm_RecordVersion m + 1.
Proof.
  unfold with_membership, touched.
  destruct (decide (set_tm_Status st m = m)) as [E|E], (decide (tm_Status m = st)) as [E'|E']; try done.
  - destruct E'. by rewrite <- E.
  - destruct E. subst. by destruct m.
Qed.

Section set_status.
  Context `{Env} (tid uid : uuid) (st : MembershipStatus) (v : Z).

(** The write of [SetStatus], whichever path it takes. *)
Definition status_write : M TenantMembership :=
  if (st ==? MembershipSuspended)%stdpp then
    let! trs := RoleRepo.ListByUser tid uid in
    if holds_owner trs then
      RunInTx (LockByID tid ;; guardLastOwner tid "cannot suspend the last tenant_owner" ;;
               MembershipRepo.SetStatus tid uid st v)
    else MembershipRepo.SetStatus tid uid st v
  else MembershipRepo.SetStatus tid uid st v.

Lemma wp_own_SetStatus (Q : result error TenantMembership → World → Prop) w :
  alone w → uq_live_member (w_db w) →
  match status_refusal tid uid st v (w_db w) with
  | Some e => Q (Err (wrapConnErr e)) w
  | None => ∀ m, select_first (tm_of tid uid) (tenant_memberships (w_db w)) = Some m →
              Q (Ok (with_membership (w_clock w) st m)) (set_w_db (status_set tid uid st (w_clock w) (w_db w)) w)
  end → wp (MembershipRepo.SetStatus tid uid st v) Q w.
Proof.
  intros Ha Huq HQ. apply wp_own_tx; [done|]. apply (wp_repo_SetStatus _ _ _ _ (w_clock w)); [done..|]. simpl.
  destruct (status_refusal _ _ _ _ _); [by rewrite started_stop_db|]. intros m Hm. specialize (HQ m Hm).
  destruct Ha as [_ Ht]. destruct w. simpl in *. by rewrite Ht in HQ.
Qed.

Lemma wp_status_write (Q : result error TenantMembership → World → Prop) w :
  alone w → uq_live_member (w_db w) →
  match set_status_refusal tid uid st v (w_db w) with
  | Some e => Q (Err e) w
  | None => ∀ m, select_first (tm_of tid uid) (tenant_memberships (w_db w)) = Some m →
              Q (Ok (with_membership (w_clock w) st m)) (set_w_db (status_set tid uid st (w_clock w) (w_db w)) w)
  end → wp status_write Q w.
Proof.
  intros Ha Huq HQ. unfold status_write, set_status_refusal, suspend_refusal in *.
  assert (wp (MembershipRepo.SetStatus tid uid st v) Q w ∨
          ∃ e, suspend_refusal tid uid st (w_db w) = Some e) as Hplain.
  { unfold suspend_refusal. destruct (if _ && _ then _ else _) eqn:E; [eauto|]. left.
    apply wp_own_SetStatus; [done..|]. by destruct (status_refusal _ _ _ _ _). }
  destruct (st ==? MembershipSuspended)%stdpp eqn:Es.
  2: { destruct Hplain as [|[e He]]; [done|]. unfold suspend_refusal in He. by rewrite Es in He. }
  simpl in HQ. apply wp_bind, (wp_own_tx _ _ _ Ha), (wp_ListByUser _ _ (w_clock w)); [done|].
  rewrite started_stop, holds_owner_roles_of by done. simpl.
  destruct (exists_row (RoleRepo.tr_grant _ _ _) _) eqn:Eo.
  2: { destruct Hplain as [|[e He]]; [done|]. unfold suspend_refusal in He. by rewrite Es, Eo in He. }
  simpl in HQ. apply wp_RunInTx_alone; [done|].
  apply wp_bind, (wp_LockByID _ (w_clock w)); [done|]. rewrite count_eqb_0. simpl.
  destruct (exists_row (t_is_live tid) _); simpl in *; [|by rewrite started_stop_db].
  apply wp_bind, (wp_guardLastOwner _ _ (w_clock w)); [done|]. simpl.
  destruct (owners tid (w_db w) <=? 1); [by rewrite started_stop_db|].
  apply (wp_repo_SetStatus _ _ _ _ (w_clock w)); [done..|]. simpl.
  destruct (status_refusal _ _ _ _ _) as [e|] eqn:Er.
  - destruct (status_refusal_final _ _ _ _ _ _ Er) as [Hr Hw]. simpl in HQ.
    rewrite Hw, started_stop_db by done. by rewrite wrapConnErr_retryable.
  - intros m Hm. specialize (HQ m Hm). destruct Ha as [_ Ht]. destruct w. simpl in *. by rewrite Ht in HQ.
Qed.
End set_status.

(** ** Removing a member *)

Section removal.
  Context `{Env} (tid uid actor : uuid).

(** The Workflow Service's veto (WFI-3, WFI-8). *)
Definition workflow_veto (w : World) : option sentinel :=
  if negb has_workflow then None
  else match wf_GetDelegateImpact (length (w_calls w)) tid uid None with
       | Err _ => Some ErrWorkflowServiceUnavailable
       | Ok impact => if 0 <? di_ActiveWorkflows impact then Some ErrWorkflowResolutionRequired else None
       end.

(** Why a removal is refused, if it is. *)
Definition remove_verdict (w : World) : option sentinel :=
  match workflow_veto w with
  | Some s => Some s
  | None =>
      let d := w_db w in
      if negb (exists_row (t_is_live tid) (tenants d)) then Some ErrTenantNotFound
      else if negb (exists_row (tm_of tid uid) (tenant_memberships d)) then Some ErrMemberNotFound
      else if exists_row (RoleRepo.tr_grant tid uid RoleTenantOwner) (tenant_roles d) && (owners tid d <=? 1)
      then Some ErrLastOwnerRemoval
      else None
  end.

(** The events of a removal: one per role, one per department, one for the
    membership. *)
Definition removal_events (d : DB) : list DomainEvent :=
  (role_revoked_event tid uid actor <$> select (tr_of tid uid) (tenant_roles d))
  ++ (dept_revoked_event tid uid actor <$> select (dm_of tid uid) (dept_memberships d))
  ++ [membership_revoked_event tid uid actor].

(** The user is gone from the tenant, everybody else is untouched, and the
    outbox tells. *)
Record user_removed (d d' : DB) : Prop := {
  ur_member : select (tm_of tid uid) (tenant_memberships d') = [];
  ur_roles : select (tr_of tid uid) (tenant_roles d') = [];
  ur_depts : select (dm_of tid uid) (dept_memberships d') = [];
  ur_others : ∀ t u, (t, u) ≠ (tid, uid) →
    select (tm_of t u) (tenant_memberships d') = select (tm_of t u) (tenant_memberships d) ∧
    select (tr_of t u) (tenant_roles d') = select (tr_of t u) (tenant_roles d) ∧
    select (dm_of t u) (dept_memberships d') = select (dm_of t u) (dept_memberships d);
  ur_outbox : outbox_events d' = outbox_events d ++ emitted (removal_events d);
  ur_rest : tenants d' = tenants d ∧ tenant_departments d' = tenant_departments d ∧
    dept_role_labels d' = dept_role_labels d ∧ pending_invitations d' = pending_invitations d
}.

(** The database a removal leaves. *)
Definition removal (now : time) (d : DB) : DB :=
  set_tenant_memberships (update_where (tm_of tid uid) (member_left now) (tenant_memberships d))
    (enqueued (emitted (removal_events d))
       (set_dept_memberships (update_where (dm_of tid uid) (dept_deleted now) (dept_memberships d))
          (set_tenant_roles (update_where (tr_of tid uid) (role_deleted now) (tenant_roles d)) d))).

Lemma removal_user_removed now d : user_removed d (removal now d).
Proof.
  split; simpl.
  - rewrite select_update_out; [apply select_none; intros x _; apply andb_negb_r|].
    intros m _. unfold tm_of. by rewrite member_left_live, andb_false_r.
  - rewrite select_update_out; [apply select_none; intros x _; apply andb_negb_r|].
    intros m _. unfold tr_of. by rewrite role_deleted_live, andb_false_r.
  - rewrite select_update_out; [apply select_none; intros x _; apply andb_negb_r|].
    intros m _. unfold dm_of. by rewrite dept_deleted_live, andb_false_r.
  - intros t u Hne. split_and!; apply select_update_where_disjoint; intros x Hx; split.
    + apply not_true_is_false. rewrite tm_of_split in *. intros (? & ? & _). destruct Hx as (? & ? & _). congruence.
    + unfold tm_of. by rewrite member_left_live, andb_false_r.
    + apply not_true_is_false. rewrite tr_of_split in *. intros (? & ? & _). destruct Hx as (? & ? & _). congruence.
    + unfold tr_of. by rewrite role_deleted_live, andb_false_r.
    + apply not_true_is_false. rewrite dm_of_split in *. intros (? & ? & _). destruct Hx as (? & ? & _). congruence.
    + unfold dm_of. by rewrite dept_deleted_live, andb_false_r.
  - done.
  - done.
Qed.

(** The events name the roles and departments of the deleted rows. *)
Lemma deleted_role_events now (l : list TenantRole) :
  role_revoked_event tid uid actor <$> (role_deleted now <$> l) = role_revoked_event tid uid actor <$> l.
Proof.
  rewrite <- list_fmap_compose. apply list_fmap_ext. intros _ r _. unfold compose, role_revoked_event.
  by rewrite role_deleted_code.
Qed.

Lemma deleted_dept_events now (l : list DeptMembership) :
  dept_revoked_event tid uid actor <$> (dept_deleted now <$> l) = dept_revoked_event tid uid actor <$> l.
Proof.
  rewrite <- list_fmap_compose. apply list_fmap_ext. intros _ r _. unfold compose, dept_revoked_event.
  by rewrite dept_deleted_dept.
Qed.

(** Why the transaction fails, if it does. *)
Definition remove_refusal (d : DB) : option error :=
  if negb (exists_row (t_is_live tid) (tenants d)) then Some tenant_not_found
  else if negb (exists_row (tm_of tid uid) (tenant_memberships d)) then Some MembershipRepo.member_not_found
  else if exists_row (RoleRepo.tr_grant tid uid RoleTenantOwner) (tenant_roles d) && (owners tid d <=? 1)
  then Some (fail_with ErrLastOwnerRemoval "cannot remove the last tenant_owner")
  else None.

(** Their payloads fit the schemas. *)
Lemma role_revoked_valid r : IsElevated (tr_RoleCode r) = true → event_valid (role_revoked_event tid uid actor r) = true.
Proof. by intros He. Qed.

Lemma roles_revoked_valid now d :
  roles_typed d →
  Forall (λ r, event_valid (role_revoked_event tid uid actor r) = true)
    (role_deleted now <$> select (tr_of tid uid) (tenant_roles d)).
Proof.
  intros Ht. apply Forall_fmap, Forall_forall. intros r [Hr _]%elem_of_select. apply role_revoked_valid.
  rewrite role_deleted_code. by apply Ht.
Qed.

Lemma depts_revoked_valid (l : list DeptMembership) :
  Forall (λ x, event_valid (dept_revoked_event tid uid actor x) = true) l.
Proof. by apply Forall_forall. Qed.

Lemma wp_remove_cascade m now (Q : result error unit → World → Prop) w :
  codec_schemas → roles_typed (w_db w) → w_txnow w = Some now → uq_live_member (w_db w) →
  select_first (tm_of tid uid) (tenant_memberships (w_db w)) = Some m →
  Q (Ok tt) (set_w_db (removal now (w_db w)) w) →
  wp (remove_cascade tid uid actor (tm_RecordVersion m)) Q w.
Proof.
  intros Hc Hty Ht Huq Hm HQ. unfold remove_cascade.
  apply wp_bind, (wp_role_SoftDeleteAllForUser _ _ now); [done|].
  apply wp_bind, (wp_publish_all Hc _ _ _ now); [done|by apply roles_revoked_valid|]. simpl.
  apply wp_bind, (wp_dept_SoftDeleteAllForUser _ _ now); [done|]. simpl.
  apply wp_bind, (wp_publish_all Hc _ _ _ now); [done|apply depts_revoked_valid|]. simpl.
  apply wp_bind, (wp_publish Hc _ _ now); [done..|]. simpl.
  eapply (wp_SoftDelete _ _ m now); [done..|]. simpl.
  rewrite deleted_role_events, deleted_dept_events. unfold removal, removal_events in HQ.
  rewrite !emitted_app in HQ. unfold enqueued in *. simpl in *. by rewrite <- !app_assoc.
Qed.

(** The transaction, on every branch. *)
Lemma wp_remove_tx now (Q : result error unit → World → Prop) w :
  codec_schemas → roles_typed (w_db w) → w_txnow w = Some now → uq_live_member (w_db w) →
  match remove_refusal (w_db w) with
  | Some e => Q (Err e) w
  | None => Q (Ok tt) (set_w_db (removal now (w_db w)) w)
  end → wp (remove_tx tid uid actor) Q w.
Proof.
  intros Hc Hty Ht Huq HQ. unfold remove_refusal in HQ. unfold remove_tx.
  apply wp_bind, (wp_LockByID _ now); [done|]. rewrite count_eqb_0.
  destruct (exists_row (t_is_live tid) _); simpl in *; [|done].
  apply wp_bind, (wp_FindByUserID _ _ now); [done|]. rewrite exists_row_first in HQ.
  destruct (select_first (tm_of tid uid) _) as [m|] eqn:Em; simpl in *; [|done].
  apply wp_bind, (wp_ListByUser _ _ now); [done|]. rewrite holds_owner_roles_of. apply wp_bind.
  destruct (exists_row (RoleRepo.tr_grant tid uid RoleTenantOwner) _) eqn:Eo; simpl in *.
  - apply (wp_guardLastOwner _ _ now); [done|]. destruct (owners tid (w_db w) <=? 1); [done|].
    by apply (wp_remove_cascade _ now).
  - by apply wp_ret, (wp_remove_cascade _ now).
Qed.
End removal.

Lemma quiet_revokeSessions `{Env} tid uid : quiet (revokeSessions tid uid).
Proof. unfold revokeSessions. destruct has_rp; [apply quiet_call|apply quiet_ret]. Qed.

Lemma quiet_invalidateMember `{Env} tid uid : quiet (invalidateMember tid uid).
Proof. apply quiet_evict. Qed.

Lemma wp_workflowGate `{Env} tid uid (Q : result error unit → World → Prop) w :
  (∀ w', w_db w' = w_db w → flows w w' →
     match workflow_veto tid uid w with
     | Some s => ∀ e, errors_Is e s = true → Q (Err e) w'
     | None => Q (Ok tt) w'
     end) →
  wp (workflowGate tid uid) Q w.
Proof.
  unfold workflow_veto, workflowGate. destruct has_workflow; simpl; intros HQ.
  - repeat wp_step. destruct (wf_GetDelegateImpact _ tid uid None) as [impact|e].
    + apply wp_throw_if. destruct (0 <? _); by apply HQ.
    + apply wp_throw. by apply HQ.
  - apply wp_ret. by apply HQ.
Qed.

Lemma alone_flows w w' : alone w → flows w w' → alone w'.
Proof.
  intros [Hs Ht] (Hsuf & Ht' & _). split; [|congruence].
  rewrite Hs in Hsuf. by apply suffix_nil_inv in Hsuf.
Qed.

Lemma remove_refusal_retryable tid uid d e : remove_refusal tid uid d = Some e → is_retryable e = false.
Proof. unfold remove_refusal. repeat case_match; by intros [= <-]. Qed.

Lemma remove_refusal_wrap tid uid d e : remove_refusal tid uid d = Some e → wrapConnErr e = e.
Proof. unfold remove_refusal. repeat case_match; by intros [= <-]. Qed.

(** ** The last-owner invariant *)

Definition same_roles (d d' : DB) : Prop := tenant_roles d' = tenant_roles d.

#[export] Instance same_roles_preorder : PreOrder same_roles.
Proof. split; [done|]. unfold same_roles. intros x y z. congruence. Qed.

#[export] Hint Extern 1 (same_roles _ _) => reflexivity : keeps_tx.

(** At most [n] owner grants of [tid] are lost. *)
Definition loses (tid n : uuid) (d d' : DB) : Prop :=
  uq_live_role d → uq_live_role d' ∧ owners tid d - n <= owners tid d'.

Lemma loses_trans tid n m d1 d2 d3 : loses tid n d1 d2 → loses tid m d2 d3 → loses tid (n + m) d1 d3.
Proof. intros H1 H2 Hu. destruct (H1 Hu) as [Hu2 ?]. destruct (H2 Hu2). split; [done|lia]. Qed.

Lemma loses_same tid d d' : same_roles d d' → loses tid 0 d d'.
Proof. unfold same_roles, loses, uq_live_role, owners. intros ->. intros Hu. split; [done|lia]. Qed.

#[export] Instance loses0_preorder tid : PreOrder (loses tid 0).
Proof.
  split; [intros d; by apply loses_same|]. intros x y z H1 H2.
  exact (loses_trans _ _ _ _ _ _ H1 H2).
Qed.

(** Granting a role loses nothing. *)
Lemma insert_role_loses tid id t u m c by_ now d x d' :
  RoleRepo.insert_role id t u m c by_ now d = Ok (x, d') → loses tid 0 d d'.
Proof.
  unfold RoleRepo.insert_role. destruct (negb _); [done|]. destruct (_ ==? _); [done|].
  destruct (exists_row (RoleRepo.tr_grant t u c) _) eqn:Ex; [intros [= _ <-]; reflexivity|].
  destruct (exists_row (λ r, tr_ID r =? id) _); [done|]. destruct (first_error _); [done|]. intros [= _ <-] Hu.
  assert (∀ p : TenantRole → bool, 0 <= count p [mkTenantRole id t u m c by_ 1 now now None]) as Hnn
    by (intros; apply count_nonneg).
  split; [|unfold owners; simpl; rewrite count_app; specialize (Hnn (RoleRepo.is_owner_grant tid)); lia].
  intros t' u' c'. simpl. rewrite count_app, count_cons. unfold RoleRepo.tr_grant at 2, tr_of. simpl.
  destruct ((t =? t') && (u =? u') && (c ==? c')%stdpp) eqn:E.
  - apply andb_true_iff in E as [[->%Z.eqb_eq ->%Z.eqb_eq]%andb_true_iff ->%bool_eq_true].
    assert (count (RoleRepo.tr_grant t' u' c') (tenant_roles d) = 0) as ->.
    { apply Z.eqb_eq. rewrite count_eqb_0. by rewrite Ex. }
    rewrite !Z.eqb_refl, bool_eq_refl. simpl. unfold count. simpl. lia.
  - rewrite andb_true_r, E. specialize (Hu t' u' c'). unfold count in *. simpl. lia.
Qed.

(** Revoking one role loses one owner at most, none when it is another role
    or another tenant. *)
Lemma revoke_loses tid t u c now d :
  loses tid (if (c ==? RoleTenantOwner)%stdpp && (t =? tid) then 1 else 0) d
    (set_tenant_roles (update_where (RoleRepo.tr_grant t u c) (role_deleted now) (tenant_roles d)) d).
Proof.
  intros Hu. split; [by apply uq_live_role_deleted|]. unfold owners. simpl.
  rewrite count_roles_deleted by (intros r; apply owner_live).
  rewrite (count_split _ (RoleRepo.tr_grant t u c)).
  assert (count (λ r, RoleRepo.is_owner_grant tid r && RoleRepo.tr_grant t u c r) (tenant_roles d)
          <= if (c ==? RoleTenantOwner)%stdpp && (t =? tid) then 1 else 0); [|lia].
  destruct ((c ==? RoleTenantOwner)%stdpp && (t =? tid)) eqn:Ec.
  - etransitivity; [|apply (Hu t u c)]. apply count_impl. by intros r _ [_ ?]%andb_true_iff.
  - apply Z.eq_le_incl, Z.eqb_eq. rewrite count_eqb_0. apply negb_true_iff, exists_row_false. intros r _.
    apply not_true_is_false. intros [Ho Hg]%andb_true_iff. apply owner_grant_split in Ho as (<- & Hc & _).
    unfold RoleRepo.tr_grant in Hg. apply andb_true_iff in Hg as [(<- & _)%tr_of_split Hg].
    rewrite bool_eq_true in Hg. subst c. by rewrite Hc, bool_eq_refl, Z.eqb_refl in Ec.
Qed.

(** Losing fewer owners than there are keeps the tenant owned. *)
Lemma loses_owned tid n d d' : loses tid n d d' → 1 <= owners tid d - n → keeps_owned tid d d'.
Proof. intros Hl Hn [Hu Ho]. destruct (Hl Hu). split; [done|lia]. Qed.

Lemma loses0_owned tid d d' : loses tid 0 d d' → keeps_owned tid d d'.
Proof. intros Hl [Hu Ho]. destruct (Hl Hu). split; [done|lia]. Qed.

Section owner_bodies.
  Context `{Env}.

Lemma steady_remove_tx t u a : steady (remove_tx t u a).
Proof. unfold steady, remove_tx, remove_cascade, guardLastOwner. keeps_auto. Qed.

Lemma steady_reconcile_tx t u m a b ds cs c : steady (reconcile_tx t u m a b ds cs c).
Proof. unfold steady, reconcile_tx, guardLastOwner, grant_missing, revoke_extra. keeps_auto. Qed.

(** After the roles are gone, nothing of a removal touches roles. *)
Lemma removal_rest_same_roles t u a v (l : list TenantRole) :
  keeps_tx same_roles
    (for_each l (λ r, publish (role_revoked_event t u a r)) ;;
     let! revokedDepts := DeptMembershipRepo.SoftDeleteAllForUser t u in
     for_each revokedDepts (λ x, publish (dept_revoked_event t u a x)) ;;
     publish (membership_revoked_event t u a) ;;
     MembershipRepo.SoftDelete t u v).
Proof.
  unfold DeptMembershipRepo.SoftDeleteAllForUser, MembershipRepo.SoftDelete, MembershipRepo.probeMembership.
  keeps_tx_auto; by intros ? ? ? ? [= <- <-].
Qed.

(** No owner grant among the rows deleted, or one of two. *)
Lemma delete_user_roles_owned tid t u now d :
  (exists_row (RoleRepo.tr_grant t u RoleTenantOwner) (tenant_roles d) = true → 1 < owners t d) →
  keeps_owned tid d (set_tenant_roles (update_where (tr_of t u) (role_deleted now) (tenant_roles d)) d).
Proof.
  intros Hg [Hu Ho]. apply owned_deleted; [|by split].
  destruct (exists_row (λ r, RoleRepo.is_owner_grant tid r && tr_of t u r) (tenant_roles d)) eqn:E.
  - apply exists_row_true in E as (r & Hr & [Hor Hof]%andb_true_iff).
    pose proof Hor as (<- & Hc & _)%owner_grant_split. pose proof Hof as (-> & _)%tr_of_split.
    pose proof (owner_grants_of_user t u d Hu).
    enough (1 < owners t d) by lia. apply Hg, exists_row_true. exists r. split; [done|].
    unfold RoleRepo.tr_grant. by rewrite Hof, Hc, bool_eq_refl.
  - pose proof (count_eqb_0 (λ r, RoleRepo.is_owner_grant tid r && tr_of t u r) (tenant_roles d)) as E0.
    rewrite E in E0. apply Z.eqb_eq in E0. lia.
Qed.

Lemma remove_cascade_owned tid t u a v w now :
  w_txnow w = Some now →
  (exists_row (RoleRepo.tr_grant t u RoleTenantOwner) (tenant_roles (w_db w)) = true → 1 < owners t (w_db w)) →
  wp (remove_cascade t u a v) (λ _ w', keeps_owned tid (w_db w) (w_db w')) w.
Proof.
  intros Ht Hg. apply wp_bind, (wp_role_SoftDeleteAllForUser _ _ now); [done|].
  eapply wp_mono; [eapply (removal_rest_same_roles _ _ _ _ _ _ now); done|].
  intros r w' [Hs _]. etransitivity; [exact (delete_user_roles_owned tid t u now _ Hg)|]. by apply keeps_owned_same.
Qed.

Lemma remove_tx_owned tid t u a w now :
  w_txnow w = Some now →
  wp (remove_tx t u a) (λ r w', match r with Ok _ => keeps_owned tid (w_db w) (w_db w') | Err _ => True end) w.
Proof.
  intros Ht. unfold remove_tx.
  apply wp_bind, (wp_LockByID _ now); [done|]. destruct (_ =? 0); [done|].
  apply wp_bind, (wp_FindByUserID _ _ now); [done|]. destruct (select_first _ _) as [m|]; [|done].
  apply wp_bind, (wp_ListByUser _ _ now); [done|]. rewrite holds_owner_roles_of. apply wp_bind.
  assert (∀ Q : result error unit → World → Prop,
    (∀ r w', keeps_owned tid (w_db w) (w_db w') → Q r w') →
    (exists_row (RoleRepo.tr_grant t u RoleTenantOwner) (tenant_roles (w_db w)) = true → 1 < owners t (w_db w)) →
    wp (remove_cascade t u a (tm_RecordVersion m)) Q w) as Hrest.
  { intros Q HQ Hg. eapply wp_mono; [by eapply (remove_cascade_owned tid)|]. intros r w'. apply HQ. }
  destruct (exists_row _ _) eqn:Eo.
  - apply (wp_guardLastOwner _ _ now); [done|]. destruct (owners t (w_db w) <=? 1) eqn:El; [done|].
    apply Hrest; [by intros [] w'|]. intros _. by apply Z.leb_gt.
  - apply wp_ret, Hrest; [by intros [] w'|done].
Qed.

(** *** Reconciling roles *)

Lemma keeps_tx_Grant_loses tid id t u m c by_ : keeps_tx (loses tid 0) (RoleRepo.Grant id t u m c by_).
Proof.
  unfold RoleRepo.Grant. keeps_tx_auto. intros now d x d' E. by eapply insert_role_loses.
Qed.

Lemma keeps_tx_publish_loses tid ev : keeps_tx (loses tid 0) (publish ev).
Proof. apply keeps_tx_publish; [apply _|]. intros d. by apply loses_same. Qed.

Lemma grant_loop_loses tid t u m a cur l acc :
  keeps_tx (loses tid 0) (for_fold l acc (grant_missing t u m a cur)).
Proof.
  apply keeps_tx_for_fold; [apply _|]. intros b c. unfold grant_missing.
  destruct (contains c cur); [apply keeps_tx_ret; apply _|].
  apply keeps_tx_bind; [apply _|apply keeps_tx_Grant_loses|]. intros x.
  apply keeps_tx_bind; [apply _|apply keeps_tx_publish_loses|]. intros _. apply keeps_tx_ret, _.
Qed.

(** The owner grants of [tid] that revoking [c], of those not desired, can
    cost. *)
Definition cost (tid t : uuid) (desired : list TenantRoleCode) (c : TenantRoleCode) : Z :=
  if (c ==? RoleTenantOwner)%stdpp && (negb (contains RoleTenantOwner desired) && (t =? tid)) then 1 else 0.

Lemma cost_nonneg tid t desired c : 0 <= cost tid t desired c.
Proof. unfold cost. destruct (_ && _); lia. Qed.

Lemma cost_kept tid t desired c : contains c desired = true → cost tid t desired c = 0.
Proof.
  unfold cost. intros Hc. destruct (c ==? RoleTenantOwner)%stdpp eqn:E; [|done].
  rewrite bool_eq_true in E. subst. by rewrite Hc.
Qed.

Lemma cost_revoked tid t desired c :
  contains c desired = false → cost tid t desired c = if (c ==? RoleTenantOwner)%stdpp && (t =? tid) then 1 else 0.
Proof.
  unfold cost. intros Hc. destruct (c ==? RoleTenantOwner)%stdpp eqn:E; [|done].
  rewrite bool_eq_true in E. subst. by rewrite Hc.
Qed.

Lemma loses_weaken tid n m d d' : loses tid n d d' → n <= m → loses tid m d d'.
Proof. intros Hl Hn Hu. destruct (Hl Hu). split; [done|lia]. Qed.

(** One revocation of the loop. *)
Lemma revoke_extra_loses tid t u a desired acc c w now :
  w_txnow w = Some now →
  wp (revoke_extra t u a desired acc c)
     (λ _ w', loses tid (cost tid t desired c) (w_db w) (w_db w') ∧ w_txnow w' = Some now) w.
Proof.
  intros Ht. unfold revoke_extra. destruct (contains c desired) eqn:Ec.
  { apply wp_ret. rewrite cost_kept by done. by split. }
  pose proof (cost_revoked tid t _ _ Ec) as Hcost. pose proof (cost_nonneg tid t desired c) as Hnn.
  unfold RoleRepo.Revoke. repeat wp_step. unfold now_in. rewrite Ht.
  destruct (negb (role_known c)) eqn:Ek; [simpl; split; [by apply (loses_weaken _ 0)|done]|].
  unfold RoleRepo.roles_update, update_returning. cbn beta iota.
  pose proof (revoke_loses tid t u c now (w_db w)) as Hr. rewrite <- Hcost in Hr.
  destruct (List.map _ _) as [|x l]; repeat wp_step; [by split|].
  eapply wp_mono; [eapply (keeps_tx_publish_loses tid _ _ now); done|].
  intros r w' [Hl Ht'].
  assert (loses tid (cost tid t desired c + 0) (w_db w) (w_db w')) as Hall by (by eapply loses_trans).
  rewrite Z.add_0_r in Hall. destruct r; [by apply wp_ret|done].
Qed.

(** What a list of codes can cost: one, when the owner role is among them. *)
Definition total_cost (tid t : uuid) (desired l : list TenantRoleCode) : Z :=
  if contains RoleTenantOwner l && (negb (contains RoleTenantOwner desired) && (t =? tid)) then 1 else 0.

Lemma total_cost_cons tid t desired c l :
  c ∉ l → total_cost tid t desired (c :: l) = cost tid t desired c + total_cost tid t desired l.
Proof.
  intros Hc. unfold total_cost, cost. generalize (negb (contains RoleTenantOwner desired) && (t =? tid)) as b.
  intros b. destruct (c ==? RoleTenantOwner)%stdpp eqn:E.
  - rewrite bool_eq_true in E. subst. apply contains_false in Hc. rewrite Hc.
    replace (contains RoleTenantOwner (RoleTenantOwner :: l)) with true by (symmetry; apply contains_true; by left).
    simpl. destruct b; lia.
  - rewrite bool_eq_false in E. simpl.
    replace (contains RoleTenantOwner (c :: l)) with (contains RoleTenantOwner l); [done|].
    unfold contains. apply bool_decide_ext. rewrite list.elem_of_cons. naive_solver.
Qed.

(** The whole loop. *)
Lemma revoke_loop_loses tid t u a desired l acc w now :
  w_txnow w = Some now → NoDup l →
  wp (for_fold l acc (revoke_extra t u a desired))
     (λ _ w', loses tid (total_cost tid t desired l) (w_db w) (w_db w')) w.
Proof.
  revert acc w. induction l as [|c l IH]; intros acc w Ht Hnd; simpl.
  { apply wp_ret. reflexivity. }
  apply NoDup_cons in Hnd as [Hc Hnd]. rewrite total_cost_cons by done.
  apply wp_bind. eapply wp_mono; [by eapply (revoke_extra_loses tid)|].
  intros [acc'|e] w1 [Hl Ht1].
  - eapply wp_mono; [by apply IH|]. intros r w2 Hl2. by eapply loses_trans.
  - eapply loses_weaken; [done|]. unfold total_cost. destruct (_ && _); lia.
Qed.

Lemma contains_perm {A} `{EqDecision A} (x : A) l l' : l ≡ₚ l' → contains x l = contains x l'.
Proof. intros E. unfold contains. apply bool_decide_ext. by rewrite E. Qed.

Lemma reconcile_loops_lose tid t u m a ds cs (captured : list TenantRole * list TenantRole) w now :
  w_txnow w = Some now → NoDup cs →
  wp (let! ds' := map_range ds in
      let! granted := for_fold ds' captured.1 (grant_missing t u m a cs) in
      let! cs' := map_range cs in
      let! revoked := for_fold cs' captured.2 (revoke_extra t u a ds) in
      retM ((granted, revoked), tt))
     (λ _ w', loses tid (total_cost tid t ds cs) (w_db w) (w_db w')) w.
Proof.
  intros Ht Hnd. apply wp_bind, wp_map_range. intros ds' _. apply wp_bind.
  eapply wp_mono; [by apply (grant_loop_loses tid)|].
  intros [granted|e] w1 [Hl1 Ht1].
  2: { eapply loses_weaken; [done|]. unfold total_cost. destruct (_ && _); lia. }
  apply wp_bind, wp_map_range. intros cs' Hcs. apply wp_bind.
  eapply wp_mono; [apply (revoke_loop_loses tid _ _ _ _ _ _ _ now Ht1); by rewrite Hcs|].
  intros r w2. unfold total_cost. rewrite (contains_perm _ _ _ Hcs). fold (total_cost tid t ds cs). intros Hl2.
  assert (loses tid (total_cost tid t ds cs) (w_db w) (w_db w2)) by exact (loses_trans _ _ _ _ _ _ Hl1 Hl2).
  by destruct r.
Qed.

Lemma reconcile_tx_owned tid t u m a ds cs captured w now :
  w_txnow w = Some now → NoDup cs →
  wp (reconcile_tx t u m a (contains RoleTenantOwner cs && negb (contains RoleTenantOwner ds)) ds cs captured)
     (λ r w', match r with Ok _ => keeps_owned tid (w_db w) (w_db w') | Err _ => True end) w.
Proof.
  intros Ht Hnd. unfold reconcile_tx. apply wp_bind.
  pose proof (reconcile_loops_lose tid t u m a ds cs captured w now Ht Hnd) as Hloops.
  destruct (contains RoleTenantOwner cs && negb (contains RoleTenantOwner ds)) eqn:Es.
  - apply wp_bind, (wp_LockByID _ now); [done|]. destruct (_ =? 0); [done|].
    apply (wp_guardLastOwner _ _ now); [done|]. destruct (owners t (w_db w) <=? 1) eqn:El; [done|].
    apply Z.leb_gt in El. eapply wp_mono; [exact Hloops|]. intros [x|e] w' Hl; [|done].
    unfold total_cost in Hl. rewrite andb_assoc, Es in Hl. simpl in Hl.
    destruct (t =? tid) eqn:Et; [|by apply loses0_owned].
    apply Z.eqb_eq in Et as ->. apply (loses_owned _ 1); [done|lia].
  - apply wp_ret. eapply wp_mono; [exact Hloops|]. intros [x|e] w' Hl; [|done].
    unfold total_cost in Hl. rewrite andb_assoc, Es in Hl. by apply loses0_owned.
Qed.

End owner_bodies.

Section member_theorems.
  Context `{Env}.

Lemma wp_RemoveUser tid uid actor (Q : result error unit → World → Prop) w :
  codec_schemas → roles_typed (w_db w) → alone w → uq_live_member (w_db w) →
  match remove_verdict tid uid w with
  | Some s => ∀ e w', errors_Is e s = true → w_db w' = w_db w → Q (Err e) w'
  | None => ∀ w', w_db w' = removal tid uid actor (w_clock w) (w_db w) → Q (Ok tt) w'
  end → wp (RemoveUser tid uid actor) Q w.
Proof.
  intros Hc Hty Ha Huq HQ. unfold RemoveUser. unfold remove_verdict in HQ.
  apply wp_bind, wp_workflowGate. intros w1 Hd1 Hf1.
  destruct (workflow_veto tid uid w) as [s|]; [by intros e He; apply HQ|].
  pose proof (alone_flows _ _ Ha Hf1) as Ha1.
  apply wp_bind, wp_RunInTx_alone; [done|].
  apply (wp_remove_tx _ _ _ (w_clock w1)); [done|simpl; by rewrite Hd1|done|simpl; by rewrite Hd1|]. simpl.
  rewrite Hd1. destruct (remove_refusal tid uid (w_db w)) as [e|] eqn:Er.
  - split; [by eapply remove_refusal_retryable|]. rewrite (remove_refusal_wrap _ _ _ _ Er).
    unfold remove_refusal in Er. repeat case_match; simplify_eq; by apply HQ.
  - unfold remove_refusal in Er.
    destruct (negb (exists_row (t_is_live tid) _)); [done|].
    destruct (negb (exists_row (tm_of tid uid) _)); [done|]. destruct (_ && _); [done|].
    apply wp_bind, (wp_quiet _ _ _ (quiet_invalidateMember _ _)). intros w2 Hd2 _.
    apply (wp_quiet _ _ _ (quiet_revokeSessions _ _)). intros w3 Hd3 _.
    apply HQ. rewrite Hd3, Hd2. simpl. by destruct Hf1 as (_ & _ & ->).
Qed.

(** C9: [RemoveUser] (P-8) on every branch, with nothing else running.  It is
    refused, with nothing changed, when the Workflow Service cannot be asked or
    reports active workflows, when the tenant is gone, when the user is not a
    member, and when the user holds the only owner grant left (the grants of
    suspended members count as well); otherwise it succeeds, and the user has
    no live membership, role or department row in the tenant, every other
    user's rows and the other tables are untouched, and the outbox has exactly
    one event per revoked role and department and one for the membership. *)
Theorem RemoveUser_spec tid uid actor w r w' :
  codec_schemas → roles_typed (w_db w) → alone w → uq_live_member (w_db w) →
  RemoveUser tid uid actor w = (r, w') →
  match remove_verdict tid uid w with
  | Some s => ∃ e, r = Err e ∧ errors_Is e s = true ∧ w_db w' = w_db w
  | None => r = Ok tt ∧ user_removed tid uid actor (w_db w) (w_db w')
  end.
Proof.
  intros Hc Hty Ha Huq E. revert r w' E. apply wp_intro, wp_RemoveUser; [done..|].
  destruct (remove_verdict tid uid w) as [s|]; [by eauto|].
  intros w' ->. split; [done|]. apply removal_user_removed.
Qed.

Lemma keeps_workflowGate R `{!PreOrder R} t u : keeps R (workflowGate t u).
Proof. unfold workflowGate. keeps_auto. Qed.

Lemma keeps_invalidateMember R `{!PreOrder R} t u : keeps R (invalidateMember t u).
Proof. by apply keeps_evict. Qed.

Lemma keeps_revokeSessions R `{!PreOrder R} t u : keeps R (revokeSessions t u).
Proof. unfold revokeSessions. keeps_auto. Qed.

Lemma keeps_isServiceAccountOrDegrade R `{!PreOrder R} t u : keeps R (isServiceAccountOrDegrade t u).
Proof. unfold isServiceAccountOrDegrade. keeps_auto. Qed.

Lemma keeps_suspendAdvisory R `{!PreOrder R} t u : keeps R (suspendAdvisory t u).
Proof. unfold suspendAdvisory. keeps_auto. Qed.

#[local] Hint Resolve keeps_workflowGate keeps_invalidateMember keeps_revokeSessions
  keeps_isServiceAccountOrDegrade keeps_suspendAdvisory : keeps.

Lemma keeps_validate_desired R `{!PreOrder R} l : keeps R (validate_desired l).
Proof. unfold validate_desired. keeps_auto. Qed.

Lemma keeps_guardLastOwner R `{!PreOrder R} t msg : keeps R (guardLastOwner t msg).
Proof. unfold guardLastOwner. keeps_auto. Qed.

Lemma keeps_RemoveUser_owned tid t u a : keeps (keeps_owned tid) (RemoveUser t u a).
Proof.
  unfold RemoveUser. apply keeps_bind; [apply _|by apply keeps_workflowGate, _|intros _].
  apply keeps_bind; [apply _| |intros _; keeps_auto].
  apply keeps_RunInTx_committed; [apply _|apply steady_remove_tx|]. intros w now. apply remove_tx_owned.
Qed.

Lemma keeps_ReconcileRoles_owned tid t u desired a : keeps (keeps_owned tid) (ReconcileRoles t u desired a).
Proof.
  unfold ReconcileRoles. apply keeps_bind; [apply _|by apply keeps_isServiceAccountOrDegrade, _|intros sa].
  apply keeps_bind; [apply _|by apply keeps_throw_if, _|intros _].
  apply keeps_bind; [apply _|by apply keeps_validate_desired, _|intros _].
  apply keeps_bind; [apply _|by apply keeps_FindByUserID, _|intros m].
  apply keeps_bind; [apply _|by apply keeps_ListByUser, _|intros current].
  apply keeps_bind; [apply _| |intros _].
  { destruct (_ && _); [by apply keeps_guardLastOwner, _|by apply keeps_ret, _]. }
  apply keeps_bind; [apply _| |].
  - apply keeps_RunInTx_captured_committed; [apply _|intros; apply steady_reconcile_tx|].
    intros c w now Ht. apply (reconcile_tx_owned tid _ _ _ _ _ _ _ _ now Ht), NoDup_remove_dups.
  - intros [[granted revoked] []]. keeps_auto.
Qed.

Lemma keeps_SetStatus_owned tid t u st v : keeps (keeps_owned tid) (SetStatus t u st v).
Proof. unfold SetStatus, guardLastOwner. keeps_auto. Qed.

Lemma suspendAdvisory_ok tid uid (Q : result error (option DelegateImpactAdvisory) → World → Prop) w :
  (∀ a w', w_db w' = w_db w → Q (Ok a) w') → wp (suspendAdvisory tid uid) Q w.
Proof.
  intros HQ. unfold suspendAdvisory. destruct (negb _); [by apply wp_ret, HQ|]. repeat wp_step.
  destruct (wf_GetDelegateImpact _ _ _ _); by apply wp_ret, HQ.
Qed.

Lemma wp_SetStatus tid uid st v (Q : result error SetStatusResult → World → Prop) w :
  alone w → uq_live_member (w_db w) →
  match set_status_refusal tid uid st v (w_db w) with
  | Some e => ∀ w', w_db w' = w_db w → Q (Err e) w'
  | None => ∀ m res w', select_first (tm_of tid uid) (tenant_memberships (w_db w)) = Some m →
      tm_RecordVersion m = v → ssr_Membership res = with_membership (w_clock w) st m →
      w_db w' = status_set tid uid st (w_clock w) (w_db w) → Q (Ok res) w'
  end → wp (SetStatus tid uid st v) Q w.
Proof.
  intros Ha Huq HQ. unfold SetStatus. fold (status_write tid uid st v).
  apply wp_bind, wp_status_write; [done..|].
  destruct (set_status_refusal tid uid st v (w_db w)) as [e|] eqn:Er; [by apply HQ|]. intros m Hm.
  assert (tm_RecordVersion m = v) as Hv.
  { unfold set_status_refusal, status_refusal in Er. destruct (suspend_refusal _ _ _ _); [done|].
    destruct (negb _); [done|]. rewrite Hm in Er. destruct (tm_RecordVersion m =? v) eqn:E; [|done]. by apply Z.eqb_eq. }
  apply wp_bind, (wp_quiet _ _ _ (quiet_invalidateMember _ _)). intros w2 Hd2 _.
  destruct (st ==? MembershipSuspended)%stdpp.
  - apply wp_bind, (wp_quiet _ _ _ (quiet_revokeSessions _ _)). intros w3 Hd3 _.
    apply wp_bind, suspendAdvisory_ok. intros a w4 Hd4. apply wp_ret, (HQ m); [done..|by rewrite Hd4, Hd3, Hd2].
  - by apply wp_ret, (HQ m).
Qed.

(** C11: [SetStatus] (P-7) on every branch.  Suspending the only owner, a
    stale version, a missing member and an unknown status are refused with
    nothing changed; otherwise exactly the member's row gets the status, its
    version advances by one if the status is a new one, and the best-effort
    session revocation and workflow advisory cannot make it fail. *)
Theorem SetStatus_spec tid uid st v w r w' :
  alone w → uq_live_member (w_db w) → SetStatus tid uid st v w = (r, w') →
  match set_status_refusal tid uid st v (w_db w) with
  | Some e => r = Err e ∧ w_db w' = w_db w
  | None => ∃ m res, select_first (tm_of tid uid) (tenant_memberships (w_db w)) = Some m ∧
      r = Ok res ∧ ssr_Membership res = with_membership (w_clock w) st m ∧
      tm_RecordVersion (ssr_Membership res) = (if decide (tm_Status m = st) then v else v + 1) ∧
      w_db w' = status_set tid uid st (w_clock w) (w_db w)
  end.
Proof.
  intros Ha Huq E. revert r w' E. apply wp_intro, wp_SetStatus; [done..|].
  destruct (set_status_refusal tid uid st v (w_db w)) as [e|]; [done|].
  intros m res w' Hm Hv Hres Hd. exists m, res. split_and!; [done..| |done].
  by rewrite Hres, with_membership_version, Hv.
Qed.

(** ** Owners who are active *)

(** A live owner grant whose holder is an active member. *)
Definition active_owner (tid : uuid) (d : DB) (r : TenantRole) : bool :=
  RoleRepo.is_owner_grant tid r
  && exists_row (λ m, tm_of tid (tr_UserID r) m && (tm_Status m ==? MembershipActive)%stdpp) (tenant_memberships d).

Definition active_owners (tid : uuid) (d : DB) : list uuid :=
  tr_UserID <$> select (active_owner tid d) (tenant_roles d).

(** Nobody but [uid] was an active owner, no grant is new, and [uid] is no
    longer active. *)
Lemma no_active_owner tid uid d d' :
  active_owners tid d = [uid] →
  (∀ r, r ∈ tenant_roles d' → RoleRepo.is_owner_grant tid r = true → r ∈ tenant_roles d) →
  (∀ u m, m ∈ tenant_memberships d' → tm_of tid u m = true → tm_Status m = MembershipActive →
     m ∈ tenant_memberships d ∧ u ≠ uid) →
  active_owners tid d' = [].
Proof.
  intros Ha Hr Hm. unfold active_owners. rewrite select_none; [done|]. intros r Hin.
  apply not_true_is_false. intros [Ho (m & Hmin & [Hof Hst]%andb_true_iff)%exists_row_true]%andb_true_iff.
  rewrite bool_eq_true in Hst. destruct (Hm _ m Hmin Hof Hst) as [Hmin' Hne].
  assert (tr_UserID r ∈ active_owners tid d) as Hact.
  { apply list_elem_of_fmap_2, elem_of_select. split; [by apply Hr|]. apply andb_true_iff. split; [done|].
    apply exists_row_true. exists m. by rewrite Hof, Hst, bool_eq_refl. }
  rewrite Ha in Hact. by apply list_elem_of_singleton in Hact.
Qed.

(** What becomes of the member's rows: moved out of [MembershipActive]. *)
Lemma deactivated tid uid (f : TenantMembership → TenantMembership) l u m :
  (∀ x, tm_of tid uid x = true → tm_UserID (f x) = uid) →
  (∀ x, tm_of tid uid x = true → tm_live (f x) = true → tm_Status (f x) ≠ MembershipActive) →
  m ∈ update_where (tm_of tid uid) f l → tm_of tid u m = true → tm_Status m = MembershipActive →
  m ∈ l ∧ u ≠ uid.
Proof.
  intros Hu Hs (x & Hx & ->)%elem_of_update_where. destruct (tm_of tid uid x) eqn:E.
  - intros (_ & _ & Hl)%tm_of_split Hst. by destruct (Hs x E Hl).
  - intros Hof _. split; [done|]. intros ->. congruence.
Qed.

Lemma suspend_allowed tid uid d :
  exists_row (t_is_live tid) (tenants d) = true → (owners tid d <=? 1) = false →
  suspend_refusal tid uid MembershipSuspended d = None.
Proof. intros Ht Hn. unfold suspend_refusal. rewrite Ht, Hn. by destruct (_ && _). Qed.

(** C13: the guard of P-7 and P-8 counts owner grants, not owners who are
    active.  With nothing else running, the only active owner of a live tenant
    in which some other member, suspended, still holds an owner grant can be
    suspended, and can be removed when no workflow needs them: each leaves the
    tenant without an active owner. *)
Theorem last_active_owner_leaves tid uid actor m w :
  codec_schemas → roles_typed (w_db w) → alone w → uq_live_member (w_db w) →
  exists_row (t_is_live tid) (tenants (w_db w)) = true →
  select_first (tm_of tid uid) (tenant_memberships (w_db w)) = Some m →
  active_owners tid (w_db w) = [uid] → 1 < owners tid (w_db w) →
  (∃ res w', SetStatus tid uid MembershipSuspended (tm_RecordVersion m) w = (Ok res, w') ∧
     active_owners tid (w_db w') = []) ∧
  (workflow_veto tid uid w = None →
   ∃ w', RemoveUser tid uid actor w = (Ok tt, w') ∧ active_owners tid (w_db w') = []).
Proof.
  intros Hc Hty Ha Huq Ht Hm Hact Hn. apply Z.leb_gt in Hn. split.
  - destruct (SetStatus _ _ _ _ w) as [r w'] eqn:E. revert r w' E. apply wp_intro, wp_SetStatus; [done..|].
    unfold set_status_refusal, status_refusal. rewrite suspend_allowed, Hm, Z.eqb_refl by done. simpl.
    intros m' res w' _ _ _ Hd. exists res, w'. split; [done|]. rewrite Hd.
    apply (no_active_owner tid uid (w_db w)); [done..|]. intros u x. simpl. apply deactivated.
    + intros y (_ & <- & _)%tm_of_split. unfold with_membership. by rewrite (touched_column tm_UserID) by done.
    + intros y _ _. unfold with_membership. by rewrite (touched_column tm_Status) by done.
  - intros Hv. destruct (RemoveUser _ _ _ w) as [r w'] eqn:E. revert r w' E. apply wp_intro, wp_RemoveUser; [done..|].
    unfold remove_verdict. rewrite Hv, Ht, exists_row_first, Hm, Hn, andb_false_r. simpl.
    intros w' Hd. exists w'. split; [done|]. rewrite Hd. apply (no_active_owner tid uid (w_db w)); [done|..]; simpl.
    + intros r (x & Hx & ->)%elem_of_update_where. destruct (tr_of tid uid x); [|done].
      by rewrite owner_live by apply role_deleted_live.
    + intros u x. apply deactivated.
      * intros y (_ & <- & _)%tm_of_split. unfold member_left. by rewrite (touched_column tm_UserID) by done.
      * intros y _ Hl. by rewrite member_left_live in Hl.
Qed.

End member_theorems.
