(* ===== verification/RolesSpec.v ===== *)
(** * RolesSpec: reconciling a member's roles

    [ReconcileRoles] (P-28) replaces a member's elevated roles by the desired
    set.  The two loops over Go maps run in an unspecified order; the theorem
    holds for each. *)

From S2P Require Import Prelude Domain Schema Tx Wp.
From S2P Require Import MembershipRepo RoleRepo DeptMembershipRepo InvitationRepo TenantRepo CacheKeys MembershipService.
From S2P Require Import MembershipSpec.

(** ** Vocabulary *)

(** The user holds the role, live. *)
Definition holds (tid uid : uuid) (d : DB) (c : TenantRoleCode) : bool :=
  exists_row (RoleRepo.tr_grant tid uid c) (tenant_roles d).

(** [uuid.New()] gives ids not seen before (documented behaviour of version-4
    uuids). *)
Definition fresh_ids `{Env} (w : World) : Prop :=
  ∀ n, (w_uuids w <= n)%nat → ∀ r, r ∈ tenant_roles (w_db w) → tr_ID r ≠ uuid_New n.
Definition distinct_uuids `{Env} : Prop := ∀ n m, uuid_New n = uuid_New m → n = m.

(** What one user's role changes leave alone. *)
Record role_frame (tid uid : uuid) (d d' : DB) : Prop := {
  rf_others : ∀ t u, (t, u) ≠ (tid, uid) →
    select (tr_of t u) (tenant_roles d') = select (tr_of t u) (tenant_roles d);
  rf_uq : uq_live_role d → uq_live_role d';
  rf_rest : tenants d' = tenants d ∧ tenant_memberships d' = tenant_memberships d ∧
    tenant_departments d' = tenant_departments d ∧ dept_memberships d' = dept_memberships d ∧
    dept_role_labels d' = dept_role_labels d ∧ pending_invitations d' = pending_invitations d
}.

#[export] Instance role_frame_preorder tid uid : PreOrder (role_frame tid uid).
Proof.
  split; [by intros d; split|]. intros x y z [H1 H2 H3] [H4 H5 H6]. split; [|by auto|].
  - intros t u Hne. by rewrite H4, H1.
  - destruct H3 as (?&?&?&?&?&?), H6 as (?&?&?&?&?&?). split_and!; congruence.
Qed.

(** The codes in [changes] are switched to [b], with one event each. *)
Record switched `{Env} (tid uid : uuid) (b : bool) (ev : TenantRoleCode → DomainEvent)
    (changes : list TenantRoleCode) (w w' : World) : Prop := {
  sw_holds : ∀ c, holds tid uid (w_db w') c = if contains c changes then b else holds tid uid (w_db w) c;
  sw_frame : role_frame tid uid (w_db w) (w_db w');
  sw_outbox : outbox_events (w_db w') = outbox_events (w_db w) ++ emitted (ev <$> changes);
  sw_fresh : distinct_uuids → fresh_ids w → fresh_ids w';
  sw_tx : w_txnow w' = w_txnow w ∧ w_clock w' = w_clock w ∧ w_sched w' = w_sched w
}.

Lemma emitted_nil `{Env} : emitted [] = [].
Proof. unfold emitted. by destruct has_publisher. Qed.

Lemma switched_refl `{Env} tid uid b ev w : switched tid uid b ev [] w w.
Proof. split; try done. by rewrite emitted_nil, app_nil_r. Qed.

Lemma contains_cons {A} `{EqDecision A} (x y : A) l : contains x (y :: l) = (x ==? y)%stdpp || contains x l.
Proof.
  unfold contains, bool_eq. apply eq_bool_prop_intro. rewrite orb_True, !bool_decide_spec.
  apply list.elem_of_cons.
Qed.

Lemma contains_app {A} `{EqDecision A} (x : A) l l' : contains x (l ++ l') = contains x l || contains x l'.
Proof.
  induction l as [|y l IH]; [done|]. simpl. by rewrite !contains_cons, IH, orb_assoc.
Qed.

Lemma switched_app `{Env} tid uid b ev l1 l2 w1 w2 w3 :
  switched tid uid b ev l1 w1 w2 → switched tid uid b ev l2 w2 w3 → switched tid uid b ev (l1 ++ l2) w1 w3.
Proof.
  intros [H1 F1 O1 R1 T1] [H2 F2 O2 R2 T2]. split.
  - intros c. rewrite H2, H1, contains_app. by destruct (contains c l1), (contains c l2).
  - by transitivity (w_db w2).
  - by rewrite O2, O1, fmap_app, emitted_app, app_assoc.
  - auto.
  - destruct T1 as (?&?&?), T2 as (?&?&?). split_and!; congruence.
Qed.

Lemma elevated_known c : IsElevated c = true → role_known c = true.
Proof. by destruct c. Qed.

Section reconcile.
  Context `{Env} (Hcodec : codec_schemas) (tid uid mid actor : uuid).

Definition granted_event (c : TenantRoleCode) : DomainEvent :=
  user_event EventTenantRoleGranted tid uid actor (TenantRoleGrantedPayload uid tid c actor).
Definition revoked_event (c : TenantRoleCode) : DomainEvent :=
  user_event EventTenantRoleRevoked tid uid actor (TenantRoleRevokedPayload uid tid c actor).

(** The row a grant inserts. *)
Definition granted_row (id : uuid) (c : TenantRoleCode) (now : time) : TenantRole :=
  mkTenantRole id tid uid mid c actor 1 now now None.

Lemma granted_row_grant id c now t u x :
  RoleRepo.tr_grant t u x (granted_row id c now) = (tid =? t) && (uid =? u) && (c ==? x)%stdpp.
Proof. unfold RoleRepo.tr_grant, tr_of. simpl. by rewrite andb_true_r. Qed.

(** The foreign keys of a grant hold. *)
Definition refs_ok (d : DB) : Prop :=
  exists_row (t_is tid) (tenants d) = true ∧
  exists_row (λ m, (tm_ID m =? mid) && (tm_TenantID m =? tid) && (tm_UserID m =? uid)) (tenant_memberships d) = true.

Lemma refs_ok_frame d d' : role_frame tid uid d d' → refs_ok d → refs_ok d'.
Proof. intros [_ _ (Ht & Hm & _)]. unfold refs_ok. by rewrite Ht, Hm. Qed.

Lemma insert_role_fresh id c now d :
  IsElevated c = true → holds tid uid d c = false → refs_ok d →
  (∀ r, r ∈ tenant_roles d → tr_ID r ≠ id) →
  RoleRepo.insert_role id tid uid mid c actor now d =
  Ok (Some (granted_row id c now), set_tenant_roles (tenant_roles d ++ [granted_row id c now]) d).
Proof.
  intros He Hh [Ht Hm] Hid. unfold RoleRepo.insert_role, holds in *.
  rewrite elevated_known by done. simpl.
  replace (c ==? RoleMember)%stdpp with false by (by destruct c).
  rewrite Hh. replace (exists_row (λ r, tr_ID r =? id) (tenant_roles d)) with false.
  2: { symmetry. apply exists_row_false. intros r Hr. by apply Z.eqb_neq, Hid. }
  unfold fk_tenant, fk_membership. by rewrite Ht, Hm.
Qed.

(** One grant. *)
Lemma granted_switched id c now w evs :
  holds tid uid (w_db w) c = false → uuid_New (w_uuids w) = id →
  evs = emitted [granted_event c] →
  switched tid uid true granted_event [c] w
    (set_w_db (enqueued evs (set_tenant_roles (tenant_roles (w_db w) ++ [granted_row id c now]) (w_db w)))
       (set_w_uuids (S (w_uuids w)) w)).
Proof.
  intros Hh <- ->. split; simpl.
  - intros x. rewrite contains_cons. unfold contains. simpl. rewrite orb_false_r. unfold holds at 1. simpl.
    unfold exists_row. rewrite List.existsb_app. simpl. rewrite granted_row_grant, !Z.eqb_refl, orb_false_r. simpl.
    destruct (x ==? c)%stdpp eqn:E.
    + rewrite bool_eq_true in E. subst. by rewrite bool_eq_refl, orb_true_r.
    + replace (c ==? x)%stdpp with false; [by rewrite orb_false_r|].
      symmetry. apply bool_eq_false. apply bool_eq_false in E. congruence.
  - split; simpl; [| |done].
    + intros t u Hne. rewrite select_app. simpl. unfold tr_of at 2. simpl. rewrite andb_true_r.
      destruct ((tid =? t) && (uid =? u)) eqn:E; [|apply app_nil_r].
      apply andb_true_iff in E as [->%Z.eqb_eq ->%Z.eqb_eq]. done.
    + intros Hu t u x. simpl. rewrite count_app, count_cons, granted_row_grant.
      destruct ((tid =? t) && (uid =? u) && (c ==? x)%stdpp) eqn:E.
      * apply andb_true_iff in E as [[->%Z.eqb_eq ->%Z.eqb_eq]%andb_true_iff E]. rewrite bool_eq_true in E. subst.
        pose proof (count_eqb_0 (RoleRepo.tr_grant t u x) (tenant_roles (w_db w))) as E0.
        unfold holds in Hh. rewrite Hh in E0. apply Z.eqb_eq in E0. rewrite E0. by unfold count.
      * specialize (Hu t u x). change (count _ []) with 0. lia.
  - done.
  - intros Hd Hf n Hn r Hr. simpl in *. apply elem_of_app in Hr as [Hr|Hr].
    + apply (Hf n); [lia|done].
    + apply list_elem_of_singleton in Hr as ->. simpl. intros E%Hd. lia.
  - done.
Qed.

Lemma wp_grant_missing cur acc c now w (Q : result error (list TenantRole) → World → Prop) :
  w_txnow w = Some now → IsElevated c = true → refs_ok (w_db w) → fresh_ids w → 
  (contains c cur = false → holds tid uid (w_db w) c = false) →
  (if contains c cur then Q (Ok acc) w
   else ∀ row w', tr_RoleCode row = c → switched tid uid true granted_event [c] w w' → Q (Ok (acc ++ [row])) w') →
  wp (grant_missing tid uid mid actor cur acc c) Q w.
Proof.
  intros Ht He Hrefs Hfresh Hh HQ. unfold grant_missing. destruct (contains c cur); [by apply wp_ret|].
  specialize (Hh eq_refl). unfold RoleRepo.Grant, id_or_new. rewrite Z.eqb_refl.
  apply wp_bind, wp_bind, wp_new_uuid. eapply (wp_in_tx now); [done|].
  apply wp_bind, wp_sql. unfold now_in. simpl. rewrite Ht.
  rewrite insert_role_fresh; [|done..|intros r Hr; apply Hfresh; [lia|done]].
  apply wp_ret. simpl. apply wp_bind, (wp_publish Hcodec _ _ now); [done|exact He|]. apply wp_ret. simpl.
  apply HQ; [done|]. exact (granted_switched _ c now w _ Hh eq_refl eq_refl).
Qed.
(** The loop over the desired codes. *)
Lemma wp_grant_loop cur l acc now w (Q : result error (list TenantRole) → World → Prop) :
  distinct_uuids → w_txnow w = Some now → Forall (λ c, IsElevated c = true) l → NoDup l →
  refs_ok (w_db w) → fresh_ids w →
  (∀ c, c ∈ l → contains c cur = false → holds tid uid (w_db w) c = false) →
  (∀ rows w', tr_RoleCode <$> rows = select (λ c, negb (contains c cur)) l →
     switched tid uid true granted_event (select (λ c, negb (contains c cur)) l) w w' → Q (Ok (acc ++ rows)) w') →
  wp (for_fold l acc (grant_missing tid uid mid actor cur)) Q w.
Proof.
  intros Hd. revert acc w. induction l as [|c l IH]; intros acc w Ht Hel Hnd Hrefs Hf Hh HQ; simpl.
  { apply wp_ret. specialize (HQ [] w eq_refl (switched_refl _ _ _ _ _)). by rewrite app_nil_r in HQ. }
  apply Forall_cons in Hel as [Hc Hel]. apply NoDup_cons in Hnd as [Hnc Hnd].
  apply wp_bind, (wp_grant_missing _ _ _ now); [done..|apply Hh; by left|].
  simpl in HQ. destruct (contains c cur) eqn:Ec; simpl in HQ.
  { apply IH; [done..|intros x Hx; apply Hh; by right|done]. }
  intros row w1 Hrow Hsw. destruct (Hsw) as [S1 S2 S3 S4 (S5 & S6 & S7)].
  apply IH; [congruence|done|done|by eapply refs_ok_frame|by apply S4| |].
  - intros x Hx Hxc. rewrite S1. replace (contains x [c]) with false; [apply Hh; [by right|done]|].
    symmetry. apply contains_false. rewrite list_elem_of_singleton. by intros ->.
  - intros rows w' Hrows Hsw'. rewrite <- app_assoc. apply HQ; [by rewrite fmap_app, Hrows; simpl; rewrite Hrow|].
    exact (switched_app _ _ _ _ [c] _ _ _ _ Hsw Hsw').
Qed.

(** Soft-deleting a grant switches it off. *)
Lemma revoked_switched c now w evs :
  evs = emitted [revoked_event c] →
  switched tid uid false revoked_event [c] w
    (set_w_db (enqueued evs (set_tenant_roles
       (update_where (RoleRepo.tr_grant tid uid c) (role_deleted now) (tenant_roles (w_db w))) (w_db w))) w).
Proof.
  intros ->. split; simpl.
  - intros x. rewrite contains_cons. unfold contains. simpl. rewrite orb_false_r.
    unfold holds. rewrite !exists_row_first. simpl.
    rewrite <- !exists_row_first, !exists_row_select. rewrite select_update_out
      by (intros r _; apply grant_live, role_deleted_live).
    destruct (x ==? c)%stdpp eqn:E.
    + rewrite bool_eq_true in E. subst. by rewrite select_none by (intros; apply andb_negb_r).
    + f_equal. f_equal. f_equal. apply select_ext. intros r _.
      destruct (RoleRepo.tr_grant tid uid x r) eqn:E1; [|done]. simpl. apply negb_true_iff, not_true_is_false.
      unfold RoleRepo.tr_grant in *. intros [_ E2]%andb_true_iff. apply andb_true_iff in E1 as [_ E1].
      rewrite bool_eq_true in E1, E2. apply bool_eq_false in E. congruence.
  - split; [|by apply uq_live_role_deleted|done]. simpl. intros t u Hne.
    apply select_update_where_disjoint. intros r Hr. split.
    + apply not_true_is_false. rewrite tr_of_split. intros (? & ? & _).
      apply andb_true_iff in Hr as [(? & ? & _)%tr_of_split _]. congruence.
    + unfold tr_of. by rewrite role_deleted_live, andb_false_r.
  - done.
  - intros _ Hf n Hn r Hr. simpl in *. apply elem_of_update_where in Hr as (r0 & Hr0 & ->).
    destruct (RoleRepo.tr_grant tid uid c r0); [|by apply Hf].
    unfold role_deleted. rewrite (touched_column tr_ID) by done. exact (Hf n Hn r0 Hr0).
  - done.
Qed.

Lemma wp_revoke_extra ds acc c now w (Q : result error (list TenantRole) → World → Prop) :
  w_txnow w = Some now → IsElevated c = true →
  (contains c ds = false → holds tid uid (w_db w) c = true) →
  (if contains c ds then Q (Ok acc) w
   else ∀ row w', tr_RoleCode row = c → switched tid uid false revoked_event [c] w w' → Q (Ok (acc ++ [row])) w') →
  wp (revoke_extra tid uid actor ds acc c) Q w.
Proof.
  intros Ht He Hh HQ. pose proof (elevated_known _ He) as Hk. unfold revoke_extra. destruct (contains c ds); [by apply wp_ret|].
  specialize (Hh eq_refl). unfold RoleRepo.Revoke. apply wp_bind. eapply (wp_in_tx now); [done|].
  apply wp_bind, wp_sql. unfold now_in. rewrite Ht, Hk. simpl. unfold RoleRepo.roles_update, update_returning.
  unfold holds in Hh. rewrite exists_row_select in Hh.
  destruct (select (RoleRepo.tr_grant tid uid c) (tenant_roles (w_db w))) as [|r l] eqn:Es; [done|].
  simpl. apply wp_ret. simpl. apply wp_bind, (wp_publish Hcodec _ _ now); [done|exact He|]. apply wp_ret.
  apply HQ; [|exact (revoked_switched c now w _ eq_refl)].
  assert (r ∈ select (RoleRepo.tr_grant tid uid c) (tenant_roles (w_db w))) as Hin by (rewrite Es; by left).
  apply elem_of_select in Hin as [_ [_ Hc]%andb_true_iff]. rewrite bool_eq_true in Hc.
  rewrite (touched_column tr_RoleCode); done.
Qed.

(** The loop over the current codes. *)
Lemma wp_revoke_loop ds l acc now w (Q : result error (list TenantRole) → World → Prop) :
  w_txnow w = Some now → Forall (λ c, IsElevated c = true) l → NoDup l →
  (∀ c, c ∈ l → contains c ds = false → holds tid uid (w_db w) c = true) →
  (∀ rows w', tr_RoleCode <$> rows = select (λ c, negb (contains c ds)) l →
     switched tid uid false revoked_event (select (λ c, negb (contains c ds)) l) w w' → Q (Ok (acc ++ rows)) w') →
  wp (for_fold l acc (revoke_extra tid uid actor ds)) Q w.
Proof.
  revert acc w. induction l as [|c l IH]; intros acc w Ht Hel Hnd Hh HQ; simpl.
  { apply wp_ret. specialize (HQ [] w eq_refl (switched_refl _ _ _ _ _)). by rewrite app_nil_r in HQ. }
  apply Forall_cons in Hel as [Hc Hel]. apply NoDup_cons in Hnd as [Hnc Hnd].
  apply wp_bind, (wp_revoke_extra _ _ _ now); [done..|apply Hh; by left|].
  simpl in HQ. destruct (contains c ds) eqn:Ec; simpl in HQ.
  { apply IH; [done..|intros x Hx; apply Hh; by right|done]. }
  intros row w1 Hrow Hsw. destruct (Hsw) as [S1 S2 S3 S4 (S5 & S6 & S7)].
  apply IH; [congruence|done|done| |].
  - intros x Hx Hxc. rewrite S1. replace (contains x [c]) with false; [apply Hh; [by right|done]|].
    symmetry. apply contains_false. rewrite list_elem_of_singleton. by intros ->.
  - intros rows w' Hrows Hsw'. rewrite <- app_assoc. apply HQ; [by rewrite fmap_app, Hrows; simpl; rewrite Hrow|].
    exact (switched_app _ _ _ _ [c] _ _ _ _ Hsw Hsw').
Qed.
End reconcile.

(** ** The operation *)

(** The codes [ReconcileRoles] finds. *)
Definition current_codes (tid uid : uuid) (d : DB) : list TenantRoleCode :=
  remove_dups (List.map tr_RoleCode (roles_of tid uid d)).

Lemma current_codes_holds tid uid d c : contains c (current_codes tid uid d) = holds tid uid d c.
Proof.
  unfold current_codes, holds. apply eq_bool_prop_intro. rewrite !Is_true_true, contains_true, exists_row_true.
  rewrite elem_of_remove_dups, list_elem_of_In, List.in_map_iff. split.
  - intros (r & <- & Hr). rewrite <- list_elem_of_In in Hr. unfold roles_of, sort_by in Hr.
    rewrite elem_of_isort, elem_of_select in Hr. exists r. split; [tauto|].
    unfold RoleRepo.tr_grant. rewrite bool_eq_refl. by destruct Hr as [_ ->].
  - intros (r & Hr & [Hof Hc]%andb_true_iff). rewrite bool_eq_true in Hc. exists r. split; [done|].
    rewrite <- list_elem_of_In. unfold roles_of, sort_by. by rewrite elem_of_isort, elem_of_select.
Qed.

Lemma current_codes_elevated tid uid d :
  roles_typed d → Forall (λ c, IsElevated c = true) (current_codes tid uid d).
Proof.
  intros Ht. apply Forall_forall. intros c Hc%contains_true. rewrite current_codes_holds in Hc.
  apply exists_row_true in Hc as (r & Hr & [_ Hc]%andb_true_iff). rewrite bool_eq_true in Hc.
  specialize (Ht r Hr). by rewrite Hc in Ht.
Qed.

Section operation.
  Context `{Env} (tid uid actor : uuid) (desired : list TenantRoleCode).

(** The Token Service's answer, or the reserved principals. *)
Definition service_account (w : World) : bool :=
  IsReservedSystemPrincipal uid ||
  (has_tokenService && match ts_IsServiceAccount (length (w_calls w)) tid uid with Ok b => b | Err _ => false end).

(** The owner role would be taken away. *)
Definition stripping (d : DB) : bool :=
  holds tid uid d RoleTenantOwner && negb (contains RoleTenantOwner desired).

Definition reconcile_refusal (w : World) : option sentinel :=
  let d := w_db w in
  if service_account w then Some ErrServiceAccountNotGrantable
  else if negb (forallb IsElevated desired) then Some ErrInvalidRole
  else if negb (exists_row (tm_of tid uid) (tenant_memberships d)) then Some ErrMemberNotFound
  else if stripping d then
    if owners tid d <=? 1 then Some ErrLastOwnerRemoval
    else if negb (exists_row (t_is_live tid) (tenants d)) then Some ErrTenantNotFound else None
  else None.

(** The roles are the desired ones, and the answer and the outbox say what
    changed. *)
Record reconciled (granted revoked : list TenantRole) (d d' : DB) : Prop := {
  rc_roles : ∀ c, holds tid uid d' c = contains c desired;
  rc_frame : role_frame tid uid d d';
  rc_granted : NoDup (tr_RoleCode <$> granted) ∧
    ∀ c, c ∈ (tr_RoleCode <$> granted) ↔ (c ∈ desired ∧ holds tid uid d c = false);
  rc_revoked : NoDup (tr_RoleCode <$> revoked) ∧
    ∀ c, c ∈ (tr_RoleCode <$> revoked) ↔ ((c ∉ desired) ∧ holds tid uid d c = true);
  rc_outbox : outbox_events d' = outbox_events d ++
    emitted ((granted_event tid uid actor <$> (tr_RoleCode <$> granted))
             ++ (revoked_event tid uid actor <$> (tr_RoleCode <$> revoked)))
}.

Lemma contains_remove_dups c : contains c (remove_dups desired) = contains c desired.
Proof. unfold contains. apply bool_decide_ext. apply elem_of_remove_dups. Qed.

(** Codes that differ, in whatever order the maps are walked. *)
Lemma picked_codes (p : TenantRoleCode → bool) (rows : list TenantRole) l base (P : TenantRoleCode → Prop) :
  l ≡ₚ base → NoDup base → tr_RoleCode <$> rows = select p l → (∀ c, (c ∈ base ∧ p c = true) ↔ P c) →
  NoDup (tr_RoleCode <$> rows) ∧ ∀ c, c ∈ (tr_RoleCode <$> rows) ↔ P c.
Proof.
  intros Hl Hnd -> HP. split.
  - unfold select. rewrite <- Hl in Hnd. apply NoDup_ListNoDup, List.NoDup_filter, NoDup_ListNoDup, Hnd.
  - intros c. by rewrite elem_of_select, Hl, HP.
Qed.

Lemma contains_select (p : TenantRoleCode → bool) x l l' :
  l ≡ₚ l' → contains x (select p l) = contains x l' && p x.
Proof.
  intros E. rewrite <- (contains_perm x _ _ E). apply eq_bool_prop_intro.
  rewrite andb_True, !Is_true_true, !contains_true, elem_of_select. done.
Qed.

(** The two loops. *)
Lemma wp_reconcile_loops m now w :
  codec_schemas → distinct_uuids → w_txnow w = Some now → forallb IsElevated desired = true →
  refs_ok tid uid (tm_ID m) (w_db w) → fresh_ids w → roles_typed (w_db w) →
  wp (let! ds' := map_range (remove_dups desired) in
      let! granted := for_fold ds' [] (grant_missing tid uid (tm_ID m) actor (current_codes tid uid (w_db w))) in
      let! cs' := map_range (current_codes tid uid (w_db w)) in
      let! revoked := for_fold cs' [] (revoke_extra tid uid actor (remove_dups desired)) in
      retM ((granted, revoked), tt))
     (λ r w', ∃ granted revoked, r = Ok ((granted, revoked), tt) ∧ reconciled granted revoked (w_db w) (w_db w')) w.
Proof.
  intros Hc Hd Ht Hel Hrefs Hf Hty.
  apply wp_bind, wp_map_range. intros ds' Hds. apply wp_bind.
  apply (wp_grant_loop Hc _ _ _ _ _ _ _ now); [done|done| |rewrite Hds; apply NoDup_remove_dups|done|done| |].
  { rewrite Hds. apply Forall_forall. intros c. rewrite elem_of_remove_dups. intros Hin. rewrite List.forallb_forall in Hel.
    apply Hel. by rewrite <- list_elem_of_In. }
  { intros c _. by rewrite current_codes_holds. }
  intros granted w1 Hg [S1 S2 S3 S4 (S5 & S6 & S7)].
  apply wp_bind, wp_map_range. intros cs' Hcs. apply wp_bind.
  apply (wp_revoke_loop Hc _ _ _ _ _ _ now); [congruence| |rewrite Hcs; apply NoDup_remove_dups| |].
  { rewrite Hcs. by apply current_codes_elevated. }
  { intros c Hin%contains_true Hnd. rewrite (contains_perm _ _ _ Hcs), current_codes_holds in Hin.
    rewrite S1, Hin. by case_match. }
  intros revoked w2 Hr [T1 T2 T3 T4 _]. apply wp_ret. simpl. eexists _, _. split; [done|].
  split.
  - intros c. rewrite T1, S1, (contains_select _ _ _ _ Hcs), (contains_select _ _ _ _ Hds), contains_remove_dups, !current_codes_holds.
    by destruct (holds tid uid (w_db w) c), (contains c desired).
  - by transitivity (w_db w1).
  - apply (picked_codes _ _ _ _ (λ c, c ∈ desired ∧ holds tid uid (w_db w) c = false) Hds (NoDup_remove_dups _) Hg).
    intros c. by rewrite elem_of_remove_dups, negb_true_iff, current_codes_holds.
  - apply (picked_codes _ _ _ _ (λ c, (c ∉ desired) ∧ holds tid uid (w_db w) c = true) Hcs (NoDup_remove_dups _) Hr).
    intros c. rewrite <- (contains_true c), current_codes_holds, negb_true_iff, contains_remove_dups, contains_false.
    tauto.
  - rewrite T3, S3, <- app_assoc, <- emitted_app, Hg, Hr. done.
Qed.
End operation.

(** ** Steps before the transaction *)

Lemma wp_isServiceAccount_calls `{Env} tid uid (Q : result error bool → World → Prop) w :
  (∀ cs, Q (Ok (service_account tid uid w)) (set_w_calls cs w)) →
  wp (isServiceAccountOrDegrade tid uid) Q w.
Proof.
  intros HQ. assert (Q (Ok (service_account tid uid w)) w) as Hw
    by (specialize (HQ (w_calls w)); by destruct w).
  unfold isServiceAccountOrDegrade, service_account in *.
  destruct (IsReservedSystemPrincipal uid); [by apply wp_ret|]. simpl in *.
  destruct has_tokenService; simpl in *; [|by apply wp_ret]. repeat wp_step.
  destruct (ts_IsServiceAccount _ tid uid) as [b|e]; by apply wp_ret, HQ.
Qed.

Lemma wp_isServiceAccount `{Env} tid uid (Q : result error bool → World → Prop) w :
  (∀ w', w_db w' = w_db w → w_uuids w' = w_uuids w → flows w w' → Q (Ok (service_account tid uid w)) w') →
  wp (isServiceAccountOrDegrade tid uid) Q w.
Proof. intros HQ. apply wp_isServiceAccount_calls. intros cs. by apply HQ. Qed.

Lemma wp_validate_desired desired (Q : result error unit → World → Prop) w :
  (if forallb IsElevated desired then Q (Ok tt) w
   else ∀ e, errors_Is e ErrInvalidRole = true → Q (Err e) w) →
  wp (validate_desired desired) Q w.
Proof.
  unfold validate_desired. induction desired as [|c l IH]; simpl; [by apply wp_ret|]. intros HQ.
  apply wp_bind, wp_bind, wp_throw_if. destruct (c ==? RoleMember)%stdpp eqn:E.
  { rewrite bool_eq_true in E. subst. by apply HQ. }
  apply wp_throw_if. destruct (IsElevated c); simpl in *; [by apply IH|by apply HQ].
Qed.

(** A read with nothing else running. *)
Lemma wp_own_FindByUserID tid uid (Q : result error TenantMembership → World → Prop) w :
  alone w →
  match select_first (tm_of tid uid) (tenant_memberships (w_db w)) with
  | Some m => Q (Ok m) w
  | None => Q (Err MembershipRepo.member_not_found) w
  end → wp (MembershipRepo.FindByUserID tid uid) Q w.
Proof.
  intros Ha HQ. apply wp_own_tx; [done|]. apply (wp_FindByUserID _ _ (w_clock w)); [done|]. simpl.
  destruct (select_first _ _); [by rewrite started_stop|by rewrite started_stop_db].
Qed.

Lemma wp_own_ListByUser tid uid (Q : result error (list TenantRole) → World → Prop) w :
  alone w → Q (Ok (roles_of tid uid (w_db w))) w → wp (RoleRepo.ListByUser tid uid) Q w.
Proof.
  intros Ha HQ. apply wp_own_tx; [done|]. apply (wp_ListByUser _ _ (w_clock w)); [done|].
  by rewrite started_stop.
Qed.

Lemma wp_own_guard tid msg (Q : result error unit → World → Prop) w :
  alone w →
  (if owners tid (w_db w) <=? 1 then Q (Err (fail_with ErrLastOwnerRemoval msg)) w else Q (Ok tt) w) →
  wp (guardLastOwner tid msg) Q w.
Proof.
  intros Ha HQ. unfold guardLastOwner, RoleRepo.CountActiveOwners. apply wp_bind, wp_own_tx; [done|].
  eapply (wp_in_tx (w_clock w)); [done|]. apply wp_query. simpl. rewrite started_stop by done.
  by apply wp_throw_if.
Qed.

Section reconcile_theorems.
  Context `{Env} (tid uid actor : uuid) (desired : list TenantRoleCode).

(** The transaction, when the role set read before it is still current. *)
Lemma wp_reconcile_tx m now w (Q : result error ((list TenantRole * list TenantRole) * unit) → World → Prop) :
  codec_schemas → distinct_uuids → w_txnow w = Some now → forallb IsElevated desired = true →
  refs_ok tid uid (tm_ID m) (w_db w) → fresh_ids w → roles_typed (w_db w) →
  (stripping tid uid desired (w_db w) = true → 1 < owners tid (w_db w)) →
  (if stripping tid uid desired (w_db w) && negb (exists_row (t_is_live tid) (tenants (w_db w)))
   then Q (Err tenant_not_found) w
   else ∀ granted revoked w', reconciled tid uid actor desired granted revoked (w_db w) (w_db w') →
          Q (Ok ((granted, revoked), tt)) w') →
  wp (reconcile_tx tid uid (tm_ID m) actor (stripping tid uid desired (w_db w)) (remove_dups desired)
        (current_codes tid uid (w_db w)) ([], [])) Q w.
Proof.
  intros Hc Hd Ht Hel Hrefs Hf Hty Hown HQ. unfold reconcile_tx. apply wp_bind.
  pose proof (wp_reconcile_loops tid uid actor desired m now w Hc Hd Ht Hel Hrefs Hf Hty) as Hloops.
  destruct (stripping tid uid desired (w_db w)); simpl in HQ.
  - apply wp_bind, (wp_LockByID _ now); [done|]. rewrite count_eqb_0.
    destruct (exists_row (t_is_live tid) _); simpl in *; [|done].
    apply (wp_guardLastOwner _ _ now); [done|].
    destruct (owners tid (w_db w) <=? 1) eqn:E; [apply Z.leb_le in E; specialize (Hown eq_refl); lia|].
    eapply wp_mono; [exact Hloops|]. intros r w' (g & rv & -> & Hr). by apply HQ.
  - apply wp_ret. eapply wp_mono; [exact Hloops|]. intros r w' (g & rv & -> & Hr). by apply HQ.
Qed.

(** The same with nothing else running. *)
Lemma wp_reconcile_own m w (Q : result error ((list TenantRole * list TenantRole) * unit) → World → Prop) :
  codec_schemas → distinct_uuids → alone w → forallb IsElevated desired = true →
  refs_ok tid uid (tm_ID m) (w_db w) → fresh_ids w → roles_typed (w_db w) →
  (stripping tid uid desired (w_db w) = true → 1 < owners tid (w_db w)) →
  (if stripping tid uid desired (w_db w) && negb (exists_row (t_is_live tid) (tenants (w_db w)))
   then Q (Err tenant_not_found) w
   else ∀ granted revoked w', reconciled tid uid actor desired granted revoked (w_db w) (w_db w') →
          Q (Ok ((granted, revoked), tt)) w') →
  wp (RunInTx_captured ([], []) (reconcile_tx tid uid (tm_ID m) actor (stripping tid uid desired (w_db w))
        (remove_dups desired) (current_codes tid uid (w_db w)))) Q w.
Proof.
  intros Hc Hd Ha Hel Hrefs Hf Hty Hown HQ. apply wp_RunInTx_captured_alone; [done|].
  apply (wp_reconcile_tx m (w_clock w) (started w)); [done..|]. simpl.
  destruct (_ && _); [split; [done|]; by rewrite started_stop_db|]. intros g rv w' Hr. by apply HQ.
Qed.

Lemma wp_reconcile_post g rv d w :
  reconciled tid uid actor desired g rv d (w_db w) →
  wp (invalidateMember tid uid ;;
      (if negb (Nat.eqb (length rv) 0) then revokeSessions tid uid else retM tt) ;; retM (g, rv))
    (λ r w', ∃ granted revoked, r = Ok (granted, revoked) ∧
       reconciled tid uid actor desired granted revoked d (w_db w')) w.
Proof.
  intros Hr. apply wp_bind, (wp_quiet _ _ _ (quiet_invalidateMember _ _)). intros w3 Hd3 _.
  apply wp_bind. assert (quiet (if negb (Nat.eqb (length rv) 0) then revokeSessions tid uid else retM tt)) as Hq
    by (destruct (negb _); [apply quiet_revokeSessions|apply quiet_ret]).
  apply (wp_quiet _ _ _ Hq). intros w4 Hd4 _. apply wp_ret. eexists _, _. split; [done|].
  by rewrite Hd4, Hd3.
Qed.

(** C12: [ReconcileRoles] (P-28) on every branch.  A service account, a code
    that is not an elevated role, a non-member and the removal of the last
    owner are refused with nothing changed; otherwise the member holds exactly
    the desired roles afterwards, whatever order Go walks its maps in, the
    answer lists each granted and each revoked role once, the outbox has one
    event for each, and no other user's roles and no other table changed. *)
Theorem ReconcileRoles_spec w r w' :
  codec_schemas → distinct_uuids → alone w → fresh_ids w → roles_typed (w_db w) →
  exists_row (t_is tid) (tenants (w_db w)) = true →
  ReconcileRoles tid uid desired actor w = (r, w') →
  match reconcile_refusal tid uid desired w with
  | Some s => ∃ e, r = Err e ∧ errors_Is e s = true ∧ w_db w' = w_db w
  | None => ∃ granted revoked, r = Ok (granted, revoked) ∧
              reconciled tid uid actor desired granted revoked (w_db w) (w_db w')
  end.
Proof.
  intros Hc Hd Ha Hf Hty Htn E. revert r w' E. apply wp_intro. unfold ReconcileRoles, reconcile_refusal.
  apply wp_bind, wp_isServiceAccount. intros w1 Hd1 Hu1 Hf1. apply wp_bind, wp_throw_if.
  destruct (service_account tid uid w); [by eauto|].
  apply wp_bind, wp_validate_desired. destruct (forallb IsElevated desired) eqn:Hel; simpl; [|by eauto].
  pose proof (alone_flows _ _ Ha Hf1) as Ha1.
  apply wp_bind, wp_own_FindByUserID; [done|]. rewrite Hd1, exists_row_first.
  destruct (select_first (tm_of tid uid) _) as [m|] eqn:Em; simpl; [|by eauto].
  apply wp_bind, wp_own_ListByUser; [done|]. fold (current_codes tid uid (w_db w1)).
  rewrite contains_remove_dups, current_codes_holds. fold (stripping tid uid desired (w_db w1)).
  apply wp_bind.
  assert (refs_ok tid uid (tm_ID m) (w_db w)) as Hrefs.
  { split; [done|]. apply select_first_Some in Em as [Hin (<- & <- & _)%tm_of_split].
    apply exists_row_true. exists m. by rewrite !Z.eqb_refl. }
  assert (fresh_ids w1) as Hf1' by (unfold fresh_ids; by rewrite Hd1, Hu1).
  rewrite <- Hd1 in Hrefs, Hty |- *. destruct (stripping tid uid desired (w_db w1)) eqn:Es.
  - apply wp_own_guard; [done|]. destruct (owners tid (w_db w1) <=? 1) eqn:Eo; [by eauto|].
    apply Z.leb_gt in Eo. rewrite <- Es. apply wp_bind, wp_reconcile_own; [done..|]. rewrite Es. simpl.
    destruct (exists_row (t_is_live tid) _); simpl; [|by eauto]. intros g rv w2 Hr. by apply wp_reconcile_post.
  - apply wp_ret. rewrite <- Es. apply wp_bind, wp_reconcile_own; [done..|by rewrite Es|]. rewrite Es. simpl.
    intros g rv w2 Hr. by apply wp_reconcile_post.
Qed.
End reconcile_theorems.
