(* ===== verification/MembershipWitness.v ===== *)
(** * MembershipWitness: member operations on concrete databases

    Instances of the theorems of [MembershipSpec.v] and [RolesSpec.v], and a
    run that shows behaviour the documentation does not describe: a retried
    role reconciliation. *)

From S2P Require Import Prelude Domain Schema Tx Wp Demo.
From S2P Require Import MembershipRepo RoleRepo DeptMembershipRepo InvitationRepo TenantRepo CacheKeys MembershipService.
From S2P Require Import MembershipSpec RolesSpec.

#[local] Existing Instance demo_env.

(** Tenant 7 with two owners, 21 and 22, and a member 23 in department 301. *)
Definition team : DB :=
  set_tenants [demo_tenant 7 "acme" StatusActive]
  (set_tenant_departments [mkTenantDepartment 7 301 true 1 10 10]
  (set_tenant_memberships
     [demo_member 51 7 21 MembershipActive; demo_member 52 7 22 MembershipActive;
      demo_member 53 7 23 MembershipActive]
  (set_tenant_roles
     [demo_role 61 7 21 51 RoleTenantOwner; demo_role 62 7 22 52 RoleTenantOwner;
      demo_role 63 7 22 52 RoleTenantAdmin]
  (set_dept_memberships [demo_dept 71 7 22 52 301 DeptReviewer] empty_db)))).

Lemma team_uq_member : uq_live_member team.
Proof.
  intros tid uid. apply (count_key (λ m, (tm_TenantID m, tm_UserID m)) (tid, uid)).
  - intros m (-> & -> & _)%tm_of_split. done.
  - apply (bool_decide_unpack _). vm_compute. exact I.
Qed.

Lemma team_typed : roles_typed team.
Proof.
  intros r Hr. simpl in Hr. repeat (apply list.elem_of_cons in Hr as [->|Hr]; [done|]).
  by apply list.not_elem_of_nil in Hr.
Qed.

Lemma RemoveUser_spec_witness :
  ∃ w', RemoveUser 7 22 21 (demo_world team) = (Ok tt, w') ∧
    user_removed 7 22 21 team (w_db w') ∧ length (outbox_events (w_db w')) = 4%nat.
Proof.
  assert (RemoveUser 7 22 21 (demo_world team) = (Ok tt, (RemoveUser 7 22 21 (demo_world team)).2)) as E
    by (apply result_of; vm_compute; reflexivity).
  exists (RemoveUser 7 22 21 (demo_world team)).2. split; [exact E|].
  pose proof (RemoveUser_spec 7 22 21 (demo_world team) _ _ demo_codec team_typed (demo_world_alone team)
                team_uq_member E) as HS.
  replace (remove_verdict 7 22 (demo_world team)) with (@None sentinel) in HS by (vm_compute; reflexivity).
  split; [exact (proj2 HS)|vm_compute; reflexivity].
Defined.

Lemma SetStatus_spec_witness :
  ∃ m res w', SetStatus 7 22 MembershipSuspended 1 (demo_world team) = (Ok res, w') ∧
    ssr_Membership res = with_membership 1000 MembershipSuspended m ∧
    tm_RecordVersion (ssr_Membership res) = 2.
Proof.
  destruct (SetStatus 7 22 MembershipSuspended 1 (demo_world team)) as [r w'] eqn:E.
  pose proof (SetStatus_spec 7 22 MembershipSuspended 1 (demo_world team) r w' (demo_world_alone team)
                team_uq_member E) as HS.
  replace (set_status_refusal 7 22 MembershipSuspended 1 (w_db (demo_world team))) with (@None error) in HS
    by (vm_compute; reflexivity).
  destruct HS as (m & res & Hm & -> & Hres & Hv & _). exists m, res, w'. split; [reflexivity|].
  split; [exact Hres|]. rewrite Hv. vm_compute in Hm. injection Hm as <-. vm_compute. reflexivity.
Defined.

Lemma demo_distinct : distinct_uuids.
Proof. intros n m. simpl. lia. Qed.

Lemma team_fresh : fresh_ids (demo_world team).
Proof.
  intros n _ r Hr. simpl in Hr. repeat (apply list.elem_of_cons in Hr as [->|Hr]; [simpl; lia|]).
  by apply list.not_elem_of_nil in Hr.
Qed.

(** User 22 from owner and tenant admin to owner and tender admin. *)
Lemma ReconcileRoles_spec_witness :
  ∃ granted revoked w',
    ReconcileRoles 7 22 [RoleTenantOwner; RoleTenderAdmin] 21 (demo_world team) = (Ok (granted, revoked), w') ∧
    reconciled 7 22 21 [RoleTenantOwner; RoleTenderAdmin] granted revoked team (w_db w').
Proof.
  destruct (ReconcileRoles 7 22 [RoleTenantOwner; RoleTenderAdmin] 21 (demo_world team)) as [r w'] eqn:E.
  pose proof (ReconcileRoles_spec 7 22 21 [RoleTenantOwner; RoleTenderAdmin] (demo_world team) r w'
                demo_codec demo_distinct (demo_world_alone team) team_fresh team_typed eq_refl E) as HS.
  replace (reconcile_refusal 7 22 [RoleTenantOwner; RoleTenderAdmin] (demo_world team)) with (@None sentinel) in HS
    by (vm_compute; reflexivity).
  destruct HS as (g & rv & -> & HR). exists g, rv, w'. split; [reflexivity|exact HR].
Defined.

(** ** Owners who are active *)

(** The same team with owner 21 suspended: 22 is the only active owner. *)
Definition one_active : DB :=
  set_tenant_memberships
    [demo_member 51 7 21 MembershipSuspended; demo_member 52 7 22 MembershipActive;
     demo_member 53 7 23 MembershipActive] team.

Lemma one_active_uq_member : uq_live_member one_active.
Proof.
  intros tid uid. apply (count_key (λ m, (tm_TenantID m, tm_UserID m)) (tid, uid)).
  - intros m (-> & -> & _)%tm_of_split. done.
  - apply (bool_decide_unpack _). vm_compute. exact I.
Qed.

Lemma last_active_owner_leaves_witness :
  active_owners 7 one_active = [22] ∧
  (∃ res w', SetStatus 7 22 MembershipSuspended 1 (demo_world one_active) = (Ok res, w') ∧
     active_owners 7 (w_db w') = []) ∧
  (∃ w', RemoveUser 7 22 21 (demo_world one_active) = (Ok tt, w') ∧ active_owners 7 (w_db w') = []).
Proof.
  assert (active_owners 7 one_active = [22]) as Ha by (vm_compute; reflexivity).
  destruct (last_active_owner_leaves 7 22 21 (demo_member 52 7 22 MembershipActive) (demo_world one_active)
              demo_codec team_typed (demo_world_alone one_active) one_active_uq_member
              eq_refl eq_refl Ha eq_refl) as [HS HR].
  split; [exact Ha|]. split; [exact HS|]. apply HR. vm_compute. reflexivity.
Defined.

(** ** A retried reconciliation *)

(** The two reads commit, the transaction deadlocks once and then commits. *)
Definition deadlock_once : World :=
  set_w_sched [mkAttempt 1000 (λ d, d) None; mkAttempt 1000 (λ d, d) None;
               mkAttempt 1000 (λ d, d) (Some (EPg PgDeadlock)); mkAttempt 1000 (λ d, d) None]
    (demo_world team).

(** [ReconcileRoles] collects its answer in slices the transaction's
    closure captures and never resets, so when a commit deadlocks and the
    transaction is retried the answer lists a grant twice; the database has it
    once and one event is published. *)
Theorem reconcile_retry_repeats_answer :
  ∃ g1 g2 w', ReconcileRoles 7 23 [RoleTenderAdmin] 21 deadlock_once = (Ok ([g1; g2], []), w') ∧
    tr_RoleCode g1 = RoleTenderAdmin ∧ tr_RoleCode g2 = RoleTenderAdmin ∧
    count (RoleRepo.tr_grant 7 23 RoleTenderAdmin) (tenant_roles (w_db w')) = 1 ∧
    length (outbox_events (w_db w')) = 1%nat.
Proof.
  eexists _, _, _. split; [vm_compute; reflexivity|]. split_and!; vm_compute; reflexivity.
Qed.
