(* ===== verification/InvitationSpec.v ===== *)
(** * InvitationSpec: what invitations guarantee

    The theorems about [InvitationService.v]: the seat cap under concurrent
    transactions, what happens when the cap is reached before or inside the
    transaction, the limits on re-invitation, and the acceptance path. *)

From Stdlib Require Import Ascii.
From S2P Require Import Prelude Domain Schema Tx Wp.
From S2P Require Import MembershipRepo RoleRepo DeptMembershipRepo InvitationRepo TenantRepo CacheKeys.
From S2P Require Import MembershipService InvitationService MembershipSpec RolesSpec.

(** ** Seats *)

(** Seats taken: active members and invitations that hold one (SEAT-1). *)
Definition occupancy (now : time) (tid : uuid) (d : DB) : Z :=
  count (tm_active_of tid) (tenant_memberships d) + count (pi_holds_seat now tid) (pending_invitations d).

(** The live tenant's seat count. *)
Definition seats (tid : uuid) (d : DB) : option Z :=
  t_LicensedSeats <$> select_first (t_is_live tid) (tenants d).

Section reads.
  Context (tid : uuid) (now : time).

Lemma wp_LicensedSeats (Q : result error Z → World → Prop) w :
  w_txnow w = Some now →
  match seats tid (w_db w) with Some n => Q (Ok n) w | None => Q (Err ENoRows) w end →
  wp (LicensedSeatsForUpdate tid) Q w.
Proof. intros Ht HQ. unfold LicensedSeatsForUpdate. repeat wp_step. unfold seats in HQ. by destruct (_ <$> _). Qed.

Lemma wp_CountActive (Q : result error Z → World → Prop) w :
  w_txnow w = Some now → Q (Ok (count (tm_active_of tid) (tenant_memberships (w_db w)))) w →
  wp (MembershipRepo.CountActive tid) Q w.
Proof. intros Ht HQ. unfold MembershipRepo.CountActive. by repeat wp_step. Qed.

Lemma wp_CountPending (Q : result error Z → World → Prop) w :
  w_txnow w = Some now → Q (Ok (count (pi_holds_seat now tid) (pending_invitations (w_db w)))) w →
  wp (InvitationRepo.CountPending tid) Q w.
Proof.
  intros Ht HQ. unfold InvitationRepo.CountPending. repeat wp_step. unfold now_in. by rewrite Ht.
Qed.
End reads.

(** ** Inserting an invitation *)

(** The row as the database stores it. *)
Definition stored (id : uuid) (i : PendingInvitation) (now : time) : PendingInvitation :=
  mkPendingInvitation id (pi_TenantID i) (pi_Email i) (pi_FullName i)
    (pi_InitialTenantRoles i) (pi_InitialDeptMappings i) (pi_InvitedBy i) (pi_KeycloakUserID i)
    (pi_Status i) (pi_ExpiresAt i) None false 1 now now.

Lemma insert_invitation_Ok i now d row d' :
  insert_invitation i now d = Ok (row, d') →
  row = stored (pi_ID i) i now ∧ d' = set_pending_invitations (pending_invitations d ++ [row]) d ∧
  now < pi_ExpiresAt i.
Proof.
  unfold insert_invitation. destruct (first_error _) eqn:E; [done|]. intros [= <- <-]. split_and!; [done..|].
  unfold first_error, check_that in E. apply Z.ltb_lt. destruct (now <? pi_ExpiresAt i); [done|]. simpl in E.
  by destruct (check_enum _).
Qed.

(** Whatever the result, an insert that fails changes nothing. *)
Lemma wp_Insert `{Env} i now (Q : result error PendingInvitation → World → Prop) w :
  pi_ID i = uuid_Nil → w_txnow w = Some now →
  match insert_invitation (set_pi_ID (uuid_New (w_uuids w)) i) now (w_db w) with
  | Ok (row, d') => Q (Ok row) (set_w_db d' (set_w_uuids (S (w_uuids w)) w))
  | Err e => Q (Err (wrapConnErr (if is_unique_violation e
                     then fail_with ErrInvitationAlreadyExists "invitation already exists for this email" else e)))
               (set_w_uuids (S (w_uuids w)) w)
  end → wp (InvitationRepo.Insert i) Q w.
Proof.
  intros Hid Ht HQ. unfold InvitationRepo.Insert, id_or_new. rewrite Hid, Z.eqb_refl.
  apply wp_bind, wp_new_uuid. eapply (wp_in_tx now); [done|]. apply wp_bind, wp_try, wp_sql.
  unfold now_in. simpl. rewrite Ht. destruct (insert_invitation _ _ _) as [[row d']|e]; simpl in *.
  - by apply wp_ret.
  - destruct (is_unique_violation e); by apply wp_throw.
Qed.

(** One more invitation takes one more seat at most. *)
Lemma occupancy_insert now now' tid id i d :
  occupancy now tid (set_pending_invitations (pending_invitations d ++ [stored id i now']) d) <= occupancy now tid d + 1.
Proof.
  unfold occupancy. simpl. rewrite count_app, count_cons. change (count _ []) with 0.
  destruct (pi_holds_seat _ _ _); lia.
Qed.

Section invite.
  Context `{Env}.

Lemma steady_invite_tx c tid req actor kc : steady (invite_tx c tid req actor kc).
Proof. unfold steady, invite_tx. keeps_auto. Qed.

(** What a committed invitation satisfies.  Seats are counted at [now()] of the
    committing transaction, the instant created_at of the row records. *)
Definition invited (tid : uuid) (row : PendingInvitation) (d : DB) : Prop :=
  row ∈ pending_invitations d ∧ pi_holds_seat (pi_CreatedAt row) tid row = true ∧
  ∃ n, seats tid d = Some n ∧ occupancy (pi_CreatedAt row) tid d <= n.

Lemma invite_tx_invited c tid req actor kc now w :
  w_txnow w = Some now →
  wp (invite_tx c tid req actor kc)
     (λ r w', match r with Ok (Ok row) => invited tid row (w_db w') | _ => True end) w.
Proof.
  intros Ht. unfold invite_tx. apply wp_bind, (wp_LicensedSeats _ now); [done|].
  destruct (seats tid (w_db w)) as [n|] eqn:En; [|done].
  apply wp_bind, (wp_CountActive _ now); [done|]. apply wp_bind, (wp_CountPending _ now); [done|].
  apply wp_bind, wp_time_Now. fold (occupancy now tid (w_db w)).
  destruct (n <=? occupancy now tid (w_db w)) eqn:Eo.
  { apply wp_bind. apply wp_elim. intros [x|e] w1 _; [|done]. apply wp_bind, wp_elim. by intros [y|e] w2 _. }
  apply Z.leb_gt in Eo. apply wp_bind, (wp_Insert _ now); [done|done|].
  destruct (insert_invitation _ _ _) as [[row d']|e] eqn:Ei; [|done].
  apply insert_invitation_Ok in Ei as (Hrow & -> & Hexp). apply wp_ret.
  assert (pi_CreatedAt row = now) as Hat by (by rewrite Hrow). split_and!.
  - simpl. apply elem_of_app. right. by apply list_elem_of_singleton.
  - rewrite Hat, Hrow. unfold pi_holds_seat. simpl in *. by rewrite Z.eqb_refl, (proj2 (Z.ltb_lt _ _) Hexp).
  - exists n. split; [done|]. rewrite Hat. pose proof (occupancy_insert now now tid (uuid_New (w_uuids w))
      (set_pi_ID (uuid_New (w_uuids w)) (invited_row c tid req actor kc (w_clock w))) (w_db w)) as Hocc.
    rewrite Hrow. simpl in *. lia.
Qed.

Lemma invite_invited c tid req actor w :
  wp (invite c tid req actor) (if_ok (λ row w', invited tid row (w_db w'))) w.
Proof.
  unfold invite. do 6 (apply wp_skip; intros ? ?). apply wp_skip. intros tenant ?. apply wp_skip. intros [kc|e] ?; [|done].
  do 2 (apply wp_skip; intros ? ?). apply wp_bind, wp_try.
  apply (wp_RunInTx (λ _ _, True)); [apply steady_invite_tx|apply rely_True| |].
  - intros v1 now _ _ Ht. eapply wp_mono; [by eapply (invite_tx_invited _ _ _ _ _ now)|].
    intros [[x|e]|e] v2 Hx; [|by apply wp_skip; intros ? ?; apply wp_throw|done].
    apply wp_bind, (wp_quiet _ _ _ (quiet_evict _)). intros v3 Hd _. apply wp_ret. simpl in *. by rewrite Hd.
  - intros e v1 _ _. apply wp_skip. intros _ v2. by apply wp_throw.
Qed.

Lemma quiet_auditInvitation tid id actor entryType action sourceEventType :
  quiet (auditInvitation tid id actor entryType action sourceEventType).
Proof. apply quiet_audit. Qed.


Lemma reads_checks c tid req actor :
  reads (validate_invite req) ∧ reads (InvitationRepo.FindPendingByEmail tid (ii_Email req)) ∧
  reads (check_cooldown c tid (ii_Email req)) ∧ reads (check_tenant_rate c tid) ∧ reads (check_actor_rate c tid actor).
Proof.
  unfold validate_invite, InvitationRepo.FindPendingByEmail, check_cooldown, check_tenant_rate, check_actor_rate,
    InvitationRepo.MostRecentCreatedAt, InvitationRepo.CountCreatedInWindow, InvitationRepo.CountCreatedInWindowByActor.
  split_and!; reads_auto.
Qed.

Lemma preflight_at_cap tid w :
  alone w → (∀ n, seats tid (w_db w) = Some n → n <= occupancy (w_clock w) tid (w_db w)) →
  wp (preflightSeatCheck tid) (λ r w', (∃ e, r = Err e) ∧ w' = w) w.
Proof.
  intros Ha Hcap. unfold preflightSeatCheck.
  apply wp_bind, wp_own_tx; [done|]. unfold FindByID. eapply (wp_in_tx (w_clock w)); [done|].
  apply wp_on_no_rows, wp_query_row. simpl. unfold seats in Hcap.
  destruct (select_first (t_is_live tid) (tenants (w_db w))) as [t|]; simpl in *.
  2: { apply wp_throw. simpl. rewrite started_stop_db by done. by eauto. }
  rewrite started_stop by done. specialize (Hcap _ eq_refl).
  apply wp_bind, wp_own_tx; [done|]. apply (wp_CountActive _ (w_clock w)); [done|]. rewrite started_stop by done.
  apply wp_bind, wp_own_tx; [done|]. apply (wp_CountPending _ (w_clock w)); [done|]. rewrite started_stop by done.
  simpl. apply wp_bind, wp_throw_if. apply Z.leb_le in Hcap. unfold occupancy in Hcap. rewrite Hcap. eauto.
Qed.

Lemma invite_at_cap c tid req actor w :
  alone w → (∀ n, seats tid (w_db w) = Some n → n <= occupancy (w_clock w) tid (w_db w)) →
  wp (invite c tid req actor) (λ r w', (∃ e, r = Err e) ∧ w' = w) w.
Proof.
  intros Ha Hcap. unfold invite. cbn zeta. set (req' := mkInvitationInput _ _ _ _).
  destruct (reads_checks c tid req' actor) as (R1 & R2 & R3 & R4 & R5).
  apply wp_bind, wp_reads; [done..|]. intros [_|e]; [|by eauto].
  apply wp_bind, wp_reads; [done..|]. intros [ex|e]; [|by eauto].
  apply wp_bind, wp_throw_if. destruct (notNull ex); [by eauto|].
  apply wp_bind, wp_reads; [done..|]. intros [_|e]; [|by eauto].
  apply wp_bind, wp_reads; [done..|]. intros [_|e]; [|by eauto].
  apply wp_bind, wp_reads; [done..|]. intros [_|e]; [|by eauto].
  apply wp_bind. eapply wp_mono; [by apply preflight_at_cap|]. intros r w' [[e ->] ->]. by eauto.
Qed.

(** A full tenant (or one that is gone) refuses an invitation before any
    other service is called: [Invite] fails, no Keycloak user is created, and
    nothing is written. *)
Theorem Invite_refused_at_cap c tid req actor w r w' :
  alone w → (∀ n, seats tid (w_db w) = Some n → n <= occupancy (w_clock w) tid (w_db w)) →
  Invite c tid req actor w = (r, w') → (∃ e, r = Err e) ∧ w' = w.
Proof.
  intros Ha Hcap E. revert r w' E. apply wp_intro. unfold Invite. apply wp_bind, wp_try.
  eapply wp_mono; [by apply invite_at_cap|]. intros r w' [[e ->] ->].
  assert (reads (if errors_Is e ErrSeatLimitReached then let! _ := tryM (FindByID tid) in retM tt else retM tt)) as Hr
    by (unfold FindByID; reads_auto).
  apply wp_bind, wp_reads; [done..|]. intros [_|e']; [apply wp_throw|]; eauto.
Qed.

(** With a per-actor hourly limit configured (SECURITY-5) no invitation can be
    created at all: the query behind it names a column [pending_invitations]
    does not have. *)
Lemma invite_fails_with_limit c tid req actor w :
  0 < ic_maxPerActorPerHour c → ∃ e w', Invite c tid req actor w = (Err e, w').
Proof.
  intros Hc. enough (wp (Invite c tid req actor) (if_ok (λ _ _, False)) w) as Hwp.
  { destruct (Invite c tid req actor w) as [[x|e] w'] eqn:E; [|by eauto].
    by pose proof (wp_intro _ _ _ Hwp _ _ E). }
  unfold Invite. apply wp_bind, wp_try.
  enough (wp (invite c tid req actor) (if_ok (λ _ _, False)) w) as Hi.
  { eapply wp_mono; [exact Hi|]. intros [x|e] w1 Hx; [done|]. apply wp_skip. intros _ w2. by apply wp_throw. }
  unfold invite. do 5 (apply wp_skip; intros ? ?). unfold check_actor_rate.
  apply Z.ltb_lt in Hc. rewrite Hc. apply wp_bind, wp_bind, wp_time_Now. apply wp_bind, wp_elim.
  unfold InvitationRepo.CountCreatedInWindowByActor, withPool, attempt_tx, bindM, throw. intros r v.
  destruct (w_txnow _); [by intros [= <- <-]|]. destruct (next_attempt _) as [at_ v1]. by intros [= <- <-].
Qed.
(** *** Losing the seat race *)

(** The clean-up row of PI-9: terminal, and marked for the reconciler. *)
Definition cleanup_row (tid kc : uuid) (d d' : DB) : Prop :=
  ∃ row, pending_invitations d' = pending_invitations d ++ [row] ∧ pi_TenantID row = tid ∧
    pi_Status row = InviteRevoked ∧ pi_KeycloakUserID row = Some kc ∧ pi_KCCleanupPending row = true.

(** A name the columns accept. *)
Definition name_ok (s : string) : Prop := s ≠ "" ∧ char_length s <= 512.

Definition fresh_invitation (w : World) : Prop :=
  ∀ i, i ∈ pending_invitations (w_db w) → pi_ID i ≠ uuid_New (w_uuids w).

Lemma insert_orphan tid req actor kc clock id now d :
  name_ok (ii_FullName req) → exists_row (t_is tid) (tenants d) = true →
  (∀ i, i ∈ pending_invitations d → pi_ID i ≠ id) →
  insert_invitation (set_pi_ID id (orphan_row tid req actor kc clock)) now d =
  if now <? clock
  then let row := stored id (orphan_row tid req actor kc clock) now in
       Ok (row, set_pending_invitations (pending_invitations d ++ [row]) d)
  else Err (EPg (PgCheckViolation "")).
Proof.
  intros [Hn Hl] Htn Hid. unfold insert_invitation. cbn zeta. unfold first_error at 1. simpl.
  unfold check_that. destruct (now <? clock); simpl; [|done].
  unfold pi_checks, first_error, check_that. simpl. apply Z.leb_le in Hl. rewrite Hl. simpl.
  apply String.eqb_neq in Hn. rewrite Hn. simpl.
  replace (exists_row (λ j, pi_ID j =? id) (pending_invitations d)) with false.
  2: { symmetry. apply exists_row_false. intros i Hi. by apply Z.eqb_neq, Hid. }
  simpl. unfold fk_tenant. by rewrite Htn.
Qed.

Lemma wp_mark_cleanup tid id row l now w (Q : result error unit → World → Prop) :
  w_txnow w = Some now → pending_invitations (w_db w) = l ++ [row] →
  (∀ i, i ∈ l → pi_ID i ≠ id) → pi_ID row = id → pi_TenantID row = tid → pi_RecordVersion row = 1 →
  pi_checks row = None → pi_Status row = InviteRevoked →
  Q (Ok tt) (set_w_db (set_pending_invitations (l ++ [touched now (set_pi_KCCleanupPending true) row]) (w_db w)) w) →
  wp (InvitationRepo.SetKCCleanupPending tid id true 1) Q w.
Proof.
  intros Ht El Hid Hrid Hrt Hrv Hck Hst HQ. unfold InvitationRepo.SetKCCleanupPending. repeat wp_step.
  unfold now_in. rewrite Ht. unfold invitations_update, update_returning. rewrite El.
  assert (∀ i, i ∈ l → pi_at tid id 1 i = false) as Hno.
  { intros i Hi. unfold pi_at, pi_is. rewrite (proj2 (Z.eqb_neq _ _) (Hid i Hi)). by rewrite andb_false_r. }
  assert (pi_at tid id 1 row = true) as Hyes
    by (unfold pi_at, pi_is; by rewrite Hrid, Hrt, Hrv, !Z.eqb_refl).
  rewrite select_app, update_where_app, (select_none _ l), (update_where_none _ _ l) by done. simpl. rewrite Hyes. simpl.
  set (row' := touched now (set_pi_KCCleanupPending true) row) in *.
  replace (pi_checks row') with (@None pg_error).
  2: { symmetry. rewrite <- Hck. unfold pi_checks, row'.
       rewrite (touched_column pi_FullName), (touched_column pi_AcceptedAt), (touched_column pi_Status) by done. done. }
  replace (uq_pi_pending (l ++ [row']) row') with (@None pg_error).
  2: { unfold uq_pi_pending, pi_pending, row'. rewrite (touched_column pi_Status) by done. simpl. by rewrite Hst. }
  simpl. by apply wp_ret.
Qed.

(** C18: a seat race lost inside the transaction of [Invite] (PI-9).  When the
    process's clock is ahead of the transaction's [now()], the refusal commits
    a durable clean-up row for the Keycloak user already created and takes no
    seat; when it is not, the table's expiry trigger rejects that row, the
    transaction fails and no record of the user is kept. *)
Theorem invite_tx_at_cap c tid req actor kc now n w :
  w_txnow w = Some now → seats tid (w_db w) = Some n → n <= occupancy now tid (w_db w) →
  name_ok (ii_FullName req) → fresh_invitation w →
  wp (invite_tx c tid req actor kc)
     (λ r w', if now <? w_clock w
              then ∃ e, r = Ok (Err e) ∧ errors_Is e ErrSeatLimitReached = true ∧
                     cleanup_row tid kc (w_db w) (w_db w') ∧
                     occupancy now tid (w_db w') = occupancy now tid (w_db w)
              else r = Err (EPg (PgCheckViolation "")) ∧ w_db w' = w_db w) w.
Proof.
  intros Ht Hs Hcap Hn Hf. unfold invite_tx.
  apply wp_bind, (wp_LicensedSeats _ now); [done|]. rewrite Hs.
  apply wp_bind, (wp_CountActive _ now); [done|]. apply wp_bind, (wp_CountPending _ now); [done|].
  apply wp_bind, wp_time_Now. fold (occupancy now tid (w_db w)). apply Z.leb_le in Hcap. rewrite Hcap.
  apply wp_bind, (wp_Insert _ now); [done|done|]. simpl.
  assert (exists_row (t_is tid) (tenants (w_db w)) = true) as Htn.
  { unfold seats in Hs. destruct (select_first _ _) as [t|] eqn:E; [|done].
    apply select_first_Some in E as [Hin [E _]%andb_true_iff]. apply exists_row_true. eauto. }
  rewrite insert_orphan by done. destruct (now <? w_clock w) eqn:Ec; [|done]. cbn zeta.
  apply wp_bind. eapply (wp_mark_cleanup _ _ _ (pending_invitations (w_db w)) now);
    [done|done|exact Hf|done|done|done| |done|].
  { unfold pi_checks, first_error, check_that. simpl. destruct Hn as [Hn Hl]. apply Z.leb_le in Hl.
    apply String.eqb_neq in Hn. by rewrite Hl, Hn. }
  apply wp_ret. eexists. split; [done|]. split; [done|]. split.
  - eexists. split; [done|]. rewrite (touched_column pi_TenantID), (touched_column pi_Status),
      (touched_column pi_KeycloakUserID), (touched_column pi_KCCleanupPending) by done. done.
  - unfold occupancy. simpl. rewrite count_app, count_cons. unfold pi_holds_seat at 2.
    rewrite (touched_column pi_Status) by done. simpl. rewrite andb_false_r. simpl. change (count _ []) with 0. lia.
Qed.
End invite.

(** ** Acceptance *)

Section acceptance.
  Context `{Env} (tid uid kc : uuid) (email : string).

(** The pending invitation [AddFromRegister] looks for. *)
Definition matching_invitation (d : DB) : option PendingInvitation :=
  match select_first (λ i, (pi_TenantID i =? tid) && (pi_KeycloakUserID i ==? Some kc)%stdpp && pi_pending i)
                     (pending_invitations d) with
  | Some i => Some i
  | None => if String.eqb (normalizeEmail email) "" then None
            else select_first (pi_pending_email tid (normalizeEmail email)) (pending_invitations d)
  end.

(** The subject is not a service account. *)
Definition person (w : World) : Prop := kc = uuid_Nil ∨ service_account tid kc w = false.

(** The address is missing or has an [@]. *)
Definition address_ok : Prop := normalizeEmail email = "" ∨ index_at (normalizeEmail email) ≠ None.

Lemma wp_membership_Insert_existing m now (Q : result error TenantMembership → World → Prop) w :
  w_txnow w = Some now → select_first (tm_of tid uid) (tenant_memberships (w_db w)) = Some m →
  Q (Ok m) (set_w_uuids (S (w_uuids w)) w) →
  wp (MembershipRepo.Insert uuid_Nil tid uid MembershipActive) Q w.
Proof.
  intros Ht Hm HQ. unfold MembershipRepo.Insert, id_or_new. rewrite Z.eqb_refl.
  apply wp_bind, wp_new_uuid. eapply (wp_in_tx now); [done|]. apply wp_bind, wp_sql.
  unfold insert_membership. simpl. rewrite exists_row_first, Hm. simpl. apply wp_query_row. simpl. rewrite Hm.
  by destruct w.
Qed.

(** The search for an invitation, with nothing else running. *)
Lemma wp_find_matching (Q : result error (option PendingInvitation) → World → Prop) w :
  alone w → Q (Ok (matching_invitation (w_db w))) w →
  wp (let! byUser := InvitationRepo.FindPendingByKeycloakUser tid kc in
      if isNull byUser && negb (String.eqb (normalizeEmail email) "")
      then InvitationRepo.FindPendingByEmail tid (normalizeEmail email) else retM byUser) Q w.
Proof.
  intros Ha HQ. unfold matching_invitation in HQ.
  apply wp_bind, wp_own_tx; [done|]. eapply (wp_in_tx (w_clock w)); [done|]. apply wp_query. simpl.
  rewrite started_stop by done. destruct (select_first _ _) as [i|]; simpl; [by apply wp_ret|].
  destruct (String.eqb _ _); simpl; [by apply wp_ret|].
  apply wp_own_tx; [done|]. eapply (wp_in_tx (w_clock w)); [done|]. apply wp_query. simpl.
  by rewrite started_stop.
Qed.

Lemma address_ok_passes :
  address_ok → negb (String.eqb (normalizeEmail email) "") && isNull (index_at (normalizeEmail email)) = false.
Proof.
  intros [Hadr|Hadr]; [by rewrite Hadr|]. destruct (index_at _); [|done]. apply andb_false_r.
Qed.

(** A person passes the service-account check. *)
Lemma wp_register_subject (Q : result error bool → World → Prop) w :
  person w → (∀ w', w_db w' = w_db w → w_uuids w' = w_uuids w → flows w w' → Q (Ok false) w') →
  wp (if kc =? uuid_Nil then retM false else isServiceAccountOrDegrade tid kc) Q w.
Proof.
  intros Hp HQ. destruct (kc =? uuid_Nil) eqn:Ek; [by apply wp_ret, HQ|]. apply wp_isServiceAccount.
  destruct Hp as [Hp|Hp]; [by rewrite Hp, Z.eqb_refl in Ek|]. by rewrite Hp.
Qed.

End acceptance.
