(* ===== verification/InvitationWitness.v ===== *)
(** * InvitationWitness: invitations on concrete databases

    Instances of the theorems of [InvitationSpec.v], and a run in which an
    address is invited again inside the re-invitation cooldown. *)

From Stdlib Require Import Ascii.
From S2P Require Import Prelude Domain Schema Tx Wp Demo.
From S2P Require Import MembershipRepo RoleRepo DeptMembershipRepo InvitationRepo TenantRepo CacheKeys.
From S2P Require Import MembershipService InvitationService MembershipSpec RolesSpec InvitationSpec.

#[local] Existing Instance demo_env.

(** Tenant 7 with [n] seats and one active member, 21. *)
Definition seated (n : Z) : DB :=
  set_tenants [set_t_LicensedSeats n (demo_tenant 7 "acme" StatusActive)]
  (set_tenant_memberships [demo_member 51 7 21 MembershipActive]
  (set_tenant_roles [demo_role 61 7 21 51 RoleTenantOwner] empty_db)).

(** Seven days, a cooldown of one day, a hundred invitations an hour. *)
Definition limits : InvitationConfig := mkInvitationConfig 7 day 100 0.

Definition request : InvitationInput := mkInvitationInput " Ann@Acme.example " "Ann" [RoleTenderAdmin] [].


Lemma Invite_refused_at_cap_witness :
  ∃ e, Invite limits 7 request 21 (demo_world (seated 1)) = (Err e, demo_world (seated 1)) ∧
    errors_Is e ErrSeatLimitReached = true.
Proof.
  destruct (Invite limits 7 request 21 (demo_world (seated 1))) as [r w'] eqn:E.
  destruct (Invite_refused_at_cap limits 7 request 21 (demo_world (seated 1)) r w'
              (demo_world_alone _) ltac:(intros n Hn; vm_compute in Hn; injection Hn as <-; vm_compute; discriminate) E)
    as [[e ->] ->].
  exists e. split; [reflexivity|]. vm_compute in E. injection E as <-. reflexivity.
Defined.

Lemma invite_fails_with_limit_witness :
  ∃ e w', Invite (mkInvitationConfig 7 day 100 10) 7 request 21 (demo_world (seated 2)) = (Err e, w').
Proof. apply (invite_fails_with_limit (mkInvitationConfig 7 day 100 10)). simpl. lia. Defined.

Lemma invite_tx_at_cap_witness :
  ∃ e w', invite_tx limits 7 request 21 5000 (set_w_txnow (Some 990) (demo_world (seated 1))) = (Ok (Err e), w') ∧
    cleanup_row 7 5000 (seated 1) (w_db w').
Proof.
  destruct (invite_tx limits 7 request 21 5000 (set_w_txnow (Some 990) (demo_world (seated 1)))) as [r w'] eqn:E.
  assert (fresh_invitation (set_w_txnow (Some 990) (demo_world (seated 1)))) as Hf
    by (intros i Hi; by apply list.not_elem_of_nil in Hi).
  pose proof (invite_tx_at_cap limits 7 request 21 5000 990 1 (set_w_txnow (Some 990) (demo_world (seated 1)))
    eq_refl eq_refl ltac:(vm_compute; discriminate) ltac:(split; vm_compute; discriminate) Hf) as Hwp.
  destruct (wp_intro _ _ _ Hwp _ _ E) as (e & -> & _ & Hc & _). exists e, w'. split; [reflexivity|exact Hc].
Defined.

(** A suspended member whose registration is delivered again. *)
Definition suspended : DB :=
  set_tenants [demo_tenant 7 "acme" StatusActive]
  (set_tenant_memberships [demo_member 51 7 21 MembershipSuspended] empty_db).


(** ** The cooldown *)

(** Invite an address, revoke the invitation, invite the address again. *)
Definition invite_revoke_invite : M (PendingInvitation * PendingInvitation) :=
  let! first := Invite limits 7 request 21 in
  Revoke 7 (pi_ID first) (pi_RecordVersion first) ;;
  let! second := Invite limits 7 request 21 in
  retM (first, second).

(** The cooldown check right after an invitation. *)
Definition invite_then_check : M unit :=
  Invite limits 7 request 21 ;; check_cooldown limits 7 "ann@acme.example".

(** The re-invitation cooldown (PI-11) does not outlive a revocation.
    Revoking an invitation erases its address, which is what the cooldown looks
    the last invitation up by.  With a cooldown of a day, right after an
    invitation the cooldown refuses the address; after a revocation the same
    address is invited again at the same instant. *)
Theorem cooldown_defeated_by_revoke :
  (∃ e w', invite_then_check (demo_world (seated 9)) = (Err e, w') ∧ errors_Is e ErrReinviteTooSoon = true) ∧
  ∃ first second w', invite_revoke_invite (demo_world (seated 9)) = (Ok (first, second), w') ∧
    pi_Email second = pi_Email first ∧ pi_CreatedAt second - pi_CreatedAt first < ic_reinviteCooldown limits ∧
    pi_Status <$> pending_invitations (w_db w') = [InviteRevoked; InvitePending].
Proof.
  split; [eexists _, _; split; vm_compute; reflexivity|].
  eexists _, _, _. split; [vm_compute; reflexivity|]. split_and!; vm_compute; reflexivity.
Qed.
