(* ===== verification/DeptSpec.v ===== *)
(** * DeptSpec: what department assignments guarantee

    The theorems about [DeptMembershipService.v]: an assignment leaves one live
    row at the requested level and publishes the event of the transition it
    made, a demotion is refused while workflows depend on the delegate, and the
    answer of the assignee-eligibility check. *)

From S2P Require Import Prelude Domain Schema Tx Wp.
From S2P Require Import MembershipRepo RoleRepo DeptMembershipRepo TenantDepartmentRepo InvitationRepo TenantRepo CacheKeys.
From S2P Require Import MembershipService DeptMembershipService MembershipSpec RolesSpec.

(** ** Department rows *)

(** The enum column. *)
Definition levels_typed (l : list DeptMembership) : Prop := Forall (λ x, dept_role_known (dm_RoleLevel x) = true) l.

(** Ids are distinct, levels are labels of the enum, and a user has at most one
    live row in a department. *)
Definition dept_wf (d : DB) : Prop :=
  NoDup (dm_ID <$> dept_memberships d) ∧ levels_typed (dept_memberships d) ∧
  ∀ t u x, count (dm_at t u x) (dept_memberships d) <= 1.

(** The live row of a user in a department. *)
Definition dept_row (tid uid did : uuid) (d : DB) : option DeptMembership :=
  select_first (dm_at tid uid did) (dept_memberships d).

Definition fresh_dept_id `{Env} (w : World) : Prop :=
  ∀ x, x ∈ dept_memberships (w_db w) → dm_ID x ≠ uuid_New (w_uuids w).

Lemma dm_at_split tid uid did x :
  dm_at tid uid did x = true ↔ dm_TenantID x = tid ∧ dm_UserID x = uid ∧ dm_DepartmentID x = did ∧ dm_live x = true.
Proof. unfold dm_at. rewrite andb_true_iff, dm_of_split, Z.eqb_eq. tauto. Qed.

Lemma dept_deleted_slot now x t u y : dm_at t u y (dept_deleted now x) = false.
Proof. apply not_true_iff_false. rewrite dm_at_split, dept_deleted_live. by intros (_ & _ & _ & ?). Qed.

(** Soft-deleting one row. *)
Definition drop_row (now : time) (e : DeptMembership) (l : list DeptMembership) : list DeptMembership :=
  update_where (λ r, dm_ID r =? dm_ID e) (dept_deleted now) l.

Lemma drop_row_ids now e l : dm_ID <$> drop_row now e l = dm_ID <$> l.
Proof.
  unfold drop_row, update_where. induction l as [|x l IH]; [done|]. simpl. f_equal; [|exact IH].
  destruct (_ =? _); [|done]. unfold dept_deleted. by rewrite (touched_column dm_ID).
Qed.

Lemma drop_row_fresh now e l (id : uuid) :
  (∀ x, x ∈ l → dm_ID x ≠ id) → ∀ x, x ∈ drop_row now e l → dm_ID x ≠ id.
Proof.
  intros Hf x Hx. assert (dm_ID x ∈ dm_ID <$> l) as Hin
    by (rewrite <- (drop_row_ids now e); by apply list_elem_of_fmap_2).
  apply list_elem_of_fmap in Hin as (y & -> & Hy). by apply Hf.
Qed.

Lemma drop_row_typed now e l : levels_typed l → levels_typed (drop_row now e l).
Proof.
  unfold levels_typed. rewrite !Forall_forall. intros Hl x (y & Hy & ->)%elem_of_update_where.
  destruct (_ =? _); [|by apply Hl]. unfold dept_deleted. rewrite (touched_column dm_RoleLevel) by done. exact (Hl y Hy).
Qed.

Lemma id_unique (l : list DeptMembership) x y :
  NoDup (dm_ID <$> l) → x ∈ l → y ∈ l → dm_ID x = dm_ID y → x = y.
Proof.
  induction l as [|z l IH]; [by intros _ Hx%list.not_elem_of_nil|]. rewrite fmap_cons, NoDup_cons.
  intros [Hz Hn] Hx Hy E. apply list.elem_of_cons in Hx, Hy. destruct Hx as [->|Hx], Hy as [->|Hy]; [done|..|auto].
  - destruct Hz. rewrite E. by apply list_elem_of_fmap_2.
  - destruct Hz. rewrite <- E. by apply list_elem_of_fmap_2.
Qed.

Section drop.
  Context (tid uid did : uuid) (now : time) (e : DeptMembership) (d : DB).
  Context (Hwf : dept_wf d) (He : dept_row tid uid did d = Some e).

Lemma drop_row_slot : count (dm_at tid uid did) (drop_row now e (dept_memberships d)) = 0.
Proof.
  unfold drop_row. rewrite count_update_out by (intros; apply dept_deleted_slot).
  apply Z.eqb_eq. rewrite count_eqb_0. apply negb_true_iff, exists_row_false. intros x Hx.
  destruct (dm_at tid uid did x) eqn:Ex; [simpl|done]. apply negb_false_iff, Z.eqb_eq. f_equal.
  by eapply (unique_eq (dm_at tid uid did)); [exact He|apply Hwf|..].
Qed.

Lemma drop_row_others t u y :
  (t, u, y) ≠ (tid, uid, did) →
  select (dm_at t u y) (drop_row now e (dept_memberships d)) = select (dm_at t u y) (dept_memberships d).
Proof.
  intros Hne. unfold drop_row. rewrite select_update_out by (intros; apply dept_deleted_slot).
  apply select_ext. intros x Hx. destruct (dm_at t u y x) eqn:Ex; [simpl|done]. apply negb_true_iff, Z.eqb_neq.
  intros E. apply Hne. apply select_first_Some in He as [Hin Hat].
  rewrite (id_unique _ x e (proj1 Hwf) Hx Hin E) in Ex.
  apply dm_at_split in Ex as (<- & <- & <- & _). apply dm_at_split in Hat as (<- & <- & <- & _). done.
Qed.
End drop.

(** ** Assignment *)

Section assign.
  Context `{Env} (tid uid did mid actor : uuid) (level : DeptRole).

Definition assigned_row (id : uuid) (now : time) : DeptMembership :=
  mkDeptMembership id tid uid mid did level actor 1 now now None.

(** What an assignment leaves: the row returned is the user's only live row
    in the department and is at the level, every other slot of the table is as
    it was, and nothing changed in another table. *)
Record placed (row : DeptMembership) (d d' : DB) : Prop := {
  pl_row : dept_row tid uid did d' = Some row ∧ dm_RoleLevel row = level;
  pl_wf : dept_wf d';
  pl_others : ∀ t u y, (t, u, y) ≠ (tid, uid, did) →
    select (dm_at t u y) (dept_memberships d') = select (dm_at t u y) (dept_memberships d);
  pl_rest : ∃ l, d' = set_dept_memberships l d ∧ ∀ x, x ∈ l → x = row ∨ dm_ID x ∈ dm_ID <$> dept_memberships d
}.

(** That, and the event of the transition from the previous row. *)
Definition assigned (row : DeptMembership) (d d' : DB) : Prop :=
  ∃ d1, placed row d d1 ∧
    d' = enqueued (emitted (option_list (assign_event tid uid did level actor (dept_row tid uid did d)))) d1.

Definition dept_refs (d : DB) : Prop :=
  exists_row (t_is tid) (tenants d) = true ∧ exists_row (td_is tid did) (tenant_departments d) = true ∧
  exists_row (λ m, (tm_ID m =? mid) && (tm_TenantID m =? tid) && (tm_UserID m =? uid)) (tenant_memberships d) = true.

Lemma assigned_row_at id now t u y : dm_at t u y (assigned_row id now) = (tid =? t) && (uid =? u) && (did =? y).
Proof. unfold dm_at, dm_of. simpl. by rewrite andb_true_r. Qed.

(** A row appended to a free slot. *)
Lemma append_placed id now l d :
  dm_ID <$> l = dm_ID <$> dept_memberships d → (∀ x, x ∈ l → dm_ID x ≠ id) → count (dm_at tid uid did) l = 0 →
  (∀ t u y, (t, u, y) ≠ (tid, uid, did) → select (dm_at t u y) l = select (dm_at t u y) (dept_memberships d)) →
  dept_role_known level = true → levels_typed l → dept_wf d →
  placed (assigned_row id now) d (set_dept_memberships (l ++ [assigned_row id now]) d).
Proof.
  intros Hids Hid H0 Hoth Hlv Hty Hwf.
  assert (∀ t u y, (t, u, y) ≠ (tid, uid, did) → select (dm_at t u y) (l ++ [assigned_row id now]) =
                   select (dm_at t u y) (dept_memberships d)) as Ho.
  { intros t u y Hne. rewrite select_app, Hoth by done. simpl. rewrite assigned_row_at.
    destruct ((tid =? t) && (uid =? u) && (did =? y)) eqn:E; [|apply app_nil_r]. exfalso. apply Hne.
    apply andb_true_iff in E as [[->%Z.eqb_eq ->%Z.eqb_eq]%andb_true_iff ->%Z.eqb_eq]. done. }
  assert (select (dm_at tid uid did) (l ++ [assigned_row id now]) = [assigned_row id now]) as Hs.
  { rewrite select_app. rewrite count_select in H0. simpl. rewrite assigned_row_at, !Z.eqb_refl.
    by destruct (select (dm_at tid uid did) l). }
  split; simpl.
  - split; [|done]. unfold dept_row. simpl.
    apply (f_equal head) in Hs. by rewrite select_head in Hs.
  - split_and!; simpl.
    + rewrite fmap_app, Hids. apply NoDup_app. split_and!; [apply Hwf| |apply NoDup_singleton].
      intros i Hi Hj. rewrite <- Hids in Hi. apply list_elem_of_fmap in Hi as (x & -> & Hx). simpl in Hj.
      apply list_elem_of_singleton in Hj. by apply (Hid x Hx).
    + by apply Forall_app_2, Forall_singleton.
    + intros t u y. rewrite count_select. destruct (decide ((t, u, y) = (tid, uid, did))) as [[= -> -> ->]|Hne].
      * by rewrite Hs.
      * rewrite Ho, <- count_select by done. apply Hwf.
  - done.
  - eexists. split; [done|]. intros x Hx. apply elem_of_app in Hx as [Hx|Hx%list_elem_of_singleton]; [right|by left].
    rewrite <- Hids. by apply list_elem_of_fmap_2.
Qed.

(** Inserting at a free slot. *)
Lemma wp_insert_level now w (Q : result error DeptMembership → World → Prop) :
  w_txnow w = Some now → dept_role_known level = true → dept_refs (w_db w) → fresh_dept_id w →
  count (dm_at tid uid did) (dept_memberships (w_db w)) = 0 →
  (let row := assigned_row (uuid_New (w_uuids w)) now in
   Q (Ok row) (set_w_db (set_dept_memberships (dept_memberships (w_db w) ++ [row]) (w_db w))
                        (set_w_uuids (S (w_uuids w)) w))) →
  wp (insert_level tid uid did mid level actor) Q w.
Proof.
  intros Ht Hl (Hr1 & Hr2 & Hr3) Hf H0 HQ. unfold insert_level. apply wp_bind, wp_new_uuid, wp_bind, wp_sql.
  unfold now_in, insert_dept_membership. simpl. rewrite Ht, Hl. simpl.
  apply Z.eqb_eq in H0. rewrite count_eqb_0 in H0. apply negb_true_iff in H0. rewrite H0.
  replace (exists_row (λ r, dm_ID r =? uuid_New (w_uuids w)) (dept_memberships (w_db w))) with false.
  2: { symmetry. apply exists_row_false. intros x Hx. by apply Z.eqb_neq, Hf. }
  unfold fk_tenant, fk_tenant_dept, fk_membership. unfold td_is in Hr2. rewrite Hr1, Hr2, Hr3. simpl. by apply wp_ret.
Qed.

(** The whole of the repository's [Assign]. *)
Lemma wp_repo_Assign now w (Q : result error (DeptMembership * option DeptMembership) → World → Prop) :
  w_txnow w = Some now → dept_role_known level = true → dept_refs (w_db w) → fresh_dept_id w →
  dept_wf (w_db w) →
  (∀ row w', placed row (w_db w) (w_db w') → flows w w' → (w_uuids w <= w_uuids w')%nat →
     (row = assigned_row (uuid_New (w_uuids w)) now ∧ w_uuids w' = S (w_uuids w) ∨ dept_row tid uid did (w_db w) = Some row) →
     Q (Ok (row, dept_row tid uid did (w_db w))) w') →
  wp (DeptMembershipRepo.Assign tid uid did mid level actor) Q w.
Proof.
  intros Ht Hl Hr Hf Hwf HQ. unfold DeptMembershipRepo.Assign.
  eapply (wp_in_tx now); [done|]. apply wp_bind, wp_query.
  fold (dept_row tid uid did (w_db w)). destruct (dept_row tid uid did (w_db w)) as [e|] eqn:Ee; simpl.
  - destruct (dm_RoleLevel e ==? level)%stdpp eqn:El.
    + apply wp_ret. rewrite bool_eq_true in El. apply HQ; [|done|done|by right]. split; [done|done|done|].
      exists (dept_memberships (w_db w)). split; [by destruct (w_db w)|]. intros x Hx. right. by apply list_elem_of_fmap_2.
    + apply wp_bind, wp_sql. simpl. unfold now_in. rewrite Ht. fold (dept_deleted now).
      fold (drop_row now e (dept_memberships (w_db w))). apply wp_bind, (wp_insert_level now); [done|done|done| | |].
      * intros x. simpl. by apply drop_row_fresh.
      * simpl. by eapply drop_row_slot.
      * apply wp_ret. apply HQ; [|done|simpl; lia|by left].
        apply (append_placed _ now (drop_row now e (dept_memberships (w_db w))) (w_db w)).
        -- apply drop_row_ids.
        -- intros x. by apply drop_row_fresh.
        -- by eapply drop_row_slot.
        -- intros t u y. by apply drop_row_others.
        -- done.
        -- apply drop_row_typed, Hwf.
        -- done.
  - assert (count (dm_at tid uid did) (dept_memberships (w_db w)) = 0) as H0.
    { apply Z.eqb_eq. rewrite count_eqb_0, exists_row_first. unfold dept_row in Ee. by rewrite Ee. }
    apply wp_bind, (wp_insert_level now); [done..|]. apply wp_ret. apply HQ; [|done|simpl; lia|by left]. simpl.
    apply append_placed; [done|apply Hf|done|done|done|apply Hwf|done].
Qed.

Lemma assign_event_valid d ev :
  dept_role_known level = true → dept_wf d →
  assign_event tid uid did level actor (dept_row tid uid did d) = Some ev → event_valid ev = true.
Proof.
  intros Hl (_ & Hty & _). unfold assign_event. destruct (dept_row tid uid did d) as [p|] eqn:Ep.
  - destruct (_ ==? _)%stdpp; [done|]. intros [= <-]. apply select_first_Some in Ep as [Hin _].
    cbn. by rewrite (proj1 (Forall_forall _ _) Hty p Hin).
  - by intros [= <-].
Qed.

(** With the event after it. *)
Lemma wp_assign_tx now w (Q : result error DeptMembership → World → Prop) :
  codec_schemas → w_txnow w = Some now → dept_role_known level = true → dept_refs (w_db w) → fresh_dept_id w →
  dept_wf (w_db w) →
  (∀ row w', assigned row (w_db w) (w_db w') → flows w w' → Q (Ok row) w') →
  wp (assign_tx tid uid did mid level actor) Q w.
Proof.
  intros Hc Ht Hl Hr Hf Hwf HQ. unfold assign_tx. apply wp_bind, (wp_repo_Assign now); [done..|].
  intros row w1 Hp Hfl _ _. unfold assigned in HQ.
  destruct (assign_event _ _ _ _ _ _) as [ev|] eqn:Eev; simpl in *.
  - apply wp_bind, (wp_publish Hc _ _ now); [by rewrite (proj1 (proj2 Hfl))|by eapply assign_event_valid|]. apply wp_ret. apply HQ; [by eexists|].
    by etrans.
  - apply wp_bind, wp_ret, wp_ret. apply HQ; [|done]. eexists. split; [done|]. by rewrite emitted_nil, enqueued_nil.
Qed.
End assign.

(** ** The service *)

Section checks.
  Context (tid uid did : uuid).

(** The member's status, and the tenant's department. *)
Definition member_active (d : DB) : bool :=
  match select_first (tm_of tid uid) (tenant_memberships d) with
  | Some m => tm_Status m ==? MembershipActive
  | None => false
  end.
Definition dept_open (d : DB) : bool :=
  match select_first (td_is tid did) (tenant_departments d) with
  | Some td => td_IsActive td
  | None => false
  end.

Lemma wp_own_Find (Q : result error TenantDepartment → World → Prop) w :
  alone w →
  match select_first (td_is tid did) (tenant_departments (w_db w)) with
  | Some td => Q (Ok td) w
  | None => Q (Err dept_not_found) w
  end → wp (TenantDepartmentRepo.Find tid did) Q w.
Proof.
  intros Ha HQ. apply wp_own_tx; [done|]. eapply (wp_in_tx (w_clock w)); [done|].
  apply wp_on_no_rows, wp_query_row. simpl. destruct (select_first _ _); simpl.
  - by rewrite started_stop.
  - apply wp_throw. simpl. by rewrite started_stop_db.
Qed.

(** The level the user has in the department, as the program finds it. *)
Lemma listed_row d :
  dept_wf d →
  select_first (λ x, dm_DepartmentID x =? did) (isort by_department (select (dm_of tid uid) (dept_memberships d))) =
  dept_row tid uid did d.
Proof.
  intros Hwf. unfold dept_row. rewrite (select_first_perm _ (select (dm_of tid uid) (dept_memberships d))).
  - apply select_first_select.
  - symmetry. apply isort_perm.
  - destruct Hwf as (_ & _ & Hc). rewrite count_select, select_select. apply (Hc tid uid did).
Qed.

Lemma wp_own_depts (Q : result error (list DeptMembership) → World → Prop) w :
  alone w → Q (Ok (isort by_department (select (dm_of tid uid) (dept_memberships (w_db w))))) w →
  wp (DeptMembershipRepo.ListByUser tid uid) Q w.
Proof.
  intros Ha HQ. apply wp_own_tx; [done|]. eapply (wp_in_tx (w_clock w)); [done|]. apply wp_query. simpl.
  by rewrite started_stop.
Qed.
End checks.

Section service_theorems.
  Context `{Env} `{CatalogReader} (tid uid did actor : uuid) (level : DeptRole).

(** The catalog, when there is one, has the department and it is active,
    whatever was called before. *)
Definition catalog_open (w : World) : Prop :=
  has_catalog = true → ∀ cs, ∃ x, (DepartmentByID did (set_w_calls cs w)).1 = Ok x ∧ d_IsActive x = true.

(** The assignment is not a demotion. *)
Definition level_kept (d : DB) : Prop := ∀ x, dept_row tid uid did d = Some x → Rank (dm_RoleLevel x) <= Rank level.

Lemma wp_check_department w :
  alone w →
  wp (check_department tid did)
     (λ r w', same w w' ∧ (is_ok r = true → dept_open tid did (w_db w) = true) ∧
              (catalog_open w → dept_open tid did (w_db w) = true → is_ok r = true)) w.
Proof.
  intros Ha. unfold check_department. apply wp_bind.
  assert (∀ w1, same w w1 →
    wp (let! r := tryM (TenantDepartmentRepo.Find tid did) in
        match r with
        | Err e => if errors_Is e ErrDepartmentNotFound
                   then throw (fail_with ErrDepartmentDeactivated "department is not activated for this tenant")
                   else throw e
        | Ok td => throw_if (negb (td_IsActive td))
                     (fail_with ErrDepartmentDeactivated "department is deactivated for this tenant")
        end)
       (λ r w', same w w' ∧ (is_ok r = true → dept_open tid did (w_db w) = true) ∧
                (catalog_open w → dept_open tid did (w_db w) = true → is_ok r = true)) w1) as Hrest.
  { intros w1 Hs. apply wp_bind, wp_try, wp_own_Find; [by eapply alone_same|]. unfold dept_open.
    rewrite (proj1 Hs). destruct (select_first _ _) as [td|].
    - apply wp_throw_if. by destruct (td_IsActive td).
    - simpl. by apply wp_throw. }
  destruct has_catalog eqn:Ec; [|by apply wp_ret, Hrest].
  apply wp_bind, wp_elim. intros r w1 E.
  assert (same w w1) as Hs by (pose proof (DepartmentByID_aside did w) as Hd; by rewrite E in Hd).
  assert (catalog_open w → ∃ x, r = Ok x ∧ d_IsActive x = true) as Ho
    by (intros Ho; specialize (Ho Ec (w_calls w)); replace (set_w_calls _ w) with w in Ho by (by destruct w);
        by rewrite E in Ho).
  destruct r as [x|e].
  - apply wp_throw_if. destruct (d_IsActive x) eqn:Ex; simpl; [by apply Hrest|]. split_and!; [done..|].
    intros Hc. destruct (Ho Hc) as (y & Ey & Hy). congruence.
  - split_and!; [done..|]. intros Hc. by destruct (Ho Hc) as (y & Ey & Hy).
Qed.

Lemma wp_active_member w (Q : result error TenantMembership → World → Prop) :
  alone w →
  match select_first (tm_of tid uid) (tenant_memberships (w_db w)) with
  | Some m => if (tm_Status m ==? MembershipActive)%stdpp then Q (Ok m) w else ∀ e, Q (Err e) w
  | None => ∀ e, Q (Err e) w
  end → wp (active_member tid uid) Q w.
Proof.
  intros Ha HQ. unfold active_member. apply wp_bind, wp_try, wp_own_FindByUserID; [done|].
  destruct (select_first _ _) as [m|]; [|by apply wp_throw]. apply wp_bind, wp_throw_if.
  destruct (_ ==? _)%stdpp; simpl; [by apply wp_ret|done].
Qed.

(** The row the demotion gate looks at. *)
Lemma wp_demotionGate w :
  alone w → dept_wf (w_db w) →
  wp (demotionGate tid uid did level)
     (λ r w', same w w' ∧ (level_kept (w_db w) → r = Ok tt)) w.
Proof.
  intros Ha Hwf. unfold demotionGate. destruct (negb has_workflow); [by apply wp_ret|].
  apply wp_bind, wp_try, wp_own_depts; [done|]. rewrite listed_row by done. unfold level_kept.
  destruct (dept_row tid uid did (w_db w)) as [x|]; [|by apply wp_ret].
  destruct (Rank (dm_RoleLevel x) <=? Rank level) eqn:El; [by apply wp_ret|].
  apply Z.leb_gt in El.
  assert ((∀ y, Some x = Some y → Rank (dm_RoleLevel y) <= Rank level) → False) as Hno
    by (intros Hk; specialize (Hk x eq_refl); lia).
  unfold deptDelegateOrDegrade. apply wp_bind. destruct (negb has_delegationCheck); [by apply wp_ret, wp_ret|].
  apply wp_bind, wp_call. destruct (dc_DeptDelegate _ _ _ _) as [[id|]|e]; [|by apply wp_ret, wp_ret..].
  apply wp_ret. apply wp_bind, wp_call. destruct (wf_GetDelegateImpact _ _ _ _) as [imp|e]; [|by apply wp_ret].
  apply wp_throw_if. destruct (negb _); (split; [done|]); intros Hk; [by destruct Hno|done].
Qed.

(** What the service requires of an assignment. *)
Definition may_assign (w : World) : Prop :=
  dept_role_known level = true ∧ service_account tid uid w = false ∧
  dept_open tid did (w_db w) = true ∧ member_active tid uid (w_db w) = true.

(** C21: assigning a department role (P-9).  With nothing else running,
    [Assign] succeeds only for a known level, a person, a department the tenant
    has active and an active member, and then the user's only live row in the
    department is at that level, all other rows are as they were, and the one
    event published is that of the transition: granted, level changed with the
    level before, or none.  It fails only when one of those conditions fails,
    the catalog does not have the department active, or the change is a
    demotion; the database is then unchanged. *)
Theorem Assign_spec w r w' :
  codec_schemas → alone w → dept_wf (w_db w) → fresh_dept_id w → exists_row (t_is tid) (tenants (w_db w)) = true →
  DeptMembershipService.Assign tid uid did level actor w = (r, w') →
  match r with
  | Ok row => may_assign w ∧ assigned tid uid did actor level row (w_db w) (w_db w')
  | Err _ => w_db w' = w_db w ∧ ~ (may_assign w ∧ catalog_open w ∧ level_kept (w_db w))
  end.
Proof.
  intros Hc Ha Hwf Hf Ht E. revert r w' E. apply wp_intro. unfold DeptMembershipService.Assign, may_assign.
  apply wp_bind, wp_throw_if. destruct (dept_role_known level) eqn:El; simpl; [|by split; [|intros [[? _] _]]].
  apply wp_bind, wp_isServiceAccount_calls. intros cs. apply wp_bind, wp_throw_if.
  destruct (service_account tid uid w); [by split; [|intros [(_ & ? & _) _]]|].
  assert (same w (set_w_calls cs w)) as S1 by done. set (w1 := set_w_calls cs w) in *.
  assert (catalog_open w → catalog_open w1) as Hopen by (intros Ho Hc' cs'; by apply Ho). apply wp_bind.
  eapply wp_mono; [apply wp_check_department; by eapply alone_same|]. change (w_db w1) with (w_db w).
  intros [[]|e] w2 (S2 & Hnec & Hsuf); simpl in *.
  2: { split; [by rewrite (proj1 S2)|]. intros [(_ & _ & Ho & _) [Hcat _]]. by specialize (Hsuf (Hopen Hcat) Ho). }
  specialize (Hnec eq_refl). rewrite Hnec. assert (same w w2) as S2' by (by transitivity w1).
  apply wp_bind, wp_active_member; [by eapply alone_same|]. rewrite (proj1 S2'). unfold member_active.
  destruct (select_first (tm_of tid uid) _) as [m|] eqn:Em; [|by intros e; split; [|intros [(_ & _ & _ & ?) _]]].
  destruct (_ ==? _)%stdpp; [|by intros e; split; [|intros [(_ & _ & _ & ?) _]]].
  apply wp_bind. eapply wp_mono; [apply wp_demotionGate; [by eapply alone_same|by rewrite (proj1 S2')]|].
  rewrite (proj1 S2'). intros [[]|e] w3 [S3 Hk]; simpl in *.
  2: { split; [by rewrite (proj1 S3), (proj1 S2')|]. intros [_ [_ Hkept]]. by specialize (Hk Hkept). }
  assert (same w w3) as S3' by (by transitivity w2). destruct S3' as (D3 & U3 & F3).
  apply wp_bind, wp_RunInTx_alone; [by eapply alone_flows|].
  apply (wp_assign_tx tid uid did (tm_ID m) actor level (w_clock w3)); [done|done|done| | |by rewrite <- D3 in Hwf|].
  - simpl. rewrite D3. apply select_first_Some in Em as [Hin (Et & Eu & _)%tm_of_split]. split_and!; [done| |].
    + unfold dept_open in Hnec. destruct (select_first (td_is tid did) _) as [td|] eqn:Etd; [|done].
      apply exists_row_true. exists td. by apply select_first_Some.
    + apply exists_row_true. exists m. by rewrite Et, Eu, !Z.eqb_refl.
  - intros x. simpl. rewrite D3, U3. apply Hf.
  - intros row w4 Has _. apply wp_bind, (wp_quiet _ _ _ (quiet_evict _)). intros w5 Hd5 _. apply wp_ret.
    split; [done|]. rewrite Hd5. simpl in *. by rewrite <- D3.
Qed.

(** The demotion gate refuses: the user has a higher level in the department,
    is somebody's delegate there, and workflows depend on it.  The two services
    answer in this order. *)
Definition gate_blocks (w : World) : bool :=
  has_workflow && has_delegationCheck &&
  match dept_row tid uid did (w_db w), dc_DeptDelegate (length (w_calls w)) tid uid did with
  | Some x, Ok (Some id) =>
      (Rank level <? Rank (dm_RoleLevel x)) &&
      match wf_GetDelegateImpact (S (length (w_calls w))) tid uid (Some id) with
      | Ok impact => negb (di_ActiveWorkflows impact =? 0)
      | Err _ => false
      end
  | _, _ => false
  end.

(** The demotion gate of an assignment (WFI-9, WFI-12).  With nothing else running
    it refuses exactly when the user would be demoted in the department while
    workflows depend on them as a delegate, with
    [workflow_resolution_required]; when the delegation or the workflow service
    is missing, down or has no delegate, it lets the change through.  The
    database is read only. *)
Theorem demotionGate_spec w r w' :
  alone w → dept_wf (w_db w) → demotionGate tid uid did level w = (r, w') →
  w_db w' = w_db w ∧
  if gate_blocks w then ∃ e, r = Err e ∧ errors_Is e ErrWorkflowResolutionRequired = true else r = Ok tt.
Proof.
  intros Ha Hwf E. revert r w' E. apply wp_intro. unfold demotionGate, gate_blocks.
  destruct has_workflow; simpl; [|by apply wp_ret].
  apply wp_bind, wp_try, wp_own_depts; [done|]. rewrite listed_row by done.
  destruct (dept_row tid uid did (w_db w)) as [x|]; [|destruct has_delegationCheck; by apply wp_ret].
  unfold deptDelegateOrDegrade.
  destruct (Rank (dm_RoleLevel x) <=? Rank level) eqn:El.
  { apply wp_ret. split; [done|]. replace (Rank level <? Rank (dm_RoleLevel x)) with false.
    2: { symmetry. apply Z.ltb_ge. by apply Z.leb_le. }
    by destruct has_delegationCheck, (dc_DeptDelegate _ _ _ _) as [[]|]. }
  replace (Rank level <? Rank (dm_RoleLevel x)) with true by (symmetry; apply Z.ltb_lt; by apply Z.leb_gt).
  apply wp_bind. destruct has_delegationCheck; simpl; [|by apply wp_ret, wp_ret].
  apply wp_bind, wp_call. destruct (dc_DeptDelegate _ _ _ _) as [[id|]|e]; simpl; [|by apply wp_ret, wp_ret..].
  apply wp_ret. apply wp_bind, wp_call. simpl. rewrite length_app, Nat.add_1_r.
  destruct (wf_GetDelegateImpact _ _ _ _) as [imp|e]; [|by apply wp_ret].
  apply wp_throw_if. destruct (negb _); [|done]. split; [done|]. by eexists.
Qed.

(** *** Eligibility *)

(** The user's level in the department, when they have one. *)
Definition level_in (d : DB) : option DeptRole := dm_RoleLevel <$> dept_row tid uid did d.

(** The answer, from the four facts it depends on. *)
Definition eligibility (d : DB) : AssigneeEligibility :=
  if negb (exists_row (tm_of tid uid) (tenant_memberships d)) then mkAssigneeEligibility false EligibilityNotMember None
  else if negb (member_active tid uid d) then mkAssigneeEligibility false EligibilityMemberNotActive None
  else if negb (dept_open tid did d) then mkAssigneeEligibility false EligibilityDepartmentNotActive None
  else match level_in d with
       | None => mkAssigneeEligibility false EligibilityNotInDepartment None
       | Some l => if Satisfies l level then mkAssigneeEligibility true EligibilityNone (Some l)
                   else mkAssigneeEligibility false EligibilityLevelInsufficient (Some l)
       end.

(** C23: the assignee check (I-19).  For a required level that exists, with
    nothing else running, [CheckEligibility] answers, changes nothing, and says
    yes exactly when the user is an active member, the department is active
    for the tenant, and the user's level there is at least the one required;
    otherwise the reason names the first of these that fails. *)
Theorem CheckEligibility_spec w r w' :
  alone w → dept_wf (w_db w) → dept_role_known level = true →
  CheckEligibility tid uid did level w = (r, w') →
  w' = w ∧ r = Ok (eligibility (w_db w)) ∧
  (ae_Eligible (eligibility (w_db w)) = true ↔
   member_active tid uid (w_db w) = true ∧ dept_open tid did (w_db w) = true ∧
   ∃ l, level_in (w_db w) = Some l ∧ Rank level <= Rank l).
Proof.
  intros Ha Hwf Hl E.
  assert (w' = w ∧ r = Ok (eligibility (w_db w))) as [-> ->].
  { revert r w' E. apply wp_intro. unfold CheckEligibility, eligibility, member_active, dept_open, level_in.
    apply wp_bind, wp_throw_if. replace (Rank level <? 0) with false by (by destruct level).
    apply wp_bind, wp_try, wp_own_FindByUserID; [done|]. rewrite exists_row_first.
    destruct (select_first (tm_of tid uid) _) as [m|]; simpl; [|by apply wp_ret].
    destruct (_ ==? _)%stdpp; simpl; [|by apply wp_ret].
    apply wp_bind, wp_try, wp_own_Find; [done|].
    destruct (select_first (td_is tid did) _) as [td|]; simpl; [|by apply wp_ret].
    destruct (td_IsActive td); simpl; [|by apply wp_ret].
    apply wp_bind, wp_own_depts; [done|]. rewrite listed_row by done.
    destruct (dept_row tid uid did (w_db w)) as [x|]; simpl; [|by apply wp_ret].
    destruct (Satisfies _ _); by apply wp_ret. }
  split_and!; [done..|]. unfold eligibility.
  assert (member_active tid uid (w_db w) = true → exists_row (tm_of tid uid) (tenant_memberships (w_db w)) = true) as Hm
    by (unfold member_active; rewrite exists_row_first; by destruct (select_first _ _)).
  destruct (member_active tid uid (w_db w)); [rewrite Hm by done|]; simpl.
  2: { destruct (exists_row _ _); simpl; naive_solver. }
  destruct (dept_open tid did (w_db w)); simpl; [|naive_solver].
  destruct (level_in (w_db w)) as [l|]; simpl; [|naive_solver].
  assert (Satisfies l level = true ↔ Rank level <= Rank l) as Hs 
    by (unfold Satisfies; destruct l, level; try done; simpl; split; try done; lia).
  destruct (Satisfies l level); simpl; naive_solver.
Qed.
End service_theorems.
