(* ===== verification/TextSpec.v ===== *)
(** * TextSpec: the formats of slugs and addresses

    What the hand-written checks of [InvitationService.v] and
    [ProvisioningService.v] accept. *)

From Stdlib Require Import Ascii.
From S2P Require Import Prelude Domain Schema Tx InvitationService ProvisioningService.

(** ** Slugs *)

Lemma length_list_ascii s : length (String.list_ascii_of_string s) = String.length s.
Proof. induction s as [|c s IH]; [done|]. simpl. by rewrite IH. Qed.

Lemma forallb_rev {A} (p : A → bool) l : forallb p (rev l) = forallb p l.
Proof.
  induction l as [|x l IH]; [done|]. simpl. rewrite forallb_app, IH. simpl. rewrite andb_true_r. apply andb_comm.
Qed.

(** Strings with a first, a last and between [lo] and [hi] middle characters, the
    ends lower-case letters or digits, the middle ones hyphens as well. *)
Definition slug_shape (lo hi : nat) (s : string) : Prop :=
  ∃ c mid z, String.list_ascii_of_string s = c :: mid ++ [z] ∧
    slug_end c = true ∧ slug_end z = true ∧ forallb slug_mid mid = true ∧ (lo <= length mid <= hi)%nat.

Lemma slug_shape_length lo hi s : slug_shape lo hi s → (lo + 2 <= String.length s <= hi + 2)%nat.
Proof.
  intros (c & mid & z & E & _ & _ & _ & Hl). apply (f_equal (@length _)) in E.
  rewrite length_list_ascii in E. simpl in E. rewrite length_app in E. simpl in E. lia.
Qed.

(** The same shape within other bounds. *)
Lemma slug_shape_bounds lo hi lo' hi' s :
  slug_shape lo hi s → (lo' + 2 <= String.length s <= hi' + 2)%nat → slug_shape lo' hi' s.
Proof.
  intros (c & mid & z & E & Hc & Hz & Hm & _) Hl. exists c, mid, z. split_and!; try done;
    apply (f_equal (@length _)) in E; rewrite length_list_ascii in E; simpl in E; rewrite length_app in E; simpl in E; lia.
Qed.

(** A first character and the rest read backwards. *)
Lemma slug_shape_rev lo hi s c rest :
  String.list_ascii_of_string s = c :: rest →
  slug_shape lo hi s ↔
  match rev rest with
  | [] => False
  | z :: mid => slug_end c = true ∧ slug_end z = true ∧ forallb slug_mid mid = true ∧ (lo <= length mid <= hi)%nat
  end.
Proof.
  intros Es. unfold slug_shape. rewrite Es.
  destruct (rev rest) as [|z mid] eqn:E; (apply (f_equal (@rev _)) in E; rewrite rev_involutive in E; simpl in E); subst rest.
  - split; [|done]. intros (a & m & b & E & _). by destruct m.
  - split.
    + intros (a & m & b & [= <- E] & Ha & Hb & Hm & Hl). apply app_inj_tail in E as [<- <-].
      by rewrite length_rev in Hl; rewrite forallb_rev in Hm.
    + intros (Hc & Hz & Hm & Hl). exists c, (rev mid), z. by rewrite length_rev, forallb_rev.
Qed.

Lemma isValidSlug_shape s : isValidSlug s = true ↔ slug_shape 1 61 s.
Proof.
  split; intros Hs.
  - unfold isValidSlug, slugRe in Hs. apply andb_true_iff in Hs as [[H3 _]%andb_true_iff Hs].
    apply Nat.leb_le in H3. rewrite <- length_list_ascii in H3.
    destruct (String.list_ascii_of_string s) as [|c rest] eqn:Es; [done|]. rewrite (slug_shape_rev _ _ _ _ _ Es).
    simpl in H3.
    apply andb_true_iff in Hs as [Hc Hs]. destruct (rev rest) as [|z mid] eqn:E.
    + apply (f_equal (@length _)) in E. rewrite length_rev in E. simpl in E. lia.
    + rewrite !andb_true_iff, !Nat.leb_le in Hs. tauto.
  - pose proof (slug_shape_length _ _ _ Hs) as [H3 H63]. unfold isValidSlug, slugRe.
    rewrite !andb_true_iff, !Nat.leb_le. split; [lia|].
    destruct (String.list_ascii_of_string s) as [|c rest] eqn:Es; [by destruct Hs as (? & ? & ? & ? & _); congruence|].
    rewrite (slug_shape_rev _ _ _ _ _ Es) in Hs. destruct (rev rest) as [|z mid]; [done|].
    rewrite !andb_true_iff, !Nat.leb_le. tauto.
Qed.

Lemma pattern_end_slug c : pattern_end c = slug_end c.
Proof. by destruct c as [[] [] [] [] [] [] [] []]. Qed.

Lemma pattern_mid_slug c : pattern_mid c = slug_mid c.
Proof. by destruct c as [[] [] [] [] [] [] [] []]. Qed.

Lemma slug_pattern_shape s : slug_pattern s = true ↔ slug_shape 2 62 s.
Proof.
  unfold slug_pattern. destruct (String.list_ascii_of_string s) as [|c rest] eqn:Es.
  { split; [done|]. intros (? & ? & ? & ? & _). congruence. }
  rewrite (slug_shape_rev _ _ _ _ _ Es). destruct (rev rest) as [|z mid]; [done|].
  rewrite !andb_true_iff, !Nat.leb_le, !pattern_end_slug.
  replace (forallb pattern_mid mid) with (forallb slug_mid mid); [tauto|].
  induction mid as [|x l IH]; [done|]. simpl. by rewrite IH, pattern_mid_slug.
Qed.

(** Of the slugs the service accepts, the event schema accepts those with a
    fourth character. *)
Lemma slug_pattern_valid s : isValidSlug s = true → slug_pattern s = Nat.leb 4 (String.length s).
Proof.
  rewrite isValidSlug_shape. intros Hs. pose proof (slug_shape_length _ _ _ Hs) as Hl.
  apply eq_bool_prop_intro. rewrite !Is_true_true, slug_pattern_shape, Nat.leb_le. split.
  - intros Hp%slug_shape_length. lia.
  - intros H4. eapply slug_shape_bounds; [exact Hs|lia].
Qed.

(** C28: the slug format.  [isValidSlug] accepts exactly the strings of 3 to 63
    lower-case letters, digits and hyphens that neither start nor end with a
    hyphen.  The schema of TenantCreated ([tenant_created.json]) accepts the same
    strings but for the length, 4 to 64: the two disagree exactly on the slugs of
    3 and of 64 characters. *)
Theorem isValidSlug_spec s :
  (isValidSlug s = true ↔ slug_shape 1 61 s) ∧
  (isValidSlug s = true → (slug_pattern s = false ↔ String.length s = 3%nat)) ∧
  (slug_pattern s = true → (isValidSlug s = false ↔ String.length s = 64%nat)).
Proof.
  rewrite <- (not_true_iff_false (isValidSlug s)), <- (not_true_iff_false (slug_pattern s)),
    slug_pattern_shape, isValidSlug_shape.
  split; [done|]. split; intros Hs; pose proof (slug_shape_length _ _ _ Hs) as Hl; split.
  - intros Hn. destruct (decide (String.length s = 3%nat)); [done|]. destruct Hn.
    eapply slug_shape_bounds; [exact Hs|lia].
  - intros H3 Hp%slug_shape_length. lia.
  - intros Hn. destruct (decide (String.length s = 64%nat)); [done|]. destruct Hn.
    eapply slug_shape_bounds; [exact Hs|lia].
  - intros H64 Hp%slug_shape_length. lia.
Qed.

(** ** Addresses *)

Lemma index_at_split s n :
  index_at s = Some n → ∃ a b, s = a +:+ String "@" b ∧ String.length a = n ∧ index_at a = None.
Proof.
  revert n. induction s as [|c s IH]; [done|]. intros n. simpl. destruct (Ascii.eqb c "@") eqn:E.
  - intros [= <-]. apply Ascii.eqb_eq in E as ->. by exists "", s.
  - destruct (index_at s) as [k|]; [|done]. intros [= <-]. destruct (IH k eq_refl) as (a & b & -> & Hl & Ha).
    exists (String c a), b. simpl. by rewrite Hl, E, Ha.
Qed.

Lemma index_at_app a b : index_at a = None → index_at (a +:+ String "@" b) = Some (String.length a).
Proof.
  induction a as [|c a IH]; [done|]. simpl. destruct (Ascii.eqb c "@"); [done|].
  destruct (index_at a); [done|]. intros _. by rewrite IH.
Qed.

Lemma string_length_app a b : String.length (a +:+ b) = (String.length a + String.length b)%nat.
Proof. induction a as [|c a IH]; [done|]. simpl. by rewrite <- IH. Qed.

Lemma substring_all s : String.substring 0 (String.length s) s = s.
Proof. induction s as [|c s IH]; [done|]. simpl. by rewrite IH. Qed.

Lemma substring_tail a b :
  String.substring (String.length a) (String.length b) (a +:+ b) = b.
Proof. induction a as [|c a IH]; [apply substring_all|]. exact IH. Qed.

(** The address format.  [isValidEmail] accepts exactly the strings with
    one [@] that has something on both sides. *)
Theorem isValidEmail_spec s :
  isValidEmail s = true ↔
  ∃ a b, s = a +:+ String "@" b ∧ a ≠ "" ∧ b ≠ "" ∧ index_at a = None ∧ index_at b = None.
Proof.
  assert (∀ a b, isNull (index_at a) = true → isValidEmail (a +:+ String "@" b) =
    Nat.ltb 0 (String.length a) && Nat.ltb 0 (String.length b) && isNull (index_at b)) as Heq.
  { intros a b Ha%isNull_true. unfold isValidEmail. rewrite index_at_app, string_length_app by done. simpl String.length.
    replace (a +:+ String "@" b) with ((a +:+ "@") +:+ b) by (by rewrite string_append_assoc).
    replace (String.length a + 1)%nat with (String.length (a +:+ "@")) by (by rewrite string_length_app).
    replace (String.length a + S (String.length b) - String.length (a +:+ "@"))%nat with (String.length b)
      by (rewrite string_length_app; simpl; lia).
    rewrite substring_tail. f_equal. f_equal.
    apply eq_bool_prop_intro. rewrite !Is_true_true, !Nat.ltb_lt. lia. }
  split.
  - intros Hv. destruct (index_at s) as [n|] eqn:E; [|unfold isValidEmail in Hv; by rewrite E in Hv].
    destruct (index_at_split s n E) as (a & b & -> & _ & Ha). rewrite Heq in Hv by (by apply isNull_true).
    apply andb_true_iff in Hv as [[H1%Nat.ltb_lt H2%Nat.ltb_lt]%andb_true_iff Hb%isNull_true].
    exists a, b. split_and!; [done| | |done|done]; intros ->; simpl in *; lia.
  - intros (a & b & -> & Ha & Hb & Ea & Eb). rewrite Heq by (by apply isNull_true). rewrite Eb.
    by destruct a, b.
Qed.
