(* ===== verification/ProvisioningSpec.v ===== *)
(** * ProvisioningSpec: what tenant creation guarantees

    The theorems about [ProvisioningService.v]: what a trial signup writes, its
    idempotent replay, the slugs it fails on, one trial per e-mail hash, and the
    identity-driven removal of a member. *)

From Stdlib Require Import Ascii.
From S2P Require Import Prelude Domain Schema Tx Wp.
From S2P Require Import MembershipRepo RoleRepo DeptMembershipRepo TenantDepartmentRepo DeptRoleLabelRepo InvitationRepo.
From S2P Require Import MembershipService InvitationService ProvisioningService TenantRepo EventStores CacheKeys.
From S2P Require Import LifecycleSpec MembershipSpec RolesSpec TextSpec.

(** ** Seeding a tenant *)

Section seeding.
  Context `{Env} (tid : uuid) (now : time).

Definition activated (x : uuid) : TenantDepartment := mkTenantDepartment tid x true 1 now now.

Lemma wp_activate_all depts w (Q : result error unit → World → Prop) :
  w_txnow w = Some now → exists_row (t_is tid) (tenants (w_db w)) = true → NoDup depts →
  (∀ x, x ∈ depts → exists_row (td_is tid x) (tenant_departments (w_db w)) = false) →
  Q (Ok tt) (set_w_db (set_tenant_departments (tenant_departments (w_db w) ++ (activated <$> depts)) (w_db w)) w) →
  wp (for_each depts (λ d, TenantDepartmentRepo.Activate tid d ;; retM tt)) Q w.
Proof.
  revert w. induction depts as [|x l IH]; intros w Ht Hf Hnd Hno HQ; simpl.
  - apply wp_ret. simpl in HQ. rewrite app_nil_r in HQ. by destruct w as [[]].
  - apply NoDup_cons in Hnd as [Hx Hnd]. apply wp_bind, wp_bind. eapply (wp_in_tx now); [done|].
    apply wp_bind, wp_sql. unfold now_in, insert_tenant_department. rewrite Ht, Hno by (by left).
    unfold fk_tenant. rewrite Hf. apply wp_ret, wp_ret. apply IH; [done|done|done| |].
    + intros y Hy. simpl. rewrite exists_row_app, Hno by (by right). simpl. unfold td_is. simpl.
      rewrite Z.eqb_refl, orb_false_r. simpl. apply Z.eqb_neq. intros ->. done.
    + simpl. by rewrite <- app_assoc.
Qed.

Definition no_labels (d : DB) : Prop := ∀ l, l ∈ dept_role_labels d → drl_TenantID l ≠ tid.

(** The ids the next [n] generated uuids would take are free in a table. *)
Definition free_ids {A} (id : A → uuid) (l : list A) (w : World) : Prop :=
  ∀ n, (w_uuids w <= n)%nat → ∀ x, x ∈ l → id x ≠ uuid_New n.

Definition seeded (n : nat) : list DeptRoleLabel :=
  [mkDeptRoleLabel (uuid_New n) tid DeptPreparator "Preparator" 1 now now;
   mkDeptRoleLabel (uuid_New (S n)) tid DeptReviewer "Reviewer" 1 now now;
   mkDeptRoleLabel (uuid_New (S (S n))) tid DeptApprover "Approver" 1 now now].

Lemma wp_seed_one code name w (Q : result error unit → World → Prop) :
  w_txnow w = Some now → exists_row (t_is tid) (tenants (w_db w)) = true →
  exists_row (drl_is tid code) (dept_role_labels (w_db w)) = false →
  exists_row (λ l, drl_ID l =? uuid_New (w_uuids w)) (dept_role_labels (w_db w)) = false →
  Q (Ok tt) (set_w_db (set_dept_role_labels (dept_role_labels (w_db w) ++
                [mkDeptRoleLabel (uuid_New (w_uuids w)) tid code name 1 now now]) (w_db w))
               (set_w_uuids (S (w_uuids w)) w)) →
  wp (let! id := new_uuid in sql (seed_label tid id code name)) Q w.
Proof.
  intros Ht Hf H1 H2 HQ. apply wp_bind, wp_new_uuid, wp_sql. unfold now_in, seed_label, fk_tenant. simpl.
  rewrite Ht, H1, H2, Hf. exact HQ.
Qed.

Lemma wp_Seed w (Q : result error (list DeptRoleLabel) → World → Prop) :
  distinct_uuids → w_txnow w = Some now → exists_row (t_is tid) (tenants (w_db w)) = true →
  no_labels (w_db w) → free_ids drl_ID (dept_role_labels (w_db w)) w →
  (∀ r, Q (Ok r) (set_w_db (set_dept_role_labels (dept_role_labels (w_db w) ++ seeded (w_uuids w)) (w_db w))
                   (set_w_uuids (3 + w_uuids w) w))) →
  wp (DeptRoleLabelRepo.Seed tid) Q w.
Proof.
  intros Hd Ht Hf Hno Hfree HQ. unfold DeptRoleLabelRepo.Seed, seeds. apply wp_bind.
  assert (∀ code, exists_row (drl_is tid code) (dept_role_labels (w_db w)) = false) as Hc.
  { intros code. apply exists_row_false. intros l Hl. unfold drl_is.
    by rewrite (proj2 (Z.eqb_neq _ _) (Hno l Hl)). }
  assert (∀ n, (w_uuids w <= n)%nat → exists_row (λ l, drl_ID l =? uuid_New n) (dept_role_labels (w_db w)) = false) as Hi.
  { intros n Hn. apply exists_row_false. intros l Hl. by apply Z.eqb_neq, (Hfree n). }
  assert (∀ n m, n ≠ m → (uuid_New n =? uuid_New m) = false) as Hnm.
  { intros n m Hne. apply Z.eqb_neq. by intros E%Hd. }
  eapply (wp_in_tx now); [done|]. unfold for_each.
  apply wp_bind, wp_seed_one; [done|done|done|by apply Hi|].
  apply wp_bind, wp_seed_one; [done|done| | |]; simpl; rewrite ?exists_row_app, ?Hc, ?Hi by lia; simpl;
    rewrite ?Hnm by lia; [by unfold drl_is; simpl; rewrite Z.eqb_refl|done|].
  apply wp_bind, wp_seed_one; [done|done| | |]; simpl; rewrite ?exists_row_app, ?Hc, ?Hi by lia; simpl;
    rewrite ?Hnm by lia; [by unfold drl_is; simpl; rewrite Z.eqb_refl|done|].
  apply wp_ret. unfold DeptRoleLabelRepo.List. eapply (wp_in_tx now); [done|]. apply wp_query.
  simpl. rewrite <- !app_assoc. exact (HQ _).
Qed.
End seeding.

(** ** Databases a signup starts from *)

(** The foreign keys into [tenants]. *)
Record tenant_refs (d : DB) : Prop := {
  ref_td : ∀ x, x ∈ tenant_departments d → exists_row (t_is (td_TenantID x)) (tenants d) = true;
  ref_drl : ∀ x, x ∈ dept_role_labels d → exists_row (t_is (drl_TenantID x)) (tenants d) = true;
  ref_tm : ∀ x, x ∈ tenant_memberships d → exists_row (t_is (tm_TenantID x)) (tenants d) = true;
  ref_tr : ∀ x, x ∈ tenant_roles d → exists_row (t_is (tr_TenantID x)) (tenants d) = true
}.

(** No generated uuid collides with an id in use. *)
Record unused_ids `{Env} (w : World) : Prop := {
  free_drl : free_ids drl_ID (dept_role_labels (w_db w)) w;
  free_tm : free_ids tm_ID (tenant_memberships (w_db w)) w;
  free_tr : free_ids tr_ID (tenant_roles (w_db w)) w
}.

Section signup.
  Context `{Env} `{CatalogReader} (req : TrialSignupInput).
  Abbreviation tid := (tsi_TenantID req).
  Abbreviation owner := (tsi_OwnerUserID req).

(** What a signup writes besides the tenant and the ledger. *)
Definition seed_rows (depts : list uuid) (trialEnds now : time) (d d' : DB) : Prop :=
  ∃ mid rid n,
    d' = enqueued (emitted (signup_events req trialEnds))
      (set_tenant_roles (tenant_roles d ++ [mkTenantRole rid tid owner mid RoleTenantOwner owner 1 now now None])
      (set_tenant_memberships
         (tenant_memberships d ++ [mkTenantMembership mid tid owner MembershipActive 1 now now None])
      (set_dept_role_labels (dept_role_labels d ++ seeded tid now n)
      (set_tenant_departments (tenant_departments d ++ (activated tid now <$> depts)) d)))).

Lemma wp_owner_membership now w (Q : result error TenantMembership → World → Prop) :
  w_txnow w = Some now → exists_row (t_is tid) (tenants (w_db w)) = true →
  (∀ m, m ∈ tenant_memberships (w_db w) → tm_TenantID m ≠ tid ∧ tm_ID m ≠ uuid_New (w_uuids w)) →
  (let row := mkTenantMembership (uuid_New (w_uuids w)) tid owner MembershipActive 1 now now None in
   Q (Ok row) (set_w_db (set_tenant_memberships (tenant_memberships (w_db w) ++ [row]) (w_db w))
                 (set_w_uuids (S (w_uuids w)) w))) →
  wp (MembershipRepo.Insert uuid_Nil tid owner MembershipActive) Q w.
Proof.
  intros Ht Hf Hno HQ. unfold MembershipRepo.Insert, id_or_new. rewrite Z.eqb_refl.
  apply wp_bind, wp_new_uuid. eapply (wp_in_tx now); [done|]. apply wp_bind, wp_sql.
  unfold now_in, insert_membership. simpl. rewrite Ht.
  replace (exists_row (tm_of tid owner) _) with false.
  2: { symmetry. apply exists_row_false. intros m Hm. unfold tm_of. destruct (Hno m Hm) as [E _].
       by rewrite (proj2 (Z.eqb_neq _ _) E). }
  replace (exists_row (λ m, tm_ID m =? _) _) with false.
  2: { symmetry. apply exists_row_false. intros m Hm. by apply Z.eqb_neq, Hno. }
  unfold fk_tenant. rewrite Hf. by apply wp_ret.
Qed.

Lemma wp_owner_grant mid now w (Q : result error TenantRole → World → Prop) :
  w_txnow w = Some now → refs_ok tid owner mid (w_db w) →
  (∀ r, r ∈ tenant_roles (w_db w) → tr_TenantID r ≠ tid ∧ tr_ID r ≠ uuid_New (w_uuids w)) →
  (let row := mkTenantRole (uuid_New (w_uuids w)) tid owner mid RoleTenantOwner owner 1 now now None in
   Q (Ok row) (set_w_db (set_tenant_roles (tenant_roles (w_db w) ++ [row]) (w_db w))
                 (set_w_uuids (S (w_uuids w)) w))) →
  wp (RoleRepo.Grant uuid_Nil tid owner mid RoleTenantOwner owner) Q w.
Proof.
  intros Ht Hr Hno HQ. unfold RoleRepo.Grant, id_or_new. rewrite Z.eqb_refl.
  apply wp_bind, wp_new_uuid. eapply (wp_in_tx now); [done|]. apply wp_bind, wp_sql.
  unfold now_in. simpl. rewrite Ht, insert_role_fresh; [by apply wp_ret|done| |done|by intros r Hr'; apply Hno].
  unfold holds. apply exists_row_false. intros r Hr'. unfold RoleRepo.tr_grant, tr_of. destruct (Hno r Hr') as [E _].
  by rewrite (proj2 (Z.eqb_neq _ _) E).
Qed.

(** The tenant has no rows yet. *)
Definition no_rows (d : DB) : Prop :=
  (∀ x, x ∈ tenant_departments d → td_TenantID x ≠ tid) ∧ no_labels tid d ∧
  (∀ m, m ∈ tenant_memberships d → tm_TenantID m ≠ tid) ∧ (∀ r, r ∈ tenant_roles d → tr_TenantID r ≠ tid).

(** The schema of TenantCreated refuses the slug. *)
Definition slug_refused : bool := has_publisher && Nat.ltb (String.length (tsi_Slug req)) 4.

Definition schema_refused : error := EWrap "validate event" (EPlain "schema validation failed").

Lemma wp_signup_publish trialEnds now w (Q : result error unit → World → Prop) :
  codec_schemas → w_txnow w = Some now → plan_known (tsi_Plan req) = true → isValidSlug (tsi_Slug req) = true →
  (if slug_refused then Q (Err schema_refused) w
   else Q (Ok tt) (set_w_db (enqueued (emitted (signup_events req trialEnds)) (w_db w)) w)) →
  wp (for_each (signup_events req trialEnds) publish) Q w.
Proof.
  intros Hc Ht Hp Hs HQ. pose proof (slug_pattern_valid _ Hs) as Hpat. unfold slug_refused in HQ.
  assert (emitted (signup_events req trialEnds) = [] ∧ has_publisher = false ∨
          has_publisher = true) as [[He Hn]|Hn] by (unfold emitted; destruct has_publisher; auto).
  { rewrite Hn, He, enqueued_nil in HQ. unfold wp, signup_events, for_each, publish, bindM. rewrite Hn. by destruct w. }
  rewrite Hn in HQ. simpl in HQ. rewrite Nat.ltb_antisym, <- Hpat in HQ. destruct (slug_pattern (tsi_Slug req)) eqn:Ep.
  - apply (wp_publish_all Hc (λ ev, ev) _ _ now); [done| |by rewrite list_fmap_id].
    repeat apply Forall_cons_2; [..|by apply Forall_nil_2]; cbn; by rewrite ?Ep, ?Hp.
  - simpl. apply wp_bind. unfold wp, publish, Enqueue. rewrite Hn.
    replace (codec_accepts _ _) with false; [exact HQ|]. symmetry. etransitivity; [exact (Hc (TenantCreatedPayload _ _ _ _))|]. cbn. by rewrite Ep.
Qed.

Lemma wp_seed_tenant depts trialEnds now w (Q : result error unit → World → Prop) :
  codec_schemas → plan_known (tsi_Plan req) = true → isValidSlug (tsi_Slug req) = true → distinct_uuids → w_txnow w = Some now → exists_row (t_is tid) (tenants (w_db w)) = true →
  NoDup depts → no_rows (w_db w) → unused_ids w →
  (if slug_refused then ∀ w', Q (Err schema_refused) w'
   else ∀ w', seed_rows depts trialEnds now (w_db w) (w_db w') → flows w w' → Q (Ok tt) w') →
  wp (seed_tenant req depts trialEnds) Q w.
Proof.
  intros Hc Hp Hs Hd Ht Hf Hnd (N1 & N2 & N3 & N4) [F1 F2 F3] HQ. unfold seed_tenant.
  apply wp_bind, (wp_activate_all tid now); [done|done|done| |].
  { intros x Hx. apply exists_row_false. intros y Hy. unfold td_is. by rewrite (proj2 (Z.eqb_neq _ _) (N1 y Hy)). }
  apply wp_bind, (wp_Seed tid now); [done..|]. intros _.
  apply wp_bind, (wp_owner_membership now); [done|done| |].
  { intros m Hm. split; [by apply N3|]. by apply (F2 (3 + w_uuids w)%nat); [lia|]. }
  apply wp_bind, (wp_owner_grant _ now); [done| | |].
  - split; [done|]. simpl. rewrite exists_row_app. simpl. by rewrite !Z.eqb_refl, orb_true_r.
  - simpl. intros r Hr. split; [by apply N4|]. by apply (F3 (S (3 + w_uuids w))%nat); [lia|].
  - apply (wp_signup_publish trialEnds now); [done..|]. destruct slug_refused; [apply HQ|].
    apply HQ; [|done]. simpl. by eexists _, _, _.
Qed.

(** *** The tenant row *)

Lemma wp_tenant_Insert t now w (Q : result error (Tenant * bool) → World → Prop) :
  w_txnow w = Some now → t_ID t ≠ uuid_Nil →
  match insert_tenant t now (w_db w) with
  | Ok (Some row, d') => Q (Ok (row, true)) (set_w_db d' w)
  | Ok (None, _) => match select_first (t_is_live (t_ID t)) (tenants (w_db w)) with
                    | Some t0 => Q (Ok (t0, false)) w
                    | None => Q (Err ENoRows) w
                    end
  | Err e => ∀ e', is_retryable e' = false → Q (Err e') w
  end → wp (Insert (Some t)) Q w.
Proof.
  intros Ht Hid HQ. unfold Insert, id_or_new. rewrite (proj2 (Z.eqb_neq _ _) Hid). apply wp_bind, wp_ret.
  replace (set_t_ID (t_ID t) t) with t by (by destruct t).
  eapply (wp_in_tx now); [done|]. apply wp_bind, wp_try, wp_sql. unfold now_in. rewrite Ht.
  destruct (insert_tenant t now (w_db w)) as [[[row|] d']|e] eqn:E; simpl.
  - by apply wp_ret.
  - assert (d' = w_db w) as ->.
    { unfold insert_tenant in E. repeat case_match; by inversion E. }
    apply wp_bind, wp_query_row. simpl. replace (set_w_db (w_db w) w) with w by (by destruct w).
    destruct (select_first _ _); [by apply wp_ret|done].
  - assert (is_retryable e = false ∧ is_retryable (wrapConnErr e) = false) as [H1 H2].
    { unfold insert_tenant in E. destruct (tenant_checks _) as [p|] eqn:Ec.
      - inversion E. unfold tenant_checks in Ec. repeat case_match; by inversion Ec.
      - repeat case_match; by inversion E. }
    destruct (slug_taken e); apply wp_throw; by apply HQ.
Qed.

(** A validated request's tenant row passes the table's checks. *)
Definition row_ok (seats : Z) : Prop := tsi_Name req ≠ "" ∧ seats <= 2147483647.

Lemma validate_signup_Ok hash seats :
  validate_signup req = Ok (hash, seats) →
  plan_known (tsi_Plan req) = true ∧ isValidSlug (tsi_Slug req) = true ∧ 0 < seats ∧
  (hash = "" ∨ email_hash_format hash = true).
Proof.
  unfold validate_signup. destruct (plan_known _); [|done]. destruct (isValidSlug _); [|done]. simpl.
  destruct (if String.eqb (tsi_EmailHash req) "" then _ else _) as [h|] eqn:Eh; [|done].
  destruct (tsi_LicensedSeats req <? 0) eqn:El; [done|]. destruct (Nat.ltb _ _); [done|].
  destruct (_ && _); [done|]. intros [= <- <-]. apply Z.ltb_ge in El. split_and!; [done..| |].
  - destruct (_ =? 0) eqn:E0; [done|]. apply Z.eqb_neq in E0. lia.
  - destruct (String.eqb _ _); [left; congruence|]. right. unfold NormalizeEmailHash in Eh.
    by destruct (email_hash_format _) eqn:Ef; [injection Eh as <-|].
Qed.

Lemma trial_tenant_checks hash seats trialEnds now :
  validate_signup req = Ok (hash, seats) → row_ok seats →
  tenant_checks (inserted_tenant now (trial_tenant req seats trialEnds)) = None.
Proof.
  intros (Hp & Hs & Hpos & _)%validate_signup_Ok [Hn Hm]. unfold tenant_checks. simpl. rewrite Hp. simpl.
  unfold int4. replace (-2147483648 <=? seats) with true by (symmetry; apply Z.leb_le; lia).
  replace (seats <=? 2147483647) with true by (symmetry; by apply Z.leb_le).
  replace (0 <? seats) with true by (symmetry; by apply Z.ltb_lt). simpl.
  rewrite (proj2 (String.eqb_neq _ _) Hn).
  replace (String.eqb (tsi_Slug req) "") with false; [done|]. symmetry. apply String.eqb_neq. intros E.
  rewrite E in Hs. done.
Qed.

(** *** The ledger *)

Definition ledger_used (c : ProvisioningConfig) (hash : string) : bool :=
  negb (String.eqb hash "") && pc_trialLedger c.

Definition ledger_row (hash : string) (d : DB) : option LedgerRow :=
  select_first (λ r, String.eqb (tsl_email_hash r) hash) (trial_signup_ledger d).

(** The hash is free, or this tenant's. *)
Definition hash_free (c : ProvisioningConfig) (hash : string) (d : DB) : bool :=
  negb (ledger_used c hash) ||
  match ledger_row hash d with Some r => (tsl_tenant_id r ==? Some tid)%stdpp | None => true end.

(** The ledger with the hash ledger_claimed. *)
Definition ledger_claimed (c : ProvisioningConfig) (hash : string) (now : time) (d : DB) : DB :=
  if ledger_used c hash && isNull (ledger_row hash d)
  then set_trial_signup_ledger (trial_signup_ledger d ++ [mkLedgerRow hash (Some tid) now]) d else d.

Definition trial_used : error :=
  fail_with ErrTrialAlreadyUsed "this email address has already been used for a trial".

Lemma wp_claim c hash now w (Q : result error unit → World → Prop) :
  w_txnow w = Some now → (hash = "" ∨ email_hash_format hash = true) →
  (if hash_free c hash (w_db w) then Q (Ok tt) (set_w_db (ledger_claimed c hash now (w_db w)) w)
   else ∀ w', Q (Err trial_used) w') →
  wp (if negb (String.eqb hash "") && pc_trialLedger c then ClaimEmailHash hash tid else retM tt) Q w.
Proof.
  intros Ht Hf HQ. unfold hash_free, ledger_claimed in HQ. fold (ledger_used c hash).
  destruct (ledger_used c hash) eqn:Eu; simpl in HQ; [|apply wp_ret; by destruct w].
  assert (email_hash_format hash = true) as Hh by (destruct Hf as [->|]; [done|assumption]).
  unfold ClaimEmailHash. apply wp_bind. eapply (wp_in_tx now); [done|]. apply wp_sql. unfold now_in, upsert_ledger.
  rewrite Ht, Hh. simpl. fold (ledger_row hash (w_db w)). destruct (ledger_row hash (w_db w)) as [r|]; simpl.
  - simpl in HQ. replace (set_w_db (w_db w) w) with w in * by (by destruct w).
    destruct (tsl_tenant_id r) as [h|]; [|by apply wp_throw]. apply wp_throw_if.
    destruct (h =? tid) eqn:E.
    + apply Z.eqb_eq in E as ->. by rewrite bool_eq_refl in HQ.
    + apply Z.eqb_neq in E. replace (Some h ==? Some tid)%stdpp with false in HQ; [apply HQ|].
      symmetry. apply bool_eq_false. congruence.
  - apply wp_throw_if. by rewrite Z.eqb_refl.
Qed.

(** *** The transaction *)

Section tx.
  Context (c : ProvisioningConfig) (hash : string) (seats : Z) (depts : list uuid) (trialEnds : time).
  Context (Hval : validate_signup req = Ok (hash, seats)).
  Abbreviation row now := (inserted_tenant now (trial_tenant req seats trialEnds)).

Lemma wp_provisioning_lock now w (Q : result error unit → World → Prop) :
  w_txnow w = Some now → Q (Ok tt) w →
  wp (if pc_parked c then LockTenantProvisioning tid else retM tt) Q w.
Proof.
  intros Ht HQ. destruct (pc_parked c); [|by apply wp_ret]. unfold LockTenantProvisioning.
  eapply (wp_in_tx now); [done|]. by apply wp_query.
Qed.

Lemma no_rows_new d :
  tenant_refs d → exists_row (t_is tid) (tenants d) = false → no_rows d.
Proof. intros [R1 R2 R3 R4] Hno. split_and!; intros x Hx E; subst; [apply R1 in Hx|apply R2 in Hx|apply R3 in Hx|apply R4 in Hx]; congruence. Qed.

Lemma wp_signup_tx_new now w (Q : result error (Tenant * bool) → World → Prop) :
  codec_schemas → distinct_uuids → w_txnow w = Some now → tid ≠ uuid_Nil → row_ok seats → NoDup depts →
  tenant_refs (w_db w) → unused_ids w → exists_row (t_is tid) (tenants (w_db w)) = false →
  exists_row (λ u, String.eqb (t_Slug u) (tsi_Slug req)) (tenants (w_db w)) = false →
  hash_free c hash (w_db w) = true →
  (if slug_refused then ∀ w', Q (Err schema_refused) w'
   else ∀ w', seed_rows depts trialEnds now
                (ledger_claimed c hash now (set_tenants (tenants (w_db w) ++ [row now]) (w_db w))) (w_db w') →
              flows w w' → Q (Ok (row now, true)) w') →
  wp (signup_tx c req hash seats depts trialEnds) Q w.
Proof.
  intros Hc Hd Ht Hid Hrow Hnd Href [F1 F2 F3] Hnew Hslug Hfree HQ. unfold signup_tx.
  destruct (no_rows_new _ Href Hnew) as (N1 & N2 & N3 & N4).
  apply wp_bind, (wp_provisioning_lock now); [done|]. apply wp_bind, (wp_tenant_Insert _ now); [done|done|].
  unfold insert_tenant. rewrite (trial_tenant_checks hash) by done. simpl. rewrite Hnew, Hslug. simpl.
  apply wp_bind, (wp_claim _ _ now); [done|by eapply validate_signup_Ok|].
  replace (hash_free c hash _) with true by done. set (d1 := ledger_claimed _ _ _ _).
  assert (d1 = ledger_claimed c hash now (set_tenants (tenants (w_db w) ++ [row now]) (w_db w))) as Ed1 by done.
  assert (∀ {A} (f : DB → A), (∀ l d, f (set_trial_signup_ledger l d) = f d) →
    f d1 = f (set_tenants (tenants (w_db w) ++ [row now]) (w_db w))) as Hsame.
  { intros A f Hf. unfold d1, ledger_claimed. destruct (_ && _); [apply Hf|done]. }
  apply wp_bind, (wp_seed_tenant depts trialEnds now);
    [done|by eapply validate_signup_Ok..|done|done| |done| | |].
  - simpl. rewrite (Hsame _ tenants) by done. simpl. rewrite exists_row_app. simpl. unfold t_is at 2. simpl.
    by rewrite Z.eqb_refl, orb_true_r.
  - unfold no_rows, no_labels. simpl. rewrite (Hsame _ tenant_departments), (Hsame _ dept_role_labels),
      (Hsame _ tenant_memberships), (Hsame _ tenant_roles) by done. done.
  - split; simpl; [rewrite (Hsame _ dept_role_labels) by done|rewrite (Hsame _ tenant_memberships) by done|
      rewrite (Hsame _ tenant_roles) by done]; done.
  - destruct slug_refused; [exact HQ|]. intros w' Hs Hf. apply wp_ret. by apply HQ.
Qed.

Lemma wp_signup_tx_replay t0 now w (Q : result error (Tenant * bool) → World → Prop) :
  w_txnow w = Some now → tid ≠ uuid_Nil → row_ok seats →
  select_first (t_is_live tid) (tenants (w_db w)) = Some t0 → hash_free c hash (w_db w) = true →
  Q (Ok (t0, false)) (set_w_db (ledger_claimed c hash now (w_db w)) w) →
  wp (signup_tx c req hash seats depts trialEnds) Q w.
Proof.
  intros Ht Hid Hrow Ht0 Hfree HQ. unfold signup_tx.
  apply wp_bind, (wp_provisioning_lock now); [done|]. apply wp_bind, (wp_tenant_Insert _ now); [done|done|].
  unfold insert_tenant. rewrite (trial_tenant_checks hash) by done. simpl.
  replace (exists_row (t_is tid) (tenants (w_db w))) with true.
  2: { symmetry. apply exists_row_true. exists t0. apply select_first_Some in Ht0 as [Hin [E _]%andb_true_iff]. done. }
  rewrite Ht0. apply wp_bind, (wp_claim _ _ now); [done|by eapply validate_signup_Ok|]. rewrite Hfree.
  apply wp_bind, wp_ret. by apply wp_ret.
Qed.

Lemma wp_signup_tx_used now w :
  w_txnow w = Some now → tid ≠ uuid_Nil → hash_free c hash (w_db w) = false →
  wp (signup_tx c req hash seats depts trialEnds) (λ r _, ∃ e, r = Err e ∧ is_retryable e = false) w.
Proof.
  intros Ht Hid Hused. unfold signup_tx.
  assert (∀ w1 (t : Tenant) (fresh : bool), w_txnow w1 = Some now → ledger_row hash (w_db w1) = ledger_row hash (w_db w) →
    wp ((if negb (String.eqb hash "") && pc_trialLedger c then ClaimEmailHash hash tid else retM tt) ;;
        (if fresh then seed_tenant req depts trialEnds else retM tt) ;; retM (t, fresh))
       (λ r _, ∃ e, r = Err e ∧ is_retryable e = false) w1) as Hrest.
  { intros w1 t fresh Ht1 El. apply wp_bind, (wp_claim _ _ now); [done|by eapply validate_signup_Ok|].
    replace (hash_free c hash (w_db w1)) with false by (unfold hash_free in *; by rewrite El). by eexists. }
  apply wp_bind, (wp_provisioning_lock now); [done|]. apply wp_bind, (wp_tenant_Insert _ now); [done|done|].
  destruct (insert_tenant _ now (w_db w)) as [[[x|] d']|e] eqn:E.
  - apply (Hrest (set_w_db d' w) x true); [done|]. unfold insert_tenant in E. repeat case_match; by inversion E.
  - destruct (select_first _ _) as [t0|]; [by apply (Hrest w t0 false)|by eexists].
  - by eexists.
Qed.
End tx.

(** *** The operation *)

(** The catalog's answers, in the order they are asked for. *)
Definition catalog_answers (plan : Plan) (all : list Department) (w : World) : Prop :=
  ∃ w1, PlanByCode (tsi_Plan req) w = (Ok plan, w1) ∧ (Departments w1).1 = Ok all.

Definition trial_end (plan : Plan) (w : World) : time := w_clock w + p_TrialDurationDays plan * day.

(** The world [w'] is the one the replay of parked events left from [w1]. *)
Definition replayed (c : ProvisioningConfig) (w1 w' : World) : Prop := w' = (replayParked c tid w1).2.

Lemma wp_replayParked c (Q : result error unit → World → Prop) w :
  (∀ w', replayed c w w' → Q (Ok tt) w') → wp (replayParked c tid) Q w.
Proof.
  intros HQ. apply wp_elim. intros r w' E. assert (r = Ok tt) as ->.
  { unfold replayParked in E. destruct (pc_replayer c) as [f|]; [|by inversion E].
    unfold bindM, tryM in E. destruct (f _ w). by inversion E. }
  apply HQ. unfold replayed. by rewrite E.
Qed.

(** The steps before the transaction. *)
Lemma wp_TrialSignup c hash seats plan all w (Q : result error (Tenant * bool) → World → Prop) :
  alone w → validate_signup req = Ok (hash, seats) → catalog_answers plan all w →
  (∀ w1, w_db w1 = w_db w → w_uuids w1 = w_uuids w → w_clock w1 = w_clock w → alone w1 →
     wp (signup_tx c req hash seats (trial_departments all) (trial_end plan w))
        (λ r w2, match r with
                 | Ok x => ∀ w', replayed c (set_w_txnow None w2) w' → Q (Ok x) w'
                 | Err e => is_retryable e = false ∧
                            Q (Err (wrapConnErr e)) (set_w_txnow None (set_w_db (w_db w1) w2))
                 end) (started w1)) →
  wp (TrialSignup c req) Q w.
Proof.
  intros Ha Hv (w1 & Hp & Hd) Htx. unfold TrialSignup. rewrite Hv. apply wp_bind. unfold wp at 1. rewrite Hp. simpl.
  pose proof (PlanByCode_aside (tsi_Plan req) w) as Hs. rewrite Hp in Hs. simpl in Hs.
  assert (w_clock w1 = w_clock w) as Hck by apply Hs.
  apply wp_bind, wp_time_Now. rewrite Hck. apply wp_bind. unfold wp at 1. rewrite Hd.
  pose proof (Departments_aside w1) as Hs'. revert Hs'. generalize (Departments w1).2. intros w2' Hs'.
  assert (same w w2') as (S1 & S2 & S3) by (by transitivity w1).
  assert (alone w2') as Ha2 by (eapply alone_same; [exact Ha|by split_and!]).
  apply wp_bind, wp_RunInTx_alone; [done|]. eapply wp_mono; [apply Htx; [done..|apply S3|done]|].
  intros [x|e] w2 HQ; [|exact HQ]. apply wp_bind, wp_replayParked. intros w' Hr. apply wp_ret. by apply HQ.
Qed.

Context (c : ProvisioningConfig) (hash : string) (seats : Z) (plan : Plan) (all : list Department).

(** C24: a trial signup (I-1) of a new tenant.  With a valid request, a free id
    and slug and an e-mail hash no other tenant used, and nothing else running,
    [TrialSignup] creates the tenant in trial with the plan's end date, claims
    the hash, activates the trial departments, seeds the three role labels,
    makes the owner an active member with the owner role, and publishes the
    three events; nothing else changes before the parked events are replayed.
    With a publisher and a slug of three characters, which the request validation
    admits, it fails instead and leaves the database as it was: the schema of
    TenantCreated refuses the event. *)
Theorem TrialSignup_creates w r w' :
  codec_schemas → distinct_uuids → alone w → validate_signup req = Ok (hash, seats) → row_ok seats →
  tid ≠ uuid_Nil → catalog_answers plan all w → NoDup (trial_departments all) →
  tenant_refs (w_db w) → unused_ids w → exists_row (t_is tid) (tenants (w_db w)) = false →
  exists_row (λ u, String.eqb (t_Slug u) (tsi_Slug req)) (tenants (w_db w)) = false →
  hash_free c hash (w_db w) = true →
  TrialSignup c req w = (r, w') →
  let row := inserted_tenant (w_clock w) (trial_tenant req seats (trial_end plan w)) in
  if slug_refused then (∃ e, r = Err e) ∧ w_db w' = w_db w else
  r = Ok (row, true) ∧
  ∃ w1, replayed c w1 w' ∧
    seed_rows (trial_departments all) (trial_end plan w) (w_clock w)
      (ledger_claimed c hash (w_clock w) (set_tenants (tenants (w_db w) ++ [row]) (w_db w))) (w_db w1).
Proof.
  intros Hc Hd Ha Hv Hrow Hid Hcat Hnd Href [F1 F2 F3] Hnew Hslug Hfree E. revert r w' E. apply wp_intro.
  eapply (wp_TrialSignup c hash seats plan all); [done..|]. intros w1 D1 U1 C1 A1. rewrite <- D1, <- C1 in *.
  apply (wp_signup_tx_new c hash seats _ _ Hv (w_clock w1)); try done.
  { split; unfold free_ids; simpl; rewrite U1; done. }
  destruct slug_refused; [intros w2; split; [done|]; simpl; by eauto|].
  intros w2 Hs _ w' Hr. split; [done|]. by exists (set_w_txnow None w2).
Qed.

(** Replaying a signup (I-1).  For a tenant that exists, with nothing else
    running, [TrialSignup] returns the tenant as it is and [false], seeds and
    publishes nothing, and writes at most the claim of an e-mail hash that was
    still free. *)
Theorem TrialSignup_replay t0 w r w' :
  alone w → validate_signup req = Ok (hash, seats) → row_ok seats → tid ≠ uuid_Nil → catalog_answers plan all w →
  select_first (t_is_live tid) (tenants (w_db w)) = Some t0 → hash_free c hash (w_db w) = true →
  TrialSignup c req w = (r, w') →
  r = Ok (t0, false) ∧ ∃ w1, replayed c w1 w' ∧ w_db w1 = ledger_claimed c hash (w_clock w) (w_db w).
Proof.
  intros Ha Hv Hrow Hid Hcat Ht0 Hfree E. revert r w' E. apply wp_intro.
  eapply (wp_TrialSignup c hash seats plan all); [done..|]. intros w1 D1 U1 C1 A1. rewrite <- D1, <- C1 in *.
  apply (wp_signup_tx_replay c hash seats _ _ Hv t0 (w_clock w1)); [done..|].
  intros w' Hr. split; [done|]. by eexists.
Qed.

(** C26: one trial per e-mail address (CR-4).  When the ledger has the hash for
    another tenant, or for a tenant since wiped, [TrialSignup] fails and the
    database is unchanged: no tenant row survives the rollback. *)
Theorem TrialSignup_once w r w' :
  alone w → validate_signup req = Ok (hash, seats) → tid ≠ uuid_Nil → catalog_answers plan all w →
  hash_free c hash (w_db w) = false →
  TrialSignup c req w = (r, w') → (∃ e, r = Err e) ∧ w_db w' = w_db w.
Proof.
  intros Ha Hv Hid Hcat Hused E. revert r w' E. apply wp_intro.
  eapply (wp_TrialSignup c hash seats plan all); [done..|]. intros w1 D1 U1 C1 A1. rewrite <- D1 in *.
  eapply wp_mono; [by apply (wp_signup_tx_used c hash seats _ _ Hv (w_clock w1))|].
  intros r w2 (e & -> & Hr). split; [done|]. split; [by eexists|done].
Qed.
End signup.

(** ** Identity-driven removal *)

Section departure.
  Context `{Env} (tid uid : uuid).

(** The events of a removal the identity system asked for. *)
Definition role_departure (r : TenantRole) : DomainEvent :=
  system_event EventTenantRoleRevoked tid uid (TenantRoleRevokedPayload uid tid (tr_RoleCode r) uuid_Nil).
Definition dept_departure (x : DeptMembership) : DomainEvent :=
  system_event EventDepartmentMembershipRevoked tid uid
    (DepartmentMembershipRevokedPayload uid tid (dm_DepartmentID x) uuid_Nil).
Definition departure_events (d : DB) : list DomainEvent :=
  (role_departure <$> select (tr_of tid uid) (tenant_roles d))
  ++ (dept_departure <$> select (dm_of tid uid) (dept_memberships d))
  ++ [system_event EventMembershipRevoked tid uid (MembershipRevokedPayload tid uid SystemActorID)].

(** The tables of a removal, with these events. *)
Definition departure (now : time) (d : DB) : DB :=
  set_outbox_events (outbox_events d ++ emitted (departure_events d)) (removal tid uid uuid_Nil now d).

Definition ownerless_marked (now : time) (d : DB) : DB :=
  update_tenant tid (λ t, if isNull (t_OwnerlessSince t) then touched now (set_t_OwnerlessSince (Some now)) t else t) d.

(** The removed user was the last owner. *)
Definition leaves_ownerless (now : time) (d : DB) : bool :=
  exists_row (RoleRepo.tr_grant tid uid RoleTenantOwner) (tenant_roles d) && (owners tid (departure now d) =? 0).

Lemma wp_MarkOwnerless now t w (Q : result error bool → World → Prop) :
  w_txnow w = Some now → pk_tenants (w_db w) → uq_realms (w_db w) → tenant_row tid (w_db w) = Some t →
  tenant_valid t → (∀ b, Q (Ok b) (set_w_db (ownerless_marked now (w_db w)) w)) →
  wp (MarkOwnerlessIfUnset tid) Q w.
Proof.
  intros Ht Hpk Huq Hrow Hv HQ. unfold MarkOwnerlessIfUnset. eapply (wp_in_tx now); [done|]. apply wp_bind.
  pose proof (tenant_row_Some _ _ _ Hrow) as [Hin Hid].
  assert (∀ u, u ∈ tenants (w_db w) → t_is tid u = true → u = t) as Hone.
  { intros u Hu Hi. apply Z.eqb_eq in Hi. eapply pk_tenants_eq; eauto. congruence. }
  destruct (isNull (t_OwnerlessSince t)) eqn:En.
  - destruct (exec_update_valid tid (λ t, isNull (t_OwnerlessSince t)) (λ now, set_t_OwnerlessSince (Some now)) now w t)
      as [He _]; try done.
    { exact (Huq t Hin). }
    { apply tenant_valid_touched; [done..|]. by destruct Hv; split. }
    unfold wp. rewrite He. apply wp_ret. simpl.
    replace (update_tenant tid _ (w_db w)) with (ownerless_marked now (w_db w)); [apply HQ|].
    unfold ownerless_marked, update_tenant. f_equal. apply update_where_ext. intros u Hu. split; [done|].
    intros Hi. by rewrite (Hone u Hu Hi), En.
  - unfold wp, exec_update, bindM, sql, tenants_update. rewrite Ht.
    rewrite (select_guard tid (λ t, isNull (t_OwnerlessSince t)) _ t),
      (update_where_guard tid (λ t, isNull (t_OwnerlessSince t)) _ _ t), En by done. simpl. apply wp_ret. simpl.
    replace (set_tenants (tenants (w_db w)) (w_db w)) with (ownerless_marked now (w_db w)); [apply HQ|].
    unfold ownerless_marked, update_tenant. f_equal. rewrite <- (update_where_id (t_is tid) (tenants (w_db w))) at 2.
    apply update_where_ext. intros u Hu. split; [done|]. intros Hi. by rewrite (Hone u Hu Hi), En.
Qed.

Lemma role_departures_deleted now (l : list TenantRole) :
  role_departure <$> (role_deleted now <$> l) = role_departure <$> l.
Proof.
  rewrite <- list_fmap_compose. apply list_fmap_ext. intros _ r _. unfold compose, role_departure.
  by rewrite role_deleted_code.
Qed.

Lemma dept_departures_deleted now (l : list DeptMembership) :
  dept_departure <$> (dept_deleted now <$> l) = dept_departure <$> l.
Proof.
  rewrite <- list_fmap_compose. apply list_fmap_ext. intros _ r _. unfold compose, dept_departure.
  by rewrite dept_deleted_dept.
Qed.

(** What a removal leaves of the database. *)
Definition departed (now : time) (d : DB) : DB :=
  if negb (exists_row (tm_of tid uid) (tenant_memberships d)) then d
  else if leaves_ownerless now d then ownerless_marked now (departure now d) else departure now d.

Lemma wp_delete_member_tx now t w (Q : result error bool → World → Prop) :
  codec_schemas → roles_typed (w_db w) → w_txnow w = Some now → uq_live_member (w_db w) →
  pk_tenants (w_db w) → uq_realms (w_db w) → tenant_row tid (w_db w) = Some t → tenant_valid t →
  (∀ b, Q (Ok b) (set_w_db (departed now (w_db w)) w)) →
  wp (delete_member_tx tid uid) Q w.
Proof.
  intros Hc Hty Ht Hum Hpk Huq Hrow Hv HQ. unfold delete_member_tx, departed in *.
  apply wp_bind, wp_try, (wp_FindByUserID _ _ now); [done|]. rewrite exists_row_first in HQ.
  destruct (select_first (tm_of tid uid) _) as [m|] eqn:Em; simpl in *; [|by apply wp_ret; destruct w].
  apply wp_bind, (wp_ListByUser _ _ now); [done|].
  apply wp_bind, (wp_role_SoftDeleteAllForUser _ _ now); [done|].
  apply wp_bind, (wp_publish_all Hc role_departure _ _ now); [done|exact (roles_revoked_valid tid uid uuid_Nil now _ Hty)|]. simpl.
  apply wp_bind, (wp_dept_SoftDeleteAllForUser _ _ now); [done|]. simpl.
  apply wp_bind, (wp_publish_all Hc dept_departure _ _ now); [done|by apply Forall_forall|]. simpl.
  apply wp_bind, (wp_publish Hc _ _ now); [done..|]. simpl.
  apply wp_bind, (wp_SoftDelete _ _ m now); [done..|]. simpl.
  set (d1 := set_tenant_memberships _ _). assert (d1 = departure now (w_db w)) as Hd1.
  { unfold d1.
    rewrite role_departures_deleted, dept_departures_deleted.
    unfold departure, removal, departure_events, enqueued. rewrite !emitted_app. unfold set_tenant_memberships,
      set_outbox_events, set_dept_memberships, set_tenant_roles. simpl. by rewrite <- !app_assoc. }
  rewrite Hd1, holds_owner_roles_of. unfold leaves_ownerless in HQ.
  destruct (exists_row (RoleRepo.tr_grant _ _ _) _); simpl in *; [|by apply wp_ret].
  unfold RoleRepo.CountActiveOwners. apply wp_bind. eapply (wp_in_tx now); [done|]. apply wp_query. simpl.
  unfold owners in HQ. destruct (count _ _ =? 0); [|by apply wp_ret].
  apply (wp_MarkOwnerless now t); [done..|exact HQ].
Qed.

(** The user is gone, everybody else is untouched, the outbox tells, and a
    tenant that lost its last owner grant is marked. *)
Record gone (d d' : DB) : Prop := {
  gone_rows : select (tm_of tid uid) (tenant_memberships d') = [] ∧ select (tr_of tid uid) (tenant_roles d') = [] ∧
    select (dm_of tid uid) (dept_memberships d') = [];
  gone_others : ∀ t u, (t, u) ≠ (tid, uid) →
    select (tm_of t u) (tenant_memberships d') = select (tm_of t u) (tenant_memberships d) ∧
    select (tr_of t u) (tenant_roles d') = select (tr_of t u) (tenant_roles d) ∧
    select (dm_of t u) (dept_memberships d') = select (dm_of t u) (dept_memberships d);
  gone_outbox : outbox_events d' = outbox_events d ++ emitted (departure_events d);
  gone_ownerless : ∃ t t', tenant_row tid d = Some t ∧ tenant_row tid d' = Some t' ∧
    if holds tid uid d RoleTenantOwner && (owners tid d' =? 0)
    then t_OwnerlessSince t' ≠ None ∧ (t_OwnerlessSince t ≠ None → t' = t) else t' = t
}.

Lemma departed_gone now t d :
  tenant_row tid d = Some t → exists_row (tm_of tid uid) (tenant_memberships d) = true → gone d (departed now d).
Proof.
  intros Hrow Hm. destruct (removal_user_removed tid uid uuid_Nil now d) as [R1 R2 R3 R4 _ (R6 & _)].
  unfold departed. rewrite Hm. simpl. assert (∀ b : bool, owners tid (if b then ownerless_marked now (departure now d)
    else departure now d) = owners tid (departure now d)) as Ho by (by intros []).
  split.
  - by destruct (leaves_ownerless now d).
  - by destruct (leaves_ownerless now d).
  - by destruct (leaves_ownerless now d).
  - exists t. rewrite Ho. fold (holds tid uid d RoleTenantOwner). unfold leaves_ownerless.
    fold (holds tid uid d RoleTenantOwner). destruct (holds _ _ _ _ && _).
    2: { exists t. split_and!; [done| |done]. exact Hrow. }
    eexists. split_and!; [done| | |].
    + unfold ownerless_marked. rewrite tenant_row_update.
      * rewrite Z.eqb_refl. unfold tenant_row in *. unfold departure. simpl. rewrite Hrow. done.
      * intros u. destruct (isNull _); [|done]. by rewrite (touched_column t_ID).
    + destruct (t_OwnerlessSince t) eqn:E; simpl; [by rewrite E|]. by rewrite (touched_column t_OwnerlessSince).
    + intros Hn. by destruct (t_OwnerlessSince t).
Qed.

End departure.
