(* ===== verification/PaginationSpec.v ===== *)
(** * PaginationSpec: keyset pagination of the member list

    [MembershipRepository.List] hands out one page and the cursor of its last
    row; following the cursors lists every member once, in order. *)

From stdpp Require Import sorting.
From S2P Require Import Prelude Domain Schema Tx Wp MembershipRepo.

(** ** The keyset order *)

Lemma tm_le_total a b : tm_le a b = false → tm_le b a = true.
Proof. unfold tm_le. rewrite orb_false_iff, orb_true_iff, !andb_false_iff, andb_true_iff. lia. Qed.

Lemma tm_le_trans a b c : tm_le a b = true → tm_le b c = true → tm_le a c = true.
Proof. unfold tm_le. rewrite !orb_true_iff, !andb_true_iff. lia. Qed.

(** The row comes after the cursor exactly when it is not at or before it. *)
Lemma after_cursor_le m x : after_cursor (Some (cursor_of m)) x = negb (tm_le x m).
Proof.
  unfold after_cursor, tm_le, cursor_of. simpl.
  apply eq_bool_prop_intro. rewrite !Is_true_true, negb_true_iff, orb_true_iff, orb_false_iff, andb_true_iff, andb_false_iff.
  lia.
Qed.

Section listing.
  Context (tid : uuid) (d : DB).
  Context (Hkey : NoDup (tm_ID <$> tenant_memberships d)).

Lemma listed_sorted c : StronglySorted (λ a b, tm_le a b = true) (listed tid c d).
Proof. apply isort_sorted; [apply tm_le_total|apply tm_le_trans]. Qed.

Lemma listed_perm c : listed tid c d ≡ₚ select (after_cursor c) (listed tid None d).
Proof.
  unfold listed. rewrite isort_perm, (select_perm _ _ _ (isort_perm tm_le _)), select_select.
  erewrite select_ext; [reflexivity|]. intros m _. simpl. by rewrite andb_true_r.
Qed.

Lemma listed_member c m : m ∈ listed tid c d → m ∈ tenant_memberships d.
Proof. unfold listed. rewrite elem_of_isort, elem_of_select. by intros [? _]. Qed.

Lemma key_eq x y : x ∈ tenant_memberships d → y ∈ tenant_memberships d → tm_ID x = tm_ID y → x = y.
Proof.
  induction (tenant_memberships d) as [|z l IH]; [by intros ?%list.not_elem_of_nil|].
  rewrite fmap_cons, NoDup_cons in Hkey. destruct Hkey as [Hz Hl]. intros Hx Hy E.
  apply list.elem_of_cons in Hx as [->|Hx], Hy as [->|Hy]; [done|..|by apply IH].
  - destruct Hz. rewrite E. by apply list_elem_of_fmap_2.
  - destruct Hz. rewrite <- E. by apply list_elem_of_fmap_2.
Qed.

Lemma tm_le_antisym x y : tm_le x y = true → tm_le y x = true → tm_ID x = tm_ID y.
Proof. unfold tm_le. rewrite !orb_true_iff, !andb_true_iff. lia. Qed.

Lemma listed_filter c : listed tid c d = select (after_cursor c) (listed tid None d).
Proof.
  apply (StronglySorted_unique_strong (λ a b, tm_le a b = true)).
  - intros x y Hx Hy Hxy Hyx. apply elem_of_select in Hy as [Hy _]. apply listed_member in Hx, Hy.
    apply key_eq; [done..|]. by apply tm_le_antisym.
  - apply listed_sorted.
  - apply StronglySorted_select, listed_sorted.
  - apply listed_perm.
Qed.

(** The rows after a row are the rest of the list. *)
Lemma listed_after l1 m l2 : listed tid None d = l1 ++ m :: l2 → listed tid (Some (cursor_of m)) d = l2.
Proof.
  intros E. rewrite listed_filter, E. pose proof (listed_sorted None) as Hs. rewrite E in Hs.
  assert (NoDup (tm_ID <$> (l1 ++ m :: l2))) as Hnd.
  { rewrite <- E. unfold listed. rewrite isort_perm. by apply NoDup_select_fmap. }
  rewrite select_app, (select_cons_false (after_cursor _) m).
  2: { rewrite after_cursor_le. apply negb_false_iff. unfold tm_le.
       rewrite Z.leb_refl, Z.eqb_refl. apply orb_true_r. }
  rewrite select_none, select_all; [done| |].
  - intros x Hx. rewrite after_cursor_le. apply negb_true_iff, not_true_is_false. intros Hle.
    assert (tm_le m x = true) as Hmx.
    { apply StronglySorted_app_1_r, StronglySorted_inv in Hs as [_ Hf]. rewrite Forall_forall in Hf. by apply Hf. }
    rewrite fmap_app, fmap_cons in Hnd. apply NoDup_app in Hnd as (_ & _ & [Hm _]%NoDup_cons). apply Hm.
    rewrite (tm_le_antisym _ _ Hmx Hle). by apply list_elem_of_fmap_2.
  - intros x Hx. rewrite after_cursor_le. apply negb_false_iff.
    apply (StronglySorted_app_1_elem_of _ l1 (m :: l2) x m Hs); [done|by left].
Qed.
End listing.

(** ** Following the cursors *)

(** A client that asks for pages until there is no next position; [C] is what a
    position looks like to it. *)
Fixpoint collect {A C} (fuel : nat) (get : option C → M (list A * option C)) (from : option C) : M (list A) :=
  match fuel with
  | O => throw (EPlain "more pages")
  | S fuel =>
      let! page := get from in
      match page.2 with
      | None => retM page.1
      | Some next => let! rest := collect fuel get (Some next) in retM (page.1 ++ rest)
      end
  end.

(** [limit] rows of [l], and the position after the last of them if there are
    more. *)
Definition page_view {A C} (view : TenantMembership → A) (token : TenantMembership → C) (limit : nat)
    (l : list TenantMembership) : list A * option C :=
  (view <$> take limit l, if Nat.ltb limit (length l) then token <$> last (take limit l) else None).

Lemma page_limit_pos limit : (1 <= page_limit limit)%nat.
Proof. unfold page_limit. destruct (_ || _) eqn:E; [lia|]. apply orb_false_iff in E. lia. Qed.

Section collecting.
  Context {A C : Type} (tid : uuid) (w : World) (get : option C → M (list A * option C)).
  Context (view : TenantMembership → A) (token : TenantMembership → C) (limit : nat).
  Context (Hkey : NoDup (tm_ID <$> tenant_memberships (w_db w))) (Hlimit : (1 <= limit)%nat).
  Context (Hfirst : get None w = (Ok (page_view view token limit (listed tid None (w_db w))), w)).
  Context (Hnext : ∀ m, m ∈ listed tid None (w_db w) →
    get (Some (token m)) w = (Ok (page_view view token limit (listed tid (Some (cursor_of m)) (w_db w))), w)).

Lemma collect_from fuel l1 l2 from :
  listed tid None (w_db w) = l1 ++ l2 → get from w = (Ok (page_view view token limit l2), w) →
  (length l2 < fuel)%nat → collect fuel get from w = (Ok (view <$> l2), w).
Proof.
  revert l1 l2 from. induction fuel as [|fuel IH]; intros l1 l2 from Hall Hget Hf; [lia|]. simpl.
  unfold bindM at 1. rewrite Hget. unfold page_view. cbn [fst snd].
  destruct (Nat.ltb_spec limit (length l2)) as [Hmore|Hend]; [|by rewrite take_ge by lia].
  destruct (last (take limit l2)) as [m|] eqn:El.
  2: { apply last_None in El. apply (f_equal length) in El. rewrite length_take in El. simpl in El. lia. }
  apply last_Some in El as [l El]. cbn [fmap option_fmap option_map].
  assert (listed tid None (w_db w) = (l1 ++ l) ++ m :: drop limit l2) as Hsplit.
  { rewrite Hall, <- (take_drop limit l2) at 1. rewrite El, <- !app_assoc. done. }
  unfold bindM. rewrite (IH ((l1 ++ l) ++ [m]) (drop limit l2)).
  - unfold retM. by rewrite <- fmap_app, take_drop.
  - rewrite Hsplit, <- !app_assoc. done.
  - rewrite Hnext by (rewrite Hsplit; set_solver). by erewrite listed_after.
  - rewrite length_drop. lia.
Qed.

Lemma collect_all fuel :
  (length (listed tid None (w_db w)) < fuel)%nat →
  collect fuel get None w = (Ok (view <$> listed tid None (w_db w)), w).
Proof. intros Hf. by apply (collect_from fuel []). Qed.
End collecting.

Definition list_item (m : TenantMembership) : MembershipListItem := mkMembershipListItem m [] [].

(** A page of the repository, as [collect] reads it. *)
Definition repo_page (tid : uuid) (limit : Z) (cursor : option MembershipListCursor)
  : M (list MembershipListItem * option MembershipListCursor) :=
  let! page := MembershipRepo.List tid cursor limit in retM (mlp_Items page, mlp_NextCursor page).

(** The client of [MembershipRepository.List]. *)
Definition pages (fuel : nat) (tid : uuid) (cursor : option MembershipListCursor) (limit : Z)
  : M (list MembershipListItem) := collect fuel (repo_page tid limit) cursor.

Lemma page_of_view n l :
  let page := page_of n (take (n + 1) l) in
  (mlp_Items page, mlp_NextCursor page) = page_view list_item cursor_of n l.
Proof.
  unfold page_of, page_view. rewrite length_take.
  destruct (Nat.ltb_spec n (length l)), (Nat.ltb_spec n (Nat.min (n + 1) (length l))); try lia; cbn.
  - by rewrite !take_take, !Nat.min_l by lia.
  - by rewrite !take_ge by lia.
Qed.

(** With nothing else running a pool query is a read of the database. *)
Lemma run_query {A} (f : DB → A) w : alone w → withPool (query (λ _, f)) w = (Ok (f (w_db w)), w).
Proof.
  intros Ha. destruct (withPool (query (λ _, f)) w) as [r w'] eqn:E. revert r w' E. apply wp_intro, wp_own_tx; [done|].
  eapply (wp_in_tx (w_clock w)); [done|]. apply wp_query. simpl. by rewrite started_stop.
Qed.

Lemma run_List tid cursor limit w :
  alone w →
  MembershipRepo.List tid cursor limit w =
  (Ok (page_of (page_limit limit) (take (page_limit limit + 1) (listed tid cursor (w_db w)))), w).
Proof.
  intros Ha. unfold MembershipRepo.List, bindM.
  by rewrite (run_query (λ d, take (page_limit limit + 1) (listed tid cursor d))).
Qed.

Section following.
  Context (tid : uuid) (limit : Z) (w : World).
  Context (Ha : alone w) (Hkey : NoDup (tm_ID <$> tenant_memberships (w_db w))).

Lemma run_repo_page cursor :
  repo_page tid limit cursor w = (Ok (page_view list_item cursor_of (page_limit limit) (listed tid cursor (w_db w))), w).
Proof. unfold repo_page, bindM. rewrite run_List by done. unfold retM. by rewrite page_of_view. Qed.

(** Paging through the members.  With nothing else running and distinct
    membership ids, a client that follows [NextCursor] until there is none gets
    every live membership of the tenant exactly once, in (created_at, id) order,
    whatever limit it asks for; it needs no more requests than there are
    members, plus one. *)
Theorem pages_complete fuel :
  (length (listed tid None (w_db w)) < fuel)%nat →
  pages fuel tid None limit w = (Ok (list_item <$> listed tid None (w_db w)), w) ∧
  listed tid None (w_db w) ≡ₚ select (λ m, (tm_TenantID m =? tid) && tm_live m) (tenant_memberships (w_db w)) ∧
  StronglySorted (λ a b, tm_le a b = true) (listed tid None (w_db w)).
Proof.
  intros Hf. split_and!.
  - apply (collect_all tid w _ list_item cursor_of (page_limit limit) Hkey (page_limit_pos limit)); [|intros m _|done];
      apply run_repo_page.
  - unfold listed. rewrite isort_perm. erewrite select_ext; [reflexivity|]. intros m _. simpl. apply andb_true_r.
  - apply listed_sorted.
Qed.
End following.
