(* ===== verification/AcceptSpec.v ===== *)
(** * AcceptSpec: accepting an invitation

    What [AddFromRegister] (I-3) does when the registering user has a pending
    invitation: the membership, the queued roles and department mappings, the
    invitation's new status, and the seat it keeps. *)

From Stdlib Require Import Ascii.
From S2P Require Import Prelude Domain Schema Tx Wp.
From S2P Require Import MembershipRepo RoleRepo DeptMembershipRepo TenantDepartmentRepo InvitationRepo TenantRepo CacheKeys.
From S2P Require Import MembershipService InvitationService MembershipSpec RolesSpec InvitationSpec DeptSpec.

(** ** Queued roles *)

Section roles.
  Context `{Env} (tid uid mid by_ : uuid).

Definition role_event (c : TenantRoleCode) : DomainEvent :=
  accept_event EventTenantRoleGranted tid uid by_ (TenantRoleGrantedPayload uid tid c by_).

(** The elevated codes are held from then on, one event each, and nothing
    else changed. *)
Record rolled (codes : list TenantRoleCode) (w w' : World) : Prop := {
  ro_db : ∃ l, w_db w' = enqueued (emitted (role_event <$> select IsElevated codes)) (set_tenant_roles l (w_db w));
  ro_holds : ∀ c, holds tid uid (w_db w') c = holds tid uid (w_db w) c || contains c (select IsElevated codes);
  ro_others : ∀ t u, (t, u) ≠ (tid, uid) →
    select (tr_of t u) (tenant_roles (w_db w')) = select (tr_of t u) (tenant_roles (w_db w));
  ro_fresh : distinct_uuids → fresh_ids w → fresh_ids w';
  ro_uuids : (w_uuids w <= w_uuids w')%nat;
  ro_tx : flows w w'
}.

Lemma rolled_nil w : rolled [] w w.
Proof.
  split; try done.
  - exists (tenant_roles (w_db w)). simpl. rewrite emitted_nil, enqueued_nil. by destruct (w_db w).
  - intros c. by rewrite orb_false_r.
Qed.

Lemma rolled_cons c cs w w1 w2 : rolled [c] w w1 → rolled cs w1 w2 → rolled (c :: cs) w w2.
Proof.
  intros [(l1 & D1) A1 B1 F1 U1 T1] [(l2 & D2) A2 B2 F2 U2 T2].
  assert (select IsElevated (c :: cs) = select IsElevated [c] ++ select IsElevated cs) as Es
    by (simpl; by destruct (IsElevated c)).
  split.
  - exists l2. rewrite D2, D1, Es, fmap_app, emitted_app. unfold enqueued, set_outbox_events, set_tenant_roles. simpl.
    by rewrite <- app_assoc.
  - intros x. by rewrite A2, A1, Es, contains_app, orb_assoc.
  - intros t u Hne. by rewrite B2, B1.
  - auto.
  - lia.
  - by etrans.
Qed.

Lemma role_not_other c id now t u :
  (t, u) ≠ (tid, uid) → tr_of t u (granted_row tid uid mid by_ id c now) = false.
Proof.
  intros Hne. unfold tr_of. simpl. rewrite andb_true_r.
  destruct ((tid =? t) && (uid =? u)) eqn:E; [|done].
  apply andb_true_iff in E as [->%Z.eqb_eq ->%Z.eqb_eq]. done.
Qed.

(** One grant: held already, or a new row. *)
Lemma wp_accept_role c now w (Q : result error unit → World → Prop) :
  codec_schemas → w_txnow w = Some now → refs_ok tid uid mid (w_db w) → fresh_ids w →
  (∀ w', rolled [c] w w' → Q (Ok tt) w') → wp (accept_role tid uid mid by_ c) Q w.
Proof.
  intros Hc Ht Hr Hf HQ. unfold accept_role. destruct (IsElevated c) eqn:Ec; simpl.
  2: { apply wp_ret, HQ. pose proof (rolled_nil w) as [R1 R2 R3 R4 R5 R6].
       split; simpl; rewrite ?Ec; done. }
  unfold RoleRepo.Grant, id_or_new. rewrite Z.eqb_refl. apply wp_bind, wp_bind, wp_new_uuid.
  eapply (wp_in_tx now); [done|]. apply wp_bind, wp_sql. unfold now_in. simpl. rewrite Ht.
  destruct (holds tid uid (w_db w) c) eqn:Eh.
  - unfold RoleRepo.insert_role. replace (role_known c) with true by (by destruct c).
    replace (c ==? RoleMember)%stdpp with false by (by destruct c). simpl. unfold holds in Eh. rewrite Eh.
    apply wp_query_row. simpl. rewrite exists_row_first in Eh.
    destruct (select_first (RoleRepo.tr_grant tid uid c) (tenant_roles (w_db w))) as [r|] eqn:Es; [|done].
    apply select_first_Some in Es as Hin. destruct Hin as [Hin Hg].
    unfold RoleRepo.tr_grant in Hg. apply andb_true_iff in Hg as [_ Hg]. rewrite bool_eq_true in Hg.
    rewrite Hg. apply (wp_publish Hc _ _ now); [done|exact Ec|]. fold (role_event c). apply HQ. split; simpl; rewrite ?Ec; simpl.
    + exists (tenant_roles (w_db w)). by destruct (w_db w).
    + intros x. unfold holds. simpl. unfold contains. rewrite (bool_decide_ext _ (x = c)) by apply list_elem_of_singleton.
      destruct (bool_decide_reflect (x = c)) as [->|_]; [|by rewrite orb_false_r].
      rewrite exists_row_first, Es. done.
    + done.
    + intros Hd Hf' n Hn r' Hr'. simpl in *. apply (Hf' n); [lia|done].
    + lia.
    + done.
  - rewrite (insert_role_fresh tid uid mid by_) by (try done; intros r' Hr'; by apply (Hf (w_uuids w)); [lia|]).
    apply wp_ret. simpl. apply (wp_publish Hc _ _ now); [done|exact Ec|]. fold (role_event c).
    apply HQ. split; simpl; rewrite ?Ec; simpl.
    + by eexists.
    + intros x. unfold holds. simpl. rewrite exists_row_app. simpl. rewrite granted_row_grant, !Z.eqb_refl, orb_false_r.
      simpl. f_equal. unfold contains. rewrite (bool_decide_ext _ (c = x)); [done|]. rewrite list_elem_of_singleton. done.
    + intros t u Hne. by rewrite select_app, (select_cons_false (tr_of t u)), app_nil_r by (by apply role_not_other).
    + intros Hd Hf' n Hn r' Hr'. simpl in *. apply elem_of_app in Hr' as [Hr'|Hr'%list_elem_of_singleton].
      * apply (Hf' n); [lia|done].
      * subst. simpl. intros E%Hd. lia.
    + lia.
    + done.
Qed.

Lemma wp_accept_roles codes now w (Q : result error unit → World → Prop) :
  codec_schemas → distinct_uuids → w_txnow w = Some now → refs_ok tid uid mid (w_db w) → fresh_ids w →
  (∀ w', rolled codes w w' → Q (Ok tt) w') → wp (for_each codes (accept_role tid uid mid by_)) Q w.
Proof.
  intros Hc Hd. revert w Q. induction codes as [|c cs IH]; intros w Q Ht Hr Hf HQ; simpl.
  { apply wp_ret, HQ, rolled_nil. }
  apply wp_bind, (wp_accept_role c now); [done..|]. intros w1 R1. pose proof R1 as [(l & D1) _ _ F1 _ T1]. apply IH.
  - by rewrite (proj1 (proj2 T1)).
  - unfold refs_ok in *. by rewrite D1.
  - auto.
  - intros w2 R2. apply HQ. by eapply rolled_cons.
Qed.
End roles.

(** ** Queued department mappings *)

Section depts.
  Context `{Env} (tid uid mid by_ : uuid).

Definition dept_event (m : InvitationDeptMapping) : DomainEvent :=
  accept_event EventDepartmentMembershipGranted tid uid by_
    (DepartmentMembershipGrantedPayload uid tid (idm_DepartmentID m) (idm_Level m) by_).

Definition free_depts (w : World) : Prop :=
  ∀ n, (w_uuids w <= n)%nat → ∀ x, x ∈ dept_memberships (w_db w) → dm_ID x ≠ uuid_New n.

(** A mapping the database accepts. *)
Definition mapping_ok (d : DB) (m : InvitationDeptMapping) : Prop :=
  dept_role_known (idm_Level m) = true ∧ dept_refs tid uid (idm_DepartmentID m) mid d.

(** The user has each mapping's level in its department, one event each, and
    nothing else changed. *)
Record mapped (ms : list InvitationDeptMapping) (w w' : World) : Prop := {
  ma_db : ∃ l, w_db w' = enqueued (emitted (dept_event <$> ms)) (set_dept_memberships l (w_db w));
  ma_levels : ∀ m, m ∈ ms → level_in tid uid (idm_DepartmentID m) (w_db w') = Some (idm_Level m);
  ma_others : ∀ t u y, (t, u) ≠ (tid, uid) ∨ y ∉ idm_DepartmentID <$> ms →
    select (dm_at t u y) (dept_memberships (w_db w')) = select (dm_at t u y) (dept_memberships (w_db w));
  ma_wf : dept_wf (w_db w');
  ma_free : free_depts w';
  ma_tx : flows w w'
}.

(** A level is read off the live rows of its slot. *)
Lemma level_in_select did d d' :
  select (dm_at tid uid did) (dept_memberships d') = select (dm_at tid uid did) (dept_memberships d) →
  level_in tid uid did d' = level_in tid uid did d.
Proof. intros E. unfold level_in, dept_row. by rewrite <- !select_head, E. Qed.

Lemma wp_accept_dept m now w (Q : result error unit → World → Prop) :
  codec_schemas → distinct_uuids → w_txnow w = Some now → mapping_ok (w_db w) m → free_depts w → dept_wf (w_db w) →
  (∀ w', mapped [m] w w' → Q (Ok tt) w') → wp (accept_dept tid uid mid by_ m) Q w.
Proof.
  intros Hc Hd Ht [Hl Hr] Hf Hwf HQ. unfold accept_dept. apply wp_bind, (wp_repo_Assign _ _ _ _ _ _ now); [done..| | |].
  { intros x Hx. by apply (Hf (w_uuids w)); [lia|]. }
  { done. }
  intros row w1 [[Hrow Hlv] Hwf1 Hoth (l & D1 & Hids)] Fl Hu Hsrc.
  apply (wp_publish Hc _ _ now); [by rewrite (proj1 (proj2 Fl))|rewrite Hlv; exact Hl|].
  assert (dm_DepartmentID row = idm_DepartmentID m) as Hdep.
  { apply select_first_Some in Hrow as [_ (_ & _ & E & _)%dm_at_split]. done. }
  rewrite Hdep, Hlv. fold (dept_event m). apply HQ. split; simpl.
  - exists l. by rewrite D1.
  - intros m' ->%list_elem_of_singleton. unfold level_in, dept_row in *. simpl. by rewrite Hrow, <- Hlv.
  - intros t u y Hne. apply Hoth. intros [= -> -> ->]. destruct Hne as [Hne|Hne]; [done|].
    apply Hne. apply list_elem_of_singleton. done.
  - done.
  - intros n Hn x Hx. simpl in *. rewrite D1 in Hx. simpl in Hx. destruct (Hids x Hx) as [->|Hin].
    + destruct Hsrc as [[-> Eu]|Hsrc]; [simpl; intros E%Hd; lia|].
      apply select_first_Some in Hsrc as [Hin _]. by apply (Hf n); [lia|].
    + apply list_elem_of_fmap in Hin as (x' & -> & Hx'). by apply (Hf n); [lia|].
  - done.
Qed.

Lemma wp_accept_depts ms now w (Q : result error unit → World → Prop) :
  codec_schemas → distinct_uuids → w_txnow w = Some now → (∀ m, m ∈ ms → mapping_ok (w_db w) m) →
  NoDup (idm_DepartmentID <$> ms) → free_depts w → dept_wf (w_db w) →
  (∀ w', mapped ms w w' → Q (Ok tt) w') → wp (for_each ms (accept_dept tid uid mid by_)) Q w.
Proof.
  intros Hc Hd. revert w Q. induction ms as [|m ms IH]; intros w Q Ht Hok Hnd Hf Hwf HQ; simpl.
  { apply wp_ret, HQ. split; try done; [|by intros m ?%list.not_elem_of_nil].
    exists (dept_memberships (w_db w)). simpl. rewrite emitted_nil, enqueued_nil. by destruct (w_db w). }
  rewrite fmap_cons, NoDup_cons in Hnd. destruct Hnd as [Hm Hnd].
  apply wp_bind, (wp_accept_dept m now); [done|done|done|by apply Hok; left|done|done|].
  intros w1 [(l1 & D1) L1 O1 W1 F1 T1]. apply IH; [by rewrite (proj1 (proj2 T1))| |done|done|done|].
  { intros m' Hm'. specialize (Hok m' ltac:(by right)). unfold mapping_ok, dept_refs in *. by rewrite D1. }
  intros w2 [(l2 & D2) L2 O2 W2 F2 T2]. apply HQ. split; [| | |done|done|by etrans].
  - exists l2. pose proof (emitted_app [dept_event m] (dept_event <$> ms)) as Ee. simpl in Ee.
    change (dept_event <$> m :: ms) with (dept_event m :: (dept_event <$> ms)). rewrite Ee, D2, D1. unfold enqueued, set_outbox_events, set_dept_memberships. simpl. by rewrite <- app_assoc.
  - intros m' Hm'. apply list.elem_of_cons in Hm' as [->|Hm']; [|by apply L2].
    rewrite <- (L1 m) by (by apply list_elem_of_singleton). apply level_in_select, O2. by right.
  - intros t u y Hne. rewrite O2, O1; [done|..].
    + destruct Hne as [Hne|Hne]; [by left|right]. rewrite fmap_cons in Hne. simpl. intros Hin. apply Hne.
      apply list_elem_of_singleton in Hin as ->. by left.
    + destruct Hne as [Hne|Hne]; [by left|right]. rewrite fmap_cons in Hne. intros Hin. apply Hne. by right.
Qed.
End depts.

(** ** The invitation and the membership *)

Section acceptance.
  Context `{Env} (tid uid : uuid).

(** The row accepted, and then stripped of the address and the name. *)
Definition accept_row (now : time) (i : PendingInvitation) : PendingInvitation :=
  touched now (λ i, set_pi_AcceptedAt (Some now) (set_pi_Status InviteAccepted i)) i.
Definition erase_row (now : time) (i : PendingInvitation) : PendingInvitation := touched now redact i.

Definition on_invitation (p : PendingInvitation) (f : PendingInvitation → PendingInvitation) (d : DB) : DB :=
  set_pending_invitations (update_where (λ i, pi_ID i =? pi_ID p) f (pending_invitations d)) d.

Definition pk_invitations (d : DB) : Prop := NoDup (pi_ID <$> pending_invitations d).

(** By its key a row is the only one an update finds. *)
Lemma invitation_key (q : PendingInvitation → bool) p d :
  pk_invitations d → p ∈ pending_invitations d → q p = true →
  (∀ i, q i = true → pi_ID i = pi_ID p) →
  (∀ i, i ∈ pending_invitations d → q i = (pi_ID i =? pi_ID p)) ∧ select q (pending_invitations d) = [p].
Proof.
  intros Hpk Hin Hq Hid.
  assert (∀ i, i ∈ pending_invitations d → pi_ID i = pi_ID p → i = p) as Hone.
  { intros i Hi E. pose proof (count_key pi_ID (pi_ID p) (λ x, pi_ID x =? pi_ID p) (pending_invitations d)
      (λ x Hx, proj1 (Z.eqb_eq _ _) Hx) Hpk) as Hc.
    destruct (select_first (λ x, pi_ID x =? pi_ID p) (pending_invitations d)) as [y|] eqn:Ey.
    - rewrite (unique_eq _ _ _ i Ey Hc Hi (proj2 (Z.eqb_eq _ _) E)).
      by rewrite (unique_eq _ _ _ p Ey Hc Hin (Z.eqb_refl _)).
    - apply select_first_None with (x := p) in Ey; [|done]. by rewrite Z.eqb_refl in Ey. }
  split.
  - intros i Hi. destruct (pi_ID i =? pi_ID p) eqn:E.
    + apply Z.eqb_eq in E. by rewrite (Hone i Hi E).
    + apply not_true_is_false. intros Ht%Hid. by apply Z.eqb_neq in E.
  - destruct (select_first q (pending_invitations d)) as [y|] eqn:Ey.
    + pose proof (count_key pi_ID (pi_ID p) q _ Hid Hpk) as Hc.
      rewrite (unique_eq _ _ _ p Ey Hc Hin Hq). by apply select_unique.
    + apply select_first_None with (x := p) in Ey; [congruence|done].
Qed.

Lemma wp_invitation_update (q : PendingInvitation → bool) (f : time → PendingInvitation → PendingInvitation) p now w
    (Q : result error (list PendingInvitation) → World → Prop) :
  w_txnow w = Some now → pk_invitations (w_db w) → p ∈ pending_invitations (w_db w) → q p = true →
  (∀ i, q i = true → pi_ID i = pi_ID p) → pi_checks (touched now (f now) p) = None →
  pi_pending (touched now (f now) p) = false →
  Q (Ok [touched now (f now) p]) (set_w_db (on_invitation p (touched now (f now)) (w_db w)) w) →
  wp (sql (λ now d, invitations_update q (f now) now d)) Q w.
Proof.
  intros Ht Hpk Hin Hq Hid Hck Hnp HQ. apply wp_sql. unfold now_in. rewrite Ht.
  destruct (invitation_key q p (w_db w) Hpk Hin Hq Hid) as [Hext Hsel].
  unfold invitations_update, update_returning. rewrite Hsel. simpl. unfold first_error. simpl. rewrite Hck. simpl.
  unfold uq_pi_pending. rewrite Hnp. simpl.
  rewrite (update_where_ext q (λ i, pi_ID i =? pi_ID p) _ (touched now (f now))) by (intros; by rewrite Hext).
  exact HQ.
Qed.

(** The acceptance of a pending row. *)
Lemma wp_invitation_accept p now w (Q : result error PendingInvitation → World → Prop) :
  w_txnow w = Some now → pk_invitations (w_db w) → p ∈ pending_invitations (w_db w) → pi_TenantID p = tid →
  pi_pending p = true → name_ok (pi_FullName p) →
  Q (Ok (accept_row now p)) (set_w_db (on_invitation p (accept_row now) (w_db w)) w) →
  wp (InvitationRepo.SetStatus tid (pi_ID p) InviteAccepted (pi_RecordVersion p)) Q w.
Proof.
  intros Ht Hpk Hin Htid Hp [Hn1 Hn2] HQ. unfold InvitationRepo.SetStatus. eapply (wp_in_tx now); [done|].
  apply wp_bind, (wp_invitation_update _ (λ now i, set_pi_AcceptedAt (Some now) (set_pi_Status InviteAccepted i)) p now).
  - done.
  - done.
  - done.
  - unfold pi_at, pi_is. by rewrite Htid, !Z.eqb_refl, Hp.
  - intros i Hi. apply andb_true_iff in Hi as [Hi _]. unfold pi_at, pi_is in Hi.
    apply andb_true_iff in Hi as [[_ E%Z.eqb_eq]%andb_true_iff _]. done.
  - unfold pi_checks. rewrite (touched_column pi_FullName), (touched_column pi_AcceptedAt), (touched_column pi_Status)
      by done. simpl. unfold first_error, check_that. simpl. apply Z.leb_le in Hn2. rewrite Hn2. simpl.
    by rewrite (proj2 (String.eqb_neq _ _) Hn1).
  - unfold pi_pending. by rewrite (touched_column pi_Status).
  - apply wp_ret. exact HQ.
Qed.

(** A membership for a user who has none. *)
Definition new_member (id : uuid) (now : time) : TenantMembership :=
  mkTenantMembership id tid uid MembershipActive 1 now now None.

Lemma wp_new_member now w (Q : result error TenantMembership → World → Prop) :
  w_txnow w = Some now → exists_row (t_is tid) (tenants (w_db w)) = true →
  exists_row (tm_of tid uid) (tenant_memberships (w_db w)) = false →
  (∀ m, m ∈ tenant_memberships (w_db w) → tm_ID m ≠ uuid_New (w_uuids w)) →
  (let row := new_member (uuid_New (w_uuids w)) now in
   Q (Ok row) (set_w_db (set_tenant_memberships (tenant_memberships (w_db w) ++ [row]) (w_db w))
                 (set_w_uuids (S (w_uuids w)) w))) →
  wp (MembershipRepo.Insert uuid_Nil tid uid MembershipActive) Q w.
Proof.
  intros Ht Hf Hno Hid HQ. unfold MembershipRepo.Insert, id_or_new. rewrite Z.eqb_refl.
  apply wp_bind, wp_new_uuid. eapply (wp_in_tx now); [done|]. apply wp_bind, wp_sql.
  unfold now_in, insert_membership. simpl. rewrite Ht, Hno.
  replace (exists_row (λ m, tm_ID m =? _) _) with false.
  2: { symmetry. apply exists_row_false. intros m Hm. by apply Z.eqb_neq, Hid. }
  unfold fk_tenant. rewrite Hf. by apply wp_ret.
Qed.

(** ** The whole acceptance *)

(** The user is an active member with the queued roles and department levels,
    the invitation is [f] of what it was, the outbox tells, and nothing else
    changed. *)
Record welcomed (p : PendingInvitation) (f : PendingInvitation → PendingInvitation) (mem : TenantMembership)
    (d d' : DB) : Prop := {
  we_member : tenant_memberships d' = tenant_memberships d ++ [mem] ∧ tm_active_of tid mem = true ∧ tm_UserID mem = uid;
  we_invitation : pending_invitations d' = pending_invitations (on_invitation p f d);
  we_roles : ∀ c, holds tid uid d' c = holds tid uid d c || contains c (select IsElevated (pi_InitialTenantRoles p));
  we_levels : ∀ m, m ∈ pi_InitialDeptMappings p → level_in tid uid (idm_DepartmentID m) d' = Some (idm_Level m);
  we_others : ∀ t u, (t, u) ≠ (tid, uid) →
    select (tr_of t u) (tenant_roles d') = select (tr_of t u) (tenant_roles d) ∧
    ∀ y, select (dm_at t u y) (dept_memberships d') = select (dm_at t u y) (dept_memberships d);
  we_outbox : outbox_events d' = outbox_events d ++
    emitted ((role_event tid uid (pi_InvitedBy p) <$> select IsElevated (pi_InitialTenantRoles p)) ++
             (dept_event tid uid (pi_InvitedBy p) <$> pi_InitialDeptMappings p));
  we_rest : tenants d' = tenants d ∧ tenant_departments d' = tenant_departments d ∧
    dept_role_labels d' = dept_role_labels d
}.

(** A pending invitation of the tenant that can be honoured as it is. *)
Record honourable (p : PendingInvitation) (clock : time) (d : DB) : Prop := {
  ho_in : p ∈ pending_invitations d;
  ho_tenant : pi_TenantID p = tid;
  ho_pending : pi_pending p = true;
  ho_name : name_ok (pi_FullName p);
  ho_expiry : clock < pi_ExpiresAt p;
  ho_levels : ∀ m, m ∈ pi_InitialDeptMappings p →
    dept_role_known (idm_Level m) = true ∧ exists_row (td_is tid (idm_DepartmentID m)) (tenant_departments d) = true;
  ho_depts : NoDup (idm_DepartmentID <$> pi_InitialDeptMappings p)
}.

(** The database is well formed and the user is new to the tenant. *)
Record newcomer (w : World) : Prop := {
  ne_tenant : exists_row (t_is_live tid) (tenants (w_db w)) = true;
  ne_member : exists_row (tm_of tid uid) (tenant_memberships (w_db w)) = false;
  ne_pk : pk_invitations (w_db w);
  ne_wf : dept_wf (w_db w);
  ne_ids : ∀ n, (w_uuids w <= n)%nat → ∀ m, m ∈ tenant_memberships (w_db w) → tm_ID m ≠ uuid_New n;
  ne_roles : fresh_ids w;
  ne_depts : free_depts w
}.

Lemma live_exists d : exists_row (t_is_live tid) (tenants d) = true → exists_row (t_is tid) (tenants d) = true.
Proof.
  rewrite !exists_row_true. intros (t & Ht & [E _]%andb_true_iff). by exists t.
Qed.

Lemma wp_relock p now w (Q : result error (option PendingInvitation) → World → Prop) :
  w_txnow w = Some now → pk_invitations (w_db w) → honourable p (w_clock w) (w_db w) →
  Q (Ok (Some p)) w → wp (relock tid p) Q w.
Proof.
  intros Ht Hpk [Hin Htid Hp _ He _ _] HQ. unfold relock, InvitationRepo.LockByID.
  apply wp_bind. eapply (wp_in_tx now); [done|]. apply wp_query.
  destruct (invitation_key (λ i, pi_ID i =? pi_ID p) p (w_db w) Hpk Hin (Z.eqb_refl _)) as [_ Hsel].
  { by intros i E%Z.eqb_eq. }
  apply (f_equal head) in Hsel. rewrite select_head in Hsel. simpl in Hsel. rewrite Hsel. simpl. rewrite Hp. simpl.
  apply wp_bind, wp_time_Now. replace (pi_ExpiresAt p <=? w_clock w) with false by (symmetry; apply Z.leb_gt; lia).
  rewrite andb_false_r. apply wp_bind, wp_ret, wp_ret.
  replace (set_pi_RecordVersion (pi_RecordVersion p) p) with p by (by destruct p). done.
Qed.

Lemma wp_accept_tx p now w (Q : result error (option PendingInvitation * TenantMembership) → World → Prop) :
  codec_schemas → distinct_uuids → w_txnow w = Some now → newcomer w → honourable p (w_clock w) (w_db w) →
  (∀ mem w', welcomed p (accept_row now) mem (w_db w) (w_db w') → flows w w' → Q (Ok (Some p, mem)) w') →
  wp (accept_tx tid uid (Some p)) Q w.
Proof.
  intros Hc Hd Ht [N1 N2 N3 N4 N5 N6 N7] Ho HQ. pose proof Ho as [Hin Htid Hp Hn He Hlv Hdep]. unfold accept_tx.
  apply wp_bind, (wp_LockByID _ now); [done|]. rewrite count_eqb_0, N1. simpl.
  apply wp_bind, (wp_relock p now); [done..|].
  apply wp_bind, (wp_new_member now); [done|by apply live_exists|done|by intros m; apply N5; lia|].
  set (mem := new_member _ _). apply wp_bind, wp_bind.
  apply (wp_invitation_accept p now); [done..|].
  apply wp_bind, (wp_accept_roles tid uid (tm_ID mem) (pi_InvitedBy p) _ now); [done|done|done| | |].
  { split; [by apply live_exists|]. simpl. rewrite exists_row_app. simpl. by rewrite !Z.eqb_refl, orb_true_r. }
  { intros n Hn' r Hr. simpl in *. by apply (N6 n); [lia|]. }
  intros w2 [(l2 & D2) A2 B2 _ U2 T2]. simpl in U2.
  apply (wp_accept_depts tid uid (tm_ID mem) (pi_InvitedBy p) _ now);
    [done|done|by rewrite (proj1 (proj2 T2))| |done| | |].
  { intros m Hm. destruct (Hlv m Hm) as [K1 K2]. split; [done|]. rewrite D2. split_and!; simpl.
    - by apply live_exists.
    - done.
    - rewrite exists_row_app. simpl. by rewrite !Z.eqb_refl, orb_true_r. }
  { intros n Hn' x Hx. rewrite D2 in Hx. simpl in *. by apply (N7 n); [lia|]. }
  { by rewrite D2. }
  intros w3 [(l3 & D3) L3 O3 _ _ T3]. apply wp_ret. apply HQ; [|by etrans; [|exact T3]; etrans; [|exact T2]].
  split.
  - rewrite D3, D2. split_and!; [done| |done]. unfold tm_active_of. simpl. by rewrite Z.eqb_refl.
  - rewrite D3, D2. done.
  - intros c. pose proof (A2 c) as E. unfold holds in *. rewrite D3. simpl. exact E.
  - done.
  - intros t u Hne. split; [rewrite D3; simpl; by apply B2|]. intros y. rewrite O3 by (by left). by rewrite D2.
  - rewrite D3, D2. simpl. by rewrite emitted_app, <- app_assoc.
  - by rewrite D3, D2.
Qed.

(** *** The seat *)

(** The invitation's seat becomes the member's. *)
Lemma welcomed_seats p f mem now d d' :
  pk_invitations d → honourable p now d → (∀ i, pi_ID (f i) = pi_ID i) → (∀ i, pi_pending (f i) = false) →
  welcomed p f mem d d' → occupancy now tid d' = occupancy now tid d.
Proof.
  intros Hpk [Hin Htid Hp _ He _ _] Hk Hf [(M1 & M2 & _) I1 _ _ _ _ _]. unfold occupancy. rewrite M1, I1, count_app, count_cons, M2.
  change (count _ []) with 0. simpl.
  assert (∀ i, pi_holds_seat now tid (f i) = false) as Hff.
  { intros i. specialize (Hf i). unfold pi_pending in Hf. unfold pi_holds_seat. by rewrite Hf, andb_false_r. }
  rewrite count_update_out by (intros; apply Hff).
  rewrite (count_split (pi_holds_seat now tid) (λ i, pi_ID i =? pi_ID p) (pending_invitations d)).
  enough (count (λ x, pi_holds_seat now tid x && (pi_ID x =? pi_ID p)) (pending_invitations d) = 1) by lia.
  rewrite count_select. destruct (invitation_key (λ x, pi_holds_seat now tid x && (pi_ID x =? pi_ID p)) p d Hpk Hin)
    as [_ ->]; [| |done].
  - unfold pi_holds_seat. unfold pi_pending in Hp. rewrite Htid, !Z.eqb_refl, Hp. simpl. rewrite andb_true_r. by apply Z.ltb_lt.
  - by intros i [_ E%Z.eqb_eq]%andb_true_iff.
Qed.

(** *** Erasing the address *)

Lemma accept_row_key now i : pi_ID (accept_row now i) = pi_ID i.
Proof. unfold accept_row. by rewrite (touched_column pi_ID). Qed.

Lemma on_invitation_pk p f d : (∀ i, pi_ID (f i) = pi_ID i) → pk_invitations d → pk_invitations (on_invitation p f d).
Proof.
  intros Hk. unfold pk_invitations, on_invitation. simpl. intros Hn.
  replace (pi_ID <$> _) with (pi_ID <$> pending_invitations d); [done|].
  unfold update_where. clear Hn. induction (pending_invitations d) as [|x l IH]; [done|]. simpl.
  f_equal; [by destruct (_ =? _); rewrite ?Hk|exact IH].
Qed.

Lemma wp_own_ErasePII p now w (Q : result error unit → World → Prop) :
  alone w → w_clock w = now → pk_invitations (w_db w) → p ∈ pending_invitations (w_db w) → pi_TenantID p = tid →
  pi_Status p = InviteAccepted → pi_AcceptedAt p ≠ None →
  Q (Ok tt) (set_w_db (on_invitation p (erase_row now) (w_db w)) w) →
  wp (InvitationRepo.ErasePII tid (pi_ID p)) Q w.
Proof.
  intros Ha <- Hpk Hin Htid Hst Hat HQ. unfold InvitationRepo.ErasePII. apply wp_own_tx; [done|].
  eapply (wp_in_tx (w_clock w)); [done|]. apply wp_bind, (wp_invitation_update _ (λ _, redact) p (w_clock w)).
  - done.
  - done.
  - done.
  - by rewrite Htid, !Z.eqb_refl, orb_true_r.
  - by intros i [E%Z.eqb_eq _]%andb_true_iff.
  - unfold pi_checks. rewrite (touched_column pi_FullName), (touched_column pi_AcceptedAt), (touched_column pi_Status)
      by done. simpl. rewrite Hst. by destruct (pi_AcceptedAt p).
  - unfold pi_pending. rewrite (touched_column pi_Status) by done. simpl. by rewrite Hst.
  - apply wp_ret. simpl. destruct Ha as [_ Ht]. destruct w. simpl in *. by rewrite Ht in HQ.
Qed.

(** What erasing the row makes of the acceptance. *)
Lemma welcomed_erased p mem now d d1 :
  welcomed p (accept_row now) mem d d1 →
  welcomed p (λ i, erase_row now (accept_row now i)) mem d (on_invitation (accept_row now p) (erase_row now) d1).
Proof.
  intros [M I R L O B T]. split; try done. unfold on_invitation in *. simpl in *. rewrite I, accept_row_key.
  apply update_where_compose. intros i. by rewrite accept_row_key.
Qed.

Context (kc : uuid) (email : string).

(** C32: accepting an invitation (I-3, PI-4).  For a user new to the tenant
    with a pending, unexpired invitation, and nothing else running,
    [AddFromRegister] makes them an active member, gives them exactly the queued
    elevated roles and department levels besides what they had, with one event
    each, marks the invitation accepted and strips it of address and name; the
    seat the invitation held becomes the member's, so the occupancy of the
    tenant is unchanged. *)
Theorem AddFromRegister_accepts p w r w' :
  codec_schemas → distinct_uuids → alone w → person tid kc w → address_ok email → newcomer w →
  matching_invitation tid kc email (w_db w) = Some p → honourable p (w_clock w) (w_db w) →
  AddFromRegister tid uid kc email w = (r, w') →
  ∃ mem, r = Ok mem ∧
    welcomed p (λ i, erase_row (w_clock w) (accept_row (w_clock w) i)) mem (w_db w) (w_db w') ∧
    occupancy (w_clock w) tid (w_db w') = occupancy (w_clock w) tid (w_db w).
Proof.
  intros Hc Hd Ha Hp Hadr Hnew Hm Ho E. pose proof (ne_pk _ Hnew) as Hpk.
  enough (∃ mem, r = Ok mem ∧
    welcomed p (λ i, erase_row (w_clock w) (accept_row (w_clock w) i)) mem (w_db w) (w_db w')) as (mem & -> & Hw).
  { exists mem. split; [done|]. split; [done|]. eapply (welcomed_seats p); [done..| | |exact Hw].
    - intros i. unfold erase_row. rewrite (touched_column pi_ID) by done. apply accept_row_key.
    - intros i. unfold pi_pending, erase_row. rewrite (touched_column pi_Status) by done. simpl.
      unfold accept_row. by rewrite (touched_column pi_Status). }
  revert r w' E. apply wp_intro. unfold AddFromRegister. apply wp_bind, (wp_register_subject tid kc); [done|].
  intros w1 D1 U1 F1. pose proof (alone_flows _ _ Ha F1) as Ha1. apply wp_bind, wp_throw_if. apply wp_bind, wp_throw_if.
  rewrite address_ok_passes by done. pose proof (proj2 (proj2 F1)) as C1.
  apply wp_bind_assoc, wp_bind, wp_find_matching; [done|]. rewrite D1, Hm.
  apply wp_bind, wp_RunInTx_captured_alone; [done|].
  apply (wp_accept_tx p (w_clock w1)); [done|done|done| | |].
  - destruct Hnew as [N1 N2 N3 N4 N5 N6 N7]. split; unfold fresh_ids, free_depts in *; simpl; rewrite ?D1, ?U1; done.
  - simpl. by rewrite D1, C1.
  - simpl. rewrite D1, C1. intros mem w2 Hw F2. apply wp_bind, wp_bind, wp_try.
    rewrite <- (accept_row_key (w_clock w) p). apply (wp_own_ErasePII _ (w_clock w)).
    + destruct F2 as (Hs & _ & _). split; [|done]. simpl in *. rewrite (proj1 Ha1) in Hs. by apply suffix_nil_inv in Hs.
    + simpl. destruct F2 as (_ & _ & ->). done.
    + unfold pk_invitations in *. simpl. rewrite (we_invitation _ _ _ _ _ Hw).
      by apply (on_invitation_pk p), Hpk; intros; apply accept_row_key.
    + simpl. rewrite (we_invitation _ _ _ _ _ Hw). apply elem_of_update_where. exists p.
      rewrite Z.eqb_refl. split; [apply Ho|done].
    + unfold accept_row. rewrite (touched_column pi_TenantID) by done. apply Ho.
    + unfold accept_row. by rewrite (touched_column pi_Status).
    + unfold accept_row. by rewrite (touched_column pi_AcceptedAt).
    + apply wp_ret. apply wp_bind, (wp_quiet _ _ _ (quiet_evict _)). intros w3 Hd3 _. apply wp_ret. exists mem.
      split; [done|]. rewrite Hd3. simpl. by apply welcomed_erased.
Qed.
End acceptance.
