(* ===== verification/TenancyWitness.v ===== *)
(** * TenancyWitness: departments, signup, removal and paging on concrete databases

    Instances of the theorems of [DeptSpec.v], [ProvisioningSpec.v],
    [PaginationSpec.v] and [AcceptSpec.v]. *)

From Stdlib Require Import Ascii.
From S2P Require Import CatalogService.
From S2P Require Import Prelude Domain Schema Tx Wp Demo.
From S2P Require Import MembershipRepo RoleRepo DeptMembershipRepo TenantDepartmentRepo DeptRoleLabelRepo InvitationRepo.
From S2P Require Import TenantRepo EventStores CacheKeys MembershipService DeptMembershipService ProvisioningService.
From S2P Require Import InvitationService LifecycleSpec MembershipSpec RolesSpec InvitationSpec DeptSpec.
From S2P Require Import ProvisioningSpec PaginationSpec AcceptSpec MembershipWitness.

#[local] Existing Instance demo_env.

(** ** Departments *)

Lemma team_depts : dept_wf team.
Proof.
  split_and!; [apply (bool_decide_unpack _); vm_compute; exact I|by apply Forall_singleton|].
  intros t u x. unfold count. simpl. destruct (dm_at _ _ _ _); simpl; lia.
Qed.

Lemma team_fresh_dept : fresh_dept_id (demo_world team).
Proof. intros x Hx. simpl in Hx. apply list_elem_of_singleton in Hx as ->. simpl. lia. Qed.

(** User 22 from reviewer to approver in department 301. *)
Lemma Assign_spec_witness :
  ∃ row w', DeptMembershipService.Assign 7 22 301 DeptApprover 21 (demo_world team) = (Ok row, w') ∧
    assigned 7 22 301 21 DeptApprover row team (w_db w') ∧ length (outbox_events (w_db w')) = 1%nat.
Proof.
  destruct (DeptMembershipService.Assign 7 22 301 DeptApprover 21 (demo_world team)) as [[row|e] w'] eqn:E;
    [|exfalso; vm_compute in E; discriminate E].
  pose proof (Assign_spec 7 22 301 21 DeptApprover (demo_world team) _ w' demo_codec (demo_world_alone team)
                team_depts team_fresh_dept eq_refl E) as HS.
  exists row, w'. split; [reflexivity|]. split; [exact (proj2 HS)|]. vm_compute in E. injection E as _ <-. reflexivity.
Defined.

Lemma demotionGate_spec_witness :
  (demotionGate 7 22 301 DeptPreparator (demo_world team)).1 = Ok tt.
Proof.
  destruct (demotionGate 7 22 301 DeptPreparator (demo_world team)) as [r w'] eqn:E. simpl.
  destruct (demotionGate_spec 7 22 301 DeptPreparator (demo_world team) r w' (demo_world_alone team) team_depts E)
    as [_ HS].
  replace (gate_blocks 7 22 301 DeptPreparator (demo_world team)) with false in HS by (vm_compute; reflexivity).
  exact HS.
Defined.

Lemma CheckEligibility_spec_witness :
  ∃ v, CheckEligibility 7 22 301 DeptApprover (demo_world team) = (Ok v, demo_world team) ∧
    ae_Reason v = EligibilityLevelInsufficient ∧ ae_Eligible v = false.
Proof.
  destruct (CheckEligibility 7 22 301 DeptApprover (demo_world team)) as [r w'] eqn:E.
  destruct (CheckEligibility_spec 7 22 301 DeptApprover (demo_world team) r w' (demo_world_alone team) team_depts
              eq_refl E) as (-> & -> & _).
  eexists. split; [reflexivity|]. split; vm_compute; reflexivity.
Defined.

(** ** Signup *)

Definition a_hash : string := "0123456789abcdef0123456789abcdef0123456789abcdef0123456789abcdef".

Definition signup (id : uuid) (slug : string) : TrialSignupInput :=
  mkTrialSignupInput id slug "Beta" PlanPro 31 "" a_hash 0.

Definition wired : ProvisioningConfig := mkProvisioningConfig true None true.

Definition demo_plan : Plan := mkPlan PlanPro "Plan" None None 14 true "none" ∅ 1.
Definition demo_departments : list Department :=
  [mkDepartment 301 "ENGINEERING" "Engineering" true true 1; mkDepartment 302 "SALES" "Sales" false true 1;
   mkDepartment 303 "LEGAL" "Legal" true true 1].

Lemma team_refs : tenant_refs team.
Proof. split; intros x Hx; simpl in Hx; repeat (apply list.elem_of_cons in Hx as [->|Hx]; [reflexivity|]);
  by apply list.not_elem_of_nil in Hx. Qed.

Lemma team_unused : unused_ids (demo_world team).
Proof.
  split; intros n _ x Hx; simpl in Hx; repeat (apply list.elem_of_cons in Hx as [->|Hx]; [simpl; lia|]);
    by apply list.not_elem_of_nil in Hx.
Qed.

(** A slug of four characters, and one of three. *)
Lemma TrialSignup_creates_witness :
  (∃ t w', TrialSignup wired (signup 8 "beta") (demo_world team) = (Ok (t, true), w') ∧
     t_Status t = StatusTrial ∧ t_TrialEndsAt t = Some (1000 + 14 * day) ∧ length (outbox_events (w_db w')) = 3%nat) ∧
  (∃ e w', TrialSignup wired (signup 8 "abc") (demo_world team) = (Err e, w') ∧ w_db w' = team).
Proof.
  split.
  - destruct (TrialSignup wired (signup 8 "beta") (demo_world team)) as [r w'] eqn:E.
    destruct (TrialSignup_creates (signup 8 "beta") wired a_hash 10 demo_plan demo_departments (demo_world team) r w'
      demo_codec demo_distinct (demo_world_alone team) ltac:(vm_compute; reflexivity)
      ltac:(split; [discriminate|vm_compute; discriminate]) ltac:(discriminate)
      ltac:(eexists; split; reflexivity) ltac:(apply (bool_decide_unpack _); vm_compute; exact I) team_refs team_unused
      eq_refl eq_refl ltac:(vm_compute; reflexivity) E) as (-> & w1 & -> & mid & rid & n & Hd).
    eexists _, _. split; [reflexivity|]. split_and!; [reflexivity|reflexivity|].
    simpl. rewrite Hd. vm_compute. reflexivity.
  - destruct (TrialSignup wired (signup 8 "abc") (demo_world team)) as [r w'] eqn:E.
    destruct (TrialSignup_creates (signup 8 "abc") wired a_hash 10 demo_plan demo_departments (demo_world team) r w'
      demo_codec demo_distinct (demo_world_alone team) ltac:(vm_compute; reflexivity)
      ltac:(split; [discriminate|vm_compute; discriminate]) ltac:(discriminate)
      ltac:(eexists; split; reflexivity) ltac:(apply (bool_decide_unpack _); vm_compute; exact I) team_refs team_unused
      eq_refl eq_refl ltac:(vm_compute; reflexivity) E) as ((e & ->) & Hd).
    exists e, w'. split; [reflexivity|exact Hd].
Defined.

Lemma TrialSignup_replay_witness :
  (TrialSignup wired (signup 7 "acme") (demo_world team)).1 = Ok (demo_tenant 7 "acme" StatusActive, false).
Proof.
  destruct (TrialSignup wired (signup 7 "acme") (demo_world team)) as [r w'] eqn:E.
  destruct (TrialSignup_replay (signup 7 "acme") wired a_hash 10 demo_plan demo_departments
    (demo_tenant 7 "acme" StatusActive) (demo_world team) r w'
    (demo_world_alone team) ltac:(vm_compute; reflexivity)
    ltac:(split; [discriminate|vm_compute; discriminate]) ltac:(discriminate)
    ltac:(eexists; split; reflexivity) eq_refl ltac:(vm_compute; reflexivity) E) as [-> _].
  reflexivity.
Defined.

(** The hash belongs to tenant 7. *)
Definition used_team : DB := set_trial_signup_ledger [mkLedgerRow a_hash (Some 7) 10] team.

Lemma TrialSignup_once_witness :
  ∃ e, (TrialSignup wired (signup 8 "beta") (demo_world used_team)).1 = Err e ∧
    w_db (TrialSignup wired (signup 8 "beta") (demo_world used_team)).2 = used_team ∧
    errors_Is e ErrTrialAlreadyUsed = true.
Proof.
  destruct (TrialSignup wired (signup 8 "beta") (demo_world used_team)) as [r w'] eqn:E.
  destruct (TrialSignup_once (signup 8 "beta") wired a_hash 10 demo_plan demo_departments (demo_world used_team) r w'
    (demo_world_alone used_team) ltac:(vm_compute; reflexivity) ltac:(discriminate)
    ltac:(eexists; split; reflexivity) ltac:(vm_compute; reflexivity) E) as [[e ->] Hd].
  exists e. split; [reflexivity|]. split; [exact Hd|]. vm_compute in E. injection E as <- _. reflexivity.
Defined.

(** ** Removal *)

(** Tenant 7 with one owner, 21. *)
Definition solo : DB :=
  set_tenants [demo_tenant 7 "acme" StatusActive]
  (set_tenant_memberships [demo_member 51 7 21 MembershipActive]
  (set_tenant_roles [demo_role 61 7 21 51 RoleTenantOwner] empty_db)).


(** ** Paging *)

Lemma pages_complete_witness :
  ∃ items, pages 4 7 None 2 (demo_world team) = (Ok items, demo_world team) ∧
    (tm_UserID ∘ mli_Membership) <$> items = [21; 22; 23].
Proof.
  destruct (pages_complete 7 2 (demo_world team) (demo_world_alone team)
              ltac:(apply (bool_decide_unpack _); vm_compute; exact I) 4 ltac:(vm_compute; lia)) as [E _].
  eexists. split; [exact E|]. vm_compute. reflexivity.
Defined.

(** ** Acceptance *)

(** An invitation for Ann, tender admin and reviewer in department 301. *)
Definition anns : PendingInvitation :=
  mkPendingInvitation 91 7 "ann@acme.example" "Ann" [RoleTenderAdmin] [mkInvitationDeptMapping 301 DeptReviewer] 21
    (Some 5000) InvitePending 9000 None false 1 10 10.

Definition inviting : DB := set_pending_invitations [anns] team.

Lemma inviting_newcomer : newcomer 7 31 (demo_world inviting).
Proof.
  split.
  - reflexivity.
  - reflexivity.
  - apply (bool_decide_unpack _). vm_compute. exact I.
  - exact team_depts.
  - exact (free_tm _ team_unused).
  - exact team_fresh.
  - intros n Hn x Hx. simpl in Hx. apply list_elem_of_singleton in Hx as ->. simpl. lia.
Qed.

Lemma anns_honourable : honourable 7 anns 1000 inviting.
Proof.
  split; [by left|reflexivity|reflexivity|split; vm_compute; discriminate|reflexivity| |].
  - intros m Hm. apply list_elem_of_singleton in Hm as ->. split; reflexivity.
  - apply (bool_decide_unpack _). vm_compute. exact I.
Qed.

Lemma AddFromRegister_accepts_witness :
  ∃ mem w', AddFromRegister 7 31 5000 "ann@acme.example" (demo_world inviting) = (Ok mem, w') ∧
    holds 7 31 (w_db w') RoleTenderAdmin = true ∧ level_in 7 31 301 (w_db w') = Some DeptReviewer ∧
    pi_Status <$> pending_invitations (w_db w') = [InviteAccepted] ∧
    occupancy 1000 7 (w_db w') = occupancy 1000 7 inviting.
Proof.
  destruct (AddFromRegister 7 31 5000 "ann@acme.example" (demo_world inviting)) as [r w'] eqn:E.
  destruct (AddFromRegister_accepts 7 31 5000 "ann@acme.example" anns (demo_world inviting) r w' demo_codec demo_distinct
    (demo_world_alone inviting) ltac:(right; vm_compute; reflexivity) ltac:(right; vm_compute; discriminate)
    inviting_newcomer ltac:(vm_compute; reflexivity) anns_honourable E) as (mem & -> & [_ I R L _ _ _] & Ho).
  exists mem, w'. split; [reflexivity|]. split; [rewrite R; vm_compute; reflexivity|].
  split; [apply (L (mkInvitationDeptMapping 301 DeptReviewer)); by left|]. split; [rewrite I; vm_compute; reflexivity|].
  exact Ho.
Defined.
