(* ===== verification/AuthzSpec.v ===== *)
(** * AuthzSpec: what the authorization projection contains *)

From S2P Require Import Prelude Domain Schema Tx Wp Json TenantRepo RoleRepo DeptMembershipRepo ReadModels.
From S2P Require Import CacheKeys ProvisioningService TenantService AuthzService RolesSpec.

(** ** The join *)

Lemma left_join_length {A} (l : list A) : length (left_join l) = Nat.max 1 (length l).
Proof. destruct l as [|x l]; [done|]. simpl. by rewrite length_map. Qed.

Lemma omap_left_join {A} (l : list A) : omap id (left_join l) = l.
Proof.
  destruct l as [|x l]; [done|]. simpl. f_equal. induction l as [|y l IH]; [done|]. simpl. by f_equal.
Qed.

Lemma omap_snd_pairs {A B} (r : A) (l : list (option B)) :
  omap snd (List.map (λ x, (r, x)) l) = omap id l.
Proof. induction l as [|[y|] l IH]; csimpl; [done|by rewrite IH|done]. Qed.

(** Every department once per role, and once without any. *)
Lemma joined_departments roles depts :
  omap snd (joined roles depts) = mjoin (replicate (Nat.max 1 (length roles)) depts).
Proof.
  unfold joined. rewrite <- left_join_length. induction (left_join roles) as [|r l IH]; [done|]. simpl.
  by rewrite omap_app, IH, omap_snd_pairs, omap_left_join.
Qed.

Lemma omap_fst_pairs {A B} (r : option A) (l : list B) x :
  x ∈ omap fst (List.map (λ y, (r, y)) l) ↔ r = Some x ∧ l ≠ [].
Proof.
  rewrite list_elem_of_omap. split.
  - intros ([r' y] & Hin & E). apply list_elem_of_fmap in Hin as (z & [= -> ->] & Hz). simpl in E.
    split; [done|]. intros ->. by apply elem_of_nil in Hz.
  - intros [-> Hl]. destruct l as [|y l]; [done|]. exists (Some x, y). split; [|done]. simpl. left.
Qed.

Lemma left_join_nonempty {A} (l : list A) : left_join l ≠ [].
Proof. by destruct l. Qed.

Lemma elem_of_left_join {A} (l : list A) x : Some x ∈ left_join l ↔ x ∈ l.
Proof.
  destruct l as [|y l].
  - simpl. split; [intros H%list_elem_of_singleton; done|intros H%elem_of_nil; done].
  - unfold left_join. change (List.map Some (y :: l)) with (Some <$> (y :: l)). rewrite list_elem_of_fmap. split.
    + intros (z & [= ->] & Hz). done.
    + intros Hx. by exists x.
Qed.

Lemma joined_roles roles depts r : r ∈ omap fst (joined roles depts) ↔ r ∈ roles.
Proof.
  unfold joined. rewrite <- (elem_of_left_join roles).
  induction (left_join roles) as [|r0 l IH]; [simpl; split; by intros ?%elem_of_nil|]. simpl.
  rewrite omap_app, elem_of_app, omap_fst_pairs, IH, elem_of_cons.
  split; (intros [?|?]; [left|right]); try done.
  - destruct H; done.
  - split; [done|apply left_join_nonempty].
Qed.

(** ** The row *)

Definition held_roles (tid uid : uuid) (d : DB) : list TenantRole := select (tr_of tid uid) (tenant_roles d).
Definition held_depts (tid uid : uuid) (d : DB) : list DeptMembership := select (dm_of tid uid) (dept_memberships d).
Definition dept_view (x : DeptMembership) : DeptMembershipView :=
  mkDeptMembershipView (dm_DepartmentID x) "" (dm_RoleLevel x).

Lemma agg_roles_spec roles depts :
  NoDup (agg_roles (joined roles depts)) ∧
  StronglySorted (λ a b, role_rank a <= role_rank b) (agg_roles (joined roles depts)) ∧
  ∀ c, c ∈ agg_roles (joined roles depts) ↔ c ∈ tr_RoleCode <$> roles.
Proof.
  unfold agg_roles, sort_by. split; [|split].
  - rewrite isort_perm. apply NoDup_remove_dups.
  - apply (sort_by_sorted role_rank).
  - intros c. rewrite elem_of_isort, elem_of_remove_dups.
    change (List.map tr_RoleCode ?l) with (tr_RoleCode <$> l).
    rewrite !list_elem_of_fmap. by setoid_rewrite joined_roles.
Qed.

Lemma agg_departments_perm roles depts :
  agg_departments (joined roles depts) ≡ₚ mjoin (replicate (Nat.max 1 (length roles)) (dept_view <$> depts)).
Proof.
  unfold agg_departments. rewrite joined_departments. change (List.map ?f ?l) with (f <$> l).
  rewrite isort_perm. generalize (Nat.max 1 (length roles)). intros n.
  induction n as [|n IH]; [done|]. simpl. by rewrite fmap_app, IH.
Qed.

(** C14: the row behind I-8.  For a member, [FindMembershipProjection] returns
    the tenant's settings and the member's status as stored, the roles the user
    holds, each once and in the order of the enum, and the departments of the
    user each repeated once per role held (once when there is none): the
    departments are aggregated over the join of roles and departments without
    DISTINCT, so a user with two or more roles has every department listed that
    many times. *)
Theorem FindMembershipProjection_spec tid uid w row w' :
  alone w → FindMembershipProjection tid uid w = (Ok (Some row), w') →
  w' = w ∧
  (∃ tm t, select_first (tm_of tid uid) (tenant_memberships (w_db w)) = Some tm ∧
     select_first (t_is tid) (tenants (w_db w)) = Some t ∧
     mpr_MembershipStatus row = tm_Status tm ∧ mpr_SubscriptionStatus row = t_Status t ∧
     mpr_TenantPlan row = t_Plan t ∧ mpr_TenantFeatureFlags row = t_FeatureFlags t ∧
     mpr_Locale row = t_DefaultLocale t ∧ mpr_MFAFreshnessSeconds row = t_MFAFreshnessSeconds t ∧
     mpr_LocalAccountsEnabled row = t_LocalAccountsEnabled t ∧ mpr_ResidencyMode row = t_ResidencyMode t) ∧
  NoDup (mpr_Roles row) ∧
  StronglySorted (λ a b, role_rank a <= role_rank b) (mpr_Roles row) ∧
  (∀ c, c ∈ mpr_Roles row ↔ c ∈ tr_RoleCode <$> held_roles tid uid (w_db w)) ∧
  mpr_Departments row ≡ₚ
    mjoin (replicate (Nat.max 1 (length (held_roles tid uid (w_db w)))) (dept_view <$> held_depts tid uid (w_db w))).
Proof.
  intros Ha E. revert E. unfold FindMembershipProjection.
  rewrite (withPool_alone_ok _ w (projection_of tid uid (w_db w)) (started w)) by done.
  intros [= Hrow <-]. rewrite started_stop by done. split; [done|]. unfold projection_of in Hrow.
  destruct (select_first (tm_of tid uid) _) as [tm|]; [|done].
  destruct (select_first (t_is tid) _) as [t|]; [|done]. injection Hrow as <-. simpl.
  destruct (agg_roles_spec (held_roles tid uid (w_db w)) (held_depts tid uid (w_db w))) as (H1 & H2 & H3).
  split; [by exists tm, t|]. split_and!; [done..|]. apply agg_departments_perm.
Qed.

(** ** The projection *)

(** The value a flag has for a tenant: its own, else the plan's. *)
Definition flag_value (plan : option Plan) (tenant : gmap string json) (k : string) : option json :=
  match tenant !! k with
  | Some v => Some v
  | None => match plan with Some p => p_FeatureSet p !! k | None => None end
  end.

Lemma effective_lookup plan tenant k : effective_flags plan tenant !! k = flag_value plan tenant k.
Proof.
  unfold effective_flags, flag_value. rewrite lookup_union. destruct (tenant !! k) as [v|], plan as [p|]; simpl;
    rewrite ?lookup_empty; [by destruct (p_FeatureSet p !! k)|done| |done].
  by destruct (p_FeatureSet p !! k).
Qed.

(** The enabled names of a map, whatever the order of the iteration. *)
Lemma enabled_names (m : gmap string json) kvs :
  kvs ≡ₚ map_to_list m →
  let names := isort string_le (List.map fst (List.filter (λ kv : string * json, flag_enabled kv.2) kvs)) in
  StronglySorted (λ a b, string_le a b = true) names ∧ NoDup names ∧
  ∀ k, k ∈ names ↔ ∃ v, m !! k = Some v ∧ flag_enabled v = true.
Proof.
  intros Hp names. unfold names. split; [apply isort_strings_sorted|].
  change (List.map fst ?l) with (fst <$> l). split.
  - rewrite isort_perm. apply (NoDup_select_fmap fst). rewrite Hp. apply NoDup_fst_map_to_list.
  - intros k. rewrite elem_of_isort, list_elem_of_fmap. split.
    + intros ([k' v] & -> & Hin). apply elem_of_select in Hin as [Hin Hv]. exists v. split; [|done].
      rewrite Hp in Hin. by apply elem_of_map_to_list in Hin.
    + intros (v & Hk & Hv). exists (k, v). split; [done|]. apply elem_of_select. split; [|done].
      rewrite Hp. by apply elem_of_map_to_list.
Qed.

Section projection.
  Context `{Env} `{CatalogReader} (tid uid : uuid).

(** What [readFromDB] builds from a row and the catalog's answer. *)
Definition projects (row : MembershipProjectionRow) (plan : option Plan) (p : MembershipProjection) : Prop :=
  mp_UserID p = uid ∧ mp_TenantID p = tid ∧ mp_Status p = mpr_MembershipStatus row ∧
  mp_Plan p = mpr_TenantPlan row ∧ mp_SubscriptionStatus p = mpr_SubscriptionStatus row ∧
  (mp_ReadOnly p = true ↔ mpr_SubscriptionStatus row = StatusCancelled) ∧
  mp_Roles p = RoleMember :: mpr_Roles row ∧
  StronglySorted (λ a b, string_le a b = true) (mp_FeatureFlags p) ∧ NoDup (mp_FeatureFlags p) ∧
  ∀ k, k ∈ mp_FeatureFlags p ↔
    ∃ v, flag_value plan (mpr_TenantFeatureFlags row) k = Some v ∧ flag_enabled v = true.

Definition plan_answer (code : TenantPlan) (w : World) : option Plan :=
  match (PlanByCode code w).1 with Ok p => Some p | Err _ => None end.

(** The world after the departments have been looked up. *)
Definition departments_read (w : World) : World := if has_catalog then (Departments w).2 else w.

Lemma wp_readFromDB w (Q : result error (option MembershipProjection) → World → Prop) :
  alone w →
  match projection_of tid uid (w_db w) with
  | None => Q (Ok None) w
  | Some row => ∀ p w', same w w' → projects row (plan_answer (mpr_TenantPlan row) (departments_read w)) p →
                  Q (Ok (Some p)) w'
  end → wp (readFromDB tid uid) Q w.
Proof.
  intros Ha HQ. unfold readFromDB. apply wp_bind. unfold FindMembershipProjection.
  apply wp_own_tx; [done|]. eapply (wp_in_tx (w_clock w)); [done|]. apply wp_query. simpl.
  rewrite started_stop by done. destruct (projection_of tid uid (w_db w)) as [row|]; [|by apply wp_ret].
  apply wp_bind, wp_aside; [aside_auto|]. intros codes w1 S1 E1.
  assert (w1 = departments_read w ∧ is_ok codes = true) as [Ew Ec].
  { unfold departments_read. destruct has_catalog; [|by injection E1 as <- <-].
    unfold bindM, tryM, retM in E1. destruct (Departments w). by injection E1 as <- <-. }
  destruct codes as [codes|e]; [|done]. clear E1 Ec.
  apply wp_bind, wp_try, wp_aside; [auto with aside|]. intros plan w2 S2 E2.
  apply wp_bind, wp_map_range. intros kvs Hp. apply wp_ret. apply HQ; [by transitivity w1|]. rewrite <- Ew.
  assert (plan_answer (mpr_TenantPlan row) w1 = match plan with Ok x => Some x | Err _ => None end) as ->
    by (unfold plan_answer; by rewrite E2).
  destruct (enabled_names _ _ Hp) as (Hs & Hn & Hk). unfold projects. simpl.
  split_and!; try done; [apply bool_eq_true|]. intros k. rewrite Hk. by setoid_rewrite effective_lookup.
Qed.

(** C20: the projection of I-8.  With nothing else running, [readFromDB] builds
    the projection from the stored row and the plan the catalog answers with:
    [member] comes first among the roles, the tenant is read-only exactly when
    its subscription is cancelled, and the feature flags are the names, sorted
    and without repetition, whose effective value (the tenant's override where
    there is one, else the plan's default, else none when the catalog has no
    answer) is true or a value other than null and false; the order in which the
    map is iterated does not matter. *)
Theorem readFromDB_spec w p w' :
  alone w → readFromDB tid uid w = (Ok (Some p), w') →
  w_db w' = w_db w ∧
  ∃ row, projection_of tid uid (w_db w) = Some row ∧
    projects row (plan_answer (mpr_TenantPlan row) (departments_read w)) p.
Proof.
  intros Ha E.
  refine (wp_intro (readFromDB tid uid) (λ r w', match r with
    | Ok (Some p) => w_db w' = w_db w ∧ ∃ row, projection_of tid uid (w_db w) = Some row ∧
                       projects row (plan_answer (mpr_TenantPlan row) (departments_read w)) p
    | _ => True end) w _ _ _ E).
  apply wp_readFromDB; [done|]. destruct (projection_of tid uid (w_db w)) as [row|]; [|done].
  intros q w2 S2 Hq. split; [apply S2|]. by exists row.
Qed.
End projection.
