(* ===== verification/CacheSpec.v ===== *)
(** * CacheSpec: cached projections and catalog changes *)

From S2P Require Import Prelude Domain Schema Tx Wp Json CacheKeys EventStores Consumer ProvisioningService.
From S2P Require Import TenantService ReadModels AuthzService CatalogConsumer LifecycleSpec AuthzSpec.
From S2P Require CatalogService.

(** ** The store *)

(** What the cache holds under a key. *)
Definition stored (key : string) (c : list (string * cache_val)) : option cache_val :=
  snd <$> List.find (λ e : string * cache_val, String.eqb (fst e) key) c.

Lemma stored_cons key k v c : stored key ((k, v) :: c) = if String.eqb k key then Some v else stored key c.
Proof. unfold stored. simpl. by destruct (String.eqb k key). Qed.

Lemma stored_delete_where key (p : string → bool) c :
  stored key (delete_where (λ e, p (fst e)) c) = if p key then None else stored key c.
Proof.
  induction c as [|[k v] c IH]; [by destruct (p key)|]. rewrite stored_cons. simpl.
  destruct (p k) eqn:Ek; simpl; rewrite ?stored_cons, IH.
  - destruct (String.eqb_spec k key) as [->|]; [by rewrite Ek|done].
  - destruct (String.eqb_spec k key) as [->|]; [by rewrite Ek|done].
Qed.

Definition store (key : string) (v : cache_val) (c : list (string * cache_val)) : list (string * cache_val) :=
  (key, v) :: delete_where (λ e, String.eqb (fst e) key) c.

Lemma stored_store key k v c : stored key (store k v c) = if String.eqb k key then Some v else stored key c.
Proof.
  unfold store. rewrite stored_cons, (stored_delete_where key (λ s, String.eqb s k)).
  rewrite (String.eqb_sym key k). by destruct (String.eqb k key).
Qed.

Section store.
  Context `{Env}.

Lemma try_cache_Set_run k v w :
  ∃ (cs : list Call) (up applied : bool), try_cache_Set k v w =
    (Ok up, set_w_cache (if up || applied then store k v (w_cache w) else w_cache w) (set_w_calls cs w)).
Proof.
  exists (w_calls w ++ [CallCacheSet k]), (cache_up (length (w_calls w))), (cache_late (length (w_calls w))).
  unfold try_cache_Set, bindM, call, cache_write. simpl. destruct (_ || _); by destruct w.
Qed.

Lemma try_cache_Delete_run ks w :
  ∃ (cs : list Call) (up applied : bool), try_cache_Delete ks w =
    (Ok up, set_w_cache (if up || applied then delete_where (λ e, contains (fst e) ks) (w_cache w) else w_cache w)
                        (set_w_calls cs w)).
Proof.
  exists (w_calls w ++ [CallCacheDelete ks]), (cache_up (length (w_calls w))), (cache_late (length (w_calls w))).
  unfold try_cache_Delete, bindM, call, cache_write. simpl. destruct (_ || _); by destruct w.
Qed.

(** Steps that leave one key of the cache alone. *)
Definition leaves (key : string) {A} (m : M A) : Prop :=
  ∀ w, stored key (w_cache (m w).2) = stored key (w_cache w).

Lemma leaves_ret key {A} (a : A) : leaves key (retM a).
Proof. done. Qed.

Lemma leaves_throw key {A} e : leaves key (throw (A:=A) e).
Proof. done. Qed.

Lemma leaves_bind key {A B} (m : M A) (k : A → M B) : leaves key m → (∀ a, leaves key (k a)) → leaves key (bindM m k).
Proof.
  intros Hm Hk w. specialize (Hm w). unfold bindM. destruct (m w) as [[a|e] w1]; [|done].
  by rewrite Hk.
Qed.

Lemma leaves_call key {A} c (ans : nat → A) : leaves key (call c ans).
Proof. done. Qed.

Lemma leaves_cache_Get key k : leaves key (cache_Get k).
Proof. done. Qed.

Lemma leaves_cache_Set key k v : String.eqb k key = false → leaves key (cache_Set k v).
Proof.
  intros Hk w. unfold cache_Set, bindM. destruct (try_cache_Set_run k v w) as (cs & up & applied & ->). simpl.
  destruct (up || applied); [|done]. by rewrite stored_store, Hk.
Qed.
End store.

(** ** The event *)

(** The cache after the generations of some plans were set. *)
Definition bumped (id : string) (plans : list TenantPlan) (c : list (string * cache_val)) : list (string * cache_val) :=
  List.fold_left (λ c p, store (PlanGenerationKey p) (CBytes id) c) plans c.

Lemma stored_bumped_other id plans key c :
  (∀ p, String.eqb (PlanGenerationKey p) key = false) → stored key (bumped id plans c) = stored key c.
Proof.
  intros Hk. revert c. induction plans as [|p plans IH]; intros c; [done|]. simpl.
  by rewrite IH, stored_store, Hk.
Qed.

Lemma stored_bumped id plans plan c :
  plan ∈ plans ∨ stored (PlanGenerationKey plan) c = Some (CBytes id) →
  stored (PlanGenerationKey plan) (bumped id plans c) = Some (CBytes id).
Proof.
  revert c. induction plans as [|p plans IH]; intros c [Hin|Hc].
  - by apply elem_of_nil in Hin.
  - done.
  - simpl. apply IH. rewrite stored_store. apply elem_of_cons in Hin as [->|Hin]; [|by left].
    right. by rewrite String.eqb_refl.
  - simpl. apply IH. right. rewrite stored_store. by destruct (String.eqb _ _).
Qed.

Section catalog_change.
  Context `{Env} `{InboxStore}.

Lemma bump_loop env plans w u w' :
  for_each plans (λ p,
    let! up := try_cache_Set (PlanGenerationKey p) (CBytes (env_ID env)) in
    throw_if (negb up) (EWrap ("catalog consumer: bump " +:+ PlanGenerationKey p) cache_error)) w = (Ok u, w') →
  w_cache w' = bumped (env_ID env) plans (w_cache w).
Proof.
  revert w. induction plans as [|p plans IH]; intros w; [by intros [= <- <-]|]. simpl.
  intros ([] & w1 & HA & HB)%bindM_ok. apply bindM_ok in HA as (up & w2 & HA & HC).
  destruct (try_cache_Set_run (PlanGenerationKey p) (CBytes (env_ID env)) w) as (cs & up' & applied & E).
  rewrite E in HA. injection HA as -> <-. destruct up; [|done]. injection HC as <-.
  by rewrite (IH _ HB).
Qed.

(** A plan change that was handled cleared the plans and set the generations. *)
Lemma plan_changed_cache env w u w' :
  plan_changed env w = (Ok u, w') →
  w_cache w' = bumped (env_ID env) (affectedPlans env)
                 (delete_where (λ e, contains (fst e) ["om:plans"; "om:plans:stale"]) (w_cache w)).
Proof.
  unfold plan_changed. intros (up & w1 & HA & HB)%bindM_ok.
  destruct (try_cache_Delete_run ["om:plans"; "om:plans:stale"] w) as (cs & up' & applied & E).
  rewrite E in HA. injection HA as -> <-. apply bindM_ok in HB as ([] & w2 & HB & HC).
  destruct up; [|done]. injection HB as <-. by rewrite (bump_loop _ _ _ _ _ HC).
Qed.

Lemma processOnce_new {A} consumer env (fn : M A) w a w' :
  alone w → claimed consumer (env_ID env) (w_db w) = false → processOnce consumer env fn w = (Ok a, w') →
  ∃ b w0 w2, w_cache w0 = w_cache w ∧ w_sched w0 = [] ∧ fn w0 = (Ok b, w2) ∧ w_cache w' = w_cache w2 ∧
    w_sched w' = w_sched w2 ∧ w_txnow w' = None.
Proof.
  intros [Hs Ht] Hc. unfold claimed in Hc. destruct (store_ParseID (env_ID env)) as [id|] eqn:Eid;
    [|by rewrite processOnce_bad_id].
  unfold processOnce, ProcessOnce. rewrite store_Process_contract. unfold inbox_contract. rewrite Eid.
  unfold attempt_tx, next_attempt, inbox_tx, bindM, sql. rewrite Hs. simpl. rewrite Hc. simpl.
  match goal with |- context [fn ?w0] => destruct (fn w0) as [[b|e] w2] eqn:E; [|done] end.
  simpl. intros [= _ <-]. rewrite Ht.
  eexists b, _, w2. split_and!; [| |exact E|..]; done.
Qed.

Lemma aside_plan_changed env : aside (plan_changed env).
Proof. unfold plan_changed. aside_auto. Qed.

Lemma Handle_plan_changed env w w' :
  alone w → env_Type env = eventPlanCatalogChanged → claimed catalogConsumerName (env_ID env) (w_db w) = false →
  CatalogConsumer.Handle env w = (Ok tt, w') →
  alone w' ∧
  w_cache w' = bumped (env_ID env) (affectedPlans env)
                 (delete_where (λ e, contains (fst e) ["om:plans"; "om:plans:stale"]) (w_cache w)).
Proof.
  intros Ha Ht Hc. unfold CatalogConsumer.Handle. rewrite Ht. simpl.
  destruct (uuid_Parse (env_ID env)) as [id|]; [|done]. intros ([] & w1 & HA & HB)%bindM_ok.
  destruct (id =? uuid_Nil); [done|]. injection HA as <-. unfold handlePlanChanged in HB.
  apply bindM_ok in HB as (a & w2 & HB & [_ ->]%retM_ok).
  apply processOnce_new in HB as (b & w0 & w3 & E0 & Hs0 & HB & Ec & Es & Et); [|done..].
  split; [|by rewrite Ec, (plan_changed_cache _ _ _ _ HB), E0].
  pose proof (aside_plan_changed env w0) as (_ & _ & Hsuf & _). rewrite HB, Hs0 in Hsuf.
  apply suffix_nil_inv in Hsuf. split; [by rewrite Es|done].
Qed.
End catalog_change.

(** What is left under the keys the reads look at. *)
Section after.
  Context `{Env} (id : string) (plans : list TenantPlan) (c : list (string * cache_val)).

Definition retired : list (string * cache_val) :=
  bumped id plans (delete_where (λ e, contains (fst e) ["om:plans"; "om:plans:stale"]) c).

Lemma stored_retired key :
  (∀ p, String.eqb (PlanGenerationKey p) key = false) →
  stored key retired = if contains key ["om:plans"; "om:plans:stale"] then None else stored key c.
Proof.
  intros Hk. unfold retired. rewrite stored_bumped_other by done.
  apply (stored_delete_where key (λ k, contains k ["om:plans"; "om:plans:stale"])).
Qed.

Lemma retired_plans : stored cacheKeyPlans retired = None ∧ stored cacheKeyPlansStale retired = None.
Proof. by split; rewrite stored_retired. Qed.

Lemma retired_membership tid uid :
  stored (cacheKeyMemberships tid uid) retired = stored (cacheKeyMemberships tid uid) c.
Proof. by rewrite stored_retired. Qed.

Lemma retired_generation plan : plan ∈ plans → stored (PlanGenerationKey plan) retired = Some (CBytes id).
Proof. intros Hin. apply stored_bumped. by left. Qed.
End after.

(** ** The read *)

Section read.
  Context `{Env}.

(** The generation read with the entry is the stored one. *)
Lemma gen_read n plan g c :
  plan ∈ KnownPlans → cache_entry n (PlanGenerationKey plan) c = Some (CBytes g) →
  gen_of (omap (λ pv : TenantPlan * option cache_val,
                  match snd pv with Some (CBytes g) => Some (fst pv, g) | _ => None end)
               (zip KnownPlans (List.map (λ k, cache_entry n k c) (List.map PlanGenerationKey KnownPlans)))) plan = g.
Proof.
  unfold KnownPlans. intros Hin E. set_unfold in Hin. csimpl.
  destruct Hin as [->|[->|[->|[]]]]; rewrite E;
    repeat match goal with |- context [cache_entry n (PlanGenerationKey ?p) c] =>
             destruct (cache_entry n (PlanGenerationKey p) c) as [[]|] end; done.
Qed.

(** An entry of another generation is a miss. *)
Lemma getCached_retired tid uid plan id w r w' :
  plan ∈ KnownPlans → stored (PlanGenerationKey plan) (w_cache w) = Some (CBytes id) →
  (∀ n, cache_kept n (PlanGenerationKey plan) = true) →
  (∀ q g, stored (cacheKeyMemberships tid uid) (w_cache w) = Some (CMembership q g) → g ≠ id) →
  getCached tid uid w = (r, w') →
  w_cache w' = w_cache w ∧ ∃ o gens, r = Ok (o, gens) ∧ ∀ p, o = Some p → mp_Plan p ≠ plan.
Proof.
  intros Hin Hg Hk Ho. unfold getCached. destruct (negb has_cache).
  { intros [= <- <-]. split; [done|]. by eexists None, _. }
  unfold bindM, cache_MGet. set (n := length (w_calls w)).
  assert (∀ o gens, (∀ p, o = Some p → mp_Plan p ≠ plan) →
    (retM (o, gens) : M (option MembershipProjection * option generations)) (set_w_calls
      (w_calls w ++ [CallCacheMGet (cacheKeyMemberships tid uid :: List.map PlanGenerationKey KnownPlans)]) w) = (r, w') →
    w_cache w' = w_cache w ∧ ∃ o gens, r = Ok (o, gens) ∧ ∀ p, o = Some p → mp_Plan p ≠ plan) as Hret.
  { intros o gens Hp E. injection E as <- <-. split; [done|]. by exists o, gens. }
  destruct (cache_up n); [|by apply Hret].
  rewrite List.map_cons. cbv iota beta. unfold cache_entry at 1.
  destruct (if cache_kept n _ then _ else _) as [v|] eqn:Ee; [|by apply Hret].
  destruct v as [| | | | | | |q g|]; try by apply Hret.
  apply Hret. intros p Hp <-. 
  match type of Hp with (if String.eqb g ?x then _ else _) = _ => destruct (String.eqb_spec g x) as [Hgen|]; [|done] end.
  injection Hp as ->. rewrite (gen_read n (mp_Plan p) id) in Hgen; [|done|].
  - destruct (cache_kept n _); [|done]. by apply (Ho p g Ee).
  - unfold cache_entry. by rewrite Hk.
Qed.

(** The plan the catalog itself answers with, at the [n]th call. *)
Definition catalog_plan (n : nat) (code : TenantPlan) : option Plan :=
  match cat_Plans n with
  | Ok plans => List.find (λ p, p_Code p ==? code) (List.map CatalogService.plan_of plans)
  | Err _ => None
  end.

Lemma getCachedPlans_miss key w :
  stored key (w_cache w) = None →
  ∃ w', CatalogService.getCachedPlans key w = (Ok None, w') ∧ w_cache w' = w_cache w.
Proof.
  intros Hs. unfold CatalogService.getCachedPlans. destruct (negb has_cache); [by exists w|].
  unfold bindM, cache_Get, cache_entry. fold (stored key (w_cache w)). rewrite Hs. simpl.
  destruct (cache_up (length (w_calls w))), (cache_kept (length (w_calls w)) key); by eexists.
Qed.

Lemma setCachedPlans_ok l w : ∃ w', CatalogService.setCachedPlans l w = (Ok tt, w').
Proof.
  unfold CatalogService.setCachedPlans. destruct (negb has_cache); [by eexists|]. unfold cache_Set, bindM.
  destruct (try_cache_Set_run cacheKeyPlans (CPlans l) w) as (cs & up & applied & ->). unfold retM at 1.
  match goal with |- context [try_cache_Set ?k ?v ?w0] =>
    destruct (try_cache_Set_run k v w0) as (cs' & up' & applied' & ->) end. by eexists.
Qed.

(** Without cached plans the lookup is the catalog's own answer. *)
Lemma PlanByCode_uncached code w :
  stored cacheKeyPlans (w_cache w) = None → stored cacheKeyPlansStale (w_cache w) = None →
  ∃ n, @plan_answer CatalogService.CatalogService code w = catalog_plan n code.
Proof.
  intros Hp Hs. destruct (getCachedPlans_miss _ _ Hp) as (w1 & E1 & C1). exists (length (w_calls w1)).
  unfold plan_answer. simpl. unfold CatalogService.PlanByCode, CatalogService.Plans, catalog_plan.
  unfold bindM at 1 2. rewrite E1. unfold bindM at 1, call at 1.
  destruct (cat_Plans (length (w_calls w1))) as [plans|e].
  - destruct (setCachedPlans_ok (List.map CatalogService.plan_of plans)
                (set_w_calls (w_calls w1 ++ [CallCatalogPlans]) w1)) as (w2 & E2).
    unfold bindM. rewrite E2. unfold retM at 1. by destruct (List.find _ _).
  - destruct (getCachedPlans_miss cacheKeyPlansStale (set_w_calls (w_calls w1 ++ [CallCatalogPlans]) w1)) as (w2 & E2 & _);
      [by simpl; rewrite C1|]. unfold bindM. by rewrite E2.
Qed.

Lemma leaves_Departments key :
  String.eqb cacheKeyDepartments key = false → String.eqb cacheKeyDepartmentsStale key = false →
  leaves key CatalogService.Departments.
Proof.
  intros H1 H2. assert (∀ k, leaves key (CatalogService.getCachedDepartments k)) as Hg.
  { intros k. unfold CatalogService.getCachedDepartments. destruct (negb has_cache); [apply leaves_ret|].
    apply leaves_bind; [apply leaves_cache_Get|intros; apply leaves_ret]. }
  unfold CatalogService.Departments. apply leaves_bind; [apply Hg|]. intros [l|]; [apply leaves_ret|].
  apply leaves_bind; [apply leaves_call|]. intros [l|e].
  - apply leaves_bind; [|intros; apply leaves_ret]. unfold CatalogService.setCachedDepartments.
    destruct (negb has_cache); [apply leaves_ret|].
    apply leaves_bind; [|intros _]; by apply leaves_cache_Set.
  - apply leaves_bind; [apply Hg|]. intros [l|]; [apply leaves_ret|apply leaves_throw].
Qed.

Lemma leaves_departments_read key w :
  String.eqb cacheKeyDepartments key = false → String.eqb cacheKeyDepartmentsStale key = false →
  stored key (w_cache (departments_read w)) = stored key (w_cache w).
Proof. intros H1 H2. unfold departments_read. destruct has_catalog; [|done]. by apply leaves_Departments. Qed.

Lemma aside_getCached tid uid : aside (getCached tid uid).
Proof. unfold getCached. aside_auto. Qed.

(** A read of the tenant behind the retired entry. *)
Lemma GetMembership_retired tid uid plan id w p w' :
  alone w → plan ∈ KnownPlans → (∀ n, cache_kept n (PlanGenerationKey plan) = true) →
  stored (PlanGenerationKey plan) (w_cache w) = Some (CBytes id) →
  (∀ q g, stored (cacheKeyMemberships tid uid) (w_cache w) = Some (CMembership q g) → g ≠ id) →
  stored cacheKeyPlans (w_cache w) = None → stored cacheKeyPlansStale (w_cache w) = None →
  GetMembership tid uid w = (Ok p, w') → mp_Plan p = plan →
  ∃ row n, projection_of tid uid (w_db w) = Some row ∧ projects tid uid row (catalog_plan n plan) p.
Proof.
  intros Ha Hin Hk Hg Ho Hp Hs. unfold GetMembership. intros ([o gens] & w1 & HA & HB)%bindM_ok Hplan.
  destruct (getCached_retired _ _ _ _ _ _ _ Hin Hg Hk Ho HA) as (Ec & o' & gens' & [= <- <-] & Hne).
  pose proof (aside_getCached tid uid w) as S1. rewrite HA in S1. simpl in S1.
  destruct o as [q|]; [apply retM_ok in HB as [-> _]; by destruct (Hne q)|].
  apply bindM_ok in HB as (op & w2 & HB & HC). destruct op as [q|]; [|done].
  apply bindM_ok in HC as (u & w3 & _ & [-> _]%retM_ok).
  assert (alone w1) as Ha1 by (by eapply alone_same).
  refine (wp_intro (readFromDB tid uid) (λ r _, match r with Ok (Some p) => mp_Plan p = plan → _ | _ => True end)
            w1 _ _ _ HB Hplan).
  apply wp_readFromDB; [done|]. destruct S1 as (-> & _).
  destruct (projection_of tid uid (w_db w)) as [row|]; [|done]. intros q' w4 _ Hq Hpl.
  destruct (PlanByCode_uncached (mpr_TenantPlan row) (departments_read w1)) as [n Hn];
    [by rewrite leaves_departments_read, Ec by done..|].
  exists row, n. split; [done|]. rewrite Hn in Hq.
  assert (mpr_TenantPlan row = plan) as <-; [|done]. destruct Hq as (_ & _ & _ & Hmp & _). congruence.
Qed.

(** After a [PlanCatalogChanged] event the consumer had not seen before, a
    projection of a tenant on an affected plan is built from the stored row and
    from the plan the catalog answers with. *)
Lemma plan_change_retires `{InboxStore} env plan tid uid w w1 p w2 :
  alone w → env_Type env = eventPlanCatalogChanged → plan ∈ affectedPlans env →
  claimed catalogConsumerName (env_ID env) (w_db w) = false →
  (∀ n, cache_kept n (PlanGenerationKey plan) = true) →
  (∀ q g, stored (cacheKeyMemberships tid uid) (w_cache w) = Some (CMembership q g) → g ≠ env_ID env) →
  CatalogConsumer.Handle env w = (Ok tt, w1) →
  GetMembership tid uid w1 = (Ok p, w2) → mp_Plan p = plan →
  ∃ row n, projection_of tid uid (w_db w1) = Some row ∧ projects tid uid row (catalog_plan n plan) p.
Proof.
  intros Ha Ht Hin Hc Hk Ho HA HB Hp. destruct (Handle_plan_changed _ _ _ Ha Ht Hc HA) as [Ha1 E1].
  fold (retired (env_ID env) (affectedPlans env) (w_cache w)) in E1.
  eapply (GetMembership_retired _ _ _ (env_ID env)); [done| |done|..|done|done]; rewrite ?E1.
  - revert Hin. unfold affectedPlans. destruct (List.find _ _) as [x|] eqn:E; [|done].
    intros ->%list_elem_of_singleton. apply List.find_some in E as [E _]. by apply list_elem_of_In.
  - by apply retired_generation.
  - by rewrite retired_membership.
  - apply retired_plans.
  - apply retired_plans.
Qed.
End read.
