(* ===== verification/ValkeySpec.v ===== *)
(** * ValkeySpec: the adapter implements the services' cache

    The services are proved against the store of [Tx]: [cache_Get],
    [cache_MGet], [try_cache_Set] and [try_cache_Delete], whose oracles say what
    is answered, what happened all the same and what has expired.  Whatever
    client satisfies [RedisLaws], the adapter over it is such a store. *)

From S2P Require Import Prelude Domain Schema Tx CacheKeys ProvisioningService AuthzService Startup Valkey CacheSpec.

(** ** Operations and their answers *)

Inductive cache_op : Type :=
| OpGet (key : string)
| OpMGet (keys : list string)
| OpSet (key : string) (v : cache_val) (ttl : duration)
| OpDelete (keys : list string).

Inductive cache_answer : Type :=
| AGet (v : option cache_val)
| AMGet (vs : option (list (option cache_val)))
| AWrite (ok : bool).

(** The store of the services. *)
Definition service_op `{Env} (op : cache_op) : M cache_answer :=
  match op with
  | OpGet key => let! v := cache_Get key in retM (AGet v)
  | OpMGet keys => let! vs := cache_MGet keys in retM (AMGet vs)
  | OpSet key v _ => let! ok := try_cache_Set key v in retM (AWrite ok)
  | OpDelete keys => let! ok := try_cache_Delete keys in retM (AWrite ok)
  end.

Fixpoint service_run `{Env} (ops : list cache_op) : M (list cache_answer) :=
  match ops with
  | [] => retM []
  | op :: ops => let! a := service_op op in let! l := service_run ops in retM (a :: l)
  end.

(** The adapter, its bytes through the JSON of the services. *)
Section adapter.
  Context `{RedisClient} (marshal : cache_val → list N) (unmarshal : list N → option cache_val).

Definition is_ok {A} (a : result redis_error A) : bool := match a with Ok _ => true | Err _ => false end.

Definition adapter_op (op : cache_op) (r : redis) : cache_answer * redis :=
  match op with
  | OpGet key =>
      let '(a, r') := Valkey.Get key r in
      (AGet (match a with Ok (Some b) => unmarshal b | _ => None end), r')
  | OpMGet keys =>
      let '(a, r') := Valkey.MGet keys r in
      (AMGet (match a with Ok vals => Some (List.map (λ o, mbind unmarshal o) vals) | Err _ => None end), r')
  | OpSet key v ttl => let '(a, r') := Valkey.Set_ key (marshal v) ttl r in (AWrite (is_ok a), r')
  | OpDelete keys => let '(a, r') := Valkey.Delete keys r in (AWrite (is_ok a), r')
  end.

Fixpoint adapter_run (ops : list cache_op) (r : redis) : list cache_answer * redis :=
  match ops with
  | [] => ([], r)
  | op :: ops =>
      let '(a, r1) := adapter_op op r in
      let '(l, r2) := adapter_run ops r1 in (a :: l, r2)
  end.
End adapter.

(** ** The oracles *)

(** What becomes of one call. *)
Record outcome : Type := mkOutcome {
  o_up : bool;
  o_late : bool;
  o_kept : string → bool
}.

(** An environment whose cache behaves as a sequence of outcomes. *)
Definition cache_env (E : Env) (o : nat → outcome) : Env :=
  {| uuid_String := @uuid_String E; uuid_Parse := @uuid_Parse E; uuid_New := @uuid_New E;
     uuid_Parse_String := @uuid_Parse_String E; map_order := @map_order E; map_order_perm := @map_order_perm E;
     has_publisher := @has_publisher E; codec_accepts := @codec_accepts E; request_ctx := @request_ctx E;
     has_cache := @has_cache E; cache_up := λ n, o_up (o n); cache_late := λ n, o_late (o n);
     cache_kept := λ n, o_kept (o n);
     has_workflow := @has_workflow E; wf_GetDelegateImpact := @wf_GetDelegateImpact E;
     wf_ReassignDelegate := @wf_ReassignDelegate E; wf_CancelByDelegate := @wf_CancelByDelegate E;
     has_rp := @has_rp E; rp_CreateInvitedUser := @rp_CreateInvitedUser E; rp_DeleteUser := @rp_DeleteUser E;
     rp_PatchRealmConfig := @rp_PatchRealmConfig E; rp_RevokeUserSessions := @rp_RevokeUserSessions E;
     rp_ResetMFA := @rp_ResetMFA E;
     has_tokenService := @has_tokenService E; ts_IsServiceAccount := @ts_IsServiceAccount E;
     has_delegationCheck := @has_delegationCheck E; dc_DeptDelegate := @dc_DeptDelegate E;
     has_catalog := @has_catalog E; cat_Departments := @cat_Departments E; cat_Plans := @cat_Plans E;
     has_idpReader := @has_idpReader E; idp_GetIDPCount := @idp_GetIDPCount E;
     has_groupMapping := @has_groupMapping E; gm_ResolveGroups := @gm_ResolveGroups E;
     has_audit := @has_audit E |}.

(** An operation looks at the oracles of its own call only. *)
Lemma service_op_ext E o o' op w :
  o (length (w_calls w)) = o' (length (w_calls w)) →
  service_op (H := cache_env E o) op w = service_op (H := cache_env E o') op w.
Proof.
  intros Ho. destruct op; unfold service_op, cache_Get, cache_MGet, try_cache_Set, try_cache_Delete, call, bindM,
    cache_write, cache_entry; cbn; by rewrite Ho.
Qed.

Lemma service_op_calls `{Env} op w :
  ∃ a w', service_op op w = (Ok a, w') ∧ length (w_calls w') = S (length (w_calls w)).
Proof.
  destruct op; unfold service_op, cache_Get, cache_MGet, try_cache_Set, try_cache_Delete, call, bindM; cbn;
    (eexists _, _; split; [reflexivity|]); try destruct (_ || _); cbn; rewrite length_app; cbn; lia.
Qed.

Lemma service_run_ext E o o' ops w :
  (∀ n, (length (w_calls w) ≤ n)%nat → o n = o' n) →
  service_run (H := cache_env E o) ops w = service_run (H := cache_env E o') ops w.
Proof.
  revert w. induction ops as [|op ops IH]; intros w Ho; [done|]. cbn [service_run]. unfold bindM.
  rewrite (service_op_ext E o o') by (apply Ho; lia).
  destruct (service_op_calls (H := cache_env E o') op w) as (a & w1 & -> & Hl).
  rewrite IH; [done|]. intros n Hn. apply Ho. lia.
Qed.

(** ** The simulation *)

Section simulation.
  Context (E : Env) `{R : RedisClient} {L : RedisLaws R}.
  Context (marshal : cache_val → list N) (unmarshal : list N → option cache_val).

(** The server holds nothing but what the services stored and did not delete. *)
Definition holds (r : redis) (c : list (string * cache_val)) : Prop :=
  ∀ key b, live r !! key = Some b → ∃ v, stored key c = Some v ∧ unmarshal b = Some v.

Definition still_there (r : redis) (key : string) : bool := bool_decide (is_Some (live r !! key)).

Lemma holds_shrinks r r' c : live r' ⊆ live r → holds r c → holds r' c.
Proof. intros Hs Hh key b Hb. apply Hh. by eapply lookup_weaken. Qed.

Lemma holds_store r r' c key v :
  unmarshal (marshal v) = Some v → live r' ⊆ <[key := marshal v]> (live r) → holds r c → holds r' (store key v c).
Proof.
  intros Hv Hs Hh k b Hb. rewrite stored_store. pose proof (lookup_weaken _ _ _ _ Hb Hs) as Hi.
  destruct (String.eqb_spec key k) as [->|Hne].
  - rewrite lookup_insert_eq in Hi. injection Hi as <-. eauto.
  - rewrite lookup_insert_ne in Hi by done. by apply Hh.
Qed.

Lemma holds_delete r r' c keys :
  live r' ⊆ live r → (∀ k, k ∈ keys → live r' !! k = None) → holds r c →
  holds r' (delete_where (λ e, contains (fst e) keys) c).
Proof.
  intros Hs Hn Hh k b Hb. rewrite (stored_delete_where k (λ k, contains k keys)).
  destruct (contains k keys) eqn:Ek; [|apply Hh; by eapply lookup_weaken].
  apply contains_true in Ek. by rewrite Hn in Hb.
Qed.

(** What a read of the server decodes to is what the services stored. *)
Lemma read_holds r c key :
  holds r c → mbind unmarshal (live r !! key) = if still_there r key then stored key c else None.
Proof.
  intros Hh. unfold still_there. destruct (live r !! key) as [b|] eqn:El; [|done].
  destruct (Hh key b El) as (v & Hv & Hb). cbn. by rewrite Hb, Hv.
Qed.

Definition oracle (r : redis) (up late : bool) : outcome := mkOutcome up late (still_there r).

Lemma get_simulated r key a r' w :
  holds r (w_cache w) → adapter_op marshal unmarshal (OpGet key) r = (a, r') →
  ∃ up late w', service_op (H := cache_env E (λ _, oracle r up late)) (OpGet key) w = (Ok a, w') ∧ holds r' (w_cache w').
Proof.
  intros Hh. cbn [adapter_op]. unfold Valkey.Get. destruct (client_Get key r) as [o r1] eqn:Ec.
  apply law_Get in Ec as [Hs Ho]. intros Ea.
  exists (match o with Err (RedisError _) => false | _ => true end), false, (set_w_calls (w_calls w ++ [CallCacheGet key]) w).
  split; [|eapply holds_shrinks; [|exact Hh]; destruct o as [v|[]]; by injection Ea as _ <-].
  cbn. unfold cache_entry. fold (stored key (w_cache w)).
  pose proof (read_holds r (w_cache w) key Hh) as Hr.
  destruct o as [v|[]]; injection Ea as <- _; cbn; rewrite ?Ho in Hr; cbn in Hr; rewrite <- ?Hr; done.
Qed.

Lemma mget_simulated r keys a r' w :
  holds r (w_cache w) → adapter_op marshal unmarshal (OpMGet keys) r = (a, r') →
  ∃ up late w', service_op (H := cache_env E (λ _, oracle r up late)) (OpMGet keys) w = (Ok a, w') ∧ holds r' (w_cache w').
Proof.
  intros Hh. cbn [adapter_op]. unfold Valkey.MGet. destruct (client_MGet keys r) as [o r1] eqn:Ec.
  apply law_MGet in Ec as [Hs Ho]. intros Ea.
  exists (match o with Err _ => false | Ok _ => true end), false, (set_w_calls (w_calls w ++ [CallCacheMGet keys]) w).
  split; [|eapply holds_shrinks; [|exact Hh]; destruct o; by injection Ea as _ <-].
  cbn. unfold cache_entry. destruct o as [vals|]; injection Ea as <- _; cbn; [|done].
  rewrite (Ho _ eq_refl), !List.map_map. unfold retM. do 4 f_equal. apply List.map_ext. intros k.
  fold (stored k (w_cache w)). rewrite <- (read_holds r (w_cache w) k Hh). by destruct (live r !! k).
Qed.

Lemma set_simulated r key v ttl a r' w :
  unmarshal (marshal v) = Some v → holds r (w_cache w) → adapter_op marshal unmarshal (OpSet key v ttl) r = (a, r') →
  ∃ up late w', service_op (H := cache_env E (λ _, oracle r up late)) (OpSet key v ttl) w = (Ok a, w') ∧ holds r' (w_cache w').
Proof.
  intros Hv Hh. cbn [adapter_op]. unfold Valkey.Set_. destruct (client_Set key (marshal v) ttl r) as [o r1] eqn:Ec.
  intros [= <- <-]. apply law_Set in Ec as [Hs|[Hs [e ->]]].
  - exists (is_ok o), true. eexists. split; [reflexivity|]. cbn. rewrite orb_true_r. by eapply holds_store.
  - exists false, false. eexists. split; [reflexivity|]. by eapply holds_shrinks.
Qed.

Lemma delete_simulated r keys a r' w :
  holds r (w_cache w) → adapter_op marshal unmarshal (OpDelete keys) r = (a, r') →
  ∃ up late w', service_op (H := cache_env E (λ _, oracle r up late)) (OpDelete keys) w = (Ok a, w') ∧ holds r' (w_cache w').
Proof.
  intros Hh. cbn [adapter_op].
  assert (∀ o r1, live r1 ⊆ live r → (o = Ok tt → ∀ k, k ∈ keys → live r1 !! k = None) →
    (AWrite (is_ok o), r1) = (a, r') →
    ∃ up late w', service_op (H := cache_env E (λ _, oracle r up late)) (OpDelete keys) w = (Ok a, w') ∧
      holds r' (w_cache w')) as Hall.
  { intros o r1 Hs Hn [= <- <-]. exists (is_ok o), false. eexists. split; [reflexivity|]. cbn. rewrite orb_false_r.
    destruct o as [[]|e]; [by apply (holds_delete r); auto|by eapply holds_shrinks]. }
  unfold Valkey.Delete. destruct keys as [|k keys].
  - apply Hall; [done|]. intros _ k Hk. by apply elem_of_nil in Hk.
  - destruct (client_Del (k :: keys) r) as [o r1] eqn:Ec. apply law_Del in Ec as [Hs Hn]. by apply Hall.
Qed.

(** What an operation stores comes back as it was. *)
Definition decodes (op : cache_op) : Prop :=
  match op with OpSet _ v _ => unmarshal (marshal v) = Some v | _ => True end.

Lemma op_simulated r op a r' w :
  decodes op → holds r (w_cache w) → adapter_op marshal unmarshal op r = (a, r') →
  ∃ up late w', service_op (H := cache_env E (λ _, oracle r up late)) op w = (Ok a, w') ∧ holds r' (w_cache w').
Proof.
  destruct op; [intros _; apply get_simulated|intros _; apply mget_simulated|apply set_simulated|intros _; apply delete_simulated].
Qed.

(** C19: the adapter refines the services' cache (CACHE-2, CACHE-9).  Whatever the
    client drops, carries out without an answer or lets expire, every sequence
    of reads, writes and deletions through the adapter, of values that come back
    from their JSON as they were, is answered as the store
    the services are proved against answers it, in some environment that
    differs in the cache's oracles only; and the server never holds anything
    the services did not put there. *)
Theorem adapter_refines ops r w answers r' :
  Forall decodes ops → holds r (w_cache w) → adapter_run marshal unmarshal ops r = (answers, r') →
  ∃ o w', service_run (H := cache_env E o) ops w = (Ok answers, w') ∧ holds r' (w_cache w').
Proof.
  intros Hd. revert r w answers. induction Hd as [|op ops Hop _ IH]; intros r w answers Hh; cbn [adapter_run].
  { intros [= <- <-]. by exists (λ _, oracle r true false), w. }
  destruct (adapter_op marshal unmarshal op r) as [a r1] eqn:Ea.
  destruct (adapter_run marshal unmarshal ops r1) as [l r2] eqn:El. intros [= <- <-].
  destruct (op_simulated _ _ _ _ _ Hop Hh Ea) as (up & late & w1 & Hs & Hh1).
  destruct (IH _ _ _ Hh1 El) as (o & w2 & Hr & Hh2).
  set (n := length (w_calls w)) in *. set (o' := λ m, if Nat.eqb m n then oracle r up late else o m).
  exists o', w2. split; [|done]. cbn [service_run]. unfold bindM.
  rewrite (service_op_ext E o' (λ _, oracle r up late)) by (unfold o'; by rewrite Nat.eqb_refl). rewrite Hs.
  rewrite (service_run_ext E o' o), Hr; [done|]. intros m Hm. unfold o'.
  destruct (service_op_calls (H := cache_env E (λ _, oracle r up late)) op w) as (a' & w' & Hs' & Hl).
  rewrite Hs in Hs'. injection Hs' as <- <-. destruct (Nat.eqb_spec m n); [lia|done].
Qed.
End simulation.

(** ** A client that satisfies the laws *)

Lemma mr_live_lookup r key : mr_live r !! key =
  mr_entries r !! key ≫= λ e, if from_option (λ deadline, mr_now r <? deadline) true (snd e) then Some (fst e) else None.
Proof. unfold mr_live. apply lookup_omap. Qed.

Lemma mr_live_put key v ttl r s : mr_live (mkMapRedis (mr_put key v ttl r) (mr_now r) s) ⊆ <[key := v]> (mr_live r).
Proof.
  apply map_subseteq_spec. intros k b. rewrite mr_live_lookup. cbn. unfold mr_put.
  destruct (decide (k = key)) as [->|Hne].
  - rewrite !lookup_insert_eq. cbn. by destruct (from_option _ _ _).
  - rewrite !lookup_insert_ne by done. by rewrite mr_live_lookup.
Qed.

Lemma mr_live_script r s : mr_live (mkMapRedis (mr_entries r) (mr_now r) s) = mr_live r.
Proof. done. Qed.

Lemma mr_deleted_lookup keys (m : gmap string (list N * option Z)) k :
  List.fold_right (λ k m, delete k m) m keys !! k = if contains k keys then None else m !! k.
Proof.
  induction keys as [|k' keys IH]; [done|]. cbn.
  assert (contains k (k' :: keys) = bool_decide (k = k') || contains k keys) as ->.
  { unfold contains. rewrite <- bool_decide_or. apply bool_decide_ext, elem_of_cons. }
  case_bool_decide as Ek; cbn; [subst; by rewrite lookup_delete_eq|by rewrite lookup_delete_ne, IH].
Qed.

Lemma mr_live_deleted keys r s :
  let r' := mkMapRedis (List.fold_right (λ k m, delete k m) (mr_entries r) keys) (mr_now r) s in
  mr_live r' ⊆ mr_live r ∧ ∀ k, k ∈ keys → mr_live r' !! k = None.
Proof.
  cbn zeta. split.
  - apply map_subseteq_spec. intros k b. rewrite !mr_live_lookup. cbn. rewrite mr_deleted_lookup.
    by destruct (contains k keys).
  - intros k Hk. rewrite mr_live_lookup. cbn. rewrite mr_deleted_lookup. by apply contains_true in Hk as ->.
Qed.

#[export] Instance map_client_laws : RedisLaws map_client.
Proof.
  refine {| live := mr_live : @redis map_client → _ |}.
  - intros key r a r'. cbn. unfold mr_command. destruct (default Answered _); intros [= <- <-]; try rewrite mr_live_script;
      (split; [done|]); cbn; [|done|done]. by destruct (mr_live r !! key) eqn:E.
  - intros keys r a r'. cbn. unfold mr_command. destruct (default Answered _); intros [= <- <-]; try rewrite mr_live_script;
      (split; [done|]); cbn; by intros vals [= <-].
  - intros key v ttl r a r'. cbn. unfold mr_command. destruct (default Answered _); intros [= <- <-];
      [left; apply (mr_live_put key v ttl r (tail (mr_script r)))|right; rewrite mr_live_script; eauto|left; apply mr_live_put].
  - intros key v ttl r a r'. cbn. unfold mr_command.
    destruct (mr_live r !! key) as [b|] eqn:E; destruct (default Answered _); intros [= <- <-]; cbn.
    1: done. 1,2: by left.
    + split; [done|apply (mr_live_put key v ttl r (tail (mr_script r)))].
    + by left.
    + right. split; [done|apply (mr_live_put key v ttl r (tail (mr_script r)))].
  - intros keys r a r'. cbn. unfold mr_command. destruct (mr_live_deleted keys r (tail (mr_script r))) as [Hs Hn].
    destruct (default Answered _); intros [= <- <-]; try rewrite mr_live_script; split; done.
Defined.

(** ** Keys *)

Section keys.
  Context `{Env} (uuid_String_length : ∀ u, String.length (uuid_String u) = 36%nat).

(** The two lists of key names, the adapter's and the services', agree. *)
Lemma key_names_agree t u :
  [MembershipsKey t u; TenantKey t; MembersPageKey t 50; DeptMembersKey t u; LocaleKey t; RolesKey t;
   GroupRoleMappingsKey t; GroupDeptMappingsKey t; SeatUsageKey t; PlansKey; DepartmentsKey; DepartmentsStaleKey; PlansStaleKey] =
  [cacheKeyMemberships t u; cacheKeyTenant t; cacheKeyMembers50 t; cacheKeyDeptMembers t u; cacheKeyLocale t; cacheKeyRoles t;
   cacheKeyGRM t; cacheKeyGDM t; cacheKeySeatUsage t; cacheKeyPlans; cacheKeyDepartments; cacheKeyDepartmentsStale; cacheKeyPlansStale].
Proof. reflexivity. Qed.

(** Nothing shares a key: two entries of the cache with the same name are about
    the same thing, of the same tenant (CACHE-1). *)
Theorem keys_distinct k k' :
  key_text k = key_text k' → k = k' ∨ ∃ p p', k = KPlanGeneration p ∧ k' = KPlanGeneration p' ∧ plan_text p = plan_text p'.
Proof.
  assert (∀ u v, uuid_String u = "stale:" +:+ uuid_String v → False) as Hlen.
  { intros u v E. apply (f_equal String.length) in E. rewrite string_length_append, !uuid_String_length in E. done. }
  assert (∀ u v s s', uuid_String u +:+ s = uuid_String v +:+ s' → u = v ∧ s = s') as Happ.
  { intros u v s s' [E ->]%append_inj; [|by rewrite !uuid_String_length]. split; [by apply uuid_String_inj|done]. }
  destruct k, k'; cbn; intros E; simplify_eq/=; try (by left); try (by right; eauto 6);
    try (apply uuid_String_inj in E as ->; by left).
  1-6: exfalso; injection E as E; first [exact (Hlen _ _ E)|exact (Hlen _ _ (eq_sym E))].
  - apply Happ in E as [-> _]. by left.
  - apply Happ in E as [-> E]. injection E as ->%uuid_String_inj. by left.
  - apply Happ in E as [-> E]. injection E as ->%uuid_String_inj. by left.
Qed.
End keys.
