(* ===== verification/SettingsSpec.v ===== *)
(** * SettingsSpec: a tenant's settings

    What [TenantService.Patch] (P-2) and the operator actions guarantee, and
    the rules for updates of one tenant row that keep its key and its realm. *)

From S2P Require Import Prelude Domain Schema Tx Wp TenantRepo CacheKeys ProvisioningService TenantService.
From S2P Require Import LifecycleSpec MembershipSpec.

(** ** Well-formed tenants *)

(** The table of tenants under its key, its index and its CHECK constraints. *)
Record tenants_ok (d : DB) : Prop := {
  ok_pk : pk_tenants d;
  ok_realms : uq_realms d;
  ok_valid : ∀ t, t ∈ tenants d → tenant_valid t
}.

Lemma tenants_ok_same d d' : tenants d' = tenants d → tenants_ok d → tenants_ok d'.
Proof. intros E [H1 H2 H3]. split; unfold pk_tenants, uq_realms in *; by rewrite E. Qed.

(** A change of columns other than the key, the realm and the version. *)
Definition setting (f : Tenant → Tenant) : Prop :=
  ∀ t, t_ID (f t) = t_ID t ∧ t_RealmType (f t) = t_RealmType t ∧ t_RealmID (f t) = t_RealmID t ∧
       t_RecordVersion (f t) = t_RecordVersion t ∧ t_DeletedAt (f t) = t_DeletedAt t.

Lemma setting_key f : setting f → same_key f.
Proof. intros Hf t. apply Hf. Qed.

Lemma touched_live now f t : setting f → t_live (touched now f t) = t_live t.
Proof. intros Hf. unfold t_live. rewrite (touched_column t_DeletedAt) by done. f_equal. apply Hf. Qed.

Section row.
  Context (id : uuid) (now : time).

Lemma select_key d t : pk_tenants d → tenant_row id d = Some t → select (t_is id) (tenants d) = [t].
Proof.
  intros Hpk Hrow. rewrite <- (select_guard id (λ _, true) d t) by done.
  apply List.filter_ext. intros u. by rewrite andb_true_r.
Qed.

Lemma row_update_ok f w t :
  w_txnow w = Some now → tenants_ok (w_db w) → tenant_row id (w_db w) = Some t → setting f → tenant_valid (f t) →
  tenants_update (t_is id) f now (w_db w) = Ok ([touched now f t], update_tenant id (touched now f) (w_db w)) ∧
  tenants_ok (update_tenant id (touched now f) (w_db w)).
Proof.
  intros Ht [Hpk Huq Hval] Hrow Hf Hv. pose proof (tenant_row_Some _ _ _ Hrow) as [Hin Hid].
  assert (tenant_valid (touched now f t)) as Hv' by (apply tenant_valid_touched; [apply Hf|by apply Hval|done]).
  destruct (exec_update_valid id (λ _, true) (λ _, f) now w t) as [He Hu]; try done; [by apply setting_key| |].
  { apply realm_free_spec. destruct (Hf t) as (-> & -> & -> & _). apply realm_free_spec, (Huq t Hin). }
  split; [|split; [by apply pk_update; [apply same_key_touched, setting_key|]|done|]].
  - rewrite (exec_update_ext _ (t_is id)) in He by (intros; by rewrite andb_true_r).
    unfold exec_update, bindM, sql in He. rewrite Ht in He. unfold tenants_update in *.
    rewrite (select_key _ t) in * by done. simpl in *. by destruct (first_error _).
  - intros u (v & Hv1 & ->)%elem_of_update_where. destruct (t_is id v) eqn:Ev; [|by apply Hval].
    apply Z.eqb_eq in Ev. rewrite (pk_tenants_eq (w_db w) v t) by (done || congruence). done.
Qed.

Lemma setting_ok f d t :
  tenants_ok d → tenant_row id d = Some t → setting f → tenant_valid (f t) →
  tenants_ok (update_tenant id (touched now f) d).
Proof.
  intros Hok Hrow Hf Hv.
  by apply (row_update_ok f {| w_db := d; w_cache := []; w_calls := []; w_clock := now; w_txnow := Some now;
                               w_sched := []; w_uuids := 0 |} t).
Qed.

(** An UPDATE by key under a guard. *)
Lemma wp_row_update (p : Tenant → bool) (g : Tenant → bool) (f : time → Tenant → Tenant) w (Q : result error (list Tenant) → World → Prop) :
  w_txnow w = Some now → tenants_ok (w_db w) → setting (f now) → (∀ t, p t = t_is id t && g t) →
  match tenant_row id (w_db w) with
  | Some t => if g t then tenant_valid (f now t) ∧
                (tenants_ok (update_tenant id (touched now (f now)) (w_db w)) →
                 Q (Ok [touched now (f now) t]) (set_w_db (update_tenant id (touched now (f now)) (w_db w)) w))
              else Q (Ok []) w
  | None => Q (Ok []) w
  end → wp (sql (λ now d, tenants_update p (f now) now d)) Q w.
Proof.
  intros Ht Hok Hf Hp HQ. apply wp_sql. unfold now_in. rewrite Ht.
  assert (set_w_db (set_tenants (tenants (w_db w)) (w_db w)) w = w) as Hid by (by destruct w as [[]]).
  destruct (tenant_row id (w_db w)) as [t|] eqn:Er; [destruct (g t) eqn:Eg|].
  - destruct HQ as [Hv HQ]. destruct (row_update_ok (f now) w t) as [E Hok']; [done..|].
    unfold tenants_update in *. rewrite (List.filter_ext p (λ t, t_is id t && g t)) by done.
    rewrite (update_where_ext p (t_is id) (touched now (f now)) (touched now (f now))); [|].
    + rewrite (select_guard id g _ t), Eg by (done || apply Hok). rewrite (select_key _ t) in E by (done || apply Hok).
      simpl in *. destruct (first_error _); [done|]. by apply HQ.
    + intros u Hu. rewrite Hp. split; [|done]. destruct (t_is id u) eqn:Eu; [|done].
      apply Z.eqb_eq in Eu. pose proof (tenant_row_Some _ _ _ Er) as [? ?].
      by rewrite (pk_tenants_eq (w_db w) u t (ok_pk _ Hok)) by congruence.
  - unfold tenants_update. rewrite (List.filter_ext p (λ t, t_is id t && g t)) by done.
    rewrite (update_where_ext p (λ t, t_is id t && g t) (touched now (f now)) (touched now (f now))) by done.
    rewrite (update_where_guard id g _ _ t), (select_guard id g _ t), Eg by (done || apply Hok). simpl. by rewrite Hid.
  - assert (∀ u, u ∈ tenants (w_db w) → p u = false) as Hn.
    { intros u Hu. rewrite Hp. unfold tenant_row in Er. rewrite select_first_None in Er. by rewrite Er. }
    unfold tenants_update. rewrite update_where_none by done.
    rewrite select_none by done. simpl. by rewrite Hid.
Qed.

Lemma wp_exec_update (p : Tenant → bool) (g : Tenant → bool) (f : time → Tenant → Tenant) w
    (Q : result error Z → World → Prop) :
  w_txnow w = Some now → tenants_ok (w_db w) → setting (f now) → (∀ t, p t = t_is id t && g t) →
  match tenant_row id (w_db w) with
  | Some t => if g t then tenant_valid (f now t) ∧
                (tenants_ok (update_tenant id (touched now (f now)) (w_db w)) →
                 Q (Ok 1) (set_w_db (update_tenant id (touched now (f now)) (w_db w)) w))
              else Q (Ok 0) w
  | None => Q (Ok 0) w
  end → wp (exec_update p f) Q w.
Proof.
  intros Ht Hok Hf Hp HQ. unfold exec_update. apply wp_bind, (wp_row_update p g); [done..|].
  destruct (tenant_row id (w_db w)) as [t|]; [destruct (g t)|]; exact HQ.
Qed.
End row.

(** ** Reading a tenant *)

Definition live_tenant (id : uuid) (d : DB) : option Tenant := select_first (t_is_live id) (tenants d).

Lemma wp_FindByID id now w (Q : result error Tenant → World → Prop) :
  w_txnow w = Some now →
  match live_tenant id (w_db w) with Some t => Q (Ok t) w | None => Q (Err tenant_not_found) w end →
  wp (FindByID id) Q w.
Proof. intros Ht HQ. unfold FindByID, live_tenant in *. repeat wp_step. by destruct (select_first _ _). Qed.

Lemma wp_own_FindByID id w (Q : result error Tenant → World → Prop) :
  alone w →
  match live_tenant id (w_db w) with Some t => Q (Ok t) w | None => Q (Err tenant_not_found) w end →
  wp (FindByID id) Q w.
Proof.
  intros Ha HQ. apply wp_own_tx; [done|]. apply (wp_FindByID id (w_clock w)); [done|]. simpl.
  destruct (live_tenant id (w_db w)); [by rewrite started_stop|by rewrite started_stop_db].
Qed.

(** ** The request *)

(** What [Patch] accepts: the ranges of P-2. *)
Definition patch_ok (p : TenantPatch) : bool :=
  match tp_MFAFreshnessSeconds p with Some v => (60 <=? v) && (v <=? 900) | None => true end
  && match tp_Name p with Some n => Nat.leb (String.length n) 255 | None => true end
  && match tp_DefaultLocale p with Some l => negb (String.eqb l "") && isValidLocale l | None => true end
  && match tp_ResidencyMode p with Some m => residency_known m | None => true end.

Lemma wp_validate_patch p w (Q : result error unit → World → Prop) :
  (if patch_ok p then Q (Ok tt) w else ∀ e, errors_Is e ErrValidation = true → Q (Err e) w) →
  wp (validate_patch p) Q w.
Proof.
  intros HQ. unfold validate_patch, patch_ok in *.
  apply wp_bind, wp_throw_if. destruct (tp_MFAFreshnessSeconds p) as [v|]; simpl in *;
    [destruct (v <? 60) eqn:E1, (900 <? v) eqn:E2; simpl in *;
     try (replace ((60 <=? v) && (v <=? 900)) with false in HQ by lia; by apply HQ);
     replace ((60 <=? v) && (v <=? 900)) with true in HQ by lia; simpl in HQ|];
    (apply wp_bind, wp_throw_if; destruct (tp_Name p) as [n|]; simpl in *;
     [destruct (Nat.ltb 255 (String.length n)) eqn:E3;
      [apply Nat.ltb_lt, Nat.leb_gt in E3; rewrite E3 in HQ; by apply HQ|
       apply Nat.ltb_ge, Nat.leb_le in E3; rewrite E3 in HQ; simpl in HQ]|]);
    (apply wp_bind, wp_throw_if; destruct (tp_DefaultLocale p) as [l|]; simpl in *;
     [destruct (String.eqb l ""), (isValidLocale l); simpl in *; try by apply HQ|]);
    (destruct (tp_ResidencyMode p) as [m|]; [|by apply wp_ret]; apply wp_throw_if;
     destruct (residency_known m); by apply HQ).
Qed.

(** The columns the request sets keep a row valid, but for an empty name. *)
Definition names_nothing (p : TenantPatch) : bool :=
  match tp_Name p with Some n => String.eqb n "" | None => false end.

Lemma setting_apply_patch p : setting (apply_patch p).
Proof. intros t. unfold apply_patch, opt_set. by destruct p as [[] [] [] [] [] v]. Qed.

Lemma apply_patch_valid p t :
  patch_ok p = true → names_nothing p = false → tenant_valid t → tenant_valid (apply_patch p t).
Proof.
  unfold patch_ok, names_nothing. intros Hp Hn [].
  destruct p as [[n|] [l|] [b|] [m|] [r|] v]; simpl in *; split; simpl; try assumption;
    unfold int4; rewrite ?andb_true_iff in *; try lia; destruct_and?; try done; by destruct r.
Qed.

Lemma nameless_checks now o t :
  tenant_valid (set_t_Name "-" t) → t_Name t = "" →
  tenant_checks (touch now o t) = Some (PgCheckViolation "tenants_name_not_empty").
Proof.
  intros [E1 E2 E3 E4 E5 E6 E7 E8 E9 E10 E11 E12 _ _ _ _ _ _] Hn. simpl in E1, E2, E3, E4, E10, E11, E12.
  unfold tenant_checks. simpl. rewrite E1, E2, E3, E4, E10, E11, E12, Hn.
  change (chk_cancelled_at_required (touch now o t)) with (chk_cancelled_at_required (set_t_Name "-" t)).
  change (chk_offboarded_soft_deleted (touch now o t)) with (chk_offboarded_soft_deleted (set_t_Name "-" t)).
  change (chk_subscription_started_required (touch now o t)) with (chk_subscription_started_required (set_t_Name "-" t)).
  change (chk_suspension_source_required (touch now o t)) with (chk_suspension_source_required (set_t_Name "-" t)).
  change (chk_trial_ends_at_required (touch now o t)) with (chk_trial_ends_at_required (set_t_Name "-" t)).
  by rewrite E5, E6, E7, E8, E9.
Qed.

Lemma apply_patch_nameless p t now :
  patch_ok p = true → names_nothing p = true → tenant_valid t →
  tenant_checks (touched now (apply_patch p) t) = Some (PgCheckViolation "tenants_name_not_empty").
Proof.
  intros Hp Hn Hv. set (p' := mkTenantPatch (Some "-") (tp_DefaultLocale p) (tp_LocalAccountsEnabled p)
    (tp_MFAFreshnessSeconds p) (tp_ResidencyMode p) (tp_RecordVersion p)).
  assert (t_Name (apply_patch p t) = "") as Hname.
  { unfold names_nothing in Hn. destruct p as [[n|] [] [] [] [] v]; try done; by apply String.eqb_eq in Hn. }
  assert (tenant_valid (set_t_Name "-" (apply_patch p t))) as Hv'.
  { replace (set_t_Name "-" (apply_patch p t)) with (apply_patch p' t)
      by (unfold apply_patch, opt_set; by destruct p as [[] [] [] [] [] v], t).
    apply apply_patch_valid; [|done..]. revert Hp. unfold patch_ok. simpl. rewrite !andb_true_iff. naive_solver. }
  unfold touched. destruct (decide _) as [E|_]; [|by apply nameless_checks].
  rewrite E in Hname. pose proof (tv_name _ Hv) as Hne. by rewrite Hname in Hne.
Qed.

(** ** The write *)

Definition stale_patch (t : Tenant) : error :=
  EDomain (WithDetails (NewError ErrOptimisticLockConflict "record version conflict")
             [("record_version", JNum (t_RecordVersion t)); ("updated_at", JNum (t_UpdatedAt t))]).

(** Why a request is refused by the stored rows. *)
Definition patch_refusal (tid : uuid) (p : TenantPatch) (d : DB) : option error :=
  match live_tenant tid d with
  | None => Some tenant_not_found
  | Some t => if negb (t_RecordVersion t =? tp_RecordVersion p) then Some (stale_patch t)
              else if names_nothing p then Some (EPg (PgCheckViolation "tenants_name_not_empty"))
              else None
  end.

Section patch.
  Context `{Env} (tid : uuid) (p : TenantPatch) (Hne : patch_is_empty p = false) (Hp : patch_ok p = true).

(** The row and the database the write leaves. *)
Definition patched (now : time) (d : DB) : DB := update_tenant tid (touched now (apply_patch p)) d.

Lemma live_none d : pk_tenants d → live_tenant tid d = None →
  match tenant_row tid d with Some t => t_live t = false | None => True end.
Proof.
  intros Hpk Hn. destruct (tenant_row tid d) as [t|] eqn:Er; [|done]. destruct (t_live t) eqn:El; [|done].
  assert (live_tenant tid d = Some t) as E by (by apply live_row). congruence.
Qed.

Lemma wp_Update now w (Q : result error Tenant → World → Prop) :
  w_txnow w = Some now → tenants_ok (w_db w) →
  match patch_refusal tid p (w_db w) with
  | Some e => Q (Err e) w
  | None => ∀ t, live_tenant tid (w_db w) = Some t → tenants_ok (patched now (w_db w)) →
              Q (Ok (touched now (apply_patch p) t)) (set_w_db (patched now (w_db w)) w)
  end → wp (Update tid (Some p)) Q w.
Proof.
  intros Ht Hok HQ. unfold Update. rewrite Hne. eapply (wp_in_tx now); [done|]. apply wp_bind.
  set (g := λ t, t_live t && (t_RecordVersion t =? tp_RecordVersion p)).
  assert (∀ t, t_is_live tid t && (t_RecordVersion t =? tp_RecordVersion p) = t_is tid t && g t) as Hg.
  { intros t. unfold t_is_live, t_is, g. by rewrite andb_assoc. }
  unfold patch_refusal in HQ. destruct (live_tenant tid (w_db w)) as [t|] eqn:El.
  - pose proof (proj1 (live_row _ _ _ (ok_pk _ Hok)) El) as [Hrow Hlive].
    destruct (t_RecordVersion t =? tp_RecordVersion p) eqn:Ev; simpl in HQ; [destruct (names_nothing p) eqn:En|].
    + apply wp_sql. unfold now_in. rewrite Ht. unfold tenants_update.
      rewrite (List.filter_ext _ (λ t, t_is tid t && g t)) by done.
      rewrite (select_guard tid g _ t) by (done || apply Hok). unfold g at 1. rewrite Hlive, Ev. simpl.
      unfold first_error. simpl. rewrite apply_patch_nameless; [exact HQ|done..|].
      apply Hok. by apply tenant_row_Some in Hrow as [? _].
    + eapply (wp_row_update tid now _ g (λ _, apply_patch p)); [done..|apply setting_apply_patch|done|].
      rewrite Hrow. unfold g. rewrite Hlive, Ev. simpl. split.
      { apply apply_patch_valid; [done..|]. apply Hok. by apply tenant_row_Some in Hrow as [? _]. }
      intros Hok'. apply wp_ret. by apply HQ.
    + eapply (wp_row_update tid now _ g (λ _, apply_patch p)); [done..|apply setting_apply_patch|done|].
      rewrite Hrow. unfold g. rewrite Hlive, Ev. simpl. unfold optimisticConflictOrNotFound.
      apply wp_bind, wp_query. unfold live_tenant in El. rewrite El. by apply wp_throw.
  - eapply (wp_row_update tid now _ g (λ _, apply_patch p)); [done..|apply setting_apply_patch|done|].
    pose proof (live_none _ (ok_pk _ Hok) El) as Hn.
    assert (wp (optimisticConflictOrNotFound tid) (λ r w', Q (wrap_result r) w') w) as Hc.
    { unfold optimisticConflictOrNotFound. apply wp_bind, wp_query. unfold live_tenant in El. rewrite El.
      by apply wp_throw. }
    destruct (tenant_row tid (w_db w)) as [t|]; [|exact Hc]. unfold g. rewrite Hn. exact Hc.
Qed.

Lemma patch_refusal_final d e :
  patch_refusal tid p d = Some e → is_retryable e = false ∧ wrapConnErr e = e.
Proof.
  unfold patch_refusal. destruct (live_tenant tid d) as [t|]; [|by intros [= <-]].
  destruct (negb _); [by intros [= <-]|]. destruct (names_nothing p); [|done]. by intros [= <-].
Qed.

(** The event of P-2: only for the residency mode, and only with a runner. *)
Definition patch_events (txRunner : bool) (t : Tenant) : list DomainEvent :=
  match tp_ResidencyMode p with
  | Some m => if txRunner
              then [setting_event tid "residency_mode" (residency_text (t_ResidencyMode t)) (residency_text m)]
              else []
  | None => []
  end.

Lemma wp_write_patch txRunner pre w (Q : result error Tenant → World → Prop) :
  codec_schemas → alone w → tenants_ok (w_db w) →
  (tp_ResidencyMode p ≠ None → pre = live_tenant tid (w_db w)) →
  match patch_refusal tid p (w_db w) with
  | Some e => Q (Err e) w
  | None => ∀ t, live_tenant tid (w_db w) = Some t → tenants_ok (patched (w_clock w) (w_db w)) →
      Q (Ok (touched (w_clock w) (apply_patch p) t))
        (set_w_db (enqueued (emitted (patch_events txRunner t)) (patched (w_clock w) (w_db w))) w)
  end → wp (write_patch txRunner tid p pre) Q w.
Proof.
  intros Hcodec Ha Hok Hpre HQ.
  assert (∀ d, set_w_txnow None (set_w_db d (started w)) = set_w_db d w) as Hstop.
  { intros d. destruct Ha as [_ Ht]. destruct w. simpl in *. by rewrite Ht. }
  assert (patch_events txRunner = (λ _, []) → wp (Update tid (Some p)) Q w) as Hplain.
  { intros Hev. unfold Update. rewrite Hne. apply wp_own_tx; [done|].
    pose proof (wp_Update (w_clock w) (started w)) as Hu. unfold Update in Hu. rewrite Hne in Hu.
    apply Hu; [done..|]. clear Hu. simpl.
    destruct (patch_refusal tid p (w_db w)); [by rewrite started_stop_db|].
    intros t El Hok'. rewrite Hstop. specialize (HQ t El Hok'). rewrite Hev in HQ. unfold emitted in HQ.
    by destruct has_publisher; rewrite enqueued_nil in HQ. }
  unfold write_patch. unfold patch_events in *. destruct (tp_ResidencyMode p) as [m|] eqn:Em; [|by apply Hplain].
  destruct txRunner; [|by apply Hplain]. clear Hplain. rewrite Hpre by done.
  apply wp_RunInTx_alone; [done|]. apply wp_bind, (wp_Update (w_clock w)); [done..|]. simpl.
  pose proof (patch_refusal_final (w_db w)) as Hfin.
  destruct (patch_refusal tid p (w_db w)) as [e|].
  { destruct (Hfin e eq_refl) as [H1 H2]. split; [done|]. by rewrite H2, started_stop_db. }
  intros t El Hok'. rewrite El. apply wp_bind. eapply (wp_publish Hcodec); [done..|]. apply wp_ret. simpl.
  rewrite set_w_db_twice, Hstop. by apply HQ.
Qed.

(** The marker of a deferred realm sync. *)
Definition sync_marked (now : time) (d : DB) : DB :=
  update_tenant tid (touched now (set_t_RealmSyncPending true)) d.

Lemma wp_SetRealmSyncPending t w (Q : result error unit → World → Prop) :
  alone w → tenants_ok (w_db w) → live_tenant tid (w_db w) = Some t →
  Q (Ok tt) (set_w_db (sync_marked (w_clock w) (w_db w)) w) → wp (SetRealmSyncPending tid) Q w.
Proof.
  intros Ha Hok El HQ. pose proof (proj1 (live_row _ _ _ (ok_pk _ Hok)) El) as [Hrow Hlive].
  apply wp_own_tx; [done|]. eapply (wp_in_tx (w_clock w)); [done|]. apply wp_bind.
  eapply (wp_exec_update tid (w_clock w) _ t_live); [done..|]. simpl. rewrite Hrow, Hlive. split.
  { pose proof (ok_valid _ Hok t) as Hv. destruct Hv; [by apply tenant_row_Some in Hrow as [? _]|]. by split. }
  intros _. simpl. destruct Ha as [_ Ht]. destruct w. simpl in *. subst. exact HQ.
Qed.

Definition is_err {A} (r : result error A) : bool := match r with Ok _ => false | Err _ => true end.

Lemma live_patched now d t :
  pk_tenants d → live_tenant tid d = Some t →
  live_tenant tid (patched now d) = Some (touched now (apply_patch p) t).
Proof.
  intros Hpk [Hrow Hl]%live_row; [|done]. pose proof (setting_apply_patch p) as Hs.
  apply live_row; [apply pk_update; [by apply same_key_touched, setting_key|done]|]. split; [|by rewrite touched_live].
  unfold patched. rewrite tenant_row_update, Z.eqb_refl, Hrow by (by apply same_key_touched, setting_key). done.
Qed.

Lemma wp_sync_realm needed t w (Q : result error bool → World → Prop) :
  alone w → tenants_ok (w_db w) → live_tenant tid (w_db w) = Some t →
  (∀ n w', w_clock w' = w_clock w → w_db w' = (if needed && is_err (rp_PatchRealmConfig n tid (tp_LocalAccountsEnabled p))
                      then sync_marked (w_clock w) (w_db w) else w_db w) →
     Q (Ok (needed && is_err (rp_PatchRealmConfig n tid (tp_LocalAccountsEnabled p)))) w') →
  wp (sync_realm tid p needed) Q w.
Proof.
  intros Ha Hok El HQ. unfold sync_realm. destruct needed; [|by apply wp_ret, (HQ 0%nat)]. simpl.
  apply wp_bind, wp_call. specialize (HQ (length (w_calls w))).
  destruct (rp_PatchRealmConfig _ _ _) as [x|e]; [by apply wp_ret, HQ|].
  apply wp_bind, wp_try, (wp_SetRealmSyncPending t); [|done..|]; [by destruct Ha|]. by apply wp_ret, HQ.
Qed.
End patch.

Section patch_theorem.
  Context `{Env} (Hcodec : codec_schemas) (txRunner : bool) (tid : uuid) (p : TenantPatch).

Lemma wp_pre_read w (Q : result error (option Tenant) → World → Prop) :
  alone w →
  (if notNull (tp_LocalAccountsEnabled p) || notNull (tp_ResidencyMode p)
   then match live_tenant tid (w_db w) with Some t => Q (Ok (Some t)) w | None => Q (Err tenant_not_found) w end
   else Q (Ok None) w) → wp (pre_read tid p) Q w.
Proof.
  intros Ha HQ. unfold pre_read. destruct (_ || _); [|by apply wp_ret].
  apply wp_bind, wp_own_FindByID; [done|]. destruct (live_tenant tid (w_db w)); [by apply wp_ret|done].
Qed.

(** What an accepted request leads to. *)
Definition patch_outcome (w : World) (r : result error (Tenant * bool)) (w' : World) : Prop :=
  match patch_refusal tid p (w_db w), live_tenant tid (w_db w) with
  | None, Some t => ∃ n,
      let deferred := need_realm_sync p (Some t)
                      && is_err (rp_PatchRealmConfig n tid (tp_LocalAccountsEnabled p)) in
      let stored := enqueued (emitted (patch_events tid p txRunner t)) (patched tid p (w_clock w) (w_db w)) in
      r = Ok (touched (w_clock w) (apply_patch p) t, deferred) ∧
      w_db w' = (if deferred then sync_marked tid (w_clock w) stored else stored) ∧
      (has_audit = true → last (w_calls w') = Some (CallWriteEntry (setting_entry tid p (Some t) (w_clock w))))
  | Some e, _ => r = Err e ∧ w' = w
  | None, None => False
  end.

(** The entry does not depend on a pre-read that was not made. *)
Lemma setting_entry_before pre before now :
  (tp_ResidencyMode p ≠ None → pre = before) → setting_entry tid p pre now = setting_entry tid p before now.
Proof.
  intros Hpre. unfold setting_entry, changed_settings. destruct (tp_ResidencyMode p); [by rewrite Hpre|done].
Qed.

Lemma wp_patch_rest pre w :
  alone w → tenants_ok (w_db w) → patch_is_empty p = false → patch_ok p = true →
  (tp_ResidencyMode p ≠ None → pre = live_tenant tid (w_db w)) →
  need_realm_sync p pre = need_realm_sync p (live_tenant tid (w_db w)) →
  wp (let! updated := write_patch txRunner tid p pre in
      invalidateCache tid ;;
      let! deferred := sync_realm tid p (need_realm_sync p pre) in
      (if has_audit then auditSettingChange tid p pre else retM tt) ;;
      retM (updated, deferred)) (patch_outcome w) w.
Proof.
  intros Ha Hok Hne Hp Hpre Hneed. unfold patch_outcome. apply wp_bind, (wp_write_patch tid p); [done..|].
  destruct (patch_refusal tid p (w_db w)) as [e|]; [done|]. intros t El Hok'. rewrite El in *.
  apply wp_bind, wp_quiet; [apply quiet_evict|]. intros w2 Hd2 Hf2. simpl in Hd2.
  apply wp_bind, (wp_sync_realm tid p (need_realm_sync p pre) (touched (w_clock w) (apply_patch p) t)).
  - by eapply alone_flows; [|exact Hf2].
  - rewrite Hd2. by eapply tenants_ok_same; [|exact Hok'].
  - rewrite Hd2. by apply live_patched; [apply Hok|].
  - intros n w3 Hc3 Hd3. rewrite Hneed in *. destruct Hf2 as (_ & _ & Hc). simpl in Hc. rewrite Hd2, Hc in Hd3.
    apply wp_bind. destruct has_audit; [|apply wp_ret, wp_ret; by exists n].
    apply wp_bind, wp_time_Now, wp_call, wp_ret. exists n. split; [done|]. split; [done|]. intros _. cbn.
    rewrite last_snoc, Hc3, Hc. do 2 f_equal. by apply setting_entry_before.
Qed.

(** C33: updating a tenant's settings (P-2).  With nothing else running, a
    request that sets something is answered as follows.  Outside the allowed
    ranges it is a validation error and nothing changes.  Otherwise a tenant
    that is missing or soft-deleted is not found; a version other than the
    stored one is a conflict that reports the stored version; an empty name,
    which the checks let through, fails on the column's constraint; in all
    three nothing is stored.  Otherwise the row is written with exactly the
    columns of the request (the version advances when one of them differs) and
    the residency mode, when it is set, is announced with its old and new value
    in the same transaction, if a transaction runner is wired.  The realm is
    told only when local accounts are switched; the answer is "deferred", and
    the row carries the marker of the realm sweep, exactly when that call
    fails.  The last thing the request does is hand the audit log an entry with
    its actor and exactly the settings it named, the residency mode with the
    value it had; a request that is refused leaves none. *)
Theorem Patch_spec w r w' :
  alone w → tenants_ok (w_db w) → patch_is_empty p = false → Patch txRunner tid (Some p) w = (r, w') →
  if patch_ok p then patch_outcome w r w'
  else w' = w ∧ ∃ e, r = Err e ∧ errors_Is e ErrValidation = true.
Proof.
  intros Ha Hok Hne E. revert r w' E. apply wp_intro. unfold Patch. rewrite Hne. apply wp_bind, wp_validate_patch.
  destruct (patch_ok p) eqn:Hp; [|intros e He; eauto].
  apply wp_bind, wp_pre_read; [done|].
  destruct (notNull (tp_LocalAccountsEnabled p) || notNull (tp_ResidencyMode p)) eqn:Ep.
  - destruct (live_tenant tid (w_db w)) as [t|] eqn:El; [apply wp_patch_rest; by rewrite ?El|].
    unfold patch_outcome, patch_refusal. by rewrite El.
  - apply orb_false_iff in Ep as [E1 E2]. apply wp_patch_rest; [done..| |].
    + by destruct (tp_ResidencyMode p).
    + unfold need_realm_sync. by destruct (tp_LocalAccountsEnabled p).
Qed.
End patch_theorem.
