(* ===== verification/JobsSpec.v ===== *)
(** * JobsSpec: what the reconciler's sweeps guarantee *)

From S2P Require Import Prelude Domain Schema Tx Wp TenantRepo InvitationRepo EventStores ReadModels Jobs.
From S2P Require Import LifecycleSpec MembershipSpec RolesSpec SettingsSpec.

(** ** Seat overage *)

Section overage.
  Context `{Env} (tid : uuid).

Definition seats_taken (now : time) (d : DB) : Z :=
  count (tm_active_of tid) (tenant_memberships d) + count (pi_holds_seat now tid) (pending_invitations d).

Definition over_cap (now : time) (d : DB) (t : Tenant) : bool := t_LicensedSeats t <? seats_taken now d.

Definition seat_occupancy (now : time) (d : DB) (t : Tenant) : SeatOccupancy :=
  mkSeatOccupancy (t_LicensedSeats t) (t_OverageSince t)
    (count (tm_active_of tid) (tenant_memberships d)) (count (pi_holds_seat now tid) (pending_invitations d)).

Definition overage_set (now : time) (since : option time) (d : DB) : DB :=
  update_tenant tid (touched now (set_t_OverageSince since)) d.

(** What the sweep leaves of a live tenant's row. *)
Definition overage_reconciled (now : time) (d : DB) (t : Tenant) : DB :=
  match over_cap now d t, t_OverageSince t with
  | true, None => enqueued (emitted [overage_started tid (seat_occupancy now d t) now]) (overage_set now (Some now) d)
  | false, Some _ => enqueued (emitted [overage_resolved tid now]) (overage_set now None d)
  | _, _ => d
  end.

Lemma setting_overage since : setting (set_t_OverageSince since).
Proof. by intros t. Qed.

Lemma wp_LockSeatOccupancy now w (Q : result error SeatOccupancy → World → Prop) :
  w_txnow w = Some now →
  match live_tenant tid (w_db w) with
  | Some t => Q (Ok (seat_occupancy now (w_db w) t)) w
  | None => Q (Err ENoRows) w
  end → wp (LockSeatOccupancy tid) Q w.
Proof.
  intros Ht HQ. unfold LockSeatOccupancy, live_tenant, seat_occupancy in *. repeat wp_step.
  destruct (select_first _ _); [|exact HQ]. repeat wp_step. unfold now_in. by rewrite Ht.
Qed.

Lemma wp_SetOverageSince since t now w (Q : result error unit → World → Prop) :
  w_txnow w = Some now → tenants_ok (w_db w) → tenant_row tid (w_db w) = Some t →
  Q (Ok tt) (set_w_db (overage_set now since (w_db w)) w) → wp (SetOverageSince tid since) Q w.
Proof.
  intros Ht Hok Hrow HQ. unfold SetOverageSince. eapply (wp_in_tx now); [done|]. apply wp_bind.
  eapply (wp_exec_update tid now _ (λ _, true)); [done..|by intros; rewrite andb_true_r|].
  simpl. rewrite Hrow. split.
  - destruct (ok_valid _ Hok t); [by apply tenant_row_Some in Hrow as [? _]|]. by split.
  - intros _. by apply wp_ret.
Qed.

(** The counts of the event are what its schema asks for. *)
Lemma overage_started_valid now d t :
  tenant_valid t → event_valid (overage_started tid (seat_occupancy now d t) now) = true.
Proof.
  intros Hv. pose proof (tv_seats t Hv) as Hs%Z.ltb_lt. unfold event_valid. cbn.
  rewrite !andb_true_iff, !Z.leb_le. split_and!; [lia|apply count_nonneg..].
Qed.

Lemma wp_overage_tx now w (Q : result error unit → World → Prop) :
  codec_schemas → w_txnow w = Some now → w_clock w = now → tenants_ok (w_db w) →
  match live_tenant tid (w_db w) with
  | Some t => Q (Ok tt) (set_w_db (overage_reconciled now (w_db w) t) w)
  | None => Q (Err ENoRows) w
  end → wp (overage_tx tid) Q w.
Proof.
  intros Hcodec Ht Hc Hok HQ. unfold overage_tx. apply wp_bind, (wp_LockSeatOccupancy now); [done|].
  destruct (live_tenant tid (w_db w)) as [t|] eqn:El; [|done].
  pose proof (proj1 (live_row _ _ _ (ok_pk _ Hok)) El) as [Hrow _].
  pose proof (ok_valid _ Hok t (proj1 (tenant_row_Some _ _ _ Hrow))) as Hv.
  unfold overage_reconciled, over_cap, seats_taken in HQ. simpl.
  destruct (_ <? _), (t_OverageSince t) as [since|]; simpl in *.
  - apply wp_ret. by destruct w.
  - apply wp_bind, wp_time_Now. rewrite Hc. apply wp_bind, (wp_SetOverageSince _ t now); [done..|].
    eapply (wp_publish Hcodec); [done|by apply overage_started_valid|]. by rewrite set_w_db_twice.
  - apply wp_bind, wp_time_Now. rewrite Hc. apply wp_bind, (wp_SetOverageSince _ t now); [done..|].
    eapply (wp_publish Hcodec); [done..|]. by rewrite set_w_db_twice.
  - apply wp_ret. by destruct w.
Qed.

Lemma set_w_db_id w : set_w_db (w_db w) w = w.
Proof. by destruct w. Qed.

Lemma run_reconcileOneTenant w :
  codec_schemas → alone w → tenants_ok (w_db w) →
  reconcileOneTenant tid w =
  match live_tenant tid (w_db w) with
  | Some t => (Ok tt, set_w_db (overage_reconciled (w_clock w) (w_db w) t) w)
  | None => (Err ENoRows, w)
  end.
Proof.
  intros Hcodec Ha Hok. destruct (reconcileOneTenant tid w) as [r w'] eqn:E.
  revert r w' E. apply wp_intro. apply wp_RunInTx_alone; [done|].
  apply (wp_overage_tx (w_clock w)); [done..|]. simpl.
  destruct (live_tenant tid (w_db w)) as [t|].
  - f_equal. destruct Ha as [_ Ht]. destruct w. simpl in *. by rewrite Ht.
  - split; [done|]. by rewrite started_stop_db.
Qed.

End overage.

(** *** The sweep as a whole *)

Section sweep.
  Context `{Env} (now : time).

(** The event a live tenant gives rise to, and what becomes of its row. *)
Definition overage_event (d : DB) (t : Tenant) : option DomainEvent :=
  match over_cap (t_ID t) now d t, t_OverageSince t with
  | true, None => Some (overage_started (t_ID t) (seat_occupancy (t_ID t) now d t) now)
  | false, Some _ => Some (overage_resolved (t_ID t) now)
  | _, _ => None
  end.

Definition overage_row (d : DB) (t : Tenant) : Tenant :=
  match over_cap (t_ID t) now d t, t_OverageSince t with
  | true, None => touched now (set_t_OverageSince (Some now)) t
  | false, Some _ => touched now (set_t_OverageSince None) t
  | _, _ => t
  end.

(** The database after the tenants [ids] were visited. *)
Definition swept (ids : list uuid) (d : DB) : DB :=
  enqueued (emitted (omap (λ id, live_tenant id d ≫= overage_event d) ids))
    (set_tenants (update_where (λ t, contains (t_ID t) ids) (overage_row d) (tenants d)) d).

Lemma overage_row_columns d t :
  t_ID (overage_row d t) = t_ID t ∧ t_live (overage_row d t) = t_live t ∧
  t_LicensedSeats (overage_row d t) = t_LicensedSeats t ∧
  notNull (t_OverageSince (overage_row d t)) = over_cap (t_ID t) now d t.
Proof.
  unfold overage_row. destruct (over_cap _ _ _ _), (t_OverageSince t) eqn:Es; rewrite ?Es;
    try (by split_and!); (split_and!; [|by apply touched_live| |]);
    by rewrite ?(touched_column t_ID), ?(touched_column t_LicensedSeats), ?(touched_column t_OverageSince).
Qed.

Lemma contains_one id t : contains (t_ID t) [id] = t_is id t.
Proof. apply eq_bool_prop_intro. rewrite !Is_true_true, contains_true, list_elem_of_singleton. symmetry. apply Z.eqb_eq. Qed.

(** One visit. *)
Lemma overage_reconciled_swept d t :
  pk_tenants d → live_tenant (t_ID t) d = Some t → overage_reconciled (t_ID t) now d t = swept [t_ID t] d.
Proof.
  intros Hpk El. pose proof (proj1 (live_row _ _ _ Hpk) El) as [Hrow _].
  pose proof (tenant_row_Some _ _ _ Hrow) as [Hin _].
  assert (∀ f, f t = overage_row d t →
    update_where (t_is (t_ID t)) f (tenants d) = update_where (λ u, contains (t_ID u) [t_ID t]) (overage_row d) (tenants d))
    as Hrows.
  { intros f Hf. apply update_where_ext. intros u Hu. rewrite contains_one. split; [done|].
    intros E%Z.eqb_eq. by rewrite (pk_tenants_eq d u t). }
  unfold swept. simpl. rewrite El. simpl. unfold overage_reconciled, overage_set, update_tenant, overage_event.
  assert (∀ f, f t = overage_row d t → f = (λ u, u) → d = enqueued (emitted []) (set_tenants
    (update_where (λ u, contains (t_ID u) [t_ID t]) (overage_row d) (tenants d)) d)) as Hsame.
  { intros f Hf ->. rewrite emitted_nil, enqueued_nil, <- (Hrows (λ u, u)), update_where_id by done. by destruct d. }
  unfold overage_row at 1 in Hsame. unfold overage_row at 1 in Hrows.
  destruct (over_cap (t_ID t) now d t), (t_OverageSince t); [by apply (Hsame (λ u, u))| | |by apply (Hsame (λ u, u))].
  - by rewrite (Hrows (touched now (set_t_OverageSince (Some now)))).
  - by rewrite (Hrows (touched now (set_t_OverageSince None))).
Qed.

(** The seats do not move, so the visits compose. *)
Lemma live_update_other id p f l :
  (∀ t : Tenant, p t = true → t_ID t ≠ id ∧ t_ID (f t) = t_ID t) →
  select_first (t_is_live id) (update_where p f l) = select_first (t_is_live id) l.
Proof.
  intros Hp. induction l as [|t l IH]; [done|]. simpl. destruct (p t) eqn:Ep; [|by rewrite IH].
  destruct (Hp t Ep) as [Hne Hid]. unfold t_is_live. rewrite Hid, (proj2 (Z.eqb_neq _ _) Hne). exact IH.
Qed.

Lemma swept_live_other id ids d : id ∉ ids → live_tenant id (swept ids d) = live_tenant id d.
Proof.
  intros Hn. apply live_update_other. intros t Hc%contains_true.
  split; [congruence|apply overage_row_columns].
Qed.

Lemma omap_ext_in {A B} (f g : A → option B) (l : list A) : (∀ x, x ∈ l → f x = g x) → omap f l = omap g l.
Proof.
  induction l as [|x l IH]; [done|]. intros Hfg. csimpl. rewrite (Hfg x) by (by left).
  rewrite IH by (intros y Hy; apply Hfg; by right). done.
Qed.

Lemma omap_none {A B} (l : list A) : omap (λ _, @None B) l = [].
Proof. by induction l. Qed.

Lemma swept_cons id ids d : id ∉ ids → swept ids (swept [id] d) = swept (id :: ids) d.
Proof.
  intros Hn. unfold swept at 1.
  replace (omap (λ i, live_tenant i (swept [id] d) ≫= overage_event (swept [id] d)) ids)
    with (omap (λ i, live_tenant i d ≫= overage_event d) ids); cycle 1.
  { apply omap_ext_in. intros i Hi. rewrite swept_live_other by (intros ->%list_elem_of_singleton; done). done. }
  assert (∀ l, update_where (λ t, contains (t_ID t) ids) (overage_row (swept [id] d))
                 (update_where (λ t, contains (t_ID t) [id]) (overage_row d) l)
               = update_where (λ t, contains (t_ID t) (id :: ids)) (overage_row d) l) as Hl.
  { induction l as [|t l IH]; [done|]. simpl. rewrite IH. f_equal. rewrite contains_one, contains_cons.
    unfold t_is. replace (t_ID t ==? id)%stdpp with (t_ID t =? id)
      by (apply eq_bool_prop_intro; by rewrite !Is_true_true, Z.eqb_eq, bool_eq_true).
    destruct (t_ID t =? id) eqn:E; simpl; [|done]. apply Z.eqb_eq in E.
    destruct (overage_row_columns d t) as (-> & _). rewrite E. by apply contains_false in Hn as ->. }
  unfold swept in *. rewrite (omap_app _ [id] ids), emitted_app.
  set (e1 := emitted (omap _ [id])) in *. set (e2 := emitted (omap _ ids)) in *.
  unfold enqueued in *. simpl. rewrite Hl. by rewrite app_assoc.
Qed.

Lemma swept_ok id t d : tenants_ok d → live_tenant id d = Some t → tenants_ok (swept [id] d).
Proof.
  intros Hok El. pose proof (proj1 (live_row _ _ _ (ok_pk _ Hok)) El) as [Hrow _].
  pose proof (tenant_row_Some _ _ _ Hrow) as [Hin Hid]. subst id.
  rewrite <- overage_reconciled_swept by (done || apply Hok).
  assert (∀ since evs, tenants_ok (enqueued evs (overage_set (t_ID t) now since d))) as Hset.
  { intros since evs. apply (tenants_ok_same (overage_set (t_ID t) now since d)); [done|].
    apply (setting_ok _ _ _ _ t); [done..|]. by destruct (ok_valid _ Hok t Hin). }
  unfold overage_reconciled. destruct (over_cap _ _ _ _), (t_OverageSince t); auto.
Qed.
End sweep.

Lemma swept_nil `{Env} now d : swept now [] d = d.
Proof.
  unfold swept. simpl. rewrite emitted_nil, enqueued_nil, update_where_none; [by destruct d|].
  intros t _. apply contains_false. apply not_elem_of_nil.
Qed.

Section job.
  Context `{Env} (Hcodec : codec_schemas).

Lemma run_overage_sweep ids w res :
  alone w → tenants_ok (w_db w) → NoDup ids → (∀ id, id ∈ ids → is_Some (live_tenant id (w_db w))) →
  for_fold ids res (λ res t,
    let! r := tryM (reconcileOneTenant t) in
    retM (match r with Ok _ => count_ok res | Err _ => count_failed res end)) w =
  (Ok (count_rows (Z.of_nat (length ids)) res), set_w_db (swept (w_clock w) ids (w_db w)) w).
Proof.
  revert w res. induction ids as [|id ids IH]; intros w res Ha Hok Hnd Hlive.
  - simpl. rewrite swept_nil, set_w_db_id. unfold count_rows. rewrite !Z.add_0_r. by destruct res.
  - apply NoDup_cons in Hnd as [Hn Hnd]. destruct (Hlive id) as [t El]; [by left|].
    pose proof (proj1 (live_row _ _ _ (ok_pk _ Hok)) El) as [Hrow _].
    pose proof (tenant_row_Some _ _ _ Hrow) as [_ Hid]. subst id.
    cbn [for_fold]. unfold bindM at 1 2, tryM at 1. rewrite (run_reconcileOneTenant _ w Hcodec Ha Hok), El.
    unfold retM at 1. rewrite overage_reconciled_swept by (done || apply Hok).
    rewrite IH; [|by destruct Ha|by apply (swept_ok _ _ t)|done|].
    + simpl. rewrite set_w_db_twice, swept_cons by done. unfold count_rows, count_ok. simpl.
      do 3 f_equal; lia.
    + intros i Hi. simpl. rewrite swept_live_other; [by apply Hlive; right|].
      intros ->%list_elem_of_singleton. done.
Qed.

Lemma wp_ListSeatOverageCandidates limit w (Q : result error (list uuid) → World → Prop) :
  alone w → Q (Ok (take limit (List.map t_ID (select t_live (tenants (w_db w)))))) w →
  wp (ListSeatOverageCandidates limit) Q w.
Proof.
  intros Ha HQ. unfold ListSeatOverageCandidates. apply wp_alone; [done|]. apply wp_query. simpl.
  by rewrite started_stop.
Qed.

(** The tenants a run visits. *)
Definition visited (limit : nat) (d : DB) : list uuid := take limit (List.map t_ID (select t_live (tenants d))).

Lemma visited_live limit d : pk_tenants d → NoDup (visited limit d) ∧ ∀ id, id ∈ visited limit d → is_Some (live_tenant id d).
Proof.
  intros Hpk. split.
  - apply (sublist_NoDup _ (List.map t_ID (select t_live (tenants d)))); [|apply sublist_take].
    by apply (NoDup_select_fmap t_ID).
  - intros id Hin. assert (id ∈ t_ID <$> select t_live (tenants d)) as H1.
    { eapply elem_of_take in Hin as (i & Hi & _). by eapply list_elem_of_lookup_2. }
    apply list_elem_of_fmap in H1 as (t & -> & [Ht Hl]%elem_of_select).
    exists t. apply live_row; [done|]. split; [by apply tenant_row_in|done].
Qed.

Lemma run_SeatOverageReconcile jctx w :
  alone w → tenants_ok (w_db w) →
  SeatOverageReconcile jctx w =
  (Ok (count_rows (Z.of_nat (length (visited (jc_BatchLimit jctx) (w_db w)))) no_result),
   set_w_db (swept (w_clock w) (visited (jc_BatchLimit jctx) (w_db w)) (w_db w)) w).
Proof.
  intros Ha Hok. destruct (SeatOverageReconcile jctx w) as [r w'] eqn:E. revert r w' E. apply wp_intro.
  unfold SeatOverageReconcile. apply wp_bind, wp_ListSeatOverageCandidates; [done|].
  destruct (visited_live (jc_BatchLimit jctx) (w_db w) (ok_pk _ Hok)) as [Hnd Hl].
  unfold wp, sweep. by rewrite (run_overage_sweep (visited (jc_BatchLimit jctx) (w_db w))).
Qed.

Lemma swept_rows now ids d t' :
  t' ∈ tenants (swept now ids d) ↔
  ∃ t, t ∈ tenants d ∧ t' = (if contains (t_ID t) ids then overage_row now d t else t).
Proof. apply elem_of_update_where. Qed.

(** A marker that is right stays as it is. *)
Lemma swept_marked now ids d t :
  t ∈ tenants (swept now ids d) → t_ID t ∈ ids →
  notNull (t_OverageSince t) = over_cap (t_ID t) now (swept now ids d) t.
Proof.
  intros (u & _ & ->)%swept_rows. destruct (overage_row_columns now d u) as (E1 & _ & E3 & E4).
  destruct (contains (t_ID u) ids) eqn:Ec; [|by apply contains_false in Ec].
  intros _. rewrite E4, E1. unfold over_cap. by rewrite E3.
Qed.

Lemma marked_settled now d t :
  notNull (t_OverageSince t) = over_cap (t_ID t) now d t → overage_row now d t = t ∧ overage_event now d t = None.
Proof. unfold overage_row, overage_event. intros <-. by destruct (t_OverageSince t). Qed.

Lemma swept_twice now ids d :
  pk_tenants d → swept now ids (swept now ids d) = swept now ids d.
Proof.
  intros Hpk. set (d' := swept now ids d).
  assert (∀ t, t ∈ tenants d' → t_ID t ∈ ids → overage_row now d' t = t ∧ overage_event now d' t = None) as Hs.
  { intros t Ht Hi. apply marked_settled. by apply swept_marked. }
  unfold swept at 1. rewrite (update_where_ext _ (λ t, contains (t_ID t) ids) _ (λ t, t)), update_where_id; cycle 1.
  { intros t Ht. split; [done|]. intros Hc%contains_true. by apply Hs. }
  assert (omap (λ id, live_tenant id d' ≫= overage_event now d') ids = []) as ->.
  { rewrite (omap_ext_in _ (λ _, None)), omap_none; [done|]. intros id Hid. unfold live_tenant.
    destruct (select_first _ _) as [t|] eqn:El; [|done].
    apply select_first_Some in El as [Ht [Hi _]%andb_true_iff]. apply Z.eqb_eq in Hi. subst. by apply Hs. }
  rewrite emitted_nil, enqueued_nil. by destruct d'.
Qed.

Lemma swept_visited now ids limit d : visited limit (swept now ids d) = visited limit d.
Proof.
  unfold visited. f_equal. unfold swept. simpl. generalize (overage_row_columns now d).
  generalize (overage_row now d). intros f Hf.
  induction (tenants d) as [|t l IH]; [done|]. simpl. destruct (Hf t) as (E1 & E2 & _).
  destruct (contains (t_ID t) ids); rewrite ?E2; destruct (t_live t); simpl; rewrite ?E1, IH; done.
Qed.

Lemma swept_all_ok now ids d :
  tenants_ok d → NoDup ids → (∀ id, id ∈ ids → is_Some (live_tenant id d)) → tenants_ok (swept now ids d).
Proof.
  revert d. induction ids as [|id ids IH]; intros d Hok Hnd Hl; [by rewrite swept_nil|].
  apply NoDup_cons in Hnd as [Hn Hnd]. destruct (Hl id) as [t El]; [by left|].
  rewrite <- swept_cons by done. apply IH; [by apply (swept_ok _ _ t)|done|].
  intros i Hi. rewrite swept_live_other; [by apply Hl; right|]. by intros ->%list_elem_of_singleton.
Qed.

(** C36: the seat-overage sweep.  With nothing else running, one run visits
    the first [BatchLimit] live tenants of the table, each successfully.  For a
    tenant it visits, the overage marker afterwards says exactly whether active
    members and unexpired pending invitations exceed the licensed seats, and one
    event goes out when, and only when, the marker was set or cleared
    (TenantSeatOverageStarted, TenantSeatOverageResolved); every other row stays
    as it is.  A second run visits the same tenants, changes nothing and
    announces nothing; so a tenant beyond the limit is never reconciled while
    the table keeps its order. *)
Theorem SeatOverageReconcile_spec jctx w r w' :
  alone w → tenants_ok (w_db w) → SeatOverageReconcile jctx w = (r, w') →
  let ids := visited (jc_BatchLimit jctx) (w_db w) in
  r = Ok (count_rows (Z.of_nat (length ids)) no_result) ∧
  w_db w' = enqueued (emitted (omap (λ id, live_tenant id (w_db w) ≫= overage_event (w_clock w) (w_db w)) ids))
              (set_tenants (update_where (λ t, contains (t_ID t) ids) (overage_row (w_clock w) (w_db w))
                 (tenants (w_db w))) (w_db w)) ∧
  (∀ t, t ∈ tenants (w_db w') → t_ID t ∈ ids →
     notNull (t_OverageSince t) = over_cap (t_ID t) (w_clock w) (w_db w') t) ∧
  SeatOverageReconcile jctx w' = (r, w').
Proof.
  intros Ha Hok. rewrite run_SeatOverageReconcile by done. intros [= <- <-] ids.
  destruct (visited_live (jc_BatchLimit jctx) (w_db w) (ok_pk _ Hok)) as [Hnd Hl].
  split_and!; [done..|intros t; apply swept_marked|].
  rewrite run_SeatOverageReconcile; [|by destruct Ha|by apply swept_all_ok].
  simpl. rewrite swept_visited, swept_twice by apply Hok. by rewrite set_w_db_twice.
Qed.
End job.

(** ** The trial ledger *)

Section prune.
  Context (cutoff : time) (limit : nat) (Hlimit : (0 < limit)%nat).

Definition expired (r : LedgerRow) : bool := tsl_created_at r <? cutoff.

(** One batch: the oldest expired entries. *)
Definition batch (l : list LedgerRow) : list LedgerRow :=
  take limit (sort_by tsl_created_at (select expired l)).
Definition is_victim (l : list LedgerRow) (r : LedgerRow) : bool :=
  contains (tsl_email_hash r) (List.map tsl_email_hash (batch l)).

(** uq_trial_signup_ledger: one entry per e-mail hash. *)
Definition pk_ledger (l : list LedgerRow) : Prop := NoDup (tsl_email_hash <$> l).

Lemma elem_of_batch l r : r ∈ batch l → r ∈ l ∧ expired r = true.
Proof.
  intros (i & Hi & _)%elem_of_take. apply list_elem_of_lookup_2 in Hi. unfold sort_by in Hi.
  rewrite elem_of_isort in Hi. by apply elem_of_select.
Qed.

Lemma key_unique {A K} (key : A → K) l x y :
  NoDup (key <$> l) → x ∈ l → y ∈ l → key x = key y → x = y.
Proof.
  intros Hnd Hx Hy E. apply list_elem_of_lookup in Hx as [i Hi]. apply list_elem_of_lookup in Hy as [j Hj].
  assert (i = j) as ->; [|congruence]. eapply NoDup_lookup; [exact Hnd|..]; rewrite list_lookup_fmap.
  - by rewrite Hi.
  - rewrite Hj. simpl. by rewrite E.
Qed.

Lemma victim_batch l r : pk_ledger l → r ∈ l → is_victim l r = true ↔ r ∈ batch l.
Proof.
  intros Hpk Hr. unfold is_victim. rewrite contains_true. change (List.map ?f ?x) with (f <$> x).
  rewrite list_elem_of_fmap. split.
  - intros (v & Hv & Hb). destruct (elem_of_batch l v Hb) as [Hl _].
    by rewrite (key_unique tsl_email_hash l r v).
  - intros Hb. by exists r.
Qed.

Lemma victims_perm l : pk_ledger l → select (is_victim l) l ≡ₚ batch l.
Proof.
  intros Hpk. assert (NoDup l) as Hl by (by eapply NoDup_fmap_1).
  apply NoDup_Permutation.
  - unfold select. by apply NoDup_ListNoDup, List.NoDup_filter, NoDup_ListNoDup.
  - apply (sublist_NoDup _ (sort_by tsl_created_at (select expired l))); [|apply sublist_take].
    unfold sort_by. rewrite isort_perm. unfold select.
    by apply NoDup_ListNoDup, List.NoDup_filter, NoDup_ListNoDup.
  - intros r. rewrite elem_of_select. split.
    + intros [Hr Hv]. by apply victim_batch in Hv.
    + intros Hb. destruct (elem_of_batch l r Hb) as [Hr _]. split; [done|]. by apply victim_batch.
Qed.

Lemma batch_length l : length (batch l) = Nat.min limit (length (select expired l)).
Proof. unfold batch, sort_by. by rewrite length_take, isort_perm. Qed.

(** The table after a batch. *)
Definition pruned (l : list LedgerRow) : list LedgerRow := delete_where (is_victim l) l.
Definition kept (l : list LedgerRow) : list LedgerRow := delete_where expired l.

Lemma victim_expired l r : pk_ledger l → r ∈ l → is_victim l r = true → expired r = true.
Proof. intros Hpk Hr Hv%victim_batch; [|done..]. by apply elem_of_batch in Hv as [_ ?]. Qed.

Lemma count_victims l : pk_ledger l → count (is_victim l) l = Z.of_nat (length (batch l)).
Proof. intros Hpk. by rewrite count_select, victims_perm. Qed.

Lemma pk_pruned l : pk_ledger l → pk_ledger (pruned l).
Proof. apply NoDup_select_fmap. Qed.

Lemma kept_pruned l : pk_ledger l → kept (pruned l) = kept l.
Proof.
  intros Hpk. unfold kept, pruned, delete_where.
  assert (∀ k, (∀ r, r ∈ k → is_victim l r = true → expired r = true) →
    List.filter (λ r, negb (expired r)) (List.filter (λ r, negb (is_victim l r)) k)
    = List.filter (λ r, negb (expired r)) k) as Hk.
  { induction k as [|r k IH]; [done|]. intros Hr. simpl. destruct (is_victim l r) eqn:Ev; simpl.
    - rewrite (Hr r) by (done || by left). apply IH. intros x Hx. apply Hr. by right.
    - destruct (expired r); simpl; rewrite IH by (intros x Hx; apply Hr; by right); done. }
  apply Hk. intros r. by apply victim_expired.
Qed.

Lemma count_pruned l : pk_ledger l → count expired l = Z.of_nat (length (batch l)) + count expired (pruned l).
Proof.
  intros Hpk. rewrite (count_split expired (is_victim l)), <- count_victims by done. f_equal.
  - apply count_ext. intros r Hr. destruct (is_victim l r) eqn:Ev; [|by rewrite andb_false_r].
    by rewrite (victim_expired l r).
  - unfold pruned. generalize (is_victim l). intros q. clear Hpk.
    induction l as [|r l IH]; [done|]. rewrite count_cons. simpl. destruct (q r); simpl.
    + by rewrite andb_false_r, IH.
    + rewrite count_cons, andb_true_r, IH. done.
Qed.

(** A short batch took every expired entry. *)
Lemma short_batch l : pk_ledger l → (length (batch l) < limit)%nat → pruned l = kept l.
Proof.
  intros Hpk Hs. rewrite batch_length in Hs. unfold pruned, kept, delete_where. apply List.filter_ext_in.
  intros r Hr%list_elem_of_In. f_equal. apply eq_bool_prop_intro. rewrite !Is_true_true, victim_batch by done.
  split; [by intros [_ ?]%elem_of_batch|]. intros He. unfold batch, sort_by.
  rewrite take_ge by (rewrite isort_perm; lia). rewrite elem_of_isort. by apply elem_of_select.
Qed.

Lemma run_PruneCreatedBefore w :
  alone w → pk_ledger (trial_signup_ledger (w_db w)) →
  PruneCreatedBefore cutoff limit w =
  (Ok (Z.of_nat (length (batch (trial_signup_ledger (w_db w))))),
   set_w_db (set_trial_signup_ledger (pruned (trial_signup_ledger (w_db w))) (w_db w)) w).
Proof.
  intros Ha Hpk. rewrite <- count_victims by done.
  unfold PruneCreatedBefore. erewrite withPool_alone_ok; [|done|reflexivity].
  destruct Ha as [_ Ht]. destruct w. simpl in *. by rewrite Ht.
Qed.

Lemma run_prune_until fuel w res :
  alone w → pk_ledger (trial_signup_ledger (w_db w)) →
  (length (select expired (trial_signup_ledger (w_db w))) < fuel)%nat →
  prune_until fuel (PruneCreatedBefore cutoff limit) limit (retM None) res w =
  (Ok (Some (count_rows (count expired (trial_signup_ledger (w_db w))) res)),
   set_w_db (set_trial_signup_ledger (kept (trial_signup_ledger (w_db w))) (w_db w)) w).
Proof.
  revert w res. induction fuel as [|fuel IH]; intros w res Ha Hpk Hf; [lia|]. simpl.
  unfold bindM at 1. rewrite run_PruneCreatedBefore by done.
  set (l := trial_signup_ledger (w_db w)) in *. pose proof (count_pruned l Hpk) as Hc. pose proof (batch_length l) as Hb.
  rewrite !count_select in *. destruct (_ <? _) eqn:E.
  - rewrite short_batch in * by (done || lia). assert (select expired (kept l) = []) as E0 by apply select_delete_where.
    rewrite E0 in Hc. simpl in Hc. rewrite Hc, Z.add_0_r. done.
  - unfold bindM at 1, retM at 1. rewrite IH; simpl; [|by destruct Ha|by apply pk_pruned|lia].
    rewrite kept_pruned, set_w_db_twice, count_select by done. rewrite Hc. unfold count_rows. simpl.
    by rewrite !Z.add_assoc.
Qed.
End prune.

(** C35: pruning the trial ledger ends and drains it.  With nothing else
    running and more fuel than there are expired entries (one batch removes at
    least one until a short batch ends the loop), [TrialLedgerPrune] returns a
    result: every entry older than the retention is gone, every other entry is
    kept in its place, nothing else of the database changes, and the counters
    equal the number of entries removed.  A batch limit of zero and a retention
    of zero or less stand for their defaults. *)
Theorem TrialLedgerPrune_drains `{Env} jctx fuel w :
  let l := trial_signup_ledger (w_db w) in
  let days := if jc_TrialLedgerRetentionDays jctx <=? 0 then 730 else jc_TrialLedgerRetentionDays jctx in
  let cutoff := w_clock w - days * day in
  alone w → pk_ledger l → jc_TrialLedger jctx = true → (length (select (expired cutoff) l) < fuel)%nat →
  TrialLedgerPrune jctx fuel w =
  (Ok (Some (mkResult (count (expired cutoff) l) (count (expired cutoff) l) 0 0)),
   set_w_db (set_trial_signup_ledger (delete_where (λ r, tsl_created_at r <? cutoff) l) (w_db w)) w).
Proof.
  intros l days cutoff Ha Hpk Hl Hf. unfold TrialLedgerPrune. rewrite Hl. unfold bindM, time_Now. simpl.
  fold defaultTrialLedgerRetentionDays. apply (run_prune_until cutoff (prune_limit jctx)); [|done..].
  unfold prune_limit, defaultPruneBatchLimit. destruct (jc_BatchLimit jctx); lia.
Qed.
