(* ===== verification/GroupsSpec.v ===== *)
(** * GroupsSpec: assignment from group claims

    What [AssignFromGroups] of [GroupMappingService.v] (I-10) leaves: tenant
    roles are only added (GTRM-4), and the levels in the departments the
    mappings name become the ones they give. *)

From S2P Require Import Prelude Domain Schema Tx Wp MembershipRepo RoleRepo DeptMembershipRepo CacheKeys GroupMappingService.
From S2P Require Import LifecycleSpec MembershipSpec DeptSpec.

(** ** Vocabulary *)

Definition granted (tid uid : uuid) (c : TenantRoleCode) (d : DB) : Prop :=
  exists_row (tr_grant tid uid c) (tenant_roles d) = true.

(** The level a list of pairs gives for a department: the last one listed. *)
Fixpoint implied_level (l : list (uuid * DeptRole)) (did : uuid) : option DeptRole :=
  match l with
  | [] => None
  | dr :: l => match implied_level l did with
               | Some lv => Some lv
               | None => if dr.1 =? did then Some dr.2 else None
               end
  end.

(** No live grant of anyone is taken away, and every live department membership
    stays at its level, except that the user's own in a listed department may
    take a level listed for it. *)
Definition adds_to (tid uid : uuid) (l : list (uuid * DeptRole)) (d d' : DB) : Prop :=
  dept_wf d → dept_wf d' ∧ (∀ t u c, granted t u c d → granted t u c d') ∧
  (∀ t u x lv, level_in t u x d = Some lv →
     level_in t u x d' = Some lv ∨
     (t, u) = (tid, uid) ∧ ∃ lv', (x, lv') ∈ l ∧ level_in t u x d' = Some lv').

#[export] Instance adds_to_preorder tid uid l : PreOrder (adds_to tid uid l).
Proof.
  split; [intros d Hd; split; [done|]; split; [done|by left]|].
  intros x y z H1 H2 Hx. destruct (H1 Hx) as (Hy & A1 & B1). destruct (H2 Hy) as (Hz & A2 & B2).
  split; [done|]. split; [by eauto|]. intros t u i lv E. destruct (B1 t u i lv E) as [E1|(Htu & lv1 & Hin & E1)].
  - by apply B2.
  - destruct (B2 t u i lv1 E1) as [E2|?]; [right|by right]. by eauto.
Qed.

Lemma dept_wf_same d d' : dept_memberships d' = dept_memberships d → dept_wf d → dept_wf d'.
Proof. intros E. unfold dept_wf. by rewrite E. Qed.

Lemma adds_to_same tid uid l d d' :
  tenant_roles d' = tenant_roles d → dept_memberships d' = dept_memberships d → adds_to tid uid l d d'.
Proof.
  intros E1 E2 Hd. split; [by eapply dept_wf_same|]. unfold granted, level_in, dept_row. rewrite E1, E2.
  split; [done|by left].
Qed.

#[export] Hint Extern 1 (adds_to _ _ _ _ _) => apply adds_to_same; reflexivity : keeps.

(** ** Department levels *)

(** The levels of the user in the listed departments are the listed ones; every
    other level, and every role, is as it was. *)
Definition leveled (tid uid : uuid) (l : list (uuid * DeptRole)) (d d' : DB) : Prop :=
  dept_wf d → dept_wf d' ∧ tenant_roles d' = tenant_roles d ∧
  ∀ t u x, level_in t u x d' =
    match (if decide ((t, u) = (tid, uid)) then implied_level l x else None) with
    | Some lv => Some lv
    | None => level_in t u x d
    end.

Lemma leveled_nil tid uid d d' :
  tenant_roles d' = tenant_roles d → dept_memberships d' = dept_memberships d → leveled tid uid [] d d'.
Proof.
  intros E1 E2 Hd. split; [by eapply dept_wf_same|]. split; [done|]. intros t u x. unfold level_in, dept_row.
  rewrite E2. by destruct (decide _).
Qed.

Lemma leveled_cons tid uid dr l d d1 d2 :
  leveled tid uid [dr] d d1 → leveled tid uid l d1 d2 → leveled tid uid (dr :: l) d d2.
Proof.
  intros H1 H2 Hd. destruct (H1 Hd) as (W1 & R1 & L1). destruct (H2 W1) as (W2 & R2 & L2).
  split; [done|]. split; [congruence|]. intros t u x. rewrite L2, L1. simpl.
  destruct (decide _); [|done]. by destruct (implied_level l x).
Qed.

Lemma implied_level_listed l x lv : implied_level l x = Some lv → (x, lv) ∈ l.
Proof.
  induction l as [|[x' lv'] l IH]; [done|]. simpl. destruct (implied_level l x).
  - intros [= ->]. right. by apply IH.
  - destruct (x' =? x) eqn:E; [|done]. apply Z.eqb_eq in E as ->. intros [= ->]. by left.
Qed.

Lemma leveled_adds tid uid l d d' : leveled tid uid l d d' → adds_to tid uid l d d'.
Proof.
  intros Hl Hd. destruct (Hl Hd) as (Hw & Hr & Hlv). split; [done|].
  split; [by intros t u c; unfold granted; rewrite Hr|].
  intros t u x lv E. rewrite Hlv, E. destruct (decide ((t, u) = (tid, uid))) as [Htu|]; [|by left].
  destruct (implied_level l x) as [lv'|] eqn:Ei; [right|by left]. split; [done|]. exists lv'. split; [|done].
  by apply implied_level_listed.
Qed.

(** A level is read off the live rows of its slot. *)
Lemma placed_leveled tid uid did lv row d d' : placed tid uid did lv row d d' → leveled tid uid [(did, lv)] d d'.
Proof.
  intros [[Hrow Hlv] Hwf Ho (l & -> & _)] _. split; [done|]. split; [done|]. intros t u x. simpl.
  assert ((t, u, x) ≠ (tid, uid, did) → level_in t u x (set_dept_memberships l d) = level_in t u x d) as Hsame.
  { intros Hne. unfold level_in, dept_row. by rewrite <- !select_head, Ho. }
  destruct (decide _) as [[= -> ->]|Hne]; [|apply Hsame; congruence].
  destruct (did =? x) eqn:E; [|by apply Hsame; intros [= ->]; rewrite Z.eqb_refl in E].
  apply Z.eqb_eq in E as <-. unfold level_in. by rewrite Hrow, <- Hlv.
Qed.

Section assigning.
  Context `{Env} (t u m by_ : uuid).

(** Inserting at a free slot, when it succeeds. *)
Lemma wp_insert_level_ok x lv now w (Q : result error DeptMembership → World → Prop) :
  w_txnow w = Some now → exists_row (dm_at t u x) (dept_memberships (w_db w)) = false →
  (∀ e w', Q (Err e) w') →
  (∀ id w', dept_role_known lv = true → (∀ y, y ∈ dept_memberships (w_db w) → dm_ID y ≠ id) →
     w_db w' = set_dept_memberships (dept_memberships (w_db w) ++ [assigned_row t u x m by_ lv id now]) (w_db w) →
     Q (Ok (assigned_row t u x m by_ lv id now)) w') →
  wp (insert_level t u x m lv by_) Q w.
Proof.
  intros Ht Hfree Herr HQ. unfold insert_level. apply wp_bind, wp_new_uuid, wp_bind, wp_sql.
  unfold now_in, insert_dept_membership. simpl. rewrite Ht, Hfree. destruct (dept_role_known lv) eqn:El; [|apply Herr]. simpl.
  destruct (exists_row (λ r, dm_ID r =? _) _) eqn:Ei; [apply Herr|]. destruct (first_error _); [apply Herr|].
  apply wp_ret, HQ; [done| |done]. intros y Hy E. rewrite exists_row_false in Ei. specialize (Ei y Hy). simpl in Ei.
  by rewrite E, Z.eqb_refl in Ei.
Qed.

(** Assigning a department, when it succeeds, places the user there. *)
Lemma Assign_placed x lv w now :
  w_txnow w = Some now → dept_wf (w_db w) →
  wp (Assign t u x m lv by_)
     (λ r w', match r with Ok (row, _) => placed t u x lv row (w_db w) (w_db w') | Err _ => True end) w.
Proof.
  intros Ht Hwf. unfold Assign. eapply (wp_in_tx now); [done|]. apply wp_bind, wp_query.
  fold (dept_row t u x (w_db w)). destruct (dept_row t u x (w_db w)) as [e|] eqn:Ee.
  - destruct (dm_RoleLevel e ==? lv)%stdpp eqn:El.
    + apply wp_ret. rewrite bool_eq_true in El. split; [done|done|done|].
      exists (dept_memberships (w_db w)). split; [by destruct (w_db w)|]. intros y Hy. right. by apply list_elem_of_fmap_2.
    + apply wp_bind, wp_sql. simpl. unfold now_in. rewrite Ht. fold (dept_deleted now).
      fold (drop_row now e (dept_memberships (w_db w))).
      pose proof (drop_row_slot t u x now e (w_db w) Hwf Ee) as H0.
      apply wp_bind, (wp_insert_level_ok x lv now); [done| |done|].
      { apply negb_true_iff. rewrite <- count_eqb_0. by apply Z.eqb_eq. }
      intros id w' Hl Hid Hd'. apply wp_ret. simpl. rewrite Hd'.
      apply (append_placed t u x m by_ lv id now (drop_row now e (dept_memberships (w_db w))) (w_db w)); simpl in *.
      * apply drop_row_ids.
      * done.
      * done.
      * intros ? ? ?. by apply drop_row_others.
      * done.
      * apply drop_row_typed, Hwf.
      * done.
  - apply wp_bind, (wp_insert_level_ok x lv now); [done| |done|].
    { rewrite exists_row_first. unfold dept_row in Ee. by rewrite Ee. }
    intros id w' Hl Hid Hd'. apply wp_ret. simpl. rewrite Hd'. apply append_placed; try done; [|apply Hwf].
    apply Z.eqb_eq. rewrite count_eqb_0, exists_row_first. unfold dept_row in Ee. by rewrite Ee.
Qed.

Lemma keeps_tx_Assign_True x lv : keeps_tx (λ _ _, True) (Assign t u x m lv by_).
Proof. unfold Assign, insert_level. keeps_tx_auto; done. Qed.
End assigning.

(** A step that, when it succeeds in a transaction, relates the databases by
    [R] and establishes [P]. *)
Definition does {A} (R : DB → DB → Prop) (P : A → DB → Prop) (m : M A) : Prop :=
  ∀ w now, w_txnow w = Some now →
    wp m (λ r w', w_txnow w' = Some now ∧
                  match r with Ok a => R (w_db w) (w_db w') ∧ P a (w_db w') | Err _ => True end) w.

Section departments.
  Context `{Env} (t u m : uuid).

Lemma does_jit_dept acc dr : does (leveled t u [dr]) (λ _ _, True) (jit_dept t u m acc dr).
Proof.
  intros w now Ht. unfold jit_dept. apply wp_bind, wp_elim. intros r w1 E.
  pose proof (wp_intro _ _ _ (keeps_tx_Assign_True _ _ _ _ _ _ w now Ht) _ _ E) as [_ Ht1].
  destruct r as [[row previous]|e]; [|done].
  assert (leveled t u [dr] (w_db w) (w_db w1)) as Hl.
  { intros Hwf. eapply placed_leveled; [|done]. destruct dr as [x lv].
    exact (wp_intro _ _ _ (Assign_placed _ _ _ _ _ _ w now Ht Hwf) _ _ E). }
  apply wp_bind. eapply (wp_mono _ (λ _ w', same_roles (w_db w1) (w_db w') ∧
    dept_memberships (w_db w') = dept_memberships (w_db w1) ∧ w_txnow w' = Some now)).
  { destruct (jit_dept_event _ _ _ _); [|by apply wp_ret].
    unfold wp, publish, Enqueue. destruct has_publisher; [|done]. destruct (negb _); [done|]. by rewrite Ht1. }
  intros [[]|e] w2 (E1 & E2 & Ht2); [|done]. apply wp_ret. split_and!; [done| |done].
  intros Hd. destruct (Hl Hd) as (W1 & R1 & L1). destruct (leveled_nil t u _ _ E1 E2 W1) as (W2 & R2 & L2).
  split; [done|]. split; [congruence|]. intros t' u' x'. rewrite L2, L1. by destruct (decide _).
Qed.

Lemma does_jit_depts l acc : does (leveled t u l) (λ _ _, True) (for_fold l acc (jit_dept t u m)).
Proof.
  revert acc. induction l as [|dr l IH]; intros acc w now Ht; simpl.
  { apply wp_ret. split_and!; [done|by apply leveled_nil|done]. }
  apply wp_bind. eapply wp_mono; [exact (does_jit_dept acc dr w now Ht)|]. intros [acc'|e] w1 [Ht1 H1]; [|done].
  eapply wp_mono; [exact (IH acc' w1 now Ht1)|]. intros [b|e] w2 [Ht2 H2]; [|done].
  split_and!; [done| |done]. eapply leveled_cons; [apply H1|apply H2].
Qed.
End departments.

(** ** Tenant roles *)

(** Grants are only added, departments are untouched. *)
Definition more_roles (d d' : DB) : Prop :=
  dept_memberships d' = dept_memberships d ∧ ∀ t u c, granted t u c d → granted t u c d'.

#[export] Instance more_roles_preorder : PreOrder more_roles.
Proof. split; [by intros d|]. intros x y z [E1 H1] [E2 H2]. split; [congruence|auto]. Qed.

Lemma insert_role_more id t u m c by_ now d x d' :
  insert_role id t u m c by_ now d = Ok (x, d') → more_roles d d' ∧ granted t u c d'.
Proof.
  unfold insert_role. destruct (negb _); [done|]. destruct (_ ==? _); [done|].
  destruct (exists_row (tr_grant t u c) _) eqn:Ex; [intros [= _ <-]; split; [reflexivity|done]|].
  destruct (exists_row (λ r, tr_ID r =? id) _); [done|]. destruct (first_error _); [done|]. intros [= _ <-].
  unfold more_roles, granted. simpl. split.
  - split; [done|]. intros t' u' c' Hg. by rewrite exists_row_app, Hg.
  - rewrite exists_row_app. apply orb_true_iff. right. unfold exists_row, tr_grant, tr_of. simpl.
    by rewrite !Z.eqb_refl, bool_eq_refl.
Qed.

(** What only depends on grants stays. *)
Definition lasting {A} (P : A → DB → Prop) : Prop := ∀ a d d', more_roles d d' → P a d → P a d'.

Abbreviation adds := (does more_roles).

Lemma lasting_True {A} : lasting (λ (_ : A) _, True).
Proof. done. Qed.

Lemma lasting_granted {A} t u c : lasting (λ (_ : A) d, granted t u c d).
Proof. intros a d d' [_ Hg]. auto. Qed.

Section roles.
  Context `{Env}.

Lemma adds_ret {A} (P : A → DB → Prop) a : (∀ d, P a d) → adds P (retM a).
Proof. intros HP w now Ht. apply wp_ret. split; [done|]. split; [reflexivity|auto]. Qed.

Lemma adds_bind {A B} (P : A → DB → Prop) (Q : B → DB → Prop) (m : M A) (k : A → M B) :
  lasting P → adds P m → (∀ a, adds (λ b d, P a d → Q b d) (k a)) → adds Q (bindM m k).
Proof.
  intros Hl Hm Hk w now Ht. apply wp_bind. eapply wp_mono; [exact (Hm w now Ht)|].
  intros [a|e] w1 [Ht1 H1]; [|done]. destruct H1 as [Ha HP]. eapply wp_mono; [exact (Hk a w1 now Ht1)|].
  intros [b|e] w2 [Ht2 H2]; [|done]. destruct H2 as [Hb HQ]. split; [done|]. split; [by transitivity (w_db w1)|].
  apply HQ. by apply (Hl a (w_db w1)).
Qed.

Lemma adds_keeps {A} (m : M A) : keeps_tx more_roles m → adds (λ _ _, True) m.
Proof.
  intros Hm w now Ht. eapply wp_mono; [exact (Hm w now Ht)|]. intros [a|e] w' [HR Ht']; auto.
Qed.

Lemma adds_weaken {A} (P Q : A → DB → Prop) (m : M A) : adds P m → (∀ a d, P a d → Q a d) → adds Q m.
Proof.
  intros Hm HPQ w now Ht. eapply wp_mono; [exact (Hm w now Ht)|]. intros [a|e] w' [Ht' H']; [|done].
  destruct H' as [Ha HP]. auto.
Qed.

(** A loop that establishes something for each element. *)
Lemma adds_for_fold {A B} (P : A → DB → Prop) (l : list A) (acc : B) body :
  lasting P → (∀ b x, adds (λ _ d, P x d) (body b x)) → adds (λ _ d, ∀ x, x ∈ l → P x d) (for_fold l acc body).
Proof.
  intros Hl Hb. revert acc. induction l as [|x l IH]; intros acc; [apply adds_ret; intros d x Hx; by apply elem_of_nil in Hx|].
  simpl. eapply (adds_bind (λ _ d, P x d)); [intros b d d'; apply Hl|apply Hb|]. intros b. simpl.
  eapply adds_weaken; [apply IH|]. simpl. intros b' d HP Hx y [->|Hy]%elem_of_cons; [done|by apply HP].
Qed.

Lemma keeps_tx_publish_more ev : keeps_tx more_roles (publish ev).
Proof. apply keeps_tx_publish; [apply _|]. intros d. by split. Qed.

Lemma adds_Grant id t u m c by_ : adds (λ _ d, granted t u c d) (Grant id t u m c by_).
Proof.
  unfold Grant. eapply (adds_bind (λ _ _, True)); [apply lasting_True|apply adds_keeps; keeps_tx_auto|]. intros i w now Ht.
  eapply (wp_in_tx now); [done|]. apply wp_bind, wp_sql.
  destruct (insert_role _ _ _ _ _ _ _ _) as [[o d']|e] eqn:E; [|done]. apply insert_role_more in E as [Ha Hg].
  destruct o; [by apply wp_ret|]. apply wp_query_row. simpl. by destruct (select_first _ _).
Qed.

Lemma adds_jit_role t u m held acc c :
  adds (λ _ d, contains c held = true ∨ granted t u c d) (jit_role t u m held acc c).
Proof.
  unfold jit_role. destruct (contains c held) eqn:Ec; [apply adds_ret; auto|].
  eapply (adds_bind (λ _ d, granted t u c d)); [apply lasting_granted|apply adds_Grant|].
  intros tr. eapply adds_weaken; [apply adds_keeps|by intros b d _ Hg; right].
  apply keeps_tx_bind; [apply _|apply keeps_tx_publish_more|intros []; apply keeps_tx_ret, _].
Qed.

(** What is listed is granted. *)
Lemma adds_ListByUser t u :
  adds (λ l d, ∀ c, contains c (List.map tr_RoleCode l) = true → granted t u c d) (RoleRepo.ListByUser t u).
Proof.
  intros w now Ht. apply (wp_ListByUser t u now); [done|]. split; [done|]. split; [reflexivity|].
  intros c Hc%contains_true. change (List.map ?f ?l) with (f <$> l) in Hc.
  apply list_elem_of_fmap in Hc as (r & -> & Hr). unfold roles_of, sort_by in Hr. rewrite elem_of_isort in Hr.
  apply elem_of_select in Hr as [Hr Hof]. apply exists_row_true. exists r. split; [done|].
  unfold tr_grant. by rewrite Hof, bool_eq_refl.
Qed.

Lemma adds_map_range {A} (l : list A) : adds (λ l' _, ∀ x, x ∈ l → x ∈ l') (map_range l).
Proof.
  intros w now Ht. apply wp_map_range. intros l' Hp. split; [done|]. split; [reflexivity|].
  intros x Hx. by rewrite Hp.
Qed.

(** The part of the transaction after the departments. *)
Lemma adds_jit_roles t u m (depts : list uuid) roles acc :
  adds (λ _ d, ∀ c, c ∈ roles → granted t u c d)
    (let! existing := RoleRepo.ListByUser t u in
     let! codes := map_range roles in
     let! granted := for_fold codes acc (jit_role t u m (List.map tr_RoleCode existing)) in
     retM (mkJITResult depts granted, tt)).
Proof.
  eapply (adds_bind (λ l d, ∀ c, contains c (List.map tr_RoleCode l) = true → granted t u c d)).
  { intros l d d' Ha HP c Hc. by apply (lasting_granted t u c l d d' Ha), HP. }
  { apply adds_ListByUser. }
  intros existing. eapply (adds_bind (λ l' _, ∀ x, x ∈ roles → x ∈ l')); [by intros l d d' _ HP|apply adds_map_range|].
  intros codes. eapply (adds_bind (λ _ d, ∀ c, c ∈ codes →
    contains c (List.map tr_RoleCode existing) = true ∨ granted t u c d)).
  { intros a d d' Ha HP c Hc. destruct (HP c Hc) as [?|Hg]; [by left|right].
    by apply (lasting_granted t u c a d d' Ha). }
  { apply (adds_for_fold (λ c d, contains c (List.map tr_RoleCode existing) = true ∨ granted t u c d));
      [|intros; apply adds_jit_role].
    intros c d d' Ha [?|Hg]; [by left|right]. by apply (lasting_granted t u c c d d' Ha). }
  intros g. apply adds_ret. intros d Hnew Hcodes Hheld c Hc.
  destruct (Hnew c (Hcodes c Hc)) as [Hh|Hg]; [by apply Hheld|done].
Qed.

(** ** The transaction *)

(** What it establishes. *)
Definition claimed_from (t u : uuid) (deptRoles : list (uuid * DeptRole)) (roles : list TenantRoleCode) (d : DB) : Prop :=
  (∀ did, did ∈ deptRoles.*1 → level_in t u did d = implied_level deptRoles did) ∧
  (∀ c, c ∈ roles → granted t u c d).

Lemma implied_level_some l did : did ∈ l.*1 → is_Some (implied_level l did).
Proof.
  induction l as [|[x lv] l IH]; [by intros ?%elem_of_nil|]. rewrite fmap_cons, elem_of_cons. simpl.
  destruct (implied_level l did); [by eauto|]. intros [->|Hin]; [by rewrite Z.eqb_refl; eauto|].
  destruct (IH Hin). done.
Qed.

Lemma wp_jit_tx t u m deptRoles roles res w now :
  w_txnow w = Some now →
  wp (jit_tx t u m deptRoles roles res)
     (λ r w', match r with
              | Ok _ => adds_to t u deptRoles (w_db w) (w_db w') ∧
                        (dept_wf (w_db w) → claimed_from t u deptRoles roles (w_db w'))
              | Err _ => True
              end) w.
Proof.
  intros Ht. unfold jit_tx. apply wp_bind. eapply wp_mono; [exact (does_jit_depts t u m deptRoles _ w now Ht)|].
  intros [depts|e] w1 [Ht1 H1]; [|done]. destruct H1 as [H1 _].
  eapply wp_mono; [exact (adds_jit_roles t u m depts roles (jit_GrantedTenantRoles res) w1 now Ht1)|].
  intros [a|e] w2 [_ H2]; [|done]. destruct H2 as [[E2 G2] HP].
  assert (∀ t' u' x, level_in t' u' x (w_db w2) = level_in t' u' x (w_db w1)) as Hlv
    by (intros; unfold level_in, dept_row; by rewrite E2).
  split.
  - transitivity (w_db w1); [by apply leveled_adds|]. intros Hd. split; [by eapply dept_wf_same|].
    split; [done|]. intros. left. by rewrite Hlv.
  - intros Hd. destruct (H1 Hd) as (_ & _ & L1). split; [|done]. intros did Hin. rewrite Hlv, L1, decide_True by done.
    by destruct (implied_level_some _ _ Hin) as [lv ->].
Qed.

Lemma steady_jit_tx t u m deptRoles roles res : steady (jit_tx t u m deptRoles roles res).
Proof. unfold steady, jit_tx, jit_dept, jit_role. keeps_auto. Qed.

Lemma aside_resolveMappings t groups : aside (resolveMappings t groups).
Proof.
  unfold resolveMappings, getCachedResolution, setCachedResolution. aside_auto.
Qed.

(** The steps of a run: the mappings, the membership, the committed
    transaction, and evictions. *)
Lemma AssignFromGroups_inv R `{!PreOrder R} tid uid g gs m w1 w r w' :
  rely R (w_sched w) → resolveMappings tid (g :: gs) w = (Ok m, w1) → AssignFromGroups tid uid (g :: gs) w = (r, w') →
  match r with
  | Ok _ => ∃ mid res res' now w2 w3, R (w_db w) (w_db w2) ∧ w_txnow w2 = Some now ∧
      jit_tx tid uid mid (dept_roles (g :: gs) m) (tenant_roles_of (g :: gs) m) res w2 = (Ok res', w3) ∧ w_db w' = w_db w3
  | Err _ => R (w_db w) (w_db w')
  end.
Proof.
  intros Hrely Em E. unfold AssignFromGroups in E. unfold bindM at 1 in E. rewrite Em in E.
  pose proof (keeps_aside R _ (aside_resolveMappings tid (g :: gs)) w _ w1 Hrely Em) as [A1 F1].
  pose proof (rely_flows _ _ _ Hrely F1) as Hr1. unfold bindM at 1 in E.
  destruct (MembershipRepo.FindByUserID tid uid w1) as [[mem|e] w2] eqn:Ef;
    pose proof (keeps_FindByUserID R tid uid w1 _ w2 Hr1 Ef) as [A2 F2]; [|injection E as <- <-; by transitivity (w_db w1)].
  pose proof (rely_flows _ _ _ Hr1 F2) as Hr2. unfold bindM at 1 in E.
  destruct (RunInTx_captured _ _ w2) as [[[j []]|e] w3] eqn:Et.
  - destruct (RunInTx_captured_ok_inv R _ _ _ _ _ _ (λ c, steady_jit_tx _ _ _ _ _ c) Hr2 Et)
      as (c0 & now & w4 & w5 & A3 & _ & Ht & Eb & ->). unfold bindM in E.
    destruct (quiet_evict [cacheKeyMembers50 tid; cacheKeySeatUsage tid; cacheKeyMemberships tid uid]
      (set_w_txnow (w_txnow w2) w5)) as (w6 & Ee & Hd6 & _). rewrite Ee in E. injection E as <- <-.
    exists (tm_ID mem), c0, (j, ()), now, w4, w5. split_and!; [|done|done|done].
    transitivity (w_db w1); [done|]. by transitivity (w_db w2).
  - destruct (RunInTx_captured_err R _ _ _ _ _ (λ c, steady_jit_tx _ _ _ _ _ c) Hr2 Et) as [A3 _].
    injection E as <- <-. transitivity (w_db w1); [done|]. by transitivity (w_db w2).
Qed.

(** C37: assignment from group claims (I-10, GTRM-4).  Take any schedule whose
    other transactions, like this one, remove no live role grant and no live
    department membership of anyone and change no level, but for the user's own
    in the departments of the resolved mappings, to a level mapped for it.  Then
    the same holds from before [AssignFromGroups] to after it, on success and on
    every error, retries included; and when it succeeds, the user's level in each
    department the mappings give for the groups is the one they give (the last
    listed where they give several), and the user holds each tenant role they
    give. *)
Theorem AssignFromGroups_additive tid uid groups m w1 w r w' :
  rely (adds_to tid uid (dept_roles groups m)) (w_sched w) →
  resolveMappings tid groups w = (Ok m, w1) → AssignFromGroups tid uid groups w = (r, w') →
  adds_to tid uid (dept_roles groups m) (w_db w) (w_db w') ∧
  (groups ≠ [] → is_ok r = true → dept_wf (w_db w) →
   (∀ did, did ∈ (dept_roles groups m).*1 →
      level_in tid uid did (w_db w') = implied_level (dept_roles groups m) did) ∧
   (∀ c, c ∈ tenant_roles_of groups m → granted tid uid c (w_db w'))).
Proof.
  intros Hrely Em E. destruct groups as [|g gs]; [injection E as <- <-; by split|].
  apply (AssignFromGroups_inv (adds_to tid uid (dept_roles (g :: gs) m)) tid uid g gs m w1) in E; [|done|done].
  destruct r as [res|e]; [|done]. destruct E as (mid & c0 & res' & now & w2 & w3 & A & Ht & Eb & Hd).
  pose proof (wp_intro _ _ _ (wp_jit_tx _ _ _ _ _ _ w2 now Ht) _ _ Eb) as [A2 HP]. rewrite Hd.
  split; [by transitivity (w_db w2)|]. intros _ _ Hwf. apply HP, A, Hwf.
Qed.
End roles.
