(* ===== verification/OwnersSpec.v ===== *)
(** * OwnersSpec: the last owner grant of a tenant

    Histories of transactions: the operations that write [tenant_roles], run one
    beside the other at the grain of their transactions, and anything that leaves
    that table alone.  A tenant that has an owner grant keeps one through each of
    them. *)

From S2P Require Import Prelude Domain Schema Tx Wp.
From S2P Require Import MembershipRepo RoleRepo DeptMembershipRepo TenantDepartmentRepo DeptRoleLabelRepo InvitationRepo.
From S2P Require Import TenantRepo EventStores CacheKeys MembershipService InvitationService ProvisioningService.
From S2P Require Import OperatorService GroupMappingService LifecycleSpec MembershipSpec GroupsSpec.

(** ** Transactions that only grant *)

(** What a statement on another table does to the grants: nothing. *)
Ltac other_table :=
  let E := fresh in
  intros ? ? ? ? E; apply loses_same; revert E;
  unfold same_roles, insert_tenant, insert_membership, insert_dept_membership, insert_tenant_department, seed_label,
    upsert_ledger, tenants_update, depts_update, invitations_update, update_returning;
  repeat case_match; intros; simplify_eq; reflexivity.

Section grants.
  Context `{Env} (tid : uuid).

Lemma keeps_granting_tx {A} (m : M A) : steady m → keeps_tx (loses tid 0) m → keeps (keeps_owned tid) (RunInTx m).
Proof.
  intros Hst Hm. apply keeps_RunInTx_committed; [apply _|done|]. intros w now Ht.
  eapply wp_mono; [exact (Hm w now Ht)|]. intros [a|e] w' [Hl _]; [by apply loses0_owned|done].
Qed.

Lemma keeps_granting_captured {C A} (c : C) (body : C → M (C * A)) :
  (∀ c, steady (body c)) → (∀ c, keeps_tx (loses tid 0) (body c)) →
  keeps (keeps_owned tid) (RunInTx_captured c body).
Proof.
  intros Hst Hm. apply keeps_RunInTx_captured_committed; [apply _|done|]. intros c' w now Ht.
  eapply wp_mono; [exact (Hm c' w now Ht)|]. intros [a|e] w' [Hl _]; [by apply loses0_owned|done].
Qed.

#[local] Hint Resolve keeps_tx_Grant_loses keeps_tx_publish_loses : keeps_tx.

Lemma reassign_loses t u m a : keeps_tx (loses tid 0) (reassign_tx t u m a).
Proof. unfold reassign_tx, ClearOwnerlessSince, exec_update. keeps_tx_auto; other_table. Qed.

Lemma Assign_loses t u x m lv by_ : keeps_tx (loses tid 0) (DeptMembershipRepo.Assign t u x m lv by_).
Proof. unfold DeptMembershipRepo.Assign, insert_level. keeps_tx_auto; other_table. Qed.

Lemma member_Insert_loses id t u st : keeps_tx (loses tid 0) (MembershipRepo.Insert id t u st).
Proof. unfold MembershipRepo.Insert. keeps_tx_auto; other_table. Qed.

#[local] Hint Resolve Assign_loses member_Insert_loses : keeps_tx.

Lemma accept_loses t u p : keeps_tx (loses tid 0) (accept_tx t u p).
Proof.
  unfold accept_tx, relock, LockByID, InvitationRepo.LockByID, InvitationRepo.SetStatus,
    LicensedSeatsForUpdate, MembershipRepo.CountActive, InvitationRepo.CountPending, accept_role, accept_dept.
  keeps_tx_auto; other_table.
Qed.

Lemma jit_loses t u m ds cs res : keeps_tx (loses tid 0) (jit_tx t u m ds cs res).
Proof. unfold jit_tx, jit_dept, jit_role, RoleRepo.ListByUser, RoleRepo.listWhere. keeps_tx_auto. Qed.

Lemma signup_loses c req hash seats ds ends : keeps_tx (loses tid 0) (signup_tx c req hash seats ds ends).
Proof.
  unfold signup_tx, LockTenantProvisioning, Insert, ClaimEmailHash, seed_tenant, TenantDepartmentRepo.Activate,
    DeptRoleLabelRepo.Seed, DeptRoleLabelRepo.List.
  keeps_tx_auto; other_table.
Qed.
End grants.

(** ** Operations *)

(** The operations that write [tenant_roles], but for the removal the identity
    system asks for (I-5) and what deletes a whole tenant's rows. *)
Inductive role_operation :=
| OpRemoveUser (tenantID userID actorID : uuid)
| OpReconcileRoles (tenantID userID : uuid) (desired : list TenantRoleCode) (actorID : uuid)
| OpReassignOwner (tenantID newOwnerUserID actorID : uuid)
| OpAddFromRegister (tenantID userID keycloakUserID : uuid) (email : string)
| OpAssignFromGroups (tenantID userID : uuid) (groups : list string)
| OpTrialSignup (c : ProvisioningConfig) (req : TrialSignupInput).

Section histories.
  Context `{Env} `{CatalogReader}.

(** The world an operation leaves.  The signup is the one before parked events
    are replayed: those are the consumer's. *)
Definition perform (o : role_operation) (w : World) : World :=
  match o with
  | OpRemoveUser t u a => (RemoveUser t u a w).2
  | OpReconcileRoles t u desired a => (ReconcileRoles t u desired a w).2
  | OpReassignOwner t u a => (ReassignOwner t u a w).2
  | OpAddFromRegister t u kc email => (AddFromRegister t u kc email w).2
  | OpAssignFromGroups t u groups => (AssignFromGroups t u groups w).2
  | OpTrialSignup c req => (TrialSignup (mkProvisioningConfig (pc_parked c) None (pc_trialLedger c)) req w).2
  end.

(** The databases a history of transactions leads to.  Before each attempt of an
    operation's transactions, and in between, the others run a history of their
    own. *)
Inductive history : DB → DB → Prop :=
| history_nil d : history d d
| history_app d1 d2 d3 : history d1 d2 → history d2 d3 → history d1 d3
| history_other d d' : tenant_roles d' = tenant_roles d → history d d'
| history_operation o w :
    (∀ a, a ∈ w_sched w → ∀ d, history d (at_env a d)) → history (w_db w) (w_db (perform o w)).

Lemma keeps_ReassignOwner tid t u a : keeps (keeps_owned tid) (ReassignOwner t u a).
Proof.
  unfold ReassignOwner. apply keeps_bind; [apply _|solve [keeps_auto]|intros tn].
  apply keeps_bind; [apply _|solve [keeps_auto]|intros _].
  apply keeps_bind; [apply _|solve [keeps_auto]|intros [m|e]; [|solve [keeps_auto]]].
  apply keeps_bind; [apply _|solve [keeps_auto]|intros _].
  apply keeps_bind; [apply _| |intros tr; solve [keeps_auto]].
  apply keeps_granting_tx; [unfold steady, reassign_tx, ClearOwnerlessSince, exec_update; keeps_auto; done|apply reassign_loses].
Qed.

Lemma keeps_AddFromRegister tid t u kc email : keeps (keeps_owned tid) (AddFromRegister t u kc email).
Proof.
  unfold AddFromRegister, isServiceAccountOrDegrade. apply keeps_bind; [apply _|solve [keeps_auto]|intros sa].
  do 2 (apply keeps_bind; [apply _|solve [keeps_auto]|intros _]).
  do 2 (apply keeps_bind; [apply _|solve [keeps_auto]|intros ?]).
  apply keeps_bind; [apply _| |intros [p mem]; solve [keeps_auto]].
  apply keeps_granting_captured; [|intros; apply accept_loses].
  intros c. unfold steady, accept_tx, relock, accept_role, accept_dept. keeps_auto.
Qed.

Lemma keeps_AssignFromGroups tid t u groups : keeps (keeps_owned tid) (AssignFromGroups t u groups).
Proof.
  unfold AssignFromGroups. destruct groups as [|g gs]; [apply keeps_ret, _|].
  apply keeps_bind; [apply _|apply keeps_aside; [apply _|apply aside_resolveMappings]|intros m].
  apply keeps_bind; [apply _|by apply keeps_FindByUserID, _|intros mem].
  apply keeps_bind; [apply _| |intros r; keeps_auto].
  apply keeps_granting_captured; [intros; apply steady_jit_tx|intros; apply jit_loses].
Qed.

Lemma steady_signup_tx c req hash seats ds ends : steady (signup_tx c req hash seats ds ends).
Proof.
  unfold steady, signup_tx, seed_tenant, LockTenantProvisioning, Insert, ClaimEmailHash, TenantDepartmentRepo.Activate,
    DeptRoleLabelRepo.Seed, DeptRoleLabelRepo.List. keeps_auto; done.
Qed.

Lemma keeps_TrialSignup tid c req : pc_replayer c = None → keeps (keeps_owned tid) (TrialSignup c req).
Proof.
  intros Hc. unfold TrialSignup, replayParked. rewrite Hc.
  destruct (validate_signup req) as [[hash seats]|e]; [|solve [keeps_auto]].
  apply keeps_bind; [apply _|apply keeps_aside; [apply _|apply PlanByCode_aside]|intros plan].
  apply keeps_bind; [apply _|solve [keeps_auto]|intros now].
  apply keeps_bind; [apply _|apply keeps_aside; [apply _|apply Departments_aside]|intros all].
  apply keeps_bind; [apply _| |intros r; solve [keeps_auto]].
  apply keeps_granting_tx; [apply steady_signup_tx|apply signup_loses].
Qed.

(** Each operation keeps an owner if the others do. *)
Lemma perform_owned tid o w :
  rely (keeps_owned tid) (w_sched w) → keeps_owned tid (w_db w) (w_db (perform o w)).
Proof.
  intros Hs. destruct o; simpl;
    match goal with |- keeps_owned _ _ (w_db (?m w).2) =>
      assert (keeps (keeps_owned tid) m) as Hk; [|exact (proj1 (Hk w _ _ Hs (surjective_pairing (m w))))] end.
  - apply keeps_RemoveUser_owned.
  - apply keeps_ReconcileRoles_owned.
  - apply keeps_ReassignOwner.
  - apply keeps_AddFromRegister.
  - apply keeps_AssignFromGroups.
  - by apply keeps_TrialSignup.
Qed.

(** C10: the last-owner guard (TM-8, TM-13).  A tenant that has a live owner
    grant still has one after any history of transactions built from the removal
    of a member (P-8), the reconciliation of a member's roles (P-28), the
    reassignment of the owner (O-7), the acceptance of an invitation (I-3), the
    assignment from group claims (I-10), trial signups (I-1, without parked
    events to replay), and whatever leaves [tenant_roles] alone: these run for
    any tenant and user, beside each other at the grain of their transactions,
    with any commit failures and retries.  Not in a history are the removal the
    identity system asks for (I-5), which may leave a tenant ownerless (TM-12),
    and what deletes a whole tenant's rows (the wipe on TenantOffboarded, and the
    hard delete of an expired trial). *)
Theorem last_owner_grant_kept tid d d' : history d d' → owned tid d → owned tid d'.
Proof.
  induction 1 as [d|d1 d2 d3 _ IH1 _ IH2|d d' E|o w _ IH]; [done|by auto|by apply keeps_owned_same|].
  apply perform_owned. apply Forall_forall. intros a Ha d. exact (IH a Ha d).
Qed.
End histories.
