(* ===== verification/EventBusSpec.v ===== *)
(** * EventBusSpec: what leaves the outbox *)

From S2P Require Import Prelude Utf8 Domain Schema Tx EventBus.

(** ** The Glue header *)

(** The value of a big-endian byte string. *)
Definition bytes_value (b : bytes) : Z := List.fold_left (λ acc x, acc * 256 + Z.of_N x) b 0.

Lemma byte_step u k : 0 <= k → Z.shiftr u (8 * k) = Z.shiftr u (8 * (k + 1)) * 256 + Z.shiftr u (8 * k) mod 256.
Proof.
  intros Hk. rewrite !Z.shiftr_div_pow2 by lia.
  replace (8 * (k + 1)) with (8 * k + 8) by lia. rewrite Z.pow_add_r by lia. change (2 ^ 8) with 256.
  rewrite <- Z.div_div by lia. pose proof (Z.div_mod (u / 2 ^ (8 * k)) 256). lia.
Qed.

Lemma leading_bytes u n :
  0 <= u < 2 ^ 128 → (n <= 16)%nat →
  bytes_value (List.map (λ i : nat, Z.to_N (Z.shiftr u (8 * (15 - Z.of_nat i)) mod 256)) (List.seq 0 n))
  = Z.shiftr u (8 * (16 - Z.of_nat n)).
Proof.
  intros Hu. induction n as [|n IH]; intros Hn.
  - simpl. rewrite Z.shiftr_div_pow2 by lia. by rewrite Z.div_small.
  - rewrite List.seq_S, List.map_app. unfold bytes_value in *. rewrite List.fold_left_app, IH by lia.
    cbn [List.map List.fold_left]. rewrite Z2N.id by (apply Z.mod_pos_bound; lia). simpl (0 + n)%nat.
    pose proof (byte_step u (15 - Z.of_nat n) ltac:(lia)) as E.
    replace (15 - Z.of_nat n + 1) with (16 - Z.of_nat n) in E by lia.
    replace (16 - Z.of_nat (S n)) with (15 - Z.of_nat n) by lia. lia.
Qed.

Lemma uuid_bytes_value u : 0 <= u < 2 ^ 128 → bytes_value (uuid_bytes u) = u.
Proof.
  intros Hu. unfold uuid_bytes. rewrite leading_bytes; [|exact Hu|apply Nat.le_refl].
  change (8 * (16 - Z.of_nat 16)) with 0. apply Z.shiftr_0_r.
Qed.

Lemma length_uuid_bytes u : length (uuid_bytes u) = 16%nat.
Proof. unfold uuid_bytes. by rewrite List.length_map, List.length_seq. Qed.

#[local] Opaque uuid_bytes.

(** The parts of a header. *)
Lemma header_parts u payload :
  let out := [3; 0]%N ++ uuid_bytes u ++ payload in
  length out = (18 + length payload)%nat ∧ take 2 out = [3; 0]%N ∧ take 16 (drop 2 out) = uuid_bytes u ∧
  take 18 out = [3; 0]%N ++ uuid_bytes u ∧ drop 18 out = payload.
Proof.
  intros out. unfold out. rewrite !length_app, length_uuid_bytes. split_and!; [done|done| | |].
  - change (drop 2 ([3; 0]%N ++ uuid_bytes u ++ payload)) with (uuid_bytes u ++ payload).
    by rewrite take_app_length' by (by rewrite length_uuid_bytes).
  - rewrite app_assoc, take_app_length'; [done|]. by rewrite length_app, length_uuid_bytes.
  - rewrite app_assoc, drop_app_length'; [done|]. by rewrite length_app, length_uuid_bytes.
Qed.

Section codec.
  Context `{Env}.

Lemma strip_prepend id payload out :
  prependGlueHeader id payload = Ok out →
  stripGlueHeader out = Ok payload ∧
  ∃ u, uuid_Parse id = Some u ∧ out = [3; 0]%N ++ uuid_bytes u ++ payload.
Proof.
  unfold prependGlueHeader. destruct (uuid_Parse id) as [u|]; [|done]. intros [= <-].
  split; [|by exists u]. destruct (header_parts u payload) as (Hl & _ & _ & _ & Hd).
  unfold stripGlueHeader, glueHeaderSize.
  change ([3; 0]%N ++ uuid_bytes u ++ payload) with (glueHeaderVersion :: glueNoCompression :: uuid_bytes u ++ payload)
    in Hl, Hd.
  rewrite Hl, (proj2 (Nat.ltb_ge _ _)) by lia. by rewrite Hd.
Qed.

Section versions.
  Context (json_Compact : bytes → result error bytes)
          (client : string → bytes → result error GlueSchema)
          (schemas : result error (list DirEntry)).

(** The version an event type is stamped with. *)
Lemma versionID_ok name cache id cache' :
  versionID json_Compact client schemas name cache = (Ok id, cache') →
  cache' !! name = Some id ∧ ∀ n, n ≠ name → cache' !! n = cache !! n.
Proof.
  unfold versionID. destruct (cache !! name) as [i|] eqn:E; [by intros [= <- <-]|].
  destruct (fetchVersionID _ _ _ _) as [i|e]; [|done]. intros [= <- <-].
  split; [apply lookup_insert_eq|]. intros n Hn. by apply lookup_insert_ne.
Qed.

(** C38: the Glue wire format.  Whatever the payload, what [Encode] produces is
    the payload behind eighteen bytes (the version byte 3, no compression, the
    sixteen bytes of the schema version), [Decode] gives the payload back byte
    for byte, and the version read from the header is the one returned for the
    envelope; the version is then cached, so that the next event of the type is
    encoded with the same version whatever the registry answers. *)
Theorem Encode_Decode name schemaID payload cache out id cache' :
  Encode json_Compact client schemas name payload cache = (Ok (out, id), cache') →
  (∀ u, uuid_Parse id = Some u → 0 <= u < 2 ^ 128) →
  Decode schemaID out = Ok payload ∧
  length out = (18 + length payload)%nat ∧ take 2 out = [3; 0]%N ∧
  uuid_Parse id = Some (bytes_value (take 16 (drop 2 out))) ∧
  ∀ client' payload', ∃ out',
    Encode json_Compact client' schemas name payload' cache' = (Ok (out', id), cache') ∧ take 18 out' = take 18 out.
Proof.
  intros E Hrange. unfold Encode in E. destruct (versionID _ _ _ name cache) as [[i|e] c] eqn:Ev; [|done].
  destruct (prependGlueHeader i payload) as [o|e] eqn:Ep; [|done]. injection E as <- <- <-.
  apply versionID_ok in Ev as [Hc _]. destruct (strip_prepend _ _ _ Ep) as (Hs & u & Hu & ->).
  destruct (header_parts u payload) as (Hl & H2 & H16 & H18 & _). rewrite H16, H18.
  split_and!; [done..| |].
  - rewrite Hu. f_equal. symmetry. apply uuid_bytes_value. by eapply Hrange.
  - intros client' payload'. exists ([3; 0]%N ++ uuid_bytes u ++ payload'). split; [|apply header_parts].
    unfold Encode, versionID. rewrite Hc. unfold prependGlueHeader. by rewrite Hu.
Qed.
End versions.
End codec.

(** ** The two topics *)

(** How the outbox reads an answer: a message is published unless it is listed,
    or the whole call failed. *)
Definition published (answer : option publish_error) (e : Envelope) : Prop :=
  match answer with
  | None => True
  | Some (BatchError failures) => env_ID e ∉ bf_ID <$> failures
  | Some (LaneError _ _) => False
  end.

(** The messages that share a topic, and what its publisher answered. *)
Definition lane_of (e : Envelope) (envs : list Envelope) : list Envelope :=
  select (λ e', Bool.eqb (on_tenant_topic e') (on_tenant_topic e)) envs.
Definition lane_answer (r : RoutingPublisher) (e : Envelope) (envs : list Envelope) : option publish_error :=
  if on_tenant_topic e then publishLane (rp_tenant r) TopicTenant (lane_of e envs)
  else publishLane (rp_membership r) TopicMembership (lane_of e envs).

(** A publisher reports failures of its own messages. *)
Definition reports_own (answer : option publish_error) (batch : list Envelope) : Prop :=
  match answer with
  | Some (BatchError failures) => ∀ i, i ∈ bf_ID <$> failures → i ∈ env_ID <$> batch
  | _ => True
  end.

Lemma published_failures answer batch fs e :
  published (Some (BatchError (appendLaneFailures fs batch answer))) e →
  (env_ID e ∉ (bf_ID <$> fs)) ∧ (e ∈ batch → published answer e).
Proof.
  destruct answer as [[l|msg b]|]; simpl; [| |done]; rewrite fmap_app, not_elem_of_app; intros [H1 H2]; [done|].
  split; [done|]. intros He. apply H2. change (List.map ?f ?l) with (f <$> l). rewrite <- list_fmap_compose.
  apply list_elem_of_fmap. by exists e.
Qed.

Lemma failures_published answer batch fs e :
  env_ID e ∉ bf_ID <$> fs → reports_own answer batch →
  (env_ID e ∈ env_ID <$> batch → published answer e) →
  env_ID e ∉ bf_ID <$> appendLaneFailures fs batch answer.
Proof.
  intros Hfs Hown Hp. destruct answer as [[l|msg b]|]; simpl in *; [| |done]; rewrite fmap_app, not_elem_of_app;
    split; [done| |done|].
  - intros Hin. by apply Hp; [apply Hown|].
  - change (List.map ?f ?l) with (f <$> l). rewrite <- list_fmap_compose. by intros Hin%Hp.
Qed.

Lemma lane_split e (envs : list Envelope) :
  lane_of e envs = if on_tenant_topic e then select on_tenant_topic envs
                   else select (λ e', negb (on_tenant_topic e')) envs.
Proof.
  unfold lane_of. destruct (on_tenant_topic e); apply List.filter_ext; intros e'; by destruct (on_tenant_topic e').
Qed.

Lemma other_lane e (envs : list Envelope) (p : Envelope → bool) :
  NoDup (env_ID <$> envs) → e ∈ envs → p e = false → env_ID e ∉ env_ID <$> select p envs.
Proof.
  intros Hnd He Hp (e' & Hid & [He' Hp']%elem_of_select)%list_elem_of_fmap.
  assert (e = e') as ->; [|congruence].
  clear Hp Hp'. revert Hnd He He'. induction envs as [|x envs IH]; [by intros _ ?%elem_of_nil|].
  rewrite fmap_cons, NoDup_cons, !elem_of_cons. intros [Hx Hnd] [->|He] [->|He']; [done| | |by apply IH];
    exfalso; apply Hx; apply list_elem_of_fmap; eauto.
Qed.

(** The answer in terms of the two lanes' answers. *)
Lemma PublishBatch_lanes r envs e :
  e ∈ envs →
  PublishBatch r envs = lane_answer r e envs ∨
  let mb := select (λ e', negb (on_tenant_topic e')) envs in
  let tb := select on_tenant_topic envs in
  let failures := appendLaneFailures (appendLaneFailures [] mb (publishLane (rp_membership r) TopicMembership mb))
                    tb (publishLane (rp_tenant r) TopicTenant tb) in
  PublishBatch r envs = match failures with [] => None | _ => Some (BatchError failures) end.
Proof.
  intros He. unfold lane_answer. rewrite lane_split. unfold PublishBatch.
  assert (e ∈ (if on_tenant_topic e then select on_tenant_topic envs
               else select (λ e', negb (on_tenant_topic e')) envs)) as Hin.
  { destruct (on_tenant_topic e) eqn:E; apply elem_of_select; by rewrite ?E. }
  destruct (select (λ e', negb (on_tenant_topic e')) envs) as [|m ms] eqn:Em,
           (select on_tenant_topic envs) as [|t ts] eqn:Et; destruct (on_tenant_topic e);
    try (by apply elem_of_nil in Hin); first [by left | by right].
Qed.

(** C39: no event is lost or sent twice at the topic boundary.  Whatever the
    two publishers answer, a message the outbox marks as published after
    [PublishBatch] was accepted by the publisher of its own topic, which was
    handed all the messages of that topic in their order; and when messages have
    distinct ids and a publisher reports only its own, a message its publisher
    accepted is marked as published, so that a failure of one topic does not
    send the other topic's messages again. *)
Theorem PublishBatch_no_loss r envs e :
  e ∈ envs →
  (published (PublishBatch r envs) e → published (lane_answer r e envs) e) ∧
  (NoDup (env_ID <$> envs) →
   (∀ pub batch, rp_membership r = Some pub ∨ rp_tenant r = Some pub → reports_own (pub_PublishBatch pub batch) batch) →
   published (lane_answer r e envs) e → published (PublishBatch r envs) e).
Proof.
  intros He. destruct (PublishBatch_lanes r envs e He) as [->|E]; [tauto|]. simpl in E.
  set (mb := select (λ e', negb (on_tenant_topic e')) envs) in E. set (tb := select on_tenant_topic envs) in E.
  set (ma := publishLane (rp_membership r) TopicMembership mb) in E. set (ta := publishLane (rp_tenant r) TopicTenant tb) in E.
  set (fs := appendLaneFailures (appendLaneFailures [] mb ma) tb ta) in E.
  assert (published (PublishBatch r envs) e ↔ env_ID e ∉ bf_ID <$> fs) as ->.
  { rewrite E. destruct fs; [|done]. split; [|done]. intros _. apply not_elem_of_nil. }
  assert (lane_answer r e envs = if on_tenant_topic e then ta else ma) as ->.
  { unfold lane_answer. rewrite lane_split. by destruct (on_tenant_topic e). }
  split.
  - intros [Hm Ht]%(published_failures ta tb). apply (published_failures ma mb []) in Hm as [_ Hm].
    destruct (on_tenant_topic e) eqn:Et; [apply Ht|apply Hm]; apply elem_of_select; by rewrite Et.
  - intros Hnd Hown Hp.
    assert (reports_own ma mb ∧ reports_own ta tb) as [Hm Ht].
    { unfold ma, ta, publishLane. split; [destruct (rp_membership r)|destruct (rp_tenant r)]; try done; apply Hown; auto. }
    apply failures_published; [apply failures_published; [apply not_elem_of_nil|done|]|done|];
      intros Hin; destruct (on_tenant_topic e) eqn:Et; try done; exfalso; revert Hin; apply other_lane; [done..| |done|done|];
      by rewrite Et.
Qed.

(** ** The order of the outbox *)

(** Two events are ordered with each other exactly when they are about the same
    subject of the same tenant; an event without a subject is not ordered. *)
Theorem orderingKey_spec `{Env} span span' ev ev' :
  (∀ u, String.length (uuid_String u) = 36%nat) →
  orderingKey (envelope_of span ev) ≠ "" → 
  (orderingKey (envelope_of span ev) = orderingKey (envelope_of span' ev') ↔
   ev_TenantID ev = ev_TenantID ev' ∧ ev_Subject ev = ev_Subject ev').
Proof.
  intros Hl. unfold orderingKey. cbn. destruct (String.eqb (ev_Subject ev) "") eqn:E1; [done|]. intros _. split.
  - destruct (String.eqb (ev_Subject ev') "") eqn:E2.
    { intros E. apply (f_equal String.length) in E. rewrite string_length_append, Hl in E. done. }
    intros [Ht Hs]%append_inj; [|by rewrite !Hl]. split; [by apply uuid_String_inj|by injection Hs].
  - intros [-> <-]. by rewrite E1.
Qed.
