(* ===== verification/PipelineSpec.v ===== *)
(** * PipelineSpec: no message is lost between a queue and the database

    A message the pipeline acknowledges was recorded as processed, or its
    original was handed to the dead-letter queue; the permanent rejects go
    there at once and change nothing; and what was acknowledged changes nothing
    when it is delivered again. *)

From S2P Require Import Prelude Domain Schema Tx Wp TenantRepo EventStores CacheKeys Consumer EventBus Pipeline.
From S2P Require Import MembershipRepo RoleRepo TenantDepartmentRepo DeptRoleLabelRepo ProvisioningService LifecycleSpec.

(** ** Claims of processed events stay *)

Definition claims_kept (d d' : DB) : Prop :=
  ∀ consumer id, claimed_id consumer id d = true → claimed_id consumer id d' = true.

#[export] Instance claims_kept_preorder : PreOrder claims_kept.
Proof. split; [by intros d c e|]. intros x y z H1 H2 c e H. by apply H2, H1. Qed.

Lemma claims_kept_same d d' : processed_events d' = processed_events d → claims_kept d d'.
Proof. unfold claims_kept, claimed_id. by intros ->. Qed.

Lemma claims_kept_claimed `{InboxStore} d d' consumer eventID :
  claims_kept d d' → claimed consumer eventID d = true → claimed consumer eventID d' = true.
Proof. unfold claimed. intros Hk. destruct (store_ParseID eventID); [apply Hk|done]. Qed.

#[local] Hint Extern 1 (claims_kept _ _) => apply claims_kept_same; reflexivity : keeps.

Lemma tenants_update_claims p f now d rows d' : tenants_update p f now d = Ok (rows, d') → claims_kept d d'.
Proof. unfold tenants_update. destruct (first_error _); [done|]. intros [= _ <-]. by apply claims_kept_same. Qed.

Lemma wipe_claims table id d u d' : delete_tenant_rows table id d = Ok (u, d') → claims_kept d d'.
Proof. intros E. apply claims_kept_same. revert E. destruct table; cbn; repeat case_match; by intros [= _ <-]. Qed.

Section claims.
  Context `{Env}.

Lemma keeps_claims_setter p f : keeps claims_kept (exec_update p f).
Proof. apply keeps_exec_update; [apply _|]. intros now d rows d'. apply tenants_update_claims. Qed.

Lemma keeps_claims_patch id p : keeps claims_kept (ApplyLifecyclePatch id p).
Proof. unfold ApplyLifecyclePatch, execLifecyclePatch. keeps_auto. apply keeps_claims_setter. Qed.

Lemma keeps_claims_last id t : keeps claims_kept (SetLastEventAt id t).
Proof. unfold SetLastEventAt. keeps_auto. apply keeps_claims_setter. Qed.

Lemma keeps_claims_wipe id : keeps claims_kept (WipeTenantChildren id).
Proof. unfold WipeTenantChildren. keeps_auto. intros now d u d'. apply wipe_claims. Qed.

Lemma keeps_claims_Park ev : keeps claims_kept (Park ev).
Proof. unfold Park. keeps_auto. intros now d u d'. case_match; intros [= _ <-]; by apply claims_kept_same. Qed.

Lemma keeps_claims_publish ev : keeps claims_kept (publish ev).
Proof. apply keeps_publish; [apply _|]. intros d. by apply claims_kept_same. Qed.

#[local] Hint Resolve keeps_claims_patch keeps_claims_last keeps_claims_wipe keeps_claims_Park keeps_claims_publish : keeps.

Lemma keeps_claims_handle_tx c id env days : keeps claims_kept (handle_tx c id env days).
Proof.
  unfold handle_tx, tenantAbsent, project, applyProjection, relay_and_wipe, LockTenantProvisioning, string_field,
    int_field, lift. keeps_auto.
Qed.

End claims.

(** What the inbox acknowledges is recorded. *)
Lemma processOnce_recorded `{InboxStore} {A} consumer env (fn : M A) w r w' :
  keeps claims_kept fn → rely claims_kept (w_sched w) →
  processOnce consumer env fn w = (Ok r, w') →
  claimed consumer (env_ID env) (w_db w') = true ∧ rely claims_kept (w_sched w').
Proof.
  intros Hfn Hs. destruct (store_ParseID (env_ID env)) as [id|] eqn:Eid; [|by rewrite processOnce_bad_id].
  unfold claimed. rewrite Eid. unfold processOnce, ProcessOnce. rewrite store_Process_contract. unfold inbox_contract, attempt_tx.
  rewrite Eid.
  destruct (next_attempt w) as [a w1] eqn:En. destruct (next_attempt_rely _ _ _ _ Hs En) as (_ & Hs1).
  unfold inbox_tx, bindM at 1 2, sql. cbn.
  destruct (claimed_id consumer id (at_env a (w_db w1))) eqn:Ec; cbn.
  - destruct (at_fail a); cbn; [done|]. intros [= _ <-]. cbn. by rewrite Ec.
  - unfold bindM. destruct (fn _) as [[x|e] w3] eqn:Ef; cbn; [|done].
    apply Hfn in Ef as (Hk & Hfl); [|done]. destruct (at_fail a); cbn; [done|]. intros [= _ <-]. cbn. split.
    + apply Hk. apply add_claim_claimed.
    + destruct Hfl as (Hsuf & _). eapply rely_suffix; [exact Hs1|exact Hsuf].
Qed.

(** The consumer's provisioner takes its transactions from the schedule as
    every operation does. *)
Definition provisioner_steady (c : ConsumerConfig) : Prop :=
  ∀ signup input, c_provisioner c = Some signup → steady (signup input).

Section settled.
  Context `{Env} `{CatalogReader} `{InboxStore}.

(** A success of [m] leaves the event recorded. *)
Definition records (env : Envelope) {A} (m : M A) : Prop :=
  ∀ w a w', rely claims_kept (w_sched w) → m w = (Ok a, w') → claimed consumerName (env_ID env) (w_db w') = true.

Lemma records_throw env {A} e : records env (throw (A:=A) e).
Proof. by intros w a w'. Qed.

Lemma records_after env {A B} (m : M A) (k : A → M B) :
  steady m → (∀ a, records env (k a)) → records env (let! a := m in k a).
Proof.
  intros Hm Hk w b w' Hs. unfold bindM. destruct (m w) as [[a|e] w1] eqn:E; [|done].
  apply Hm in E as [_ Hf]; [|apply rely_True]. apply Hk. by eapply rely_flows.
Qed.

Lemma records_processOnce env {A B} (fn : M A) (k : option A → M B) :
  keeps claims_kept fn → (∀ o, keeps claims_kept (k o)) → records env (let! o := processOnce consumerName env fn in k o).
Proof.
  intros Hfn Hk w b w' Hs. unfold bindM. destruct (processOnce _ _ _ w) as [[o|e] w1] eqn:E; [|done].
  apply processOnce_recorded in E as [Hc Hs1]; [|done..]. intros Ek. apply Hk in Ek as [Hr _]; [|done]. by eapply claims_kept_claimed.
Qed.

#[local] Hint Resolve keeps_claims_handle_tx : keeps.

Lemma records_tip c id env : provisioner_steady c → records env (handleTenantIdentityProvisioned c id env).
Proof.
  intros Hp. unfold handleTenantIdentityProvisioned, rejectProvisioning. apply records_after.
  { unfold decode_tip, lift, steady. keeps_auto. }
  intros [p|e]; [|apply records_throw]. destruct (negb _); [apply records_throw|].
  apply records_after; [unfold steady; keeps_auto|]. intros r. apply records_after.
  - destruct r as [t|e]; [apply keeps_ret, _|]. destruct (negb _); [apply keeps_throw, _|].
    destruct (c_provisioner c) as [signup|] eqn:Ep; [|apply keeps_throw, _].
    apply keeps_bind; [apply _| |intros [x|y]; [apply keeps_ret, _|destruct (isPermanentProvisioningError y); apply keeps_throw, _]].
    apply keeps_try. by eapply Hp.
  - intros _. apply records_processOnce; [apply keeps_ret, _|]. intros o. apply keeps_ret, _.
Qed.

(** [Handle] acknowledges nothing it has not recorded. *)
Lemma records_Handle c env : provisioner_steady c → records env (Handle c env).
Proof.
  intros Hp. unfold Handle, ackUnknown, evictAfterWipe. apply records_after; [unfold steady; keeps_auto|]. intros now.
  destruct (_ && _); [apply records_throw|].
  assert (records env (processOnce consumerName env (retM tt) ;; retM tt)) as Hu.
  { apply records_processOnce; [apply keeps_ret, _|]. intros o. apply keeps_ret, _. }
  assert (records env (match uuid_Parse (env_TenantID env) with
    | None => throw (EWrap "parse tenant_id from envelope" (EPlain "invalid UUID"))
    | Some tenantID =>
        if String.eqb (env_Type env) "TenantIdentityProvisioned" then handleTenantIdentityProvisioned c tenantID env
        else let! days := trialDurationDays tenantID env in
             let! wiped := processOnce consumerName env (handle_tx c tenantID env days) in
             match wiped with Some true => evictAfterWipe tenantID | _ => retM tt end
    end)) as Hk.
  { destruct (uuid_Parse _) as [id|]; [|apply records_throw]. destruct (String.eqb _ _); [by apply records_tip|].
    apply records_after; [apply keeps_trialDurationDays, _|]. intros days.
    apply records_processOnce; [apply keeps_claims_handle_tx|]. unfold evictAfterWipe. intros o. keeps_auto. }
  by destruct (classify _).
Qed.

(** With nothing else running, [m] leaves a database that satisfies [P] as it is. *)
Definition inert (P : DB → Prop) {A} (m : M A) : Prop :=
  ∀ w r w', alone w → P (w_db w) → m w = (r, w') → w_db w' = w_db w ∧ alone w'.

Lemma inert_reads P {A} (m : M A) : keeps eq m → inert P m.
Proof. intros Hk w r w' Hal _ E. by destruct (reads_alone _ _ _ _ Hk Hal E) as (? & ? & _). Qed.

Lemma inert_bind P {A B} (m : M A) (k : A → M B) : inert P m → (∀ a, inert P (k a)) → inert P (bindM m k).
Proof.
  intros Hm Hk w r w' Hal HP. unfold bindM. destruct (m w) as [[a|e] w1] eqn:E; apply Hm in E as [Ed Ha]; try done.
  - intros E2. apply Hk in E2 as [Ed2 Ha2]; [|done|by rewrite Ed]. by rewrite Ed2.
  - by intros [= _ <-].
Qed.

Lemma inert_processOnce P env {A} (fn : M A) :
  (∀ d, P d → claimed consumerName (env_ID env) d = true) → inert P (processOnce consumerName env fn).
Proof. intros HP w r w' Hal Hw. rewrite processOnce_duplicate by auto. by intros [= _ <-]. Qed.

Lemma FindByIDIncludingDeleted_there id w :
  alone w → exists_row (t_is id) (tenants (w_db w)) = true →
  ∃ t, FindByIDIncludingDeleted id w = (Ok t, w).
Proof.
  intros Hal Hr. rewrite exists_row_first in Hr.
  destruct (select_first (t_is id) (tenants (w_db w))) as [t|] eqn:Et; [|done]. exists t.
  unfold FindByIDIncludingDeleted. rewrite (withPool_alone_ok _ _ t (started w)); [|done|].
  - destruct Hal as [_ Ht]. destruct w; simpl in *. by subst.
  - unfold on_no_rows, query_row, query, bindM. simpl. by rewrite Et.
Qed.

(** Handling an event that is recorded changes nothing; a TenantIdentityProvisioned
    looks for its tenant before the inbox, so its tenant has to be there. *)
Lemma Handle_claimed c env :
  inert (λ d, claimed consumerName (env_ID env) d = true ∧
              (env_Type env = "TenantIdentityProvisioned"%string →
               ∀ id, uuid_Parse (env_TenantID env) = Some id → exists_row (t_is id) (tenants d) = true))
    (Handle c env).
Proof.
  set (P := λ d : DB, _). assert (∀ {A B} (fn : M A) (k : option A → M B), (∀ o, keeps eq (k o)) →
    inert P (bindM (processOnce consumerName env fn) k)) as Hdup.
  { intros A B fn k Hk. apply inert_bind; [by apply inert_processOnce; intros d []|].
    intros o. apply inert_reads, Hk. }
  unfold Handle, ackUnknown. apply inert_bind; [apply inert_reads; keeps_auto|]. intros now.
  destruct (_ && _); [apply inert_reads; keeps_auto|].
  assert (inert P (processOnce consumerName env (retM tt) ;; retM tt)) as Hu by (apply Hdup; intros; keeps_auto).
  destruct (classify (env_Type env)); [done|..];
    (destruct (uuid_Parse (env_TenantID env)) as [id|] eqn:Eid; [|apply inert_reads; keeps_auto];
     destruct (String.eqb (env_Type env) "TenantIdentityProvisioned") eqn:Ety;
     [|apply inert_bind; [apply inert_reads, keeps_trialDurationDays, _|]; intros days; apply Hdup;
       intros [[]|]; unfold evictAfterWipe; keeps_auto]).
  all: apply String.eqb_eq in Ety; unfold handleTenantIdentityProvisioned; apply inert_bind;
    [apply inert_reads; unfold decode_tip, lift; keeps_auto|]; intros [tip|e]; [|apply inert_reads; unfold rejectProvisioning; keeps_auto];
    destruct (negb _); [apply inert_reads; unfold rejectProvisioning; keeps_auto|];
    intros w r w' Hal HP; destruct (FindByIDIncludingDeleted_there id w Hal) as [t Et]; [by apply HP|];
    unfold bindM at 1, tryM at 1; rewrite Et; cbn [fst snd]; unfold bindM at 1; cbn; by apply Hu.
Qed.

(** C4: Exactly once.  An event that [Handle] acknowledged, whatever its type and
    whatever ran beside it, changes nothing when it is delivered again: however
    the database has moved on since, as long as no record of a processed event
    has been removed, and for a TenantIdentityProvisioned as long as the row of
    its tenant exists, a second delivery with nothing else running leaves the
    database exactly as it finds it.  (The provisioning of
    TenantIdentityProvisioned comes before the inbox: it looks for the tenant
    itself.)  [provisioner_steady] asks of the configured provisioner that its
    transactions are the schedule's, which the trial signup [main] wires
    fulfils. *)
Theorem Handle_redelivery c env w w1 w2 r w3 :
  provisioner_steady c → rely claims_kept (w_sched w) →
  Handle c env w = (Ok tt, w1) →
  claims_kept (w_db w1) (w_db w2) → alone w2 →
  (env_Type env = "TenantIdentityProvisioned"%string →
   ∀ id, uuid_Parse (env_TenantID env) = Some id → exists_row (t_is id) (tenants (w_db w2)) = true) →
  Handle c env w2 = (r, w3) → w_db w3 = w_db w2.
Proof.
  intros Hp Hs E1 Hk Hal Htip E2. apply records_Handle in E1; [|done..].
  apply Handle_claimed in E2 as [? _]; [done..|]. split; [|done]. by eapply claims_kept_claimed.
Qed.

(** The original message is on the dead-letter queue of its own queue, under
    [reason]. *)
Definition dead_lettered (SendToDLQ : nat → SourceMessage → string → result error unit) (src : SourceMessage)
    (reason : string) (w : World) : Prop :=
  ∃ calls, w_calls w = calls ++ [CallSendToDLQ (sm_QueueURL src) (sm_Body src) (sm_Attributes src) reason] ∧
    is_ok (SendToDLQ (length calls) src reason) = true.

Lemma dlqReason_known e reason :
  dlqReason e = Some reason → reason ∈ [poisonPillReason; schemaViolationReason; provisioningRejectedReason].
Proof. unfold dlqReason. repeat case_match; intros [= <-]; set_solver. Qed.

(** A message the pipeline acknowledges passed its schema and was handled, or its
    original was accepted by the dead-letter queue. *)
Lemma inbound_acks SendToDLQ validate source (h : EventHandler) env w w' :
  inboundHandler SendToDLQ validate source h env w = (Ok tt, w') →
  is_ok (validate (env_Type env) (env_Payload env)) = true ∧ h env w = (Ok tt, w') ∨
  ∃ src reason, source = Some src ∧
    reason ∈ [poisonPillReason; schemaViolationReason; provisioningRejectedReason] ∧
    dead_lettered SendToDLQ src reason w'.
Proof.
  unfold inboundHandler, routeRejectsToDLQ, bindM at 1, tryM.
  destruct (validateConsumed validate h env w) as [[[]|e] w1] eqn:E.
  - intros [= <-]. left. revert E. unfold validateConsumed. by destruct (validate _ _).
  - destruct (dlqReason e) as [reason|] eqn:Er; [|done]. destruct source as [src|]; [|done].
    unfold bindM, call. destruct (SendToDLQ _ _ _) eqn:Ed; [|done]. intros [= <-]. right. exists src, reason.
    split; [done|]. split; [by eapply dlqReason_known|]. exists (w_calls w1). by rewrite Ed.
Qed.

(** Whatever runs beside it, as long as other transactions remove no record of a
    processed event: when the pipeline acknowledges a message, either its event
    is recorded as processed, or the original message was accepted by the
    dead-letter queue under one of the three permanent reasons. *)
Lemma pipeline_settles c SendToDLQ validate source env w w' :
  provisioner_steady c → rely claims_kept (w_sched w) →
  inboundHandler SendToDLQ validate source (Handle c) env w = (Ok tt, w') →
  claimed consumerName (env_ID env) (w_db w') = true ∨
  ∃ src reason, source = Some src ∧
    reason ∈ [poisonPillReason; schemaViolationReason; provisioningRejectedReason] ∧
    dead_lettered SendToDLQ src reason w'.
Proof.
  intros Hp Hs Hr. apply inbound_acks in Hr as [[_ Hr]|Hd]; [|by right]. left. by eapply records_Handle.
Qed.

(** C3: permanent rejects (EVT-15).  A message whose payload violates its schema,
    or whose event is dated beyond the allowed clock skew, changes nothing but
    this: the original, body and attributes as delivered, is sent to the
    dead-letter queue of its queue under the reason that applies.  The message
    is acknowledged exactly when that send succeeds; otherwise it stays on the
    queue. *)
Theorem permanent_rejects_dead_lettered c SendToDLQ validate src env w :
  let refused := is_ok (validate (env_Type env) (env_Payload env)) = false in
  let future := env_Timestamp env ≠ 0 ∧ w_clock w + c_skew c < env_Timestamp env in
  let reason := if is_ok (validate (env_Type env) (env_Payload env)) then poisonPillReason else schemaViolationReason in
  refused ∨ future →
  let '(r, w') := inboundHandler SendToDLQ validate (Some src) (Handle c) env w in
  w' = set_w_calls (w_calls w ++ [CallSendToDLQ (sm_QueueURL src) (sm_Body src) (sm_Attributes src) reason]) w ∧
  is_ok r = is_ok (SendToDLQ (length (w_calls w)) src reason).
Proof.
  intros refused future reason Hr. unfold inboundHandler, routeRejectsToDLQ, bindM at 1, tryM, validateConsumed.
  subst refused reason. destruct (validate _ _) as [[]|e]; cbn [is_ok] in *.
  - destruct Hr as [?|[Hz Hf]]; [done|]. rewrite Handle_rejects_future by done. cbn.
    by destruct (SendToDLQ _ _ _).
  - unfold bindM, call. cbn. by destruct (SendToDLQ _ _ _).
Qed.

End settled.

(** The provisioner the server wires is steady. *)
Lemma steady_TrialSignup `{Env} `{CatalogReader} pc input :
  (∀ replay tid, pc_replayer pc = Some replay → steady (replay tid)) → steady (TrialSignup pc input).
Proof.
  intros Hr. unfold TrialSignup, signup_tx, seed_tenant, steady.
  destruct (validate_signup input) as [[hash seats]|e]; [|apply keeps_throw, _].
  keeps_auto; try (unfold TenantRepo.Insert, ClaimEmailHash, Activate, Seed, MembershipRepo.Insert, Grant; keeps_auto; done).
  unfold ProvisioningService.replayParked. destruct (pc_replayer pc) as [replay|] eqn:E; [|apply keeps_ret, _].
  keeps_auto. by eapply Hr.
Qed.
