(* ===== verification/CursorSpec.v ===== *)
(** * CursorSpec: a cursor comes back as it was handed out

    The calendar conversion is inverted, a printed timestamp and uuid are read
    back, and so is the cursor of a page. *)

From Stdlib Require Import Ascii String.
From Stdlib Require List.
From S2P Require Import Prelude Domain Tx Json JsonParse Wire Cursor.
Import ListNotations.

#[local] Ltac divlia := Z.to_euclidean_division_equations; lia.

(** ** Decimal digits *)

Lemma bytes_of_app a b : bytes_of (a +:+ b) = bytes_of a ++ bytes_of b.
Proof.
  unfold bytes_of. induction a as [|c a IH]; [done|]. simpl. f_equal. apply IH.
Qed.

Lemma digit_byte n : 0 <= n <= 9 → N_of_ascii (ascii_of_N (Z.to_N (48 + n))) = Z.to_N (48 + n).
Proof. intros Hn. apply N_ascii_embedding. lia. Qed.

Lemma digit_of_byte n : 0 <= n <= 9 → digit_of (Z.to_N (48 + n)) = Some n.
Proof.
  intros Hn. unfold digit_of, is_dec.
  replace (N.leb 48 _ && N.leb _ 57) with true; [f_equal; lia|].
  symmetry. apply andb_true_iff. split; apply N.leb_le; lia.
Qed.

Lemma pad_S w n : bytes_of (pad (S w) n) = bytes_of (pad w (n / 10)) ++ [Z.to_N (48 + n mod 10)].
Proof.
  cbn [pad]. rewrite bytes_of_app. f_equal. unfold bytes_of. cbn. f_equal. apply digit_byte.
  pose proof (Z.mod_pos_bound n 10). lia.
Qed.

Lemma number_from_app acc l c :
  number_from acc (l ++ [c]) =
  match number_from acc l with
  | Some x => match digit_of c with Some d => Some (10 * x + d) | None => None end
  | None => None
  end.
Proof. revert acc. induction l as [|x l IH]; intros acc; simpl; [done|]. destruct (digit_of x); [apply IH|done]. Qed.

Lemma pad_value w n : 0 <= n < 10 ^ Z.of_nat w → number_from 0 (bytes_of (pad w n)) = Some n.
Proof.
  revert n. induction w as [|w IH]; intros n Hn; [simpl in *; f_equal; lia|].
  rewrite Nat2Z.inj_succ, Z.pow_succ_r in Hn by lia.
  rewrite pad_S, number_from_app, IH, digit_of_byte by divlia. f_equal. divlia.
Qed.

Lemma pad_length w n : length (bytes_of (pad w n)) = w.
Proof. revert n. induction w as [|w IH]; intros n; [done|]. rewrite pad_S, length_app, IH. simpl. lia. Qed.

Lemma pad_digits w n : Forall (λ c, is_dec c = true) (bytes_of (pad w n)).
Proof.
  revert n. induction w as [|w IH]; intros n; [constructor|]. rewrite pad_S. apply Forall_app_2; [apply IH|].
  repeat constructor. pose proof (Z.mod_pos_bound n 10 ltac:(lia)) as Hn. unfold is_dec.
  apply andb_true_iff. split; apply N.leb_le; lia.
Qed.

Lemma pad2_bytes n lo hi :
  0 <= n < 100 → lo <= n <= hi → ∃ a b, bytes_of (pad 2 n) = [a; b] ∧ parseUint [a; b] lo hi = Some n.
Proof.
  intros Hn Hr. pose proof (pad_length 2 n) as Hl. pose proof (pad_value 2 n Hn) as Hv.
  destruct (bytes_of (pad 2 n)) as [|a [|b [|]]]; try done. exists a, b. split; [done|].
  unfold parseUint. rewrite Hv. destruct (Z.leb_spec lo n), (Z.leb_spec n hi); try lia. done.
Qed.

Lemma pad4_bytes n :
  0 <= n <= 9999 → ∃ a b c d, bytes_of (pad 4 n) = [a; b; c; d] ∧ parseUint [a; b; c; d] 0 9999 = Some n.
Proof.
  intros Hn. pose proof (pad_length 4 n) as Hl. pose proof (pad_value 4 n ltac:(simpl; lia)) as Hv.
  destruct (bytes_of (pad 4 n)) as [|a [|b [|c [|d [|]]]]]; try done. exists a, b, c, d. split; [done|].
  unfold parseUint. rewrite Hv. destruct (Z.leb_spec 0 n), (Z.leb_spec n 9999); try lia. done.
Qed.

(** ** The fraction *)

Lemma fraction_cases w n :
  0 <= n < 10 ^ Z.of_nat w →
  (n = 0 ∧ fraction w n = ""%string) ∨
  ∃ k m, (0 < k <= w)%nat ∧ fraction w n = pad k m ∧ 0 <= m < 10 ^ Z.of_nat k ∧ n = m * 10 ^ (Z.of_nat w - Z.of_nat k).
Proof.
  revert n. induction w as [|w IH]; intros n Hn; [left; simpl in *; split; [lia|done]|].
  cbn [fraction]. destruct (Z.eqb_spec (n mod 10) 0) as [E|E].
  2: { right. exists (S w), n. rewrite Z.sub_diag. split_and!; [lia..|done|lia|lia|lia]. }
  pose proof Hn as Hn'. rewrite Nat2Z.inj_succ, Z.pow_succ_r in Hn' by lia.
  destruct (IH (n / 10)) as [[H0 ->]|(k & m & Hk & -> & Hm & Em)]; [divlia|left; split; [divlia|done]|].
  right. exists k, m. split_and!; [lia..|done|lia|lia|].
  replace (Z.of_nat (S w) - Z.of_nat k) with (Z.succ (Z.of_nat w - Z.of_nat k)) by lia.
  rewrite Z.pow_succ_r by lia. divlia.
Qed.

Lemma scan_digits_app l r :
  Forall (λ c, is_dec c = true) l → is_dec (hd 0%N r) = false → scan_digits (l ++ r) = (l, r).
Proof.
  intros Hl Hr. induction Hl as [|c l Hc Hl IH]; simpl.
  - destruct r as [|c r]; [done|]. simpl in *. by rewrite Hr.
  - by rewrite Hc, IH.
Qed.

Lemma fraction_back n :
  0 <= n < 1000000 →
  scan_fraction (bytes_of ((if String.eqb (fraction 6 n) "" then "" else "." +:+ fraction 6 n) +:+ "Z")) = (n, [90%N]).
Proof.
  intros Hn. destruct (fraction_cases 6 n Hn) as [[-> ->]|(k & m & Hk & -> & Hm & Em)]; [done|].
  assert (String.eqb (pad k m) "" = false) as ->.
  { apply String.eqb_neq. intros E. pose proof (pad_length k m) as Hl. rewrite E in Hl. simpl in Hl. lia. }
  rewrite !bytes_of_app. simpl. rewrite scan_digits_app by (done || apply pad_digits).
  pose proof (pad_length k m) as Hl. destruct (bytes_of (pad k m)) as [|d ds] eqn:Ed; [simpl in Hl; lia|].
  rewrite <- Ed in *. rewrite take_ge, Hl, pad_value by (done || lia). f_equal. rewrite Em.
  replace (9 - Z.of_nat k) with (Z.of_nat 6 - Z.of_nat k + 3) by lia. rewrite Z.pow_add_r, Z.mul_assoc by lia.
  apply Z.div_mul. lia.
Qed.

(** ** The calendar *)

(** The cycles a day of the 400-year era falls in. *)
Lemma cycles doe :
  0 <= doe < 146097 →
  let c := Z.min (doe / 36524) 3 in
  let q := (doe - 36524 * c) / 1461 in
  let y := Z.min ((doe - 36524 * c - 1461 * q) / 365) 3 in
  let doy := doe - 36524 * c - 1461 * q - 365 * y in
  0 <= c <= 3 ∧ 0 <= q <= 24 ∧ 0 <= y <= 3 ∧ 0 <= doy <= 365 ∧ (doy = 365 → y = 3 ∧ (q = 24 → c = 3)).
Proof.
  intros Hd c q y doy.
  assert (0 <= c <= 3 ∧ 0 <= doe - 36524 * c ∧ (doe - 36524 * c < 36524 ∨ c = 3 ∧ doe - 36524 * c <= 36524)) as (H1 & H2 & H3)
    by (subst c; divlia).
  assert (0 <= q <= 24 ∧ 0 <= doe - 36524 * c - 1461 * q < 1461 ∧
          (q = 24 → c < 3 → doe - 36524 * c - 1461 * q < 1460)) as (H4 & H5 & H6) by (subst q; clearbody c; divlia).
  assert (0 <= y <= 3 ∧ 0 <= doy <= 365 ∧ (doy = 365 → y = 3 ∧ doe - 36524 * c - 1461 * q = 1460)) as (H7 & H8 & H9)
    by (subst doy y; clearbody c q; divlia).
  split_and!; try lia. all: intros E; destruct (H9 E) as [? ?]; lia.
Qed.

(** The month a day of a year from March falls in. *)
Definition month_ok (doy : Z) : bool :=
  let mp := (5 * doy + 2) / 153 in
  let m := if mp <? 10 then mp + 3 else mp - 9 in
  let d := doy - (153 * mp + 2) / 5 + 1 in
  (1 <=? m) && (m <=? 12) && (1 <=? d) &&
  (if m =? 2 then (d <=? 28) || (doy =? 365) && (d =? 29) else d <=? daysIn m 1) &&
  ((if m <=? 2 then m + 9 else m - 3) =? mp).

Lemma month_ok_all doy : 0 <= doy <= 365 → month_ok doy = true.
Proof.
  intros Hd. assert (forallb (λ n, month_ok (Z.of_nat n)) (seq 0 366) = true) as Hall by (vm_compute; reflexivity).
  rewrite forallb_forall in Hall. specialize (Hall (Z.to_nat doy)). rewrite Z2Nat.id in Hall by lia.
  apply Hall, in_seq. lia.
Qed.

Lemma civil_back z :
  let d := civil_of_days z in
  days_of_civil (c_year d) (c_month d) (c_day d) = z ∧ 1 <= c_month d <= 12 ∧
  1 <= c_day d <= daysIn (c_month d) (c_year d).
Proof.
  intros d. pose proof (Z.mod_pos_bound z 146097 ltac:(lia)) as Hdoe.
  pose proof (Z.div_mod z 146097 ltac:(lia)) as Hz.
  pose proof (cycles _ Hdoe) as Hc. subst d. unfold civil_of_days.
  set (doe := z mod 146097) in *. set (era := z / 146097) in *. clearbody doe era. cbv zeta in Hc |- *.
  set (c := Z.min (doe / 36524) 3) in *. set (q := (doe - 36524 * c) / 1461) in *.
  set (y := Z.min ((doe - 36524 * c - 1461 * q) / 365) 3) in *.
  set (doy := doe - 36524 * c - 1461 * q - 365 * y) in *.
  destruct Hc as (Hc & Hq & Hy & Hdoy & Hleap). pose proof (month_ok_all doy Hdoy) as Hm. unfold month_ok in Hm.
  set (mp := (5 * doy + 2) / 153) in *. set (m := if mp <? 10 then mp + 3 else mp - 9) in *.
  cbn [c_year c_month c_day]. rewrite !andb_true_iff, !Z.leb_le, Z.eqb_eq in Hm.
  destruct Hm as ((((Hm1 & Hm2) & Hd1) & Hd2) & Hmp).
  split_and!; [|lia..|].
  - unfold days_of_civil. rewrite Hmp.
    replace (if m <=? 2 then _ - 1 else _) with (400 * era + 100 * c + 4 * q + y) by (destruct (m <=? 2); lia).
    clearbody c q y m mp. subst doy. divlia.
  - revert Hd2. unfold daysIn. destruct (Z.eqb_spec m 2) as [->|Hm]; [|by rewrite Z.leb_le].
    rewrite orb_true_iff, andb_true_iff, Z.leb_le, !Z.eqb_eq. intros [Hd|[Hd ->]]; [destruct (isLeap _); lia|].
    destruct (Hleap Hd) as [Ey Eq]. unfold isLeap. simpl.
    enough ((400 * era + 100 * c + 4 * q + y + 1) mod 4 = 0 ∧
            ((400 * era + 100 * c + 4 * q + y + 1) mod 100 ≠ 0 ∨ (400 * era + 100 * c + 4 * q + y + 1) mod 400 = 0))
      as [-> [Hn|Hn]]; simpl.
    + apply Z.eqb_neq in Hn. by rewrite Hn.
    + rewrite Hn. simpl. by rewrite orb_true_r.
    + clear - Hc Hq Ey Eq. clearbody c q y. divlia.
Qed.

(** The last microsecond JSON can print is that of year 9999. *)
Definition end_of_time : Z := 3652059 * microseconds_per_day.

Lemma civil_year t :
  0 <= t < end_of_time → 0 <= c_year (civil_of_days (t / microseconds_per_day + 306)) <= 9999.
Proof.
  unfold end_of_time, microseconds_per_day. intros Ht.
  assert (306 <= t / 86400000000 + 306 < 3652365) as Hz by divlia. clear Ht.
  set (z := t / 86400000000 + 306) in *. clearbody z.
  pose proof (Z.mod_pos_bound z 146097 ltac:(lia)) as Hdoe. pose proof (Z.div_mod z 146097 ltac:(lia)) as Ez.
  pose proof (cycles _ Hdoe) as Hc. pose proof (civil_back z) as (Hdays & Hm & _). revert Hdays Hm. unfold civil_of_days.
  set (doe := z mod 146097) in *. set (era := z / 146097) in *. clearbody doe era. cbv zeta in Hc |- *.
  set (c := Z.min (doe / 36524) 3) in *. set (q := (doe - 36524 * c) / 1461) in *.
  set (y := Z.min ((doe - 36524 * c - 1461 * q) / 365) 3) in *.
  set (doy := doe - 36524 * c - 1461 * q - 365 * y) in *.
  destruct Hc as (Hc & Hq & Hy & Hdoy & _). pose proof (month_ok_all doy Hdoy) as Hm. unfold month_ok in Hm.
  set (mp := (5 * doy + 2) / 153) in *. cbn [c_year c_month c_day]. intros _ _.
  assert (0 <= mp) as Hmp by (subst mp; divlia). assert (doy <= 305 → mp < 10) as Hlow by (subst mp; divlia).
  clear Hm. clearbody c q y mp. destruct (Z.ltb_spec mp 10); [destruct (Z.leb_spec (mp + 3) 2)|destruct (Z.leb_spec (mp - 9) 2)]; lia.
Qed.

(** ** Timestamps *)

Lemma time_back t : 0 <= t < end_of_time → parseRFC3339 (bytes_of (time_text t)) = Some t.
Proof.
  intros Ht. pose proof (civil_year t Ht) as Hy.
  destruct (civil_back (t / microseconds_per_day + 306)) as (Hdays & Hmo & Hda).
  pose proof (Z.mod_pos_bound t microseconds_per_day ltac:(done)) as Hus.
  pose proof (Z.div_mod t microseconds_per_day ltac:(done)) as Et.
  unfold time_text. set (d := civil_of_days _) in *. set (us := t mod microseconds_per_day) in *.
  set (s := us / 1000000).
  assert (0 <= s < 86400) as Hs by (subst s; unfold microseconds_per_day in *; divlia).
  assert (daysIn (c_month d) (c_year d) <= 31) as Hdi by (unfold daysIn; repeat case_match; lia).
  destruct (pad4_bytes (c_year d) Hy) as (y1 & y2 & y3 & y4 & Ey & Vy).
  destruct (pad2_bytes (c_month d) 1 12) as (m1 & m2 & Em & Vm); [lia..|].
  destruct (pad2_bytes (c_day d) 1 (daysIn (c_month d) (c_year d))) as (d1 & d2 & Ed & Vd); [lia..|].
  destruct (pad2_bytes (s / 3600) 0 23) as (h1 & h2 & Eh & Vh); [divlia..|].
  destruct (pad2_bytes (s / 60 mod 60) 0 59) as (n1 & n2 & En & Vn); [divlia..|].
  destruct (pad2_bytes (s mod 60) 0 59) as (s1 & s2 & Es & Vs); [divlia..|].
  pose proof (fraction_back (us mod 1000000) ltac:(divlia)) as Hf.
  set (fz := (if String.eqb (fraction 6 (us mod 1000000)) "" then "" else "." +:+ fraction 6 (us mod 1000000)) +:+ "Z") in *.
  clearbody fz.
  rewrite !bytes_of_app, Ey, Em, Ed, Eh, En, Es. simpl. rewrite Vy, Vm, Vd, Vh, Vn, Vs, Hf. cbn [scan_zone].
  rewrite Hdays. f_equal. subst s. clearbody us. unfold microseconds_per_day in *. divlia.
Qed.

(** ** Literals without escapes *)

Definition plain (c : N) : bool :=
  (N.leb 32 c && N.ltb c 128 && negb (N.eqb c 34) && negb (N.eqb c 92) &&
   negb (N.eqb c 60) && negb (N.eqb c 62) && negb (N.eqb c 38)).

Definition plain_text (s : string) : Prop := Forall (λ c, plain c = true) (bytes_of s).

Lemma plain_parts c :
  plain c = true →
  (N.eqb c 34 = false ∧ N.eqb c 92 = false ∧ N.ltb c 32 = false ∧ N.ltb c 128 = true ∧
   N.eqb c 60 = false ∧ N.eqb c 62 = false ∧ N.eqb c 38 = false).
Proof.
  unfold plain. rewrite !andb_true_iff, !negb_true_iff, N.leb_le, N.ltb_lt. intros ((((((H1 & H2) & H3) & H4) & H5) & H6) & H7).
  split_and!; try done. apply N.ltb_ge. lia.
Qed.

Lemma escape_plain s : plain_text s → escape s = s.
Proof.
  unfold plain_text, bytes_of. induction s as [|c s IH]; [done|]. simpl.
  intros [Hc Hs]%Forall_cons. destruct (plain_parts _ Hc) as (E1 & E2 & E3 & E4 & E5 & E6 & E7).
  unfold escape_char. rewrite E1, E2, E3, E5, E6, E7. apply N.ltb_ge in E3.
  repeat (match goal with |- context [N.eqb (N_of_ascii c) ?n] => destruct (N.eqb_spec (N_of_ascii c) n); [lia|] end).
  simpl. f_equal. by apply IH.
Qed.

Lemma scan_plain l r : Forall (λ c, plain c = true) l → scan_string (l ++ 34%N :: r) = Some (l, r).
Proof.
  induction 1 as [|c l Hc Hl IH]; [done|]. destruct (plain_parts _ Hc) as (E1 & E2 & E3 & _).
  simpl. by rewrite E1, E2, E3, IH.
Qed.

Lemma unquote_plain l : Forall (λ c, plain c = true) l → unquote l = l.
Proof.
  unfold unquote. induction 1 as [|c l Hc Hl IH]; [done|]. destruct (plain_parts _ Hc) as (_ & E2 & _ & E4 & _).
  simpl. by rewrite E2, E4, IH.
Qed.

Lemma string_of_bytes_of s : string_of (bytes_of s) = s.
Proof.
  unfold string_of, bytes_of. rewrite List.map_map. erewrite List.map_ext; [|apply ascii_N_embedding].
  by rewrite List.map_id, string_of_list_ascii_of_string.
Qed.

Lemma pad_plain w n : plain_text (pad w n).
Proof.
  eapply Forall_impl; [apply pad_digits|]. intros c. unfold is_dec, plain. rewrite andb_true_iff, !N.leb_le.
  intros [H1 H2]. rewrite !andb_true_iff, !negb_true_iff, N.leb_le, N.ltb_lt, !N.eqb_neq. lia.
Qed.

Lemma plain_app a b : plain_text a → plain_text b → plain_text (a +:+ b).
Proof. unfold plain_text. rewrite bytes_of_app. apply Forall_app_2. Qed.

Lemma time_plain t : plain_text (time_text t).
Proof.
  unfold time_text. set (d := civil_of_days _). set (us := t mod microseconds_per_day).
  assert (plain_text (if String.eqb (fraction 6 (us mod 1000000)) "" then "" else "." +:+ fraction 6 (us mod 1000000))) as Hf.
  { pose proof (Z.mod_pos_bound us 1000000 ltac:(done)).
    destruct (fraction_cases 6 (us mod 1000000)) as [[_ ->]|(k & m & _ & -> & _)]; [done|repeat constructor|].
    destruct (String.eqb _ _); [repeat constructor|]. apply plain_app; [repeat constructor|apply pad_plain]. }
  do 5 (apply plain_app; [apply pad_plain|]; apply plain_app; [repeat constructor|]).
  apply plain_app; [apply pad_plain|]. apply plain_app; [apply Hf|repeat constructor].
Qed.

(** ** The cursor *)

Lemma string_length_bytes s : length (bytes_of s) = String.length s.
Proof. unfold bytes_of. rewrite List.length_map. induction s as [|c s IH]; [done|]. simpl. by rewrite IH. Qed.

Lemma encode_length l : (3 * length (encode l) <= 4 * length l + 8)%nat.
Proof. induction l as [|a|a b|a b c l IH] using by_quanta; cbn [encode length]; lia. Qed.

Lemma EncodeToString_length s : (3 * String.length (EncodeToString s) <= 4 * String.length s + 8)%nat.
Proof.
  unfold EncodeToString. rewrite <- !string_length_bytes. unfold bytes_of.
  rewrite !List.length_map, list_ascii_of_string_of_list_ascii. apply encode_length.
Qed.

Lemma time_length t : (String.length (time_text t) <= 27)%nat.
Proof.
  unfold time_text. set (d := civil_of_days _). set (us := t mod microseconds_per_day).
  assert (length (bytes_of (if String.eqb (fraction 6 (us mod 1000000)) "" then "" else "." +:+ fraction 6 (us mod 1000000)))
          <= 7)%nat as Hf.
  { pose proof (Z.mod_pos_bound us 1000000 ltac:(done)).
    destruct (fraction_cases 6 (us mod 1000000)) as [[_ ->]|(k & m & Hk & -> & _)]; [done|simpl; lia|].
    destruct (String.eqb _ _); [simpl; lia|]. rewrite bytes_of_app, length_app, pad_length. simpl. lia. }
  set (f := if String.eqb _ _ then _ else _) in *. clearbody f.
  rewrite <- string_length_bytes, !bytes_of_app, !length_app, !pad_length. simpl. lia.
Qed.

(** What a uuid's text is made of: at most 36 characters, none of which JSON
    escapes. *)
Definition uuid_plain `{Env} (u : uuid) : Prop :=
  plain_text (uuid_String u) ∧ (String.length (uuid_String u) <= 36)%nat.

Section round_trip.
  Context `{Env} (time_Parse : list N → option time).

(** The object printed, split at its literals. *)
Lemma cursor_bytes c :
  uuid_plain (cur_ID c) →
  bytes_of (cursor_Marshal c) =
  [123%N; 34%N] ++ bytes_of "CreatedAt" ++ 34%N :: 58%N :: 34%N :: bytes_of (time_text (cur_CreatedAt c)) ++
  34%N :: 44%N :: 34%N :: bytes_of "ID" ++ 34%N :: 58%N :: 34%N :: bytes_of (uuid_String (cur_ID c)) ++ [34%N; 125%N].
Proof.
  intros [Hu _]. unfold cursor_Marshal. cbn [json_text]. unfold JTime, JUuid, quoted.
  cbn [json_text String.concat]. unfold quoted.
  rewrite (escape_plain (time_text _)), (escape_plain (uuid_String _)) by (done || apply time_plain).
  rewrite !bytes_of_app, <- !app_assoc. reflexivity.
Qed.

Lemma parse_cursor_text c :
  uuid_plain (cur_ID c) →
  parse (bytes_of (cursor_Marshal c)) =
  Some (RObject [(bytes_of "CreatedAt", RString (bytes_of (time_text (cur_CreatedAt c))));
                 (bytes_of "ID", RString (bytes_of (uuid_String (cur_ID c))))]).
Proof.
  intros Hu. rewrite cursor_bytes by done. destruct Hu as [Hu _]. pose proof (time_plain (cur_CreatedAt c)) as Ht.
  unfold parse, fuel_for. set (l := [123%N; 34%N] ++ _).
  assert (2 <= length l)%nat as Hlen by (subst l; simpl; lia).
  assert (∃ n, 2 * length l + 2 = S (S (S (S n))))%nat as [n ->] by (exists (2 * length l - 2)%nat; lia). subst l. clear Hlen.
  cbn [parse_value skip_ws is_ws N.eqb Pos.eqb orb app].
  cbn [parse_members skip_ws is_ws N.eqb Pos.eqb orb]. rewrite scan_plain by (repeat constructor).
  cbn [skip_ws is_ws N.eqb Pos.eqb orb]. cbn [parse_value skip_ws is_ws N.eqb Pos.eqb orb]. unfold scalar at 1.
  cbn [N.eqb Pos.eqb]. rewrite scan_plain by done.
  cbn [skip_ws is_ws N.eqb Pos.eqb orb]. rewrite scan_plain by (repeat constructor).
  cbn [skip_ws is_ws N.eqb Pos.eqb orb]. unfold scalar. cbn [N.eqb Pos.eqb]. by rewrite scan_plain.
Qed.

Lemma cursor_back c :
  uuid_plain (cur_ID c) → 0 <= cur_CreatedAt c < end_of_time →
  cursor_Unmarshal time_Parse (bytes_of (cursor_Marshal c)) = Some c.
Proof.
  intros Hu Ht. unfold cursor_Unmarshal. rewrite parse_cursor_text by done. destruct Hu as [Hu _].
  cbn [set_cursor_fields set_cursor_field]. change (names_field (bytes_of "CreatedAt") "createdat") with true.
  cbn [fmap option_fmap option_map]. unfold time_UnmarshalJSON. rewrite time_back by done.
  change (names_field (bytes_of "ID") "createdat") with false. change (names_field (bytes_of "ID") "id") with true.
  cbn [option_map cur_ID cur_CreatedAt]. rewrite unquote_plain, string_of_bytes_of, uuid_Parse_String by done. by destruct c.
Qed.

Lemma cursor_decodes c :
  uuid_plain (cur_ID c) → 0 <= cur_CreatedAt c < end_of_time →
  decode_cursor time_Parse (encode_cursor c) = Some c.
Proof.
  intros Hu Ht. unfold decode_cursor, encode_cursor.
  assert (String.length (EncodeToString (cursor_Marshal c)) <= 512)%nat as Hlen.
  { pose proof (EncodeToString_length (cursor_Marshal c)) as He. pose proof (time_length (cur_CreatedAt c)) as Htl.
    rewrite <- (string_length_bytes (cursor_Marshal c)), cursor_bytes in He by done. destruct Hu as [_ Hul].
    rewrite <- string_length_bytes in Htl, Hul.
    set (tb := bytes_of (time_text _)) in *. set (ub := bytes_of (uuid_String _)) in *. clearbody tb ub.
    set (n := String.length (EncodeToString _)) in *. clearbody n.
    repeat (rewrite !length_app in He; cbn [length] in He). simpl in He. lia. }
  destruct (Nat.ltb_spec 512 (String.length (EncodeToString (cursor_Marshal c)))); [lia|].
  rewrite DecodeString_EncodeToString. by apply cursor_back.
Qed.

(** C29: the cursor of the member list (P-4) survives its trip through the
    client.  Decoding the URL-safe base64 of the JSON the handler wrote gives
    back the very position, whatever time.Parse would do with a text the strict
    parser refuses; the text is never too long for the handler's limit.  The
    identifier's text needs no JSON escape and has at most 36 bytes, which is
    what uuid.UUID.String documents, and the time is in the years time.Time
    marshals. *)
Theorem decode_encode_cursor c :
  uuid_plain (cur_ID c) → 0 <= cur_CreatedAt c < end_of_time →
  decode_cursor time_Parse (encode_cursor c) = Some c.
Proof. apply cursor_decodes. Qed.

End round_trip.
