(* ===== verification/JsonSpec.v ===== *)
(** * JsonSpec: what is printed is read back

    The text [json.Marshal] prints of a value decodes to that value, whatever
    follows it, for values whose strings are UTF-8. *)

From Stdlib Require Import Ascii.
From stdpp Require Import pretty.
From S2P Require Import Prelude Utf8 Domain Json JsonParse CursorSpec.
Local Open Scope N_scope.

(** ** Runes *)

Lemma lor_shift a b k : b < 2 ^ k → N.lor (N.shiftl a k) b = a * 2 ^ k + b.
Proof.
  intros Hb. assert (2 ^ k ≠ 0) as Hk by (apply N.pow_nonzero; lia).
  apply N.bits_inj. intros i. rewrite N.lor_spec. destruct (N.lt_ge_cases i k) as [Hi|Hi].
  - rewrite N.shiftl_spec_low, <- (N.mod_pow2_bits_low (a * 2 ^ k + b) k i) by done.
    by rewrite N.add_comm, N.Div0.mod_add, N.mod_small.
  - rewrite N.shiftl_spec_high' by done. rewrite <- (N.mod_small b (2 ^ k)) at 1 by done.
    rewrite N.mod_pow2_bits_high, orb_false_r by done.
    rewrite <- (N.sub_add k i) at 2 by done. rewrite <- N.div_pow2_bits. f_equal.
    by rewrite N.div_add_l, N.div_small, N.add_0_r.
Qed.

Lemma land_mod a k : N.land a (N.ones k) = a mod 2 ^ k.
Proof. apply N.land_ones. Qed.

Lemma cont_bounds lo hi b : cont lo hi b = true → lo <= b <= hi.
Proof. unfold cont. rewrite andb_true_iff, !N.leb_le. done. Qed.

#[local] Ltac divlia := zify; Z.to_euclidean_division_equations; lia.

(** The three shapes of a longer rune, with its value. *)
Lemma long_rune s r w :
  DecodeRune s = (r, w) → (2 <= w)%nat →
  (∃ b0 b1 t, s = b0 :: b1 :: t ∧ w = 2%nat ∧ 194 <= b0 <= 223 ∧ 128 <= b1 <= 191 ∧ r = (b0 - 192) * 64 + (b1 - 128)) ∨
  (∃ b0 b1 b2 t, s = b0 :: b1 :: b2 :: t ∧ w = 3%nat ∧ 224 <= b0 <= 239 ∧ 128 <= b1 <= 191 ∧ 128 <= b2 <= 191 ∧
     (b0 = 224 → 160 <= b1) ∧ r = (b0 - 224) * 4096 + ((b1 - 128) * 64 + (b2 - 128))) ∨
  (∃ b0 b1 b2 b3 t, s = b0 :: b1 :: b2 :: b3 :: t ∧ w = 4%nat ∧ 240 <= b0 <= 244 ∧ 128 <= b1 <= 191 ∧
     128 <= b2 <= 191 ∧ 128 <= b3 <= 191 ∧ (b0 = 240 → 144 <= b1) ∧
     r = (b0 - 240) * 262144 + ((b1 - 128) * 4096 + ((b2 - 128) * 64 + (b3 - 128)))).
Proof.
  assert (∀ b, 128 <= b <= 191 → N.land b 63 = b - 128) as H6.
  { intros b Hb. change 63 with (N.ones 6). rewrite N.land_ones. change (2 ^ 6) with 64. divlia. }
  assert (∀ b, 192 <= b <= 223 → N.land b 31 = b - 192) as H5.
  { intros b Hb. change 31 with (N.ones 5). rewrite N.land_ones. change (2 ^ 5) with 32. divlia. }
  assert (∀ b, 224 <= b <= 239 → N.land b 15 = b - 224) as H4.
  { intros b Hb. change 15 with (N.ones 4). rewrite N.land_ones. change (2 ^ 4) with 16. divlia. }
  assert (∀ b, 240 <= b <= 244 → N.land b 7 = b - 240) as H3.
  { intros b Hb. change 7 with (N.ones 3). rewrite N.land_ones. change (2 ^ 3) with 8. divlia. }
  unfold DecodeRune. intros E Hw. destruct s as [|b0 [|b1 t]]; [simplify_eq/=; lia..|].
  revert E. cbn [rune_width]. destruct (cont 194 223 b0) eqn:C0.
  { destruct (cont 128 191 b1) eqn:C1; [|intros [= _ <-]; lia]. intros [= <- <-]. left.
    apply cont_bounds in C0, C1. exists b0, b1, t. split_and!; try lia; try done.
    rewrite H5, H6, lor_shift by (change (2 ^ 6) with 64; lia). done. }
  destruct (cont 224 239 b0) eqn:C1.
  { destruct t as [|b2 t]; [intros [= _ <-]; lia|]. destruct (_ && _) eqn:C2; [|intros [= _ <-]; lia].
    intros [= <- <-]. right; left. apply andb_true_iff in C2 as [C2 C3]. apply cont_bounds in C1, C2, C3.
    assert (128 <= b1 <= 191 ∧ (b0 = 224 → 160 <= b1)) as [? ?]
      by (destruct (N.eqb_spec b0 224), (N.eqb_spec b0 237); lia).
    exists b0, b1, b2, t. split_and!; try lia; try done.
    rewrite H4, !H6 by lia. rewrite !lor_shift; [done| |rewrite lor_shift];
      change (2 ^ 6) with 64; change (2 ^ 12) with 4096; lia. }
  destruct (cont 240 244 b0) eqn:C2; [|intros [= _ <-]; lia].
  destruct t as [|b2 [|b3 t]]; [intros [= _ <-]; lia..|]. destruct (_ && _) eqn:C3; [|intros [= _ <-]; lia].
  intros [= <- <-]. right; right. apply andb_true_iff in C3 as [[C3 C4]%andb_true_iff C5]. apply cont_bounds in C2, C3, C4, C5.
  assert (128 <= b1 <= 191 ∧ (b0 = 240 → 144 <= b1)) as [? ?]
    by (destruct (N.eqb_spec b0 240), (N.eqb_spec b0 244); lia).
  exists b0, b1, b2, b3, t. split_and!; try lia; try done.
  rewrite H3, !H6 by lia.
  rewrite (lor_shift (b2 - 128)), (lor_shift (b1 - 128)), lor_shift; change (2 ^ 6) with 64; change (2 ^ 12) with 4096;
    change (2 ^ 18) with 262144; lia.
Qed.

(** A rune of two bytes or more is encoded as it was. *)
Lemma encode_decode_rune s r w : DecodeRune s = (r, w) → (2 <= w)%nat → EncodeRune r = take w s.
Proof.
  intros E Hw. unfold EncodeRune.
  destruct (long_rune s r w E Hw) as [(b0 & b1 & t & -> & -> & H0 & H1 & ->)|[
    (b0 & b1 & b2 & t & -> & -> & H0 & H1 & H2 & Hl & ->)|(b0 & b1 & b2 & b3 & t & -> & -> & H0 & H1 & H2 & H3 & Hl & ->)]];
    clear E; cbn [take];
    repeat match goal with |- context [?a <? ?b] => destruct (N.ltb_spec a b); try lia end;
    repeat f_equal; divlia.
Qed.

(** UTF-8: bytes below 128, and longer runes. *)
Inductive utf8 : list N → Prop :=
| utf8_nil : utf8 []
| utf8_ascii c l : c < 128 → utf8 l → utf8 (c :: l)
| utf8_rune l r w : DecodeRune l = (r, w) → (2 <= w)%nat → utf8 (drop w l) → utf8 l.

Lemma long_rune_bytes s r w :
  DecodeRune s = (r, w) → (2 <= w)%nat →
  Forall (λ b, 128 <= b < 256) (take w s) ∧ length (take w s) = w ∧ ∀ t, DecodeRune (take w s ++ t) = (r, w).
Proof.
  unfold DecodeRune. intros E Hw. destruct s as [|b0 [|b1 s]]; [simplify_eq/=; lia..|].
  revert E. cbn [rune_width]. destruct (cont 194 223 b0) eqn:C0.
  { destruct (cont 128 191 b1) eqn:C1; [|intros [= _ <-]; lia]. intros [= <- <-]. cbn. rewrite C0, C1.
    apply cont_bounds in C0, C1. split; [repeat (constructor; [lia|]); constructor|done]. }
  destruct (cont 224 239 b0) eqn:C1.
  { destruct s as [|b2 s]; [intros [= _ <-]; lia|]. destruct (_ && _) eqn:C2; [|intros [= _ <-]; lia].
    intros [= <- <-]. cbn. rewrite C0, C1, C2. apply andb_true_iff in C2 as [C2 C3]. apply cont_bounds in C1, C2, C3.
    split; [|done]. destruct (N.eqb_spec b0 224), (N.eqb_spec b0 237); repeat (constructor; [lia|]); constructor. }
  destruct (cont 240 244 b0) eqn:C2; [|intros [= _ <-]; lia].
  destruct s as [|b2 [|b3 s]]; [intros [= _ <-]; lia..|]. destruct (_ && _) eqn:C3; [|intros [= _ <-]; lia].
  intros [= <- <-]. cbn. rewrite C0, C1, C2, C3. apply andb_true_iff in C3 as [[C3 C4]%andb_true_iff C5].
  apply cont_bounds in C2, C3, C4, C5. split; [|done].
  destruct (N.eqb_spec b0 240), (N.eqb_spec b0 244); repeat (constructor; [lia|]); constructor.
Qed.

(** ** String literals *)

Definition escape_byte (c : N) : list N := bytes_of (escape_char (ascii_of_N c)).

Lemma escape_bytes s : bytes_of (escape s) = flat_map escape_byte (bytes_of s).
Proof.
  induction s as [|c s IH]; [done|]. cbn [escape]. rewrite bytes_of_app, IH. unfold escape_byte at 2.
  unfold bytes_of at 4. simpl. by rewrite ascii_N_embedding.
Qed.

(** What a byte becomes: itself, a short escape, or a unicode escape. *)
Inductive escaped (c : N) : list N → Prop :=
| escaped_self : 32 <= c → c ≠ 34 → c ≠ 92 → escaped c [c]
| escaped_short e : e ≠ 117 → simple_escape e = Some c → escaped c [92; e]
| escaped_long a b : is_hex a = true → is_hex b = true → hex4 48 48 a b = c → c < 128 → escaped c [92; 117; 48; 48; a; b].

Definition escaped_ok (c : N) : bool :=
  match escape_byte c with
  | [d] => (d =? c) && (32 <=? c) && negb (c =? 34) && negb (c =? 92)
  | [92; e] => negb (e =? 117) && bool_decide (simple_escape e = Some c)
  | [92; 117; 48; 48; a; b] => is_hex a && is_hex b && (hex4 48 48 a b =? c) && (c <? 128)
  | _ => false
  end.

Lemma escape_byte_shape c : c < 256 → escaped c (escape_byte c).
Proof.
  intros Hc. assert (escaped_ok c = true) as Hok.
  { assert (forallb (λ n, escaped_ok (N.of_nat n)) (List.seq 0 256) = true) as Hall by (vm_compute; reflexivity).
    rewrite forallb_forall in Hall. rewrite <- (N2Nat.id c). apply Hall, List.in_seq. lia. }
  revert Hok. unfold escaped_ok. generalize (escape_byte c). intros l. repeat case_match; try done; subst;
    rewrite ?andb_true_iff, ?negb_true_iff, ?N.leb_le, ?N.eqb_neq, ?N.eqb_eq, ?N.ltb_lt, ?bool_decide_eq_true;
    intros; destruct_and?; subst; by constructor.
Qed.

Lemma scan_escaped l r :
  Forall (λ c, c < 256) l → scan_string (flat_map escape_byte l ++ 34 :: r) = Some (flat_map escape_byte l, r).
Proof.
  induction 1 as [|c l Hc _ IH]; [done|]. cbn [flat_map]. rewrite <- app_assoc.
  destruct (escape_byte_shape c Hc) as [H1 H2 H3|e He Hs|a b Ha Hb _ _]; cbn [app scan_string].
  - apply N.eqb_neq in H2 as ->, H3 as ->. destruct (N.ltb_spec c 32); [lia|]. by rewrite IH.
  - apply N.eqb_neq in He. cbn. by rewrite He, Hs, IH.
  - cbn. by rewrite Ha, Hb, IH.
Qed.

Lemma unquote_escaped l :
  utf8 l → ∀ f, (length (flat_map escape_byte l) <= f)%nat → unquote_from f (flat_map escape_byte l) = l.
Proof.
  induction 1 as [|c l Hc Hl IH|l r w Hd Hw Hl IH]; intros f Hf.
  - by destruct f.
  - cbn [flat_map] in *. rewrite length_app in Hf.
    destruct (escape_byte_shape c ltac:(lia)) as [H1 H2 H3|e He Hs|a b Ha Hb Hv _]; cbn [length] in Hf;
      (destruct f as [|f]; [lia|]); cbn [app unquote_from].
    + apply N.eqb_neq in H3 as ->. apply N.ltb_lt in Hc as ->. f_equal. apply IH. lia.
    + rewrite N.eqb_refl, Hs. rewrite IH by lia. destruct (N.eqb_spec e 117) as [->|_]; [done|].
      destruct e as [|e]; [done|]. repeat (destruct e as [e|e|]; try done).
    + rewrite N.eqb_refl, Hv. unfold high_surrogate, low_surrogate.
      destruct (N.leb_spec 55296 c), (N.leb_spec 56320 c); try lia. cbn [andb].
      unfold EncodeRune. apply N.ltb_lt in Hc as ->. cbn [app]. f_equal. apply IH. lia.
  - destruct (long_rune_bytes l r w Hd Hw) as (Hb & Hlen & Happ).
    rewrite <- (take_drop w l) in Hf |- *. rewrite flat_map_app in Hf |- *.
    assert (flat_map escape_byte (take w l) = take w l) as Ht.
    { clear -Hb. induction Hb as [|c t Hc _ IH]; [done|]. cbn [flat_map]. rewrite IH.
      destruct (escape_byte_shape c ltac:(lia)) as [H1 H2 H3|e He Hs|a b Ha Hb Hv Hlt]; [done| |lia].
      exfalso. revert Hs. unfold simple_escape. repeat case_match; intros [= <-]; simplify_eq;
        rewrite ?orb_true_iff, ?N.eqb_eq in *; lia. }
    rewrite Ht in Hf |- *. rewrite length_app, Hlen in Hf. destruct f as [|f]; [lia|].
    destruct (take w l) as [|b t] eqn:El; [simpl in Hlen; lia|]. apply Forall_cons in Hb as [Hb _].
    cbn [app unquote_from]. destruct (N.eqb_spec b 92); [lia|]. destruct (N.ltb_spec b 128); [lia|].
    specialize (Happ (flat_map escape_byte (drop w l))). cbn [app] in Happ. rewrite Happ.
    assert (EncodeRune r = b :: t) as -> by (rewrite <- El; by eapply encode_decode_rune).
    change (b :: t ++ flat_map escape_byte (drop w l)) with ((b :: t) ++ flat_map escape_byte (drop w l)).
    rewrite drop_app_length' by done. rewrite IH by (simpl in *; lia). done.
Qed.

Definition utf8_string (s : string) : Prop := utf8 (bytes_of s).

Lemma bytes_below s : Forall (λ c, c < 256) (bytes_of s).
Proof.
  unfold bytes_of. apply Forall_forall. intros c (a & -> & _)%list_elem_of_fmap. apply N_ascii_bounded.
Qed.

Lemma scan_quoted s r : scan_string (bytes_of (escape s) ++ 34 :: r) = Some (bytes_of (escape s), r).
Proof. rewrite escape_bytes. apply scan_escaped, bytes_below. Qed.

Lemma unquote_quoted s : utf8_string s → string_of (unquote (bytes_of (escape s))) = s.
Proof.
  intros Hs. unfold unquote. rewrite escape_bytes, (unquote_escaped (bytes_of s)) by done. apply string_of_bytes_of.
Qed.

(** ** Numbers *)

Lemma digits_value_app acc l1 l2 :
  digits_value acc (l1 ++ l2) = match digits_value acc l1 with Some a => digits_value a l2 | None => None end.
Proof. revert acc. induction l1 as [|c l1 IH]; intros acc; [done|]. cbn. destruct (is_dec c); [apply IH|done]. Qed.

Lemma digit_char n : n < 10 → N_of_ascii (pretty_N_char n) = 48 + n ∧ is_dec (48 + n) = true.
Proof.
  intros Hn. split; [|unfold is_dec; rewrite andb_true_iff, !N.leb_le; lia].
  assert (n = 0 ∨ n = 1 ∨ n = 2 ∨ n = 3 ∨ n = 4 ∨ n = 5 ∨ n = 6 ∨ n = 7 ∨ n = 8 ∨ n = 9) as H by lia.
  destruct_or! H; by subst.
Qed.

Lemma pretty_go_digits x s :
  0 < x → ∃ d ds, bytes_of (pretty_N_go x s) = (d :: ds) ++ bytes_of s ∧
    Forall (λ c, is_dec c = true) (d :: ds) ∧ d ≠ 48 ∧ digits_value 0 (d :: ds) = Some x.
Proof.
  revert s. induction (N.lt_wf_0 x) as [x _ IH]. intros s Hx. rewrite pretty_N_go_step by done.
  destruct (digit_char (x mod 10)) as [Hc Hd]; [apply N.mod_lt; lia|].
  assert (bytes_of (String (pretty_N_char (x mod 10)) s) = (48 + x mod 10) :: bytes_of s) as Hb
    by (unfold bytes_of; simpl; by rewrite Hc).
  destruct (N.eq_dec (x / 10) 0) as [E|E].
  - rewrite E, pretty_N_go_0, Hb. exists (48 + x mod 10), [].
    assert (x < 10) by divlia. rewrite N.mod_small in * by done.
    split; [done|]. split; [by repeat constructor|]. split; [lia|]. cbn. rewrite Hd. f_equal. lia.
  - destruct (IH (x / 10) (N.div_lt x 10 Hx eq_refl) (String (pretty_N_char (x mod 10)) s)) as (d & ds & Eq & Hf & Hn & Hv);
      [by apply N.neq_0_lt_0|]. exists d, (ds ++ [48 + x mod 10]). rewrite Eq, Hb. split; [by rewrite app_comm_cons, <- app_assoc|].
    split; [rewrite app_comm_cons; apply Forall_app; split; [done|by repeat constructor]|]. split; [done|].
    rewrite app_comm_cons, digits_value_app, Hv. cbn [digits_value]. rewrite Hd. f_equal. divlia.
Qed.

(** What may follow a value. *)
Definition stops (r : list N) : Prop := match r with [] => True | c :: _ => c = 44 ∨ c = 93 ∨ c = 125 end.

Lemma stops_scan r : stops r → scan_digits r = ([], r) ∧ scan_frac r = Some ([], r) ∧ scan_exp r = Some ([], r).
Proof. destruct r as [|c r]; [done|]. intros [->|[->| ->]]; done. Qed.

Lemma scan_run ds r : Forall (λ c, is_dec c = true) ds → stops r → scan_digits (ds ++ r) = (ds, r).
Proof.
  intros Hd Hr. induction Hd as [|c ds Hc _ IH]; [apply stops_scan, Hr|]. cbn. by rewrite Hc, IH.
Qed.

Lemma scan_positive d ds r :
  Forall (λ c, is_dec c = true) (d :: ds) → d ≠ 48 → stops r → scan_number ((d :: ds) ++ r) = Some (d :: ds, r) ∧
    scan_number (45 :: (d :: ds) ++ r) = Some (45 :: d :: ds, r).
Proof.
  intros Hf Hn Hr. destruct (stops_scan r Hr) as (_ & Efr & Eex). pose proof (scan_run _ r Hf Hr) as Es.
  apply Forall_cons in Hf as [Hd Hf]. assert ((d =? 45) = false) as E45.
  { unfold is_dec in Hd. rewrite andb_true_iff, !N.leb_le in Hd. apply N.eqb_neq. lia. }
  apply N.eqb_neq in Hn. unfold scan_number. cbn [app] in *. split; [rewrite E45|cbn [N.eqb Pos.eqb]];
    cbv iota beta zeta; rewrite Hn, Hd, Es; cbv iota beta zeta; rewrite Efr, Eex; cbn [app]; by rewrite !app_nil_r.
Qed.

Lemma scan_pretty n r :
  stops r → ∃ c lit, bytes_of (pretty n) = c :: lit ∧ (c = 45 ∨ is_dec c = true) ∧
    scan_number (bytes_of (pretty n) ++ r) = Some (bytes_of (pretty n), r) ∧ number_value (bytes_of (pretty n)) = JNum n.
Proof.
  intros Hr. destruct (stops_scan r Hr) as (_ & Efr & Eex). destruct n as [|p|p].
  - exists 48, []. split; [done|]. split; [by right|]. split; [|done].
    unfold scan_number. change (bytes_of (pretty 0%Z) ++ r) with (48 :: r). cbn [N.eqb Pos.eqb]. cbv iota beta zeta.
    by rewrite Efr, Eex.
  - destruct (pretty_go_digits (N.pos p) "") as (d & ds & Eq & Hf & Hn & Hv); [lia|].
    change (pretty (Z.pos p)) with (pretty_N_go (N.pos p) ""). rewrite Eq, app_nil_r. exists d, ds. split; [done|].
    pose proof Hf as [Hd _]%Forall_cons. split; [by right|]. split; [by apply scan_positive|].
    unfold number_value. rewrite Hv. unfold is_dec in Hd. rewrite andb_true_iff, !N.leb_le in Hd.
    destruct d as [|d]; [done|]. repeat (destruct d as [d|d|]; try done); lia.
  - destruct (pretty_go_digits (N.pos p) "") as (d & ds & Eq & Hf & Hn & Hv); [lia|].
    change (pretty (Z.neg p)) with ("-" +:+ pretty_N_go (N.pos p) ""). rewrite bytes_of_app, Eq, app_nil_r.
    exists 45, (d :: ds). split; [done|]. split; [by left|]. split; [by apply scan_positive|].
    cbn [app bytes_of number_value]. change (bytes_of "-") with [45]. cbn [app number_value]. by rewrite Hv.
Qed.

(** ** Values *)

(** Strings are UTF-8 and numbers whole. *)
Fixpoint wire (v : json) : Prop :=
  match v with
  | JFrac _ => False
  | JStr s => utf8_string s
  | JArr l => (fix go (l : list json) : Prop := match l with [] => True | x :: l' => wire x ∧ go l' end) l
  | JObj l => (fix go (l : list (string * json)) : Prop :=
                 match l with [] => True | (k, x) :: l' => (utf8_string k ∧ wire x) ∧ go l' end) l
  | _ => True
  end.

Definition reads (v : json) : Prop := ∀ r f,
  stops r → (2 * length (bytes_of (json_text v) ++ r) + 1 <= f)%nat →
  ∃ x, parse_value f (bytes_of (json_text v) ++ r) = Some (x, r) ∧ json_of x = v.

(** A value's text starts with neither a blank nor a closing bracket. *)
Lemma text_head v : wire v → ∃ c t, bytes_of (json_text v) = c :: t ∧ is_ws c = false ∧ (c =? 93) = false.
Proof.
  destruct v as [|[]|n|lit|s|l|l]; cbn [wire]; try done; intros _; try (by eexists _, _; split; [reflexivity|done]).
  destruct (scan_pretty n []) as (c & t & E & Hc & _); [done|]. exists c, t. split; [exact E|].
  destruct Hc as [->|Hc]; [done|]. unfold is_dec in Hc. rewrite andb_true_iff, !N.leb_le in Hc.
  unfold is_ws. rewrite !orb_false_iff, !N.eqb_neq. lia.
Qed.

Lemma skip_text v r : wire v → skip_ws (bytes_of (json_text v) ++ r) = bytes_of (json_text v) ++ r.
Proof. intros (c & t & -> & Hw & _)%text_head. cbn. by rewrite Hw. Qed.

Lemma reads_elements l r f :
  Forall (λ v, wire v ∧ reads v) l → l ≠ [] →
  (2 * length (bytes_of (String.concat "," (List.map json_text l)) ++ 93%N :: r) + 2 <= f)%nat →
  ∃ xs, parse_elements f (bytes_of (String.concat "," (List.map json_text l)) ++ 93 :: r) = Some (xs, r) ∧
    List.map json_of xs = l.
Proof.
  intros Hl. revert f. induction Hl as [|v l [Hw Hv] Hl IH]; intros f Hne Hf; [done|].
  destruct f as [|f]; [lia|]. cbn [parse_elements]. destruct l as [|v2 l].
  - cbn [List.map String.concat] in *. destruct (Hv (93 :: r) f) as (x & -> & Hx); [by right; left|lia|].
    cbn. exists [x]. by rewrite <- Hx.
  - change (String.concat "," (List.map json_text (v :: v2 :: l)))
      with (json_text v +:+ "," +:+ String.concat "," (List.map json_text (v2 :: l))) in *.
    set (rest := String.concat "," (List.map json_text (v2 :: l))) in *.
    rewrite !bytes_of_app, <- !app_assoc in *. change (bytes_of ",") with [44] in *. cbn [app] in *.
    destruct (Hv (44 :: bytes_of rest ++ 93 :: r) f) as (x & -> & Hx); [by left|lia|]. cbn [skip_ws is_ws N.eqb Pos.eqb orb].
    destruct (IH f) as (xs & -> & Hxs); [done|rewrite !length_app in *; cbn [length] in *; rewrite length_app in *; cbn [length] in *; lia|].
    exists (x :: xs). split; [done|]. cbn. by rewrite Hx, Hxs.
Qed.

Definition member_text (m : string * json) : string := quoted m.1 +:+ ":" +:+ json_text m.2.

Lemma reads_members l r f :
  Forall (λ m : string * json, utf8_string m.1 ∧ wire m.2 ∧ reads m.2) l → l ≠ [] →
  (2 * length (bytes_of (String.concat "," (List.map member_text l)) ++ 125%N :: r) + 2 <= f)%nat →
  ∃ ms, parse_members f (bytes_of (String.concat "," (List.map member_text l)) ++ 125 :: r) = Some (ms, r) ∧
    List.map (λ m, (string_of (unquote m.1), json_of m.2)) ms = l.
Proof.
  intros Hl. revert f. induction Hl as [|[k v] l (Hk & Hw & Hv) Hl IH]; intros f Hne Hf; [done|].
  destruct f as [|f]; [lia|]. cbn [fst snd] in *.
  assert (∀ tail, stops tail → (2 * length (bytes_of (member_text (k, v)) ++ tail) + 2 <= S f)%nat →
    ∃ key l1 x, bytes_of (member_text (k, v)) ++ tail = 34 :: l1 ∧
      scan_string l1 = Some (key, 58 :: bytes_of (json_text v) ++ tail) ∧ string_of (unquote key) = k ∧
      parse_value f (bytes_of (json_text v) ++ tail) = Some (x, tail) ∧ json_of x = v) as Hm.
  { intros tail Ht Hlen. exists (bytes_of (escape k)), (bytes_of (escape k) ++ 34 :: 58 :: bytes_of (json_text v) ++ tail).
    revert Hlen. unfold member_text, quoted, quote. cbn [fst snd]. rewrite !bytes_of_app.
    change (bytes_of (String (ascii_of_N 34) EmptyString)) with [34]. change (bytes_of ":") with [58].
    rewrite <- !app_assoc. cbn [app]. intros Hlen.
    destruct (Hv tail f) as (x & Ex & Hx); [done|cbn [length] in Hlen; rewrite !length_app in *; cbn [length] in *; rewrite ?length_app in *; lia|].
    exists x. split; [done|]. split; [apply scan_quoted|]. split; [by apply unquote_quoted|]. by split. }
  destruct l as [|m2 l].
  - cbn [List.map String.concat] in *. destruct (Hm (125 :: r)) as (key & l1 & x & E & Es & Ek & Ev & Ex); [by right; right|lia|].
    rewrite E. cbn [parse_members skip_ws is_ws N.eqb Pos.eqb orb]. rewrite Es. cbn [skip_ws is_ws N.eqb Pos.eqb orb].
    rewrite Ev. cbn [skip_ws is_ws N.eqb Pos.eqb orb]. eexists. split; [done|]. cbn [List.map fst snd]. by rewrite Ek, Ex.
  - change (String.concat "," (List.map member_text ((k, v) :: m2 :: l)))
      with (member_text (k, v) +:+ "," +:+ String.concat "," (List.map member_text (m2 :: l))) in *.
    set (rest := String.concat "," (List.map member_text (m2 :: l))) in *.
    rewrite !bytes_of_app, <- !app_assoc in *. change (bytes_of ",") with [44] in *. cbn [app] in *.
    destruct (Hm (44 :: bytes_of rest ++ 125 :: r)) as (key & l1 & x & E & Es & Ek & Ev & Ex); [by left|lia|].
    rewrite E in *. cbn [parse_members skip_ws is_ws N.eqb Pos.eqb orb]. rewrite Es. cbn [skip_ws is_ws N.eqb Pos.eqb orb].
    rewrite Ev. cbn [skip_ws is_ws N.eqb Pos.eqb orb].
    destruct (IH f) as (ms & -> & Hms); [done| |].
    { apply scan_string_length in Es. cbn [length] in *. rewrite !length_app in *. cbn [length] in *. rewrite ?length_app in *. cbn [length] in *. lia. }
    eexists. split; [done|]. cbn [List.map fst snd]. by rewrite Ek, Ex, Hms.
Qed.

Lemma json_text_obj l : json_text (JObj l) = "{" +:+ String.concat "," (List.map member_text l) +:+ "}".
Proof.
  cbn [json_text]. do 3 f_equal. induction l as [|[k x] l IH]; [done|]. cbn [List.map]. by rewrite <- IH.
Qed.

Lemma json_of_obj ms : json_of (RObject ms) = JObj (List.map (λ m, (string_of (unquote m.1), json_of m.2)) ms).
Proof. cbn [json_of]. f_equal. induction ms as [|[k x] ms IH]; [done|]. cbn [List.map fst snd]. by rewrite <- IH. Qed.

Lemma reads_arr l : Forall (λ v, wire v ∧ reads v) l → reads (JArr l).
Proof.
  intros Hl r f Hr. cbn [json_text]. rewrite !bytes_of_app, <- !app_assoc. change (bytes_of "[") with [91].
  change (bytes_of "]") with [93]. cbn [app length]. intros Hf. destruct f as [|f]; [lia|].
  cbn [parse_value skip_ws is_ws N.eqb Pos.eqb orb]. destruct l as [|v l].
  - cbn. by eexists.
  - destruct (reads_elements (v :: l) r f) as (xs & Ex & Hx); [done..|lia|].
    apply Forall_cons in Hl as [[Hw _] _].
    assert (∃ c t, bytes_of (String.concat "," (List.map json_text (v :: l))) ++ 93 :: r = c :: t ∧
      is_ws c = false ∧ (c =? 93) = false) as (c & t & E & Hc & H93).
    { destruct (text_head v Hw) as (c & t & E & ? & ?). destruct l as [|v2 l].
      - cbn [List.map String.concat]. rewrite E. by eexists _, _.
      - change (String.concat "," (List.map json_text (v :: v2 :: l)))
          with (json_text v +:+ "," +:+ String.concat "," (List.map json_text (v2 :: l))).
        rewrite bytes_of_app, E. by eexists _, _. }
    rewrite E in Ex |- *. cbn [skip_ws]. rewrite Hc, H93, Ex. eexists. split; [done|]. cbn [json_of]. by rewrite Hx.
Qed.

Lemma reads_obj l : Forall (λ m : string * json, utf8_string m.1 ∧ wire m.2 ∧ reads m.2) l → reads (JObj l).
Proof.
  intros Hl r f Hr. rewrite json_text_obj, !bytes_of_app, <- !app_assoc. change (bytes_of "{") with [123].
  change (bytes_of "}") with [125]. cbn [app length]. intros Hf. destruct f as [|f]; [lia|].
  cbn [parse_value skip_ws is_ws N.eqb Pos.eqb orb]. destruct l as [|m l].
  - cbn. by eexists.
  - destruct (reads_members (m :: l) r f) as (ms & Ex & Hx); [done..|lia|].
    assert (∃ t, bytes_of (String.concat "," (List.map member_text (m :: l))) ++ 125 :: r = 34 :: t) as (t & E).
    { destruct l as [|m2 l]; [by eexists|].
      change (String.concat "," (List.map member_text (m :: m2 :: l)))
        with (member_text m +:+ "," +:+ String.concat "," (List.map member_text (m2 :: l))).
      rewrite bytes_of_app. unfold member_text at 1, quoted, quote. rewrite !bytes_of_app. by eexists. }
    rewrite E in Ex |- *. cbn [skip_ws is_ws N.eqb Pos.eqb orb]. rewrite Ex. eexists. split; [done|].
    by rewrite json_of_obj, Hx.
Qed.

Lemma reads_scalar v r f :
  wire v → match v with JArr _ | JObj _ => False | _ => True end → stops r → (1 <= f)%nat →
  ∃ x, parse_value f (bytes_of (json_text v) ++ r) = Some (x, r) ∧ json_of x = v.
Proof.
  intros Hw Hk Hr Hf. destruct f as [|f]; [lia|]. destruct v as [|[]|n|lit|s|l|l]; try done; cbn [json_text].
  - by eexists.
  - by eexists.
  - by eexists.
  - destruct (scan_pretty n r Hr) as (c & lit & E & Hc & Es & Hv).
    assert (is_ws c = false ∧ (c =? 123) = false ∧ (c =? 91) = false ∧ (c =? 34) = false ∧ (c =? 110) = false ∧
      (c =? 116) = false ∧ (c =? 102) = false) as (E1 & E2 & E3 & E4 & E5 & E6 & E7).
    { destruct Hc as [->|Hc]; [done|]. unfold is_dec in Hc. rewrite andb_true_iff, !N.leb_le in Hc.
      unfold is_ws. rewrite !orb_false_iff, !N.eqb_neq. lia. }
    exists (RNumber (bytes_of (pretty n))). split; [|done]. rewrite E in Es |- *. cbn [app] in Es |- *.
    cbn [parse_value skip_ws]. rewrite E1, E2, E3. unfold scalar. by rewrite E4, E5, E6, E7, Es.
  - exists (RString (bytes_of (escape s))). unfold quoted, quote. rewrite !bytes_of_app, <- !app_assoc.
    change (bytes_of (String (ascii_of_N 34) EmptyString)) with [34]. cbn [app].
    cbn [parse_value skip_ws is_ws N.eqb Pos.eqb orb]. unfold scalar. cbn [N.eqb Pos.eqb]. rewrite scan_quoted.
    split; [done|]. cbn [json_of]. by rewrite unquote_quoted.
Qed.

Lemma reads_wire v : wire v → reads v.
Proof.
  revert v. refine (fix IH (v : json) : wire v → reads v := _). intros Hw.
  destruct v as [| | | |s|l|l]; try (intros r f Hr Hf; apply reads_scalar; [done..|lia]).
  - apply reads_arr. cbn [wire] in Hw. induction l as [|x l IHl]; [constructor|]. destruct Hw as [Hx Hl].
    constructor; [split; [done|by apply IH]|by apply IHl].
  - apply reads_obj. cbn [wire] in Hw. induction l as [|[k x] l IHl]; [constructor|]. destruct Hw as [[Hk Hx] Hl].
    constructor; [split; [done|split; [done|by apply IH]]|by apply IHl].
Qed.

(** What [json.Marshal] printed is what the decoder reads. *)
Lemma Decode_text limit v :
  wire v → (String.length (json_text v) <= limit)%nat → Decode limit (json_text v) = Some v.
Proof.
  intros Hw Hl. unfold Decode. rewrite take_ge by (by rewrite string_length_bytes).
  destruct (reads_wire v Hw [] (fuel_for (bytes_of (json_text v)))) as (x & Ex & Hx); [done|unfold fuel_for; rewrite app_nil_r; lia|].
  rewrite app_nil_r in Ex. rewrite Ex. by rewrite Hx.
Qed.
