(* ===== verification/ClientsSpec.v ===== *)
(** * ClientsSpec: what the services learn from the others

    A list another service serialises arrives as it was sent, and a plan change
    is allowed only on what was really answered. *)

From Stdlib Require Import String.
From S2P Require Import Prelude Domain Schema Tx TenantRepo Json Consumer Wire JsonParse CatalogService TenantService Clients.
From S2P Require Import LifecycleSpec JsonSpec.
Open Scope Z_scope.

(** ** What the peers print *)

Section peers.
  Context `{Env}.

(** A row of CAT-I1's answer. *)
Definition department_json (d : CatalogDepartment) : json :=
  JObj [("id", JUuid (cd_ID d)); ("code", JStr (cd_Code d)); ("name", JStr (cd_Name d));
        ("is_system", JBool (cd_IsSystem d)); ("is_active", JBool (cd_IsActive d));
        ("record_version", JNum (cd_RecordVersion d))].

Definition departments_json (ds : list CatalogDepartment) (asOf : string) : json :=
  JObj [("departments", JArr (List.map department_json ds)); ("as_of", JStr asOf)].

(** GM-I1's answer. *)
Definition mapping_json {A} (field : string) (text : A → string) (m : string * A) : json :=
  JObj [("keycloak_group_name", JStr m.1); (field, JStr (text m.2))].

Definition resolution_json (r : GroupResolution) : json :=
  JObj [("dept_mappings", JArr (List.map (mapping_json "department_id" uuid_String) (gr_DeptMappings r)));
        ("dept_role_mappings", JArr (List.map (mapping_json "role_code" dept_role_text) (gr_DeptRoleMappings r)));
        ("tenant_role_mappings", JArr (List.map (mapping_json "role_code" role_text) (gr_TenantRoleMappings r)))].

Definition int64 (n : Z) : Prop := -9223372036854775808 <= n <= 9223372036854775807.

Lemma read_int_64 n : int64 n → read_int (JNum n) = Some n.
Proof. intros [H1 H2]. cbn. by rewrite (proj2 (Z.leb_le _ _) H1), (proj2 (Z.leb_le _ _) H2). Qed.

Lemma read_uuid_text u : read_uuid (JStr (uuid_String u)) = Some u.
Proof. apply uuid_Parse_String. Qed.

Lemma read_list_map {A} zero (read : json → option A) (text : A → json) l :
  (∀ a, a ∈ l → text a ≠ JNull ∧ read (text a) = Some a) → read_list zero read (JArr (List.map text l)) = Some l.
Proof.
  intros Hl. cbn. induction l as [|a l IH]; [done|].
  assert (element zero read (text a) = Some a) as Ha.
  { destruct (Hl a) as [Hn Hr]; [left|]. unfold element. by destruct (text a). }
  cbn. rewrite Ha. cbn. rewrite IH; [done|]. intros b Hb. apply Hl. by right.
Qed.

Lemma department_back d : int64 (cd_RecordVersion d) → read_struct CatalogDepartment_decode (department_json d) = Some d.
Proof.
  intros Hv. unfold department_json, read_struct, CatalogDepartment_decode. cbn -[read_uuid read_int].
  unfold JUuid. rewrite read_uuid_text, (read_int_64 _ Hv). cbn. by destruct d.
Qed.

Lemma wire_arr l : Forall wire l → wire (JArr l).
Proof. intros Hl. cbn [wire]. by induction Hl. Qed.

#[local] Ltac utf8_literal :=
  unfold utf8_string; cbn; repeat (apply utf8_ascii; [reflexivity|]); apply utf8_nil.

(** The texts of a department. *)
Definition department_text (d : CatalogDepartment) : Prop :=
  utf8_string (uuid_String (cd_ID d)) ∧ utf8_string (cd_Code d) ∧ utf8_string (cd_Name d) ∧ int64 (cd_RecordVersion d).

Lemma department_wire d : department_text d → wire (department_json d).
Proof. intros (Hi & Hc & Hn & _). cbn [wire department_json JUuid]. split_and!; try done; utf8_literal. Qed.

Lemma departments_wire ds asOf : Forall department_text ds → utf8_string asOf → wire (departments_json ds asOf).
Proof.
  intros Hds Ha. cbn [wire departments_json]. split_and!; try done; try utf8_literal. apply wire_arr.
  induction Hds as [|d ds Hd _ IH]; [constructor|]. constructor; [by apply department_wire|done].
Qed.

(** The catalog's departments arrive as they were sent: whatever list the Catalog
    Service serialises, in UTF-8 and within the client's limit, with any 2xx
    status, is the list the client returns. *)
Theorem CatalogDepartments_round_trip Do baseURL ds asOf status :
  baseURL ≠ ""%string → success status = true →
  Forall department_text ds → utf8_string asOf →
  (String.length (json_text (departments_json ds asOf)) <= body_limit)%nat →
  (∀ req, Do req = Ok (mkOutResponse status (json_text (departments_json ds asOf)))) →
  CatalogDepartments Do baseURL = Ok ds.
Proof.
  intros Hb Hs Hds Ha Hl HDo. unfold CatalogDepartments, catalog_get. apply String.eqb_neq in Hb as ->.
  rewrite HDo. cbn [os_StatusCode]. rewrite Hs. cbn [andThen]. unfold decode_body. cbn [os_Body].
  rewrite Decode_text by (done || by apply departments_wire).
  cbn [andThen members departments_json decode_field].
  change (citext_eq "departments" "departments") with true. change (citext_eq "as_of" "departments") with false.
  cbv iota. rewrite (read_list_map _ _ department_json).
  - change (citext_eq "departments" "as_of") with false. change (citext_eq "as_of" "as_of") with true. done.
  - intros d Hd. split; [done|]. apply department_back. rewrite Forall_forall in Hds. by apply Hds.
Qed.

End peers.

(** ** A plan change *)

(** What RP-11 answered at the [n]-th call. *)
Definition idp_answer `{Env} (net : nat → Doer) (baseURL : string) (n : nat) (tenantID : uuid) (count : Z) : Prop :=
  ∃ req body, or_Method req = "GET"%string ∧
    or_URL req = baseURL +:+ "/api/v1/internal/tenants/" +:+ uuid_String tenantID +:+ "/realm" ∧
    net n req = Ok (mkOutResponse 200 body) ∧
    andThen (members (Decode small_limit body)) (decode_field "idp_count" read_int 0) = Ok count.

Lemma GetIDPCount_answer `{Env} net baseURL n tenantID count :
  GetIDPCount (net n) baseURL tenantID = Ok count →
  baseURL = ""%string ∧ count = 0 ∨ idp_answer net baseURL n tenantID count.
Proof.
  unfold GetIDPCount. destruct (String.eqb_spec baseURL "") as [->|Hb]; [intros [= <-]; by left|].
  destruct (net n _) as [[status body]|e] eqn:E; [|done]. cbn [os_StatusCode].
  destruct (Z.eqb_spec status 200) as [->|]; [|done]. cbn [negb].
  unfold decode_body. cbn [os_Body]. destruct (andThen _ _) as [m|e] eqn:Ed; [|done]. intros [= <-]. right.
  eexists _, body. split; [|split; [|split; [exact E|done]]]; done.
Qed.

(** A plan change fails closed (I-18, CD-20), down to the wire.  With every
    collaborator its HTTP client, on any network: when the check answers, either
    the catalog confirmed that the target plan has SSO, or the answer is the
    number of identity providers that the Realm Provisioner returned with status
    200 at that call, or zero where none is configured. *)
Lemma plan_change_answer (E : Env) sha256 cc net fresh (C : CatalogReader) tenantID plan w r w' :
  let clients := clients_env E sha256 cc net fresh in
  PlanChangeCheck (H := clients) tenantID plan w = (Ok r, w') →
  ∃ t w1 sso w2, TenantService.Get (H := clients) tenantID w = (Ok t, w1) ∧
    plan_has_sso (H := clients) plan w1 = (Ok sso, w2) ∧
    (pcr_Allowed r = true ∧ sso = true ∨
     sso = false ∧ ∃ count, pcr_Allowed r = (count <=? 0) ∧
       (cc_realmProvisioner cc = ""%string ∧ count = 0 ∨
        idp_answer net (cc_realmProvisioner cc) (length (w_calls w2)) tenantID count)).
Proof.
  intros clients. unfold PlanChangeCheck. intros (u1 & w1 & E1 & Hk)%bindM_ok.
  unfold throw_if in E1. destruct (String.eqb _ _); [done|]. injection E1 as <- <-.
  apply bindM_ok in Hk as (u2 & w1 & E1 & Hk). unfold throw_if in E1. destruct (negb _); [done|]. injection E1 as <- <-.
  apply bindM_ok in Hk as (t & w1 & Et & Hk). apply bindM_ok in Hk as (sso & w2 & Es & Hk).
  exists t, w1, sso, w2. split; [done|]. split; [done|]. destruct sso; [injection Hk as <- _; by left|].
  right. split; [done|]. cbn [has_idpReader clients clients_env negb] in Hk. unfold bindM, call in Hk.
  change (idp_GetIDPCount (length (w_calls w2)) tenantID)
    with (GetIDPCount (net (length (w_calls w2))) (cc_realmProvisioner cc) tenantID) in Hk.
  destruct (GetIDPCount _ _ _) as [count|e] eqn:Ec; [|done]. injection Hk as <- _. exists count.
  split; [|by apply GetIDPCount_answer in Ec]. destruct (Z.ltb_spec 0 count), (Z.leb_spec count 0); done || lia.
Qed.
