(* ===== verification/ServerSpec.v ===== *)
(** * ServerSpec: the deployed server

    What the settings of the processes mean for the services: the limits, the
    clients and the queues as [main] wires them; readiness, the documentation
    and the order of shutdown. *)

From Stdlib Require Import String.
From S2P Require Import Prelude Domain Schema Tx Wp Wire Utf8 EventStores Consumer CatalogService InvitationService.
From S2P Require Import ProvisioningService TenantService Jobs EventBus Pipeline Http HttpHandlers Router Clients Startup Server Boot.
From S2P Require Import CacheKeys LifecycleSpec ReadModels AuthzService AuthzSpec CacheSpec InvitationSpec PipelineSpec ClientsSpec.
From S2P Require CatalogConsumer.
Open Scope Z_scope.

(** ** Settings *)

(** A setting with a positive default stays positive, whatever is set. *)
Lemma envInt_pos env key def : 0 < def → 0 < envInt env key def.
Proof.
  intros Hd. unfold envInt. destruct (String.eqb _ _); [done|]. destruct (ParseInt _) as [n|]; [|done].
  by destruct (Z.ltb_spec 0 n).
Qed.

Lemma envDuration_pos env key def : 0 < def → 0 < envDuration env key def.
Proof.
  intros Hd. unfold envDuration. destruct (String.eqb _ _); [done|]. destruct (ParseDuration _) as [d|]; [|done].
  by destruct (Z.ltb_spec 0 d).
Qed.

(** Every number and unit takes at least one byte: [duration_sum] has fuel
    enough. *)
Lemma leadingInt_length acc l v r : leadingInt acc l = Some (v, r) → (length r <= length l)%nat.
Proof.
  revert acc. induction l as [|c l IH]; intros acc; simpl; [by intros [= _ <-]|].
  destruct (JsonParse.is_dec c); [|by intros [= _ <-]]. destruct (_ || _); [done|]. intros Hr%IH. lia.
Qed.

Lemma leadingFraction_length acc scale b l f s r :
  leadingFraction acc scale b l = (f, s, r) → (length r <= length l)%nat.
Proof.
  revert acc scale b. induction l as [|c l IH]; intros acc scale b; simpl; [by intros [= _ _ <-]|].
  destruct (JsonParse.is_dec c); [|by intros [= _ _ <-]]. destruct (_ || _); intros Hr%IH; lia.
Qed.

Lemma span_unit_length l u r : span_unit l = (u, r) → length l = (length u + length r)%nat.
Proof.
  revert u r. induction l as [|c l IH]; intros u r; simpl; [by intros [= <- <-]|].
  destruct (_ || _); [by intros [= <- <-]|]. destruct (span_unit l) as [u' r'] eqn:E. intros [= <- <-].
  simpl. by rewrite (IH u' r').
Qed.

Lemma duration_step_shorter l v r : duration_step l = Some (v, r) → (length r < length l)%nat.
Proof.
  unfold duration_step. destruct l as [|c l]; [done|]. set (l0 := c :: l). clearbody l0.
  destruct (negb _); [done|]. destruct (leadingInt 0 l0) as [[v0 r0]|] eqn:Ei; [|done]. apply leadingInt_length in Ei.
  destruct (match r0 with c0 :: _ => _ | [] => _ end) as [[[f s] r1] post] eqn:Ex.
  assert (length r1 <= length r0)%nat as Hr1.
  { destruct r0 as [|c0 r0]; [by injection Ex as _ _ <- _|]. destruct (N.eqb c0 46); [|by injection Ex as _ _ <- _].
    destruct (leadingFraction 0 1 false r0) as [[f' s'] r'] eqn:Ef. injection Ex as _ _ <- _.
    apply leadingFraction_length in Ef. simpl. lia. }
  destruct (negb _ && negb _); [done|]. destruct (span_unit r1) as [u rest] eqn:Eu. apply span_unit_length in Eu.
  destruct (unit_of u) as [un|] eqn:En; [|done]. destruct u as [|c' u]; [by vm_compute in En|]. simpl in Eu.
  destruct (_ <? v0); [done|]. destruct (_ <? _); [done|]. intros [= _ <-]. lia.
Qed.

Lemma duration_sum_enough fuel fuel' acc l :
  (length l <= fuel)%nat → (length l <= fuel')%nat → duration_sum fuel acc l = duration_sum fuel' acc l.
Proof.
  revert fuel' acc l. induction fuel as [|fuel IH]; intros fuel' acc l Hf Hf'; destruct l as [|c l];
    cbn [duration_sum length] in *; try lia.
  - by destruct fuel'.
  - by destruct fuel'.
  - destruct fuel' as [|fuel']; cbn [duration_sum]; [lia|]. destruct (duration_step (c :: l)) as [[v r]|] eqn:E; [|done].
    apply duration_step_shorter in E. simpl in E. destruct (_ <? _); [done|]. apply IH; lia.
Qed.


(** ** Invitations *)

(** C17: the deployed server creates no invitation.  Its per-actor hourly limit
    (SECURITY-5) is positive whatever INVITE_MAX_PER_ACTOR_PER_HOUR holds, and
    the query behind it names a column [pending_invitations] does not have: every
    invitation fails, in every state, whatever else is running. *)
Theorem deployed_invitations_fail `{Env} `{CatalogReader} env protected time_Parse tid req actor w :
  ∃ e w', Invite (hc_invitations (server_http env protected time_Parse)) tid req actor w = (Err e, w').
Proof. apply invite_fails_with_limit, envInt_pos. done. Qed.

(** ** The plan change check *)

(** A key without an exemption that applies is set once the check passed. *)
Lemma required_set env appEnv warned r :
  validateRequiredEnv env appEnv = Ok warned → r ∈ reqs →
  req_devOK r && isDevLikeAppEnv appEnv = false → req_stagingWarn r && isStaging appEnv = false →
  Getenv env (req_key r) ≠ ""%string.
Proof.
  unfold validateRequiredEnv. destruct (check_reqs env appEnv reqs) as [missing warned'] eqn:E.
  destruct (missing ++ _) as [|] eqn:Em; [|done]. intros _. apply app_eq_nil in Em as [-> _]. revert warned' E.
  generalize reqs as l. induction l as [|r' l IH]; intros warned' E Hr Hd Hs; [by apply elem_of_nil in Hr|].
  cbn [check_reqs] in E. destruct (check_reqs env appEnv l) as [m1 w1].
  apply elem_of_cons in Hr as [<-|Hr].
  - rewrite Hd, Hs in E. destruct (String.eqb_spec (Getenv env (req_key r)) ""); [done|done].
  - assert (m1 = []) as ->.
    { revert E. repeat case_match; congruence. }
    revert E. repeat case_match; try discriminate; intros [= _]; by eapply IH.
Qed.

Lemma set_kept env key def : Getenv env key ≠ ""%string → envOr env key def = Getenv env key.
Proof. intros Hk. unfold envOr. by apply String.eqb_neq in Hk as ->. Qed.

(** C6: a plan change fails closed (I-18, CD-20), from the start of the server
    down to the wire.  Outside the developer environments, once [main] has
    started the server, with every collaborator its HTTP client as configured, on
    any network: when the check answers, the tenant was read and either the
    catalog confirmed that the target plan has SSO, and the change is allowed, or
    it did not, and the answer is the number of identity providers that GET
    .../tenants/{id}/realm returned with status 200 at that call: allowed exactly
    when it is not positive.  A body without the field counts as zero. *)
Theorem plan_change_fail_closed (E : Env) (C : CatalogReader) (I : InboxStore) env L protected time_Parse source now w0 srv s0
    sha256 net fresh tenantID plan w r w' :
  let clients := clients_env E sha256 (clients_from_env env) net fresh in
  server_start (H := clients) env L protected time_Parse source now (no_boot, w0) = (inl srv, s0) →
  isDevLikeAppEnv (resolveAppEnv env) = false →
  PlanChangeCheck (H := clients) tenantID plan w = (Ok r, w') →
  ∃ t w1 sso w2, TenantService.Get (H := clients) tenantID w = (Ok t, w1) ∧
    plan_has_sso (H := clients) plan w1 = (Ok sso, w2) ∧
    (pcr_Allowed r = true ∧ sso = true ∨
     sso = false ∧ ∃ count, pcr_Allowed r = (count <=? 0) ∧
       idp_answer net (Getenv env "REALM_PROVISIONER_BASE_URL") (length (w_calls w2)) tenantID count).
Proof.
  intros clients Hst Hdev Hr. apply start_started, st_required in Hst.
  destruct (validateRequiredEnv env (resolveAppEnv env)) as [warned|] eqn:Hv; [|done].
  assert (Getenv env "REALM_PROVISIONER_BASE_URL" ≠ ""%string) as Hset.
  { eapply (required_set env _ warned (mkReq "REALM_PROVISIONER_BASE_URL" true false _)); [done|do 5 right; left|by cbn|done]. }
  apply plan_change_answer in Hr as (t & w1 & sso & w2 & Ht & Hs & Hc). exists t, w1, sso, w2. split; [done|]. split; [done|].
  destruct Hc as [Hc|(-> & count & Ha & Hw)]; [by left|]. right. split; [done|]. exists count. split; [done|].
  cbn [cc_realmProvisioner clients_from_env] in Hw. rewrite (set_kept env _ _ Hset) in Hw.
  destruct Hw as [[? _]|Hw]; [done|exact Hw].
Qed.

(** ** The publishers *)

Section publishers.
  Context (json_Compact : list N → result error (list N)).
  Context (registries : string → string → list N → result error GlueSchema).
  Context (schemasFS : result error (list DirEntry)).
  Context (NewSNSPublisher : string → topicCodec → result error Publisher).

(** A codec of a registry that was built has the registry's version of every
    name it was built for. *)
Lemma glue_codec_covers reg names versions versions' name :
  newGlueCodecFromFS json_Compact (registries reg) schemasFS names versions = Ok versions' →
  name ∈ names ∨ (∃ id, versions !! name = Some id ∧ fetchVersionID json_Compact (registries reg) schemasFS name = Ok id) →
  ∃ id, versions' !! name = Some id ∧ fetchVersionID json_Compact (registries reg) schemasFS name = Ok id.
Proof.
  revert versions. induction names as [|n names IH]; intros versions; cbn [newGlueCodecFromFS].
  - intros [= <-] [Hn|Hn]; [by apply elem_of_nil in Hn|exact Hn].
  - destruct (fetchVersionID _ _ _ n) as [id|e] eqn:En; [|done]. intros Hok Hin. apply (IH _ Hok).
    destruct (decide (name = n)) as [->|Hne].
    + right. exists id. by rewrite lookup_insert_eq.
    + destruct Hin as [[->|Hin]%elem_of_cons|(id' & Hid & Hf)]; [done|by left|].
      right. exists id'. by rewrite lookup_insert_ne.
Qed.

Lemma codec_of_topic reg names codec name :
  buildTopicCodec json_Compact registries schemasFS reg names = Ok codec → reg ≠ ""%string → name ∈ names →
  ∃ versions id, codec = GlueCodec reg versions ∧ versions !! name = Some id ∧
    fetchVersionID json_Compact (registries reg) schemasFS name = Ok id.
Proof.
  unfold buildTopicCodec. intros Hb Hr%String.eqb_neq Hn. rewrite Hr in Hb.
  destruct (newGlueCodecFromFS _ _ _ _ _) as [versions|e] eqn:Ev; [|done]. cbn in Hb. injection Hb as <-.
  destruct (glue_codec_covers _ _ _ _ name Ev) as (id & Hid & Hf); [by left|]. by exists versions, id.
Qed.

(** Outside the developer environments nothing the service publishes is dropped
    or leaves unregistered: once the server has started, the publisher an event
    is routed to is the SNS publisher of the event's own topic, with a Glue
    codec that resolved the event's schema in the registry of that topic. *)
Theorem production_publishers env appEnv warned r names name :
  isDevLikeAppEnv appEnv = false → validateRequiredEnv env appEnv = Ok warned →
  routingPublisher json_Compact registries schemasFS NewSNSPublisher env = Ok r →
  AllSchemaNames schemasFS = Ok names → name ∈ names →
  let '(arnKey, registryKey) := if String.eqb (TopicForEvent name) TopicTenant
                                then ("SNS_TOPIC_TENANT_ARN", "GLUE_REGISTRY_TENANT_NAME")%string
                                else ("SNS_TOPIC_MEMBERSHIP_ARN", "GLUE_REGISTRY_MEMBERSHIP_NAME")%string in
  ∃ pub versions id,
    fst (pubForType r name) = Some pub ∧
    NewSNSPublisher (Getenv env arnKey) (GlueCodec (Getenv env registryKey) versions) = Ok pub ∧
    Getenv env arnKey ≠ ""%string ∧ versions !! name = Some id ∧
    fetchVersionID json_Compact (registries (Getenv env registryKey)) schemasFS name = Ok id.
Proof.
  intros Hdev Hv Hr Hnames Hn.
  assert (∀ key reason, mkReq key true false reason ∈ reqs → Getenv env key ≠ ""%string) as Hset.
  { intros key reason Hin. apply (required_set env appEnv warned _ Hv Hin); cbn; [done|done]. }
  unfold routingPublisher, server_codecs in Hr. rewrite Hnames in Hr. cbn [andThen stage] in Hr.
  destruct (buildTopicCodec _ _ _ _ (membershipSchemas names)) as [cm|e] eqn:Em; [|done]. cbn [andThen stage] in Hr.
  destruct (buildTopicCodec _ _ _ _ (tenantSchemas names)) as [ct|e] eqn:Et; [|done]. cbn [andThen stage] in Hr.
  unfold buildTopicPublisher in Hr.
  assert (Getenv env "SNS_TOPIC_MEMBERSHIP_ARN" ≠ ""%string) as Ham by (eapply Hset; do 1 right; left).
  assert (Getenv env "SNS_TOPIC_TENANT_ARN" ≠ ""%string) as Hat by (eapply Hset; do 2 right; left).
  assert (Getenv env "GLUE_REGISTRY_MEMBERSHIP_NAME" ≠ ""%string) as Hgm by (eapply Hset; do 3 right; left).
  assert (Getenv env "GLUE_REGISTRY_TENANT_NAME" ≠ ""%string) as Hgt by (eapply Hset; do 4 right; left).
  rewrite (proj2 (String.eqb_neq _ _) Ham), (proj2 (String.eqb_neq _ _) Hat) in Hr.
  destruct (NewSNSPublisher _ cm) as [pm|e] eqn:Epm; [|done]. cbn [andThen stage] in Hr.
  destruct (NewSNSPublisher _ ct) as [pt|e] eqn:Ept; [|done]. cbn [andThen stage] in Hr. injection Hr as <-.
  unfold pubForType. destruct (String.eqb (TopicForEvent name) TopicTenant) eqn:Etopic; cbn [fst rp_tenant rp_membership].
  - destruct (codec_of_topic _ _ _ name Et Hgt) as (versions & id & -> & Hid & Hf); [|by exists pt, versions, id].
    unfold tenantSchemas. rewrite elem_of_select. by rewrite Etopic.
  - destruct (codec_of_topic _ _ _ name Em Hgm) as (versions & id & -> & Hid & Hf); [|by exists pm, versions, id].
    unfold membershipSchemas. rewrite elem_of_select. by rewrite Etopic.
Qed.
End publishers.

(** ** The queues *)

Section queues.
  Context `{Env} `{CatalogReader}.

Lemma steady_replay_list tid l n : steady (replay_list tid l n).
Proof.
  unfold steady. revert n. induction l as [|p l IH]; intros n; cbn [replay_list]; [apply keeps_ret, _|].
  unfold trialDurationDays, replay_tx, project, applyProjection, relay_and_wipe, evictAfterWipe, Claim, string_field,
    int_field, lift, TenantRepo.ApplyLifecyclePatch, TenantRepo.execLifecyclePatch, TenantRepo.SetLastEventAt,
    TenantRepo.WipeTenantChildren.
  keeps_auto; auto; try (by apply TenantRepo.keeps_exec_update; [apply _|]); try (by apply keeps_publish; [apply _|]).
Qed.

Lemma steady_server_replayer env tid : steady (server_replayer env tid).
Proof. unfold steady, server_replayer, Consumer.replayParked. keeps_auto. apply steady_replay_list. Qed.

Lemma membershipConsumer_steady env : provisioner_steady (membershipConsumer env).
Proof.
  intros signup input [= <-]. apply steady_TrialSignup. intros replay tid [= <-]. apply steady_server_replayer.
Qed.
End queues.

Section wired.
  Context `{E : Env} `{C : CatalogReader} `{I : InboxStore} (SendToDLQ : nat → SourceMessage → string → result error unit).
  Context (schemas : Schemas) (ResolveDLQ : string → resolved_dlq) (NewConsumer : SQSConfigEnv → result error unit) (sqsEnv : SQSConfigEnv) (source : option SourceMessage).
  Context (now : time) (env : Environment).

Lemma wire_in queue urlKey cKey n h cs wc :
  wire env SendToDLQ schemas ResolveDLQ NewConsumer sqsEnv source now queue urlKey cKey n h = Ok cs → wc ∈ cs →
  wc_queue wc = queue ∧ wc_handler wc = queue_handler SendToDLQ schemas source h ∧
  Getenv env urlKey ≠ ""%string ∧ sqs_QueueURL (wc_settings wc) = Getenv env urlKey ∧
  is_ok (requireDLQ (Getenv env urlKey) (ResolveDLQ (Getenv env urlKey))) = true.
Proof.
  unfold wire. destruct (String.eqb_spec (Getenv env urlKey) ""); [intros [= <-] Hw; by apply elem_of_nil in Hw|].
  destruct (requireDLQ _ _); [|done]. destruct (NewConsumer _); [|done]. intros [= <-] ->%list_elem_of_singleton. done.
Qed.

(** What each queue is wired to. *)
Lemma consumers_wired cs wc :
  sqsConsumers env SendToDLQ schemas ResolveDLQ NewConsumer sqsEnv source now = Ok cs → wc ∈ cs →
  is_ok (requireDLQ (sqs_QueueURL (wc_settings wc)) (ResolveDLQ (sqs_QueueURL (wc_settings wc)))) = true ∧
  (wc_queue wc ∈ ["tenant-orgm-q"; "billing-orgm-q"]%string ∧
     wc_handler wc = queue_handler SendToDLQ schemas source (Consumer.Handle (membershipConsumer env)) ∨
   wc_queue wc = "catalog-orgm-q"%string ∧
     wc_handler wc = queue_handler SendToDLQ schemas source CatalogConsumer.Handle).
Proof.
  intros Hcs Hwc. unfold sqsConsumers, andThen in Hcs.
  destruct (wire env _ _ _ _ _ _ _ "tenant-orgm-q" _ _ _ _) as [a|] eqn:Ea; [|done].
  destruct (wire env _ _ _ _ _ _ _ "billing-orgm-q" _ _ _ _) as [b|] eqn:Eb; [|done].
  destruct (wire env _ _ _ _ _ _ _ "catalog-orgm-q" _ _ _ _) as [c|] eqn:Ec; [|done]. injection Hcs as <-.
  rewrite !elem_of_app in Hwc. destruct Hwc as [Hwc|[Hwc|Hwc]].
  - destruct (wire_in _ _ _ _ _ _ _ Ea Hwc) as (-> & -> & _ & -> & ?). split; [done|]. left. split; [set_solver|done].
  - destruct (wire_in _ _ _ _ _ _ _ Eb Hwc) as (-> & -> & _ & -> & ?). split; [done|]. left. split; [set_solver|done].
  - destruct (wire_in _ _ _ _ _ _ _ Ec Hwc) as (-> & -> & _ & -> & ?). split; [done|]. by right.
Qed.

Lemma catalog_wired cs wc :
  sqsConsumers env SendToDLQ schemas ResolveDLQ NewConsumer sqsEnv source now = Ok cs →
  wc ∈ cs → wc_queue wc = "catalog-orgm-q"%string →
  wc_handler wc = queue_handler SendToDLQ schemas source CatalogConsumer.Handle.
Proof.
  intros Hcs Hwc Hq. destruct (consumers_wired _ _ Hcs Hwc) as [_ [[Hn _]|[_ Hh]]]; [|done].
  rewrite Hq in Hn. exfalso. set_solver.
Qed.
End wired.

(** ** Catalog changes *)

Section started.
  Context `{E : Env} `{I : InboxStore} (env : Environment) (L : Libraries).
  Context (protected : Request → option problem) (time_Parse : list N → option time).
  Context (source : option SourceMessage) (now : time) (w0 : World) (srv : Boot.Server) (s0 : boot_state * World).
  Context (Hstart : server_start env L protected time_Parse source now (no_boot, w0) = (inl srv, s0)).

(** A catalog event is acknowledged once it is recorded; DepartmentCatalogChanged
    is not recorded at all. *)
Lemma catalog_settles ev w w1 :
  rely claims_kept (w_sched w) → CatalogConsumer.Handle ev w = (Ok tt, w1) →
  claimed CatalogConsumer.catalogConsumerName (env_ID ev) (w_db w1) = true ∨
  env_Type ev = CatalogConsumer.eventDepartmentCatalogChanged ∧
    w_calls w1 = w_calls w ++ [CallCacheDelete ["om:departments"; "om:departments:stale"]%string].
Proof.
  intros Hs. assert (∀ {A} (fn : M A), keeps claims_kept fn → ∀ w1,
    (processOnce CatalogConsumer.catalogConsumerName ev fn ;; retM tt) w = (Ok tt, w1) →
    claimed CatalogConsumer.catalogConsumerName (env_ID ev) (w_db w1) = true) as Hp.
  { intros A fn Hfn w2 (a & w3 & HB & [_ ->]%retM_ok)%bindM_ok. by apply processOnce_recorded in HB as [? _]. }
  unfold CatalogConsumer.Handle, ackUnknown. destruct (negb _) eqn:Et.
  { intros Hr. left. eapply Hp; [|exact Hr]. apply keeps_ret, _. }
  destruct (uuid_Parse (env_ID ev)) as [id|]; [|done]. intros ([] & w2 & HA & HB)%bindM_ok.
  destruct (id =? uuid_Nil); [done|]. injection HA as <-.
  destruct (String.eqb (env_Type ev) CatalogConsumer.eventPlanCatalogChanged) eqn:Ep.
  - left. eapply Hp; [|exact HB]. unfold CatalogConsumer.plan_changed. keeps_auto.
  - right. rewrite orb_false_r in Et. apply negb_false_iff, String.eqb_eq in Et. split; [done|].
    unfold CatalogConsumer.clearDepartments, cache_Delete, try_cache_Delete, bindM, call, cache_write, retM in HB.
    injection HB as <-. simpl. by destruct (_ || _).
Qed.

(** The ledger a queue's consumer records its events in. *)
Definition ledger (queue : string) : string :=
  if String.eqb queue "catalog-orgm-q" then CatalogConsumer.catalogConsumerName else consumerName.

(** C7: no message is lost.  Once [main] has started the server, whatever runs
    beside it, as long as other transactions remove no record of a processed
    event: when one of its consumers acknowledges a message, either its event is
    recorded as processed under that consumer's name, or the original message was
    accepted by the dead-letter queue under one of the three permanent reasons,
    or it is the one event the code deliberately does not record, a
    DepartmentCatalogChanged on the catalog queue, and the last thing done was to
    ask the cache to drop the cached departments.  The server does not start
    unless each wired queue has a dead-letter queue, or asking for it failed for
    another reason than its absence. *)
Theorem acknowledged_is_settled wc ev w w' :
  wc ∈ srv_consumers srv → rely claims_kept (w_sched w) → wc_handler wc ev w = (Ok tt, w') →
  is_ok (requireDLQ (sqs_QueueURL (wc_settings wc)) (lib_ResolveDLQ L (sqs_QueueURL (wc_settings wc)))) = true ∧
  (claimed (ledger (wc_queue wc)) (env_ID ev) (w_db w') = true ∨
   (∃ src reason, source = Some src ∧
      reason ∈ [poisonPillReason; schemaViolationReason; provisioningRejectedReason] ∧
      dead_lettered (lib_SendToDLQ L) src reason w') ∨
   (wc_queue wc = "catalog-orgm-q"%string ∧ env_Type ev = CatalogConsumer.eventDepartmentCatalogChanged ∧
    w_calls w' = w_calls w ++ [CallCacheDelete ["om:departments"; "om:departments:stale"]%string])).
Proof.
  intros Hwc Hs Hr. pose proof (st_consumers _ _ _ _ _ _ _ (start_started _ _ _ _ _ _ _ _ _ Hstart)) as Hcs.
  destruct (consumers_wired _ _ _ _ _ _ _ _ _ _ Hcs Hwc) as [Hd [[Hq Hh]|[Hq Hh]]]; (split; [done|]); rewrite Hh in Hr.
  - assert (ledger (wc_queue wc) = consumerName) as ->
      by (unfold ledger; apply elem_of_cons in Hq as [-> | Hq%list_elem_of_singleton]; [|rewrite Hq]; done).
    apply pipeline_settles in Hr as [?|?]; [by left|by right; left|apply membershipConsumer_steady|done].
  - apply inbound_acks in Hr as [[_ Hr]|?]; [|by right; left]. unfold ledger. rewrite Hq.
    apply catalog_settles in Hr as [?|?]; [by left|by right; right|done].
Qed.

Lemma plan_change_recorded ev w w1 :
  alone w → env_Type ev = CatalogConsumer.eventPlanCatalogChanged → CatalogConsumer.Handle ev w = (Ok tt, w1) →
  claimed CatalogConsumer.catalogConsumerName (env_ID ev) (w_db w1) = true.
Proof.
  intros [Hs _] Ht Hr. apply catalog_settles in Hr as [?|[Hd _]]; [done| |by rewrite Hs; constructor].
  by rewrite Ht in Hd.
Qed.

(** C34: a plan change reaches the cached projections (CACHE-11).  When the
    started server's consumer of catalog-orgm-q acknowledges a [PlanCatalogChanged] it
    had not seen before, the original was accepted by the dead-letter queue, or
    the event is recorded as processed and the next read of a membership of a
    tenant on an affected plan answers neither from an entry cached before the
    event nor from plans cached before it: the projection is the one built from
    the stored row and from the plan the catalog service answers with at that
    read (no plan defaults when it does not answer).  The hypothesis on the
    cache is that the plan's generation has not expired, its lifetime (24 h)
    being longer than that of any entry. *)
Theorem catalog_queue_retires wc ev plan tid uid w w1 :
  wc ∈ srv_consumers srv → wc_queue wc = "catalog-orgm-q"%string →
  alone w → env_Type ev = CatalogConsumer.eventPlanCatalogChanged → plan ∈ CatalogConsumer.affectedPlans ev →
  claimed CatalogConsumer.catalogConsumerName (env_ID ev) (w_db w) = false →
  (∀ n, cache_kept n (PlanGenerationKey plan) = true) →
  (∀ q g, CacheSpec.stored (cacheKeyMemberships tid uid) (w_cache w) = Some (CMembership q g) → g ≠ env_ID ev) →
  wc_handler wc ev w = (Ok tt, w1) →
  (∃ src reason, source = Some src ∧
     reason ∈ [poisonPillReason; schemaViolationReason; provisioningRejectedReason] ∧
     dead_lettered (lib_SendToDLQ L) src reason w1) ∨
  (claimed CatalogConsumer.catalogConsumerName (env_ID ev) (w_db w1) = true ∧
   ∀ p w2, GetMembership tid uid w1 = (Ok p, w2) → mp_Plan p = plan →
     ∃ row n, projection_of tid uid (w_db w1) = Some row ∧ projects tid uid row (catalog_plan n plan) p).
Proof.
  intros Hwc Hq Ha Ht Hin Hc Hk Ho Hr.
  pose proof (st_consumers _ _ _ _ _ _ _ (start_started _ _ _ _ _ _ _ _ _ Hstart)) as Hcs.
  rewrite (catalog_wired _ _ _ _ _ _ _ _ _ _ Hcs Hwc Hq) in Hr.
  apply inbound_acks in Hr as [[_ Hr]|Hd]; [|by left]. right. split.
  - by eapply plan_change_recorded.
  - intros p w2. by eapply plan_change_retires.
Qed.
End started.

(** ** Readiness *)

Lemma consumer_checks_all i l :
  forallb snd (consumer_checks i l) = forallb (λ c, match c with Some (Some _) => false | _ => true end) l.
Proof. revert i. induction l as [|[[?|]|] l IH]; intros i; cbn; auto. Qed.

(** OBS-1: a pod whose consumer has gone, by a panic, an error or a normal
    return, is not ready; with the dependencies up and every consumer running it
    is. *)
Theorem readyz_sees_consumers db sys cache outbox hs now :
  let answer := readyz (mkHealthHandlers db sys cache outbox (consumer_pings now hs)) in
  (∀ h o, consumer_exit o h ∈ hs → ∃ body, answer = RJSON 503 body) ∧
  (db = None → sys ∈ [None; Some None] → cache = None → outbox = None →
   (∀ h, h ∈ hs → hb_alive h = true) → ∃ body, answer = RJSON StatusOK body).
Proof.
  intros answer. subst answer. unfold readyz. cbn [hh_postgres hh_sysPostgres hh_cache hh_outbox hh_consumers]. split.
  - intros h o Hh. eexists. f_equal. rewrite !forallb_app, consumer_checks_all.
    assert (forallb (λ c, match c with Some (Some _) => false | _ => true end) (consumer_pings now hs) = false) as ->.
    { apply not_true_is_false. rewrite forallb_forall. intros Hall.
      specialize (Hall (Some (Health now (consumer_exit o h)))). discriminate Hall.
      apply list_elem_of_In, list_elem_of_fmap. eauto. }
    by rewrite !andb_false_r.
  - intros -> Hsys -> -> Hall. eexists. f_equal. rewrite !forallb_app, consumer_checks_all.
    assert (forallb (λ c, match c with Some (Some _) => false | _ => true end) (consumer_pings now hs) = true) as ->.
    { apply forallb_forall. intros x Hx%list_elem_of_In%list_elem_of_fmap. destruct Hx as (h & -> & Hh).
      unfold Health. by rewrite (Hall h Hh). }
    repeat (apply elem_of_cons in Hsys as [->|Hsys]; [done|]). by apply elem_of_nil in Hsys.
Qed.

(** ** The documentation *)

(** SECURITY-10: in production the documentation is off, or asks for the
    token, which the start-up check makes sure is set.  In every other
    environment, staging included, it is on and asks for nothing, whatever is
    configured. *)
Theorem docs_guarded env appEnv d :
  docs_from_env env appEnv = Ok d →
  (appEnv = "prod"%string → docs_active d = true →
     dc_AuthToken d ≠ ""%string ∧ ∀ auth, docs_refused d auth = None ↔ auth = "Bearer " +:+ dc_AuthToken d) ∧
  (appEnv ≠ "prod"%string → docs_active d = true ∧ ∀ auth, docs_refused d auth = None).
Proof.
  unfold docs_from_env. destruct (_ && _ && _) eqn:Ec; [done|]. intros [= <-].
  unfold docs_active, docs_refused. cbn [dc_Environment dc_AuthToken dc_Enabled]. split.
  - intros -> Ha. cbn in Ha. rewrite Ha in Ec. cbn in Ec. rewrite andb_true_r in Ec. rewrite Ec. cbn.
    split; [by apply String.eqb_neq|]. intros auth. destruct (String.eqb_spec auth ("Bearer " +:+ Getenv env "DOCS_AUTH_TOKEN")); done.
  - intros Hp%String.eqb_neq. by rewrite Hp.
Qed.

(** ** The reconciler *)

(** Both processes take the same environments for a developer's. *)
Lemma dev_like_agree appEnv : isDevLikeEnv appEnv = isDevLikeAppEnv appEnv.
Proof.
  apply eq_true_iff_eq. unfold isDevLikeEnv, isDevLikeAppEnv. rewrite !contains_true. set_solver.
Qed.

(** A run of the reconciler exits with 0 exactly when it ran a known job to its
    end; an unknown job, a set-up that failed and, outside the developer
    environments, a missing SYSTEM_DATABASE_URL exit with another status and
    touch nothing. *)
Theorem reconciler_exit `{Env} env flag tracing setup jctx fuel w :
  let job := registry jctx fuel (default (Getenv env "RECONCILER_JOB") flag) in
  let allowed := negb (String.eqb (Getenv env "SYSTEM_DATABASE_URL") "") || isDevLikeAppEnv (resolveAppEnv env) in
  let run := reconciler_run env false flag tracing setup jctx fuel in
  (∀ fn res w', job = Some fn → allowed = true → tracing = None → setup = None → fn w = (Ok (Some res), w') →
     run w = (Ok (Some 0), w')) ∧
  (∀ fn e w', job = Some fn → allowed = true → tracing = None → setup = None → fn w = (Err e, w') →
     run w = (Ok (Some 1), w')) ∧
  (job = None ∨ allowed = false ∨ tracing ≠ None ∨ setup ≠ None →
     ∃ status, run w = (Ok (Some status), w) ∧ status ≠ 0).
Proof.
  intros job allowed run. subst run. unfold reconciler_run. rewrite dev_like_agree.
  set (name := default (Getenv env "RECONCILER_JOB") flag) in *.
  assert (String.eqb name "" = true → job = None) as Hname by by intros ->%String.eqb_eq.
  assert (String.eqb (Getenv env "SYSTEM_DATABASE_URL") "" && negb (isDevLikeAppEnv (resolveAppEnv env)) = negb allowed) as ->.
  { subst allowed. by rewrite negb_orb, negb_involutive. }
  fold job. clearbody job allowed. split_and!.
  - intros fn res w' Hj Ha Ht Hs Hr. destruct (String.eqb name ""); [by rewrite Hname in Hj|]. subst. cbn.
    unfold bindM, tryM. by rewrite Hr.
  - intros fn e w' Hj Ha Ht Hs Hr. destruct (String.eqb name ""); [by rewrite Hname in Hj|]. subst. cbn.
    unfold bindM, tryM. by rewrite Hr.
  - intros Hno. destruct (String.eqb name ""); [by exists 1|]. destruct job as [fn|]; [|by exists 1].
    destruct allowed; [|by exists 1]. destruct tracing as [e|]; [by exists 2|]. destruct setup as [e|]; [by exists 1|].
    destruct Hno as [?|[?|[?|?]]]; done.
Qed.

(** ** Shutdown *)

Lemma interleaving_perm {A} (ls : list (list A)) t : interleaving ls t → t ≡ₚ concat ls.
Proof.
  induction 1 as [ls Hl|ls1 x l ls2 t _ IH].
  - induction Hl as [|l ls -> _ IH]; [done|]. by cbn.
  - rewrite IH, !concat_app. cbn. by rewrite Permutation_middle.
Qed.

Lemma happens_acts (acts : list shutdown_action) ts :
  Forall2 happens (List.map Act acts) ts → concat ts = acts.
Proof.
  revert ts. induction acts as [|a acts IH]; intros ts Hf; inversion Hf as [|? t ? ts' Ht Hts]; subst; [done|].
  inversion Ht; subst. cbn. by rewrite (IH _ Hts).
Qed.

(** The order of shutdown, in every interleaving: requests and consumers are
    stopped, each once, before the outbox is drained, so nothing is enqueued past
    it; then the exporters are cancelled, both pools drained, and tracing and
    the log flushed last. *)
Theorem shutdown_order queues t :
  happens (shutdown queues) t →
  ∃ stops drains,
    t = stops ++ [OutboxStop; CancelBackground] ++ drains ++ [ShutdownTracing; LoggerFlush] ∧
    stops ≡ₚ HTTPShutdown :: MetricsShutdown :: List.map ConsumerStop queues ∧
    drains ≡ₚ [PoolDrain "app"; PoolDrain "system"].
Proof.
  intros Ht. inversion Ht as [|l ts Hts|]; subst. clear Ht.
  repeat match goal with
         | H : Forall2 happens (_ :: _) _ |- _ => inversion H; clear H; subst
         | H : Forall2 happens [] _ |- _ => inversion H; clear H; subst
         | H : happens (Act _) _ |- _ => inversion H; clear H; subst
         | H : happens (Par _) _ |- _ => inversion H; clear H; subst
         end.
  match goal with
  | Hd : interleaving [[PoolDrain _]; _] ?d, Hi : interleaving (?h :: ?l) ?s, Hh : happens (Seq _) ?h,
    Hc : Forall2 happens _ ?l |- _ => exists s, d; apply interleaving_perm in Hd, Hi;
      rename Hd into Hdrains, Hi into Hall, Hc into Hstops; inversion Hh as [|? hs Hhs|]; subst
  end.
  split; [cbn; by rewrite ?app_nil_r|]. split; [rewrite Hall|by rewrite Hdrains]. cbn [concat].
  rewrite (happens_acts [HTTPShutdown; MetricsShutdown] hs Hhs).
  by rewrite (happens_acts (List.map ConsumerStop queues)) by by rewrite map_map.
Qed.

(** The time of shutdown.  When the HTTP and metrics servers share their 30
    seconds, each consumer stops within its drain timeout, the outbox within
    its own, and a pool drain within ten seconds, the whole takes no longer
    than the longer of the first two, then the outbox's and ten seconds. *)
Theorem shutdown_budget d queues drain outbox :
  0 <= drain → (∀ a, 0 <= d a) →
  d HTTPShutdown + d MetricsShutdown <= httpDrainTimeout → (∀ q, d (ConsumerStop q) <= drain) →
  d OutboxStop <= outbox → (∀ p, d (PoolDrain p) <= poolDrainTimeout) →
  time_of d (shutdown queues) <=
    Z.max httpDrainTimeout drain + outbox + poolDrainTimeout + (d CancelBackground + d ShutdownTracing + d LoggerFlush).
Proof.
  intros Hdr Hpos Hhttp Hstop Hout Hpool. cbn [time_of shutdown List.fold_right].
  assert (List.fold_right (λ p n, Z.max (time_of d p) n) 0 (List.map (λ q, Act (ConsumerStop q)) queues) <= drain) as Hc.
  { induction queues as [|q queues IH]; cbn; [done|]. specialize (Hstop q). lia. }
  pose proof (Hpool "app"%string). pose proof (Hpool "system"%string). unfold httpDrainTimeout, poolDrainTimeout, second in *. lia.
Qed.
