(* ===== verification/HttpSpec.v ===== *)
(** * HttpSpec: who may reach what

    The endpoints that only read leave the database alone; a write happens only
    for a caller the route is meant for; the chain in front of a tenant-facing
    route admits exactly the members of a live tenant in the right state; an
    internal route runs on the tenant of its path. *)

From Stdlib Require Import String.
From S2P Require Import Prelude Domain Schema Tx Wp SettingsSpec RolesSpec TenantRepo MembershipRepo RoleRepo.
From S2P Require Import DeptMembershipRepo TenantDepartmentRepo DeptRoleLabelRepo InvitationRepo EventStores.
From S2P Require Import CacheKeys Consumer CatalogService MembershipService InvitationService.
From S2P Require Import DeptMembershipService ProvisioningService TenantService ReadModels AuthzService.
From S2P Require Import OperatorService DepartmentService GroupMappingService Wire Cursor Http HttpDto.
From S2P Require Import HttpHandlers InternalHandlers Router.
Open Scope Z_scope.

(** ** Services that only read *)

Section reads.
  Context `{Env} (R : DB → DB → Prop) `{!PreOrder R}.

Lemma keeps_tenant_Get tid : keeps R (TenantService.Get tid).
Proof. unfold TenantService.Get, TenantService.getCached, TenantService.setCached. keeps_auto. Qed.

Lemma keeps_ListForTenant tid b : keeps R (listForTenant tid b).
Proof.
  unfold listForTenant, department_view. keeps_auto.
Qed.

Lemma keeps_members_List tid cur n : keeps R (MembershipService.List tid cur n).
Proof. unfold MembershipService.List. keeps_auto. Qed.

Lemma keeps_members_Get tid uid : keeps R (MembershipService.Get tid uid).
Proof. unfold MembershipService.Get. keeps_auto. Qed.

Lemma keeps_SeatUsage days tid : keeps R (MembershipService.SeatUsage days tid).
Proof. unfold MembershipService.SeatUsage. keeps_auto. Qed.

Lemma keeps_dept_ListByDepartment tid did : keeps R (DeptMembershipService.ListByDepartment tid did).
Proof. unfold DeptMembershipService.ListByDepartment. keeps_auto. Qed.

Lemma keeps_GetMembership tid uid : keeps R (GetMembership tid uid).
Proof. unfold GetMembership, readFromDB, AuthzService.getCached, AuthzService.setCached. keeps_auto. Qed.

Lemma keeps_SessionGet tid uid : keeps R (SessionGet tid uid).
Proof. unfold SessionGet. keeps_auto; auto using keeps_GetMembership, keeps_tenant_Get. Qed.

Lemma keeps_CheckEligibility tid uid did l : keeps R (CheckEligibility tid uid did l).
Proof. unfold CheckEligibility. keeps_auto. Qed.

Lemma keeps_PlanChangeCheck tid p : keeps R (PlanChangeCheck tid p).
Proof. unfold PlanChangeCheck, plan_has_sso. keeps_auto; apply keeps_tenant_Get. Qed.

Lemma keeps_CheckTrialEligibility c h : keeps R (CheckTrialEligibility c h).
Proof. unfold CheckTrialEligibility. keeps_auto. Qed.

End reads.

#[export] Hint Resolve keeps_tenant_Get keeps_ListForTenant keeps_members_List keeps_members_Get keeps_SeatUsage
  keeps_dept_ListByDepartment keeps_GetMembership keeps_SessionGet keeps_CheckEligibility keeps_PlanChangeCheck
  keeps_CheckTrialEligibility : keeps.

(** ** Checks in front of a handler *)

Section gates.
  Context `{Env} (R : DB → DB → Prop) `{!PreOrder R}.

Lemma keeps_ext {A} (m m' : M A) : (∀ w, m w = m' w) → keeps R m' → keeps R m.
Proof. intros E Hm w r w' Hr. rewrite E. by apply Hm. Qed.

(** A check that fails changes nothing. *)
Lemma keeps_refused {A} e (m : M A) : (∀ w, m w = (Err e, w)) → keeps R m.
Proof. intros E. by apply (keeps_ext _ (throw e)), keeps_throw. Qed.

Lemma keeps_lift {A B} (r : result error A) (k : A → M B) :
  (∀ a, r = Ok a → keeps R (k a)) → keeps R (let! a := lift r in k a).
Proof. intros Hk. destruct r as [a|e]; simpl; [by apply Hk|apply keeps_throw, _]. Qed.

Lemma keeps_throw_if_then {A} (b : bool) e (m : M A) :
  (b = false → keeps R m) → keeps R (throw_if b e ;; m).
Proof. intros Hm. destruct b; [apply keeps_throw, _|by apply Hm]. Qed.

Lemma keeps_serve c m : keeps R m → keeps R (serve c m).
Proof. intros Hm. unfold serve, Refuse. keeps_auto. Qed.

Lemma keeps_with_body {A} c (body : result http_error A) k :
  (∀ a, body = Ok a → keeps R (k a)) → keeps R (with_body c body k).
Proof. intros Hk. destruct body as [a|e]; [by apply Hk|apply keeps_ret, _]. Qed.

Lemma keeps_same_tenant {A} c tid msg (k : RequestContext → M A) :
  (∀ rc, c_Caller c = Some rc → rc_TenantID rc = tid → keeps R (k rc)) →
  keeps R (let! rc := same_tenant c tid msg in k rc).
Proof.
  intros Hk. unfold same_tenant, identity. destruct (c_Caller c) as [rc|] eqn:E; [|by eapply keeps_refused].
  destruct (Z.eqb_spec (rc_TenantID rc) tid) as [Et|Et].
  - eapply keeps_ext, (Hk rc); [|done..]. intros w. unfold bindM, lift, retM, throw_if. by rewrite Et, Z.eqb_refl.
  - eapply keeps_refused. intros w. unfold bindM, lift, retM, throw_if. by apply Z.eqb_neq in Et as ->.
Qed.

Lemma keeps_requireTenantAdmin {A} c tid (k : M A) :
  (∀ rc, c_Caller c = Some rc → rc_TenantID rc = tid → IsAdmin rc = true → keeps R k) →
  keeps R (requireTenantAdmin c tid ;; k).
Proof.
  intros Hk. unfold requireTenantAdmin, requireSameTenantMember, same_tenant, identity, caller.
  destruct (c_Caller c) as [rc|] eqn:E; [|by eapply keeps_refused].
  destruct (Z.eqb_spec (rc_TenantID rc) tid) as [Et|Et].
  - destruct (IsAdmin rc) eqn:Ea.
    + eapply keeps_ext, (Hk rc); [|done..]. intros w. unfold bindM, lift, retM, throw_if. by rewrite Et, Z.eqb_refl, Ea.
    + eapply keeps_refused. intros w. unfold bindM, lift, retM, throw_if. by rewrite Et, Z.eqb_refl, Ea.
  - eapply keeps_refused. intros w. unfold bindM, lift, retM, throw_if. by apply Z.eqb_neq in Et as ->.
Qed.

Lemma keeps_requireSameTenantMember {A} c tid (k : M A) :
  keeps R k → keeps R (requireSameTenantMember c tid ;; k).
Proof.
  intros Hk. unfold requireSameTenantMember. apply keeps_bind; [apply _| |done].
  apply keeps_same_tenant. intros. apply keeps_ret, _.
Qed.

Lemma keeps_requireOperator {A} c (k : M A) :
  (∀ rc, c_Caller c = Some rc → IsOperator rc = true → keeps R k) → keeps R (requireOperator c ;; k).
Proof.
  intros Hk. unfold requireOperator, identity. destruct (c_Caller c) as [rc|] eqn:E; [|by eapply keeps_refused].
  destruct (IsOperator rc) eqn:Ea.
  - eapply keeps_ext, (Hk rc); [|done..]. intros w. unfold bindM, lift, retM, throw_if. by rewrite Ea.
  - eapply keeps_refused. intros w. unfold bindM, lift, retM, throw_if. by rewrite Ea.
Qed.

End gates.

(** ** Who an endpoint may write for *)

(** [path] is the tenant of the route's [:id]. *)
Definition may_write (e : Endpoint) (rc : RequestContext) (path : option uuid) : Prop :=
  match e with
  | P2_TenantPatch => path = Some (rc_TenantID rc) ∧ HasRole rc "tenant_owner" = true
  | P24_DepartmentActivate | P25_DepartmentPatch | P6_Invite | P7_MembershipPatch | P8_MembershipRemove
  | P26_RemovalResolution | P28_ReconcileRoles | P34_ResetMFA | P10_DeptMembershipAssign
  | P11_DeptMembershipRemove | P13_RoleLabelPatch | P31_InvitationRevoke =>
      path = Some (rc_TenantID rc) ∧ IsAdmin rc = true
  | O4_SetFeatureFlags | O7_ReassignOwner => IsOperator rc = true
  | I1_ProvisionTenant | I2_PatchTenantRealm | I3_AddMember | I10_AssignFromGroups | I4_PatchMemberLifecycle
  | I5_DeleteMember | I13_AssigneeOverride => IsSystem rc = true
  | _ => False
  end.

(** The internal endpoints that write: their handlers trust the chain. *)
Definition trusts_chain (e : Endpoint) : bool :=
  match e with
  | I1_ProvisionTenant | I2_PatchTenantRealm | I3_AddMember | I10_AssignFromGroups | I4_PatchMemberLifecycle
  | I5_DeleteMember | I13_AssigneeOverride => true
  | _ => false
  end.

Lemma parseTenantIDParam_ok `{Env} c tid : parseTenantIDParam c = Ok tid → uuid_Parse (Param c "id") = Some tid.
Proof. unfold parseTenantIDParam. repeat case_match; congruence. Qed.

Section handlers.
  Context `{E : Env} (cfg : HttpConfig) (R : DB → DB → Prop) `{!PreOrder R}.

(** Walks a handler up to the gate that stops it, or to its end. *)
#[local] Ltac gate_step :=
  match goal with
  | |- keeps _ (serve _ _) => apply keeps_serve; [apply _|]
  | |- keeps _ (bindM (lift _) _) => apply keeps_lift; [apply _|intros ? ?]
  | |- keeps _ (bindM (throw_if _ _) _) => apply keeps_throw_if_then; [apply _|intros ?]
  | |- keeps _ (bindM (same_tenant _ _ _) _) => apply keeps_same_tenant; [apply _|intros ? ? ?]
  | |- keeps _ (bindM (requireTenantAdmin _ _) _) => apply keeps_requireTenantAdmin; [apply _|intros ? ? ? ?]
  | |- keeps _ (bindM (requireSameTenantMember _ _) _) => apply keeps_requireSameTenantMember; [apply _|]
  | |- keeps _ (bindM (requireOperator _) _) => apply keeps_requireOperator; [apply _|intros ? ? ?]
  | |- keeps _ (bindM (match uuid_Parse _ with _ => _ end) _) => apply keeps_bind; [apply _|keeps_auto|intros ?]
  | |- keeps _ (if negb (hc_departments _) then _ else _) => destruct (hc_departments _); cbn [negb]
  | |- keeps _ (with_body _ _ _) => apply keeps_with_body; [apply _|intros ? ?]
  end.

Lemma keeps_handle e (b : body_of e) c :
  trusts_chain e = false →
  (∀ rc, c_Caller c = Some rc → ¬ may_write e rc (uuid_Parse (Param c "id"))) →
  keeps R (handle cfg e b c).
Proof.
  intros Ht Hno. destruct e; try discriminate Ht; cbn [handle may_write] in *;
    unfold TenantGet, TenantPatch_, DepartmentList, DepartmentActivate, DepartmentPatch, MembershipList,
      MembershipGet, InvitationInvite, MembershipPatch, MembershipRemove, MembershipRemovalResolution,
      MembershipReconcileRoles, MembershipResetMFA, MembershipSeatUsage, DeptMembershipList, DeptMembershipAssign,
      DeptMembershipRemove, RoleLabelList, RoleLabelPatch, InvitationList, InvitationRevoke, MeSessionContext,
      OperatorSetFeatureFlags, OperatorReassignOwner, GetMemberships, InternalListSubscriptionLapses,
      InternalCheckTrialEligibility, GetLocale, GetMFAFreshness, GetSeatUsage, CheckMemberExists, GetPlanContext,
      InternalPlanChangeCheck, CheckAssigneeEligibility, InternalListDepartments, PublicResolveTenant;
    repeat gate_step;
    try (exfalso; eapply Hno; [eassumption|];
         first [assumption | (split; [|by first [assumption | apply negb_false_iff]]); subst;
                             by apply parseTenantIDParam_ok]).
  all: try solve [keeps_auto].
Qed.
End handlers.

(** ** The chains *)

(** The caller the gateway's headers name. *)
Definition caller_of `{Env} (rq : Request) : option RequestContext :=
  match rq_Identity rq with
  | Some p => match parseBridgedIdentity p (rq_UserAgent rq) with inr rc => Some rc | inl _ => None end
  | None => None
  end.

(** The group an endpoint is registered in. *)
Definition group_of (e : Endpoint) : RouteGroup :=
  match e with
  | P35_SessionContext => me
  | O4_SetFeatureFlags | O7_ReassignOwner => op
  | I1_ProvisionTenant | I8_GetMemberships | I16_ListSubscriptionLapses | CR4_CheckTrialEligibility => internal
  | I2_PatchTenantRealm | I3_AddMember | I10_AssignFromGroups | I4_PatchMemberLifecycle | I5_DeleteMember
  | I9_GetLocale | I14_GetMFAFreshness | I11_GetSeatUsage | I13_AssigneeOverride | I15_CheckMemberExists
  | I17_GetPlanContext | I18_PlanChangeCheck | I19_CheckAssigneeEligibility | I20_ListDepartments => tenantScoped
  | PUB1_ResolveTenant => Group engine "/api/v1/public" []
  | _ => tenants
  end.

Definition commercial_route (r : Route) : bool :=
  contains (r_Method r +:+ " " +:+ r_Path r) commercialSystemAllowedRoutes.

Definition well_placed (r : Route) : bool :=
  bool_decide (r_Chain r = rg_Chain (group_of (r_Endpoint r))) &&
  String.prefix (rg_Path (group_of (r_Endpoint r))) (r_Path r) &&
  (negb (trusts_chain (r_Endpoint r)) || negb (commercial_route r)).

Lemma routes_well_placed cfg : forallb well_placed (routes cfg) = true.
Proof.
  unfold routes, registerAPIRoutes, registerPublicRoutes. destruct (hc_me cfg), (hc_public cfg); vm_compute; reflexivity.
Qed.

Lemma route_chain cfg r : r ∈ routes cfg → r_Chain r = rg_Chain (group_of (r_Endpoint r)).
Proof.
  intros Hr. pose proof (routes_well_placed cfg) as Hall. rewrite forallb_forall in Hall.
  apply list_elem_of_In in Hr. specialize (Hall r Hr). unfold well_placed in Hall.
  apply andb_true_iff in Hall as [[Hc _]%andb_true_iff _]. by apply bool_decide_eq_true in Hc.
Qed.

Lemma route_trusted cfg r : r ∈ routes cfg → trusts_chain (r_Endpoint r) = true → commercial_route r = false.
Proof.
  intros Hr Ht. pose proof (routes_well_placed cfg) as Hall. rewrite forallb_forall in Hall.
  apply list_elem_of_In in Hr. specialize (Hall r Hr). unfold well_placed in Hall.
  apply andb_true_iff in Hall as [_ Hc]. rewrite Ht in Hc. by apply negb_true_iff in Hc.
Qed.

Section chains.
  Context `{E : Env} (cfg : HttpConfig) (R : DB → DB → Prop) `{!PreOrder R} (next : Handler).

(** In front of every authenticated route. *)
Lemma keeps_v1 rq :
  (∀ c, c_Request c = rq → c_Caller c = caller_of rq → keeps R (next c)) →
  keeps R (chained cfg (rg_Chain v1) next (incoming rq)).
Proof.
  intros Hn.
  assert (∀ c, c_Request c = rq → c_Caller c = caller_of rq → keeps R (RequireJSONContentType next c)) as Hj.
  { intros c E1 E2. unfold RequireJSONContentType, Abort. repeat case_match; first [by apply Hn | apply keeps_ret, _]. }
  cbn. unfold ProtectedMiddlewares. destruct (hc_protected cfg _); [apply keeps_ret, _|].
  unfold GUCBridgeMiddleware, caller_of in *. cbn. destruct (rq_Identity rq) as [p|]; [|by apply Hj].
  destruct (parseBridgedIdentity p _) as [pb|rc]; [apply keeps_ret, _|].
  apply Hj; unfold WithGUCSet, WithRequestID; by destruct (String.eqb _ _).
Qed.

Lemma keeps_PathTenantMatch c : keeps R (next c) → keeps R (RequirePathTenantMatch next c).
Proof. intros Hn. unfold RequirePathTenantMatch, Refuse. repeat case_match; first [done | apply keeps_ret, _]. Qed.

Lemma keeps_ActiveTenant c : keeps R (next c) → keeps R (RequireActiveTenant next c).
Proof. intros Hn. unfold RequireActiveTenant, Refuse. keeps_auto; done. Qed.

Lemma keeps_ActiveMembership c : keeps R (next c) → keeps R (RequireActiveMembership next c).
Proof. intros Hn. unfold RequireActiveMembership, Abort. keeps_auto; done. Qed.

Lemma keeps_OperatorRole c : keeps R (next c) → keeps R (RequireOperatorRole next c).
Proof. intros Hn. unfold RequireOperatorRole, Abort. keeps_auto; done. Qed.

Lemma keeps_InternalCaller c :
  (∀ rc, c_Caller c = Some rc →
     IsSystem rc = true ∨
     contains (rq_Method (c_Request c) +:+ " " +:+ rq_FullPath (c_Request c)) commercialSystemAllowedRoutes = true →
     keeps R (next c)) →
  keeps R (RequireInternalCaller next c).
Proof.
  intros Hn. unfold RequireInternalCaller, Abort. destruct (c_Caller c) as [rc|]; [|apply keeps_ret, _].
  destruct (IsSystem rc) eqn:Es; [by apply (Hn rc); auto|]. destruct (IsCommercialSystem rc); [|apply keeps_ret, _].
  destruct (contains _ _) eqn:Ec; [by apply (Hn rc); auto|apply keeps_ret, _].
Qed.

Lemma keeps_BindPathTenant strict c :
  (∀ c', c_Request c' = c_Request c → keeps R (next c')) → keeps R (BindPathTenant strict next c).
Proof.
  intros Hn. unfold BindPathTenant, Refuse, Abort. repeat case_match; first [by apply Hn | apply keeps_ret, _].
Qed.

End chains.

Lemma chained_app `{Env} cfg ms1 ms2 h : chained cfg (ms1 ++ ms2) h = chained cfg ms1 (chained cfg ms2 h).
Proof. unfold chained. by rewrite foldr_app. Qed.

Definition public : RouteGroup := Group engine "/api/v1/public" [].

Lemma group_cases e :
  (group_of e ∈ [tenants; me; op; public] ∧ trusts_chain e = false) ∨ group_of e ∈ [internal; tenantScoped].
Proof. destruct e; cbn; set_solver. Qed.

#[local] Instance RouteGroup_eq_dec : EqDecision RouteGroup.
Proof. solve_decision. Defined.

(** Outside the tenant-facing and operator groups, what does not trust the chain
    does not write. *)
Lemma group_reads e rc p :
  group_of e ∈ [internal; tenantScoped; public] → trusts_chain e = false → ¬ may_write e rc p.
Proof.
  intros Hg Ht. apply (bool_decide_eq_true_2 _) in Hg. destruct e; try discriminate Ht; try tauto; vm_compute in Hg; discriminate Hg.
Qed.

(** A caller the route is not meant for leaves every database relation that
    other transactions respect. *)
Lemma keeps_dispatch `{E : Env} cfg R `{!PreOrder R} r b rq :
  r ∈ routes cfg →
  (∀ rc, caller_of rq = Some rc → ¬ may_write (r_Endpoint r) rc (uuid_Parse (Param (incoming rq) "id"))) →
  keeps R (dispatch cfg r b rq).
Proof.
  intros Hr Hno. pose proof (route_chain cfg r Hr) as Hc. pose proof (route_trusted cfg r Hr) as Ht.
  unfold dispatch. rewrite Hc. clear Hc.
  assert (∀ c, c_Request c = matched r rq → trusts_chain (r_Endpoint r) = false →
    c_Caller c = caller_of rq ∨ (∀ rc p, ¬ may_write (r_Endpoint r) rc p) →
    keeps R (endpoint cfg (r_Endpoint r) b c)) as Hh.
  { intros c Ec Et Hw. apply keeps_handle; [done..|]. unfold Param. rewrite Ec. intros rc Hrc.
    destruct Hw as [Hw|Hw]; [apply Hno; congruence|apply Hw]. }
  set (h := endpoint cfg (r_Endpoint r) b) in *. clearbody h.
  assert (∀ c, c_Request c = matched r rq → c_Caller c = caller_of rq →
    group_of (r_Endpoint r) ∈ [internal; tenantScoped] →
    (∀ c', c_Request c' = matched r rq → trusts_chain (r_Endpoint r) = false → keeps R (h c')) ∧
    (∀ rc, c_Caller c = Some rc →
       IsSystem rc = true ∨ contains (rq_Method (c_Request c) +:+ " " +:+ rq_FullPath (c_Request c))
                              commercialSystemAllowedRoutes = true → trusts_chain (r_Endpoint r) = false)) as Hi.
  { intros c Ec Ecall Hg. split.
    - intros c' Ec' Et. apply Hh; [done..|]. right. intros rc p. apply group_reads; [|done]. revert Hg. clear. set_solver.
    - intros rc Erc [Hs|Hs].
      + destruct (trusts_chain (r_Endpoint r)) eqn:Et; [|done]. exfalso. apply (Hno rc); [congruence|].
        revert Et. by destruct (r_Endpoint r).
      + destruct (trusts_chain (r_Endpoint r)) eqn:Et; [|done]. specialize (Ht eq_refl). unfold commercial_route in Ht.
        rewrite Ec in Hs. cbn in Hs. congruence. }
  destruct (group_cases (r_Endpoint r)) as [[Hg Et]|Hg].
  - repeat (apply elem_of_cons in Hg as [Hg|Hg]; [rewrite Hg|]); [..|by apply elem_of_nil in Hg];
      unfold tenants, me, op, public, Group; cbn [rg_Chain engine]; rewrite ?chained_app.
    1-3: apply keeps_v1; [apply _|]; intros c Ec Ecall; cbn.
    + apply keeps_PathTenantMatch, keeps_ActiveTenant, keeps_ActiveMembership, Hh; auto.
    + apply keeps_ActiveTenant, Hh; auto.
    + apply keeps_OperatorRole, Hh; auto.
    + cbn. apply Hh; [done..|]. right. intros rc p. apply group_reads; [|done]. revert Hg. clear. set_solver.
  - pose proof Hg as Hg'. repeat (apply elem_of_cons in Hg as [Hg|Hg]; [rewrite Hg|]); [..|by apply elem_of_nil in Hg];
      unfold tenantScoped, internal, Group; cbn [rg_Chain]; rewrite ?chained_app;
      apply keeps_v1; [apply _| |apply _|]; intros c Ec Ecall; destruct (Hi c Ec Ecall Hg') as [H1 H2];
      cbn; apply keeps_InternalCaller; [apply _| |apply _|]; intros rc Erc Hs; pose proof (H2 rc Erc Hs) as Et.
    + by apply H1.
    + apply keeps_BindPathTenant; [apply _|]. intros c' Ec'. apply H1; congruence.
Qed.

#[local] Instance may_write_dec e rc p : Decision (may_write e rc p).
Proof. destruct e; cbn; apply _. Defined.

(** C16: only the callers a route is meant for change anything (AUTH-2, AUTH-5,
    AUTH-6, CD-19).  For every registered route, body, request and schedule of
    concurrent transactions: either the gateway's headers name a caller who may
    write there (for a tenant-facing mutation an owner or administrator of the
    path's own tenant, for P-2 an owner; an operator on the operator routes; the
    platform principal on the internal ones, never commercial-system), or the
    request relates the database before and after by every preorder the other
    transactions respect: with nothing else running, the database is as it was. *)
Theorem only_the_authorised_write `{E : Env} cfg r b rq w res w' :
  r ∈ routes cfg → dispatch cfg r b rq w = (res, w') →
  (∃ rc, caller_of rq = Some rc ∧ may_write (r_Endpoint r) rc (uuid_Parse (Param (incoming rq) "id"))) ∨
  (∀ R, PreOrder R → rely R (w_sched w) → R (w_db w) (w_db w')).
Proof.
  intros Hr Ed. destruct (caller_of rq) as [rc|] eqn:Ec.
  - destruct (decide (may_write (r_Endpoint r) rc (uuid_Parse (Param (incoming rq) "id")))) as [Hw|Hw]; [by left; exists rc|].
    right. intros R HR Hrely. eapply (keeps_dispatch cfg R r b rq); [done| |done..]. intros rc' Hrc. congruence.
  - right. intros R HR Hrely. eapply (keeps_dispatch cfg R r b rq); [done| |done..]. intros rc' Hrc. congruence.
Qed.

(** ** The tenant-facing chain *)

Lemma run_FindByID id w :
  alone w →
  TenantRepo.FindByID id w = (match live_tenant id (w_db w) with Some t => Ok t | None => Err TenantRepo.tenant_not_found end, w).
Proof.
  intros Ha. destruct (TenantRepo.FindByID id w) as [r w'] eqn:E0. revert r w' E0. apply wp_intro, wp_own_FindByID; [done|].
  by destruct (live_tenant id (w_db w)).
Qed.

Lemma run_FindByUserID tid uid w :
  alone w →
  MembershipRepo.FindByUserID tid uid w =
  (match select_first (tm_of tid uid) (tenant_memberships (w_db w)) with
   | Some m => Ok m | None => Err MembershipRepo.member_not_found end, w).
Proof.
  intros Ha. destruct (MembershipRepo.FindByUserID tid uid w) as [r w'] eqn:E0. revert r w' E0.
  apply wp_intro, wp_own_FindByUserID; [done|]. by destruct (select_first _ _).
Qed.

(** The context behind the gateway bridge. *)
Definition bridged (p : PlatformContext) (rc : RequestContext) (rq : Request) : Ctx :=
  WithGUCSet (mkGUCSet (pl_UserID p) (pl_TenantID p) (pl_Roles p))
    (WithRequestID (rq_RequestID rq) (WithCaller rc (incoming rq))).

(** The body is JSON, or there is none. *)
Definition json_request (r : Route) (rq : Request) : Prop :=
  r_Method r ∈ ["GET"; "DELETE"]%string ∨ rq_ContentLength rq = 0 ∨ rq_ContentType rq = "application/json"%string.

Lemma run_v1 `{E : Env} cfg next r rq p rc :
  hc_protected cfg (matched r rq) = None → json_request r rq →
  rq_Identity rq = Some p → parseBridgedIdentity p (rq_UserAgent rq) = inr rc →
  chained cfg (rg_Chain v1) next (incoming (matched r rq)) = next (bridged p rc (matched r rq)).
Proof.
  intros Hp Hj Hi Hb. cbn. unfold ProtectedMiddlewares, GUCBridgeMiddleware. cbn. rewrite Hp, Hi, Hb.
  unfold RequireJSONContentType, WithGUCSet at 1 2 3. cbn.
  assert (∀ c : Ctx, c_Request (WithRequestID (rq_RequestID rq) c) = c_Request c) as ->
    by (intros c; unfold WithRequestID; by destruct (String.eqb _ _)). cbn.
  destruct Hj as [Hm|[-> | ->]]; [|by destruct (negb (_ || _))|by destruct (negb (_ || _)), (rq_ContentLength rq =? 0)].
  repeat (apply elem_of_cons in Hm as [->|Hm]; [done|]). by apply elem_of_nil in Hm.
Qed.

(** Who the chain lets through: the platform's own callers, and the active
    members of a live tenant whose subscription is open for the method. *)
Definition admitted (rc : RequestContext) (method : string) (d : DB) : Prop :=
  HasRole rc "iam-system" = true ∨ IsOperator rc = true ∨
  ∃ t m, live_tenant (rc_TenantID rc) d = Some t ∧
    (t_Status t ∈ [StatusTrial; StatusActive; StatusPastDue] ∨ t_Status t = StatusCancelled ∧ is_write method = false) ∧
    select_first (tm_of (rc_TenantID rc) (rc_UserID rc)) (tenant_memberships d) = Some m ∧
    tm_Status m = MembershipActive.

(** A refusal: one of these problems, and nothing happened. *)
Definition refused (types : list problem_type) (w : World) (out : result error Response * World) : Prop :=
  ∃ pb, out = (Ok (RProblem pb), w) ∧ pb_Type pb ∈ types.

(** A domain error other than a timeout is answered whatever became of the
    request's own context. *)
Lemma HandleError_domain c de :
  de_Cause de ≠ ErrRequestTimeout →
  HandleError c (HError (EDomain de)) = RProblem (WithExtensions (domainErrorToProblem de) (de_Details de)).
Proof.
  intros Hs. unfold HandleError, leaveToRequestContext. cbn.
  assert (String.eqb (sentinel_code (de_Cause de)) "request_timeout" = false) as -> by by destruct (de_Cause de).
  by destruct (rq_Done (c_Request c)) as [[]|].
Qed.

Lemma refuse_domain types c de w :
  de_Cause de ≠ ErrRequestTimeout → problem_type_of (de_Cause de) ∈ types → refused types w (Refuse c (EDomain de) w).
Proof. intros Hs Ht. unfold Refuse. rewrite HandleError_domain by done. by eexists. Qed.

Lemma refuse_abort types t msg w : t ∈ types → refused types w (Abort t msg w).
Proof. by eexists. Qed.

Definition under (prefix : string) (chain : list Middleware) (r : Route) : bool :=
  negb (String.prefix prefix (r_Path r)) || bool_decide (r_Chain r = chain).

Lemma under_chain cfg prefix chain r :
  forallb (under prefix chain) (routes cfg) = true → r ∈ routes cfg → String.prefix prefix (r_Path r) = true →
  r_Chain r = chain.
Proof.
  intros Hall Hr Hp. rewrite forallb_forall in Hall. apply list_elem_of_In in Hr. specialize (Hall r Hr).
  unfold under in Hall. rewrite Hp in Hall. by apply bool_decide_eq_true in Hall.
Qed.

Lemma bridged_parts p rc rq :
  c_Request (bridged p rc rq) = rq ∧ c_Caller (bridged p rc rq) = Some rc ∧
  c_GUC (bridged p rc rq) = mkGUCSet (pl_UserID p) (pl_TenantID p) (pl_Roles p).
Proof. unfold bridged, WithRequestID. by destruct (String.eqb _ _). Qed.

(** The two activity gates. *)
Lemma run_gates (h : Handler) c rc w :
  alone w → c_Caller c = Some rc →
  let out := RequireActiveTenant (RequireActiveMembership h) c w in
  (admitted rc (rq_Method (c_Request c)) (w_db w) → out = h c w) ∧
  (¬ admitted rc (rq_Method (c_Request c)) (w_db w) → refused [ForbiddenError; NotFoundError] w out).
Proof.
  intros Ha Hc out. subst out. unfold RequireActiveTenant, RequireActiveMembership, admitted. rewrite Hc.
  destruct (HasRole rc "iam-system") eqn:Es; [split; [done|tauto]|].
  destruct (IsOperator rc) eqn:Eo; [split; [done|tauto]|]. cbn [orb].
  unfold bindM, tryM. rewrite !run_FindByID by done.
  destruct (live_tenant _ _) as [t|] eqn:Et.
  2: { split; [intros [?|[?|(t & _ & ? & _)]]; done|]. intros _. apply refuse_domain; [done|by repeat constructor]. }
  destruct (status_refused _ _) as [e|] eqn:Er.
  { assert (refused [ForbiddenError; NotFoundError] w (Refuse c e w)) as Href.
    { revert Er. unfold status_refused. repeat case_match; intros [= <-]; apply refuse_domain; by repeat constructor. }
    split; [|done]. intros [?|[?|(t' & m & [= <-] & Hs & _)]]; [done..|]. exfalso. revert Er. unfold status_refused.
    destruct Hs as [Hs|[-> ->]]; [|done]. repeat (apply elem_of_cons in Hs as [->|Hs]; [done|]). by apply elem_of_nil in Hs. }
  assert (t_Status t ∈ [StatusTrial; StatusActive; StatusPastDue] ∨
          t_Status t = StatusCancelled ∧ is_write (rq_Method (c_Request c)) = false) as Hopen.
  { revert Er. unfold status_refused. destruct (t_Status t); try done; [left; set_solver..|].
    destruct (is_write _); [done|]. auto. }
  rewrite !run_FindByUserID by done.
  destruct (select_first _ _) as [m|] eqn:Em.
  2: { split; [intros [?|[?|(? & m & _ & _ & ? & _)]]; done|]. intros _. apply refuse_abort. by repeat constructor. }
  destruct (tm_Status m ==? MembershipActive)%stdpp eqn:Ea; cbn [negb].
  - apply bool_decide_eq_true in Ea. split; [done|]. intros Hn. exfalso. apply Hn. right; right. by exists t, m.
  - apply bool_decide_eq_false in Ea. split; [intros [?|[?|(? & ? & _ & _ & [= <-] & ?)]]; done|].
    intros _. apply refuse_abort. by repeat constructor.
Qed.

Lemma tenant_chain cfg r :
  r ∈ routes cfg → String.prefix "/api/v1/tenants/:id" (r_Path r) = true → r_Chain r = rg_Chain tenants.
Proof.
  apply under_chain. unfold routes, registerAPIRoutes, registerPublicRoutes.
  destruct (hc_me cfg), (hc_public cfg); vm_compute; reflexivity.
Qed.

Lemma internal_chain cfg r :
  r ∈ routes cfg → String.prefix "/api/v1/internal/tenants/:id" (r_Path r) = true → r_Chain r = rg_Chain tenantScoped.
Proof.
  apply under_chain. unfold routes, registerAPIRoutes, registerPublicRoutes.
  destruct (hc_me cfg), (hc_public cfg); vm_compute; reflexivity.
Qed.

Lemma run_tenant_route `{E : Env} cfg r b rq p rc w :
  alone w → r ∈ routes cfg → String.prefix "/api/v1/tenants/:id" (r_Path r) = true →
  hc_protected cfg (matched r rq) = None → json_request r rq →
  rq_Identity rq = Some p → parseBridgedIdentity p (rq_UserAgent rq) = inr rc →
  let own := uuid_Parse (Param (incoming rq) "id") = Some (rc_TenantID rc) in
  (own ∧ admitted rc (r_Method r) (w_db w) →
     dispatch cfg r b rq w = endpoint cfg (r_Endpoint r) b (bridged p rc (matched r rq)) w) ∧
  (¬ (own ∧ admitted rc (r_Method r) (w_db w)) →
     refused [BadRequestError; ForbiddenError; NotFoundError] w (dispatch cfg r b rq w)).
Proof.
  intros Ha Hr Hpre Hp Hj Hi Hb own. unfold dispatch. rewrite (tenant_chain cfg r Hr Hpre).
  unfold tenants, Group. cbn [rg_Chain]. rewrite chained_app, (run_v1 _ _ _ _ _ _ Hp Hj Hi Hb). cbn.
  set (c := bridged p rc (matched r rq)). destruct (bridged_parts p rc (matched r rq)) as (Hreq & Hcall & _). fold c in Hreq, Hcall.
  destruct (run_gates (endpoint cfg (r_Endpoint r) b) c rc w Ha Hcall) as [Hin Hout]. rewrite Hreq in Hin, Hout. cbn in Hin, Hout.
  unfold RequirePathTenantMatch, parsePathTenant. rewrite Hcall.
  assert (Param c "id" = Param (incoming rq) "id") as -> by (unfold Param; by rewrite Hreq).
  subst own. destruct (uuid_Parse (Param (incoming rq) "id")) as [tid|].
  2: { split; [by intros [? _]|]. intros _. apply refuse_domain; [done|by repeat constructor]. }
  destruct (Z.eqb_spec (rc_TenantID rc) tid) as [<-|Ht]; cbn [negb].
  - split; [by intros [_ ?]; apply Hin|]. intros Hn. destruct Hout as (pb & Eq & Hpb); [tauto|]. exists pb. split; [done|by right].
  - split; [by intros [[=] _]|]. intros _. apply refuse_domain; [done|by repeat constructor].
Qed.

(** C25: what a tenant-facing route lets through.  With nothing else running, a
    request that the platform's middleware accepts reaches its handler, with the
    caller and the database settings of its headers, exactly when its path names
    the caller's tenant and the caller is the platform or an operator, or an
    active member of a live tenant in trial, active or past_due, or cancelled
    and the method only reads.  Every other request is answered 400, 403 or 404
    and nothing happens. *)
Theorem tenant_routes_admit `{E : Env} cfg r b rq p rc w :
  alone w → r ∈ routes cfg → String.prefix "/api/v1/tenants/:id" (r_Path r) = true →
  hc_protected cfg (matched r rq) = None → json_request r rq →
  rq_Identity rq = Some p → parseBridgedIdentity p (rq_UserAgent rq) = inr rc →
  let own := uuid_Parse (Param (incoming rq) "id") = Some (rc_TenantID rc) in
  (own ∧ admitted rc (r_Method r) (w_db w) →
     dispatch cfg r b rq w = endpoint cfg (r_Endpoint r) b (bridged p rc (matched r rq)) w) ∧
  (¬ (own ∧ admitted rc (r_Method r) (w_db w)) →
     refused [BadRequestError; ForbiddenError; NotFoundError] w (dispatch cfg r b rq w)).
Proof. intros. by apply run_tenant_route. Qed.

(** ** The internal chain *)

(** The context on an internal tenant route: the caller and the database
    settings are those of the path's tenant. *)
Definition rebound `{Env} (tid : uuid) (p : PlatformContext) (rc : RequestContext) (rq : Request) : Ctx :=
  WithCaller (mkRequestContext (rc_UserID rc) tid (rc_Roles rc) (rc_ClientIP rc) (rc_UserAgent rc))
    (WithTenant tid (bridged p rc rq)).

(** C22: an internal tenant route runs on the tenant of its path.  The handler is
    reached exactly when the caller is iam-system, or commercial-system on one of
    its three routes, the path is a UUID and, in strict mode, agrees with the
    header; it then runs with the caller's tenant and app.tenant_id rebound to
    the path's tenant, and user, roles and the rest as they were.  Every other
    request is answered 400 or 403 and nothing happens. *)
Theorem internal_routes_rebind `{E : Env} cfg r b rq p rc w :
  r ∈ routes cfg → String.prefix "/api/v1/internal/tenants/:id" (r_Path r) = true →
  hc_protected cfg (matched r rq) = None → json_request r rq →
  rq_Identity rq = Some p → parseBridgedIdentity p (rq_UserAgent rq) = inr rc →
  let open := IsSystem rc = true ∨ IsCommercialSystem rc = true ∧ commercial_route r = true in
  let path := uuid_Parse (Param (incoming rq) "id") in
  (∀ tid, open → path = Some tid → (hc_strictTenantPath cfg = true → rc_TenantID rc = tid) →
     dispatch cfg r b rq w = endpoint cfg (r_Endpoint r) b (rebound tid p rc (matched r rq)) w) ∧
  (¬ (open ∧ ∃ tid, path = Some tid ∧ (hc_strictTenantPath cfg = true → rc_TenantID rc = tid)) →
     refused [BadRequestError; ForbiddenError; TenantMismatchType] w (dispatch cfg r b rq w)).
Proof.
  intros Hr Hpre Hp Hj Hi Hb open path. unfold dispatch. rewrite (internal_chain cfg r Hr Hpre).
  unfold tenantScoped, internal, Group. cbn [rg_Chain]. rewrite <- app_assoc, chained_app, (run_v1 _ _ _ _ _ _ Hp Hj Hi Hb). cbn.
  set (c := bridged p rc (matched r rq)). destruct (bridged_parts p rc (matched r rq)) as (Hreq & Hcall & _). fold c in Hreq, Hcall.
  unfold RequireInternalCaller. rewrite Hcall, Hreq. cbn. fold (commercial_route r).
  set (next := BindPathTenant (hc_strictTenantPath cfg) (endpoint cfg (r_Endpoint r) b)).
  assert ((∀ tid, path = Some tid → (hc_strictTenantPath cfg = true → rc_TenantID rc = tid) →
             next c w = endpoint cfg (r_Endpoint r) b (rebound tid p rc (matched r rq)) w) ∧
          (¬ (∃ tid, path = Some tid ∧ (hc_strictTenantPath cfg = true → rc_TenantID rc = tid)) →
             refused [BadRequestError; ForbiddenError; TenantMismatchType] w (next c w))) as [Hin Hout].
  { subst next path. unfold BindPathTenant, parsePathTenant. rewrite Hcall.
    assert (Param c "id" = Param (incoming rq) "id") as -> by (unfold Param; by rewrite Hreq).
    destruct (uuid_Parse (Param (incoming rq) "id")) as [tid|].
    2: { split; [done|]. intros _. apply refuse_domain; [done|by repeat constructor]. }
    destruct (hc_strictTenantPath cfg); cbn [andb]; [|split; [by intros ? [= <-]|intros Hn; exfalso; apply Hn; by exists tid]].
    destruct (Z.eqb_spec (rc_TenantID rc) tid) as [Et|Et]; cbn [negb].
    - split; [by intros ? [= <-]|]. intros Hn. exfalso. apply Hn. by exists tid.
    - split; [intros ? [= <-] Hs; by destruct Et; apply Hs|]. intros _. apply refuse_abort. by repeat constructor. }
  subst open. destruct (IsSystem rc); [split; [auto|intros Hn; apply Hout; intros He; apply Hn; auto]|].
  destruct (IsCommercialSystem rc), (commercial_route r);
    try (split; [intros ? [?|[? ?]]; done|intros _; apply refuse_abort; by repeat constructor]).
  split; [auto|intros Hn; apply Hout; intros He; apply Hn; auto].
Qed.
