(* ===== verification/MembersSpec.v ===== *)
(** * MembersSpec: browsing the members over HTTP

    A client that lists the members of its tenant (P-4), sending back the
    cursor of each answer, from the request on the wire to the rows: the
    middleware chain, the cursor's text, the page and what is read for each of
    its members. *)

From Stdlib Require Import String Btauto.
From stdpp Require Import sorting.
From S2P Require Import Prelude Domain Schema Tx Wp Json MembershipRepo RoleRepo DeptMembershipRepo MembershipService.
From S2P Require Import Consumer Wire Cursor Http HttpDto HttpHandlers Router.
From S2P Require Import MembershipSpec PaginationSpec CursorSpec HttpSpec.
Open Scope Z_scope.

(** ** One member *)

(** A member with its roles and departments, as P-5 shows it. *)
Definition member_view (tid : uuid) (d : DB) (m : TenantMembership) : MembershipListItem :=
  mkMembershipListItem m
    (RoleMember :: List.map tr_RoleCode
       (sort_by (λ r, role_rank (tr_RoleCode r)) (select (tr_of tid (tm_UserID m)) (tenant_roles d))))
    (List.map view_of (isort by_department (select (dm_of tid (tm_UserID m)) (dept_memberships d)))).

Lemma le_total (f : TenantRole → Z) a b : (f a <=? f b) = false → (f b <=? f a) = true.
Proof. lia. Qed.

Lemma by_user_department_total a b : by_user_department a b = false → by_user_department b a = true.
Proof.
  unfold by_user_department, by_department. rewrite orb_false_iff, orb_true_iff, andb_false_iff, andb_true_iff. lia.
Qed.

Lemma by_user_department_trans a b c :
  by_user_department a b = true → by_user_department b c = true → by_user_department a c = true.
Proof. unfold by_user_department, by_department. rewrite !orb_true_iff, !andb_true_iff. lia. Qed.

(** What the batch reads of a page hold for one of its users is what the reads
    of that user hold. *)
Lemma batch_roles tid uid uids d :
  contains uid uids = true →
  select (λ r, tr_UserID r =? uid)
    (sort_by (λ r, role_rank (tr_RoleCode r))
       (select (λ r, (tr_TenantID r =? tid) && contains (tr_UserID r) uids && tr_live r) (tenant_roles d))) =
  sort_by (λ r, role_rank (tr_RoleCode r)) (select (tr_of tid uid) (tenant_roles d)).
Proof.
  intros Hu. unfold sort_by. rewrite select_isort by (intros *; lia). f_equal. rewrite select_select.
  apply select_ext. intros r _. unfold tr_of. cbn.
  destruct (Z.eqb_spec (tr_UserID r) uid) as [->|]; [rewrite Hu|]; btauto.
Qed.

Lemma batch_departments tid uid uids d :
  contains uid uids = true →
  select (λ x, dm_UserID x =? uid)
    (isort by_user_department
       (select (λ r, (dm_TenantID r =? tid) && contains (dm_UserID r) uids && dm_live r) (dept_memberships d))) =
  isort by_department (select (dm_of tid uid) (dept_memberships d)).
Proof.
  intros Hu. rewrite select_isort by (apply by_user_department_total || apply by_user_department_trans).
  rewrite select_select.
  rewrite (select_ext _ (dm_of tid uid)).
  2: { intros r _. unfold dm_of. cbn. destruct (Z.eqb_spec (dm_UserID r) uid) as [->|]; [rewrite Hu|]; btauto. }
  apply isort_ext. intros x y Hx Hy.
  assert (∀ z, z ∈ select (dm_of tid uid) (dept_memberships d) → dm_UserID z = uid) as Huid.
  { intros z [_ Hz]%elem_of_select. unfold dm_of in Hz. lia. }
  unfold by_user_department. rewrite (Huid x Hx), (Huid y Hy), Z.ltb_irrefl, Z.eqb_refl. done.
Qed.

(** ** One page *)

Section page.
  Context `{E : Env} (tid : uuid) (w : World) (Ha : alone w).

Lemma run_roles_ListByUsers uids :
  RoleRepo.ListByUsers tid uids w =
  (Ok (sort_by (λ r, role_rank (tr_RoleCode r))
         (select (λ r, (tr_TenantID r =? tid) && contains (tr_UserID r) uids && tr_live r) (tenant_roles (w_db w)))), w).
Proof.
  destruct uids as [|u uids].
  - cbn. unfold retM. repeat f_equal. rewrite select_none; [done|]. intros r _. cbn. by rewrite andb_false_r.
  - unfold RoleRepo.ListByUsers, RoleRepo.listWhere.
    by rewrite (run_query (λ d, sort_by _ (select _ (tenant_roles d)))).
Qed.

Lemma run_depts_ListByUsers uids :
  DeptMembershipRepo.ListByUsers tid uids w =
  (Ok (isort by_user_department
         (select (λ r, (dm_TenantID r =? tid) && contains (dm_UserID r) uids && dm_live r) (dept_memberships (w_db w)))), w).
Proof.
  destruct uids as [|u uids].
  - cbn. unfold retM. repeat f_equal. rewrite select_none; [done|]. intros r _. cbn. by rewrite andb_false_r.
  - unfold DeptMembershipRepo.ListByUsers, DeptMembershipRepo.listWhere.
    by rewrite (run_query (λ d, isort _ (select _ (dept_memberships d)))).
Qed.

Lemma run_service_List cursor limit :
  let rows := listed tid cursor (w_db w) in
  MembershipService.List tid cursor limit w =
  (Ok (mkMembershipListPage (member_view tid (w_db w) <$> take (page_limit limit) rows)
         (page_view list_item cursor_of (page_limit limit) rows).2), w).
Proof.
  intros rows. unfold MembershipService.List, bindM at 1. rewrite run_List by done. fold rows.
  set (n := page_limit limit). pose proof (page_of_view n rows) as Hpage. cbn in Hpage.
  destruct (page_of n (take (n + 1) rows)) as [items next]. cbn [mlp_Items mlp_NextCursor] in *.
  injection Hpage as -> ->. cbn [fst snd page_view].
  set (nxt := if Nat.ltb n (length rows) then _ else _). clearbody nxt.
  destruct (take n rows) as [|m0 l0] eqn:El; [done|]. rewrite fmap_cons. cbn [mli_Membership list_item].
  rewrite <- fmap_cons, <- El. unfold bindM. rewrite run_roles_ListByUsers, run_depts_ListByUsers. unfold retM.
  repeat f_equal. rewrite map_map. apply map_ext_in. intros m Hm%list_elem_of_In. unfold hydrate, member_view. cbn.
  assert (contains (tm_UserID m) (List.map (λ i, tm_UserID (mli_Membership i)) (list_item <$> take n rows)) = true) as Hu.
  { apply contains_true, list_elem_of_fmap. exists (list_item m). split; [done|]. by apply list_elem_of_fmap_2. }
  by rewrite batch_roles, batch_departments.
Qed.

(** P-5 shows the same of a member. *)
Lemma run_service_Get m :
  uq_live_member (w_db w) → m ∈ listed tid None (w_db w) →
  MembershipService.Get tid (tm_UserID m) w = (Ok (member_view tid (w_db w) m), w).
Proof.
  intros Huq [Hm Hp]%elem_of_isort%elem_of_select.
  assert (tm_of tid (tm_UserID m) m = true) as Ht.
  { unfold tm_of. rewrite !andb_true_iff in *. rewrite Z.eqb_refl. tauto. }
  unfold MembershipService.Get, bindM. rewrite run_FindByUserID by done.
  destruct (select_first _ _) as [m'|] eqn:Ef; [|by eapply select_first_None in Ef; [|exact Hm]; congruence].
  apply (unique_eq _ _ _ m) in Ef as <-; [|done..].
  unfold RoleRepo.ListByUser, RoleRepo.listWhere, DeptMembershipRepo.ListByUser, DeptMembershipRepo.listWhere.
  rewrite (run_query (λ d, sort_by _ (select _ (tenant_roles d)))) by done.
  by rewrite (run_query (λ d, isort _ (select _ (dept_memberships d)))) by done.
Qed.

Lemma run_requireSameTenantMember c rc :
  c_Caller c = Some rc → rc_TenantID rc = tid → requireSameTenantMember c tid w = (Ok tt, w).
Proof.
  intros Hc Ht. unfold requireSameTenantMember, same_tenant, identity. rewrite Hc.
  unfold bindM, lift, retM, throw_if. by rewrite Ht, Z.eqb_refl.
Qed.

Lemma run_MembershipList cfg c rc cur limit :
  parseTenantIDParam c = Ok tid → c_Caller c = Some rc → rc_TenantID rc = tid →
  parse_limit c = Ok limit → parse_cursor cfg c = Ok cur →
  let rows := listed tid cur (w_db w) in
  MembershipList cfg c w =
  (Ok (RJSON StatusOK
     (gin_H ([("items"%string, JArr ((λ m, memberItemToResponse (member_view tid (w_db w) m)) <$> take (page_limit limit) rows))] ++
             omitempty "next_cursor" ((λ n, JStr (encode_cursor n)) <$>
               (page_view list_item cursor_of (page_limit limit) rows).2)))), w).
Proof.
  intros Hp Hc Ht Hl Hcur rows. unfold MembershipList, serve, bindM, tryM, lift. rewrite Hp, Hl, Hcur. cbn -[gin_H].
  rewrite (run_requireSameTenantMember c rc) by done. rewrite run_service_List. fold rows.
  cbn [mlp_Items mlp_NextCursor]. unfold pageItemsToResponse, retM.
  by rewrite <- list_fmap_compose.
Qed.
End page.

(** ** The client *)

(** GET /api/v1/tenants/:id/members *)
Definition members_route : Route := GET tenants "/members" P4_MembershipList.

Lemma members_route_in cfg : members_route ∈ routes cfg.
Proof. unfold routes, registerAPIRoutes. do 5 right. left. Qed.

(** The request for the page after a cursor. *)
Definition asking (cursor : option string) (rq : Request) : Request :=
  mkRequest (rq_Method rq) (rq_FullPath rq) (rq_Params rq)
    (match cursor with Some s => [("cursor"%string, s)] | None => [] end ++ rq_Query rq)
    (rq_ContentLength rq) (rq_ContentType rq) (rq_UserAgent rq) (rq_RequestID rq) (rq_Identity rq) (rq_Done rq).

Definition member_of (k : string) (v : json) : option json :=
  match v with JObj l => snd <$> List.find (λ e : string * json, String.eqb e.1 k) l | _ => None end.

(** What the client makes of an answer: the items, and the cursor to send
    next. *)
Definition read_page (resp : Response) : M (list json * option string) :=
  match resp with
  | RJSON 200 body =>
      match member_of "items" body, member_of "next_cursor" body with
      | Some (JArr items), Some (JStr next) => retM (items, Some next)
      | Some (JArr items), None => retM (items, None)
      | _, _ => throw (EPlain "unexpected body")
      end
  | _ => throw (EPlain "unexpected answer")
  end.

Definition http_page `{Env} (cfg : HttpConfig) (rq : Request) (cursor : option string) : M (list json * option string) :=
  let! resp := dispatch cfg members_route tt (asking cursor rq) in read_page resp.

Definition browse `{Env} (fuel : nat) (cfg : HttpConfig) (rq : Request) : M (list json) :=
  collect fuel (http_page cfg rq) None.

Section browsing.
  Context `{E : Env} (cfg : HttpConfig) (rq : Request) (p : PlatformContext) (rc : RequestContext) (w : World).
  Context (limit : Z).
  Context (Ha : alone w) (Hkey : NoDup (tm_ID <$> tenant_memberships (w_db w))).
  Context (Hprotected : ∀ cursor, hc_protected cfg (matched members_route (asking cursor rq)) = None).
  Context (Hid : rq_Identity rq = Some p) (Hbridge : parseBridgedIdentity p (rq_UserAgent rq) = inr rc).
  Context (Hown : uuid_Parse (Param (incoming rq) "id") = Some (rc_TenantID rc)).
  Context (Hid_text : Param (incoming rq) "id" ≠ ""%string).
  Context (Hadmitted : admitted rc "GET" (w_db w)).
  Context (Hquery : GetQuery (incoming rq) "cursor" = None) (Hlimit : parse_limit (incoming rq) = Ok limit).
  Context (Hrows : ∀ m, m ∈ listed (rc_TenantID rc) None (w_db w) →
    uuid_plain (tm_ID m) ∧ 0 <= tm_CreatedAt m < end_of_time).

#[local] Definition tid : uuid := rc_TenantID rc.
#[local] Definition item (m : TenantMembership) : json := memberItemToResponse (member_view tid (w_db w) m).
#[local] Definition token (m : TenantMembership) : string := encode_cursor (cursor_of m).

Lemma run_http_page cursor cur :
  parse_cursor cfg (incoming (asking cursor rq)) = Ok cur →
  http_page cfg rq cursor w =
  (Ok (page_view item token (page_limit limit) (listed tid cur (w_db w))), w).
Proof.
  intros Hcur. unfold http_page, bindM at 1.
  destruct (run_tenant_route cfg members_route tt (asking cursor rq) p rc w) as [Hrun _];
    [done|apply members_route_in|done|done|left; left|done|done|].
  rewrite Hrun by done. clear Hrun. unfold endpoint. cbn [handle members_route r_Endpoint GET on].
  set (c := bridged _ _ _). destruct (bridged_parts p rc (matched members_route (asking cursor rq))) as (Hreq & Hcall & _).
  fold c in Hreq, Hcall.
  rewrite (run_MembershipList tid w Ha cfg c rc cur limit).
  - set (rows := listed _ _ _). unfold page_view. cbn [snd].
    destruct (Nat.ltb _ _); [|done]. destruct (last _) as [m|]; done.
  - unfold parseTenantIDParam. assert (Param c "id" = Param (incoming rq) "id") as -> by (unfold Param; by rewrite Hreq).
    apply String.eqb_neq in Hid_text. rewrite Hid_text. cbn. by rewrite Hown.
  - done.
  - done.
  - unfold parse_limit, GetQuery in *. rewrite Hreq. cbn. destruct cursor; exact Hlimit.
  - unfold parse_cursor, Query, GetQuery in *. rewrite Hreq. exact Hcur.
Qed.

Lemma encode_cursor_nonempty c : uuid_plain (cur_ID c) → 0 <= cur_CreatedAt c < end_of_time → encode_cursor c ≠ ""%string.
Proof. intros Hu Ht He. pose proof (cursor_decodes (hc_time_Parse cfg) c Hu Ht) as Hd. by rewrite He in Hd. Qed.

(** C30: browsing the members over HTTP (P-4).  A member of the tenant, or an
    operator or the platform acting in it, asks for pages of any accepted limit,
    sending back the opaque cursor of each answer until there is none.  With
    nothing else running it gets, in no more requests than there are members
    plus one, every live membership exactly once, in (created_at, id) order,
    each with the roles and departments P-5 shows for it, and the database is
    as it was. *)
Theorem members_browsed fuel :
  (length (listed (rc_TenantID rc) None (w_db w)) < fuel)%nat →
  browse fuel cfg rq w = (Ok (item <$> listed (rc_TenantID rc) None (w_db w)), w) ∧
  listed (rc_TenantID rc) None (w_db w) ≡ₚ
    select (λ m, (tm_TenantID m =? rc_TenantID rc) && tm_live m) (tenant_memberships (w_db w)) ∧
  StronglySorted (λ a b, tm_le a b = true) (listed (rc_TenantID rc) None (w_db w)) ∧
  (uq_live_member (w_db w) → ∀ m, m ∈ listed (rc_TenantID rc) None (w_db w) →
     MembershipService.Get (rc_TenantID rc) (tm_UserID m) w = (Ok (member_view (rc_TenantID rc) (w_db w) m), w)).
Proof.
  intros Hf. split_and!.
  - apply (collect_all tid w _ item token (page_limit limit) Hkey (page_limit_pos limit)); [| |done].
    + apply run_http_page. unfold parse_cursor, Query.
      change (GetQuery (incoming (asking None rq)) "cursor") with (GetQuery (incoming rq) "cursor"). by rewrite Hquery.
    + intros m Hm. destruct (Hrows m Hm) as [Hu Ht]. apply run_http_page. unfold parse_cursor.
      change (Query (incoming (asking (Some (token m)) rq)) "cursor") with (token m).
      assert (token m ≠ ""%string) as ->%String.eqb_neq by by apply encode_cursor_nonempty.
      unfold token. by rewrite cursor_decodes.
  - unfold listed. rewrite isort_perm. erewrite select_ext; [reflexivity|]. intros m _. simpl. apply andb_true_r.
  - apply listed_sorted.
  - intros Huq m Hm. by apply run_service_Get.
Qed.
End browsing.
