(* ===== verification/HttpWitness.v ===== *)
(** * HttpWitness: requests on concrete databases

    Instances of the theorems of [CursorSpec.v] and [HttpSpec.v], with the team
    of [MembershipWitness.v], and a run in which a database error lets a
    suspended member through. *)

From Stdlib Require Import String.
From S2P Require Import Prelude Domain Schema Tx Wp Demo InvitationService ProvisioningService Http HttpDto.
From S2P Require Import HttpHandlers InternalHandlers Router Cursor.
From S2P Require Import MembershipWitness CursorSpec HttpSpec MembersSpec.
Open Scope Z_scope.

#[local] Existing Instance demo_env.

Definition demo_http : HttpConfig :=
  {| hc_txRunner := true; hc_invitations := mkInvitationConfig 7 0 0 0;
     hc_provisioning := mkProvisioningConfig false None true; hc_seatOverageDays := 30; hc_graceDays := 30;
     hc_departments := true; hc_strictTenantPath := false; hc_me := true; hc_public := true;
     hc_protected := λ _, None; hc_time_Parse := λ _, None |}.

(** A request of a user in a tenant, about a user. *)
Definition demo_request (user tenant : string) (roles : list string) (id user_id : string) : Request :=
  {| rq_Method := ""; rq_FullPath := ""; rq_Params := [("id", id); ("user_id", user_id)]%string; rq_Query := [];
     rq_ContentLength := 0; rq_ContentType := ""; rq_UserAgent := "agent"; rq_RequestID := "r-1";
     rq_Identity := Some (mkPlatformContext user tenant roles "10.0.0.1"); rq_Done := None |}.

(** DELETE /api/v1/tenants/:id/members/:user_id *)
Definition remove_route : Route := on "DELETE" tenants "/members/:user_id" P8_MembershipRemove.

Lemma remove_route_in : remove_route ∈ routes demo_http.
Proof. do 9 right. left. Qed.

(** GET /api/v1/internal/tenants/:id/locale *)
Definition locale_route : Route := on "GET" tenantScoped "/locale" I9_GetLocale.

Lemma locale_route_in : locale_route ∈ routes demo_http.
Proof. do 33 right. left. Qed.

(** Member 23, without a role, asks to remove user 22 (binary 10110). *)
Lemma only_the_authorised_write_witness :
  let rq := demo_request "10111" "111" [] "111" "10110" in
  w_db (dispatch demo_http remove_route tt rq (demo_world team)).2 = team.
Proof.
  intros rq.
  destruct (only_the_authorised_write demo_http remove_route tt rq (demo_world team)
              (dispatch demo_http remove_route tt rq (demo_world team)).1
              (dispatch demo_http remove_route tt rq (demo_world team)).2) as [(rc & Hrc & Hw)|Hk].
  - exact remove_route_in.
  - apply surjective_pairing.
  - exfalso. vm_compute in Hrc. injection Hrc as <-. destruct Hw as [_ Hw]. vm_compute in Hw. discriminate.
  - symmetry. apply (Hk eq); [apply _|constructor].
Defined.

(** Owner 21 removes user 22. *)
Lemma tenant_routes_admit_witness :
  let rq := demo_request "10101" "111" ["tenant_owner"]%string "111" "10110" in
  let out := dispatch demo_http remove_route tt rq (demo_world team) in
  out.1 = Ok (RStatus 204) ∧ length (outbox_events (w_db out.2)) = 4%nat.
Proof.
  intros rq out.
  set (rc := mkRequestContext 21 7 ["tenant_owner"]%string "10.0.0.1" "agent").
  set (p := mkPlatformContext "10101" "111" ["tenant_owner"]%string "10.0.0.1").
  assert (out = endpoint demo_http P8_MembershipRemove tt (bridged p rc (matched remove_route rq)) (demo_world team)) as ->.
  { apply (tenant_routes_admit demo_http remove_route tt rq p rc (demo_world team));
      [exact (demo_world_alone team)|exact remove_route_in|reflexivity|reflexivity|left; right; left|reflexivity|
       reflexivity|].
    split; [reflexivity|]. right; right. exists (demo_tenant 7 "acme" StatusActive), (demo_member 51 7 21 MembershipActive).
    split; [reflexivity|]. split; [left; right; left|]. split; reflexivity. }
  split; vm_compute; reflexivity.
Defined.

(** The platform reads the locale of tenant 7 with the header of tenant 8. *)
Lemma internal_routes_rebind_witness :
  let rq := demo_request "iam-system" "1000" ["iam-system"]%string "111" "" in
  ∃ c, c_Caller c = Some (mkRequestContext 0 7 ["iam-system"]%string "10.0.0.1" "agent") ∧
    g_TenantID (c_GUC c) = "111"%string ∧
    dispatch demo_http locale_route tt rq (demo_world team) = endpoint demo_http I9_GetLocale tt c (demo_world team).
Proof.
  intros rq.
  set (rc := mkRequestContext 0 8 ["iam-system"]%string "10.0.0.1" "agent").
  set (p := mkPlatformContext "iam-system" "1000" ["iam-system"]%string "10.0.0.1").
  exists (rebound 7 p rc (matched locale_route rq)). split; [reflexivity|]. split; [reflexivity|].
  apply (internal_routes_rebind demo_http locale_route tt rq p rc (demo_world team));
    [exact locale_route_in|reflexivity|reflexivity|left; left|reflexivity|reflexivity|left; reflexivity|reflexivity|].
  intros Hs. discriminate Hs.
Defined.

Lemma decode_encode_cursor_witness :
  let c := mkMembershipListCursor 63844806896700000 53 in
  decode_cursor (λ _, None) (encode_cursor c) = Some c.
Proof.
  intros c. apply (decode_encode_cursor (λ _, None) c).
  - split; [apply (bool_decide_unpack _); vm_compute; exact I|]. vm_compute. repeat constructor.
  - vm_compute. split; [discriminate|reflexivity].
Defined.

(** The owner 21 browses the team two members at a time. *)
Definition browsing : Request :=
  {| rq_Method := ""; rq_FullPath := ""; rq_Params := [("id", "111")]%string; rq_Query := [("limit", "2")]%string;
     rq_ContentLength := 0; rq_ContentType := ""; rq_UserAgent := "agent"; rq_RequestID := "r-1";
     rq_Identity := Some (mkPlatformContext "10101" "111" [] "10.0.0.1"); rq_Done := None |}.

Lemma members_browsed_witness :
  ∃ items, browse 4 demo_http browsing (demo_world team) = (Ok items, demo_world team) ∧
    member_of "user_id" <$> items = [Some (Wire.JUuid 21); Some (Wire.JUuid 22); Some (Wire.JUuid 23)].
Proof.
  destruct (members_browsed demo_http browsing (mkPlatformContext "10101" "111" [] "10.0.0.1")
              (mkRequestContext 21 7 [] "10.0.0.1" "agent") (demo_world team) 2 (demo_world_alone team)
              ltac:(apply (bool_decide_unpack _); vm_compute; exact I) (λ _, eq_refl) eq_refl eq_refl eq_refl
              ltac:(discriminate)
              ltac:(right; right; exists (demo_tenant 7 "acme" StatusActive), (demo_member 51 7 21 MembershipActive);
                    split; [reflexivity|]; split; [left; right; left|]; split; reflexivity)
              eq_refl eq_refl) with (fuel := 4%nat) as [E _].
  - intros m Hm. vm_compute in Hm. repeat (apply elem_of_cons in Hm as [->|Hm]; [|]); [..|by apply elem_of_nil in Hm];
      (split; [split; [apply (bool_decide_unpack _); vm_compute; exact I|vm_compute; repeat constructor]|
               vm_compute; split; [discriminate|reflexivity]]).
  - vm_compute. lia.
  - eexists. split; [exact E|]. vm_compute. reflexivity.
Defined.

(** ** A lookup that fails lets the request through

    Member 22, an owner, is suspended; the database fails on the membership
    lookup of the gate and answers again for the handler. *)
Definition suspended_team : DB :=
  set_tenant_memberships
    [demo_member 51 7 21 MembershipActive; demo_member 52 7 22 MembershipSuspended; demo_member 53 7 23 MembershipActive] team.

Definition flaky_world (d : DB) : World :=
  set_w_sched [mkAttempt 1000 (λ d, d) None; mkAttempt 1000 (λ d, d) (Some (EPg PgConnectionException))] (demo_world d).

Lemma suspended_member_passes_on_error :
  let rq := demo_request "10110" "111" ["tenant_owner"]%string "111" "10111" in
  (dispatch demo_http remove_route tt rq (demo_world suspended_team)).1 =
    Ok (RProblem (problem_New ForbiddenError "suspended members cannot access tenant APIs")) ∧
  (dispatch demo_http remove_route tt rq (flaky_world suspended_team)).1 = Ok (RStatus 204).
Proof. split; vm_compute; reflexivity. Qed.
