(* ===== verification/SettingsWitness.v ===== *)
(** * SettingsWitness: settings, projections, sweeps and events on concrete inputs

    Each lemma applies one theorem to a concrete world, with the environment of
    [Demo.v], so that its hypotheses are seen to hold together. *)

From S2P Require Import CatalogService.
From S2P Require Import Prelude Utf8 Domain Schema Tx Wp TenantRepo RoleRepo DeptMembershipRepo EventStores Demo.
From S2P Require Import CacheKeys TenantService ReadModels AuthzService GroupMappingService CatalogConsumer Jobs EventBus.
From S2P Require Import LifecycleSpec MembershipSpec DeptSpec MembershipWitness TenancyWitness AuthzSpec CacheSpec SettingsSpec JobsSpec EventBusSpec GroupsSpec OwnersSpec.

#[local] Existing Instance demo_env.
#[local] Instance settings_inbox : InboxStore := reference_inbox z_parse.

Lemma team_tenants_ok : tenants_ok team.
Proof.
  split.
  - apply (bool_decide_unpack _). vm_compute. exact I.
  - intros t Ht. simpl in Ht. apply list_elem_of_singleton in Ht as ->. reflexivity.
  - intros t Ht. simpl in Ht. apply list_elem_of_singleton in Ht as ->. split; reflexivity.
Qed.

(** ** The projection *)

(** User 22 has two roles and one department: the department comes twice. *)
Lemma FindMembershipProjection_spec_witness :
  ∃ row, FindMembershipProjection 7 22 (demo_world team) = (Ok (Some row), demo_world team) ∧
    mpr_Roles row = [RoleTenantOwner; RoleTenantAdmin] ∧
    mpr_Departments row = [mkDeptMembershipView 301 "" DeptReviewer; mkDeptMembershipView 301 "" DeptReviewer].
Proof.
  destruct (FindMembershipProjection 7 22 (demo_world team)) as [r w'] eqn:E.
  assert (∃ row, r = Ok (Some row)) as [row ->].
  { vm_compute in E. injection E as <- _. eexists. reflexivity. }
  destruct (FindMembershipProjection_spec 7 22 (demo_world team) row w' (demo_world_alone team) E)
    as (-> & _ & _ & _ & _ & Hd).
  exists row. split; [reflexivity|]. vm_compute in E. injection E as <-. split; reflexivity.
Defined.

Lemma readFromDB_spec_witness :
  ∃ p w', readFromDB 7 22 (demo_world team) = (Ok (Some p), w') ∧ w_db w' = team ∧
    mp_Roles p = [RoleMember; RoleTenantOwner; RoleTenantAdmin] ∧ mp_ReadOnly p = false.
Proof.
  destruct (readFromDB 7 22 (demo_world team)) as [r w'] eqn:E.
  assert (∃ p, r = Ok (Some p)) as [p ->].
  { vm_compute in E. injection E as <- _. eexists. reflexivity. }
  destruct (readFromDB_spec 7 22 (demo_world team) p w' (demo_world_alone team) E) as (Hd & _).
  exists p, w'. split; [reflexivity|]. split; [exact Hd|]. vm_compute in E. injection E as <- _. split; reflexivity.
Defined.

(** ** Settings *)

Definition rename : TenantPatch := mkTenantPatch (Some "Acme Ltd") None None None (Some ResidencyModeStrict) 1.

Lemma Patch_spec_witness :
  ∃ t w', Patch true 7 (Some rename) (demo_world team) = (Ok (t, false), w') ∧
    t_Name t = "Acme Ltd" ∧ t_RecordVersion t = 2 ∧ length (outbox_events (w_db w')) = 1%nat ∧
    patch_outcome true 7 rename (demo_world team) (Ok (t, false)) w'.
Proof.
  destruct (Patch true 7 (Some rename) (demo_world team)) as [r w'] eqn:E.
  pose proof (Patch_spec demo_codec true 7 rename (demo_world team) r w' (demo_world_alone team) team_tenants_ok
                eq_refl E) as HS.
  vm_compute in E. injection E as <- <-. eexists _, _. split; [reflexivity|].
  split; [reflexivity|]. split; [reflexivity|]. split; [reflexivity|]. exact HS.
Defined.

(** ** Sweeps *)

Definition job_context : Context := mkContext None None [] None true (retM None) 5 30 8 8 0.

(** Tenant 7 with one licensed seat and three active members. *)
Definition crowded : DB := set_tenants [set_t_LicensedSeats 1 (demo_tenant 7 "acme" StatusActive)] team.

Lemma SeatOverageReconcile_spec_witness :
  ∃ w', SeatOverageReconcile job_context (demo_world crowded) = (Ok (mkResult 1 1 0 0), w') ∧
    t_OverageSince <$> tenants (w_db w') = [Some 1000] ∧ length (outbox_events (w_db w')) = 1%nat ∧
    SeatOverageReconcile job_context w' = (Ok (mkResult 1 1 0 0), w').
Proof.
  destruct (SeatOverageReconcile job_context (demo_world crowded)) as [r w'] eqn:E.
  assert (tenants_ok crowded) as Hok.
  { split.
    - apply (bool_decide_unpack _). vm_compute. exact I.
    - intros t Ht. simpl in Ht. apply list_elem_of_singleton in Ht as ->. reflexivity.
    - intros t Ht. simpl in Ht. apply list_elem_of_singleton in Ht as ->. split; reflexivity. }
  destruct (SeatOverageReconcile_spec demo_codec job_context (demo_world crowded) r w' (demo_world_alone crowded) Hok E)
    as (-> & Hd & _ & Hagain).
  exists w'. split; [reflexivity|]. split; [rewrite Hd; vm_compute; reflexivity|].
  split; [rewrite Hd; vm_compute; reflexivity|]. exact Hagain.
Defined.

(** An expired entry and a recent one. *)
Definition ledger : DB :=
  set_trial_signup_ledger [mkLedgerRow "a" None (- 731 * day); mkLedgerRow "b" None 900] empty_db.

Lemma TrialLedgerPrune_drains_witness :
  ∃ w', TrialLedgerPrune job_context 2 (demo_world ledger) = (Ok (Some (mkResult 1 1 0 0)), w') ∧
    trial_signup_ledger (w_db w') = [mkLedgerRow "b" None 900].
Proof.
  eexists. split.
  - exact (TrialLedgerPrune_drains job_context 2 (demo_world ledger) (demo_world_alone ledger)
      ltac:(apply (bool_decide_unpack _); vm_compute; exact I) eq_refl ltac:(vm_compute; lia)).
  - vm_compute. reflexivity.
Defined.

(** ** A plan change *)

Definition plan_event : Envelope :=
  mkEnvelope "101" "PlanCatalogChanged" "" 900 (Some (JObj [("code"%string, JStr "pro")])).

(** The projection of user 22 is in the cache when the event arrives. *)
Definition cached : World := (GetMembership 7 22 (demo_world team)).2.


(** ** Group claims *)

(** The engineers' group maps to department 301 and to tender admin. *)
Definition mapped : World :=
  set_w_cache [(cacheKeyGDM 7, CGroupDepts [mkGroupDeptMapping 7 "engineers" 301]);
               (cacheKeyGRM 7, CGroupDeptRoles [mkGroupDeptRoleMapping 7 "engineers" DeptReviewer]);
               (cacheKeyGTRM 7, CGroupTenantRoles [mkGroupTenantRoleMapping 7 "engineers" RoleTenderAdmin])]
    (demo_world team).

(** What the cached mappings say. *)
Definition engineers : Mappings :=
  mkMappings [mkGroupDeptMapping 7 "engineers" 301] [mkGroupDeptRoleMapping 7 "engineers" DeptReviewer]
    [mkGroupTenantRoleMapping 7 "engineers" RoleTenderAdmin].

Lemma AssignFromGroups_additive_witness :
  ∃ w', AssignFromGroups 7 23 ["engineers"] mapped = (Ok (mkJITResult [301] [RoleTenderAdmin]), w') ∧
    adds_to 7 23 [(301, DeptReviewer)] team (w_db w') ∧
    level_in 7 23 301 (w_db w') = Some DeptReviewer ∧ granted 7 23 RoleTenderAdmin (w_db w').
Proof.
  assert ((AssignFromGroups 7 23 ["engineers"] mapped).1 = Ok (mkJITResult [301] [RoleTenderAdmin])) as E
    by (vm_compute; reflexivity).
  assert ((resolveMappings 7 ["engineers"] mapped).1 = Ok engineers) as Em by (vm_compute; reflexivity).
  apply result_of in E, Em.
  destruct (AssignFromGroups_additive 7 23 ["engineers"] engineers _ mapped _ _ ltac:(by apply Forall_nil) Em E) as [HA HB].
  destruct (HB ltac:(discriminate) eq_refl team_depts) as [Hd Hr].
  eexists. split; [exact E|]. split; [exact HA|]. split.
  - apply (Hd 301). vm_compute. left.
  - apply Hr. vm_compute. left.
Defined.

(** ** The last owner *)

(** Before the transaction that removes owner 21, another one removes owner 22. *)
Definition racing : World :=
  set_w_sched [mkAttempt 1000 (λ d, w_db (MembershipService.RemoveUser 7 22 21 (demo_world d)).2) None] (demo_world team).

Lemma team_owned : owned 7 team.
Proof.
  split; [|vm_compute; discriminate]. intros tid uid c.
  apply (count_key (λ r, (tr_TenantID r, tr_UserID r, tr_RoleCode r)) (tid, uid, c)).
  - intros r [(-> & -> & _)%tr_of_split ->%bool_eq_true]%andb_true_iff. done.
  - apply (bool_decide_unpack _). vm_compute. exact I.
Qed.

Lemma last_owner_grant_kept_witness :
  owned 7 (w_db (perform (OpRemoveUser 7 21 21) racing)) ∧ owners 7 (w_db (perform (OpRemoveUser 7 21 21) racing)) = 1.
Proof.
  split; [|vm_compute; reflexivity]. apply (last_owner_grant_kept 7 team); [|exact team_owned].
  apply (history_operation (OpRemoveUser 7 21 21) racing). intros a Ha d. apply list_elem_of_singleton in Ha as ->.
  apply (history_operation (OpRemoveUser 7 22 21) (demo_world d)). intros a Ha. by apply list.elem_of_nil in Ha.
Defined.

(** ** Published events *)

Definition registry_answer (name : string) (definition : bytes) : result error GlueSchema :=
  Ok (mkGlueSchema (Some "11010") true).

Definition embedded : result error (list DirEntry) := Ok [mkDirEntry "tenant_created.json" false (Ok [123; 125]%N)].

Definition on_the_wire : bytes := ([3; 0] ++ replicate 15 0 ++ [26; 34; 97; 34])%N.

Lemma Encode_Decode_witness :
  (Encode (λ b, Ok b) registry_answer embedded "TenantCreated" [34; 97; 34]%N ∅).1 = Ok (on_the_wire, "11010") ∧
  Decode "11010" on_the_wire = Ok [34; 97; 34]%N ∧ length on_the_wire = 21%nat.
Proof.
  assert ((Encode (λ b, Ok b) registry_answer embedded "TenantCreated" [34; 97; 34]%N ∅).1 = Ok (on_the_wire, "11010"))
    as E by (vm_compute; reflexivity).
  split; [exact E|]. apply result_of in E.
  destruct (Encode_Decode (λ b, Ok b) registry_answer embedded "TenantCreated" "11010" [34; 97; 34]%N ∅ on_the_wire
              "11010" _ E) as (Hd & Hl & _).
  { intros u Hu. change (Some 26 = Some u) in Hu. injection Hu as <-. lia. }
  split; [exact Hd|exact Hl].
Defined.

(** The tenant topic rejects what it is given, the membership topic accepts. *)
Definition half_up : RoutingPublisher :=
  mkRoutingPublisher (Some NoopPublisher)
    (Some (mkPublisher (λ _, None) (λ b, Some (BatchError (List.map (λ e, mkBatchFailure (env_ID e) "x" "no" true) b))))).

Definition two_events : list Envelope :=
  [mkEnvelope "1" "TenantCreated" "7" 5 None; mkEnvelope "2" "MFAReset" "7" 6 None].

Lemma PublishBatch_no_loss_witness :
  published (PublishBatch half_up two_events) (mkEnvelope "2" "MFAReset" "7" 6 None) ∧
  published (lane_answer half_up (mkEnvelope "2" "MFAReset" "7" 6 None) two_events) (mkEnvelope "2" "MFAReset" "7" 6 None).
Proof.
  destruct (PublishBatch_no_loss half_up two_events (mkEnvelope "2" "MFAReset" "7" 6 None)) as [H1 H2].
  { right. left. }
  assert (published (PublishBatch half_up two_events) (mkEnvelope "2" "MFAReset" "7" 6 None)) as Hp.
  { apply H2.
    - apply (bool_decide_unpack _). vm_compute. exact I.
    - intros pub batch [[= <-]|[= <-]]; [exact I|]. simpl. change (List.map ?f ?l) with (f <$> l).
      rewrite <- list_fmap_compose. done.
    - exact I. }
  split; [exact Hp|]. by apply H1.
Defined.
