(* ===== verification/EdgeWitness.v ===== *)
(** * EdgeWitness: messages and answers on concrete inputs

    The theorems of [PipelineSpec.v], [ClientsSpec.v] and [ValkeySpec.v] on a
    delivered event, a catalog answer, a downgrade and a cache that loses
    answers. *)

From Stdlib Require Import String.
From S2P Require Import Prelude Domain Schema Tx Demo EventStores Json Consumer CatalogService TenantService.
From S2P Require Import Pipeline Clients JsonParse EventBus Router Startup Server Boot.
From S2P Require Import LifecycleSpec LifecycleWitness MembershipWitness PipelineSpec JsonSpec ClientsSpec ServerSpec.
From S2P Require Import CacheKeys ReadModels AuthzService AuthzSpec CacheSpec SettingsWitness Valkey ValkeySpec.
From S2P Require CatalogConsumer.
Open Scope Z_scope.

#[local] Existing Instance demo_env.
#[local] Instance edge_inbox : InboxStore := reference_inbox z_parse.

(** ** Messages *)

Definition delivered : SourceMessage :=
  mkSourceMessage "tenant-orgm-q" "raw body" [("traceparent", "00-1")]%string.

Definition dlq_up (_ : nat) (_ : SourceMessage) (_ : string) : result error unit := Ok tt.

Definition any_payload (_ : string) (_ : option json) : result error unit := Ok tt.

(** A production environment. *)
Definition prod_settings : list (string * string) :=
  [("APP_ENV", "prod"); ("VALKEY_URL", "rediss://cache:6379"); ("SNS_TOPIC_MEMBERSHIP_ARN", "arn:m");
   ("SNS_TOPIC_TENANT_ARN", "arn:t"); ("GLUE_REGISTRY_MEMBERSHIP_NAME", "m"); ("GLUE_REGISTRY_TENANT_NAME", "t");
   ("REALM_PROVISIONER_BASE_URL", "http://rp"); ("WORKFLOW_SERVICE_BASE_URL", "http://wf");
   ("SQS_TENANT_ORGM_QUEUE_URL", "tenant-orgm-q"); ("SQS_CATALOG_ORGM_QUEUE_URL", "catalog-orgm-q");
   ("CATALOG_ADMIN_BASE_URL", "http://catalog"); ("SYSTEM_DATABASE_URL", "postgres://sys");
   ("AUDIT_LOG_BASE_URL", "http://audit"); ("DATABASE_URL", "postgres://app")]%string.

Definition prod_env : Environment := λ key,
  snd <$> List.find (λ e : string * string, String.eqb (fst e) key) prod_settings.

Definition queue_defaults : SQSConfigEnv := mkSQSConfigEnv "" 1 0 0 0 0.

(** Libraries whose constructors all succeed; no event schema is embedded. *)
Definition all_up : Libraries :=
  {| lib_NewLogger := λ _, Ok tt; lib_InitTracing := λ _ _ _, Ok tt; lib_Observability := λ _, Ok tt;
     lib_shared := λ n, if String.eqb n "iam_rls_violations_total" || String.eqb n "iam_auth_session_revoke_failed_total"
                        then 1%nat else 3%nat;
     lib_InitEventMetrics := Ok tt; lib_InitPoolMetrics := Ok tt;
     lib_pgConfig := mkPoolConfig "postgres://app" "app" false false 2 false false; lib_MigrationDSN := "postgres://app";
     lib_NewPool := λ _, Ok tt; lib_ApplySchema := λ _, retM tt; lib_RunMigrations := λ _, retM tt;
     lib_LoadAWS := λ _, Ok tt; lib_NewDLQPublisher := λ _, Ok tt; lib_compile := λ _ _, Ok (λ _, Ok tt);
     lib_schemasFS := Ok []; lib_Compact := λ b, Ok b; lib_registries := λ _ _ _, Err (EPlain "unused");
     lib_NewSNSPublisher := λ _ _, Ok NoopPublisher; lib_NewRunner := λ _, Ok tt;
     lib_SendToDLQ := dlq_up; lib_ResolveDLQ := λ _, DLQResolved "dlq"; lib_NewConsumer := λ _, Ok tt;
     lib_sqsEnv := queue_defaults |}.

(** The server [main] starts with them in that environment. *)
Definition prod_start : (Boot.Server + error) * (boot_state * World) :=
  server_start prod_env all_up (λ _, None) (λ _, None) (Some delivered) 1000 (no_boot, demo paid).

Definition prod_consumer (queue : string) (concurrency : Z) (h : EventHandler) : wiredConsumer :=
  mkWiredConsumer queue (sqsEnvForQueue queue_defaults queue concurrency)
    (queue_handler dlq_up [] (Some delivered) h) (newConsumerHeartbeat queue 1000).

Definition prod_server : Boot.Server :=
  match prod_start.1 with
  | inl srv => srv
  | inr _ => mkServer [] (mkRoutingPublisher None None) [] (server_http prod_env (λ _, None) (λ _, None)) (mkDocsConfig "" false "")
  end.

Lemma prod_started : prod_start = (inl prod_server, prod_start.2).
Proof.
  assert (match prod_start.1 with inl _ => true | inr _ => false end = true) as Hs by (vm_compute; reflexivity).
  unfold prod_server. by destruct prod_start as [[srv|e] s].
Qed.

Lemma prod_server_consumers :
  srv_consumers prod_server =
  [prod_consumer "tenant-orgm-q" 4 (Handle (membershipConsumer prod_env));
   prod_consumer "catalog-orgm-q" 2 CatalogConsumer.Handle].
Proof.
  pose proof (start_started _ _ _ _ _ _ _ _ _ prod_started) as Hst. revert Hst. generalize prod_server.
  intros srv [_ Hs _ Hc _ _]. cbn in Hs. injection Hs as Hs. rewrite <- Hs in Hc. revert Hc. unfold prod_consumer.
  generalize (srv_consumers srv) as cs.
  cbv -[queue_handler Handle CatalogConsumer.Handle membershipConsumer]. by intros cs [= <-].
Qed.

Lemma acknowledged_is_settled_witness :
  ∃ wc w', wc_queue wc = "tenant-orgm-q"%string ∧ wc_handler wc cancel_event (demo paid) = (Ok tt, w') ∧
    claimed consumerName (env_ID cancel_event) (w_db w') = true.
Proof.
  set (wc := prod_consumer "tenant-orgm-q" 4 (Handle (membershipConsumer prod_env))).
  set (run := wc_handler wc cancel_event (demo paid)).
  assert (run = (Ok tt, run.2)) as E by (apply result_of; vm_compute; reflexivity).
  assert (forallb (λ c, match c with CallSendToDLQ _ _ _ _ => false | _ => true end) (w_calls run.2) = true) as Hno
    by (vm_compute; reflexivity).
  exists wc, run.2. split; [reflexivity|]. split; [exact E|].
  destruct (acknowledged_is_settled prod_env all_up (λ _, None) (λ _, None) (Some delivered) 1000 (demo paid) prod_server
    prod_start.2 prod_started wc cancel_event (demo paid) run.2 ltac:(rewrite prod_server_consumers; left)
    ltac:(constructor) E) as [_ [Hc|[(src & reason & _ & _ & calls & Hcalls & _)|(Hq & _)]]]; [exact Hc| |discriminate Hq].
  exfalso. rewrite Hcalls, List.forallb_app in Hno. apply andb_true_iff in Hno as [_ Hno]. discriminate Hno.
Defined.

Lemma members_removed_claims d : claims_kept d (set_tenant_memberships [] d).
Proof. by apply claims_kept_same. Qed.

(** The cancellation again, after the tenant's members have been removed. *)
Lemma Handle_redelivery_witness :
  ∃ w1 w2 w3, Handle demo_consumer cancel_event (demo paid) = (Ok tt, w1) ∧ w_db w2 ≠ w_db w1 ∧
    Handle demo_consumer cancel_event w2 = (Ok tt, w3) ∧ w_db w3 = w_db w2.
Proof.
  set (run := Handle demo_consumer cancel_event (demo paid)).
  assert (run = (Ok tt, run.2)) as E1 by (apply result_of; vm_compute; reflexivity).
  set (w2 := set_w_db (set_tenant_memberships [] (w_db run.2)) run.2).
  set (again := Handle demo_consumer cancel_event w2).
  assert (again = (Ok tt, again.2)) as E2 by (apply result_of; vm_compute; reflexivity).
  exists run.2, w2, again.2. split; [exact E1|]. split.
  { intros Hd. apply (f_equal (λ d, length (tenant_memberships d))) in Hd. vm_compute in Hd. discriminate Hd. }
  split; [exact E2|].
  apply (Handle_redelivery demo_consumer cancel_event (demo paid) run.2 w2 (Ok tt) again.2).
  - intros signup input Hp. discriminate Hp.
  - constructor.
  - exact E1.
  - exact (members_removed_claims (w_db run.2)).
  - split; vm_compute; reflexivity.
  - intros Ht. discriminate Ht.
  - exact E2.
Defined.

(** The documentation is checked late: with DOCS_ENABLED and no token, the
    production server refuses to start only after its outbox runner and its
    consumers have been started; they are cut off by the panic. *)
Definition docs_env : Environment := λ key, if String.eqb key "DOCS_ENABLED" then Some "true"%string else prod_env key.


Lemma docs_panic_after_consumers :
  let '(r, (st, _)) := server_start docs_env all_up (λ _, None) (λ _, None) (Some delivered) 1000 (no_boot, demo paid) in
  match r with
  | inl _ => False
  | inr e => docs_from_env docs_env "prod" = Err e
  end ∧
  bs_done st =
    [LoggerBuilt; TracingStarted; MetricsRegistered; PoolOpened "app" "postgres://app"; PoolOpened "system" "postgres://sys";
     BackgroundStarted; SchemaMigrated "postgres://app"; CacheOpened "rediss://cache:6379"; OutboxStarted;
     ConsumerStarted "tenant-orgm-q"; ConsumerStarted "catalog-orgm-q"; ExportersStarted]%string.
Proof. vm_compute. split; reflexivity. Qed.

Lemma permanent_rejects_dead_lettered_witness :
  inboundHandler dlq_up any_payload (Some delivered) (Handle demo_consumer) future_event (demo paid) =
  (Ok tt, set_w_calls [CallSendToDLQ "tenant-orgm-q" "raw body" [("traceparent", "00-1")]%string "future_time_clamp"]
            (demo paid)).
Proof.
  assert (env_Timestamp future_event ≠ 0 ∧ w_clock (demo paid) + c_skew demo_consumer < env_Timestamp future_event) as Hf
    by (split; [discriminate|reflexivity]).
  pose proof (permanent_rejects_dead_lettered demo_consumer dlq_up any_payload delivered future_event (demo paid)
    (or_intror Hf)) as Hp.
  destruct (inboundHandler _ _ _ _ _ _) as [[[]|e] w']; destruct Hp as [-> Hr]; [reflexivity|discriminate Hr].
Defined.

(** ** A plan change *)

Lemma catalog_queue_retires_witness :
  ∃ wc w1, wc_queue wc = "catalog-orgm-q"%string ∧ wc_handler wc plan_event cached = (Ok tt, w1) ∧
    claimed CatalogConsumer.catalogConsumerName (env_ID plan_event) (w_db w1) = true ∧
    ∀ p w2, GetMembership 7 22 w1 = (Ok p, w2) → mp_Plan p = PlanPro →
      ∃ row n, projection_of 7 22 (w_db w1) = Some row ∧ projects 7 22 row (catalog_plan n PlanPro) p.
Proof.
  set (wc := prod_consumer "catalog-orgm-q" 2 CatalogConsumer.Handle).
  set (run := wc_handler wc plan_event cached).
  assert (run = (Ok tt, run.2)) as E by (apply result_of; vm_compute; reflexivity).
  assert (forallb (λ c, match c with CallSendToDLQ _ _ _ _ => false | _ => true end) (w_calls run.2) = true) as Hno
    by (vm_compute; reflexivity).
  exists wc, run.2. split; [reflexivity|]. split; [exact E|].
  destruct (catalog_queue_retires prod_env all_up (λ _, None) (λ _, None) (Some delivered) 1000 (demo paid) prod_server
    prod_start.2 prod_started wc plan_event PlanPro 7 22 cached run.2) as [(src & reason & _ & _ & calls & Hcalls & _)|Hc].
  - rewrite prod_server_consumers. right. left.
  - reflexivity.
  - split; vm_compute; reflexivity.
  - reflexivity.
  - vm_compute. left.
  - vm_compute. reflexivity.
  - reflexivity.
  - intros q g Hs. assert (match CacheSpec.stored (cacheKeyMemberships 7 22) (w_cache cached) with
      | Some (CMembership _ g) => g = "" | _ => True end) as Hg by (vm_compute; reflexivity).
    rewrite Hs in Hg. subst g. discriminate.
  - exact E.
  - exfalso. rewrite Hcalls, List.forallb_app in Hno. apply andb_true_iff in Hno as [_ Hno]. discriminate Hno.
  - exact Hc.
Defined.

(** ** The catalog *)

Definition two_departments : list CatalogDepartment :=
  [mkCatalogDepartment 301 "eng" "Engineering & <Design>" true true 4; mkCatalogDepartment 302 "fin" "Finance" false true 1]%string.

Definition catalog_up : Doer := λ _, Ok (mkOutResponse 200 (json_text (departments_json two_departments "2026-01-01T00:00:00Z"))).

Lemma CatalogDepartments_round_trip_witness : CatalogDepartments catalog_up "http://catalog" = Ok two_departments.
Proof.
  apply (CatalogDepartments_round_trip catalog_up "http://catalog" two_departments "2026-01-01T00:00:00Z" 200).
  - discriminate.
  - reflexivity.
  - repeat (constructor; [split_and!; [..|split; vm_compute; congruence];
      unfold utf8_string; vm_compute; repeat (apply utf8_ascii; [reflexivity|]); apply utf8_nil|]). constructor.
  - unfold utf8_string. vm_compute. repeat (apply utf8_ascii; [reflexivity|]). apply utf8_nil.
  - apply Nat.leb_le. vm_compute. reflexivity.
  - reflexivity.
Defined.

(** ** A downgrade *)

(** The catalog is down, the realm has two identity providers. *)
Definition demo_net (_ : nat) : Doer := λ req,
  if String.prefix "http://rp" (or_URL req) then Ok (mkOutResponse 200 (json_text (JObj [("idp_count"%string, JNum 2)])))
  else Err (EPlain "connection refused").

Definition http_env : Env := clients_env demo_env (λ s, s) (clients_from_env prod_env) demo_net (λ _, 1).

Definition prod_http_start : (Boot.Server + error) * (boot_state * World) :=
  server_start (H := http_env) prod_env all_up (λ _, None) (λ _, None) (Some delivered) 1000 (no_boot, demo paid).
Definition prod_http_server : Boot.Server := match prod_http_start.1 with inl srv => srv | inr _ => prod_server end.

Lemma prod_http_started : prod_http_start = (inl prod_http_server, prod_http_start.2).
Proof.
  assert (match prod_http_start.1 with inl _ => true | inr _ => false end = true) as Hs by (vm_compute; reflexivity).
  unfold prod_http_server. by destruct prod_http_start as [[srv|e] s].
Qed.

Lemma plan_change_fail_closed_witness :
  ∃ r w', PlanChangeCheck (H := http_env) (H0 := @CatalogService http_env) 7 PlanStarter (demo_world team) = (Ok r, w') ∧
    pcr_Allowed r = false.
Proof.
  set (run := PlanChangeCheck (H := http_env) (H0 := @CatalogService http_env) 7 PlanStarter (demo_world team)).
  assert (match run.1 with Ok r => pcr_Allowed r = false | Err _ => False end) as Hr by (vm_compute; reflexivity).
  destruct run as [[r|e] w'] eqn:E; [|destruct Hr]. exists r, w'. split; [reflexivity|].
  assert (server_start (H := http_env) prod_env all_up (λ _, None) (λ _, None) (Some delivered) 1000 (no_boot, demo paid) =
          (inl prod_http_server, prod_http_start.2)) as Hst by exact prod_http_started.
  destruct (plan_change_fail_closed demo_env (@CatalogService http_env) edge_inbox prod_env all_up (λ _, None) (λ _, None)
    (Some delivered) 1000 (demo paid) prod_http_server prod_http_start.2 (λ s, s) demo_net (λ _, 1) 7
    PlanStarter (demo_world team) r w' Hst eq_refl E)
    as (t & w1 & sso & w2 & _ & _ & [[Hallowed _]|(_ & count & Hcount & _)]).
  - cbn in Hr. congruence.
  - exact Hr.
Defined.

(** ** The cache *)

(** The tokens of the plans are stored as they are. *)
Definition token_bytes (v : cache_val) : list N := match v with CBytes s => JsonParse.bytes_of s | _ => [] end.
Definition bytes_token (b : list N) : option cache_val := Some (CBytes (string_of_list_ascii (List.map Ascii.ascii_of_N b))).

(** A write that times out but lands, a read, a deletion that is lost and one
    that is not. *)
Definition cache_ops : list cache_op :=
  [OpSet "om:plans:gen:pro" (CBytes "e1") (60 * second); OpGet "om:plans:gen:pro"; OpDelete ["om:plans:gen:pro"];
   OpMGet ["om:plans:gen:pro"; "om:plans"]; OpDelete ["om:plans:gen:pro"]; OpGet "om:plans:gen:pro"]%string.

Definition flaky : @redis map_client := mkMapRedis ∅ 0 [TimedOut; Answered; Dropped; Answered; Answered; Answered].

Lemma adapter_refines_witness :
  let answers := [AWrite false; AGet (Some (CBytes "e1")); AWrite false; AMGet (Some [Some (CBytes "e1"); None]);
                  AWrite true; AGet None]%string in
  (adapter_run token_bytes bytes_token cache_ops flaky).1 = answers ∧
  ∃ o w', service_run (H := cache_env demo_env o) cache_ops (demo paid) = (Ok answers, w').
Proof.
  cbn zeta. destruct (adapter_run token_bytes bytes_token cache_ops flaky) as [answers r'] eqn:E.
  assert (Forall (decodes token_bytes bytes_token) cache_ops) as Hd by repeat constructor.
  assert (holds bytes_token flaky (w_cache (demo paid))) as Hh by (intros key b Hb; discriminate Hb).
  destruct (adapter_refines demo_env token_bytes bytes_token cache_ops flaky (demo paid) answers r' Hd Hh E) as (o & w' & Hr & _).
  revert E Hr. vm_compute (adapter_run _ _ _ _). intros [= <- _] Hr. split; [reflexivity|]. by exists o, w'.
Defined.
